(* ===== verification/_CoqProject ===== *)
-Q . S2P
Prelude.v
PyStr.v
PyDict.v
PyFloat.v
Hash.v
Regex.v
Json.v
JsonText.v
AuditLog.v
Cas.v
MLOps.v
Security.v
Factory.v
Http.v
Reviewer.v
ReviewerConcurrency.v
Agents.v
Pipelines.v
Integrations.v
Delivery.v
FactoryApi.v
MLOpsConcurrency.v
Concurrency.v
Catalog.v
DecisionOps.v
AIOps.v
Banking.v
Synthetic.v
Judging.v
JudgeOps.v
KubernetesSRE.v
SREConcurrency.v
Adapters.v
Retrieval.v
MetalRuntime.v
MetalServing.v
Streaming.v
FireDrill.v
Telemetry.v
Ecommerce.v
Clients.v
Experiments.v
Probes.v
Startup.v
