(* ===== verification/Prelude.v ===== *)
(** * OpenModelOps: a verification development

    OpenModelOps (src/) is a set of Python services that operate models, agents
    and infrastructure under review: a model control plane, a software factory
    with release gates, agents behind guardrails, judges, an incident workflow, a
    Kubernetes repair agent, an inference runtime, and the reliability tooling
    around them.  This library translates their logic, one file per component,
    and proves what the repository promises of it.

    ** How a program reads here

    A dataclass or pydantic model is a [Record], an enumeration an [Inductive]
    with the source's members, a function or method a [Definition] of its name.
    A value of [res] is a result or a raised exception; a method that changes
    state is a computation of the monad [M], which keeps the mutations made
    before a raise, as Python does.  [catch_M] is [try]/[except] by class,
    [HTTPExc] a response of FastAPI, [zoom_M] a call on a part of the state.
    A request refused by its model's field constraints is [unprocessable] (422).
    Dictionaries keep insertion order ([PyDict]); floats are IEEE binary64 with
    Python's rounding, printing and compensated [sum] ([PyFloat]); integers are
    unbounded; texts are strings of one-byte characters ([PyStr], [Regex]);
    JSON is parsed and printed as [json] does for that alphabet ([Json]), and a
    printed document is parsed back as itself ([JsonText]);
    SHA-256 and HMAC are computed, not assumed ([Hash]).  Clocks, fresh
    identifiers, environment variables, files, databases' drivers, network calls
    and third-party libraries are arguments of the definitions that use them; a
    SQL table is the list or dictionary of its rows with its constraints.
    Instants that are compared are integers of microseconds, the others texts.

    ** The parts, and what is shown of them

    - [MLOps] (platforms/mlops): the run lifecycle, the revisioned run store and
      the handlers.  A promoted run was approved by someone other than its owner;
      a save that begins after another one of the same revision is refused; every
      answer of the transition endpoint.  [MLOpsConcurrency] splits the handlers
      at their statements: however these interleave, what is stored obeys the
      rules of the lifecycle; that no update is lost needs each save to run
      uninterrupted, and a schedule shows one that is lost.
    - [Factory], [FactoryApi], [Catalog] (platforms/factory): a released workload
      passed every gate and was approved by neither its owner nor an evaluator;
      stored workloads read back; production evidence carries a valid signature;
      operations need their role and the policy; a catalogue is accepted exactly
      when its dependencies exist and have no cycle.
    - [Cas], [Concurrency]: the factory's store, whose save replaces a row only
      at the version that was read, as an instance of an interface, and its
      handlers as the interface's clients, each a read and a save.  Under every
      interleaving of requests the writes of a workload are a serial execution of
      the successful calls, so its rules hold of what is stored.
    - [Security] (packages/security): outside development an identity comes only
      from a verified token.
    - [Integrations], [Http], [Clients] (platforms/integrations): the outbox
      enqueues once per key, the dispatcher accounts for each message, evidence
      cannot be replayed, retries are bounded, calls that are not idempotent are
      sent once.  [Delivery] runs the dispatcher round after round, and the outbox
      drains; and it interleaves the transactions of callers and dispatchers,
      where a key still has one message and one identifier.
    - [Streaming] (platforms/streaming): a diagnosis reports the worst of its
      findings, a drill qualifies only with a measured healthy objective, and the
      evidence it signs is accepted by the Factory's adapter of [Integrations]
      and stops a release exactly for high and critical severities.  [FireDrill]
      (examples/streaming-fire-drill) is the demonstration's chain of processes:
      the report it prints carries the evidence this repository computed.
    - [DecisionOps], [AIOps], [Banking] (platforms/decisionops, aiops, banking):
      decisions are of their question's type whatever the provider returns, a
      failing provider is isolated, remediation runs only after another person's
      approval, scores stay in range and grow with each risk factor.
      [Synthetic] (platforms/banking/synthetic.py, performance/banking) is the
      transaction generator over a class of random sources: its workload is
      accepted and decided as it is labelled.
    - [Reviewer], [Agents], [Pipelines] (platforms/reviewer, agents, evaluation,
      features, training; packages/contracts): suggestions are applied only with
      an approval the service answered, guardrails and budgets bound every
      invocation, a gate needs every report.  [ReviewerConcurrency] splits the
      review service at its reads and saves: that rule survives every
      interleaving, while an answered approval may be lost.
    - [Judging], [JudgeOps], [Experiments] (platforms/judgeops, tools): when an
      ensemble passes, injected answers go to review, reviews resolve once,
      exported labels need agreeing reviewers, the candidate dataset is balanced.
    - [KubernetesSRE] (platforms/kubernetes_sre): a change takes a proposer, an
      approver and an executor, with the scheduled inspections between the
      requests, which no failure ends.  [SREConcurrency] splits the requests at
      the statements they send to the store's one connection and at the readings
      of its row count: however they interleave, the writer is called only after a
      proposal by one person and an approval by a second one; that it is called
      once needs each count to be read by the request that caused it, and two
      schedules show what happens otherwise.
    - [MetalRuntime] (platforms/metal_runtime): the context the planner's memory
      budget gives, the prompt cache against a least-recently-used specification ([Lru]), the scheduler as
      a step relation with its invariant, and that its workers drain it; the hardware
      probe and the MLX backend over the calls they make.  [MetalServing] runs the
      chats, the workers and the deadlines in any order: a caller is answered with
      what the backend produced for its own prompt and granted budget.
    - [Retrieval], [Ecommerce] (platforms/rag, retrieval, ecommerce): the loop and
      the graph of the corrective workflow agree, search is scoped to a tenant,
      answers are grounded in the catalogue, ranking and selection.
    - [Telemetry] (packages/observability): a span starts with only the attributes
      that are not sensitive and ends with the exception that left its block; a
      result is never changed.
    - [AuditLog]: the history entries the lifecycles share.  [Probes]: the
      readiness probes and the read-only listings of the services.  [Startup]:
      what a service builds at first use.  [Adapters] (platforms/rag/langchain.py,
      feature_store): the runnable over the library's documented laws, and the
      feature definitions as data.

    Each component file has the modules of its source files, then its lemmas
    ([...Facts]), then its properties ([...Theorems]), each with an example input
    on which it applies.  [Prelude] (this file) has the data and the monad the
    components share, with the equations of its primitives ([mred]), the
    inversion tactics ([mcases], [bprop]) and the lemmas on sorting, maxima and
    lists.

    ** Bounds

    Loops over a list are structural.  Fuel stands only where Python recurses or
    loops otherwise: the depth-first search of [Catalog] (a path of distinct
    components), the graph of [Retrieval] (two nodes per attempt), the selection
    of [Ecommerce] (one candidate per round), for which the properties state that
    the result is reached, and printing and parsing of numbers and JSON, where
    every round consumes a character and the fuel is the length of the text.

    ** Not modelled

    Metrics endpoints and static pages; schema creation and drivers of
    SQL databases; the k6 load scripts; reading of files and command lines.  Pydantic's conversions between JSON types are taken
    as done: a model is built from values of its field types.  Text outside the
    one-byte alphabet, and Python's limits on recursion, memory and integer
    parsing are not represented. *)

From stdpp Require Import base list strings gmap fin_maps relations sorting.
From Stdlib Require Import ZArith Lia SpecFloat.

Declare Scope py_scope.
Delimit Scope py_scope with py.
Open Scope string_scope.
Open Scope Z_scope.
Open Scope list_scope.

(** ** JSON values, the documents the services exchange and store *)

Inductive json :=
| JNull
| JBool (b : bool)
| JInt (z : Z)
| JFloat (f : spec_float)
| JStr (s : string)
| JArr (l : list json)
| JObj (kvs : list (string * json)).

(** ** Exceptions *)

(** The exception classes the source raises or catches. *)
Inductive exc_class :=
| ValueError
| KeyError
| TypeError
| RuntimeError
| PermissionError
| OverflowError
| TimeoutError
| ZeroDivisionError
| StatisticsError
| IntegrityError
| ConcurrencyError
| AuthenticationError
| AuthorizationError
| IntelligenceVerificationError
| SafetyViolation
| PolicyDenied
| GuardrailUnavailable
| IntegrationError
| FeatureContractError
| ValidationError
| OtherError.

#[export] Instance exc_class_eq_dec : EqDecision exc_class.
Proof. solve_decision. Defined.

(** Direct base class, for the classes that refine another one of the list. *)
Definition exc_base (c : exc_class) : option exc_class :=
  match c with
  | ConcurrencyError | AuthenticationError | AuthorizationError
  | PolicyDenied | GuardrailUnavailable | IntegrationError => Some RuntimeError
  | IntelligenceVerificationError | SafetyViolation | FeatureContractError
  | StatisticsError | ValidationError => Some ValueError
  | _ => None
  end.

(** [isinstance(exc, c)] for the classes above (the hierarchy has depth two). *)
Definition subclass (c base : exc_class) : bool :=
  bool_decide (c = base) || bool_decide (exc_base c = Some base).

(** A raised exception: an ordinary one with its message, or FastAPI's
    [HTTPException] with its status code and detail. *)
Inductive exn :=
| Exn (c : exc_class) (msg : string)
| HTTPExc (status : Z) (detail : json).

(** [except (c1, c2, ...)]: does the clause catch the exception? *)
Definition catches (cs : list exc_class) (e : exn) : bool :=
  match e with
  | Exn c _ => existsb (subclass c) cs
  | HTTPExc _ _ => false
  end.

(** [type(exc).__name__] *)
Definition class_name (c : exc_class) : string :=
  match c with
  | ValueError => "ValueError" | KeyError => "KeyError" | TypeError => "TypeError"
  | RuntimeError => "RuntimeError" | PermissionError => "PermissionError"
  | OverflowError => "OverflowError" | TimeoutError => "TimeoutError"
  | ZeroDivisionError => "ZeroDivisionError" | StatisticsError => "StatisticsError"
  | IntegrityError => "IntegrityError" | ConcurrencyError => "ConcurrencyError"
  | AuthenticationError => "AuthenticationError" | AuthorizationError => "AuthorizationError"
  | IntelligenceVerificationError => "IntelligenceVerificationError"
  | SafetyViolation => "SafetyViolation" | PolicyDenied => "PolicyDenied"
  | GuardrailUnavailable => "GuardrailUnavailable" | IntegrationError => "IntegrationError"
  | FeatureContractError => "FeatureContractError" | ValidationError => "ValidationError"
  | OtherError => "Exception"
  end.
Definition exn_name (e : exn) : string :=
  match e with Exn c _ => class_name c | HTTPExc _ _ => "HTTPException" end.

(** ** Results and the state-and-exception monad *)

Inductive res (A : Type) :=
| Ok (a : A)
| Err (e : exn).
Arguments Ok {_} _.
Arguments Err {_} _.

#[export] Instance res_ret : MRet res := fun A a => Ok a.
#[export] Instance res_bind : MBind res := fun A B f m =>
  match m with Ok a => f a | Err e => Err e end.
#[export] Instance res_fmap : FMap res := fun A B f m =>
  match m with Ok a => Ok (f a) | Err e => Err e end.

Definition raise {A} (c : exc_class) (msg : string) : res A := Err (Exn c msg).
Definition http {A} (status : Z) (detail : string) : res A := Err (HTTPExc status (JStr detail)).
Definition guard_raise (b : bool) (c : exc_class) (msg : string) : res unit :=
  if b then raise c msg else Ok tt.

Definition is_ok {A} (r : res A) : bool := match r with Ok _ => true | Err _ => false end.

(** [try: r except cs as exc: handler exc] *)
Definition try_res {A} (r : res A) (cs : list exc_class) (h : exn -> res A) : res A :=
  match r with
  | Err e => if catches cs e then h e else Err e
  | Ok a => Ok a
  end.

(** A stateful call returns a value or raises; the state it reached is kept in
    both cases, as Python keeps every mutation made before a raise. *)
Definition M (S A : Type) : Type := S -> res A * S.

Definition mret_M {S A} (a : A) : M S A := fun s => (Ok a, s).
Definition mbind_M {S A B} (m : M S A) (k : A -> M S B) : M S B := fun s =>
  match m s with
  | (Ok a, s') => k a s'
  | (Err e, s') => (Err e, s')
  end.
Definition get_M {S} : M S S := fun s => (Ok s, s).
Definition put_M {S} (s : S) : M S unit := fun _ => (Ok tt, s).
Definition modify_M {S} (f : S -> S) : M S unit := fun s => (Ok tt, f s).
Definition lift_M {S A} (r : res A) : M S A := fun s => (r, s).
Definition raise_M {S A} (c : exc_class) (msg : string) : M S A := fun s => (raise c msg, s).
Definition http_M {S A} (status : Z) (detail : string) : M S A := fun s => (http status detail, s).
Definition catch_M {S A} (m : M S A) (cs : list exc_class) (h : exn -> M S A) : M S A := fun s =>
  match m s with
  | (Err e, s') => if catches cs e then h e s' else (Err e, s')
  | r => r
  end.
(** [except Exception]: every exception of the model, [HTTPException] included. *)
Definition catch_all_M {S A} (m : M S A) (h : exn -> M S A) : M S A := fun s =>
  match m s with
  | (Err e, s') => h e s'
  | r => r
  end.
(** Run a method of a part of the state. *)
Definition zoom_M {S T A} (get : S -> T) (set : T -> S -> S) (m : M T A) : M S A := fun s =>
  let '(r, t) := m (get s) in (r, set t s).

(** Run methods of an object private to the request: its state is returned on
    success and dropped with the request on a raise. *)
Definition on_object {S T A} (o : T) (m : M T A) : M S (A * T) := fun s =>
  match m o with
  | (Ok a, o') => (Ok (a, o'), s)
  | (Err e, _) => (Err e, s)
  end.

Notation "'let!' x ':=' m 'in' k" := (mbind_M m (fun x => k))
  (at level 10, x name, m at level 100, k at level 200) : py_scope.
Notation "'do!' m 'in' k" := (mbind_M m (fun _ => k))
  (at level 10, m at level 100, k at level 200) : py_scope.
Notation "'let?' x ':=' m 'in' k" := (mbind (M := res) (fun x => k) m)
  (at level 10, x name, m at level 100, k at level 200) : py_scope.
Notation "'do?' m 'in' k" := (mbind (M := res) (fun _ => k) m)
  (at level 10, m at level 100, k at level 200) : py_scope.
Open Scope py_scope.

(** [[f x for x in l]] with a body that may raise: the first raise ends it. *)
Fixpoint map_res {A B} (f : A -> res B) (l : list A) : res (list B) :=
  match l with
  | [] => Ok []
  | x :: l' => let? y := f x in let? ys := map_res f l' in Ok (y :: ys)
  end.

(** [for x in l: f x] with a body that may raise and mutates the state. *)
Fixpoint iter_M {S A} (f : A -> M S unit) (l : list A) : M S unit :=
  match l with
  | [] => mret_M tt
  | x :: l' => do! f x in iter_M f l'
  end.

(** ** Sorting (Python's [sorted]: stable) *)

Section isort.
Context {A : Type} (leb : A -> A -> bool).

Fixpoint insert_sorted (x : A) (l : list A) : list A :=
  match l with
  | [] => [x]
  | y :: l' => if leb x y then x :: y :: l' else y :: insert_sorted x l'
  end.

Fixpoint isort (l : list A) : list A :=
  match l with
  | [] => []
  | x :: l' => insert_sorted x (isort l')
  end.
End isort.

(** Python's [max(l, key=...)]: the first element no later one exceeds.
    [gtb x y] is [key x > key y]. *)
Fixpoint max_first {A} (gtb : A -> A -> bool) (best : A) (l : list A) : A :=
  match l with
  | [] => best
  | x :: l' => max_first gtb (if gtb x best then x else best) l'
  end.

Definition max_by {A} (gtb : A -> A -> bool) (l : list A) : option A :=
  match l with
  | [] => None
  | x :: l' => Some (max_first gtb x l')
  end.

(** ** Tactics of the development *)

(** Open the monadic layer of a hypothesis or goal. *)
Ltac munfold :=
  unfold mbind_M, mret_M, get_M, put_M, modify_M, lift_M, raise_M, http_M, catch_M,
    catch_all_M, zoom_M, raise, http, guard_raise, try_res in *;
  unfold mbind, res_bind, mret, res_ret, fmap, res_fmap in *; cbn in *.

(** Split every boolean test and match of the hypotheses, closing the
    branches whose results disagree. *)
Ltac mcases :=
  repeat match goal with
  | H : context [match ?x with _ => _ end] |- _ =>
      let E := fresh "E" in destruct x eqn:E; cbn in *; simplify_eq; try done
  end.

(** Turn boolean connectives of the hypotheses into propositions. *)
Ltac bprop :=
  repeat match goal with
  | H : _ && _ = true |- _ => apply andb_true_iff in H as [? ?]
  | H : _ || _ = false |- _ => apply orb_false_iff in H as [? ?]
  | H : negb _ = true |- _ => apply negb_true_iff in H
  | H : negb _ = false |- _ => apply negb_false_iff in H
  | H : bool_decide _ = true |- _ => apply bool_decide_eq_true_1 in H
  | H : bool_decide _ = false |- _ => apply bool_decide_eq_false_1 in H
  | H : (_ =? _) = true |- _ => apply Z.eqb_eq in H
  | H : (_ =? _) = false |- _ => apply Z.eqb_neq in H
  | H : (_ <? _) = true |- _ => apply Z.ltb_lt in H
  | H : (_ <? _) = false |- _ => apply Z.ltb_ge in H
  | H : (_ <=? _) = true |- _ => apply Z.leb_le in H
  | H : (_ <=? _) = false |- _ => apply Z.leb_gt in H
  | H : String.eqb _ _ = true |- _ => apply String.eqb_eq in H
  | H : String.eqb _ _ = false |- _ => apply String.eqb_neq in H
  end.

(** ** Generic lemmas *)

Create HintDb opm.
Create Rewrite HintDb opm.

Lemma insert_sorted_perm {A} (leb : A -> A -> bool) x l :
  insert_sorted leb x l ≡ₚ x :: l.
Proof.
  induction l as [|y l IH]; cbn; [done|].
  destruct (leb x y); [done|]. rewrite IH. apply Permutation_swap.
Qed.

Lemma isort_perm {A} (leb : A -> A -> bool) l : isort leb l ≡ₚ l.
Proof. induction l as [|x l IH]; cbn; [done|]. by rewrite insert_sorted_perm, IH. Qed.

Lemma elem_of_isort {A} (leb : A -> A -> bool) x l : x ∈ isort leb l <-> x ∈ l.
Proof. by rewrite isort_perm. Qed.

Lemma length_isort {A} (leb : A -> A -> bool) l : length (isort leb l) = length l.
Proof. by rewrite isort_perm. Qed.

Lemma isort_nil_iff {A} (leb : A -> A -> bool) l : isort leb l = [] <-> l = [].
Proof.
  split; [|by intros ->]. intros H.
  apply length_zero_iff_nil. rewrite <- (length_isort leb), H. done.
Qed.

Lemma insert_sorted_Sorted {A} (leb : A -> A -> bool) x l :
  (forall a b, leb a b = false -> leb b a = true) ->
  Sorted (fun a b => leb a b = true) l ->
  Sorted (fun a b => leb a b = true) (insert_sorted leb x l).
Proof.
  intros Htot. induction 1 as [|y l Hl IH Hy]; cbn; [by repeat constructor|].
  destruct (leb x y) eqn:E; [by repeat constructor|].
  constructor; [done|].
  destruct l as [|z l]; cbn; [by constructor; apply Htot|].
  inversion Hy; subst. destruct (leb x z); constructor; auto.
Qed.

Lemma isort_Sorted {A} (leb : A -> A -> bool) l :
  (forall a b, leb a b = false -> leb b a = true) ->
  Sorted (fun a b => leb a b = true) (isort leb l).
Proof.
  intros Htot. induction l as [|x l IH]; cbn; [constructor|].
  by apply insert_sorted_Sorted.
Qed.

Lemma isort_ext_sorted {A} (leb : A -> A -> bool) l :
  Sorted (fun a b => leb a b = true) l -> isort leb l = l.
Proof.
  induction 1 as [|x l Hl IH Hx]; cbn; [done|]. rewrite IH.
  destruct Hx as [|y l Hxy]; cbn; [done|]. by rewrite Hxy.
Qed.

(** A fold that keeps the better of two: the first best one. *)
Lemma fold_best {A} (lt : A -> A -> bool) :
  (forall x, lt x x = false) -> (forall x y z, lt x y = true -> lt y z = true -> lt x z = true) ->
  forall acc l, let m := fold_left (fun a x => if lt a x then x else a) l acc in
  (m = acc \/ lt acc m = true) /\ (m = acc \/ m ∈ l) /\ forall y, y = acc \/ y ∈ l -> lt m y = false.
Proof.
  intros Hirr Htr acc l. revert acc. induction l as [|x l IH]; cbn; intros acc.
  { split_and!; [by left|by left|]. intros y [->|H]; [apply Hirr|by apply elem_of_nil in H]. }
  assert (forall a b, lt a b = true -> lt b a = false) as Has.
  { intros a b H. destruct (lt b a) eqn:E; [|done]. pose proof (Htr _ _ _ H E) as K. by rewrite Hirr in K. }
  destruct (lt acc x) eqn:E; [destruct (IH x) as (H1 & H2 & H3)|destruct (IH acc) as (H1 & H2 & H3)];
    (revert H1 H2 H3; generalize (fold_left (fun a x => if lt a x then x else a) l); intros f H1 H2 H3; cbn in *).
  - split_and!; [right; destruct H1 as [->|H1]; [done|by eapply Htr]|right; apply elem_of_cons; destruct H2; auto|].
    intros y [->|[->|Hy]%elem_of_cons]; [|apply H3; auto..].
    destruct H1 as [->|H1]; [by apply Has|]. apply Has. by eapply Htr.
  - split_and!; [done|destruct H2; [by left|right; by apply elem_of_cons; right]|].
    intros y [->|[->|Hy]%elem_of_cons]; [apply H3; auto| |apply H3; auto].
    destruct H1 as [->|H1]; [done|]. destruct (lt (f acc) x) eqn:K; [|done]. by rewrite (Htr _ _ _ H1 K) in E.
Qed.

Lemma max_first_spec {A} (gtb : A -> A -> bool) best l :
  max_first gtb best l = best \/ max_first gtb best l ∈ l.
Proof.
  revert best. induction l as [|x l IH]; cbn; intros best; [by left|].
  destruct (IH (if gtb x best then x else best)) as [->|H].
  - destruct (gtb x best); [right; by left | by left].
  - right. by right.
Qed.

Lemma max_by_elem {A} (gtb : A -> A -> bool) l x : max_by gtb l = Some x -> x ∈ l.
Proof.
  destruct l as [|y l]; cbn; [done|]. intros [= <-].
  destruct (max_first_spec gtb y l) as [->|H]; [by left | by right].
Qed.

(** The element [max] returns is not exceeded by any element, for a key whose
    order is total. *)
Lemma max_first_ge {A} (key : A -> Z) best l y :
  y = best \/ y ∈ l ->
  key y <= key (max_first (fun a b => key b <? key a) best l).
Proof.
  revert best y. induction l as [|x l IH]; cbn; intros best y Hy.
  - destruct Hy as [->|H]; [lia|by apply elem_of_nil in H].
  - set (b' := if key best <? key x then x else best).
    assert (key best <= key b' /\ key x <= key b') as [Hb Hx].
    { unfold b'. destruct (Z.ltb_spec (key best) (key x)); lia. }
    assert (key b' <= key (max_first (fun a b => key b <? key a) b' l)) by (apply IH; by left).
    destruct Hy as [->|Hy]; [lia|]. apply elem_of_cons in Hy as [->|Hy]; [lia|].
    apply IH. by right.
Qed.

Lemma max_by_ge {A} (key : A -> Z) l x y :
  max_by (fun a b => key b <? key a) l = Some x -> y ∈ l -> key y <= key x.
Proof.
  destruct l as [|z l]; cbn; [done|]. intros [= <-] Hy.
  apply max_first_ge. apply elem_of_cons in Hy as [->|]; auto.
Qed.

Lemma map_res_Forall2 {A B} (f : A -> res B) l ys :
  map_res f l = Ok ys <-> Forall2 (fun x y => f x = Ok y) l ys.
Proof.
  revert ys. induction l as [|x l IH]; intros ys; cbn.
  - split; [by intros [= <-]; constructor | by inversion 1].
  - unfold mbind, res_bind. destruct (f x) as [y|e] eqn:Ex.
    + destruct (map_res f l) as [zs|e] eqn:El.
      * split.
        -- intros [= <-]. constructor; [done|]. by apply IH.
        -- inversion 1 as [|? ? ? ? H1 H2]; subst. apply IH in H2.
           rewrite Ex in H1. injection H1 as ->. injection H2 as ->. done.
      * split; [done|]. inversion 1 as [|? ? ? ? H1 H2]; subst. apply IH in H2. done.
    + split; [done|]. inversion 1 as [|? ? ? ? H1 H2]; subst. congruence.
Qed.

(** What every turn of a schedule keeps, the schedule keeps. *)
Lemma schedule_invariant {X C} (turn : X -> C -> C) (ok : X -> Prop) (P : C -> Prop) :
  (forall x c, ok x -> P c -> P (turn x c)) ->
  forall xs c, Forall ok xs -> P c -> P (fold_left (fun c x => turn x c) xs c).
Proof. intros H xs c Hx. revert c. induction Hx as [|x xs Hok _ IH]; intros c Hc; [done|]. by apply IH, H. Qed.

(** [len(items) == len(set(items))] tests that the items are distinct. *)
Lemma remove_dups_length {A} `{EqDecision A} (l : list A) : length l = length (remove_dups l) <-> NoDup l.
Proof.
  split; intros H.
  - assert (remove_dups l ⊆+ l) as Hsub
      by (apply NoDup_submseteq; [apply NoDup_remove_dups|]; intros x; by rewrite elem_of_remove_dups).
    apply submseteq_length_Permutation in Hsub; [|by rewrite H]. rewrite <- Hsub. apply NoDup_remove_dups.
  - apply Permutation_length, NoDup_Permutation; [done|apply NoDup_remove_dups|]. intros x. by rewrite elem_of_remove_dups.
Qed.
Lemma map_res_length {A B} (f : A -> res B) l ys : map_res f l = Ok ys -> length ys = length l.
Proof. intros H. apply map_res_Forall2, Forall2_length in H. done. Qed.

Lemma elem_of_filter_bool {A} (f : A -> bool) (l : list A) x :
  x ∈ List.filter f l <-> f x = true /\ x ∈ l.
Proof. rewrite !list_elem_of_In, filter_In. tauto. Qed.

Lemma filter_bool_nil {A} (f : A -> bool) (l : list A) :
  List.filter f l = [] <-> (forall x, x ∈ l -> f x = false).
Proof.
  split.
  - intros H x Hx. destruct (f x) eqn:E; [|done].
    assert (x ∈ List.filter f l) as Hin by (by apply elem_of_filter_bool).
    rewrite H in Hin. by apply elem_of_nil in Hin.
  - induction l as [|x l IH]; cbn; [done|]. intros H.
    rewrite (H x) by (by left). apply IH. intros y Hy. apply H. by right.
Qed.

Lemma existsb_elem {A} (f : A -> bool) (l : list A) :
  existsb f l = true <-> exists x, x ∈ l /\ f x = true.
Proof. rewrite existsb_exists. by setoid_rewrite list_elem_of_In. Qed.

Lemma existsb_false {A} (f : A -> bool) (l : list A) :
  existsb f l = false <-> forall x, x ∈ l -> f x = false.
Proof.
  split.
  - intros H x Hx. destruct (f x) eqn:E; [|done].
    assert (existsb f l = true) by (apply existsb_elem; eauto). congruence.
  - intros H. destruct (existsb f l) eqn:E; [|done].
    apply existsb_elem in E as (x & Hx & Ex). rewrite H in Ex; done.
Qed.

Lemma forallb_elem {A} (f : A -> bool) (l : list A) :
  forallb f l = true <-> forall x, x ∈ l -> f x = true.
Proof. rewrite forallb_forall. by setoid_rewrite list_elem_of_In. Qed.

Lemma NoDup_map_inj {A B} (f : A -> B) l x y : NoDup (map f l) -> x ∈ l -> y ∈ l -> f x = f y -> x = y.
Proof.
  induction l as [|z l IH]; cbn; intros Hnd Hx Hy He; [by apply elem_of_nil in Hx|].
  apply NoDup_cons in Hnd as [Hz Hnd].
  apply elem_of_cons in Hx, Hy. destruct Hx as [->|Hx], Hy as [->|Hy]; try done; [| |by apply IH].
  - exfalso. apply Hz. rewrite He. by apply list_elem_of_fmap_2.
  - exfalso. apply Hz. rewrite <- He. by apply list_elem_of_fmap_2.
Qed.

Lemma drop_middle {A} (l1 l2 : list A) x : l1 ++ l2 ⊆ l1 ++ x :: l2.
Proof. intros y. rewrite !elem_of_app, elem_of_cons. tauto. Qed.
Lemma NoDup_snoc {A} (l : list A) x : NoDup l -> x ∉ l -> NoDup (l ++ [x]).
Proof.
  intros Hl Hx. apply NoDup_app. split_and!; [done| |apply NoDup_singleton].
  intros y Hy Hyx. apply list_elem_of_singleton in Hyx as ->. done.
Qed.

(** The equations of the monad, one per primitive. *)
Section monad_laws.
Context {S A B C : Type}.
Implicit Types (s : S).

Lemma bind_get (k : S -> M S A) s : mbind_M get_M k s = k s s.
Proof. done. Qed.
Lemma bind_ret (a : A) (k : A -> M S B) s : mbind_M (mret_M a) k s = k a s.
Proof. done. Qed.
Lemma bind_put s' (k : unit -> M S A) s : mbind_M (put_M s') k s = k tt s'.
Proof. done. Qed.
Lemma bind_modify f (k : unit -> M S A) s : mbind_M (modify_M f) k s = k tt (f s).
Proof. done. Qed.
Lemma bind_lift_ok (a : A) (k : A -> M S B) s : mbind_M (lift_M (Ok a)) k s = k a s.
Proof. done. Qed.
Lemma bind_lift_err e (k : A -> M S B) s : mbind_M (lift_M (Err e)) k s = (Err e, s).
Proof. done. Qed.
Lemma bind_raise c msg (k : A -> M S B) s : mbind_M (raise_M c msg) k s = (raise c msg, s).
Proof. done. Qed.
Lemma bind_http st d (k : A -> M S B) s : mbind_M (http_M st d) k s = (http st d, s).
Proof. done. Qed.
Lemma bind_ok (m : M S A) (k : A -> M S B) s a s' : m s = (Ok a, s') -> mbind_M m k s = k a s'.
Proof. unfold mbind_M. by intros ->. Qed.
Lemma bind_err (m : M S A) (k : A -> M S B) s e s' : m s = (Err e, s') -> mbind_M m k s = (Err e, s').
Proof. unfold mbind_M. by intros ->. Qed.
Lemma bind_assoc (m : M S A) (k : A -> M S B) (k' : B -> M S C) s :
  mbind_M (mbind_M m k) k' s = mbind_M m (fun a => mbind_M (k a) k') s.
Proof. unfold mbind_M. by destruct (m s) as [[a|e] s']. Qed.

(** A sequence that returned went through its first step. *)
Lemma bind_inv_ok (m : M S A) (k : A -> M S B) s b s' :
  mbind_M m k s = (Ok b, s') -> exists a s1, m s = (Ok a, s1) /\ k a s1 = (Ok b, s').
Proof. unfold mbind_M. destruct (m s) as [[a|e] s1]; [eauto|done]. Qed.
End monad_laws.

Section control_laws.
Context {S T A : Type}.

Lemma zoom_ok (get : S -> T) set (m : M T A) s a t :
  m (get s) = (Ok a, t) -> zoom_M get set m s = (Ok a, set t s).
Proof. unfold zoom_M. by intros ->. Qed.
Lemma zoom_err (get : S -> T) set (m : M T A) s e t :
  m (get s) = (Err e, t) -> zoom_M get set m s = (Err e, set t s).
Proof. unfold zoom_M. by intros ->. Qed.
Lemma on_object_ok (o : T) (m : M T A) (s : S) a o' :
  m o = (Ok a, o') -> on_object o m s = (Ok (a, o'), s).
Proof. unfold on_object. by intros ->. Qed.
Lemma on_object_err (o : T) (m : M T A) (s : S) e o' :
  m o = (Err e, o') -> on_object o m s = (Err e, s).
Proof. unfold on_object. by intros ->. Qed.
Lemma catch_ok (m : M S A) cs h s a s' : m s = (Ok a, s') -> catch_M m cs h s = (Ok a, s').
Proof. unfold catch_M. by intros ->. Qed.
Lemma catch_http (m : M S A) cs h s st d s' :
  m s = (Err (HTTPExc st d), s') -> catch_M m cs h s = (Err (HTTPExc st d), s').
Proof. unfold catch_M. by intros ->. Qed.
Lemma catch_hit (m : M S A) cs h s e s' :
  m s = (Err e, s') -> catches cs e = true -> catch_M m cs h s = h e s'.
Proof. unfold catch_M. by intros -> ->. Qed.
Lemma catch_miss (m : M S A) cs h s e s' :
  m s = (Err e, s') -> catches cs e = false -> catch_M m cs h s = (Err e, s').
Proof. unfold catch_M. by intros -> ->. Qed.
End control_laws.

(** Reduce the primitive steps of a sequence. *)
Ltac mred :=
  repeat first
    [ rewrite bind_get | rewrite bind_ret | rewrite bind_put | rewrite bind_modify
    | rewrite bind_lift_ok | rewrite bind_lift_err | rewrite bind_raise | rewrite bind_http ].
Tactic Notation "mred" "in" hyp(H) :=
  repeat first
    [ rewrite bind_get in H | rewrite bind_ret in H | rewrite bind_put in H | rewrite bind_modify in H
    | rewrite bind_lift_ok in H | rewrite bind_lift_err in H | rewrite bind_raise in H | rewrite bind_http in H ].

#[export] Hint Resolve isort_perm max_by_elem : opm.
#[export] Hint Rewrite @length_isort @isort_nil_iff : opm.
