(* ===== verification/PyStr.v ===== *)
(** * Python strings

    A [str] is a [String.string] read as a sequence of code points; the
    development covers ASCII text, on which the UTF-8 encoding is the identity
    and [str.lower], [str.upper] and [str.casefold] are the ASCII ones.  The
    functions are those of the language the source calls, executable. *)

From Stdlib Require Import String Ascii ZArith Lia.
From stdpp Require Import base list strings pretty.
From S2P Require Import Prelude.

Abbreviation chars := String.list_ascii_of_string.
Abbreviation of_chars := String.string_of_list_ascii.

Definition code (c : ascii) : N := N_of_ascii c.

(** [str.isspace] on one character. *)
Definition is_space (c : ascii) : bool :=
  let n := code c in ((9 <=? n) && (n <=? 13) || (28 <=? n) && (n <=? 32))%N%bool.

Definition lower_char (c : ascii) : ascii :=
  let n := code c in if ((65 <=? n) && (n <=? 90))%N%bool then ascii_of_N (n + 32) else c.
Definition upper_char (c : ascii) : ascii :=
  let n := code c in if ((97 <=? n) && (n <=? 122))%N%bool then ascii_of_N (n - 32) else c.

Definition str_lower (s : string) : string := of_chars (map lower_char (chars s)).
Definition str_upper (s : string) : string := of_chars (map upper_char (chars s)).
Definition casefold (s : string) : string := str_lower s.

Fixpoint drop_while {A} (f : A -> bool) (l : list A) : list A :=
  match l with
  | [] => []
  | x :: l' => if f x then drop_while f l' else l
  end.

Definition lstrip_by (f : ascii -> bool) (s : string) : string :=
  of_chars (drop_while f (chars s)).
Definition rstrip_by (f : ascii -> bool) (s : string) : string :=
  of_chars (rev (drop_while f (rev (chars s)))).
(** [s.strip()] *)
Definition strip (s : string) : string := lstrip_by is_space (rstrip_by is_space s).
(** [s.rstrip("/")] *)
Definition rstrip_slash (s : string) : string := rstrip_by (fun c => bool_decide (c = "/"%char)) s.

Definition nonempty (s : string) : bool := match s with EmptyString => false | _ => true end.
(** [not s.strip()] *)
Definition blank (s : string) : bool := negb (nonempty (strip s)).

Definition startswith (p s : string) : bool := String.prefix p s.
Definition startswith_any (ps : list string) (s : string) : bool := existsb (fun p => startswith p s) ps.
Definition endswith (p s : string) : bool :=
  String.prefix (of_chars (rev (chars p))) (of_chars (rev (chars s))).
Definition endswith_any (ps : list string) (s : string) : bool := existsb (fun p => endswith p s) ps.
(** [s.removeprefix(p)] *)
Definition removeprefix (p s : string) : string :=
  if startswith p s then of_chars (drop (String.length p) (chars s)) else s.
(** [s[:n]] for a non-negative [n]. *)
Definition slice_to (n : nat) (s : string) : string := of_chars (take n (chars s)).

(** [sub in s] *)
Fixpoint contains (sub s : string) : bool :=
  String.prefix sub s || match s with EmptyString => false | String _ s' => contains sub s' end.

(** [s.split(c)] for a one-character separator. *)
Fixpoint split_chars (sep : ascii) (cur : list ascii) (l : list ascii) : list string :=
  match l with
  | [] => [of_chars (rev cur)]
  | c :: l' => if bool_decide (c = sep) then of_chars (rev cur) :: split_chars sep [] l'
               else split_chars sep (c :: cur) l'
  end.
Definition split (sep : ascii) (s : string) : list string := split_chars sep [] (chars s).

(** [s.split()]: maximal runs of non-space characters. *)
Fixpoint split_ws_chars (cur : list ascii) (l : list ascii) : list string :=
  match l with
  | [] => match cur with [] => [] | _ => [of_chars (rev cur)] end
  | c :: l' => if is_space c
               then match cur with [] => split_ws_chars [] l' | _ => of_chars (rev cur) :: split_ws_chars [] l' end
               else split_ws_chars (c :: cur) l'
  end.
Definition split_ws (s : string) : list string := split_ws_chars [] (chars s).

(** [s.splitlines()]: a line ends at a newline, a carriage return or both, at a
    vertical tab or form feed, at one of the three separators and at the next
    line character; no empty line follows the last end. *)
Definition is_line_end (c : ascii) : bool :=
  let n := code c in ((10 <=? n) && (n <=? 13) || (28 <=? n) && (n <=? 30) || (n =? 133))%N%bool.
Fixpoint splitlines_chars (cur l : list ascii) : list string :=
  match l with
  | [] => match cur with [] => [] | _ => [of_chars (rev cur)] end
  | c :: l' =>
      if is_line_end c then
        of_chars (rev cur) ::
        match l' with
        | d :: l'' => if (code c =? 13)%N && (code d =? 10)%N then splitlines_chars [] l'' else splitlines_chars [] l'
        | [] => []
        end
      else splitlines_chars (c :: cur) l'
  end.
Definition splitlines (s : string) : list string := splitlines_chars [] (chars s).

(** [sep.join(l)] *)
Definition join (sep : string) (l : list string) : string := String.concat sep l.

(** [str] of an integer, and the order of [sorted] on strings. *)
Definition str_Z (z : Z) : string := pretty z.
Definition str_leb (a b : string) : bool := String.leb a b.
Definition sort_str (l : list string) : list string := isort str_leb l.

(** [[0-9]+] read in base ten. *)
Definition is_digit (c : ascii) : bool := let n := code c in ((48 <=? n) && (n <=? 57))%N%bool.
Definition digits_val (l : list ascii) : Z :=
  fold_left (fun acc c => (10 * acc + (Z.of_N (code c) - 48))%Z) l 0%Z.
(** Digits with single underscores between them. *)
Fixpoint digit_run (after_digit : bool) (l : list ascii) : option (list ascii) :=
  match l with
  | [] => if after_digit then Some [] else None
  | c :: r =>
      if is_digit c then cons c <$> digit_run true r
      else if bool_decide (c = "_"%char) && after_digit then digit_run false r else None
  end.
Definition sign_of (l : list ascii) : bool * list ascii :=
  match l with
  | "-"%char :: r => (true, r)
  | "+"%char :: r => (false, r)
  | r => (false, r)
  end.
(** [int(s)]: surrounding blanks, an optional sign and decimal digits; [None]
    where it raises [ValueError]. *)
Definition int_of_str (s : string) : option Z :=
  let '(neg, ds) := sign_of (chars (strip s)) in
  (fun l => if neg then - digits_val l else digits_val l)%Z <$> digit_run false ds.

(** [repr] of a string. *)
Definition hex_digit (n : N) : ascii := ascii_of_N (if (n <? 10)%N then 48 + n else 87 + n).
Definition hex_byte (n : N) : string := of_chars [hex_digit (n / 16)%N; hex_digit (n mod 16)%N].
Definition has_char (c : ascii) (s : string) : bool := existsb (fun d => bool_decide (d = c)) (chars s).
Definition squote : ascii := "039"%char.
Definition dquote : ascii := "034"%char.
Definition bslash : ascii := "092"%char.
Definition repr_char (q c : ascii) : string :=
  let n := code c in
  if bool_decide (c = q) || bool_decide (c = bslash) then of_chars [bslash; c]
  else if (n =? 10)%N then of_chars [bslash; "n"%char]
  else if (n =? 13)%N then of_chars [bslash; "r"%char]
  else if (n =? 9)%N then of_chars [bslash; "t"%char]
  else if ((n <? 32) || (n =? 127))%N%bool then of_chars [bslash; "x"%char] +:+ hex_byte n
  else of_chars [c].
Definition repr_str (s : string) : string :=
  let q := if has_char squote s && negb (has_char dquote s) then dquote else squote in
  of_chars [q] +:+ String.concat EmptyString (map (repr_char q) (chars s)) +:+ of_chars [q].
(** [str] of a list of strings. *)
Definition repr_list (l : list string) : string := "[" +:+ join ", " (map repr_str l) +:+ "]".

(** [str(exc)]: the message, which [KeyError] shows by its [repr]. *)
Definition str_exn (e : exn) : string :=
  match e with
  | Exn KeyError m => repr_str m
  | Exn _ m => m
  | HTTPExc _ _ => EmptyString
  end.

(** Membership in a literal set of strings. *)
Definition str_in (s : string) (l : list string) : bool := bool_decide (s ∈ l).

(** [sorted(set(a) - set(b))] *)
Definition set_diff_sorted (a b : list string) : list string :=
  sort_str (remove_dups (List.filter (fun x => negb (str_in x b)) a)).

(** ** Lemmas *)

Lemma str_in_spec s l : str_in s l = true <-> s ∈ l.
Proof. apply bool_decide_eq_true. Qed.

Lemma str_in_false s l : str_in s l = false <-> s ∉ l.
Proof. apply bool_decide_eq_false. Qed.

Lemma startswith_app p s : startswith p (p +:+ s) = true.
Proof.
  unfold startswith. induction p as [|c p IH]; [by destruct s|].
  change (String c p +:+ s) with (String c (p +:+ s)). cbn.
  destruct (ascii_dec c c); [exact IH | congruence].
Qed.

Lemma prefix_correct' p s : String.prefix p s = true <-> exists t, s = p +:+ t.
Proof.
  split.
  - revert s. induction p as [|c p IH]; cbn; intros s H; [by exists s|].
    destruct s as [|d s]; [done|]. cbn in H. destruct (ascii_dec c d) as [->|]; [|done].
    destruct (IH _ H) as [t ->]. by exists t.
  - intros [t ->]. apply startswith_app.
Qed.

Lemma set_diff_sorted_nil a b :
  set_diff_sorted a b = [] <-> forall x, x ∈ a -> x ∈ b.
Proof.
  unfold set_diff_sorted, sort_str. rewrite isort_nil_iff. split.
  - intros H x Hx. destruct (str_in x b) eqn:E; [by apply str_in_spec|].
    assert (x ∈ remove_dups (List.filter (fun x => negb (str_in x b)) a)) as Hin.
    { apply elem_of_remove_dups, elem_of_filter_bool. by rewrite E. }
    rewrite H in Hin. by apply elem_of_nil in Hin.
  - intros H. assert (List.filter (fun x => negb (str_in x b)) a = []) as ->; [|done].
    apply filter_bool_nil. intros x Hx. apply negb_false_iff, str_in_spec. auto.
Qed.

Lemma elem_of_set_diff_sorted x a b : x ∈ set_diff_sorted a b <-> x ∈ a /\ x ∉ b.
Proof.
  unfold set_diff_sorted, sort_str.
  rewrite elem_of_isort, elem_of_remove_dups, elem_of_filter_bool, negb_true_iff, str_in_false. tauto.
Qed.

#[export] Hint Resolve startswith_app : opm.

Example strip_ex : strip "  a b " = "a b" /\ split "," "a,,b" = ["a"; EmptyString; "b"] /\ split_ws " a  bc " = ["a"; "bc"].
Proof. vm_compute. done. Qed.
Example repr_ex : repr_list ["quality"; "cost"] = "['quality', 'cost']".
Proof. vm_compute. done. Qed.
Example int_ex : int_of_str " -42" = Some (-42) /\ int_of_str "4x" = None /\ int_of_str "+1_000 " = Some 1000 /\ str_Z (-17) = "-17".
Proof. vm_compute. done. Qed.

(** Length bounds of a request field ([Field(min_length=..., max_length=...)]). *)
Definition len_between (lo hi : Z) (s : string) : bool :=
  let n := Z.of_nat (String.length s) in (lo <=? n) && (n <=? hi).

(** A request model that fails validation is answered by FastAPI with 422. *)
Definition unprocessable {S A} : M S A := http_M 422 "request validation failed".

(** [int(str(z)) == z] *)
Lemma digit_char_spec n : (n < 10)%N ->
  is_digit (pretty_N_char n) = true /\ Z.of_N (code (pretty_N_char n)) - 48 = Z.of_N n.
Proof.
  assert (forallb (fun k => is_digit (pretty_N_char k) && (Z.of_N (code (pretty_N_char k)) - 48 =? Z.of_N k))
    (N.of_nat <$> seq 0 10) = true) as Hall by reflexivity.
  intros H. rewrite forallb_elem in Hall.
  assert (n ∈ N.of_nat <$> seq 0 10) as Hin.
  { apply list_elem_of_fmap. exists (N.to_nat n). split; [lia|]. apply elem_of_seq. lia. }
  specialize (Hall n Hin). bprop. done.
Qed.

Lemma digits_val_snoc l c : digits_val (l ++ [c]) = 10 * digits_val l + (Z.of_N (code c) - 48).
Proof. unfold digits_val. by rewrite fold_left_app. Qed.

Lemma pretty_N_go_digits x s : exists ds,
  chars (pretty_N_go x s) = ds ++ chars s /\ forallb is_digit ds = true /\
  digits_val ds = Z.of_N x /\ ((0 < x)%N -> ds <> []).
Proof.
  revert s. induction (N.lt_wf_0 x) as [x _ IH]; intros s.
  assert (x = 0 \/ 0 < x)%N as [->|Hx] by lia; [by exists []|].
  rewrite pretty_N_go_step by done.
  destruct (IH (x / 10)%N (N.div_lt x 10 Hx eq_refl) (String (pretty_N_char (x mod 10)) s)) as (ds & -> & Hd & Hv & _).
  destruct (digit_char_spec (x mod 10)) as [H1 H2]; [apply N.mod_lt; lia|].
  exists (ds ++ [pretty_N_char (x mod 10)]). cbn [list_ascii_of_string]. rewrite <- app_assoc. split; [done|].
  rewrite forallb_app, Hd, digits_val_snoc, Hv, H2. cbn. rewrite H1. split; [done|]. split; [|by destruct ds].
  pose proof (N.div_mod x 10). lia.
Qed.

Lemma pretty_N_digits n : exists ds, chars (pretty n) = ds /\ forallb is_digit ds = true /\
  digits_val ds = Z.of_N n /\ ds <> [].
Proof.
  unfold pretty, pretty_N. case_decide as Hn; [subst; by exists ["0"%char]|].
  destruct (pretty_N_go_digits n EmptyString) as (ds & E & H1 & H2 & H3).
  rewrite app_nil_r in E. exists ds. split_and!; try done. apply H3. lia.
Qed.

Lemma digit_not_space c : is_digit c = true -> is_space c = false.
Proof. destruct c as [[] [] [] [] [] [] [] []]; vm_compute; done. Qed.

Lemma drop_while_head {A} (f : A -> bool) x l : f x = false -> drop_while f (x :: l) = x :: l.
Proof. intros H. cbn. by rewrite H. Qed.

Lemma strip_solid s c d l : chars s = c :: l -> last (c :: l) = Some d ->
  is_space c = false -> is_space d = false -> strip s = s.
Proof.
  intros Hs Hl Hc Hd. unfold strip, lstrip_by, rstrip_by. rewrite Hs.
  apply last_Some in Hl as [l' Hl]. rewrite Hl, rev_app_distr. cbn [rev app].
  rewrite drop_while_head by done. cbn [rev]. rewrite rev_involutive, <- Hl.
  rewrite list_ascii_of_string_of_list_ascii, drop_while_head by done.
  by rewrite <- Hs, string_of_list_ascii_of_string.
Qed.

Lemma digit_run_digits b l : (b = true \/ l <> []) -> forallb is_digit l = true -> digit_run b l = Some l.
Proof.
  revert b. induction l as [|c l IH]; cbn; intros b Hb Hd; [destruct Hb as [->|]; done|].
  apply andb_true_iff in Hd as [-> Hd]. rewrite IH; auto.
Qed.

Lemma int_of_digits s ds : chars s = ds -> forallb is_digit ds = true -> ds <> [] ->
  int_of_str s = Some (digits_val ds) /\ int_of_str ("-" +:+ s) = Some (- digits_val ds).
Proof.
  intros Hs Hd Hne. destruct ds as [|c l]; [done|].
  assert (exists d, last (c :: l) = Some d /\ is_digit d = true) as (d & Hl & Hdd).
  { destruct (last (c :: l)) as [d|] eqn:El; [|by apply last_None in El]. exists d. split; [done|].
    rewrite forallb_elem in Hd. apply Hd. apply last_Some in El as [l' ->]. apply elem_of_app. right. by left. }
  assert (is_digit c = true) as Hc by (by apply andb_true_iff in Hd as [? _]).
  unfold int_of_str. split.
  - rewrite (strip_solid s c d l); [|done|done|by apply digit_not_space..]. rewrite Hs.
    assert (sign_of (c :: l) = (false, c :: l)) as ->.
    { clear -Hc. destruct c as [[] [] [] [] [] [] [] []]; vm_compute in Hc; (done || reflexivity). }
    by rewrite digit_run_digits by (auto; by right).
  - assert (chars ("-" +:+ s) = "-"%char :: c :: l) as Hm by (rewrite <- Hs; done).
    rewrite (strip_solid _ "-"%char d (c :: l)); [|done|done|done|by apply digit_not_space].
    rewrite Hm. cbn [sign_of]. by rewrite digit_run_digits by (auto; by right).
Qed.

Lemma int_of_str_Z z : int_of_str (str_Z z) = Some z.
Proof.
  unfold str_Z. destruct z as [|p|p].
  - done.
  - destruct (pretty_N_digits (Npos p)) as (ds & E & H1 & H2 & H3).
    change (pretty (Zpos p)) with (pretty (Npos p)). by rewrite (proj1 (int_of_digits _ _ E H1 H3)), H2.
  - destruct (pretty_N_digits (Npos p)) as (ds & E & H1 & H2 & H3).
    change (pretty (Zneg p)) with ("-" +:+ pretty (Npos p)). by rewrite (proj2 (int_of_digits _ _ E H1 H3)), H2.
Qed.
