(* ===== verification/PyDict.v ===== *)
(** * Python dictionaries

    A [dict] keeps its keys in insertion order; an assignment to a present key
    keeps its place.  [OrderedDict] adds [move_to_end] and
    [popitem(last=False)], from which the services build their bounded
    least-recently-used indexes.  [deq] is the order-insensitive equality of
    dictionaries. *)

From stdpp Require Import base list strings gmap.
From Stdlib Require Import ZArith Lia.
From S2P Require Import Prelude.

Definition dict (K V : Type) : Type := list (K * V).

Section dict.
Context {K V : Type} `{EqDecision K}.
Implicit Types (d : dict K V) (k : K) (v : V).

(** [d.get(k)] *)
Fixpoint dget k d : option V :=
  match d with
  | [] => None
  | (k', v) :: d' => if decide (k = k') then Some v else dget k d'
  end.

(** [k in d] *)
Definition dmem k d : bool := match dget k d with Some _ => true | None => false end.

(** [d[k] = v] *)
Fixpoint dset k v d : dict K V :=
  match d with
  | [] => [(k, v)]
  | (k', v') :: d' => if decide (k = k') then (k', v) :: d' else (k', v') :: dset k v d'
  end.

(** [del d[k]] of a present key. *)
Fixpoint ddel k d : dict K V :=
  match d with
  | [] => []
  | (k', v') :: d' => if decide (k = k') then d' else (k', v') :: ddel k d'
  end.

Definition dkeys d : list K := map fst d.
Definition dvals d : list V := map snd d.
(** Every key once. *)
Definition dwf d : Prop := NoDup (dkeys d).

(** [d.setdefault(k, v)] *)
Definition dsetdefault k v d : dict K V := if dmem k d then d else dset k v d.

(** [{k: v for k, v in kvs}] *)
Definition dict_of (kvs : list (K * V)) : dict K V :=
  fold_left (fun d kv => dset kv.1 kv.2 d) kvs [].

(** [d.move_to_end(k)] of a present key. *)
Definition move_to_end k d : dict K V :=
  match dget k d with
  | Some v => ddel k d ++ [(k, v)]
  | None => d
  end.

(** [while len(d) > capacity: d.popitem(last=False)].  With a negative
    capacity the loop empties the dictionary and [popitem] raises. *)
Fixpoint evict (capacity : Z) d : res unit * dict K V :=
  match d with
  | [] => (if (0 >? capacity)%Z then raise KeyError "dictionary is empty" else Ok tt, [])
  | _ :: d' => if (Z.of_nat (length d) >? capacity)%Z then evict capacity d' else (Ok tt, d)
  end.

(** Same bindings, whatever the order. *)
Definition deq (d1 d2 : dict K V) : Prop := forall k, dget k d1 = dget k d2.

(** ** Lemmas *)

Lemma dget_dset_eq k v d : dget k (dset k v d) = Some v.
Proof.
  induction d as [|[k' v'] d IH]; cbn; [by rewrite decide_True|].
  case_decide; cbn; [by rewrite decide_True | by rewrite decide_False].
Qed.

Lemma dget_dset_ne k k' v d : k <> k' -> dget k (dset k' v d) = dget k d.
Proof.
  intros Hne. induction d as [|[k1 v1] d IH]; cbn; [by rewrite decide_False|].
  case_decide; subst; cbn; [by rewrite !decide_False | by case_decide].
Qed.

Lemma dget_elem k v d : dget k d = Some v -> (k, v) ∈ d.
Proof.
  induction d as [|[k' v'] d IH]; cbn; [done|].
  case_decide; [intros [= ->]; subst; by left | intros ?; right; auto].
Qed.

Lemma elem_dget k v d : dwf d -> (k, v) ∈ d -> dget k d = Some v.
Proof.
  unfold dwf, dkeys. induction d as [|[k' v'] d IH]; cbn; intros Hnd Hin.
  - by apply elem_of_nil in Hin.
  - apply NoDup_cons in Hnd as [Hk Hnd]. apply elem_of_cons in Hin as [[= -> ->]|Hin].
    + by rewrite decide_True.
    + rewrite decide_False; [auto|]. intros ->. apply Hk, list_elem_of_fmap. by exists (k', v).
Qed.

Lemma dget_None k d : dget k d = None <-> k ∉ dkeys d.
Proof.
  induction d as [|[k' v'] d IH]; cbn.
  { split; [|done]. intros _ H. by apply elem_of_nil in H. }
  rewrite not_elem_of_cons. case_decide; subst.
  - split; [done | by intros [? _]].
  - rewrite IH. unfold dkeys. tauto.
Qed.

Lemma dmem_spec k d : dmem k d = true <-> k ∈ dkeys d.
Proof.
  unfold dmem. destruct (dget k d) eqn:E.
  - split; [|done]. intros _. destruct (decide (k ∈ dkeys d)); [done|].
    apply dget_None in n. congruence.
  - split; [done|]. intros Hin. by apply dget_None in E.
Qed.

Lemma dkeys_dset_mem k v d : k ∈ dkeys d -> dkeys (dset k v d) = dkeys d.
Proof.
  induction d as [|[k' v'] d IH]; cbn; [intros H; by apply elem_of_nil in H|].
  intros Hin. case_decide; subst; cbn; [done|]. f_equal. apply IH.
  apply elem_of_cons in Hin as [->|]; done.
Qed.

Lemma dset_fresh k v d : k ∉ dkeys d -> dset k v d = d ++ [(k, v)].
Proof.
  induction d as [|[k' v'] d IH]; cbn; [done|]. rewrite not_elem_of_cons. intros [Hne Hin].
  rewrite decide_False by done. by rewrite IH.
Qed.

Lemma dset_wf k v d : dwf d -> dwf (dset k v d).
Proof.
  unfold dwf. intros Hd. destruct (decide (k ∈ dkeys d)) as [Hin|Hin].
  - by rewrite dkeys_dset_mem.
  - rewrite dset_fresh by done. unfold dkeys. rewrite map_app. cbn.
    apply NoDup_app. split_and!; [done| |by apply NoDup_singleton].
    intros x Hx Hx'. apply list_elem_of_singleton in Hx' as ->. done.
Qed.

Lemma length_dset k v d :
  length (dset k v d) = if dmem k d then length d else S (length d).
Proof.
  destruct (dmem k d) eqn:E.
  - apply dmem_spec in E. rewrite <- (length_map fst (dset k v d)), <- (length_map fst d).
    change (length (dkeys (dset k v d)) = length (dkeys d)). by rewrite dkeys_dset_mem.
  - assert (k ∉ dkeys d) by (intros H; apply dmem_spec in H; congruence).
    rewrite dset_fresh by done. rewrite length_app. cbn. lia.
Qed.

Lemma ddel_keys_sub k d x : x ∈ dkeys (ddel k d) -> x ∈ dkeys d.
Proof.
  induction d as [|[k' v'] d IH]; cbn; [done|]. case_decide; subst; cbn.
  - intros; by right.
  - rewrite !elem_of_cons. intros [->|Hx]; [by left | right; by apply IH].
Qed.

Lemma ddel_wf k d : dwf d -> dwf (ddel k d).
Proof.
  unfold dwf. induction d as [|[k' v'] d IH]; cbn; [done|]. intros [Hk Hnd]%NoDup_cons.
  case_decide; [done|]. cbn. apply NoDup_cons. split; [|auto].
  intros Hin. apply Hk. by eapply ddel_keys_sub.
Qed.

Lemma dget_ddel_eq k d : dwf d -> dget k (ddel k d) = None.
Proof.
  unfold dwf. induction d as [|[k' v'] d IH]; cbn; [done|]. intros [Hk Hnd]%NoDup_cons.
  case_decide; subst; [by apply dget_None|]. cbn. rewrite decide_False by done. auto.
Qed.

Lemma dget_ddel_ne k k' d : k <> k' -> dget k (ddel k' d) = dget k d.
Proof.
  intros Hne. induction d as [|[k1 v1] d IH]; cbn; [done|].
  repeat case_decide; subst; cbn; rewrite ?decide_False by done; try done; repeat case_decide; congruence.
Qed.

Lemma length_ddel k d : k ∈ dkeys d -> S (length (ddel k d)) = length d.
Proof.
  induction d as [|[k' v'] d IH]; cbn; [intros H; by apply elem_of_nil in H|].
  intros Hin. case_decide; [done|]. cbn. f_equal. apply IH.
  apply elem_of_cons in Hin as [->|]; done.
Qed.

Lemma dget_app k d1 d2 :
  dget k (d1 ++ d2) = match dget k d1 with Some v => Some v | None => dget k d2 end.
Proof. induction d1 as [|[k' v'] d1 IH]; cbn; [done|]. by case_decide. Qed.

Lemma dget_move_to_end k k' d : dwf d -> dget k (move_to_end k' d) = dget k d.
Proof.
  intros Hd. unfold move_to_end. destruct (dget k' d) as [v|] eqn:E; [|done].
  rewrite dget_app. cbn. destruct (decide (k = k')) as [->|Hne].
  - by rewrite dget_ddel_eq, E.
  - rewrite dget_ddel_ne by done. by destruct (dget k d).
Qed.

Lemma move_to_end_wf k d : dwf d -> dwf (move_to_end k d).
Proof.
  intros Hd. unfold move_to_end. destruct (dget k d) as [v|] eqn:E; [|done].
  unfold dwf, dkeys. rewrite map_app. cbn. apply NoDup_app. split_and!.
  - by apply ddel_wf.
  - intros x Hx Hx'. apply list_elem_of_singleton in Hx' as ->.
    by apply (dget_None k (ddel k d)); [apply dget_ddel_eq|].
  - by apply NoDup_singleton.
Qed.

Lemma length_move_to_end k d : length (move_to_end k d) = length d.
Proof.
  unfold move_to_end. destruct (dget k d) as [v|] eqn:E; [|done].
  rewrite length_app. cbn. apply dget_elem in E.
  rewrite Nat.add_1_r, length_ddel; [done|]. apply list_elem_of_fmap. by exists (k, v).
Qed.

(** Eviction keeps the last [capacity] bindings. *)
Lemma evict_spec (capacity : nat) d :
  evict (Z.of_nat capacity) d = (Ok tt, drop (length d - capacity) d).
Proof.
  induction d as [|kv d IH]; cbn [evict].
  - rewrite drop_nil. by destruct (Z.gtb_spec 0 (Z.of_nat capacity)); [lia|].
  - cbn [length]. destruct (Z.gtb_spec (Z.of_nat (S (length d))) (Z.of_nat capacity)).
    + rewrite IH. replace (S (length d) - capacity)%nat with (S (length d - capacity)) by lia. done.
    + by replace (S (length d) - capacity)%nat with 0%nat by lia.
Qed.

Lemma evict_length (capacity : nat) d :
  length (evict (Z.of_nat capacity) d).2 = Nat.min (length d) capacity.
Proof. rewrite evict_spec. cbn. rewrite length_drop. lia. Qed.

Lemma drop_wf n d : dwf d -> dwf (drop n d).
Proof.
  unfold dwf, dkeys. intros H. rewrite <- (take_drop n d), map_app in H.
  by apply NoDup_app in H as (_ & _ & H).
Qed.

Lemma evict_wf (capacity : nat) d : dwf d -> dwf (evict (Z.of_nat capacity) d).2.
Proof. rewrite evict_spec. cbn. apply drop_wf. Qed.

Lemma dget_drop_Some n k v d : dwf d -> dget k (drop n d) = Some v -> dget k d = Some v.
Proof.
  intros Hd H. apply elem_dget; [done|]. apply dget_elem in H.
  rewrite <- (take_drop n d). apply elem_of_app. by right.
Qed.

(** The last binding survives an eviction to a positive capacity. *)
Lemma evict_keeps_last (capacity : nat) d k v :
  (0 < capacity)%nat -> dwf (d ++ [(k, v)]) ->
  dget k (evict (Z.of_nat capacity) (d ++ [(k, v)])).2 = Some v.
Proof.
  intros Hc Hd. pose proof (evict_wf capacity _ Hd) as Hw. rewrite evict_spec in *. cbn in *.
  apply elem_dget; [done|]. rewrite drop_app_le; [apply elem_of_app; right; by left|].
  rewrite length_app. cbn. lia.
Qed.

#[export] Instance deq_equiv : Equivalence deq.
Proof.
  split; [by intros d k | intros d1 d2 H k; by rewrite H | intros d1 d2 d3 H1 H2 k; by rewrite H1].
Qed.

#[export] Instance dget_proper k : Proper (deq ==> eq) (dget k).
Proof. by intros d1 d2 Hd. Qed.

#[export] Instance dset_proper k v : Proper (deq ==> deq) (dset k v).
Proof.
  intros d1 d2 Hd k'. destruct (decide (k' = k)) as [->|Hne].
  - by rewrite !dget_dset_eq.
  - by rewrite !dget_dset_ne.
Qed.

#[export] Instance dmem_proper k : Proper (deq ==> eq) (dmem k).
Proof. intros d1 d2 Hd. unfold dmem. by rewrite Hd. Qed.

Lemma perm_deq d1 d2 : dwf d1 -> d1 ≡ₚ d2 -> deq d1 d2.
Proof.
  intros Hw Hp k. assert (dwf d2) as Hw2.
  { unfold dwf, dkeys in *. by rewrite <- (Permutation_map fst Hp). }
  destruct (dget k d1) as [v|] eqn:E.
  - symmetry. apply elem_dget; [done|]. rewrite <- Hp. by apply dget_elem.
  - destruct (dget k d2) as [v|] eqn:E2; [|done].
    apply dget_elem in E2. rewrite <- Hp in E2. apply elem_dget in E2; [congruence|done].
Qed.
End dict.

#[export] Hint Resolve dset_wf ddel_wf move_to_end_wf drop_wf evict_wf dget_dset_eq : opm.

Lemma dict_of_wf {K V} `{EqDecision K} (kvs : list (K * V)) : dwf (dict_of kvs).
Proof.
  unfold dict_of. assert (forall d, dwf d -> dwf (fold_left (fun d kv => dset kv.1 kv.2 d) kvs d)) as Hgen.
  { induction kvs as [|[k v] kvs IH]; cbn; [done|]. intros d Hd. auto with opm. }
  apply Hgen. constructor.
Qed.

Lemma fold_dset_fresh {K V} `{EqDecision K} (kvs : list (K * V)) (d : dict K V) :
  NoDup (map fst kvs) -> (forall k, k ∈ map fst kvs -> k ∉ dkeys d) ->
  fold_left (fun d kv => dset kv.1 kv.2 d) kvs d = d ++ kvs.
Proof.
  revert d. induction kvs as [|[k v] kvs IH]; cbn; intros d Hnd Hk; [by rewrite app_nil_r|].
  apply NoDup_cons in Hnd as [Hn Hnd]. rewrite dset_fresh by (apply Hk; by left).
  rewrite IH; [by rewrite <- app_assoc|done|].
  intros k' Hk' Hin. unfold dkeys in Hin. rewrite map_app in Hin.
  apply elem_of_app in Hin as [Hin|Hin]; [eapply Hk; [by right|done]|].
  apply list_elem_of_singleton in Hin. cbn in Hin. by subst.
Qed.

Lemma dict_of_NoDup {K V} `{EqDecision K} (kvs : list (K * V)) :
  NoDup (map fst kvs) -> dict_of kvs = kvs.
Proof.
  intros Hnd. unfold dict_of. rewrite fold_dset_fresh; [done|done|].
  intros k _ Hin. by apply elem_of_nil in Hin.
Qed.

Lemma dkeys_dset_iff {K V} `{EqDecision K} k v (d : dict K V) x :
  x ∈ dkeys (dset k v d) <-> x = k \/ x ∈ dkeys d.
Proof.
  destruct (decide (k ∈ dkeys d)) as [Hin|Hin].
  - rewrite dkeys_dset_mem by done. split; [by right|]. by intros [->|].
  - rewrite dset_fresh by done. unfold dkeys. rewrite map_app, elem_of_app. cbn.
    rewrite list_elem_of_singleton. tauto.
Qed.

Lemma dkeys_dict_of {K V} `{EqDecision K} (kvs : list (K * V)) x :
  x ∈ dkeys (dict_of kvs) <-> x ∈ map fst kvs.
Proof.
  unfold dict_of. assert (forall d, x ∈ dkeys (fold_left (fun d kv => dset kv.1 kv.2 d) kvs d) <->
    x ∈ dkeys d \/ x ∈ map fst kvs) as Hgen.
  { induction kvs as [|[k v] kvs IH]; cbn [fold_left map fst snd]; intros d.
    - split; [by left|]. intros [|Hx]; [done|by apply elem_of_nil in Hx].
    - rewrite IH, dkeys_dset_iff, elem_of_cons. tauto. }
  rewrite Hgen. split; [|by right]. intros [Hx|]; [by apply elem_of_nil in Hx|done].
Qed.

(** [{f(x): x for x in items}] with distinct keys. *)
Lemma dget_indexed {K V} `{EqDecision K} (f : V -> K) l k x : NoDup (map f l) ->
  dget k (dict_of (map (fun x => (f x, x)) l)) = Some x <-> x ∈ l /\ f x = k.
Proof.
  intros Hn. assert (dwf (map (fun x => (f x, x)) l)) as Hw by (unfold dwf, dkeys; by rewrite map_map).
  rewrite dict_of_NoDup by done. split.
  - intros H%dget_elem. apply list_elem_of_fmap in H as (y & [= -> ->] & Hy). done.
  - intros [Hx <-]. apply elem_dget; [done|]. apply list_elem_of_fmap. by exists x.
Qed.

(** [len({k: v ...}) == len(items)] tests that the keys are distinct. *)
Lemma dict_of_length_iff {K V} `{EqDecision K} (kvs : list (K * V)) :
  length (dict_of kvs) = length kvs <-> NoDup (map fst kvs).
Proof.
  split; [|intros H; by rewrite dict_of_NoDup].
  intros Hlen. pose proof (dict_of_wf kvs) as Hw. unfold dwf in Hw.
  assert (dkeys (dict_of kvs) ⊆+ map fst kvs) as Hsub.
  { apply NoDup_submseteq; [done|]. intros x. by rewrite dkeys_dict_of. }
  apply submseteq_length_Permutation in Hsub as Hp.
  - by rewrite <- Hp.
  - unfold dkeys. rewrite !length_map. lia.
Qed.

(** A Prometheus counter: one value per tuple of labels. *)
Definition counter : Type := dict (list string) Z.
Definition count_of (labels : list string) (c : counter) : Z := default 0 (dget labels c).
(** [C.labels(...).inc()] *)
Definition inc (labels : list string) (c : counter) : counter := dset labels (count_of labels c + 1) c.

Lemma count_of_inc_eq l c : count_of l (inc l c) = count_of l c + 1.
Proof. unfold count_of, inc. by rewrite dget_dset_eq. Qed.

Lemma count_of_inc_ne l l' c : l <> l' -> count_of l (inc l' c) = count_of l c.
Proof. intros H. unfold count_of at 1, inc. by rewrite dget_dset_ne. Qed.
