(* ===== verification/PyFloat.v ===== *)
(** * Python floats

    A [float] is an IEEE 754 binary64 number, [SpecFloat.spec_float] at
    precision 53 and maximal exponent 1024, with the correctly rounded
    operations of [SpecFloat].  On top of them: literals, conversions, [round],
    [repr], [sum] (the compensated sum of CPython 3.12, the version of the
    repository's image) and [statistics.median], all executable. *)

From Stdlib Require Import String Ascii ZArith Lia SpecFloat.
From stdpp Require Import base list strings sorting.
From S2P Require Import Prelude PyStr.

Abbreviation float := spec_float.

Definition fprec : Z := 53.
Definition femax : Z := 1024.

Definition fadd (x y : float) : float := SFadd fprec femax x y.
Definition fsub (x y : float) : float := SFsub fprec femax x y.
Definition fmul (x y : float) : float := SFmul fprec femax x y.
Definition fdiv_raw (x y : float) : float := SFdiv fprec femax x y.
Definition fsqrt (x : float) : float := SFsqrt fprec femax x.
Definition fabs (x : float) : float := SFabs x.
Definition fneg (x : float) : float := SFopp x.
Definition fltb (x y : float) : bool := SFltb x y.
Definition fleb (x y : float) : bool := SFleb x y.
Definition feqb (x y : float) : bool := SFeqb x y.
Definition fgtb (x y : float) : bool := SFltb y x.
Definition fgeb (x y : float) : bool := SFleb y x.

Definition fzero : float := S754_zero false.
Definition finf : float := S754_infinity false.
Definition fninf : float := S754_infinity true.
Definition is_zero (x : float) : bool := match x with S754_zero _ => true | _ => false end.
Definition is_nan (x : float) : bool := match x with S754_nan => true | _ => false end.
Definition is_finite (x : float) : bool :=
  match x with S754_zero _ | S754_finite _ _ _ => true | _ => false end.

(** [float(z)] *)
Definition f_of_Z (z : Z) : float := binary_normalize fprec femax z 0 false.

(** The exact integer as an (unrounded) operand. *)
Definition exact_Z (z : Z) : float :=
  match z with
  | Z0 => S754_zero false
  | Zpos p => S754_finite false p 0
  | Zneg p => S754_finite true p 0
  end.

(** The double nearest to [n / d]: Python's [n / d] on integers, and the value
    of a decimal literal. *)
Definition fratio (n d : Z) : float := fdiv_raw (exact_Z n) (exact_Z d).

(** [x / y]: division by zero raises. *)
Definition fdiv (x y : float) : res float :=
  if is_zero y then raise ZeroDivisionError "float division by zero" else Ok (fdiv_raw x y).

(** [max(x, y)] and [min(x, y)]: the first argument unless the second one is
    strictly beyond it. *)
Definition fmax (x y : float) : float := if fgtb y x then y else x.
Definition fmin (x y : float) : float := if fltb y x then y else x.

(** [max(l, default=d)] and [min(l, default=d)]. *)
Definition fmax_list (d : float) (l : list float) : float :=
  match l with [] => d | x :: l' => fold_left fmax l' x end.
Definition fmin_list (d : float) (l : list float) : float :=
  match l with [] => d | x :: l' => fold_left fmin l' x end.

(** [x < y] between an integer and a float, exactly. *)
Definition Z_lt_float (z : Z) (f : float) : bool :=
  match f with
  | S754_nan => false
  | S754_infinity s => negb s
  | S754_zero _ => z <? 0
  | S754_finite s m e =>
      let v := (if s then Zneg m else Zpos m) * 2 ^ Z.max 0 e in z * 2 ^ Z.max 0 (- e) <? v
  end.
Definition float_lt_Z (f : float) (z : Z) : bool := Z_lt_float (- z) (fneg f).

(** [n / d] of two integers, correctly rounded. *)
Definition int_div (n d : Z) : res float :=
  if d =? 0 then raise ZeroDivisionError "division by zero"
  else let q := fratio n d in
       if is_finite q then Ok q else raise OverflowError "integer division result too large for a float".

(** Nearest integer to [n / d], ties to even, for [d > 0]. *)
Definition round_half_even (n d : Z) : Z :=
  let q := n / d in
  match (2 * (n mod d)) ?= d with
  | Lt => q
  | Gt => q + 1
  | Eq => if Z.even q then q else q + 1
  end.

(** A finite non-negative magnitude [m * 2^e] as a fraction. *)
Definition mant_num (m : positive) (e : Z) : Z := Zpos m * 2 ^ Z.max 0 e.
Definition mant_den (e : Z) : Z := 2 ^ Z.max 0 (- e).

(** [round(x, digits)]: the exact value to the nearest multiple of
    [10^-digits], ties to even, then the nearest double. *)
Definition fround (digits : Z) (x : float) : float :=
  match x with
  | S754_finite s m e =>
      let n := round_half_even (mant_num m e * 10 ^ digits) (mant_den e) in
      let r := fratio n (10 ^ digits) in
      if s then SFopp r else r
  | _ => x
  end.

(** [round(n / d)] on integers, to an integer. *)
Definition round_Z (n d : Z) : Z := round_half_even n d.

(** [round(x)], to an integer. *)
Definition fround_int (x : float) : res Z :=
  match x with
  | S754_zero _ => Ok 0
  | S754_finite s m e => let q := round_half_even (mant_num m e) (mant_den e) in Ok (if s then - q else q)
  | S754_infinity _ => raise OverflowError "cannot convert float infinity to integer"
  | S754_nan => raise ValueError "cannot convert float NaN to integer"
  end.

(** [int(x)]: truncation; infinities and NaN raise. *)
Definition ftrunc (x : float) : res Z :=
  match x with
  | S754_zero _ => Ok 0
  | S754_finite s m e => let q := mant_num m e / mant_den e in Ok (if s then - q else q)
  | S754_infinity _ => raise OverflowError "cannot convert float infinity to integer"
  | S754_nan => raise ValueError "cannot convert float NaN to integer"
  end.

(** [sum(l)] of floats (CPython 3.12): Neumaier's compensated summation. *)
Fixpoint fsum_loop (total comp : float) (l : list float) : float * float :=
  match l with
  | [] => (total, comp)
  | x :: l' =>
      let t := fadd total x in
      let c := if fgeb (fabs total) (fabs x)
               then fadd comp (fadd (fsub total t) x)
               else fadd comp (fadd (fsub x t) total) in
      fsum_loop t c l'
  end.
Definition fsum (l : list float) : float :=
  let '(total, comp) := fsum_loop fzero fzero l in
  if negb (is_zero comp) && is_finite comp then fadd total comp else total.

(** [statistics.median] *)
Definition fsort (l : list float) : list float := isort (fun x y => negb (fltb y x)) l.
Definition fmedian (l : list float) : res float :=
  let s := fsort l in
  let n := length s in
  match n with
  | O => raise StatisticsError "no median for empty data"
  | _ =>
    if Nat.odd n then Ok (nth (Nat.div2 n) s fzero)
    else fdiv (fadd (nth (Nat.div2 n - 1) s fzero) (nth (Nat.div2 n) s fzero)) (f_of_Z 2)
  end.

(** [repr(x)]: the shortest decimal that reads back as [x]. *)
Fixpoint zeros (n : nat) : string := match n with O => EmptyString | S n' => String "0"%char (zeros n') end.

(** Decimal exponent [k] with [10^(k-1) <= n/d < 10^k]. *)
Definition pow10_le (k n d : Z) : bool := (10 ^ Z.max 0 k * d <=? n * 10 ^ Z.max 0 (- k)).
Fixpoint adjust_up (fuel : nat) (k n d : Z) : Z :=
  match fuel with O => k | S f => if pow10_le k n d then adjust_up f (k + 1) n d else k end.
Fixpoint adjust_down (fuel : nat) (k n d : Z) : Z :=
  match fuel with O => k | S f => if pow10_le (k - 1) n d then k else adjust_down f (k - 1) n d end.
Definition dec_exponent (n d : Z) : Z :=
  let k0 := (Z.log2 n - Z.log2 d) * 30103 / 100000 in
  adjust_down 4 (adjust_up 4 k0 n d) n d.

(** Digits of [n/d] to [p] significant places, and the decimal exponent.  At a
    power of two the gap below is half the gap above, so the next decimal up
    can read back when the nearest one does not. *)
Definition digits_at (p k n d : Z) : Z * Z :=
  let s := p - k in
  let D := round_half_even (n * 10 ^ Z.max 0 s) (d * 10 ^ Z.max 0 (- s)) in
  if D =? 10 ^ p then (10 ^ (p - 1), k + 1) else (D, k).
Definition dec_float (D s : Z) : float := fratio (D * 10 ^ Z.max 0 s) (10 ^ Z.max 0 (- s)).
Fixpoint shortest (fuel : nat) (p k n d : Z) (x : float) : Z * Z :=
  let '(D, k') := digits_at p k n d in
  match fuel with
  | O => (D, k')
  | S f =>
    if feqb (dec_float D (k' - p)) x then (D, k')
    else if feqb (dec_float (D + 1) (k' - p)) x then (D + 1, k')
    else shortest f (p + 1) k n d x
  end.

Definition exp_text (e : Z) : string :=
  "e" +:+ (if e <? 0 then "-" else "+") +:+ (if Z.abs e <? 10 then "0" else EmptyString) +:+ str_Z (Z.abs e).
Definition format_digits (ds : string) (k : Z) : string :=
  let n := Z.of_nat (String.length ds) in
  if (-4 <? k) && (k <=? 16) then
    if k <=? 0 then "0." +:+ zeros (Z.to_nat (- k)) +:+ ds
    else if n <=? k then ds +:+ zeros (Z.to_nat (k - n)) +:+ ".0"
    else slice_to (Z.to_nat k) ds +:+ "." +:+ of_chars (drop (Z.to_nat k) (chars ds))
  else
    slice_to 1 ds +:+ (if n =? 1 then EmptyString else "." +:+ of_chars (drop 1 (chars ds))) +:+ exp_text (k - 1).

Definition repr_float (x : float) : string :=
  match x with
  | S754_nan => "nan"
  | S754_infinity s => if s then "-inf" else "inf"
  | S754_zero s => if s then "-0.0" else "0.0"
  | S754_finite s m e =>
      let n := mant_num m e in
      let d := mant_den e in
      let '(D, k) := shortest 16 1 (dec_exponent n d) n d (S754_finite false m e) in
      (if s then "-" else EmptyString) +:+
      format_digits (rstrip_by (fun c => bool_decide (c = "0"%char)) (str_Z D)) k
  end.

(** [f"{x:.2f}"] and [f"{x:.1f}"] of a finite float: fixed-point text. *)
Definition pad_left (width : nat) (s : string) : string := zeros (width - String.length s) +:+ s.
Definition format_fixed (digits : nat) (x : float) : string :=
  match x with
  | S754_finite s m e =>
      let n := round_half_even (mant_num m e * 10 ^ Z.of_nat digits) (mant_den e) in
      (if s then "-" else EmptyString) +:+ str_Z (n / 10 ^ Z.of_nat digits) +:+ "." +:+
      pad_left digits (str_Z (n mod 10 ^ Z.of_nat digits))
  | S754_zero s => (if s then "-" else EmptyString) +:+ "0." +:+ zeros digits
  | _ => repr_float x
  end.

(** [float(s)]: [None] where it raises [ValueError]. *)
Fixpoint break_at (f : ascii -> bool) (l : list ascii) : list ascii * option (list ascii) :=
  match l with
  | [] => ([], None)
  | c :: r => if f c then ([], Some r) else let '(a, b) := break_at f r in (c :: a, b)
  end.
Definition opt_digits (l : list ascii) : option (list ascii) :=
  match l with [] => Some [] | _ => digit_run false l end.
Definition float_of_str (s : string) : option float :=
  let '(neg, body) := sign_of (chars (str_lower (strip s))) in
  let signed (f : float) := if neg then fneg f else f in
  if bool_decide (body = chars "inf") || bool_decide (body = chars "infinity") then Some (signed finf)
  else if bool_decide (body = chars "nan") then Some S754_nan
  else
  let '(mant, ex) := break_at (fun c => bool_decide (c = "e"%char)) body in
  let '(ip, fp) := break_at (fun c => bool_decide (c = "."%char)) mant in
  match opt_digits ip, opt_digits (default [] fp),
        (match ex with None => Some 0 | Some l =>
           let '(en, ds) := sign_of l in
           (fun l => if en then - digits_val l else digits_val l) <$> digit_run false ds end) with
  | Some i, Some f, Some e =>
      match i ++ f with
      | [] => None
      | ds => Some (signed (dec_float (digits_val ds) (e - Z.of_nat (length f))))
      end
  | _, _, _ => None
  end.

(** ** Checks against the documented results of the language *)

Example float_literals : map repr_float [fratio 1 10; fratio 999 1000; fsub (f_of_Z 1) (fratio 999 1000); fratio 1 3; f_of_Z 10000000000000000; fratio 1 100000; f_of_Z 123456789; fadd (fratio 1 10) (fratio 2 10)] =
  ["0.1"; "0.999"; "0.0010000000000000009"; "0.3333333333333333"; "1e+16"; "1e-05"; "123456789.0"; "0.30000000000000004"].
Proof. vm_compute. reflexivity. Qed.

Example float_rounding : map repr_float [fround 2 (fratio 2675 1000); fround 6 (fratio 2 3); fround 3 (f_of_Z 5); fround 0 (fratio 5 2); fsum (repeat (fratio 1 10) 10); f_of_Z 9007199254740993] =
  ["2.67"; "0.666667"; "5.0"; "2.0"; "1.0"; "9007199254740992.0"].
Proof. vm_compute. reflexivity. Qed.

Example float_formatting : (format_fixed 2 (fratio 2675 1000), format_fixed 1 (fratio 47 10), round_Z 250 100, ftrunc (fratio (-7) 2)) = ("2.67", "4.7", 2, Ok (-3)).
Proof. vm_compute. reflexivity. Qed.

Example float_parsing : map (fun s => repr_float <$> float_of_str s) ["0.1"; " -1_0.5e1 "; "nan"; ".5"; "1e400"; "."; "0x1"; "5e-324"] =
  [Some "0.1"; Some "-105.0"; Some "nan"; Some "0.5"; Some "inf"; None; None; Some "5e-324"].
Proof. vm_compute. reflexivity. Qed.

(** ** Order *)

(** The place of a number in the order: its class (negative infinity to
    positive infinity), its exponent and its mantissa. *)
Definition frank (x : float) : Z * Z * Z :=
  match x with
  | S754_infinity s => (if s then -2 else 2, 0, 0)
  | S754_finite s m e => if s then (-1, - e, - Zpos m) else (1, e, Zpos m)
  | _ => (0, 0, 0)
  end.
Definition rank_lt (a b : Z * Z * Z) : Prop :=
  a.1.1 < b.1.1 \/ a.1.1 = b.1.1 /\ (a.1.2 < b.1.2 \/ a.1.2 = b.1.2 /\ a.2 < b.2).

Lemma SFcompare_rank x y :
  match SFcompare x y with
  | Some Lt => is_nan x = false /\ is_nan y = false /\ rank_lt (frank x) (frank y)
  | Some Gt => is_nan x = false /\ is_nan y = false /\ rank_lt (frank y) (frank x)
  | Some Eq => is_nan x = false /\ is_nan y = false /\ frank x = frank y
  | None => is_nan x = true \/ is_nan y = true
  end.
Proof.
  unfold rank_lt. destruct x as [[]|[]| |[] m e], y as [[]|[]| |[] m' e']; cbn;
    repeat split; auto; try lia; destruct (Z.compare_spec e e'); cbn; subst;
    repeat split; auto; try lia; rewrite ?Pos.compare_cont_spec; cbn;
    destruct (Pos.compare_spec m m'); cbn; subst; repeat split; auto; lia.
Qed.

Lemma fltb_rank x y : fltb x y = true <-> is_nan x = false /\ is_nan y = false /\ rank_lt (frank x) (frank y).
Proof.
  unfold fltb, SFltb. pose proof (SFcompare_rank x y) as H. destruct (SFcompare x y) as [[]|].
  - split; [done|]. destruct H as (_ & _ & He). rewrite He. unfold rank_lt. lia.
  - done.
  - split; [done|]. unfold rank_lt in *. lia.
  - split; [done|]. destruct H; intros (? & ? & _); congruence.
Qed.

Lemma fleb_rank x y : fleb x y = true <-> is_nan x = false /\ is_nan y = false /\ ~ rank_lt (frank y) (frank x).
Proof.
  unfold fleb, SFleb. pose proof (SFcompare_rank x y) as H. destruct (SFcompare x y) as [[]|].
  - split; [|done]. destruct H as (? & ? & He). rewrite He. unfold rank_lt. intros; repeat split; auto; lia.
  - split; [|done]. unfold rank_lt in *. intros; repeat split; try tauto; lia.
  - split; [done|]. unfold rank_lt in *. tauto.
  - split; [done|]. destruct H; intros (? & ? & _); congruence.
Qed.

Lemma fltb_false x y : fltb x y = false <-> is_nan x = true \/ is_nan y = true \/ ~ rank_lt (frank x) (frank y).
Proof.
  rewrite <- not_true_iff_false, fltb_rank.
  destruct (is_nan x), (is_nan y); split; intuition congruence.
Qed.

Lemma fltb_irrefl x : fltb x x = false.
Proof. apply fltb_false. unfold rank_lt. right; right. lia. Qed.
Lemma fltb_trans x y z : fltb x y = true -> fltb y z = true -> fltb x z = true.
Proof. rewrite !fltb_rank. unfold rank_lt. intros (? & _ & ?) (_ & ? & ?). split_and!; [done|done|lia]. Qed.
Lemma fltb_asym x y : fltb x y = true -> fltb y x = false.
Proof.
  intros H. destruct (fltb y x) eqn:E; [|done]. pose proof (fltb_trans _ _ _ H E) as K. by rewrite fltb_irrefl in K.
Qed.

(** The running maximum of [max(acc, x)] and minimum of [min(acc, x)]: an
    element, with no element beyond it. *)
Lemma fold_fmax_spec acc l : let m := fold_left fmax l acc in
  (m = acc \/ fltb acc m = true) /\ (m = acc \/ m ∈ l) /\ forall y, y = acc \/ y ∈ l -> fgtb y m = false.
Proof.
  apply (fold_best (fun a x => fltb a x)); [apply fltb_irrefl|apply fltb_trans].
Qed.
Lemma fold_fmin_spec acc l : let m := fold_left fmin l acc in
  (m = acc \/ fltb m acc = true) /\ (m = acc \/ m ∈ l) /\ forall y, y = acc \/ y ∈ l -> fltb y m = false.
Proof.
  apply (fold_best (fun a x => fltb x a)); [apply fltb_irrefl|]. intros x y z H1 H2. by eapply fltb_trans.
Qed.

(** Nothing of the list exceeds a bound exactly when its maximum does not. *)
Lemma fold_fmax_le acc l b : is_nan acc = false ->
  fgtb (fold_left fmax l acc) b = false <-> fgtb acc b = false /\ forall x, x ∈ l -> fgtb x b = false.
Proof.
  intros Ha. destruct (fold_fmax_spec acc l) as (H1 & H2 & H3).
  revert H1 H2 H3. generalize (fold_left fmax l acc). intros m H1 H2 H3. unfold fgtb. change SFltb with fltb in *. split.
  - intros H. assert (is_nan m = false) as Hm by (destruct H1 as [->|(_ & ? & _)%fltb_rank]; done).
    assert (forall y, y = acc \/ y ∈ l -> fltb b y = false) as Hy; [|split; intros; apply Hy; auto].
    intros y Hy%H3. unfold fgtb in Hy. change SFltb with fltb in Hy. rewrite fltb_false in *. rewrite Hm in *.
    destruct H as [?|[?|H]], Hy as [?|[?|Hy]]; try done; auto. right; right. unfold rank_lt in *. lia.
  - intros [Hb H]. destruct H2 as [->|H2]; auto.
Qed.

(** *** What a median and a spread are *)

(** The middle value of the sorted values, or half the sum of the two middle
    ones. *)
Definition median_of (l : list float) (m : float) : Prop := exists s, s ≡ₚ l /\
  Sorted (fun x y => fltb y x = false) s /\
  let n := length l in
  if Nat.odd n then s !! (n / 2)%nat = Some m
  else exists x y, s !! (n / 2 - 1)%nat = Some x /\ s !! (n / 2)%nat = Some y /\ fdiv (fadd x y) (f_of_Z 2) = Ok m.
(** The distance of a largest value from a smallest one. *)
Definition spread_of (l : list float) (d : float) : Prop := exists hi lo, hi ∈ l /\ lo ∈ l /\
  (forall v, v ∈ l -> fltb hi v = false /\ fltb v lo = false) /\ d = fsub hi lo.

Lemma fmedian_spec l m : fmedian l = Ok m -> median_of l m.
Proof.
  unfold fmedian. intros H. exists (fsort l). split; [apply isort_perm|]. split.
  { assert (Sorted (fun a b => negb (fltb b a) = true) (fsort l)) as H1.
    { apply isort_Sorted. intros a b. rewrite negb_false_iff, negb_true_iff. apply fltb_asym. }
    clear H. induction H1 as [|x s _ IH Hx]; constructor; [done|].
    destruct Hx as [|y s Hx]; constructor. by apply negb_true_iff. }
  cbv zeta. pose proof (length_isort (fun x y => negb (fltb y x)) l) as Hl. fold (fsort l) in Hl. rewrite <- Hl.
  destruct (length (fsort l)) as [|n] eqn:En; [done|]. rewrite !Nat.div2_div in H.
  assert ((S n / 2 < S n)%nat) as Hn by (apply Nat.div_lt; lia).
  assert (forall k, (k < S n)%nat -> fsort l !! k = Some (nth k (fsort l) fzero)) as Hk.
  { intros k ?. rewrite nth_lookup. destruct (lookup_lt_is_Some_2 (fsort l) k) as [v ->]; [lia|done]. }
  destruct (Nat.odd _).
  - injection H as <-. by apply Hk.
  - exists (nth (S n / 2 - 1) (fsort l) fzero), (nth (S n / 2) (fsort l) fzero).
    split_and!; [apply Hk; lia|by apply Hk|exact H].
Qed.
Lemma fspread_spec l : l <> [] -> spread_of l (fsub (fmax_list fzero l) (fmin_list fzero l)).
Proof.
  destruct l as [|x l]; [done|]. intros _. cbn [fmax_list fmin_list].
  destruct (fold_fmax_spec x l) as (_ & H1 & H2), (fold_fmin_spec x l) as (_ & H3 & H4).
  exists (fold_left fmax l x), (fold_left fmin l x). split_and!; [by apply elem_of_cons..| |done].
  intros v Hv%elem_of_cons. split; [by apply H2|by apply H4].
Qed.
