(* ===== verification/Hash.v ===== *)
(** * SHA-256, HMAC and the hexadecimal digests the services compute

    The hash of [hashlib.sha256] on byte strings (32-bit words as [Z] with
    their wrap-around written out), [hmac.new(key, msg, sha256)], and the
    shape of a digest text: 64 lowercase hexadecimal characters. *)

From Stdlib Require Import String Ascii ZArith Lia.
From stdpp Require Import base list strings.
From S2P Require Import Prelude PyStr.

Definition w32 : Z := 4294967296.
Definition add32 (x y : Z) : Z := (x + y) mod w32.
Definition rotr (n x : Z) : Z := Z.lor (Z.shiftr x n) (Z.shiftl x (32 - n) mod w32).
Definition not32 (x : Z) : Z := w32 - 1 - x.
Definition ch (x y z : Z) : Z := Z.lxor (Z.land x y) (Z.land (not32 x) z).
Definition maj (x y z : Z) : Z := Z.lxor (Z.lxor (Z.land x y) (Z.land x z)) (Z.land y z).
Definition bsig0 (x : Z) : Z := Z.lxor (Z.lxor (rotr 2 x) (rotr 13 x)) (rotr 22 x).
Definition bsig1 (x : Z) : Z := Z.lxor (Z.lxor (rotr 6 x) (rotr 11 x)) (rotr 25 x).
Definition ssig0 (x : Z) : Z := Z.lxor (Z.lxor (rotr 7 x) (rotr 18 x)) (Z.shiftr x 3).
Definition ssig1 (x : Z) : Z := Z.lxor (Z.lxor (rotr 17 x) (rotr 19 x)) (Z.shiftr x 10).

Definition sha_k : list Z :=
  [1116352408;1899447441;3049323471;3921009573;961987163;1508970993;2453635748;2870763221;
   3624381080;310598401;607225278;1426881987;1925078388;2162078206;2614888103;3248222580;
   3835390401;4022224774;264347078;604807628;770255983;1249150122;1555081692;1996064986;
   2554220882;2821834349;2952996808;3210313671;3336571891;3584528711;113926993;338241895;
   666307205;773529912;1294757372;1396182291;1695183700;1986661051;2177026350;2456956037;
   2730485921;2820302411;3259730800;3345764771;3516065817;3600352804;4094571909;275423344;
   430227734;506948616;659060556;883997877;958139571;1322822218;1537002063;1747873779;
   1955562222;2024104815;2227730452;2361852424;2428436474;2756734187;3204031479;3329325298].

Definition sha_init : list Z :=
  [1779033703;3144134277;1013904242;2773480762;1359893119;2600822924;528734635;1541459225].

(** Big-endian bytes of a number. *)
Fixpoint be_bytes (n : nat) (x : Z) : list Z :=
  match n with O => [] | S n' => (Z.shiftr x (8 * Z.of_nat n')) mod 256 :: be_bytes n' x end.
Definition be_word (l : list Z) : Z := fold_left (fun acc b => acc * 256 + b) l 0.

Definition bytes_of (s : string) : list Z := map (fun c => Z.of_N (code c)) (chars s).

Definition sha_pad (m : list Z) : list Z :=
  let l := length m in
  m ++ 128 :: repeat 0 ((119 - l mod 64) mod 64)%nat ++ be_bytes 8 (8 * Z.of_nat l).

Fixpoint chunks {A} (fuel n : nat) (l : list A) : list (list A) :=
  match fuel, l with
  | O, _ | _, [] => []
  | S f, _ => take n l :: chunks f n (drop n l)
  end.

(** The message schedule, most recent word first. *)
Fixpoint schedule (n : nat) (w : list Z) : list Z :=
  match n with
  | O => w
  | S n' =>
    let x := add32 (add32 (ssig1 (nth 1 w 0)) (nth 6 w 0)) (add32 (ssig0 (nth 14 w 0)) (nth 15 w 0)) in
    schedule n' (x :: w)
  end.

Definition sha_round (st : list Z) (kw : Z * Z) : list Z :=
  match st with
  | [a; b; c; d; e; f; g; h] =>
    let t1 := add32 (add32 (add32 h (bsig1 e)) (add32 (ch e f g) kw.1)) kw.2 in
    let t2 := add32 (bsig0 a) (maj a b c) in
    [add32 t1 t2; a; b; c; add32 d t1; e; f; g]
  | _ => st
  end.

Definition sha_block (h : list Z) (block : list Z) : list Z :=
  let w := rev (schedule 48 (rev (map be_word (chunks 16 4 block)))) in
  zip_with add32 h (fold_left sha_round (zip sha_k w) h).

Definition sha256 (m : list Z) : list Z :=
  let p := sha_pad m in
  List.concat (map (be_bytes 4) (fold_left sha_block (chunks (length p) 64 p) sha_init)).

Definition hex_of (bs : list Z) : string := String.concat EmptyString (map (fun b => hex_byte (Z.to_N b)) bs).

(** [hashlib.sha256(s.encode()).hexdigest()] *)
Definition sha256_hex (s : string) : string := hex_of (sha256 (bytes_of s)).
(** [sha256:] followed by the digest. *)
Definition sha256_digest (s : string) : string := "sha256:" +:+ sha256_hex s.

(** [hmac.new(key, msg, sha256).hexdigest()] *)
Definition hmac_sha256 (key msg : list Z) : list Z :=
  let k0 := if (64 <? length key)%nat then sha256 key else key in
  let k := k0 ++ repeat 0 (64 - length k0)%nat in
  sha256 (map (Z.lxor 92) k ++ sha256 (map (Z.lxor 54) k ++ msg)).
Definition hmac_hex (key msg : string) : string := hex_of (hmac_sha256 (bytes_of key) (bytes_of msg)).

(** The pattern [[0-9a-f]{64}]. *)
Definition is_hex_char (c : ascii) : bool :=
  let n := code c in (((48 <=? n) && (n <=? 57)) || ((97 <=? n) && (n <=? 102)))%N%bool.
Definition is_hex_text (n : nat) (s : string) : bool :=
  (String.length s =? n)%nat && forallb is_hex_char (chars s).
(** The pattern [^sha256:[a-f0-9]{64}$]. *)
Definition is_sha256_digest (s : string) : bool :=
  startswith "sha256:" s && is_hex_text 64 (removeprefix "sha256:" s).

(** ** Lemmas *)

Lemma be_bytes_length n x : length (be_bytes n x) = n.
Proof. induction n as [|n IH]; cbn; [done|]. by rewrite IH. Qed.

Lemma be_bytes_range n x : Forall (fun b => 0 <= b < 256) (be_bytes n x).
Proof. induction n as [|n IH]; cbn; constructor; [|done]. apply Z.mod_pos_bound. lia. Qed.

Lemma sha_round_length st kw : length (sha_round st kw) = length st.
Proof.
  unfold sha_round. destruct st as [|a [|b [|c [|d [|e [|f [|g [|h [|i st]]]]]]]]]; try done.
Qed.

Lemma sha_rounds_length kws st : length (fold_left sha_round kws st) = length st.
Proof. revert st. induction kws as [|kw kws IH]; cbn; intros st; [done|]. by rewrite IH, sha_round_length. Qed.

Lemma sha_block_length h block : length (sha_block h block) = length h.
Proof. unfold sha_block. rewrite length_zip_with, sha_rounds_length. lia. Qed.

Lemma sha_blocks_length bs h : length (fold_left sha_block bs h) = length h.
Proof. revert h. induction bs as [|b bs IH]; cbn; intros h; [done|]. by rewrite IH, sha_block_length. Qed.

Lemma length_concat_const {A} (n : nat) (ls : list (list A)) :
  Forall (fun l => length l = n) ls -> length (List.concat ls) = (n * length ls)%nat.
Proof. induction 1 as [|l ls Hl _ IH]; cbn; [lia|]. rewrite length_app, IH, Hl. lia. Qed.

Lemma elem_of_concat {A} (x : A) (ls : list (list A)) :
  x ∈ List.concat ls -> exists l, x ∈ l /\ l ∈ ls.
Proof.
  rewrite list_elem_of_In, in_concat. intros (l & Hl & Hx). exists l. by rewrite !list_elem_of_In.
Qed.

(** A SHA-256 digest has 32 bytes. *)
Lemma sha256_length m : length (sha256 m) = 32%nat.
Proof.
  unfold sha256. rewrite (length_concat_const 4).
  - rewrite length_map, sha_blocks_length. reflexivity.
  - apply Forall_map, Forall_true. intros x. exact (be_bytes_length 4 x).
Qed.

Lemma sha256_bytes m : Forall (fun b => 0 <= b < 256) (sha256 m).
Proof.
  unfold sha256. apply Forall_forall. intros b Hb.
  apply elem_of_concat in Hb as (l & Hb & Hl). apply list_elem_of_fmap in Hl as (x & -> & _).
  exact (proj1 (Forall_forall _ _) (be_bytes_range 4 x) b Hb).
Qed.

Lemma hex_digit_is_hex n : (n < 16)%N -> is_hex_char (hex_digit n) = true.
Proof.
  intros Hn. assert (forallb (fun n => is_hex_char (hex_digit n)) (map N.of_nat (seq 0 16)) = true) as H
    by (vm_compute; done).
  rewrite forallb_forall in H. apply H, in_map_iff. exists (N.to_nat n). split; [lia|].
  apply in_seq. lia.
Qed.

Lemma chars_app s t : chars (s +:+ t) = chars s ++ chars t.
Proof. induction s as [|c s IH]; [done|]. change (String c s +:+ t) with (String c (s +:+ t)). cbn. by rewrite IH. Qed.

Lemma chars_length s : length (chars s) = String.length s.
Proof. induction s as [|c s IH]; cbn; [done|]. by rewrite IH. Qed.

Lemma of_chars_chars s : of_chars (chars s) = s.
Proof. apply string_of_list_ascii_of_string. Qed.

Lemma chars_of_chars l : chars (of_chars l) = l.
Proof. apply list_ascii_of_string_of_list_ascii. Qed.

Lemma chars_inj s t : chars s = chars t -> s = t.
Proof. intros H. by rewrite <- (of_chars_chars s), H, of_chars_chars. Qed.

Lemma str_app_assoc s t u : (s +:+ t) +:+ u = s +:+ (t +:+ u).
Proof. apply chars_inj. by rewrite !chars_app, app_assoc. Qed.

Lemma str_app_inj_l p s t : p +:+ s = p +:+ t -> s = t.
Proof. intros H. apply (f_equal list_ascii_of_string) in H. rewrite !chars_app in H. by apply app_inv_head, chars_inj in H. Qed.

Lemma chars_concat_nil ss : chars (String.concat EmptyString ss) = List.concat (map chars ss).
Proof.
  induction ss as [|s ss IH]; [done|]. destruct ss as [|t ss].
  - cbn. by rewrite app_nil_r.
  - change (String.concat EmptyString (s :: t :: ss)) with (s +:+ (EmptyString +:+ String.concat EmptyString (t :: ss))).
    rewrite chars_app. change (EmptyString +:+ String.concat EmptyString (t :: ss)) with (String.concat EmptyString (t :: ss)).
    by rewrite IH.
Qed.

Lemma hex_of_is_hex bs n :
  Forall (fun b => 0 <= b < 256) bs -> n = (2 * length bs)%nat -> is_hex_text n (hex_of bs) = true.
Proof.
  intros Hbs ->. unfold is_hex_text, hex_of. rewrite <- chars_length, chars_concat_nil, map_map.
  apply andb_true_iff. split.
  - apply Nat.eqb_eq. rewrite (length_concat_const 2); [by rewrite length_map|].
    apply Forall_map, Forall_true. intros b. done.
  - apply forallb_elem. intros c Hc. apply elem_of_concat in Hc as (l & Hc & Hl).
    apply list_elem_of_fmap in Hl as (b & -> & Hb). unfold hex_byte in Hc. rewrite chars_of_chars in Hc.
    pose proof (proj1 (Forall_forall _ _) Hbs b Hb) as Hr. cbn in Hr.
    apply elem_of_cons in Hc as [->|Hc]; [|apply list_elem_of_singleton in Hc as ->]; apply hex_digit_is_hex.
    + apply N.Div0.div_lt_upper_bound. lia.
    + apply N.mod_lt. lia.
Qed.

Lemma drop_app_exact {A} (l k : list A) : drop (length l) (l ++ k) = k.
Proof. by rewrite drop_app_length. Qed.

Lemma removeprefix_app p s : removeprefix p (p +:+ s) = s.
Proof.
  unfold removeprefix. rewrite startswith_app, chars_app, <- chars_length, drop_app_exact.
  apply of_chars_chars.
Qed.

Lemma sha256_hex_is_hex s : is_hex_text 64 (sha256_hex s) = true.
Proof. unfold sha256_hex. apply hex_of_is_hex; [apply sha256_bytes|]. by rewrite sha256_length. Qed.

(** Every digest the services compute has the shape their contracts require. *)
Lemma sha256_digest_shape s : is_sha256_digest (sha256_digest s) = true.
Proof.
  unfold is_sha256_digest, sha256_digest. rewrite startswith_app, removeprefix_app.
  apply sha256_hex_is_hex.
Qed.

#[export] Hint Resolve sha256_digest_shape sha256_hex_is_hex : opm.

Example sha_ex : sha256_hex "abc" = "ba7816bf8f01cfea414140de5dae2223b00361a396177a9cb410ff61f20015ad".
Proof. vm_compute. reflexivity. Qed.
Example sha_long_ex : sha256_hex (join EmptyString (repeat "abcdefgh" 9)) = "de0668899ce6026db77976a8680169315f2e8034aa58c21eaa677b8f7c80dfe0".
Proof. vm_compute. reflexivity. Qed.
Example hmac_ex : hmac_hex "secret" "1700000000.n-1.{}" = "b4d7c0fd7607f987339f70b2cfcc6616705e305c3a0059f49c08e9d4310338eb".
Proof. vm_compute. reflexivity. Qed.

(** [base64.b64decode(s, validate=True)]: characters outside the alphabet and
    misplaced padding are errors. *)
Definition b64_value (c : ascii) : option Z :=
  let n := Z.of_N (code c) in
  if (65 <=? n) && (n <=? 90) then Some (n - 65)
  else if (97 <=? n) && (n <=? 122) then Some (n - 71)
  else if (48 <=? n) && (n <=? 57) then Some (n + 4)
  else if n =? 43 then Some 62
  else if n =? 47 then Some 63
  else None.
Fixpoint b64_groups (fuel : nat) (l : list ascii) : option (list Z) :=
  match fuel, l with
  | _, [] => Some []
  | S f, [a; b; "="%char; "="%char] =>
      match b64_value a, b64_value b with
      | Some x, Some y => Some [x * 4 + y / 16]
      | _, _ => None
      end
  | S f, [a; b; c; "="%char] =>
      match b64_value a, b64_value b, b64_value c with
      | Some x, Some y, Some z => Some [x * 4 + y / 16; (y mod 16) * 16 + z / 4]
      | _, _, _ => None
      end
  | S f, a :: b :: c :: d :: r =>
      match b64_value a, b64_value b, b64_value c, b64_value d, b64_groups f r with
      | Some x, Some y, Some z, Some w, Some bs =>
          Some (x * 4 + y / 16 :: (y mod 16) * 16 + z / 4 :: (z mod 4) * 64 + w :: bs)
      | _, _, _, _, _ => None
      end
  | _, _ => None
  end.
Definition b64decode (s : string) : res (list Z) :=
  match b64_groups (String.length s) (chars s) with
  | Some bs => Ok bs
  | None => raise ValueError "Incorrect padding"
  end.

Example b64_ex : b64decode "aGVsbG8=" = Ok (bytes_of "hello") /\ is_ok (b64decode "a!==") = false.
Proof. vm_compute. done. Qed.

(** [base64.b64decode(s)] without validation: characters outside the alphabet
    are skipped and a complete padding ends the text. *)
Fixpoint b64_lax (l : list ascii) (pos : nat) (left pads : Z) (out : list Z) : option (list Z) :=
  match l with
  | [] => match pos with O => Some (rev out) | _ => None end
  | c :: r =>
      if bool_decide (c = "="%char) then
        match pos with
        | S (S _) => if Z.of_nat pos + (pads + 1) >=? 4 then Some (rev out) else b64_lax r pos left (pads + 1) out
        | _ => b64_lax r pos left pads out
        end
      else match b64_value c with
      | None => b64_lax r pos left pads out
      | Some v =>
          match pos with
          | O => b64_lax r 1 v 0 out
          | 1%nat => b64_lax r 2 (Z.land v 15) 0 (Z.lor (Z.shiftl left 2) (Z.shiftr v 4) :: out)
          | 2%nat => b64_lax r 3 (Z.land v 3) 0 (Z.lor (Z.shiftl left 4) (Z.shiftr v 2) :: out)
          | _ => b64_lax r 0 0 0 (Z.lor (Z.shiftl left 6) v :: out)
          end
      end
  end.
Definition b64decode_lax (s : string) : res (list Z) :=
  match b64_lax (chars s) 0 0 0 [] with
  | Some l => Ok l
  | None => raise ValueError "Incorrect padding"
  end.

Example b64_lax_ex : b64decode_lax "aGV
sbG8=zz" = Ok [104; 101; 108; 108; 111] /\ is_ok (b64decode_lax "aGVsb") = false.
Proof. vm_compute. done. Qed.
