(* ===== verification/Regex.v ===== *)
(** * Regular expressions

    The patterns of the source ([re.fullmatch], [re.search] and the anchored
    patterns of the request models) as regular expressions over characters,
    matched by derivatives, with the declarative meaning of a match and the
    proof that the matcher decides it. *)

From Stdlib Require Import String Ascii ZArith Lia.
From stdpp Require Import base list strings.
From S2P Require Import Prelude PyStr Hash.

Inductive re :=
| Void
| Eps
| Chr (f : ascii -> bool)
| Cat (r s : re)
| Alt (r s : re)
| Star (r : re).

Fixpoint nullable (r : re) : bool :=
  match r with
  | Void | Chr _ => false
  | Eps | Star _ => true
  | Cat r s => nullable r && nullable s
  | Alt r s => nullable r || nullable s
  end.

Fixpoint deriv (c : ascii) (r : re) : re :=
  match r with
  | Void | Eps => Void
  | Chr f => if f c then Eps else Void
  | Cat r s => if nullable r then Alt (Cat (deriv c r) s) (deriv c s) else Cat (deriv c r) s
  | Alt r s => Alt (deriv c r) (deriv c s)
  | Star r => Cat (deriv c r) (Star r)
  end.

Fixpoint match_all (r : re) (l : list ascii) : bool :=
  match l with
  | [] => nullable r
  | c :: l' => match_all (deriv c r) l'
  end.

(** [re.fullmatch(r, s)] *)
Definition fullmatch (r : re) (s : string) : bool := match_all r (chars s).

(** Does a prefix match? *)
Fixpoint match_prefix (r : re) (l : list ascii) : bool :=
  nullable r || match l with [] => false | c :: l' => match_prefix (deriv c r) l' end.
Fixpoint search_chars (r : re) (l : list ascii) : bool :=
  match_prefix r l || match l with [] => false | _ :: l' => search_chars r l' end.
(** [re.search(r, s) is not None] *)
Definition search (r : re) (s : string) : bool := search_chars r (chars s).

Definition one_of (s : string) (c : ascii) : bool := has_char c s.
Definition is_lower (c : ascii) : bool := let n := code c in ((97 <=? n) && (n <=? 122))%N%bool.
Definition is_lower_digit (c : ascii) : bool := is_lower c || is_digit c.
(** A literal, and a literal matched without regard to case. *)
Definition lit_by (eqc : ascii -> ascii -> bool) (s : string) : re :=
  fold_right (fun c r => Cat (Chr (eqc c)) r) Eps (chars s).
Definition lit (s : string) : re := lit_by (fun c d => bool_decide (c = d)) s.
Definition lit_ci (s : string) : re := lit_by (fun c d => bool_decide (lower_char c = lower_char d)) s.
Definition plus (r : re) : re := Cat r (Star r).
Definition opt (r : re) : re := Alt r Eps.
Fixpoint rep_opt (n : nat) (r : re) : re := match n with O => Eps | S n' => opt (Cat r (rep_opt n' r)) end.
Fixpoint rep (n : nat) (r : re) : re := match n with O => Eps | S n' => Cat r (rep n' r) end.
(** [r{n,m}] *)
Definition rep_range (n m : nat) (r : re) : re := Cat (rep n r) (rep_opt (m - n) r).
Definition alts (rs : list re) : re := fold_right Alt Void rs.
Definition cats (rs : list re) : re := fold_right Cat Eps rs.

(** ** Meaning *)

Inductive matches : re -> list ascii -> Prop :=
| m_eps : matches Eps []
| m_chr f c : f c = true -> matches (Chr f) [c]
| m_cat r s l1 l2 : matches r l1 -> matches s l2 -> matches (Cat r s) (l1 ++ l2)
| m_alt_l r s l : matches r l -> matches (Alt r s) l
| m_alt_r r s l : matches s l -> matches (Alt r s) l
| m_star_nil r : matches (Star r) []
| m_star_cons r l1 l2 : matches r l1 -> matches (Star r) l2 -> matches (Star r) (l1 ++ l2).

#[export] Hint Constructors matches : opm.

Lemma nullable_spec r : nullable r = true <-> matches r [].
Proof.
  split.
  - induction r; cbn; intros H; try done; auto with opm.
    + apply andb_true_iff in H as [H1 H2]. change (@nil ascii) with (@nil ascii ++ []). auto with opm.
    + apply orb_true_iff in H as [H|H]; auto with opm.
  - intros H. remember (@nil ascii) as l eqn:El. induction H; cbn; try done.
    + apply app_nil in El as [-> ->]. by rewrite IHmatches1, IHmatches2.
    + by rewrite IHmatches.
    + rewrite IHmatches by done. apply orb_true_r.
Qed.

Lemma star_cons_inv r c l :
  matches (Star r) (c :: l) -> exists l1 l2, l = l1 ++ l2 /\ matches r (c :: l1) /\ matches (Star r) l2.
Proof.
  intros H. remember (Star r) as q eqn:Eq. remember (c :: l) as k eqn:Ek. revert l Ek.
  induction H; intros k Ek; try discriminate. injection Eq as ->.
  destruct l1 as [|d l1]; [by apply IHmatches2|]. injection Ek as -> <-. eauto.
Qed.

Lemma deriv_spec r c l : matches (deriv c r) l <-> matches r (c :: l).
Proof.
  revert l. induction r as [| |f|r IHr s IHs|r IHr s IHs|r IHr]; cbn; intros l.
  - split; inversion 1.
  - split; inversion 1.
  - split.
    + destruct (f c) eqn:E; inversion 1; subst. by constructor.
    + inversion 1; subst. rewrite H2. constructor.
  - assert (matches (Cat (deriv c r) s) l <-> exists l1 l2, l = l1 ++ l2 /\ matches r (c :: l1) /\ matches s l2) as Hcat.
    { split; [inversion 1; subst; eexists _, _; split; [done|]; by rewrite <- IHr|].
      intros (l1 & l2 & -> & H1 & H2). constructor; [by apply IHr|done]. }
    destruct (nullable r) eqn:En.
    + split.
      * inversion 1 as [| | |? ? ? H0|? ? ? H0| |]; subst.
        -- apply Hcat in H0 as (l1 & l2 & -> & H1 & H2). change (c :: l1 ++ l2) with ((c :: l1) ++ l2). by constructor.
        -- apply IHs in H0. apply nullable_spec in En. change (c :: l) with ([] ++ c :: l). by constructor.
      * inversion 1 as [| |? ? l1 l2 H1 H2 E1 E2| | | |]; subst. destruct l1 as [|d l1].
        -- cbn in E2. subst. apply m_alt_r. by apply IHs.
        -- injection E2 as -> <-. apply m_alt_l, Hcat. eauto.
    + rewrite Hcat. split.
      * intros (l1 & l2 & -> & H1 & H2). change (c :: l1 ++ l2) with ((c :: l1) ++ l2). by constructor.
      * inversion 1 as [| |? ? l1 l2 H1 H2 E1 E2| | | |]; subst. destruct l1 as [|d l1].
        -- apply nullable_spec in H1. congruence.
        -- injection E2 as -> <-. eauto.
  - split; inversion 1; subst; [apply m_alt_l|apply m_alt_r|apply m_alt_l|apply m_alt_r]; firstorder.
  - split.
    + inversion 1 as [| |? ? l1 l2 H1 H2 E1 E2| | | |]; subst.
      change (c :: l1 ++ l2) with ((c :: l1) ++ l2). constructor; [by apply IHr|done].
    + intros (l1 & l2 & -> & H1 & H2)%star_cons_inv. constructor; [by apply IHr|done].
Qed.

Lemma match_all_spec r l : match_all r l = true <-> matches r l.
Proof.
  revert r. induction l as [|c l IH]; cbn; intros r; [apply nullable_spec|].
  by rewrite IH, deriv_spec.
Qed.

(** The matcher decides the declarative meaning of the pattern. *)
Lemma fullmatch_spec r s : fullmatch r s = true <-> matches r (chars s).
Proof. apply match_all_spec. Qed.

Lemma matches_rep n f l : matches (rep n (Chr f)) l -> length l = n /\ Forall (fun c => f c = true) l.
Proof.
  revert l. induction n as [|n IH]; cbn; intros l H; inversion H; subst; [done|].
  match goal with H1 : matches (Chr f) _ |- _ => inversion H1; subst end.
  match goal with H1 : matches (rep n _) _ |- _ => apply IH in H1 as [<- ?] end.
  split; [done|]. by constructor.
Qed.

Lemma matches_rep_opt n f l : matches (rep_opt n (Chr f)) l -> (length l <= n)%nat /\ Forall (fun c => f c = true) l.
Proof.
  revert l. induction n as [|n IH]; cbn; intros l H; inversion H; subst; cbn.
  - split; [lia|done].
  - match goal with H1 : matches (Cat _ _) _ |- _ => inversion H1; subst end.
    match goal with H1 : matches (Chr f) _ |- _ => inversion H1; subst end.
    match goal with H1 : matches (rep_opt n _) _ |- _ => apply IH in H1 as [? ?] end.
    cbn. split; [lia|by constructor].
  - match goal with H1 : matches Eps _ |- _ => inversion H1; subst end. cbn. split; [lia|done].
Qed.

Lemma matches_rep_range n m f l :
  matches (rep_range n m (Chr f)) l ->
  (n <= length l <= n + (m - n))%nat /\ Forall (fun c => f c = true) l.
Proof.
  unfold rep_range. inversion 1 as [| |? ? l1 l2 H1 H2| | | |]; subst.
  apply matches_rep in H1 as [? ?]. apply matches_rep_opt in H2 as [? ?].
  rewrite length_app. split; [lia|]. by apply Forall_app.
Qed.

Example fullmatch_ex :
  let r := Cat (Chr is_lower) (rep_range 2 62 (Chr (fun c => is_lower_digit c || one_of "-" c))) in
  fullmatch r "fraud-model" = true /\ fullmatch r "ab" = false /\ fullmatch r "Fraud" = false.
Proof. vm_compute. done. Qed.
