(* ===== verification/Json.v ===== *)
(** * JSON documents

    Field access, truth values and the text [json.dumps] produces, with its
    [sort_keys] and [separators] options.  Columns that hold [json.dumps(doc)]
    and are read back with [json.loads] hold the document itself in the
    development: [JsonText] shows that the two are inverse up to the order of
    object keys. *)

From Stdlib Require Import String Ascii ZArith Lia SpecFloat.
From stdpp Require Import base list strings sorting.
From S2P Require Import Prelude PyStr PyDict PyFloat Hash.

(** [doc.get(k)] on an object; other documents have no fields. *)
Definition jget (k : string) (j : json) : option json :=
  match j with JObj kvs => dget k kvs | _ => None end.
(** [doc[k]] *)
Definition jfield (k : string) (j : json) : res json :=
  match jget k j with Some v => Ok v | None => raise KeyError k end.
Definition jstr (j : json) : res string :=
  match j with JStr s => Ok s | _ => raise TypeError "expected a string" end.
Definition jint (j : json) : res Z :=
  match j with JInt z => Ok z | _ => raise TypeError "expected an integer" end.
Definition jbool (j : json) : res bool :=
  match j with JBool b => Ok b | _ => raise TypeError "expected a boolean" end.
Definition jopt_str (o : option string) : json := match o with Some s => JStr s | None => JNull end.
Definition jstr_opt (j : json) : res (option string) :=
  match j with JNull => Ok None | JStr s => Ok (Some s) | _ => raise TypeError "expected a string" end.
Definition jlist (j : json) : res (list json) :=
  match j with JArr l => Ok l | _ => raise TypeError "expected a list" end.
Definition jobj (j : json) : res (dict string json) :=
  match j with JObj kvs => Ok kvs | _ => raise TypeError "expected an object" end.
Definition jstrs (l : list string) : json := JArr (map JStr l).

(** [doc[k]] read at a type. *)
Definition fstr (k : string) (j : json) : res string := let? v := jfield k j in jstr v.
Definition fint (k : string) (j : json) : res Z := let? v := jfield k j in jint v.
Definition fbool (k : string) (j : json) : res bool := let? v := jfield k j in jbool v.
Definition fopt (k : string) (j : json) : res (option string) := let? v := jfield k j in jstr_opt v.
Definition flist (k : string) (j : json) : res (list json) := let? v := jfield k j in jlist v.
Definition fobj (k : string) (j : json) : res (dict string json) := let? v := jfield k j in jobj v.

Definition ffloat (k : string) (j : json) : res float :=
  let? v := jfield k j in
  match v with JFloat f => Ok f | JInt z => Ok (f_of_Z z) | _ => raise TypeError "expected a number" end.
(** [doc.get(k, default)] of a string field. *)
Definition fstr_or (k d : string) (j : json) : res string :=
  match jget k j with Some v => jstr v | None => Ok d end.
Definition fopt_or (k : string) (j : json) : res (option string) :=
  match jget k j with Some v => jstr_opt v | None => Ok None end.

(** [float(doc)] *)
Definition float_of_json (j : json) : res float :=
  match j with
  | JBool b => Ok (f_of_Z (if b then 1 else 0))
  | JInt z => if is_finite (f_of_Z z) then Ok (f_of_Z z)
              else raise OverflowError "int too large to convert to float"
  | JFloat f => Ok f
  | JStr s => match float_of_str s with
              | Some f => Ok f
              | None => raise ValueError ("could not convert string to float: " +:+ repr_str s)
              end
  | _ => raise TypeError "float() argument must be a string or a real number"
  end.

(** [int(value)] of a document. *)
Definition int_of_json (j : json) : res Z :=
  match j with
  | JInt z => Ok z
  | JBool b => Ok (if b then 1 else 0)
  | JFloat f => ftrunc f
  | JStr s => match int_of_str s with
              | Some z => Ok z
              | None => raise ValueError ("invalid literal for int() with base 10: " +:+ repr_str s)
              end
  | _ => raise TypeError "int() argument must be a string or a number"
  end.

(** [bool(doc)] *)
Definition truthy (j : json) : bool :=
  match j with
  | JNull => false
  | JBool b => b
  | JInt z => negb (z =? 0)
  | JFloat f => negb (is_zero f)
  | JStr s => nonempty s
  | JArr l => match l with [] => false | _ => true end
  | JObj l => match l with [] => false | _ => true end
  end.
Definition truthy_opt (o : option json) : bool := match o with Some j => truthy j | None => false end.

(** [str(doc)] of a decoded document; strings inside containers by [repr]. *)
Fixpoint repr_json (j : json) : string :=
  match j with
  | JNull => "None"
  | JBool b => if b then "True" else "False"
  | JInt z => str_Z z
  | JFloat f => repr_float f
  | JStr s => repr_str s
  | JArr l => "[" +:+ join ", " (map repr_json l) +:+ "]"
  | JObj kvs => "{" +:+ join ", " (map (fun kv => repr_str kv.1 +:+ ": " +:+ repr_json kv.2) kvs) +:+ "}"
  end.
Definition str_json (j : json) : string := match j with JStr s => s | _ => repr_json j end.

(** [a == b] *)
Definition num_of (j : json) : option float :=
  match j with
  | JBool b => Some (f_of_Z (if b then 1 else 0))
  | JInt z => Some (f_of_Z z)
  | JFloat f => Some f
  | _ => None
  end.
Fixpoint json_eqb (a b : json) {struct a} : bool :=
  match a, b with
  | JNull, JNull => true
  | JStr s, JStr t => bool_decide (s = t)
  | JInt x, JInt y => x =? y
  | JArr l, JArr m =>
      (fix go l m := match l, m with
                     | [], [] => true
                     | x :: l', y :: m' => json_eqb x y && go l' m'
                     | _, _ => false
                     end) l m
  | JObj k1, JObj k2 =>
      (length k1 =? length k2)%nat &&
      forallb (fun kv => match dget kv.1 k2 with Some v => json_eqb kv.2 v | None => false end) k1
  | _, _ => match num_of a, num_of b with Some x, Some y => feqb x y | _, _ => false end
  end.

(** A number that is an integer on some paths (a default, a literal) and a
    float on the others. *)
Inductive number := NInt (z : Z) | NFloat (f : float).
Definition num (n : number) : float := match n with NInt z => f_of_Z z | NFloat f => f end.
Definition num_json (n : number) : json := match n with NInt z => JInt z | NFloat f => JFloat f end.

(** [doc.get(k) == s] *)
Definition jeq_str (o : option json) (s : string) : bool :=
  match o with Some (JStr t) => bool_decide (t = s) | _ => false end.

(** [dict(value)] of a decoded document: an object as it is, or the pairs of an
    iterable; a key that is no text is kept as its text. *)
Definition pair_of (j : json) : res (string * json) :=
  match j with
  | JArr [k; v] => match k with JArr _ | JObj _ => raise TypeError "unhashable type" | _ => Ok (str_json k, v) end
  | JObj [(k, _); (k', _)] => Ok (k, JStr k')
  | JStr (String a (String b EmptyString)) => Ok (of_chars [a], JStr (of_chars [b]))
  | JArr _ | JObj _ | JStr _ => raise ValueError "dictionary update sequence element has the wrong length; 2 is required"
  | _ => raise TypeError "cannot convert dictionary update sequence element to a sequence"
  end.
Definition dict_of_json (j : json) : res (dict string json) :=
  match j with
  | JObj kvs => Ok kvs
  | JArr l => let? kvs := map_res pair_of l in Ok (dict_of kvs)
  | JStr s => let? kvs := map_res (fun a => pair_of (JStr (of_chars [a]))) (chars s) in Ok (dict_of kvs)
  | _ => raise TypeError "object is not iterable"
  end.
(** Text of a document ([ensure_ascii]). *)
Definition json_char (c : ascii) : string :=
  let n := code c in
  if bool_decide (c = dquote) || bool_decide (c = bslash) then of_chars [bslash; c]
  else if (n =? 10)%N then of_chars [bslash; "n"%char]
  else if (n =? 13)%N then of_chars [bslash; "r"%char]
  else if (n =? 9)%N then of_chars [bslash; "t"%char]
  else if (n =? 12)%N then of_chars [bslash; "f"%char]
  else if (n =? 8)%N then of_chars [bslash; "b"%char]
  else if ((n <? 32) || (126 <? n))%N%bool then of_chars [bslash; "u"%char; "0"%char; "0"%char] +:+ hex_byte n
  else of_chars [c].
Definition json_string (s : string) : string :=
  of_chars [dquote] +:+ String.concat EmptyString (map json_char (chars s)) +:+ of_chars [dquote].
Definition json_float (f : float) : string :=
  match f with
  | S754_nan => "NaN"
  | S754_infinity s => if s then "-Infinity" else "Infinity"
  | _ => repr_float f
  end.
Definition key_leb {A} (x y : string * A) : bool := str_leb x.1 y.1.

Section dumps.
Context (sort_keys compact : bool).
Definition item_sep : string := if compact then "," else ", ".
Definition key_sep : string := if compact then ":" else ": ".

Fixpoint dumps_gen (j : json) : string :=
  match j with
  | JNull => "null"
  | JBool b => if b then "true" else "false"
  | JInt z => str_Z z
  | JFloat f => json_float f
  | JStr s => json_string s
  | JArr l => "[" +:+ join item_sep (map dumps_gen l) +:+ "]"
  | JObj kvs =>
      let fields := map (fun kv => (kv.1, dumps_gen kv.2)) kvs in
      let ordered := if sort_keys then isort key_leb fields else fields in
      "{" +:+ join item_sep (map (fun kv => json_string kv.1 +:+ key_sep +:+ kv.2) ordered) +:+ "}"
  end.
End dumps.

(** [json.dumps(j)], [json.dumps(j, sort_keys=True)] and
    [json.dumps(j, sort_keys=True, separators=(",", ":"))]. *)
Definition dumps (j : json) : string := dumps_gen false false j.
Definition dumps_sorted (j : json) : string := dumps_gen true false j.
Definition dumps_canonical (j : json) : string := dumps_gen true true j.

(** The document [json.loads(json.dumps(j, sort_keys=True))]: every object with
    its keys in order. *)
Fixpoint jsort (j : json) : json :=
  match j with
  | JArr l => JArr (map jsort l)
  | JObj kvs => JObj (isort key_leb (map (fun kv => (kv.1, jsort kv.2)) kvs))
  | _ => j
  end.

(** ["sha256:" + sha256(json.dumps(j, sort_keys=True, separators=(",", ":")))] *)
Definition canonical_digest (j : json) : string := sha256_digest (dumps_canonical j).

(** ** [json.loads] *)

Definition is_json_ws (c : ascii) : bool := existsb (N.eqb (code c)) [32; 9; 10; 13]%N.
Definition skip_ws (l : list ascii) : list ascii := drop_while is_json_ws l.
Fixpoint span (f : ascii -> bool) (l : list ascii) : list ascii * list ascii :=
  match l with
  | [] => ([], [])
  | c :: r => if f c then let '(a, b) := span f r in (c :: a, b) else ([], l)
  end.
Fixpoint eat (p l : list ascii) : option (list ascii) :=
  match p, l with
  | [], _ => Some l
  | c :: p', d :: l' => if bool_decide (c = d) then eat p' l' else None
  | _ :: _, [] => None
  end.
Definition hex_val (c : ascii) : option N :=
  let n := code c in
  if ((48 <=? n) && (n <=? 57))%N%bool then Some (n - 48)%N
  else if ((97 <=? n) && (n <=? 102))%N%bool then Some (n - 87)%N
  else if ((65 <=? n) && (n <=? 70))%N%bool then Some (n - 55)%N else None.
(** A [\\uXXXX] escape; only the characters of the alphabet have a value. *)
Definition unicode_escape (a b c d : ascii) : option ascii :=
  match hex_val a, hex_val b, hex_val c, hex_val d with
  | Some a, Some b, Some c, Some d =>
      let n := (4096 * a + 256 * b + 16 * c + d)%N in
      if (n <? 256)%N then Some (ascii_of_N n) else None
  | _, _, _, _ => None
  end.
Definition simple_escape (c : ascii) : option ascii :=
  if bool_decide (c = dquote) || bool_decide (c = bslash) || bool_decide (c = "/"%char) then Some c
  else match c with
       | "b"%char => Some "008"%char | "f"%char => Some "012"%char | "n"%char => Some "010"%char
       | "r"%char => Some "013"%char | "t"%char => Some "009"%char | _ => None
       end.
(** The characters up to the closing quote. *)
Fixpoint string_body (l : list ascii) : option (list ascii * list ascii) :=
  match l with
  | [] => None
  | c :: r =>
      if bool_decide (c = dquote) then Some ([], r)
      else if bool_decide (c = bslash) then
        match r with
        | "u"%char :: a :: b :: c' :: d :: r' =>
            match unicode_escape a b c' d, string_body r' with
            | Some x, Some (t, rest) => Some (x :: t, rest)
            | _, _ => None
            end
        | e :: r' =>
            match simple_escape e, string_body r' with
            | Some x, Some (t, rest) => Some (x :: t, rest)
            | _, _ => None
            end
        | [] => None
        end
      else if (code c <? 32)%N then None
      else match string_body r with Some (t, rest) => Some (c :: t, rest) | None => None end
  end.
(** An integer or floating-point literal: its sign, integer digits, fraction and
    exponent, each with the rest of the text. *)
Definition minus_part (l : list ascii) : bool * list ascii :=
  match l with c :: r => if bool_decide (c = "-"%char) then (true, r) else (false, l) | [] => (false, l) end.
Definition int_part (l : list ascii) : list ascii * list ascii :=
  match l with
  | c :: r => if bool_decide (c = "0"%char) then (["0"%char], r) else span is_digit l
  | [] => ([], [])
  end.
Definition frac_part (l : list ascii) : list ascii * list ascii :=
  match l with
  | c :: r =>
      if bool_decide (c = "."%char) then
        match span is_digit r with ([], _) => ([], l) | (ds, r') => ("."%char :: ds, r') end
      else ([], l)
  | [] => ([], [])
  end.
Definition sign_part (l : list ascii) : list ascii * list ascii :=
  match l with
  | c :: r => if bool_decide (c = "-"%char) || bool_decide (c = "+"%char) then ([c], r) else ([], l)
  | [] => ([], [])
  end.
Definition exp_part (l : list ascii) : list ascii * list ascii :=
  match l with
  | c :: r =>
      if bool_decide (c = "e"%char) || bool_decide (c = "E"%char) then
        let '(sg, r') := sign_part r in
        match span is_digit r' with ([], _) => ([], l) | (ds, r'') => ("e"%char :: sg ++ ds, r'') end
      else ([], l)
  | [] => ([], [])
  end.
Definition number_body (l : list ascii) : option (json * list ascii) :=
  let '(neg, r) := minus_part l in
  let '(ip, r1) := int_part r in
  match ip with
  | [] => None
  | _ =>
    let '(fp, r2) := frac_part r1 in
    let '(ep, r3) := exp_part r2 in
    match fp ++ ep with
    | [] => Some (JInt (if neg then - digits_val ip else digits_val ip), r3)
    | tail =>
        match float_of_str (of_chars (ip ++ tail)) with
        | Some f => Some (JFloat (if neg then fneg f else f), r3)
        | None => None
        end
    end
  end.

Section parse.
(** The value parser one level down. *)
Context (value : list ascii -> option (json * list ascii)).

(** Elements after the first, up to the closing bracket. *)
Fixpoint array_rest (fuel : nat) (l : list ascii) : option (list json * list ascii) :=
  match fuel, skip_ws l with
  | S f, "]"%char :: r => Some ([], r)
  | S f, ","%char :: r =>
      match value (skip_ws r) with
      | Some (v, r1) => match array_rest f r1 with Some (vs, r2) => Some (v :: vs, r2) | None => None end
      | None => None
      end
  | _, _ => None
  end.
Definition member (l : list ascii) : option ((string * json) * list ascii) :=
  match l with
  | c :: r =>
      if bool_decide (c = dquote) then
        match string_body r with
        | Some (k, r1) =>
            match skip_ws r1 with
            | ":"%char :: r2 =>
                match value (skip_ws r2) with Some (v, r3) => Some ((of_chars k, v), r3) | None => None end
            | _ => None
            end
        | None => None
        end
      else None
  | [] => None
  end.
Fixpoint object_rest (fuel : nat) (l : list ascii) : option (list (string * json) * list ascii) :=
  match fuel, skip_ws l with
  | S f, "}"%char :: r => Some ([], r)
  | S f, ","%char :: r =>
      match member (skip_ws r) with
      | Some (kv, r1) => match object_rest f r1 with Some (kvs, r2) => Some (kv :: kvs, r2) | None => None end
      | None => None
      end
  | _, _ => None
  end.
End parse.

Fixpoint parse_value (fuel : nat) (l : list ascii) : option (json * list ascii) :=
  match fuel with
  | O => None
  | S f =>
    match l with
    | "n"%char :: _ => (fun r => (JNull, r)) <$> eat (chars "null") l
    | "t"%char :: _ => (fun r => (JBool true, r)) <$> eat (chars "true") l
    | "f"%char :: _ => (fun r => (JBool false, r)) <$> eat (chars "false") l
    | "N"%char :: _ => (fun r => (JFloat S754_nan, r)) <$> eat (chars "NaN") l
    | "I"%char :: _ => (fun r => (JFloat finf, r)) <$> eat (chars "Infinity") l
    | "-"%char :: "I"%char :: _ => (fun r => (JFloat fninf, r)) <$> eat (chars "-Infinity") l
    | "["%char :: r =>
        match skip_ws r with
        | "]"%char :: r1 => Some (JArr [], r1)
        | r1 => match parse_value f r1 with
                | Some (v, r2) => match array_rest (parse_value f) f r2 with
                                  | Some (vs, r3) => Some (JArr (v :: vs), r3) | None => None end
                | None => None
                end
        end
    | "{"%char :: r =>
        match skip_ws r with
        | "}"%char :: r1 => Some (JObj [], r1)
        | r1 => match member (parse_value f) r1 with
                | Some (kv, r2) => match object_rest (parse_value f) f r2 with
                                   | Some (kvs, r3) => Some (JObj (dict_of (kv :: kvs)), r3) | None => None end
                | None => None
                end
        end
    | c :: r =>
        if bool_decide (c = dquote) then
          (fun tr => (JStr (of_chars tr.1), tr.2)) <$> string_body r
        else number_body l
    | [] => None
    end
  end.

(** [json.loads(s)]; [None] where it raises [JSONDecodeError].  Every call of
    the parser consumes a character, so the length of the text is enough fuel. *)
Definition loads (s : string) : option json :=
  let l := skip_ws (chars s) in
  match parse_value (S (length l)) l with
  | Some (v, r) => match skip_ws r with [] => Some v | _ => None end
  | None => None
  end.

(** Objects stored with [sort_keys=True] come back with their keys in order. *)
Definition sort_obj {A} (kvs : dict string A) : dict string A := isort key_leb kvs.

Lemma sort_obj_deq {A} (kvs : dict string A) : dwf kvs -> deq (sort_obj kvs) kvs.
Proof. intros H. symmetry. apply perm_deq; [done|]. symmetry. apply isort_perm. Qed.

Lemma sort_obj_wf {A} (kvs : dict string A) : dwf kvs -> dwf (sort_obj kvs).
Proof. unfold dwf, dkeys. intros H. by rewrite (Permutation_map fst (isort_perm key_leb kvs)). Qed.

Lemma jfield_ok k j v : jget k j = Some v -> jfield k j = Ok v.
Proof. unfold jfield. by intros ->. Qed.

Lemma dget_map {A B} (f : A -> B) k (kvs : dict string A) :
  dget k (map (fun kv => (kv.1, f kv.2)) kvs) = f <$> dget k kvs.
Proof. induction kvs as [|[k' v] kvs IH]; cbn; [done|]. by case_decide. Qed.

Lemma dkeys_map {A B} (f : A -> B) (kvs : dict string A) :
  dkeys (map (fun kv => (kv.1, f kv.2)) kvs) = dkeys kvs.
Proof. unfold dkeys. rewrite map_map. done. Qed.

(** Sorting the keys of a stored document does not change its fields. *)
Lemma jget_jsort k kvs : dwf kvs -> jget k (jsort (JObj kvs)) = jsort <$> dget k kvs.
Proof.
  intros H. cbn [jsort jget]. rewrite <- (dget_map jsort). apply sort_obj_deq.
  unfold dwf. by rewrite dkeys_map.
Qed.

Lemma jfield_jsort k kvs v : dwf kvs -> dget k kvs = Some v -> jfield k (jsort (JObj kvs)) = Ok (jsort v).
Proof. intros H Hk. apply jfield_ok. by rewrite jget_jsort, Hk. Qed.

Lemma map_res_map {A B C} (f : B -> res C) (g : A -> B) (h : A -> C) l :
  (forall x, x ∈ l -> f (g x) = Ok (h x)) -> map_res f (map g l) = Ok (map h l).
Proof.
  induction l as [|x l IH]; cbn; intros H; [done|].
  rewrite (H x) by (by left). unfold mbind, res_bind. rewrite IH; [done|].
  intros y Hy. apply H. by right.
Qed.

(** Sorting by key ignores the values. *)
Lemma isort_key_map {A B} (f : A -> B) (kvs : dict string A) :
  isort key_leb (map (fun kv => (kv.1, f kv.2)) kvs) = map (fun kv => (kv.1, f kv.2)) (isort key_leb kvs).
Proof.
  induction kvs as [|[k a] kvs IH]; cbn; [done|]. rewrite IH. clear IH.
  generalize (isort key_leb kvs). intros l.
  induction l as [|[k' a'] l IH]; cbn; [done|]. unfold key_leb at 1 3. cbn.
  destruct (str_leb k k'); cbn; [done|]. by rewrite IH.
Qed.
Lemma jsort_sort_obj {A} (f : A -> json) (kvs : dict string A) :
  jsort (JObj (map (fun kv => (kv.1, f kv.2)) kvs)) = JObj (map (fun kv => (kv.1, jsort (f kv.2))) (sort_obj kvs)).
Proof. cbn [jsort]. f_equal. rewrite map_map. cbn. apply (isort_key_map (fun a => jsort (f a))). Qed.

Lemma jsort_jopt_str o : jsort (jopt_str o) = jopt_str o.
Proof. by destruct o. Qed.

Lemma jstr_opt_jopt_str o : jstr_opt (jopt_str o) = Ok o.
Proof. by destruct o. Qed.

Lemma canonical_digest_shape j : is_sha256_digest (canonical_digest j) = true.
Proof. apply sha256_digest_shape. Qed.

(** A literal field list has distinct keys. *)
Ltac solve_keys := unfold dwf; apply (bool_decide_unpack _); vm_compute; exact I.

Section stored_fields.
Context (k : string) (kvs : dict string json) (Hwf : dwf kvs).

Lemma fstr_jsort s : dget k kvs = Some (JStr s) -> fstr k (jsort (JObj kvs)) = Ok s.
Proof. intros H. unfold fstr. by rewrite (jfield_jsort _ _ _ Hwf H). Qed.
Lemma fint_jsort z : dget k kvs = Some (JInt z) -> fint k (jsort (JObj kvs)) = Ok z.
Proof. intros H. unfold fint. by rewrite (jfield_jsort _ _ _ Hwf H). Qed.
Lemma fbool_jsort b : dget k kvs = Some (JBool b) -> fbool k (jsort (JObj kvs)) = Ok b.
Proof. intros H. unfold fbool. by rewrite (jfield_jsort _ _ _ Hwf H). Qed.
Lemma fopt_jsort o : dget k kvs = Some (jopt_str o) -> fopt k (jsort (JObj kvs)) = Ok o.
Proof. intros H. unfold fopt. rewrite (jfield_jsort _ _ _ Hwf H). by destruct o. Qed.
Lemma flist_jsort l : dget k kvs = Some (JArr l) -> flist k (jsort (JObj kvs)) = Ok (map jsort l).
Proof. intros H. unfold flist. by rewrite (jfield_jsort _ _ _ Hwf H). Qed.
Lemma ffloat_jsort f : dget k kvs = Some (JFloat f) -> ffloat k (jsort (JObj kvs)) = Ok f.
Proof. intros H. unfold ffloat. by rewrite (jfield_jsort _ _ _ Hwf H). Qed.
Lemma jfield_obj_jsort o : dget k kvs = Some (JObj o) -> jfield k (jsort (JObj kvs)) = Ok (jsort (JObj o)).
Proof. intros H. by rewrite (jfield_jsort _ _ _ Hwf H). Qed.
Lemma fstr_or_jsort s d : dget k kvs = Some (JStr s) -> fstr_or k d (jsort (JObj kvs)) = Ok s.
Proof. intros H. unfold fstr_or. by rewrite jget_jsort, H. Qed.
Lemma fopt_or_jsort o : dget k kvs = Some (jopt_str o) -> fopt_or k (jsort (JObj kvs)) = Ok o.
Proof. intros H. unfold fopt_or. rewrite jget_jsort, H by done. by destruct o. Qed.
Lemma fobj_jsort {A} (f : A -> json) (kvs' : dict string A) :
  dget k kvs = Some (JObj (map (fun kv => (kv.1, f kv.2)) kvs')) ->
  fobj k (jsort (JObj kvs)) = Ok (map (fun kv => (kv.1, jsort (f kv.2))) (sort_obj kvs')).
Proof. intros H. unfold fobj. by rewrite (jfield_jsort _ _ _ Hwf H), jsort_sort_obj. Qed.
End stored_fields.

(** The order of [sorted] on strings is a total order. *)
Lemma str_leb_total a b : str_leb a b = false -> str_leb b a = true.
Proof. unfold str_leb. destruct (String.leb_total a b); congruence. Qed.
Lemma str_leb_trans a b c : str_leb a b = true -> str_leb b c = true -> str_leb a c = true.
Proof.
  unfold str_leb. intros H1 H2. apply Is_true_true. change (String.le a c). transitivity b; by apply Is_true_true.
Qed.

(** Entries with distinct keys have one sorted arrangement. *)
Lemma isort_keys_unique {A} (d1 d2 : dict string A) :
  dwf d1 -> d1 ≡ₚ d2 -> isort key_leb d1 = isort key_leb d2.
Proof.
  intros Hwf Hp.
  assert (forall l : dict string A, Sorted (fun x y => key_leb x y = true) (isort key_leb l)) as Hs.
  { intros l. apply isort_Sorted. intros x y. apply str_leb_total. }
  apply (@Sorted_unique_strong _ (fun x y => key_leb x y = true)); [| |apply Hs|apply Hs|].
  - intros x y z. apply str_leb_trans.
  - intros x y Hx%elem_of_isort Hy%elem_of_isort H1 H2. rewrite <- Hp in Hy.
    apply (NoDup_map_inj fst d1); [done..|]. by apply String.leb_antisym.
  - by rewrite !isort_perm.
Qed.

(** An object with distinct keys has one canonical text, whatever the order
    its keys were given in. *)
Lemma dumps_obj_perm (d1 d2 : dict string json) :
  dwf d1 -> d1 ≡ₚ d2 -> dumps_canonical (JObj d1) = dumps_canonical (JObj d2).
Proof.
  intros Hwf Hp. unfold dumps_canonical. cbn [dumps_gen].
  rewrite (isort_keys_unique _ (map (fun kv => (kv.1, dumps_gen true true kv.2)) d2)); [done| |by rewrite Hp].
  unfold dwf. by rewrite dkeys_map.
Qed.

(** Read the fields of a stored document one after the other. *)
Ltac jfields :=
  repeat (first
    [ erewrite fstr_jsort; [|solve_keys|reflexivity]
    | erewrite fint_jsort; [|solve_keys|reflexivity]
    | erewrite fbool_jsort; [|solve_keys|reflexivity]
    | erewrite fopt_jsort; [|solve_keys|reflexivity]
    | erewrite ffloat_jsort; [|solve_keys|reflexivity]
    | erewrite fstr_or_jsort; [|solve_keys|reflexivity]
    | erewrite fopt_or_jsort; [|solve_keys|reflexivity]
    | erewrite flist_jsort; [|solve_keys|reflexivity] ]; cbn [mbind res_bind]).

#[export] Hint Resolve canonical_digest_shape sort_obj_wf : opm.

Example dumps_ex :
  dumps_sorted (JObj [("b", JArr [JInt 1; JFloat (fratio 1 2); JNull]); ("a", JStr "x
y")]) = of_chars (chars "{'a': 'x\ny', 'b': [1, 0.5, null]}" ≫= fun c => if bool_decide (c = squote) then [dquote] else [c]).
Proof. vm_compute. reflexivity. Qed.

Example loads_ex :
  let q := of_chars [dquote] in
  loads (" {" +:+ q +:+ "a" +:+ q +:+ ": [1, -2.5e1, true, null, {}, [ ]], " +:+ q +:+ "a" +:+ q +:+ ":" +:+
         q +:+ of_chars [bslash] +:+ "u0041" +:+ of_chars [bslash] +:+ "n" +:+ q +:+ "} ") =
    Some (JObj [("a", JStr ("A" +:+ of_chars ["010"%char]))]) /\
  loads "[1, -2.5e1, true, null, {}, [ ]]" =
    Some (JArr [JInt 1; JFloat (f_of_Z (-25)); JBool true; JNull; JObj []; JArr []]) /\
  loads "01" = None /\ loads "[1,]" = None /\ loads "{}x" = None.
Proof. vm_compute. done. Qed.

(** A digest is its own JSON text between quotes, of fixed length. *)
Lemma json_char_digest c : is_hex_char c || str_in (of_chars [c]) ["s"; "a"; ":"; "h"] = true -> json_char c = of_chars [c].
Proof. destruct c as [[] [] [] [] [] [] [] []]; vm_compute; done. Qed.

Lemma json_chars_digest l :
  Forall (fun c => is_hex_char c || str_in (of_chars [c]) ["s"; "a"; ":"; "h"] = true) l ->
  chars (String.concat EmptyString (map json_char l)) = l.
Proof.
  intros H. rewrite chars_concat_nil, map_map.
  induction H as [|c l Hc _ IH]; cbn; [done|]. by rewrite json_char_digest, IH, chars_of_chars by done.
Qed.

Lemma digest_chars s : is_sha256_digest s = true ->
  length (chars s) = 71%nat /\ chars (json_string s) = dquote :: chars s ++ [dquote].
Proof.
  unfold is_sha256_digest. intros [Hp Hh]%andb_true_iff. apply prefix_correct' in Hp as [t ->].
  rewrite removeprefix_app in Hh. unfold is_hex_text in Hh. apply andb_true_iff in Hh as [Hl Hf].
  apply Nat.eqb_eq in Hl. rewrite <- chars_length in Hl. split.
  - rewrite chars_app, length_app, Hl. done.
  - unfold json_string. rewrite !chars_app, json_chars_digest; [done|]. apply Forall_app. split.
    + by repeat constructor.
    + apply Forall_forall. intros c Hc. rewrite forallb_elem in Hf. by rewrite (Hf c Hc).
Qed.

Lemma digest_text_inj s t x y :
  is_sha256_digest s = true -> is_sha256_digest t = true ->
  json_string s +:+ x = json_string t +:+ y -> s = t /\ x = y.
Proof.
  intros [Ls Cs]%digest_chars [Lt Ct]%digest_chars H. apply (f_equal list_ascii_of_string) in H.
  rewrite !chars_app, Cs, Ct in H. injection H as H. rewrite <- !app_assoc in H.
  apply app_inj_1 in H as [H1 H2]; [|congruence]. injection H2 as H2.
  split; [by rewrite <- (of_chars_chars s), H1, of_chars_chars|].
  by rewrite <- (of_chars_chars x), H2, of_chars_chars.
Qed.
