(* ===== verification/JsonText.v ===== *)
(** * Reading back what was written

    [json.loads] on the text of [json.dumps], in each of its forms: the document
    comes back, with its keys in order where they were sorted.  This is what
    allows a column or a stream that holds a document's text to be the document
    itself in the other files.  For that, every float of the document has to be
    read back from its [repr], which [reads] computes; the keys of an object are
    distinct in Python by construction.  Without that condition a document that is
    read at all comes back up to the values of its floats ([loads_part]). *)

From Stdlib Require Import String Ascii ZArith Lia SpecFloat.
From stdpp Require Import base list strings pretty sorting.
From S2P Require Import Prelude PyStr PyDict PyFloat Hash Json.

#[export] Instance float_eq_dec : EqDecision float.
Proof. solve_decision. Defined.

(** Induction that reaches the documents of an array and of an object. *)
Section json_induction.
Context (P : json -> Prop).
Context (Hnull : P JNull) (Hbool : forall b, P (JBool b)) (Hint : forall z, P (JInt z)).
Context (Hfloat : forall f, P (JFloat f)) (Hstr : forall s, P (JStr s)).
Context (Harr : forall l, Forall P l -> P (JArr l)).
Context (Hobj : forall kvs, Forall (fun kv => P kv.2) kvs -> P (JObj kvs)).
Fixpoint json_deep_ind (j : json) : P j :=
  match j with
  | JNull => Hnull
  | JBool b => Hbool b
  | JInt z => Hint z
  | JFloat f => Hfloat f
  | JStr s => Hstr s
  | JArr l => Harr l ((fix go l : Forall P l := match l with [] => Forall_nil_2 P | x :: l' => Forall_cons_2 P x l' (json_deep_ind x) (go l') end) l)
  | JObj kvs => Hobj kvs ((fix go l : Forall (fun kv => P kv.2) l := match l with
      | [] => Forall_nil_2 (fun kv => P kv.2)
      | x :: l' => Forall_cons_2 (fun kv => P kv.2) x l' (json_deep_ind x.2) (go l')
      end) kvs)
  end.
End json_induction.

(** Does [json.loads] read the float back from its text? *)
Definition reads_float (f : float) : bool :=
  match f with
  | S754_nan | S754_infinity _ => true
  | _ => match number_body (chars (json_float f)) with Some (JFloat g, []) => bool_decide (g = f) | _ => false end
  end.
(** A document of floats that are read back and objects with distinct keys. *)
Fixpoint reads (j : json) : bool :=
  match j with
  | JFloat f => reads_float f
  | JArr l => forallb reads l
  | JObj kvs => bool_decide (NoDup (map fst kvs)) && forallb (fun kv => reads kv.2) kvs
  | _ => true
  end.
(** The document read back from a text written with or without [sort_keys]. *)
Definition read_back (sort_keys : bool) (j : json) : json := if sort_keys then jsort j else j.

(** What can follow a value in a document, and the line end of [print]. *)
Definition newline : ascii := "010"%char.
Definition stops (rest : list ascii) : Prop :=
  match rest with [] => True | c :: _ => c = ","%char \/ c = "]"%char \/ c = "}"%char \/ c = newline end.

(** ** Numbers *)

Ltac stop_cases H :=
  match type of H with stops ?r => destruct r as [|? ?]; [|destruct H as [->|[->|[->| ->]]]] end.

Lemma span_app f l rest a b : span f l = (a, b) ->
  match rest with [] => True | c :: _ => f c = false end -> span f (l ++ rest) = (a, b ++ rest).
Proof.
  intros H Hr. revert a b H. induction l as [|c l IH]; cbn; intros a b H.
  - injection H as <- <-. destruct rest as [|d rest]; cbn; [done|]. by rewrite Hr.
  - destruct (f c); [|by injection H as <- <-]. destruct (span f l) as [a' b'].
    injection H as <- <-. by rewrite (IH a' b').
Qed.
Lemma span_all f l rest : forallb f l = true ->
  match rest with [] => True | c :: _ => f c = false end -> span f (l ++ rest) = (l, rest).
Proof.
  intros H Hr. assert (span f l = (l, [])) as Hs by (clear Hr; induction l as [|c l IH]; cbn in *; [done|];
    apply andb_true_iff in H as [-> H]; by rewrite IH). by apply (span_app _ _ _ _ _ Hs).
Qed.
Lemma stops_digit rest : stops rest -> match rest with [] => True | c :: _ => is_digit c = false end.
Proof. intros H. by stop_cases H. Qed.

Lemma minus_part_app l rest : stops rest -> minus_part (l ++ rest) = ((minus_part l).1, (minus_part l).2 ++ rest).
Proof. intros H. destruct l as [|c l]; cbn; [by stop_cases H|]. by case_bool_decide. Qed.
Lemma int_part_app l rest : stops rest -> int_part (l ++ rest) = ((int_part l).1, (int_part l).2 ++ rest).
Proof.
  intros H. destruct l as [|c l]; [by stop_cases H|]. cbn [app int_part]. case_bool_decide; [done|].
  change (c :: l ++ rest) with ((c :: l) ++ rest). apply span_app; [by destruct (span _ _)|by apply stops_digit].
Qed.
Lemma sign_part_app l rest : stops rest -> sign_part (l ++ rest) = ((sign_part l).1, (sign_part l).2 ++ rest).
Proof. intros H. destruct l as [|c l]; cbn; [by stop_cases H|]. by destruct (_ || _). Qed.
Lemma frac_part_app l rest : stops rest -> frac_part (l ++ rest) = ((frac_part l).1, (frac_part l).2 ++ rest).
Proof.
  intros H. destruct l as [|c l]; [by stop_cases H|]. cbn [app frac_part]. case_bool_decide; [|done].
  destruct (span is_digit l) as [a b] eqn:E. rewrite (span_app _ _ _ _ _ E) by by apply stops_digit. by destruct a.
Qed.
Lemma exp_part_app l rest : stops rest -> exp_part (l ++ rest) = ((exp_part l).1, (exp_part l).2 ++ rest).
Proof.
  intros H. destruct l as [|c l]; [by stop_cases H|]. cbn [app exp_part]. destruct (_ || _); [|done].
  rewrite sign_part_app by done. destruct (sign_part l) as [sg r]. cbn [fst snd].
  destruct (span is_digit r) as [a b] eqn:E. rewrite (span_app _ _ _ _ _ E) by by apply stops_digit. by destruct a.
Qed.

Lemma number_body_app l rest v r : number_body l = Some (v, r) -> stops rest -> number_body (l ++ rest) = Some (v, r ++ rest).
Proof.
  intros H Hs. unfold number_body in *. rewrite minus_part_app by done. destruct (minus_part l) as [neg r0]. cbn [fst snd].
  rewrite int_part_app by done. destruct (int_part r0) as [[|i ip] r1]; cbn [fst snd] in *; [done|].
  rewrite frac_part_app by done. destruct (frac_part r1) as [fp r2]; cbn [fst snd] in *.
  rewrite exp_part_app by done. destruct (exp_part r2) as [ep r3]; cbn [fst snd] in *.
  destruct (fp ++ ep) as [|t tail]; [by injection H as <- <-|].
  destruct (float_of_str _); [|done]. by injection H as <- <-.
Qed.

(** The printed integer has no leading zero. *)
Lemma pretty_N_go_head x s : (0 < x)%N -> exists c ds, chars (pretty_N_go x s) = c :: ds /\ c <> "0"%char.
Proof.
  revert s. induction (N.lt_wf_0 x) as [x _ IH]; intros s Hx. rewrite pretty_N_go_step by done.
  destruct (decide (x / 10 = 0)%N) as [E|E]; [|apply IH; [by apply N.div_lt|by apply N.neq_0_lt_0]].
  rewrite E. change (pretty_N_go 0 ?t) with t. cbn [list_ascii_of_string]. do 2 eexists. split; [done|].
  assert (x < 10)%N as Hlt by (by apply N.div_small_iff). rewrite N.mod_small by done.
  destruct (digit_char_spec x Hlt) as [_ Hv]. intros Hc. rewrite Hc in Hv. cbn in Hv. lia.
Qed.
Lemma int_text z : exists ds, chars (str_Z z) = (if z <? 0 then ["-"%char] else []) ++ ds /\ forallb is_digit ds = true /\
  digits_val ds = Z.abs z /\ ds <> [] /\ (ds = ["0"%char] \/ head ds <> Some "0"%char).
Proof.
  assert (forall p, exists ds, chars (pretty (Npos p)) = ds /\ forallb is_digit ds = true /\ digits_val ds = Zpos p /\
    ds <> [] /\ (ds = ["0"%char] \/ head ds <> Some "0"%char)) as Hp.
  { intros p. destruct (pretty_N_digits (Npos p)) as (ds & E & H1 & H2 & H3). exists ds. split_and!; try done. right.
    destruct (pretty_N_go_head (Npos p) EmptyString eq_refl) as (c & ds' & E' & Hc).
    change (pretty (Npos p)) with (pretty_N_go (Npos p) EmptyString) in E. rewrite E' in E. subst ds. cbn. congruence. }
  unfold str_Z. destruct z as [|p|p].
  - exists ["0"%char]. split_and!; try done. by left.
  - destruct (Hp p) as (ds & E & H). exists ds. change (pretty (Zpos p)) with (pretty (Npos p)). by rewrite E.
  - destruct (Hp p) as (ds & E & H). exists ds. change (pretty (Zneg p)) with ("-" +:+ pretty (Npos p)).
    rewrite chars_app, E. done.
Qed.
Lemma number_body_int z : number_body (chars (str_Z z)) = Some (JInt z, []).
Proof.
  destruct (int_text z) as (ds & -> & Hd & Hv & Hne & Hz).
  assert (minus_part ((if z <? 0 then ["-"%char] else []) ++ ds) = (z <? 0, ds)) as Hm.
  { destruct (z <? 0); [done|]. destruct ds as [|c ds]; [done|]. cbn. case_bool_decide as Hc; [|done].
    subst c. done. }
  assert (int_part ds = (ds, [])) as Hi.
  { destruct ds as [|c ds]; [done|]. cbn [int_part]. case_bool_decide as Hc.
    - subst c. by destruct Hz as [[= ->]|[]].
    - rewrite <- (app_nil_r (c :: ds)) at 1. by apply span_all. }
  unfold number_body. rewrite Hm, Hi. destruct ds as [|c ds]; [done|]. cbn [frac_part exp_part app].
  rewrite Hv. do 3 f_equal. destruct (Z.ltb_spec z 0); lia.
Qed.

(** ** Values *)

Lemma number_value fuel l v r : number_body l = Some (v, r) -> parse_value (S fuel) l = number_body l.
Proof.
  destruct l as [|c l]; [done|]. unfold number_body at 1. cbn [minus_part].
  case_bool_decide as Hc.
  - subst c. destruct l as [|d l]; [done|]. cbn [int_part]. intros H.
    destruct d as [[] [] [] [] [] [] [] []]; reflexivity || (vm_compute in H; discriminate H).
  - cbn [int_part]. case_bool_decide as H0; [by subst c|]. cbn [span]. destruct (is_digit c) eqn:Ed; [|done]. intros _.
    destruct c as [[] [] [] [] [] [] [] []]; try discriminate Ed; reflexivity.
Qed.
Lemma value_number fuel l v rest : number_body l = Some (v, []) -> stops rest -> parse_value (S fuel) (l ++ rest) = Some (v, rest).
Proof.
  intros H Hs. apply number_body_app with (rest := rest) in H; [|done]. by rewrite (number_value fuel _ _ _ H).
Qed.
Lemma value_float fuel f rest : reads_float f = true -> stops rest ->
  parse_value (S fuel) (chars (json_float f) ++ rest) = Some (JFloat f, rest).
Proof.
  intros H Hs. unfold reads_float in H. destruct f as [s|s| |s m e]; try (by destruct s); try done.
  all: destruct (number_body _) as [[[] []]|] eqn:E; try done; apply bool_decide_eq_true in H as ->.
  all: by apply value_number.
Qed.

(** A character of a string is read back from its escape. *)
Lemma string_body_char c l :
  string_body (chars (json_char c) ++ l) = match string_body l with Some (t, rest) => Some (c :: t, rest) | None => None end.
Proof. destruct c as [[] [] [] [] [] [] [] []]; reflexivity. Qed.
Lemma string_body_chars s rest :
  string_body (chars (String.concat EmptyString (map json_char (chars s))) ++ dquote :: rest) = Some (chars s, rest).
Proof.
  rewrite chars_concat_nil, map_map. induction (chars s) as [|c l IH]; cbn [map List.concat]; [done|].
  rewrite <- app_assoc, string_body_char. by rewrite IH.
Qed.
Lemma json_string_chars s rest : exists body, chars (json_string s) ++ rest = dquote :: body /\ string_body body = Some (chars s, rest).
Proof.
  unfold json_string. rewrite !chars_app, <- !app_assoc. eexists. split; [done|]. apply string_body_chars.
Qed.

(** How a value starts: with no blank and no closing bracket. *)
Definition starts (t : list ascii) : Prop := exists c r, t = c :: r /\ is_json_ws c = false /\ c <> "]"%char.
Lemma number_starts l v r : number_body l = Some (v, r) -> starts l.
Proof.
  destruct l as [|c l]; [done|]. intros H. exists c, l. split; [done|].
  destruct c as [[] [] [] [] [] [] [] []]; first [discriminate H | by split].
Qed.
Lemma dumps_starts sk cp j : reads j = true -> starts (chars (dumps_gen sk cp j)).
Proof.
  destruct j as [|b|z|f|s|l|kvs]; cbn [reads]; intros H; try (by do 2 eexists).
  - destruct b; by do 2 eexists.
  - eapply number_starts, number_body_int.
  - destruct f as [b|b| |b m e]; try (by do 2 eexists); try (by destruct b; do 2 eexists).
    all: unfold reads_float in H; cbn [dumps_gen];
      destruct (number_body _) as [[v r]|] eqn:E; [by eapply number_starts|done].
Qed.
Lemma skip_ws_starts t r : starts t -> skip_ws (t ++ r) = t ++ r.
Proof. intros (c & t' & -> & Hc & _). unfold skip_ws. cbn [app drop_while]. by rewrite Hc. Qed.

Lemma chars_join sep x l : chars (join sep (x :: l)) = chars x ++ List.concat (map (fun y => chars sep ++ chars y) l).
Proof.
  unfold join. revert x. induction l as [|y l IH]; intros x; [cbn; by rewrite app_nil_r|].
  change (String.concat sep (x :: y :: l)) with (x +:+ (sep +:+ String.concat sep (y :: l))).
  rewrite !chars_app, IH. cbn [map List.concat]. by rewrite <- app_assoc.
Qed.

(** ** Arrays and objects *)

Section containers.
Context (cp : bool) (value : list ascii -> option (json * list ascii)).
(** A text that [value] reads, whatever follows it. *)
Definition read_by (t : list ascii) (v : json) : Prop := starts t /\ forall r, stops r -> value (t ++ r) = Some (v, r).

Lemma skip_item_sep t r : starts t -> exists r', chars (item_sep cp) ++ t ++ r = ","%char :: r' /\ skip_ws r' = t ++ r.
Proof.
  intros H. apply (skip_ws_starts t r) in H. unfold item_sep. destruct cp; eexists; (split; [reflexivity|]); done.
Qed.
Lemma skip_key_sep t r : starts t -> exists r', chars (key_sep cp) ++ t ++ r = ":"%char :: r' /\ skip_ws r' = t ++ r.
Proof.
  intros H. apply (skip_ws_starts t r) in H. unfold key_sep. destruct cp; eexists; (split; [reflexivity|]); done.
Qed.

Lemma array_rest_items fuel (l : list (list ascii * json)) rest :
  Forall (fun x => read_by x.1 x.2) l -> (length l < fuel)%nat ->
  let tail := List.concat (map (fun x => chars (item_sep cp) ++ x.1) l) ++ "]"%char :: rest in
  stops tail /\ array_rest value fuel tail = Some (map snd l, rest).
Proof.
  revert fuel. induction l as [|[t v] l IH]; intros fuel Hl Hf; (destruct fuel as [|fuel]; [cbn in Hf; lia|]); cbn zeta.
  - split; [cbn; auto|done].
  - apply Forall_cons in Hl as [[Ht Hv] Hl]. cbn [fst snd] in *. cbn [length] in Hf. cbn [map List.concat fst].
    rewrite <- !app_assoc. destruct (IH fuel Hl) as [Hs Hr]; [lia|].
    destruct (skip_item_sep t (List.concat (map (fun x => chars (item_sep cp) ++ x.1) l) ++ "]"%char :: rest) Ht) as (r' & -> & Hr').
    split; [by left|]. cbn [array_rest]. change (skip_ws (","%char :: r')) with (","%char :: r').
    cbn iota beta. by rewrite Hr', Hv, Hr.
Qed.

Lemma member_item k t v r : read_by t v -> stops r ->
  member value (chars (json_string k) ++ chars (key_sep cp) ++ t ++ r) = Some ((k, v), r).
Proof.
  intros [Ht Hv] Hr. destruct (json_string_chars k (chars (key_sep cp) ++ t ++ r)) as (body & -> & Hb).
  unfold member. rewrite bool_decide_eq_true_2 by done. rewrite Hb.
  destruct (skip_key_sep t r Ht) as (r' & -> & Hr'). change (skip_ws (":"%char :: r')) with (":"%char :: r').
  cbn iota beta. rewrite Hr', Hv by done. by rewrite of_chars_chars.
Qed.
Definition member_text (x : string * (list ascii * json)) : list ascii :=
  chars (json_string x.1) ++ chars (key_sep cp) ++ x.2.1.
Lemma member_text_starts x : starts (member_text x).
Proof.
  unfold member_text. destruct (json_string_chars x.1 (chars (key_sep cp) ++ x.2.1)) as (body & -> & _). by do 2 eexists.
Qed.
Lemma object_rest_items fuel (l : list (string * (list ascii * json))) rest :
  Forall (fun x => read_by x.2.1 x.2.2) l -> (length l < fuel)%nat ->
  let tail := List.concat (map (fun x => chars (item_sep cp) ++ member_text x) l) ++ "}"%char :: rest in
  stops tail /\ object_rest value fuel tail = Some (map (fun x => (x.1, x.2.2)) l, rest).
Proof.
  revert fuel. induction l as [|[k [t v]] l IH]; intros fuel Hl Hf; (destruct fuel as [|fuel]; [cbn in Hf; lia|]); cbn zeta.
  - split; [cbn; auto|done].
  - apply Forall_cons in Hl as [Hv Hl]. cbn [fst snd] in *. cbn [length] in Hf. cbn [map List.concat fst].
    rewrite <- !app_assoc. destruct (IH fuel Hl) as [Hs Hr]; [lia|].
    destruct (skip_item_sep (member_text (k, (t, v))) (List.concat (map (fun x => chars (item_sep cp) ++ member_text x) l) ++ "}"%char :: rest)
      (member_text_starts _)) as (r' & -> & Hr').
    split; [by left|]. cbn [object_rest]. change (skip_ws (","%char :: r')) with (","%char :: r').
    cbn iota beta. rewrite Hr'. unfold member_text at 1. cbn [fst snd]. rewrite <- !app_assoc, (member_item k t v) by done. by rewrite Hr.
Qed.
End containers.

(** ** Documents *)

Lemma parse_array_head fuel r c t : skip_ws r = c :: t -> c <> "]"%char ->
  parse_value (S fuel) ("["%char :: r) =
    match parse_value fuel (c :: t) with
    | Some (v, r2) => match array_rest (parse_value fuel) fuel r2 with Some (vs, r3) => Some (JArr (v :: vs), r3) | None => None end
    | None => None
    end.
Proof.
  intros H Hc. cbn [parse_value]. rewrite H. destruct c as [[] [] [] [] [] [] [] []]; reflexivity || (by destruct Hc).
Qed.
Lemma parse_object_head fuel r t : skip_ws r = dquote :: t ->
  parse_value (S fuel) ("{"%char :: r) =
    match member (parse_value fuel) (dquote :: t) with
    | Some (kv, r2) => match object_rest (parse_value fuel) fuel r2 with Some (kvs, r3) => Some (JObj (dict_of (kv :: kvs)), r3) | None => None end
    | None => None
    end.
Proof. intros H. cbn [parse_value]. by rewrite H. Qed.

Lemma length_items {A} sep (g : A -> list ascii) (l : list A) : (1 <= length sep)%nat ->
  (length l <= length (List.concat (map (fun x => sep ++ g x) l)))%nat /\
  forall x, x ∈ l -> (length (g x) < length (List.concat (map (fun x => sep ++ g x) l)))%nat.
Proof.
  intros Hs. induction l as [|y l [IH1 IH2]]; cbn [map List.concat length]; [split; [done|by intros x ?%elem_of_nil]|].
  rewrite !length_app. split; [lia|]. intros x [->|Hx]%elem_of_cons; [lia|]. apply IH2 in Hx. lia.
Qed.
Lemma item_sep_length cp : (1 <= length (chars (item_sep cp)))%nat.
Proof. by destruct cp; cbn; lia. Qed.

(** The items of an array and the members of an object, as texts with what they
    are read as. *)
Definition item (sk cp : bool) (x : json) : list ascii * json := (chars (dumps_gen sk cp x), read_back sk x).

Lemma read_back_arr sk l : read_back sk (JArr l) = JArr (map (read_back sk) l).
Proof. destruct sk; [done|]. cbn. f_equal. symmetry. apply map_id. Qed.
Lemma read_back_obj sk kvs : read_back sk (JObj kvs) =
  JObj (map (fun kv => (kv.1, read_back sk kv.2)) (if sk then isort key_leb kvs else kvs)).
Proof.
  destruct sk; cbn; f_equal; [apply (isort_key_map jsort)|]. induction kvs as [|[k v] kvs IH]; cbn; [done|]. by rewrite <- IH.
Qed.
Lemma dumps_obj sk cp kvs : dumps_gen sk cp (JObj kvs) =
  "{" +:+ join (item_sep cp) (map (fun kv => json_string kv.1 +:+ key_sep cp +:+ dumps_gen sk cp kv.2)
    (if sk then isort key_leb kvs else kvs)) +:+ "}".
Proof.
  cbn [dumps_gen]. destruct sk; [rewrite (isort_key_map (dumps_gen true cp))|]; by rewrite map_map.
Qed.

Lemma parse_array sk cp fuel l rest :
  Forall (fun x => read_by (parse_value fuel) (item sk cp x).1 (item sk cp x).2) l -> (length l <= fuel)%nat ->
  parse_value (S fuel) (chars (dumps_gen sk cp (JArr l)) ++ rest) = Some (read_back sk (JArr l), rest).
Proof.
  intros Hl Hf. rewrite read_back_arr. destruct l as [|x l]; [done|].
  apply Forall_cons in Hl as [[(c & t & E & Hc & Hb) Hx] Hl]. cbn [dumps_gen map length] in *.
  rewrite !chars_app, chars_join, map_map, <- !app_assoc.
  destruct (array_rest_items cp (parse_value fuel) fuel (map (item sk cp) l) rest) as [Hs Hr];
    [by apply Forall_map|rewrite length_map; lia|]. rewrite map_map in Hs, Hr.
  unfold item in E, Hx. cbn [fst snd] in *. specialize (Hx _ Hs).
  change (chars "[" ++ ?r) with ("["%char :: r). rewrite (parse_array_head fuel _ c (t ++ List.concat
    (map (fun x => chars (item_sep cp) ++ (item sk cp x).1) l) ++ "]"%char :: rest)); [| |done].
  - rewrite E in Hx. cbn [app] in Hx. rewrite Hx, Hr, map_map. done.
  - rewrite E. cbn [app]. unfold skip_ws. cbn [drop_while]. by rewrite Hc.
Qed.

Lemma parse_object sk cp fuel kvs rest : NoDup (map fst kvs) ->
  Forall (fun kv => read_by (parse_value fuel) (item sk cp kv.2).1 (item sk cp kv.2).2) kvs -> (length kvs <= fuel)%nat ->
  parse_value (S fuel) (chars (dumps_gen sk cp (JObj kvs)) ++ rest) = Some (read_back sk (JObj kvs), rest).
Proof.
  intros Hn Hl Hf. rewrite read_back_obj, dumps_obj.
  set (o := if sk then isort key_leb kvs else kvs).
  assert (o ≡ₚ kvs) as Hp by (unfold o; destruct sk; [apply isort_perm|done]).
  rewrite <- Hp in Hn, Hl, Hf. clearbody o. clear Hp.
  destruct o as [|[k v] o]; [done|]. apply Forall_cons in Hl as [Hv Hl]. cbn [length map] in *.
  rewrite !chars_app, chars_join, map_map, <- !app_assoc.
  destruct (object_rest_items cp (parse_value fuel) fuel (map (fun kv => (kv.1, item sk cp kv.2)) o) rest) as [Hs Hr];
    [by apply Forall_map|rewrite length_map; lia|]. rewrite !map_map in Hs, Hr.
  assert (forall kv : string * json, chars (item_sep cp) ++ chars (json_string kv.1 +:+ key_sep cp +:+ dumps_gen sk cp kv.2) =
    chars (item_sep cp) ++ member_text cp (kv.1, item sk cp kv.2)) as Ht
    by (intros kv; unfold member_text; cbn; by rewrite !chars_app).
  rewrite (map_ext _ _ Ht).
  pose proof (member_item cp (parse_value fuel) k (item sk cp v).1 (item sk cp v).2 _ Hv Hs) as Hm.
  change (chars "{" ++ ?r) with ("{"%char :: r). cbn [fst snd]. rewrite !chars_app, <- !app_assoc.
  cbn [item fst snd] in Hm.
  destruct (json_string_chars k (chars (key_sep cp) ++ chars (dumps_gen sk cp v) ++
    List.concat (map (fun x => chars (item_sep cp) ++ member_text cp (x.1, item sk cp x.2)) o) ++ "}"%char :: rest)) as (body & E & _).
  rewrite (parse_object_head fuel _ body); [|change (chars "}" ++ rest) with ("}"%char :: rest); by rewrite E].
  rewrite <- E, Hm, Hr. rewrite dict_of_NoDup; [by rewrite !map_map|].
  cbn [map fst]. by rewrite !map_map.
Qed.

Lemma length_join cp ts :
  (length ts <= S (length (chars (join (item_sep cp) ts))))%nat /\
  forall t, t ∈ ts -> (length (chars t) <= length (chars (join (item_sep cp) ts)))%nat.
Proof.
  destruct ts as [|t ts]; [split; [cbn; lia|by intros t ?%elem_of_nil]|]. rewrite chars_join, length_app.
  destruct (length_items (chars (item_sep cp)) chars ts (item_sep_length cp)) as [H1 H2]. split; [cbn; lia|].
  intros u [->|Hu]%elem_of_cons; [lia|]. apply H2 in Hu. lia.
Qed.

(** Every value is read back with what follows it untouched; the fuel of
    [loads] suffices. *)
Lemma parse_dumps sk cp j : forall fuel rest, reads j = true -> stops rest ->
  (length (chars (dumps_gen sk cp j)) < fuel)%nat ->
  parse_value fuel (chars (dumps_gen sk cp j) ++ rest) = Some (read_back sk j, rest).
Proof.
  induction j as [|b|z|f|s|l IH|kvs IH] using json_deep_ind; intros fuel rest Hr Hs Hf;
    (destruct fuel as [|fuel]; [lia|]).
  - by destruct sk.
  - by destruct b, sk.
  - cbn [dumps_gen]. rewrite (value_number fuel _ (JInt z)); [by destruct sk|apply number_body_int|done].
  - cbn [dumps_gen]. rewrite value_float by done. by destruct sk.
  - cbn [dumps_gen]. destruct (json_string_chars s rest) as (body & -> & Hb).
    cbn -[string_body]. rewrite Hb. cbn. rewrite of_chars_chars. by destruct sk.
  - cbn [reads] in Hr. rewrite forallb_elem in Hr. cbn [dumps_gen] in Hf. rewrite !chars_app, !length_app in Hf.
    destruct (length_join cp (map (dumps_gen sk cp) l)) as [H1 H2]. rewrite length_map in H1. cbn in Hf.
    apply parse_array; [|lia]. rewrite Forall_forall in IH |- *. intros x Hx. split; [by apply dumps_starts, Hr|].
    intros r Hrs. apply IH; [done|by apply Hr|done|]. specialize (H2 _ (list_elem_of_fmap_2 _ _ _ Hx)). lia.
  - cbn [reads] in Hr. apply andb_true_iff in Hr as [Hn%bool_decide_eq_true Hr]. rewrite forallb_elem in Hr.
    rewrite dumps_obj, !chars_app, !length_app in Hf.
    match type of Hf with context [join _ (map ?g ?o)] => destruct (length_join cp (map g o)) as [H1 H2]; set (ord := o) in * end.
    assert (forall x, x ∈ ord <-> x ∈ kvs) as Hin by (intros x; unfold ord; destruct sk; [apply elem_of_isort|done]).
    assert (length ord = length kvs) as Hlen by (unfold ord; destruct sk; [apply length_isort|done]).
    rewrite length_map, Hlen in H1. cbn [length chars] in Hf. apply parse_object; [done| |lia].
    rewrite Forall_forall in IH |- *. intros kv Hkv. split; [by apply dumps_starts, Hr|].
    intros r Hrs. apply (IH kv); [done|by apply Hr|done|].
    apply Hin in Hkv. specialize (H2 _ (list_elem_of_fmap_2 _ _ _ Hkv)). cbn beta in H2. rewrite !chars_app, !length_app in H2. cbn in *. lia.
Qed.

(** [json.loads(json.dumps(j, ...)) == j], with sorted keys where they were
    asked for; also with the line end that [print] adds. *)
Lemma loads_text sk cp j rest : reads j = true -> stops rest -> skip_ws rest = [] ->
  loads (dumps_gen sk cp j +:+ of_chars rest) = Some (read_back sk j).
Proof.
  intros H Hs Hw. unfold loads. rewrite chars_app, chars_of_chars.
  rewrite skip_ws_starts by by apply dumps_starts.
  rewrite (parse_dumps sk cp j) by (done || (rewrite length_app; lia)). by rewrite Hw.
Qed.
Lemma loads_dumps sk cp j : reads j = true -> loads (dumps_gen sk cp j) = Some (read_back sk j).
Proof.
  intros H. rewrite <- (loads_text sk cp j [] H I eq_refl). f_equal.
  rewrite <- (of_chars_chars (dumps_gen sk cp j +:+ of_chars [])), chars_app, app_nil_r. by rewrite of_chars_chars.
Qed.
Lemma loads_print sk cp j : reads j = true -> loads (dumps_gen sk cp j +:+ of_chars [newline]) = Some (read_back sk j).
Proof. intros H. apply loads_text; [done| |done]. do 3 right. done. Qed.

Example reads_ex : reads (JObj [("a", JArr [JFloat (fratio 1 10); JInt (-7); JFloat (fratio 2 3)]);
  ("b", JFloat (f_of_Z (10 ^ 22))); ("c", JFloat (fratio (-1) (10 ^ 7)))]) = true.
Proof. vm_compute. reflexivity. Qed.

(** ** Documents with any floats *)

(** Whether every double reads back from its shortest text is not shown here, but
    a document is read back up to its numbers whatever they are: the text of a
    float has only characters of numbers, so the parser either reads all of it or
    is stuck inside it. *)
Definition numeric (c : ascii) : bool := is_digit c || bool_decide (c ∈ [".";"e";"E";"+";"-"]%char).
Definition stuck (r : list ascii) : Prop := exists c t, r = c :: t /\ numeric c = true.

Lemma numeric_str z : forallb numeric (chars (str_Z z)) = true.
Proof.
  destruct (int_text z) as (ds & -> & Hd & _). rewrite forallb_app. apply andb_true_iff. split; [by destruct (z <? 0)|].
  rewrite forallb_elem in Hd |- *. intros c Hc. unfold numeric. by rewrite (Hd c Hc).
Qed.
Lemma numeric_zeros n : forallb numeric (chars (zeros n)) = true.
Proof. induction n; [done|]. cbn. done. Qed.
Lemma numeric_sub l l' : (forall c, c ∈ l' -> c ∈ l) -> forallb numeric l = true -> forallb numeric l' = true.
Proof. rewrite !forallb_elem. auto. Qed.
Lemma drop_while_elem f (l : list ascii) c : c ∈ drop_while f l -> c ∈ l.
Proof. induction l as [|x l IH]; cbn; [done|]. destruct (f x); [|done]. intros H. right. auto. Qed.
Lemma elem_of_rev {A} (l : list A) x : x ∈ rev l <-> x ∈ l.
Proof. rewrite !list_elem_of_In. symmetry. apply in_rev. Qed.
Lemma numeric_rstrip f s : forallb numeric (chars s) = true -> forallb numeric (chars (rstrip_by f s)) = true.
Proof.
  unfold rstrip_by. rewrite chars_of_chars. apply numeric_sub.
  intros c. rewrite elem_of_rev. intros Hc%drop_while_elem. by rewrite elem_of_rev in Hc.
Qed.
Lemma numeric_exp e : forallb numeric (chars (exp_text e)) = true.
Proof.
  unfold exp_text. rewrite !chars_app, !forallb_app, numeric_str. by destruct (e <? 0), (Z.abs e <? 10).
Qed.
Lemma numeric_format ds k : forallb numeric (chars ds) = true ->
  forallb numeric (chars (format_digits ds k)) = true /\ chars (format_digits ds k) <> [].
Proof.
  intros H. assert (forall n, forallb numeric (chars (of_chars (drop n (chars ds)))) = true) as Hd
    by (intros n; rewrite chars_of_chars; eapply numeric_sub; [|exact H]; intros c Hc; rewrite <- (take_drop n (chars ds)); apply elem_of_app; by right).
  assert (forall n, forallb numeric (chars (slice_to n ds)) = true) as Ht
    by (intros n; unfold slice_to; rewrite chars_of_chars; eapply numeric_sub; [|exact H]; intros c Hc; rewrite <- (take_drop n (chars ds)); apply elem_of_app; by left).
  unfold format_digits. destruct (_ && _); [destruct (k <=? 0); [|destruct (_ <=? k)]|destruct (_ =? 1)];
    rewrite ?chars_app, ?forallb_app, ?H, ?Hd, ?Ht, ?numeric_zeros, ?numeric_exp; (split; [done|]);
    intros E; repeat (apply app_eq_nil in E as [? E]); try done.
Qed.
Lemma numeric_float s m e : forallb numeric (chars (repr_float (S754_finite s m e))) = true /\
  chars (repr_float (S754_finite s m e)) <> [].
Proof.
  unfold repr_float. destruct (shortest _ _ _ _ _ _) as [D k]. rewrite chars_app.
  destruct (numeric_format (rstrip_by (fun c => bool_decide (c = "0"%char)) (str_Z D)) k) as [H1 H2];
    [apply numeric_rstrip, numeric_str|].
  rewrite forallb_app, H1. split; [by destruct s|]. intros H. by apply app_eq_nil in H as [_ ?].
Qed.

(** What the parser of numbers leaves of a text. *)
Definition is_number (v : json) : Prop := match v with JInt _ | JFloat _ => True | _ => False end.
Lemma span_suffix f l a b : span f l = (a, b) -> l = a ++ b /\ forallb f a = true.
Proof.
  revert a b. induction l as [|c l IH]; intros a b; cbn; [by intros [= <- <-]|].
  destruct (f c) eqn:E; [|by intros [= <- <-]]. destruct (span f l) as [x y]. intros [= <- <-].
  destruct (IH x y eq_refl) as [-> H]. cbn. by rewrite E.
Qed.
Lemma numeric_digits ds : forallb is_digit ds = true -> forallb numeric ds = true.
Proof. rewrite !forallb_elem. intros H c Hc. unfold numeric. by rewrite (H c Hc). Qed.
Definition consumes (l r : list ascii) : Prop := exists a, l = a ++ r /\ forallb numeric a = true.
Lemma consumes_refl l : consumes l l.
Proof. by exists []. Qed.
Lemma consumes_trans l1 l2 l3 : consumes l1 l2 -> consumes l2 l3 -> consumes l1 l3.
Proof. intros (a & -> & Ha) (b & -> & Hb). exists (a ++ b). by rewrite forallb_app, Ha, <- app_assoc. Qed.
Lemma consumes_cons c l r : numeric c = true -> consumes l r -> consumes (c :: l) r.
Proof. intros Hc (a & -> & Ha). exists (c :: a). cbn. by rewrite Hc. Qed.
Lemma consumes_span l a b : span is_digit l = (a, b) -> consumes l b.
Proof. intros [-> H]%span_suffix. exists a. split; [done|]. by apply numeric_digits. Qed.
Lemma minus_consumes l : consumes l (minus_part l).2.
Proof. destruct l as [|c l]; cbn; [apply consumes_refl|]. case_bool_decide; [subst; by apply consumes_cons, consumes_refl|apply consumes_refl]. Qed.
Lemma sign_consumes l : consumes l (sign_part l).2.
Proof.
  destruct l as [|c l]; cbn; [apply consumes_refl|].
  do 2 case_bool_decide; cbn [orb snd]; subst; try (by apply consumes_cons, consumes_refl); apply consumes_refl.
Qed.
Lemma int_consumes l : consumes l (int_part l).2.
Proof.
  destruct l as [|c l]; [apply consumes_refl|]. cbn [int_part]. case_bool_decide; [subst; by apply consumes_cons, consumes_refl|].
  destruct (span is_digit (c :: l)) as [a b] eqn:E. by apply consumes_span in E.
Qed.
Lemma frac_consumes l : consumes l (frac_part l).2.
Proof.
  destruct l as [|c l]; [apply consumes_refl|]. cbn [frac_part]. case_bool_decide; [|apply consumes_refl].
  destruct (span is_digit l) as [[|d ds] b] eqn:E; [apply consumes_refl|]. subst. apply consumes_cons; [done|]. by apply consumes_span in E.
Qed.
Lemma exp_consumes l : consumes l (exp_part l).2.
Proof.
  destruct l as [|c l]; [apply consumes_refl|]. cbn [exp_part]. destruct (bool_decide _ || bool_decide _) eqn:Ec; [|apply consumes_refl].
  assert (numeric c = true) as Hc by (apply orb_true_iff in Ec as [->%bool_decide_eq_true| ->%bool_decide_eq_true]; done).
  pose proof (sign_consumes l) as Hs. destruct (sign_part l) as [sg r]. cbn [snd] in Hs.
  destruct (span is_digit r) as [[|d ds] b] eqn:E; [apply consumes_refl|]. apply consumes_cons; [done|].
  eapply consumes_trans; [exact Hs|]. by apply consumes_span in E.
Qed.
Lemma number_consumes l v r : number_body l = Some (v, r) -> is_number v /\ consumes l r.
Proof.
  unfold number_body. pose proof (minus_consumes l) as H1. destruct (minus_part l) as [neg l1]. cbn [snd] in H1.
  pose proof (int_consumes l1) as H2. destruct (int_part l1) as [[|i ip] l2]; [done|]. cbn [snd] in H2.
  pose proof (frac_consumes l2) as H3. destruct (frac_part l2) as [fp l3]. cbn [snd] in H3.
  pose proof (exp_consumes l3) as H4. destruct (exp_part l3) as [ep l4]. cbn [snd] in H4.
  assert (consumes l l4) as H by eauto using consumes_trans.
  destruct (fp ++ ep); [by intros [= <- <-]|]. destruct (float_of_str _); [|done]. by intros [= <- <-].
Qed.
(** A text of such characters, followed by what can follow a value: it is read
    whole, or the parser is stuck in it. *)
Lemma parse_numeric fuel t rest v r : forallb numeric t = true -> t <> [] -> stops rest ->
  parse_value fuel (t ++ rest) = Some (v, r) -> is_number v /\ (r = rest \/ stuck r).
Proof.
  intros Ht Hne Hs. destruct fuel as [|fuel]; [done|]. intros H.
  assert (stops rest -> forall c l, rest = c :: l -> numeric c = true -> False) as Hstop.
  { intros Hst c l -> Hc. cbn in Hst. destruct Hst as [->|[->|[->| ->]]]; discriminate Hc. }
  assert (number_body (t ++ rest) = Some (v, r)) as Hn.
  { destruct t as [|c t]; [done|]. cbn [forallb] in Ht. apply andb_true_iff in Ht as [Hc Ht]. rewrite <- H. cbn [app] in *. symmetry.
    destruct (t ++ rest) as [|d l] eqn:E.
    - destruct c as [[] [] [] [] [] [] [] []]; try discriminate Hc; reflexivity.
    - assert (d <> "I"%char) as Hd.
      { intros ->. destruct t as [|d t]; [cbn in E; subst rest; cbn in Hs; naive_solver|].
        injection E as -> _. cbn in Ht. discriminate Ht. }
      destruct c as [[] [] [] [] [] [] [] []]; try discriminate Hc; try reflexivity.
      destruct d as [[] [] [] [] [] [] [] []]; try reflexivity. by destruct Hd. }
  apply number_consumes in Hn as [Hv (a & E & Ha)]. split; [done|].
  apply app_eq_inv in E as [(k & -> & ->)|(k & -> & E)].
  - rewrite forallb_app in Ht. apply andb_true_iff in Ht as [_ Hk]. destruct k as [|c k]; [by left|]. right.
    exists c, (k ++ rest). split; [done|]. cbn in Hk. by apply andb_true_iff in Hk as [? _].
  - rewrite forallb_app in Ha. apply andb_true_iff in Ha as [_ Hk]. destruct k as [|c k]; [by left|]. exfalso.
    cbn in Hk. apply andb_true_iff in Hk as [Hk _]. exact (Hstop Hs c (k ++ r) E Hk).
Qed.

(** [v] is what a text of [j] is read as: the same document with its keys in the
    order of the text, and some number for each float. *)
Inductive read_as (sk : bool) : json -> json -> Prop :=
| read_null : read_as sk JNull JNull
| read_bool b : read_as sk (JBool b) (JBool b)
| read_int z : read_as sk (JInt z) (JInt z)
| read_float f v : is_number v -> read_as sk (JFloat f) v
| read_str s : read_as sk (JStr s) (JStr s)
| read_arr l l' : Forall2 (read_as sk) l l' -> read_as sk (JArr l) (JArr l')
| read_obj kvs kvs' : Forall2 (fun x y => x.1 = y.1 /\ read_as sk x.2 y.2) (if sk then isort key_leb kvs else kvs) kvs' ->
    read_as sk (JObj kvs) (JObj (dict_of kvs')).

Lemma stuck_array value fuel r : stuck r -> array_rest value fuel r = None.
Proof. intros (c & t & -> & Hc). destruct fuel; [done|]. destruct c as [[] [] [] [] [] [] [] []]; try discriminate Hc; reflexivity. Qed.
Lemma stuck_object value fuel r : stuck r -> object_rest value fuel r = None.
Proof. intros (c & t & -> & Hc). destruct fuel; [done|]. destruct c as [[] [] [] [] [] [] [] []]; try discriminate Hc; reflexivity. Qed.

Section partial.
Context (cp : bool) (value : list ascii -> option (json * list ascii)) (Q : json -> json -> Prop).
(** If [value] reads the text [t], it reads it as [Q] says, whatever follows. *)
Definition read_part (t : list ascii) (j : json) : Prop :=
  starts t /\ forall rest v r, stops rest -> value (t ++ rest) = Some (v, r) -> Q j v /\ (r = rest \/ stuck r).

Lemma array_rest_part fuel (l : list (list ascii * json)) rest vs r :
  Forall (fun x => read_part x.1 x.2) l ->
  let tail := List.concat (map (fun x => chars (item_sep cp) ++ x.1) l) ++ "]"%char :: rest in
  stops tail /\ (array_rest value fuel tail = Some (vs, r) -> Forall2 Q (map snd l) vs /\ r = rest).
Proof.
  revert fuel vs. induction l as [|[t j] l IH]; intros fuel vs Hl; cbn zeta.
  - split; [cbn; auto|]. destruct fuel; [done|]. cbn. by intros [= <- <-].
  - apply Forall_cons in Hl as [[Ht Hv] Hl]. cbn [fst snd] in *. cbn [map List.concat fst snd]. rewrite <- !app_assoc.
    set (tail := List.concat (map (fun x => chars (item_sep cp) ++ x.1) l) ++ "]"%char :: rest).
    destruct (skip_item_sep cp t tail Ht) as (r' & -> & Hr'). split; [by left|]. destruct fuel as [|fuel]; [done|].
    cbn [array_rest]. change (skip_ws (","%char :: r')) with (","%char :: r'). cbn iota beta. rewrite Hr'.
    destruct (value (t ++ tail)) as [[v r1]|] eqn:E; [|done]. destruct (IH fuel [] Hl) as [Hs _]. fold tail in Hs.
    destruct (Hv _ _ _ Hs E) as [Hq [->|Hst]]; [|by rewrite stuck_array].
    destruct (array_rest value fuel tail) as [[vs' r2]|] eqn:E'; [|done]. intros [= <- <-].
    destruct (IH fuel vs' Hl) as [_ Hi]. destruct (Hi E') as [? ->]. split; [by constructor|done].
Qed.

Lemma member_part k t r : starts t -> member value (chars (json_string k) ++ chars (key_sep cp) ++ t ++ r) =
  match value (t ++ r) with Some (v, r') => Some ((k, v), r') | None => None end.
Proof.
  intros Ht. destruct (json_string_chars k (chars (key_sep cp) ++ t ++ r)) as (body & -> & Hb).
  unfold member. rewrite bool_decide_eq_true_2 by done. rewrite Hb.
  destruct (skip_key_sep cp t r Ht) as (r' & -> & Hr'). change (skip_ws (":"%char :: r')) with (":"%char :: r').
  cbn iota beta. rewrite Hr'. destruct (value (t ++ r)) as [[v r2]|]; [|done]. by rewrite of_chars_chars.
Qed.
Lemma object_rest_part fuel (l : list (string * (list ascii * json))) rest vs r :
  Forall (fun x => read_part x.2.1 x.2.2) l ->
  let tail := List.concat (map (fun x => chars (item_sep cp) ++ member_text cp x) l) ++ "}"%char :: rest in
  stops tail /\ (object_rest value fuel tail = Some (vs, r) ->
    Forall2 (fun x y => x.1 = y.1 /\ Q x.2.2 y.2) l vs /\ r = rest).
Proof.
  revert fuel vs. induction l as [|[k [t j]] l IH]; intros fuel vs Hl; cbn zeta.
  - split; [cbn; auto|]. destruct fuel; [done|]. cbn. by intros [= <- <-].
  - apply Forall_cons in Hl as [[Ht Hv] Hl]. cbn [fst snd] in *. cbn [map List.concat fst snd]. rewrite <- !app_assoc.
    set (tail := List.concat (map (fun x => chars (item_sep cp) ++ member_text cp x) l) ++ "}"%char :: rest).
    destruct (skip_item_sep cp (member_text cp (k, (t, j))) tail (member_text_starts _ _)) as (r' & -> & Hr').
    split; [by left|]. destruct fuel as [|fuel]; [done|].
    cbn [object_rest]. change (skip_ws (","%char :: r')) with (","%char :: r'). cbn iota beta. rewrite Hr'.
    unfold member_text at 1. cbn [fst snd]. rewrite <- !app_assoc, (member_part k t tail Ht).
    destruct (value (t ++ tail)) as [[v r1]|] eqn:E; [|done]. destruct (IH fuel [] Hl) as [Hs _]. fold tail in Hs.
    destruct (Hv _ _ _ Hs E) as [Hq [->|Hst]]; [|by rewrite stuck_object].
    destruct (object_rest value fuel tail) as [[vs' r2]|] eqn:E'; [|done]. intros [= <- <-].
    destruct (IH fuel vs' Hl) as [_ Hi]. destruct (Hi E') as [? ->]. split; [by constructor|done].
Qed.
End partial.

Lemma dumps_starts_any sk cp j : starts (chars (dumps_gen sk cp j)).
Proof.
  destruct j as [|b|z|f|s|l|kvs]; try (by do 2 eexists); [by destruct b; do 2 eexists|eapply number_starts, number_body_int|].
  destruct f as [b|b| |b m e]; try (by destruct b; do 2 eexists); [by do 2 eexists|]. cbn [dumps_gen json_float].
  destruct (numeric_float b m e) as [H1 H2]. destruct (chars _) as [|c l]; [done|]. exists c, l. split; [done|].
  cbn [forallb] in H1. apply andb_true_iff in H1 as [Hc _].
  destruct c as [[] [] [] [] [] [] [] []]; first [discriminate Hc | by split].
Qed.

Lemma parse_array_part sk cp fuel l rest v r :
  Forall (fun x => read_part (parse_value fuel) (read_as sk) (chars (dumps_gen sk cp x)) x) l ->
  parse_value (S fuel) (chars (dumps_gen sk cp (JArr l)) ++ rest) = Some (v, r) -> read_as sk (JArr l) v /\ r = rest.
Proof.
  intros Hl H. destruct l as [|x l]; [cbn in H; injection H as <- <-; split; [by do 2 constructor|done]|].
  apply Forall_cons in Hl as [[(c & t & E & Hc & Hb) Hx] Hl]. cbn [dumps_gen map] in *.
  rewrite !chars_app, chars_join, map_map, <- !app_assoc in H.
  set (tail := List.concat (map (fun x => chars (item_sep cp) ++ chars (dumps_gen sk cp x)) l) ++ "]"%char :: rest) in H.
  assert (forall fuel' vs r, stops tail /\ (array_rest (parse_value fuel) fuel' tail = Some (vs, r) ->
    Forall2 (read_as sk) l vs /\ r = rest)) as Hr.
  { intros fuel' vs r'. destruct (array_rest_part cp (parse_value fuel) (read_as sk) fuel'
      (map (fun x => (chars (dumps_gen sk cp x), x)) l) rest vs r') as [Hs Hr]; [by apply Forall_map|].
    rewrite !map_map, map_id in Hr. rewrite map_map in Hs. by split. }
  change (chars "[" ++ ?r) with ("["%char :: r) in H. rewrite (parse_array_head fuel _ c (t ++ tail)) in H; [| |done].
  - destruct (parse_value fuel (c :: t ++ tail)) as [[v0 r2]|] eqn:E0; [|done].
    rewrite E in Hx. destruct (Hx tail v0 r2 (proj1 (Hr fuel [] [])) E0) as [Hq [->|Hst]]; [|by rewrite stuck_array in H].
    destruct (array_rest _ fuel tail) as [[vs r3]|] eqn:E1; [|done]. injection H as <- <-.
    destruct (Hr fuel vs r3) as [_ Hi]. destruct (Hi E1) as [? ->]. split; [|done]. constructor. by constructor.
  - unfold tail. rewrite E. cbn [app]. unfold skip_ws. cbn [drop_while]. by rewrite Hc.
Qed.
Lemma parse_object_part sk cp fuel kvs rest v r :
  Forall (fun kv => read_part (parse_value fuel) (read_as sk) (chars (dumps_gen sk cp kv.2)) kv.2) kvs ->
  parse_value (S fuel) (chars (dumps_gen sk cp (JObj kvs)) ++ rest) = Some (v, r) -> read_as sk (JObj kvs) v /\ r = rest.
Proof.
  intros Hl H. rewrite dumps_obj in H. assert (exists o, o = if sk then isort key_leb kvs else kvs) as [o Ho] by eauto.
  rewrite <- Ho in H. assert (o ≡ₚ kvs) as Hp by (subst o; destruct sk; [apply isort_perm|done]). rewrite <- Hp in Hl.
  destruct o as [|[k x] o]; [cbn in H; injection H as <- <-; split; [|done]; apply (read_obj sk kvs []); rewrite <- Ho; constructor|].
  apply Forall_cons in Hl as [[Ht Hx] Hl]. cbn [map fst snd] in *.
  rewrite !chars_app, chars_join, map_map, <- !app_assoc in H.
  rewrite (map_ext _ (fun kv => chars (item_sep cp) ++ member_text cp (kv.1, (chars (dumps_gen sk cp kv.2), kv.2)))) in H
    by (intros kv; unfold member_text; cbn; by rewrite !chars_app).
  match type of H with context [List.concat ?l ++ chars "}" ++ rest] => set (tail := List.concat l ++ "}"%char :: rest) in H end.
  assert (forall fuel' vs r, stops tail /\ (object_rest (parse_value fuel) fuel' tail = Some (vs, r) ->
    Forall2 (fun x y => x.1 = y.1 /\ read_as sk x.2 y.2) o vs /\ r = rest)) as Hr.
  { intros fuel' vs r'. destruct (object_rest_part cp (parse_value fuel) (read_as sk) fuel'
      (map (fun kv => (kv.1, (chars (dumps_gen sk cp kv.2), kv.2))) o) rest vs r') as [Hs Hr]; [by apply Forall_map|].
    rewrite map_map in Hs, Hr. split; [exact Hs|]. intros Ho'. destruct (Hr Ho') as [Hf ->]. split; [|done].
    by apply Forall2_fmap_l in Hf. }
  change (chars "{" ++ ?r) with ("{"%char :: r) in H. rewrite !chars_app, <- !app_assoc in H.
  pose proof (member_part cp (parse_value fuel) k (chars (dumps_gen sk cp x)) tail Ht) as Hm.
  destruct (json_string_chars k (chars (key_sep cp) ++ chars (dumps_gen sk cp x) ++ tail)) as (body & E & _).
  rewrite (parse_object_head fuel _ body) in H; [|change (chars "}" ++ rest) with ("}"%char :: rest); fold tail; by rewrite E].
  rewrite <- E, Hm in H.
  destruct (parse_value fuel (chars (dumps_gen sk cp x) ++ tail)) as [[v0 r2]|] eqn:E0; [|done].
  destruct (Hx tail v0 r2 (proj1 (Hr fuel [] [])) E0) as [Hq [->|Hst]]; [|by rewrite stuck_object in H].
  destruct (object_rest _ fuel tail) as [[vs r3]|] eqn:E1; [|done]. injection H as <- <-.
  destruct (Hr fuel vs r3) as [_ Hi]. destruct (Hi E1) as [? ->]. split; [|done].
  apply (read_obj sk kvs ((k, v0) :: vs)). rewrite <- Ho. by constructor.
Qed.

(** Reading a text of any document: what is read is the document up to its
    numbers, and what follows is left, or the parser is stuck in a number. *)
Lemma parse_part sk cp j : forall fuel rest v r, stops rest ->
  parse_value fuel (chars (dumps_gen sk cp j) ++ rest) = Some (v, r) -> read_as sk j v /\ (r = rest \/ stuck r).
Proof.
  induction j as [|b|z|f|s|l IH|kvs IH] using json_deep_ind; intros fuel rest v r Hs H;
    (destruct fuel as [|fuel]; [done|]).
  - cbn in H. injection H as <- <-. split; [constructor|by left].
  - destruct b; cbn in H; injection H as <- <-; (split; [constructor|by left]).
  - cbn [dumps_gen] in H. rewrite (value_number fuel _ (JInt z)) in H by (apply number_body_int || done).
    injection H as <- <-. split; [constructor|by left].
  - cbn [dumps_gen] in H. destruct f as [b|b| |b m e];
      try (destruct b; cbn in H; injection H as <- <-; (split; [by constructor|by left]));
      try (cbn in H; injection H as <- <-; (split; [by constructor|by left])).
    + apply parse_numeric in H as [H ?]; [split; [by constructor|done]| | |done]; by destruct b.
    + destruct (numeric_float b m e) as [H1 H2]. apply parse_numeric in H as [H ?]; [split; [by constructor|done]|done..].
  - cbn [dumps_gen] in H. destruct (json_string_chars s rest) as (body & E & Hb). rewrite E in H.
    cbn -[string_body] in H. rewrite Hb in H. cbn in H. rewrite of_chars_chars in H. injection H as <- <-. split; [constructor|by left].
  - apply parse_array_part in H as [H ->]; [split; [done|by left]|]. rewrite Forall_forall in IH |- *. intros x Hx.
    split; [apply dumps_starts_any|]. intros. by eapply IH.
  - apply parse_object_part in H as [H ->]; [split; [done|by left]|]. rewrite Forall_forall in IH |- *. intros x Hx.
    split; [apply dumps_starts_any|]. intros. by eapply IH.
Qed.

Lemma loads_part sk cp j v : loads (dumps_gen sk cp j +:+ of_chars [newline]) = Some v -> read_as sk j v.
Proof.
  unfold loads. rewrite chars_app, chars_of_chars, skip_ws_starts by apply dumps_starts_any.
  destruct (parse_value _ _) as [[v' r]|] eqn:E; [|done].
  apply parse_part in E as [H [-> |(c & t & -> & Hc)]]; [by intros [= ->]| |by do 3 right].
  destruct c as [[] [] [] [] [] [] [] []]; try discriminate Hc; discriminate.
Qed.

(** The members of what a document is read as. *)
Lemma read_as_field sk kvs v k x : read_as sk (JObj kvs) v -> dwf kvs -> dget k kvs = Some x ->
  exists y, jget k v = Some y /\ read_as sk x y.
Proof.
  inversion 1 as [| | | | | |? kvs' Hf]; subst. intros Hw Hk.
  set (o := if sk then isort key_leb kvs else kvs) in Hf.
  assert (dwf o /\ dget k o = Some x) as [Ho Hko] by (unfold o; destruct sk; [|done]; split; [by apply sort_obj_wf|];
    rewrite <- Hk; exact (sort_obj_deq _ Hw k)).
  assert (dwf kvs' /\ exists y, dget k kvs' = Some y /\ read_as sk x y) as [Hw' Hy].
  { clear - Hf Ho Hko. split.
    - unfold dwf, dkeys in *. replace (map fst kvs') with (map fst o); [done|]. clear - Hf.
      induction Hf as [|a b l l' [E _] _ IH]; [done|]. cbn. by rewrite E, IH.
    - clear Ho. induction Hf as [|[k1 a] [k2 b] l l' [E Hr] _ IH]; [done|]. cbn in E, Hr, Hko |- *. subst k2.
      case_decide; [injection Hko as ->; eauto|auto]. }
  cbn [jget]. by rewrite dict_of_NoDup.
Qed.
Lemma read_as_str sk s v : read_as sk (JStr s) v -> v = JStr s.
Proof. by inversion 1. Qed.
Lemma read_as_bool sk b v : read_as sk (JBool b) v -> v = JBool b.
Proof. by inversion 1. Qed.
