(* ===== verification/AuditLog.v ===== *)
(** * Audit entries

    The entries the lifecycle objects append to their history at every state
    change ([{"from", "to", "actor", "reason", "at"}]), and their JSON form. *)

From Stdlib Require Import String Ascii ZArith Lia.
From stdpp Require Import base list strings.
From S2P Require Import Prelude PyStr PyDict Json.

Record HistoryEntry := {
  h_from : string;
  h_to : string;
  h_actor : string;
  h_reason : string;
  h_at : string;
}.

Definition history_json (e : HistoryEntry) : json :=
  JObj [("from", JStr e.(h_from)); ("to", JStr e.(h_to)); ("actor", JStr e.(h_actor));
        ("reason", JStr e.(h_reason)); ("at", JStr e.(h_at))].

Definition json_history (j : json) : res HistoryEntry :=
  let? f := fstr "from" j in
  let? t := fstr "to" j in
  let? a := fstr "actor" j in
  let? r := fstr "reason" j in
  let? at_ := fstr "at" j in
  Ok {| h_from := f; h_to := t; h_actor := a; h_reason := r; h_at := at_ |}.

Lemma json_history_roundtrip e : json_history (jsort (history_json e)) = Ok e.
Proof. unfold json_history, history_json. jfields. by destruct e. Qed.

Lemma json_histories_roundtrip l : map_res json_history (map jsort (map history_json l)) = Ok l.
Proof. rewrite map_map, (map_res_map _ _ id); [by rewrite map_id|]. intros e _. apply json_history_roundtrip. Qed.
