(* ===== verification/Cas.v ===== *)
(** * Clients of a revisioned store

    The handlers of the factory read a value with its version in one
    transaction, call a method on it, and save the outcome in a second
    transaction that replaces the value only where the version is still the one
    read; FastAPI runs them in threads, so between the two any other request may
    read or save.  [CasStore] is the interface such a store offers and [CasLaws]
    what it promises (the save is one transaction); [clients] is the system of
    all interleavings, as a step relation, and [exec_serial] its theorem:
    whatever the interleaving, every value in the store is the last of a serial
    execution of the requests that succeeded.  (The save of the run service is
    two transactions: [MLOpsConcurrency].) *)

From Stdlib Require Import String ZArith Lia.
From stdpp Require Import base list strings.
From S2P Require Import Prelude PyDict.

(** A table [T] of values [V] under a key. *)
Class CasStore (T V : Type) := {
  key : V -> string;
  (** the scope in which a value may be replaced (a tenant) *)
  scope : V -> string;
  (** what a read of a key finds: a value, or an unreadable one, and its revision *)
  view : string -> T -> option (res V * Z);
  (** a value as it is read back *)
  back : V -> V;
  put_new : V -> M T Z;
  put_at : V -> Z -> M T Z;
}.

(** The promises, for the values [ok] that the clients write. *)
Class CasLaws (T V : Type) `{CasStore T V} (ok : V -> Prop) := {
  key_back : forall v, key (back v) = key v;
  scope_back : forall v, scope (back v) = scope v;
  ok_back : forall v, ok v -> ok (back v);
  put_new_fresh : forall v t, ok v -> view (key v) t = None -> exists t',
    put_new v t = (Ok 1, t') /\ view (key v) t' = Some (Ok (back v), 1) /\
    forall id, id <> key v -> view id t' = view id t;
  put_at_current : forall v t w n, ok v -> view (key v) t = Some (Ok w, n) -> scope w = scope v -> exists t',
    put_at v n t = (Ok (n + 1), t') /\ view (key v) t' = Some (Ok (back v), n + 1) /\
    forall id, id <> key v -> view id t' = view id t;
  put_at_stale : forall v t w m n, view (key v) t = Some (w, m) -> m <> n -> exists e, put_at v n t = (Err e, t);
}.

Section clients.
Context {T V : Type} {store : CasStore T V} {ok : V -> Prop} {laws : CasLaws T V ok}.
(** The values requests create, and the successful method calls. *)
Context (initial : V -> Prop) (method : V -> V -> Prop).

(** The table, and what the requests in flight have read. *)
Record system := { rows : T; reading : list (V * Z) }.

Inductive client_step : system -> list V -> system -> Prop :=
| client_create v t t' rev p : initial v -> view (key v) t = None -> put_new v t = (Ok rev, t') ->
    client_step {| rows := t; reading := p |} [v] {| rows := t'; reading := p |}
| client_read id v n t p : view id t = Some (Ok v, n) ->
    client_step {| rows := t; reading := p |} [] {| rows := t; reading := (v, n) :: p |}
| client_write v n v' rev t t' p1 p2 : method v v' -> put_at v' n t = (Ok rev, t') ->
    client_step {| rows := t; reading := p1 ++ (v, n) :: p2 |} [v'] {| rows := t'; reading := p1 ++ p2 |}
| client_conflict v n v' e t t' p1 p2 : method v v' -> put_at v' n t = (Err e, t') ->
    client_step {| rows := t; reading := p1 ++ (v, n) :: p2 |} [] {| rows := t'; reading := p1 ++ p2 |}
| client_give_up v n t p1 p2 :
    client_step {| rows := t; reading := p1 ++ (v, n) :: p2 |} [] {| rows := t; reading := p1 ++ p2 |}.

(** The writes of an execution, in order. *)
Inductive exec (s0 : system) : list V -> system -> Prop :=
| exec_here : exec s0 [] s0
| exec_step l s e s' : exec s0 l s -> client_step s e s' -> exec s0 (l ++ e) s'.

(** The writes of one key. *)
Definition versions (id : string) (l : list V) : list V := List.filter (fun v => bool_decide (key v = id)) l.

(** A serial execution: each value is the outcome of one request on the one
    before it. *)
Inductive serial : list V -> Prop :=
| serial_nil : serial []
| serial_first v : initial v -> serial [v]
| serial_next l v v' : serial (l ++ [v]) -> method (back v) v' -> serial ((l ++ [v]) ++ [v']).

Context (initial_ok : forall v, initial v -> ok v).
Context (method_ok : forall v v', ok v -> method v v' -> ok v').
Context (method_key : forall v v', method v v' -> key v' = key v /\ scope v' = scope v).

Lemma versions_app id l e : versions id (l ++ e) = versions id l ++ versions id e.
Proof. apply List.filter_app. Qed.
Lemma versions_one id v : versions id [v] = if bool_decide (key v = id) then [v] else [].
Proof. unfold versions. cbn. by case_bool_decide. Qed.

Lemma serial_ok l v : serial l -> v ∈ l -> ok v.
Proof.
  intros H. revert v. induction H as [|v Hv|l v v' _ IH Hm]; intros w Hw.
  - by apply elem_of_nil in Hw.
  - apply list_elem_of_singleton in Hw as ->. by apply initial_ok.
  - apply elem_of_app in Hw as [Hw| ->%list_elem_of_singleton]; [by apply IH|].
    eapply method_ok; [|exact Hm]. apply ok_back, IH, elem_of_app. right. by left.
Qed.

(** What holds of every reached system, the writes being [l]. *)
Record linear (l : list V) (s : system) : Prop := {
  lin_serial : forall id, serial (versions id l);
  lin_view : forall id, view id s.(rows) =
    (fun v => (Ok (back v), Z.of_nat (length (versions id l)))) <$> last (versions id l);
  lin_read : forall v n, (v, n) ∈ s.(reading) -> exists l1 w l2,
    versions (key v) l = (l1 ++ [w]) ++ l2 /\ v = back w /\ n = Z.of_nat (length (l1 ++ [w]));
}.

Lemma versions_key id l v : v ∈ versions id l -> key v = id.
Proof. unfold versions. rewrite elem_of_filter_bool. by intros [H%bool_decide_eq_true _]. Qed.

(** A read stays what it was while others write. *)
Lemma read_more l e v n :
  (exists l1 w l2, versions (key v) l = (l1 ++ [w]) ++ l2 /\ v = back w /\ n = Z.of_nat (length (l1 ++ [w]))) ->
  exists l1 w l2, versions (key v) (l ++ e) = (l1 ++ [w]) ++ l2 /\ v = back w /\ n = Z.of_nat (length (l1 ++ [w])).
Proof.
  intros (l1 & w & l2 & E & H). exists l1, w, (l2 ++ versions (key v) e). split; [|done].
  by rewrite versions_app, E, app_assoc.
Qed.

(** A write that extends the versions of its key. *)
Lemma linear_write l t t' p p' v (n : Z) : linear l {| rows := t; reading := p |} -> p' ⊆ p ->
  serial (versions (key v) l ++ [v]) -> n = Z.of_nat (length (versions (key v) l)) + 1 ->
  view (key v) t' = Some (Ok (back v), n) -> (forall id, id <> key v -> view id t' = view id t) ->
  linear (l ++ [v]) {| rows := t'; reading := p' |}.
Proof.
  intros [Hs Hv Hr] Hp Hser -> Hnew Hframe. split; cbn [rows reading] in *.
  - intros id. rewrite versions_app, versions_one. case_bool_decide as Hid; [by subst|by rewrite app_nil_r].
  - intros id. rewrite versions_app, versions_one. case_bool_decide as Hid.
    + subst id. rewrite Hnew, last_snoc, length_app. cbn. do 3 f_equal. lia.
    + rewrite app_nil_r, Hframe by done. apply Hv.
  - intros w m Hw. apply read_more, Hr. by apply Hp.
Qed.

Lemma linear_drop l t p1 p2 x : linear l {| rows := t; reading := p1 ++ x :: p2 |} ->
  linear (l ++ []) {| rows := t; reading := p1 ++ p2 |}.
Proof.
  intros [Hs Hv Hr]. rewrite app_nil_r. split; cbn in *; [done..|]. intros v n H. apply Hr. by apply (drop_middle p1 p2 x).
Qed.

(** A write replaces the value its request read; if another request replaced
    it before, the store refuses and stays as it was. *)
Lemma write_cases l t p v n v' : linear l {| rows := t; reading := p |} -> (v, n) ∈ p -> method v v' ->
  (exists l1 w t', versions (key v') l = l1 ++ [w] /\ v = back w /\ n = Z.of_nat (length (l1 ++ [w])) /\
     put_at v' n t = (Ok (n + 1), t') /\ view (key v') t' = Some (Ok (back v'), n + 1) /\
     forall id, id <> key v' -> view id t' = view id t) \/
  (exists e, put_at v' n t = (Err e, t)).
Proof.
  intros [Hs Hv Hr] Hin Hm. cbn [rows reading] in *. destruct (Hr _ _ Hin) as (l1 & w & l2 & E & -> & Hn).
  destruct (method_key _ _ Hm) as [Hk Hsc]. rewrite key_back in *. specialize (Hv (key w)). rewrite E in Hv. rewrite Hk.
  destruct (last l2) as [u|] eqn:El.
  - right. apply last_Some in El as [l3 ->]. rewrite app_assoc, last_snoc in Hv. cbn [fmap option_fmap option_map] in Hv.
    rewrite <- Hk in Hv. apply (put_at_stale v' t _ _ n Hv). rewrite Hn, !length_app. cbn. lia.
  - left. apply last_None in El as ->. rewrite app_nil_r in E, Hv. rewrite last_snoc in Hv. cbn in Hv. rewrite <- Hn in Hv.
    assert (ok v') as Hok.
    { eapply method_ok; [|exact Hm]. apply ok_back, (serial_ok (l1 ++ [w])); [by rewrite <- E|]. apply elem_of_app. right. by left. }
    rewrite <- Hk in Hv. destruct (put_at_current v' t _ n Hok Hv) as (t1 & H1 & H2 & H3); [done|].
    exists l1, w, t1. rewrite Hk in H2, H3. done.
Qed.

Lemma step_linear l s e s' : linear l s -> client_step s e s' -> linear (l ++ e) s'.
Proof.
  intros Hl. destruct 1 as [v t t' rev p Hi Hv Hput|id v n t p Hv|v n v' rev t t' p1 p2 Hm Hput|v n v' x t t' p1 p2 Hm Hput|v n t p1 p2].
  - destruct (put_new_fresh v t (initial_ok v Hi) Hv) as (t1 & E & Hnew & Hframe). rewrite E in Hput. injection Hput as _ <-.
    assert (versions (key v) l = []) as Hnil.
    { pose proof (lin_view _ _ Hl (key v)) as Hw. cbn in Hw. rewrite Hv in Hw.
      destruct (last _) eqn:El; [done|]. by apply last_None in El. }
    apply (linear_write l t t1 p p v 1); [done|done| | |done|done]; rewrite Hnil; [by apply serial_first|done].
  - rewrite app_nil_r. destruct Hl as [Hs Hw Hr]. split; cbn in *; [done..|].
    intros w m [[= -> ->]|Hin]%elem_of_cons; [|by apply Hr].
    pose proof (Hw id) as H. rewrite Hv in H. destruct (last (versions id l)) as [u|] eqn:El; [|done].
    injection H as -> ->. assert (key u = id) as Hk.
    { apply last_Some in El as [l1 El]. apply (versions_key id l). rewrite El. apply elem_of_app. right. by left. }
    rewrite key_back, Hk. apply last_Some in El as [l1 El]. exists l1, u, []. by rewrite app_nil_r, El.
  - assert ((v, n) ∈ p1 ++ (v, n) :: p2) as Hin by (apply elem_of_app; right; by left).
    destruct (write_cases _ _ _ _ _ _ Hl Hin Hm) as [(l1 & w & t1 & E & -> & Hn & E1 & Hnew & Hframe)|[e E1]]; [|congruence].
    rewrite E1 in Hput. injection Hput as _ <-.
    apply (linear_write l t t1 _ _ v' (n + 1) Hl); [apply drop_middle| |by rewrite E, <- Hn|done|done].
    rewrite E. apply serial_next; [|done]. rewrite <- E. apply (lin_serial _ _ Hl).
  - assert ((v, n) ∈ p1 ++ (v, n) :: p2) as Hin by (apply elem_of_app; right; by left).
    destruct (write_cases _ _ _ _ _ _ Hl Hin Hm) as [(l1 & w & t1 & _ & _ & _ & E1 & _)|[y E1]]; [congruence|].
    rewrite E1 in Hput. injection Hput as _ <-. by eapply linear_drop.
  - by eapply linear_drop.
Qed.

(** From an empty table, every interleaving is linear. *)
Lemma exec_serial t0 l s : (forall id, view id t0 = None) ->
  exec {| rows := t0; reading := [] |} l s -> linear l s.
Proof.
  intros H0. induction 1 as [|l s e s' _ IH Hst]; [|by eapply step_linear].
  split; cbn; [constructor|done|]. intros v n H. by apply elem_of_nil in H.
Qed.

(** Each version of a serial execution satisfies what the creation establishes
    and the methods and the store keep. *)
Lemma serial_invariant (I : V -> Prop) l : (forall v, initial v -> I v) -> (forall v, I v -> I (back v)) ->
  (forall v v', I v -> method v v' -> I v') -> serial l -> forall v, v ∈ l -> I v.
Proof.
  intros Hi Hb Hm. induction 1 as [|v Hv|l v v' _ IH Hstep]; intros w Hw.
  - by apply elem_of_nil in Hw.
  - apply list_elem_of_singleton in Hw as ->. auto.
  - apply elem_of_app in Hw as [Hw| ->%list_elem_of_singleton]; [by apply IH|].
    eapply Hm; [|exact Hstep]. apply Hb, IH, elem_of_app. right. by left.
Qed.
(** A read and a save with nothing in between. *)
Lemma read_write id t p v n v' : view id t = Some (Ok v, n) -> method v v' ->
  exec {| rows := t; reading := p |} (if is_ok (put_at v' n t).1 then [v'] else [])
    {| rows := (put_at v' n t).2; reading := p |}.
Proof.
  intros Hv Hc. change (if is_ok (put_at v' n t).1 then [v'] else []) with
    (([] ++ []) ++ (if is_ok (put_at v' n t).1 then [v'] else [])).
  eapply exec_step; [eapply exec_step; [apply exec_here|by apply (client_read id v n)]|].
  destruct (put_at v' n t) as [[rev|e] t'] eqn:E; cbn.
  - by apply (client_write v n v' rev t t' []).
  - by apply (client_conflict v n v' e t t' []).
Qed.
End clients.
Arguments system : clear implicits.
