(* ===== verification/MLOps.v ===== *)
(** * MLOps control plane (platforms/mlops)

    [Run] is the model-run lifecycle of domain.py, [RunStore] the revisioned
    SQLite table of store.py and [Api] the HTTP handlers of api.py.  A run is a
    record, each method a step of the state-and-exception monad; the clock and
    the generated identifiers are arguments. *)

From Stdlib Require Import String Ascii ZArith Lia.
From stdpp Require Import base list strings relations.
From S2P Require Import Prelude PyStr PyDict PyFloat Hash Json AuditLog.

Module Run.

Inductive RunState :=
| CREATED | TRAINING | EVALUATING | REJECTED | CANDIDATE | APPROVED
| DEPLOYING | CANARY | PRODUCTION | ROLLED_BACK | RETIRED.

#[export] Instance RunState_eq_dec : EqDecision RunState.
Proof. solve_decision. Defined.

Definition value (s : RunState) : string :=
  match s with
  | CREATED => "created" | TRAINING => "training" | EVALUATING => "evaluating"
  | REJECTED => "rejected" | CANDIDATE => "candidate" | APPROVED => "approved"
  | DEPLOYING => "deploying" | CANARY => "canary" | PRODUCTION => "production"
  | ROLLED_BACK => "rolled_back" | RETIRED => "retired"
  end.

Definition all_states : list RunState :=
  [CREATED; TRAINING; EVALUATING; REJECTED; CANDIDATE; APPROVED; DEPLOYING; CANARY;
   PRODUCTION; ROLLED_BACK; RETIRED].

(** [RunState(text)] *)
Definition of_value (v : string) : res RunState :=
  match List.find (fun s => bool_decide (value s = v)) all_states with
  | Some s => Ok s
  | None => raise ValueError (repr_str v +:+ " is not a valid RunState")
  end.

Definition _TRANSITIONS (s : RunState) : list RunState :=
  match s with
  | CREATED => [TRAINING]
  | TRAINING => [EVALUATING]
  | EVALUATING => [REJECTED; CANDIDATE]
  | CANDIDATE => [APPROVED; REJECTED]
  | APPROVED => [DEPLOYING]
  | DEPLOYING => [CANARY; ROLLED_BACK]
  | CANARY => [PRODUCTION; ROLLED_BACK]
  | PRODUCTION => [ROLLED_BACK; RETIRED]
  | ROLLED_BACK => [RETIRED]
  | REJECTED => []
  | RETIRED => []
  end.

Record EvaluationPolicy := {
  minimum_metrics : dict string float;
  maximum_metrics : dict string float;
}.

Definition repr_opt_float (o : option float) : string :=
  match o with Some f => repr_float f | None => "None" end.

(** [EvaluationPolicy.evaluate] *)
Definition evaluate (p : EvaluationPolicy) (metrics : dict string float) : bool * list string :=
  let below := List.filter (fun '(name, threshold) => fltb (default fninf (dget name metrics)) threshold)
                 p.(minimum_metrics) in
  let above := List.filter (fun '(name, threshold) => fgtb (default finf (dget name metrics)) threshold)
                 p.(maximum_metrics) in
  let failures :=
    map (fun '(name, threshold) =>
      name +:+ "=" +:+ repr_opt_float (dget name metrics) +:+ " below " +:+ repr_float threshold) below ++
    map (fun '(name, threshold) =>
      name +:+ "=" +:+ repr_opt_float (dget name metrics) +:+ " above " +:+ repr_float threshold) above in
  (match failures with [] => true | _ => false end, failures).

Record ModelRun := {
  run_id : string;
  model_name : string;
  dataset_digest : string;
  code_revision : string;
  owner : string;
  state : RunState;
  artifact_digest : option string;
  metrics : dict string float;
  approver : option string;
  history : list HistoryEntry;
}.

(** [ModelRun(run_id=..., ...)] with the defaults of the data class. *)
Definition new_run (run_id model_name dataset_digest code_revision owner : string) : ModelRun :=
  {| run_id := run_id; model_name := model_name; dataset_digest := dataset_digest;
     code_revision := code_revision; owner := owner; state := CREATED;
     artifact_digest := None; metrics := []; approver := None; history := [] |}.

Definition set_approver (a : string) (r : ModelRun) : ModelRun :=
  {| run_id := r.(run_id); model_name := r.(model_name); dataset_digest := r.(dataset_digest);
     code_revision := r.(code_revision); owner := r.(owner); state := r.(state);
     artifact_digest := r.(artifact_digest); metrics := r.(metrics);
     approver := Some a; history := r.(history) |}.
Definition set_results (m : dict string float) (digest : string) (r : ModelRun) : ModelRun :=
  {| run_id := r.(run_id); model_name := r.(model_name); dataset_digest := r.(dataset_digest);
     code_revision := r.(code_revision); owner := r.(owner); state := r.(state);
     artifact_digest := Some digest; metrics := m;
     approver := r.(approver); history := r.(history) |}.
Definition move (target : RunState) (e : HistoryEntry) (r : ModelRun) : ModelRun :=
  {| run_id := r.(run_id); model_name := r.(model_name); dataset_digest := r.(dataset_digest);
     code_revision := r.(code_revision); owner := r.(owner); state := target;
     artifact_digest := r.(artifact_digest); metrics := r.(metrics);
     approver := r.(approver); history := r.(history) ++ [e] |}.

(** [ModelRun.transition] *)
Definition transition (target : RunState) (actor reason now : string) : M ModelRun unit :=
  let! self := get_M in
  if negb (bool_decide (target ∈ _TRANSITIONS self.(state))) then
    raise_M ValueError ("invalid transition " +:+ value self.(state) +:+ " -> " +:+ value target)
  else
  do! (if bool_decide (target = APPROVED) then
         if bool_decide (actor = self.(owner)) then
           raise_M ValueError "separation of duties: run owner cannot approve their own model"
         else if blank reason then raise_M ValueError "approval requires a reason"
         else modify_M (set_approver actor)
       else mret_M tt) in
  modify_M (move target
    {| h_from := value self.(state); h_to := value target; h_actor := actor;
       h_reason := reason; h_at := now |}).

(** [ModelRun.record_evaluation] *)
Definition record_evaluation (ms : dict string float) (digest : string) (policy : EvaluationPolicy)
    (actor now : string) : M ModelRun bool :=
  let! self := get_M in
  if negb (bool_decide (self.(state) = EVALUATING)) then
    raise_M ValueError "evaluation results can only be recorded in evaluating state"
  else if negb (startswith "sha256:" digest) then
    raise_M ValueError "artifact must use a sha256 digest"
  else
  do! modify_M (set_results ms digest) in
  let '(passed, failures) := evaluate policy ms in
  do! transition (if passed then CANDIDATE else REJECTED) actor
        (if passed then "quality gates passed" else join "; " failures) now in
  mret_M passed.

End Run.

Module RunStore.
Import Run.

(** [{**run.__dict__, "state": run.state.value}] *)
Definition run_json (r : ModelRun) : json :=
  JObj [("run_id", JStr r.(run_id)); ("model_name", JStr r.(model_name));
        ("dataset_digest", JStr r.(dataset_digest)); ("code_revision", JStr r.(code_revision));
        ("owner", JStr r.(owner)); ("state", JStr (value r.(state)));
        ("artifact_digest", jopt_str r.(artifact_digest));
        ("metrics", JObj (map (fun kv => (kv.1, JFloat kv.2)) r.(metrics)));
        ("approver", jopt_str r.(approver));
        ("history", JArr (map history_json r.(history)))].

Definition json_metric (kv : string * json) : res (string * float) :=
  match kv.2 with
  | JFloat f => Ok (kv.1, f)
  | JInt z => Ok (kv.1, f_of_Z z)
  | _ => raise TypeError "expected a number"
  end.
(** [data["state"] = RunState(data["state"]); ModelRun( **data )] *)
Definition json_run (j : json) : res ModelRun :=
  let? st := fstr "state" j in
  let? s := of_value st in
  let? rid := fstr "run_id" j in
  let? mn := fstr "model_name" j in
  let? dd := fstr "dataset_digest" j in
  let? cr := fstr "code_revision" j in
  let? ow := fstr "owner" j in
  let? ad := fopt "artifact_digest" j in
  let? mo := fobj "metrics" j in
  let? ms := map_res json_metric mo in
  let? ap := fopt "approver" j in
  let? ho := flist "history" j in
  let? hs := map_res json_history ho in
  Ok {| run_id := rid; model_name := mn; dataset_digest := dd; code_revision := cr; owner := ow;
        state := s; artifact_digest := ad; metrics := ms; approver := ap; history := hs |}.

Record row := { payload : json; revision : Z }.

(** The table [model_runs], by [run_id]. *)
Definition table : Type := dict string row.

(** [RunStore.save], statement by statement.  Python's sqlite3 begins a
    transaction at the first INSERT or UPDATE, so the SELECT and the statement
    that writes are two transactions, between which other connections may
    write; the UPDATE does not name the revision the SELECT found. *)
Definition save_check (run : ModelRun) (expected_revision : option Z) : M table (option Z) :=
  let! t := get_M in
  match dget run.(run_id) t with
  | None =>
      if bool_decide (expected_revision ∈ [None; Some 0]) then mret_M None
      else raise_M RuntimeError "concurrent update detected"
  | Some r =>
      if match expected_revision with Some e => negb (r.(revision) =? e) | None => false end then
        raise_M RuntimeError "concurrent update detected"
      else mret_M (Some r.(revision))
  end.
(** [INSERT] when the SELECT found no row, [UPDATE ... WHERE run_id=?] otherwise. *)
Definition save_write (run : ModelRun) (found : option Z) : M table Z :=
  let doc := jsort (run_json run) in
  let! t := get_M in
  match found, dget run.(run_id) t with
  | None, None => do! put_M (dset run.(run_id) {| payload := doc; revision := 1 |} t) in mret_M 1
  | None, Some _ => raise_M IntegrityError "UNIQUE constraint failed: model_runs.run_id"
  | Some n, Some _ =>
      let rev := n + 1 in
      do! put_M (dset run.(run_id) {| payload := doc; revision := rev |} t) in mret_M rev
  | Some n, None => mret_M (n + 1)
  end.
Definition save (run : ModelRun) (expected_revision : option Z) : M table Z :=
  let! found := save_check run expected_revision in save_write run found.

(** [RunStore.get] *)
Definition get (id : string) : M table (ModelRun * Z) :=
  let! t := get_M in
  match dget id t with
  | None => raise_M KeyError id
  | Some r => lift_M (let? run := json_run r.(payload) in Ok (run, r.(revision)))
  end.

End RunStore.

Module MLOpsApi.
Import Run RunStore.

Record service := { store : table; transitions : counter }.
Definition set_store (t : table) (s : service) : service := {| store := t; transitions := s.(transitions) |}.
Definition on_store {A} (m : M table A) : M service A := zoom_M store set_store m.
Definition inc_transition (target : RunState) : M service unit :=
  modify_M (fun s => {| store := s.(store); transitions := inc [value target] s.(transitions) |}).

(** [class CreateRun(BaseModel)] *)
Record CreateRun := { c_model_name : string; c_dataset_digest : string; c_code_revision : string; c_owner : string }.
Definition CreateRun_valid (q : CreateRun) : bool :=
  len_between 1 120 q.(c_model_name) && is_sha256_digest q.(c_dataset_digest) &&
  len_between 7 80 q.(c_code_revision) && len_between 1 120 q.(c_owner).

(** [class Transition(BaseModel)]; the target is parsed as a [RunState]. *)
Record Transition := { t_target : RunState; t_actor : string; t_reason : string }.
Definition Transition_valid (q : Transition) : bool :=
  len_between 1 120 q.(t_actor) && len_between 0 1000 q.(t_reason).

(** [class Evaluation(BaseModel)] *)
Record Evaluation := {
  e_metrics : dict string float;
  e_artifact_digest : string;
  e_actor : string;
  e_minimum_metrics : dict string float;
  e_maximum_metrics : dict string float;
}.
Definition Evaluation_valid (q : Evaluation) : bool := is_sha256_digest q.(e_artifact_digest).

(** [_serialize] *)
Definition _serialize (run : ModelRun) (revision : Z) : json :=
  match run_json run with
  | JObj kvs => JObj (kvs ++ [("revision", JInt revision)])
  | j => j
  end.

(** [try ... except KeyError ... except ValueError ...] of the handlers. *)
Definition with_errors {A} (m : M service A) : M service A :=
  catch_M (catch_M m [KeyError] (fun _ => http_M 404 "run not found"))
    [ValueError] (fun e => http_M 422 (str_exn e)).

Definition create_run (fresh_id : string) (q : CreateRun) : M service json :=
  if negb (CreateRun_valid q) then unprocessable else
  let run := new_run fresh_id q.(c_model_name) q.(c_dataset_digest) q.(c_code_revision) q.(c_owner) in
  let! rev := on_store (save run None) in
  mret_M (_serialize run rev).

Definition get_run (id : string) : M service json :=
  catch_M (let! rr := on_store (get id) in mret_M (_serialize rr.1 rr.2))
    [KeyError] (fun _ => http_M 404 "run not found").

Definition transition_run (id : string) (q : Transition) (if_match : Z) (now : string) : M service json :=
  if negb (Transition_valid q) then unprocessable else
  with_errors (
    let! rr := on_store (get id) in
    if negb (rr.2 =? if_match) then http_M 409 "stale revision" else
    let! ur := on_object rr.1 (transition q.(t_target) q.(t_actor) q.(t_reason) now) in
    do! inc_transition q.(t_target) in
    let! rev := on_store (save ur.2 (Some rr.2)) in
    mret_M (_serialize ur.2 rev)).

Definition record_evaluation_run (id : string) (q : Evaluation) (if_match : Z) (now : string) : M service json :=
  if negb (Evaluation_valid q) then unprocessable else
  with_errors (
    let! rr := on_store (get id) in
    if negb (rr.2 =? if_match) then http_M 409 "stale revision" else
    let! br := on_object rr.1 (record_evaluation q.(e_metrics) q.(e_artifact_digest)
      {| minimum_metrics := q.(e_minimum_metrics); maximum_metrics := q.(e_maximum_metrics) |}
      q.(e_actor) now) in
    let! rev := on_store (save br.2 (Some rr.2)) in
    mret_M (_serialize br.2 rev)).

End MLOpsApi.

(** ** Lemmas *)

Module RunFacts.
Import Run.

Definition entry (r : ModelRun) (target : RunState) (actor reason now : string) : HistoryEntry :=
  {| h_from := value r.(state); h_to := value target; h_actor := actor; h_reason := reason; h_at := now |}.

(** The run after a transition the code accepts. *)
Definition moved (r : ModelRun) (target : RunState) (actor reason now : string) : ModelRun :=
  move target (entry r target actor reason now)
    (if bool_decide (target = APPROVED) then set_approver actor r else r).

Definition allowed (r : ModelRun) (target : RunState) (actor reason : string) : Prop :=
  target ∈ _TRANSITIONS r.(state) /\
  (target = APPROVED -> actor <> r.(owner) /\ blank reason = false).

(** A transition is accepted exactly when the table and the approval rules
    allow it; otherwise it raises [ValueError] and the run is unchanged. *)
Lemma transition_cases target actor reason now r :
  (allowed r target actor reason /\
   transition target actor reason now r = (Ok tt, moved r target actor reason now)) \/
  (~ allowed r target actor reason /\
   exists msg, transition target actor reason now r = (raise ValueError msg, r)).
Proof.
  unfold transition, allowed, moved, entry. munfold.
  destruct (bool_decide_reflect (target ∈ _TRANSITIONS (state r))) as [Hin|Hin]; cbn.
  2: { right. split; [tauto|]. eauto. }
  destruct (bool_decide_reflect (target = APPROVED)) as [->|Hne]; cbn.
  2: { left. split; [tauto|done]. }
  destruct (bool_decide_reflect (actor = owner r)) as [->|Hno]; cbn.
  { right. split; [naive_solver|]. eauto. }
  destruct (blank reason) eqn:Hb; cbn.
  - right. split; [naive_solver|]. eauto.
  - left. split; [tauto|done].
Qed.

Lemma transition_err_unchanged target actor reason now r e r' :
  transition target actor reason now r = (Err e, r') -> r' = r.
Proof. destruct (transition_cases target actor reason now r) as [[_ ->]|[_ [msg ->]]]; congruence. Qed.

Lemma evaluate_passed p ms :
  (evaluate p ms).1 = true <->
  (forall name t, (name, t) ∈ p.(minimum_metrics) -> fltb (default fninf (dget name ms)) t = false) /\
  (forall name t, (name, t) ∈ p.(maximum_metrics) -> fgtb (default finf (dget name ms)) t = false).
Proof.
  unfold evaluate. cbn.
  match goal with |- context [List.filter ?f (minimum_metrics p)] => set (lo := List.filter f (minimum_metrics p)) end.
  match goal with |- context [List.filter ?f (maximum_metrics p)] => set (hi := List.filter f (maximum_metrics p)) end.
  transitivity (lo = [] /\ hi = []).
  - destruct lo as [|[n1 t1] lo]; [|cbn; split; [done|by intros []]].
    destruct hi as [|[n2 t2] hi]; cbn; [done|split; [done|by intros []]].
  - subst lo hi. rewrite !filter_bool_nil. split.
    + intros [H1 H2]. split; intros n t Hnt; [apply (H1 (n, t))|apply (H2 (n, t))]; done.
    + intros [H1 H2]. split; intros [n t] Hnt; [by apply H1|by apply H2].
Qed.

(** The evaluation step on a run it accepts. *)
Definition evaluated (r : ModelRun) (ms : dict string float) (digest : string) (p : EvaluationPolicy)
    (actor now : string) : ModelRun :=
  let '(passed, failures) := evaluate p ms in
  moved (set_results ms digest r) (if passed then CANDIDATE else REJECTED) actor
    (if passed then "quality gates passed" else join "; " failures) now.

Lemma record_evaluation_cases ms digest p actor now r :
  (r.(state) = EVALUATING /\ startswith "sha256:" digest = true /\
   record_evaluation ms digest p actor now r = (Ok (evaluate p ms).1, evaluated r ms digest p actor now)) \/
  ((r.(state) <> EVALUATING \/ startswith "sha256:" digest = false) /\
   exists msg, record_evaluation ms digest p actor now r = (raise ValueError msg, r)).
Proof.
  unfold record_evaluation, evaluated. mred.
  destruct (bool_decide_reflect (state r = EVALUATING)) as [Hs|Hs]; cbn [negb].
  2: { right. split; [by left|]. eexists. reflexivity. }
  destruct (startswith "sha256:" digest) eqn:Hd; cbn [negb].
  2: { right. split; [by right|]. eexists. reflexivity. }
  left. split_and!; [done|done|].
  mred. destruct (evaluate p ms) as [passed failures] eqn:Ev. cbn [fst].
  match goal with |- context [mbind_M (transition ?t ?a ?re ?n) _ ?r0] =>
    destruct (transition_cases t a re n r0) as [[_ Ht]|[Hn _]]; [by rewrite (bind_ok _ _ _ _ _ Ht)|exfalso; apply Hn] end.
  unfold allowed. cbn. rewrite Hs. destruct passed; split; try done; set_solver.
Qed.

(** One method call on a run, whatever its outcome. *)
Inductive step (r : ModelRun) : ModelRun -> Prop :=
| step_transition target actor reason now :
    step r (transition target actor reason now r).2
| step_record_evaluation ms digest p actor now :
    step r (record_evaluation ms digest p actor now r).2.

(** Runs a client can build: a fresh run and any sequence of calls on it. *)
Definition reachable (r : ModelRun) : Prop :=
  exists rid mn dd cr ow, rtc step (new_run rid mn dd cr ow) r.

Lemma run_step_cases r r' :
  step r r' -> r' = r \/
  (exists target actor reason now, allowed r target actor reason /\ r' = moved r target actor reason now) \/
  (exists ms digest p actor now, r.(state) = EVALUATING /\ startswith "sha256:" digest = true /\
     r' = evaluated r ms digest p actor now).
Proof.
  destruct 1 as [target actor reason now|ms digest p actor now].
  - destruct (transition_cases target actor reason now r) as [[Ha ->]|[_ [msg ->]]]; cbn; [|by left].
    right; left. eauto 10.
  - destruct (record_evaluation_cases ms digest p actor now r) as [(Hs & Hd & ->)|[_ [msg ->]]]; cbn; [|by left].
    right; right. eauto 10.
Qed.

(** The states reached only through an approval. *)
Definition past_approval (s : RunState) : bool :=
  match s with
  | APPROVED | DEPLOYING | CANARY | PRODUCTION | ROLLED_BACK | RETIRED => true
  | _ => false
  end.

Definition approved_by_other (r : ModelRun) : Prop :=
  exists a e, r.(approver) = Some a /\ a <> r.(owner) /\ e ∈ r.(history) /\
    e.(h_to) = value APPROVED /\ e.(h_actor) = a /\ blank e.(h_reason) = false.

Definition approval_inv (r : ModelRun) : Prop := past_approval r.(state) = true -> approved_by_other r.

Lemma approved_mono r target e :
  approved_by_other r -> approved_by_other (move target e r).
Proof.
  intros (a & e0 & H1 & H2 & H3 & H4). exists a, e0. cbn. split_and!; try done; try tauto.
  apply elem_of_app. by left.
Qed.

Lemma transition_target_past s t :
  t ∈ _TRANSITIONS s -> past_approval t = true -> t = APPROVED \/ past_approval s = true.
Proof.
  intros Ht Hp. destruct t; try done; try (by left); right;
    destruct s; cbn in *; try done; exfalso;
    rewrite ?elem_of_cons, ?elem_of_nil in Ht; naive_solver.
Qed.

Lemma moved_approval_inv r target actor reason now :
  approval_inv r -> allowed r target actor reason -> approval_inv (moved r target actor reason now).
Proof.
  intros Hi [Hin Hap] Hp. unfold moved in *. cbn in Hp.
  destruct (bool_decide_reflect (target = APPROVED)) as [->|Hne].
  - destruct (Hap eq_refl) as [Hno Hb].
    exists actor, (entry r APPROVED actor reason now). cbn. split_and!; try done.
    apply elem_of_app. right. by left.
  - apply approved_mono, Hi. destruct (transition_target_past _ _ Hin Hp); [congruence|done].
Qed.

Lemma step_approval_inv r r' : approval_inv r -> step r r' -> approval_inv r'.
Proof.
  intros Hi [->|[(t & a & re & n & Ha & ->)|(ms & d & p & a & n & Hs & _ & ->)]]%run_step_cases; [done| |].
  - by apply moved_approval_inv.
  - unfold evaluated. destruct (evaluate p ms) as [[] fs]; by intros Hp.
Qed.

Lemma reachable_approval_inv r : reachable r -> approval_inv r.
Proof.
  intros (rid & mn & dd & cr & ow & H).
  assert (forall r0 r1, rtc step r0 r1 -> approval_inv r0 -> approval_inv r1) as Hgen.
  { induction 1 as [|x y z Hxy _ IH]; [done|]. intros Hx. apply IH. by eapply step_approval_inv. }
  by apply (Hgen _ _ H).
Qed.

(** The audit trail is a path of the transition table from the creation to
    the current state. *)
Inductive trail : RunState -> list HistoryEntry -> RunState -> Prop :=
| trail_nil s : trail s [] s
| trail_snoc s l m t e : trail s l m -> t ∈ _TRANSITIONS m ->
    e.(h_from) = value m -> e.(h_to) = value t -> trail s (l ++ [e]) t.

Lemma step_trail r r' :
  trail CREATED r.(history) r.(state) -> step r r' -> trail CREATED r'.(history) r'.(state).
Proof.
  intros Ht [->|[(t & a & re & n & [Ha _] & ->)|(ms & d & p & a & n & Hs & _ & ->)]]%run_step_cases; [done| |].
  - unfold moved. destruct (bool_decide (t = APPROVED)); cbn; by eapply trail_snoc.
  - unfold evaluated. destruct (evaluate p ms) as [passed fs]. unfold moved. rewrite Hs in Ht.
    destruct passed; cbn; (eapply trail_snoc; [done|set_solver|cbn; by rewrite Hs|done]).
Qed.

(** A sequence of transition calls. *)
Definition calls (r : ModelRun) (l : list (RunState * string * string)) : ModelRun :=
  fold_left (fun r '(t, a, re) => (transition t a re "now" r).2) l r.

Lemma calls_reachable r l : rtc step r (calls r l).
Proof.
  revert r. induction l as [|[[t a] re] l IH]; cbn; intros r; [done|].
  eapply rtc_l; [apply step_transition|]. apply IH.
Qed.

Lemma reachable_trail r : reachable r -> trail CREATED r.(history) r.(state).
Proof.
  intros (rid & mn & dd & cr & ow & H).
  assert (forall r0 r1, rtc step r0 r1 -> trail CREATED r0.(history) r0.(state) ->
            trail CREATED r1.(history) r1.(state)) as Hgen.
  { induction 1 as [|x y z Hxy _ IH]; [done|]. intros Hx. apply IH. by eapply step_trail. }
  apply (Hgen _ _ H). constructor.
Qed.

Lemma of_value_value s : of_value (value s) = Ok s.
Proof. by destruct s. Qed.

End RunFacts.

Module RunStoreFacts.
Import Run RunStore RunFacts.

(** The run as it is read back: its metrics come in key order. *)
Definition stored (r : ModelRun) : ModelRun :=
  {| run_id := r.(run_id); model_name := r.(model_name); dataset_digest := r.(dataset_digest);
     code_revision := r.(code_revision); owner := r.(owner); state := r.(state);
     artifact_digest := r.(artifact_digest); metrics := sort_obj r.(metrics);
     approver := r.(approver); history := r.(history) |}.

Lemma json_run_roundtrip r : json_run (jsort (run_json r)) = Ok (stored r).
Proof.
  unfold json_run, run_json. jfields. rewrite of_value_value. cbn [mbind res_bind]. jfields.
  erewrite (fobj_jsort _ _ _ JFloat); [|reflexivity]. cbn [mbind res_bind].
  rewrite (map_res_map _ _ id) by (by intros [k v] _). cbn [mbind res_bind]. jfields.
  rewrite map_map, (map_res_map _ _ id) by (intros e _; apply json_history_roundtrip).
  by rewrite !map_id.
Unshelve. solve_keys.
Qed.

(** The two statements with nothing in between. *)
Lemma save_check_unchanged run exp t : (save_check run exp t).2 = t.
Proof.
  unfold save_check. mred. destruct (dget _ t); [destruct (match exp with Some _ => _ | None => _ end)|destruct (bool_decide _)]; done.
Qed.
Lemma save_check_found run exp t f t' : save_check run exp t = (Ok f, t') ->
  t' = t /\ f = revision <$> dget run.(run_id) t /\ (forall n m, exp = Some n -> f = Some m -> m = n).
Proof.
  unfold save_check. mred. destruct (dget _ t) as [r|].
  - destruct exp as [e|]; [|mred; by intros [= <- <-]].
    destruct (Z.eqb_spec (revision r) e); [|done]. mred. intros [= <- <-]. split_and!; [done..|]. congruence.
  - destruct (bool_decide _); [|done]. mred. by intros [= <- <-].
Qed.
Lemma save_write_ok run f t rev t' : save_write run f t = (Ok rev, t') -> rev = default 0 f + 1 /\
  ((f = None /\ dget run.(run_id) t = None \/ f <> None /\ dget run.(run_id) t <> None) /\
   t' = dset run.(run_id) {| payload := jsort (run_json run); revision := rev |} t \/
   dget run.(run_id) t = None /\ f <> None /\ t' = t).
Proof.
  unfold save_write. mred. destruct f as [n|], (dget _ t) as [r|] eqn:E; mred; try done; intros [= <- <-]; (split; [done|]); naive_solver.
Qed.
Lemma save_write_err run f t e t' : save_write run f t = (Err e, t') -> t' = t.
Proof. unfold save_write. mred. destruct f, (dget _ t); mred; by intros [= ]. Qed.

Lemma save_ok_lookup run exp t rev t' :
  save run exp t = (Ok rev, t') ->
  dget run.(run_id) t' = Some {| payload := jsort (run_json run); revision := rev |} /\
  (forall id, id <> run.(run_id) -> dget id t' = dget id t) /\
  match dget run.(run_id) t with Some r => rev = r.(revision) + 1 | None => rev = 1 end.
Proof.
  unfold save, mbind_M. destruct (save_check run exp t) as [[f|e] t1] eqn:E; [|done].
  apply save_check_found in E as (-> & -> & _).
  intros [-> [[_ ->]|(Hn & Hf & _)]]%save_write_ok; [|by destruct (dget _ t)].
  split_and!; [apply dget_dset_eq|intros; by apply dget_dset_ne|]. by destruct (dget _ t) as [[]|].
Qed.

Lemma save_err_unchanged run exp t e t' : save run exp t = (Err e, t') -> t' = t.
Proof.
  unfold save, mbind_M. pose proof (save_check_unchanged run exp t) as Hc. destruct (save_check run exp t) as [[f|x] t1]; cbn in Hc; subst t1.
  - apply save_write_err.
  - by intros [= ].
Qed.

Lemma save_stale run e t r :
  dget run.(run_id) t = Some r -> r.(revision) <> e ->
  save run (Some e) t = (raise RuntimeError "concurrent update detected", t).
Proof.
  intros Hr Hne. unfold save. apply bind_err. unfold save_check. mred. rewrite Hr.
  by destruct (Z.eqb_spec (revision r) e).
Qed.

Lemma get_saved id t r rev :
  dget id t = Some {| payload := jsort (run_json r); revision := rev |} ->
  get id t = (Ok (stored r, rev), t).
Proof.
  intros H. unfold get. mred. rewrite H. cbn [payload]. unfold lift_M.
  by rewrite json_run_roundtrip.
Qed.

Lemma get_unchanged id t : (get id t).2 = t.
Proof. unfold get. mred. by destruct (dget id t). Qed.

(** The revision of a run, absent runs counting as revision 0. *)
Definition revision_of (id : string) (t : table) : Z :=
  match dget id t with Some r => r.(revision) | None => 0 end.

End RunStoreFacts.

Module MLOpsApiFacts.
Import Run RunStore RunFacts RunStoreFacts MLOpsApi.

Lemma set_store_id s : set_store s.(store) s = s.
Proof. by destruct s. Qed.

Lemma with_errors_ok {A} (m : M service A) s a s' : m s = (Ok a, s') -> with_errors m s = (Ok a, s').
Proof. unfold with_errors, catch_M. by intros ->. Qed.

Lemma with_errors_http {A} (m : M service A) s st d s' :
  m s = (Err (HTTPExc st d), s') -> with_errors m s = (Err (HTTPExc st d), s').
Proof. unfold with_errors, catch_M. by intros ->. Qed.

Lemma with_errors_value {A} (m : M service A) s msg s' :
  m s = (raise ValueError msg, s') -> with_errors m s = (http 422 msg, s').
Proof. unfold with_errors, catch_M. by intros ->. Qed.

Lemma with_errors_key {A} (m : M service A) s msg s' :
  m s = (raise KeyError msg, s') -> with_errors m s = (http 404 "run not found", s').
Proof. unfold with_errors, catch_M. by intros ->. Qed.

Lemma run_id_moved r t a re n : run_id (moved r t a re n) = run_id r.
Proof. unfold moved. by destruct (bool_decide _). Qed.

Lemma save_current run t p rev :
  dget run.(run_id) t = Some {| payload := p; revision := rev |} ->
  save run (Some rev) t =
    (Ok (rev + 1), dset run.(run_id) {| payload := jsort (run_json run); revision := rev + 1 |} t).
Proof.
  intros H. unfold save. rewrite (bind_ok _ _ _ (Some rev) t).
  - unfold save_write. mred. by rewrite H.
  - unfold save_check. mred. rewrite H. cbn [revision]. by rewrite Z.eqb_refl.
Qed.

(** Read a stored run in a handler. *)
Lemma on_store_get id s r rev :
  dget id s.(store) = Some {| payload := jsort (run_json r); revision := rev |} ->
  on_store (get id) s = (Ok (stored r, rev), s).
Proof.
  intros H. unfold on_store. rewrite (zoom_ok _ set_store _ _ _ _ (get_saved _ _ _ _ H)). by rewrite set_store_id.
Qed.

Lemma on_store_get_missing id s :
  dget id s.(store) = None -> on_store (get id) s = (raise KeyError id, s).
Proof.
  intros H. assert (get id s.(store) = (raise KeyError id, s.(store))) as Hg.
  { unfold get. mred. by rewrite H. }
  unfold on_store. rewrite (zoom_err _ set_store _ _ _ _ Hg). by rewrite set_store_id.
Qed.

(** Whole saves of one table, successful or not, by any client. *)
Definition save_step (t t' : table) : Prop := exists run exp, t' = (save run exp t).2.

Lemma save_step_revision t t' id : save_step t t' -> revision_of id t <= revision_of id t'.
Proof.
  intros (run & exp & ->). destruct (save run exp t) as [[rev|e] t'] eqn:E; cbn.
  - apply save_ok_lookup in E as (H1 & H2 & H3). unfold revision_of.
    destruct (decide (id = run_id run)) as [->|Hne]; [|by rewrite H2].
    rewrite H1. destruct (dget (run_id run) t); cbn in *; lia.
  - by apply save_err_unchanged in E as ->.
Qed.

Lemma save_steps_revision t t' id : rtc save_step t t' -> revision_of id t <= revision_of id t'.
Proof. induction 1 as [|x y z H _ IH]; [lia|]. pose proof (save_step_revision _ _ id H). lia. Qed.

End MLOpsApiFacts.

(** ** Properties *)

Module MLOpsTheorems.
Import Run RunStore RunFacts RunStoreFacts MLOpsApi MLOpsApiFacts.

(** C1: separation of duties over whole lifecycles.  A run that any sequence
    of method calls brings to an approved, deploying, canary, production,
    rolled-back or retired state has an approver who is not its owner, whose
    approval, with a non-blank reason, is in the audit history; and the
    history is a path of the transition table from [CREATED] to the current
    state. *)
Theorem lifecycle_separation_of_duties : forall r,
  reachable r ->
  (past_approval r.(state) = true -> approved_by_other r) /\
  trail CREATED r.(history) r.(state).
Proof. intros r H. split; [by apply reachable_approval_inv | by apply reachable_trail]. Qed.

Definition demo_run : ModelRun :=
  calls (new_run "r1" "fraud" "d" "c" "trainer")
    [(TRAINING, "trainer", EmptyString); (EVALUATING, "trainer", EmptyString);
     (CANDIDATE, "trainer", EmptyString); (APPROVED, "trainer", "mine"); (APPROVED, "reviewer", "metrics reviewed");
     (DEPLOYING, "operator", EmptyString); (CANARY, "operator", EmptyString); (PRODUCTION, "operator", EmptyString)].

Lemma lifecycle_separation_of_duties_witness :
  reachable demo_run /\ demo_run.(state) = PRODUCTION /\ approved_by_other demo_run /\
  trail CREATED demo_run.(history) PRODUCTION.
Proof.
  assert (reachable demo_run) as H by (eexists _, _, _, _, _; apply calls_reachable).
  split; [exact H|]. split; [reflexivity|].
  destruct (lifecycle_separation_of_duties demo_run H) as [H1 H2].
  split; [apply H1; reflexivity|exact H2].
Defined.

(** [record_evaluation] applies the quality policy.  On a run under
    evaluation with a sha256 artifact it records the metrics and the artifact
    and moves the run to [CANDIDATE] exactly when no minimum is missed and no
    maximum exceeded (a missing metric misses both), to [REJECTED] otherwise;
    on any other run or artifact it raises [ValueError] and changes nothing. *)
Theorem record_evaluation_policy : forall ms digest p actor now r,
  let passed := (evaluate p ms).1 in
  (passed = true <->
   (forall name t, (name, t) ∈ p.(minimum_metrics) -> fltb (default fninf (dget name ms)) t = false) /\
   (forall name t, (name, t) ∈ p.(maximum_metrics) -> fgtb (default finf (dget name ms)) t = false)) /\
  ((r.(state) = EVALUATING /\ startswith "sha256:" digest = true /\
    exists r', record_evaluation ms digest p actor now r = (Ok passed, r') /\
      r'.(state) = (if passed then CANDIDATE else REJECTED) /\
      r'.(metrics) = ms /\ r'.(artifact_digest) = Some digest /\ r'.(approver) = r.(approver)) \/
   ((r.(state) <> EVALUATING \/ startswith "sha256:" digest = false) /\
    exists msg, record_evaluation ms digest p actor now r = (raise ValueError msg, r))).
Proof.
  intros ms digest p actor now r passed. split; [apply evaluate_passed|].
  destruct (record_evaluation_cases ms digest p actor now r) as [(H1 & H2 & H3)|H]; [left|by right].
  split_and!; [done|done|]. eexists. split; [exact H3|].
  unfold evaluated, passed. destruct (evaluate p ms) as [[] fs]; done.
Qed.

(** Optimistic concurrency of saves one after the other.  When two clients
    read a run at the same revision and one of them saves it, a save of the
    other one that begins after that is refused with [RuntimeError] and writes
    nothing, whatever whole saves of other clients happen in between.  (Saves
    whose statements interleave are in [Concurrency]: an update may be lost.) *)
Theorem stale_save_rejected : forall t mine theirs rev rev' t1 t2,
  mine.(run_id) = theirs.(run_id) ->
  revision_of theirs.(run_id) t = rev -> 0 < rev ->
  save theirs (Some rev) t = (Ok rev', t1) ->
  rtc save_step t1 t2 ->
  save mine (Some rev) t2 = (raise RuntimeError "concurrent update detected", t2).
Proof.
  intros t mine theirs rev rev' t1 t2 Hid Hrev Hpos Hsave Hsteps.
  apply save_ok_lookup in Hsave as (H1 & _ & H3).
  pose proof (save_steps_revision _ _ (run_id theirs) Hsteps) as Hle.
  unfold revision_of in Hle, Hrev. rewrite H1 in Hle. cbn in Hle. rewrite <- Hid in *.
  destruct (dget (run_id mine) t); [|lia].
  destruct (dget (run_id mine) t2) as [r2|] eqn:E2; [|lia].
  apply (save_stale _ _ _ _ E2). lia.
Qed.

Lemma stale_save_rejected_witness :
  let r := new_run "r1" "fraud" "d" "c" "trainer" in
  let t := (save r None []).2 in
  let t1 := (save (set_approver "a" r) (Some 1) t).2 in
  save r (Some 1) t1 = (raise RuntimeError "concurrent update detected", t1).
Proof.
  intros r t t1.
  apply (stale_save_rejected t r (set_approver "a" r) 1 2 t1 t1);
    [reflexivity | vm_compute; reflexivity | lia | vm_compute; reflexivity | constructor].
Defined.

(** C3: the transition endpoint, on every branch.  An unknown run is answered
    404, a stale [If-Match] 409 and a transition the table or the approval
    rules forbid 422, each leaving the service unchanged; otherwise the stored
    run is the moved one at the next revision and its counter is incremented. *)
Theorem transition_run_outcomes : forall id q if_match now s,
  Transition_valid q = true ->
  (dget id s.(store) = None -> transition_run id q if_match now s = (http 404 "run not found", s)) /\
  (forall r rev,
     dget id s.(store) = Some {| payload := jsort (run_json r); revision := rev |} ->
     r.(run_id) = id ->
     (rev <> if_match -> transition_run id q if_match now s = (http 409 "stale revision", s)) /\
     (rev = if_match -> ~ allowed r q.(t_target) q.(t_actor) q.(t_reason) ->
        exists msg, transition_run id q if_match now s = (http 422 msg, s)) /\
     (rev = if_match -> allowed r q.(t_target) q.(t_actor) q.(t_reason) ->
        let r' := moved (stored r) q.(t_target) q.(t_actor) q.(t_reason) now in
        transition_run id q if_match now s =
          (Ok (_serialize r' (rev + 1)),
           {| store := dset id {| payload := jsort (run_json r'); revision := rev + 1 |} s.(store);
              transitions := inc [value q.(t_target)] s.(transitions) |}))).
Proof.
  intros id q if_match now s Hv. unfold transition_run. rewrite Hv. cbn [negb]. split.
  { intros H. eapply with_errors_key. by rewrite (bind_err _ _ _ _ _ (on_store_get_missing _ _ H)). }
  intros r rev Hrow Hid. pose proof (on_store_get _ _ _ _ Hrow) as Hget.
  pose proof (transition_cases q.(t_target) q.(t_actor) q.(t_reason) now (stored r)) as Hcases.
  split; [|split].
  - intros Hne. eapply with_errors_http. rewrite (bind_ok _ _ _ _ _ Hget). cbn [snd].
    by destruct (Z.eqb_spec rev if_match).
  - intros <- Hna. destruct Hcases as [[Ha _]|[_ [msg Ht]]]; [by destruct Hna|]. exists msg.
    apply with_errors_value. rewrite (bind_ok _ _ _ _ _ Hget). cbn [fst snd]. rewrite Z.eqb_refl. cbn [negb].
    by rewrite (bind_err _ _ _ _ _ (on_object_err _ _ _ _ _ Ht)).
  - intros <- Ha. set (r' := moved (stored r) _ _ _ _). destruct Hcases as [[_ Ht]|[Hna _]]; [|by destruct Hna].
    apply with_errors_ok. rewrite (bind_ok _ _ _ _ _ Hget). cbn [fst snd]. rewrite Z.eqb_refl. cbn [negb].
    rewrite (bind_ok _ _ _ _ _ (on_object_ok _ _ _ _ _ Ht)). cbn [snd]. fold r'. unfold inc_transition. mred.
    assert (run_id r' = id) as Hr' by (unfold r'; by rewrite run_id_moved).
    rewrite <- Hr' in Hrow |- *.
    erewrite bind_ok; [|eapply (zoom_ok _ set_store), save_current; exact Hrow]. done.
Qed.

Lemma transition_run_outcomes_witness :
  let r := new_run "r1" "fraud" "d" "c" "trainer" in
  let s := {| store := (save r None []).2; transitions := [] |} in
  let q := {| t_target := TRAINING; t_actor := "trainer"; t_reason := EmptyString |} in
  transition_run "r1" q 7 "now" s = (http 409 "stale revision", s) /\
  is_ok (transition_run "r1" q 1 "now" s).1 = true /\
  count_of ["training"] (transition_run "r1" q 1 "now" s).2.(transitions) = 1.
Proof.
  intros r s q.
  destruct (transition_run_outcomes "r1" q 7 "now" s eq_refl) as [_ H].
  destruct (H r 1) as [H1 _]; [vm_compute; reflexivity|reflexivity|].
  split; [apply H1; lia|].
  destruct (transition_run_outcomes "r1" q 1 "now" s eq_refl) as [_ K].
  destruct (K r 1) as [_ [_ K1]]; [vm_compute; reflexivity|reflexivity|].
  cbv zeta in K1. rewrite K1; [split; reflexivity|reflexivity|].
  split; [cbn; left|discriminate].
Defined.

(** The transition endpoint itself reaches [CANDIDATE] without any recorded
    evaluation: no metrics, no artifact. *)
Lemma candidate_without_evaluation :
  let r := foldr (fun t r => (transition t "anyone" EmptyString "now" r).2)
             (new_run "r" "m" "d" "c" "owner") [CANDIDATE; EVALUATING; TRAINING] in
  r.(state) = CANDIDATE /\ r.(metrics) = [] /\ r.(artifact_digest) = None.
Proof. vm_compute. done. Qed.

End MLOpsTheorems.
