(* ===== verification/Security.v ===== *)
(** * Identities and authorization (packages/security)

    [Identity], the role check of auth.py and the request identity of
    fastapi_auth.py.  The JWT library, the key endpoint and the clock are
    arguments: [jwt_header], [jwt_decode], [fetch_jwks]. *)

From Stdlib Require Import String Ascii ZArith Lia.
From stdpp Require Import base list strings.
From S2P Require Import Prelude PyStr PyDict Json.

Record Identity := {
  subject : string;
  roles : list string;
  tenant : string;
}.

(** [require_roles( *required )(identity)] *)
Definition require_roles (required : list string) (identity : Identity) : res Identity :=
  match set_diff_sorted required identity.(roles) with
  | [] => Ok identity
  | missing => raise AuthorizationError ("required roles missing: " +:+ repr_list missing)
  end.

(** The process environment, [os.getenv(k)] and [os.getenv(k, default)]. *)
Definition environ : Type := dict string string.
Definition getenv (k default_ : string) (env : environ) : string := default default_ (dget k env).

(** [int(os.getenv(k, d))] *)
Definition env_int (k d : string) (env : environ) : res Z :=
  match int_of_str (getenv k d env) with
  | Some z => Ok z
  | None => raise ValueError ("invalid literal for int() with base 10: " +:+ repr_str (getenv k d env))
  end.

Section oidc.
Context (jwt_header : string -> res json).
Context (jwt_decode : string -> json -> string -> string -> string -> res json).
Context (fetch_jwks : string -> res json).

Definition ALLOWED_ALGORITHMS : list string := ["RS256"; "ES256"; "EdDSA"].

(** [OIDCVerifier]: its issuer, audience and key cache. *)
Record OIDCVerifier := {
  issuer : string;
  audience : string;
  cache_seconds : Z;
  _jwks : option json;
  _expires_at : Z;
}.
Definition new_verifier (issuer_ audience_ : string) : OIDCVerifier :=
  {| issuer := rstrip_slash issuer_; audience := audience_; cache_seconds := 3600;
     _jwks := None; _expires_at := 0 |}.

(** [_keys]: the cached key set, fetched again once it has expired. *)
Definition _keys (now : Z) : M OIDCVerifier json :=
  let! self := get_M in
  match self.(_jwks) with
  | Some ks => if now >=? self.(_expires_at) then
      let! fresh := lift_M (fetch_jwks (self.(issuer) +:+ "/protocol/openid-connect/certs")) in
      do! put_M {| issuer := self.(issuer); audience := self.(audience); cache_seconds := self.(cache_seconds);
                   _jwks := Some fresh; _expires_at := now + self.(cache_seconds) |} in
      mret_M fresh
      else mret_M ks
  | None =>
      let! fresh := lift_M (fetch_jwks (self.(issuer) +:+ "/protocol/openid-connect/certs")) in
      do! put_M {| issuer := self.(issuer); audience := self.(audience); cache_seconds := self.(cache_seconds);
                   _jwks := Some fresh; _expires_at := now + self.(cache_seconds) |} in
      mret_M fresh
  end.

(** [next(item for item in keys if item["kid"] == kid)] *)
Fixpoint find_kid (kid : json) (keys : list json) : res json :=
  match keys with
  | [] => raise OtherError "StopIteration"
  | k :: ks =>
      let? id := jfield "kid" k in
      if json_eqb id kid then Ok k else find_kid kid ks
  end.

Definition field_or (k : string) (d : json) (j : json) : json := default d (jget k j).
(** [j.get(k, {})], and the string elements of a list of roles. *)
Definition sub_object (k : string) (j : json) : res json :=
  let? o := jobj (field_or k (JObj []) j) in Ok (JObj o).
Definition role_list (j : json) : res (list string) :=
  let? l := jlist (field_or "roles" (JArr []) j) in
  Ok (omap (fun x => match x with JStr s => Some s | _ => None end) l).

(** [OIDCVerifier.verify] *)
Definition verify (now : Z) (token : string) : M OIDCVerifier Identity :=
  let! self := get_M in
  let! payload := catch_all_M (
      let! header := lift_M (jwt_header token) in
      match jget "alg" header with
      | Some (JStr alg) =>
          if negb (str_in alg ALLOWED_ALGORITHMS) then
            raise_M AuthenticationError "token algorithm is not allowed"
          else
          let! keys := _keys now in
          let! items := lift_M (flist "keys" keys) in
          let! kid := lift_M (jfield "kid" header) in
          let! key := lift_M (find_kid kid items) in
          lift_M (jwt_decode token key alg self.(audience) self.(issuer))
      | _ => raise_M AuthenticationError "token algorithm is not allowed"
      end)
    (fun _ => raise_M AuthenticationError "token verification failed") in
  let! access := lift_M (sub_object "realm_access" payload) in
  let! realm_roles := lift_M (role_list access) in
  let! resources := lift_M (sub_object "resource_access" payload) in
  let! client := lift_M (sub_object self.(audience) resources) in
  let! client_roles := lift_M (role_list client) in
  let! sub := lift_M (jfield "sub" payload) in
  mret_M {| subject := str_json sub; roles := realm_roles ++ client_roles;
            tenant := str_json (field_or "tenant_id" (JStr "default") payload) |}.

Definition dev_roles : list string :=
  ["factory-admin"; "gate-evaluator"; "release-approver"; "sre-reader"; "sre-proposer";
   "sre-approver"; "sre-executor"; "judge-reviewer"].

(** [current_identity] *)
Definition current_identity (env : environ) (now : Z) (authorization : option string) : res Identity :=
  let mode := getenv "AUTH_MODE" "development" env in
  if bool_decide (mode = "development") then
    if bool_decide (getenv "FACTORY_ENV" "development" env = "production") then
      http 503 "development authentication is disabled in production"
    else Ok {| subject := getenv "DEV_ACTOR" "local-developer" env; roles := dev_roles;
               tenant := getenv "DEV_TENANT" "local" env |}
  else if negb (bool_decide (mode = "oidc")) then http 503 "unsupported authentication mode"
  else
  let issuer_ := getenv "OIDC_ISSUER" EmptyString env in
  let audience_ := getenv "OIDC_AUDIENCE" EmptyString env in
  if negb (nonempty issuer_) || negb (nonempty audience_) then http 503 "OIDC is not configured"
  else match authorization with
  | Some a =>
      if negb (startswith "Bearer " a) then http 401 "bearer token required"
      else match (verify now (removeprefix "Bearer " a) (new_verifier issuer_ audience_)).1 with
      | Err e => if catches [AuthenticationError] e then http 401 "invalid bearer token" else Err e
      | Ok i => Ok i
      end
  | None => http 401 "bearer token required"
  end.

(** ** Lemmas *)

Lemma verify_ok_decoded now token v i v' :
  verify now token v = (Ok i, v') ->
  exists header alg key payload,
    jwt_header token = Ok header /\ jget "alg" header = Some (JStr alg) /\
    alg ∈ ALLOWED_ALGORITHMS /\
    jwt_decode token key alg v.(audience) v.(issuer) = Ok payload /\
    exists sub, jfield "sub" payload = Ok sub /\ i.(subject) = str_json sub.
Proof.
  unfold verify. mred. intros Hi. apply bind_inv_ok in Hi as (payload & v1 & Hp & Hi).
  unfold catch_all_M in Hp. destruct (mbind_M _ _ v) as [[p|e] v2] eqn:Eb; [|done].
  injection Hp as -> ->. apply bind_inv_ok in Eb as (header & v3 & Hh & Eb).
  unfold lift_M in Hh. injection Hh as Hh <-.
  destruct (jget "alg" header) as [[| | | |alg| |]|] eqn:Ea; try done.
  destruct (str_in alg ALLOWED_ALGORITHMS) eqn:Es; [|done]. cbn [negb] in Eb.
  apply bind_inv_ok in Eb as (keys & v4 & _ & Eb).
  apply bind_inv_ok in Eb as (items & v5 & _ & Eb).
  apply bind_inv_ok in Eb as (kid & v6 & _ & Eb).
  apply bind_inv_ok in Eb as (key & v7 & _ & Eb). unfold lift_M in Eb. injection Eb as Eb _.
  do 5 (apply bind_inv_ok in Hi as (? & ? & _ & Hi)).
  apply bind_inv_ok in Hi as (sub & v8 & Hs & Hi). unfold lift_M in Hs. injection Hs as Hs _.
  injection Hi as <- _.
  exists header, alg, key, payload. split_and!; try done; [by apply str_in_spec|by exists sub].
Qed.

End oidc.

Lemma require_roles_ok required i i' :
  require_roles required i = Ok i' <-> i' = i /\ forall r, r ∈ required -> r ∈ i.(roles).
Proof.
  unfold require_roles. rewrite <- set_diff_sorted_nil.
  destruct (set_diff_sorted required (roles i)); split; try done.
  - by intros [= ->].
  - by intros [-> _].
  - by intros [_ ?].
Qed.

Lemma require_roles_err required i :
  (exists r, r ∈ required /\ r ∉ i.(roles)) ->
  exists msg, require_roles required i = raise AuthorizationError msg.
Proof.
  intros (r & Hr & Hn). unfold require_roles. destruct (set_diff_sorted required (roles i)) eqn:E; [|eauto].
  exfalso. apply Hn. revert Hr. by apply set_diff_sorted_nil.
Qed.

(** ** Properties *)

Module SecurityTheorems.

(** C13: authentication fails closed.  The request identity is the development
    one only in development mode outside production; in [oidc] mode an
    identity is returned only for a bearer token whose header names an allowed
    algorithm and which the JWT library decoded for the configured audience
    and issuer, and its subject is the token's; every other configuration or
    request is refused. *)
Theorem identity_fails_closed : forall jwt_header jwt_decode fetch_jwks env now authorization i,
  current_identity jwt_header jwt_decode fetch_jwks env now authorization = Ok i ->
  (getenv "AUTH_MODE" "development" env = "development" /\
   getenv "FACTORY_ENV" "development" env <> "production" /\ i.(roles) = dev_roles) \/
  (getenv "AUTH_MODE" "development" env = "oidc" /\
   exists token header alg key payload,
     authorization = Some ("Bearer " +:+ token) /\
     jwt_header token = Ok header /\ jget "alg" header = Some (JStr alg) /\
     alg ∈ ALLOWED_ALGORITHMS /\
     jwt_decode token key alg (getenv "OIDC_AUDIENCE" EmptyString env)
       (rstrip_slash (getenv "OIDC_ISSUER" EmptyString env)) = Ok payload /\
     exists sub, jfield "sub" payload = Ok sub /\ i.(subject) = str_json sub).
Proof.
  intros jh jd fj env now auth i. unfold current_identity.
  destruct (bool_decide_reflect (getenv "AUTH_MODE" "development" env = "development")) as [Hm|Hm].
  { destruct (bool_decide_reflect (getenv "FACTORY_ENV" "development" env = "production")); [done|].
    intros [= <-]. by left. }
  destruct (bool_decide_reflect (getenv "AUTH_MODE" "development" env = "oidc")) as [Ho|]; [|done].
  cbn [negb]. destruct (negb _ || negb _); [done|]. destruct auth as [a|]; [|done].
  destruct (startswith "Bearer " a) eqn:Ea; [|done]. cbn [negb].
  apply prefix_correct' in Ea as [token ->]. rewrite Hash.removeprefix_app.
  destruct (verify _ _ _ _ _ _) as [[i'|e] v'] eqn:Ev; cbn [fst].
  2: { destruct (catches _ e); done. }
  intros [= ->]. right. split; [done|].
  apply verify_ok_decoded in Ev as (header & alg & key & payload & H). exists token, header, alg, key, payload.
  split; [done|]. exact H.
Qed.

Lemma identity_fails_closed_witness :
  let env := [("AUTH_MODE", "oidc"); ("OIDC_ISSUER", "https://id/"); ("OIDC_AUDIENCE", "omo")] in
  let jh := fun _ : string => Ok (JObj [("alg", JStr "RS256"); ("kid", JStr "k1")]) in
  let jd := fun (_ : string) (_ : json) (_ _ _ : string) => Ok (JObj [("sub", JStr "alice"); ("tenant_id", JStr "t1")]) in
  let fj := fun _ : string => Ok (JObj [("keys", JArr [JObj [("kid", JStr "k1")]])]) in
  current_identity jh jd fj env 0 (Some "Bearer tok") = Ok {| subject := "alice"; roles := []; tenant := "t1" |} /\
  exists token alg, Some "Bearer tok" = Some ("Bearer " +:+ token) /\ alg ∈ ALLOWED_ALGORITHMS.
Proof.
  intros env jh jd fj.
  assert (current_identity jh jd fj env 0 (Some "Bearer tok") = Ok {| subject := "alice"; roles := []; tenant := "t1" |}) as H
    by (vm_compute; reflexivity).
  split; [exact H|].
  destruct (identity_fails_closed jh jd fj env 0 (Some "Bearer tok") _ H) as [[K _]|[_ K]]; [discriminate|].
  destruct K as (token & header & alg & key & payload & K1 & _ & _ & K4 & _). exists token, alg. split; [exact K1|exact K4].
Defined.

End SecurityTheorems.
