(* ===== verification/Factory.v ===== *)
(** * AI SRE Factory: domain, governance and store (platforms/factory)

    [Domain] is the workload lifecycle of domain.py, [Governance] the evidence
    statements and release policy of governance.py, [FactoryStore] the
    versioned table of store.py.  The HTTP handlers are in [FactoryApi]. *)

From Stdlib Require Import String Ascii ZArith Lia.
From stdpp Require Import base list strings relations.
From S2P Require Import Prelude PyStr PyDict PyFloat Hash Regex Json AuditLog.

Module Domain.

Inductive WorkloadKind := MODEL | LLM | AGENT | RAG.
Inductive WorkloadStage :=
| DRAFT | VALIDATED | APPROVED | PROVISIONED | RELEASED | SUSPENDED | RETIRED.
Inductive GateStatus := PASS | FAIL.

#[export] Instance WorkloadKind_eq_dec : EqDecision WorkloadKind.
Proof. solve_decision. Defined.
#[export] Instance WorkloadStage_eq_dec : EqDecision WorkloadStage.
Proof. solve_decision. Defined.
#[export] Instance GateStatus_eq_dec : EqDecision GateStatus.
Proof. solve_decision. Defined.

Definition kind_value (k : WorkloadKind) : string :=
  match k with MODEL => "model" | LLM => "llm" | AGENT => "agent" | RAG => "rag" end.
Definition stage_value (s : WorkloadStage) : string :=
  match s with
  | DRAFT => "draft" | VALIDATED => "validated" | APPROVED => "approved"
  | PROVISIONED => "provisioned" | RELEASED => "released" | SUSPENDED => "suspended"
  | RETIRED => "retired"
  end.
Definition status_value (s : GateStatus) : string := match s with PASS => "pass" | FAIL => "fail" end.

(** [Enum(text)] *)
Definition enum_of {A} (value : A -> string) (name : string) (all : list A) (v : string) : res A :=
  match List.find (fun a => bool_decide (value a = v)) all with
  | Some a => Ok a
  | None => raise ValueError (repr_str v +:+ " is not a valid " +:+ name)
  end.
Definition kind_of := enum_of kind_value "WorkloadKind" [MODEL; LLM; AGENT; RAG].
Definition stage_of := enum_of stage_value "WorkloadStage"
  [DRAFT; VALIDATED; APPROVED; PROVISIONED; RELEASED; SUSPENDED; RETIRED].
Definition status_of := enum_of status_value "GateStatus" [PASS; FAIL].

Record SLO := {
  availability_target : float;
  latency_p95_ms : Z;
  error_rate_target : float;
}.

(** [SLO.__post_init__] *)
Definition SLO_post_init (s : SLO) : res SLO :=
  do? guard_raise (negb (fleb (fratio 9 10) s.(availability_target) && fltb s.(availability_target) (f_of_Z 1)))
        ValueError "availability_target must be between 0.9 and 1" in
  do? guard_raise (s.(latency_p95_ms) <=? 0) ValueError "latency_p95_ms must be positive" in
  do? guard_raise (negb (fleb (f_of_Z 0) s.(error_rate_target) && fleb s.(error_rate_target) (fratio 1 10)))
        ValueError "error_rate_target must be between 0 and 0.1" in
  Ok s.

Record FactorySpec := {
  name : string;
  kind : WorkloadKind;
  owner : string;
  tenant : string;
  environment : string;
  artifact_digest : string;
  data_classification : string;
  slo : SLO;
  requires_gpu : bool;
  internet_egress : bool;
}.

(** [[a-z][a-z0-9-]{2,62}] *)
Definition identifier_re : re :=
  Cat (Chr is_lower) (rep_range 2 62 (Chr (fun c => is_lower_digit c || one_of "-" c))).

(** [FactorySpec.__post_init__] *)
Definition FactorySpec_post_init (s : FactorySpec) : res FactorySpec :=
  do? guard_raise (negb (fullmatch identifier_re s.(name)))
        ValueError "name must be a lowercase DNS-compatible identifier" in
  do? guard_raise (negb (str_in s.(environment) ["development"; "test"; "production"]))
        ValueError "unsupported environment" in
  do? guard_raise (negb (str_in s.(data_classification) ["public"; "internal"; "confidential"; "restricted"]))
        ValueError "unsupported data classification" in
  do? guard_raise (negb (startswith "sha256:" s.(artifact_digest)))
        ValueError "artifact must use an immutable sha256 digest" in
  Ok s.

Record GateResult := {
  gate : string;
  status : GateStatus;
  evidence : string;
  evaluator : string;
  evidence_digest : string;
  signing_key_id : string;
  signature : string;
  measured_at : string;
}.

(** [GateResult.__post_init__] *)
Definition GateResult_post_init (g : GateResult) : res GateResult :=
  do? guard_raise (blank g.(evidence)) ValueError "gate evidence is required" in Ok g.

Definition REQUIRED_GATES : list string :=
  ["security"; "quality"; "reliability"; "observability"; "cost"; "rollback"].

Record FactoryWorkload := {
  spec : FactorySpec;
  workload_id : string;
  stage : WorkloadStage;
  gates : dict string GateResult;
  approved_by : option string;
  policy_digest : option string;
  history : list HistoryEntry;
}.

(** [FactoryWorkload(spec)] with a fresh identifier. *)
Definition new_workload (s : FactorySpec) (fresh_id : string) : FactoryWorkload :=
  {| spec := s; workload_id := fresh_id; stage := DRAFT; gates := []; approved_by := None;
     policy_digest := None; history := [] |}.

Definition set_gate (g : GateResult) (w : FactoryWorkload) : FactoryWorkload :=
  {| spec := w.(spec); workload_id := w.(workload_id); stage := VALIDATED;
     gates := dset g.(gate) g w.(gates); approved_by := w.(approved_by);
     policy_digest := w.(policy_digest); history := w.(history) |}.
Definition set_approval (actor : string) (digest : option string) (w : FactoryWorkload) : FactoryWorkload :=
  {| spec := w.(spec); workload_id := w.(workload_id); stage := w.(stage); gates := w.(gates);
     approved_by := Some actor; policy_digest := digest; history := w.(history) |}.
Definition moved (target : WorkloadStage) (actor reason now : string) (w : FactoryWorkload) : FactoryWorkload :=
  {| spec := w.(spec); workload_id := w.(workload_id); stage := target; gates := w.(gates);
     approved_by := w.(approved_by); policy_digest := w.(policy_digest);
     history := w.(history) ++
       [{| h_from := stage_value w.(stage); h_to := stage_value target; h_actor := actor;
           h_reason := reason; h_at := now |}] |}.

(** [FactoryWorkload._move] *)
Definition _move (target : WorkloadStage) (actor reason now : string) : M FactoryWorkload unit :=
  modify_M (moved target actor reason now).

(** [FactoryWorkload.record_gate] *)
Definition record_gate (result : GateResult) : M FactoryWorkload unit :=
  let! self := get_M in
  if negb (bool_decide (self.(stage) ∈ [DRAFT; VALIDATED])) then
    raise_M ValueError "gates are immutable after approval"
  else if negb (str_in result.(gate) REQUIRED_GATES) then
    raise_M ValueError ("unsupported release gate: " +:+ result.(gate))
  else modify_M (set_gate result).

Definition gate_passes (w : FactoryWorkload) (g : string) : bool :=
  match dget g w.(gates) with Some r => bool_decide (r.(status) = PASS) | None => false end.

(** [FactoryWorkload.missing_or_failed_gates] *)
Definition missing_or_failed_gates (w : FactoryWorkload) : list string :=
  sort_str (List.filter (fun g => negb (gate_passes w g)) REQUIRED_GATES).

Definition evaluators (w : FactoryWorkload) : list string := map evaluator (dvals w.(gates)).

(** [FactoryWorkload.approve] *)
Definition approve (actor policy : string) (now : string) : M FactoryWorkload unit :=
  let! self := get_M in
  let failures := missing_or_failed_gates self in
  if negb (bool_decide (self.(stage) = VALIDATED)) || match failures with [] => false | _ => true end then
    raise_M ValueError ("release gates not satisfied: " +:+ repr_list failures)
  else if bool_decide (actor = self.(spec).(owner)) || str_in actor (evaluators self) then
    raise_M ValueError "owner or gate evaluator cannot approve the release"
  else
  do! modify_M (set_approval actor (if nonempty policy then Some policy else None)) in
  let reason := "all required gates passed" in
  let reason := if nonempty policy then reason +:+ "; policy=" +:+ policy else reason in
  _move APPROVED actor reason now.

Definition provision (actor now : string) : M FactoryWorkload unit :=
  let! self := get_M in
  if negb (bool_decide (self.(stage) = APPROVED)) then
    raise_M ValueError "only approved workloads may be provisioned"
  else _move PROVISIONED actor "platform resources provisioned" now.

Definition release (actor now : string) : M FactoryWorkload unit :=
  let! self := get_M in
  if negb (bool_decide (self.(stage) = PROVISIONED)) then
    raise_M ValueError "workload must be provisioned before release"
  else _move RELEASED actor "workload released" now.

Definition suspend (actor reason now : string) : M FactoryWorkload unit :=
  let! self := get_M in
  if negb (bool_decide (self.(stage) = RELEASED)) || blank reason then
    raise_M ValueError "a released workload and reason are required"
  else _move SUSPENDED actor reason now.

Definition retire (actor reason now : string) : M FactoryWorkload unit :=
  let! self := get_M in
  if negb (bool_decide (self.(stage) ∈ [RELEASED; SUSPENDED])) || blank reason then
    raise_M ValueError "a released or suspended workload and reason are required"
  else _move RETIRED actor reason now.

Record Scorecard := {
  required : Z;
  passing : Z;
  percentage : Z;
  blocking_gates : list string;
}.

(** [FactoryWorkload.scorecard] *)
Definition scorecard (w : FactoryWorkload) : res Scorecard :=
  let total := Z.of_nat (length REQUIRED_GATES) in
  let ok := total - Z.of_nat (length (missing_or_failed_gates w)) in
  let? pct := fround_int (fratio (100 * ok) total) in
  Ok {| required := total; passing := ok; percentage := pct;
        blocking_gates := missing_or_failed_gates w |}.

End Domain.

Module Governance.
Import Domain.

Record EvidenceStatement := {
  es_workload_id : string;
  es_gate : string;
  evidence_uri : string;
  es_digest : string;
  es_evaluator : string;
}.

(** [EvidenceStatement.__post_init__] *)
Definition EvidenceStatement_post_init (s : EvidenceStatement) : res EvidenceStatement :=
  do? guard_raise (negb (startswith_any ["https://"; "s3://"; "oci://"; "file://"] s.(evidence_uri)))
        ValueError "evidence URI uses an unsupported scheme" in
  do? guard_raise (negb (startswith "sha256:" s.(es_digest)))
        ValueError "evidence must use a sha256 digest" in
  Ok s.

Definition canonical_bytes (s : EvidenceStatement) : string :=
  dumps_canonical (JObj [("workload_id", JStr s.(es_workload_id)); ("gate", JStr s.(es_gate));
    ("evidence_uri", JStr s.(evidence_uri)); ("evidence_digest", JStr s.(es_digest));
    ("evaluator", JStr s.(es_evaluator))]).

Section verifier.
(** The Ed25519 check of the cryptography package: key bytes, signature, message. *)
Context (ed25519_verify : list Z -> list Z -> string -> bool).

(** [EvidenceVerifier.verify] *)
Definition verify (public_keys : dict string (list Z)) (statement : EvidenceStatement)
    (key_id signature_ : string) : res unit :=
  match dget key_id public_keys with
  | None => raise ValueError "untrusted evidence signing key"
  | Some key =>
      match b64decode signature_ with
      | Ok sig => if ed25519_verify key sig (canonical_bytes statement) then Ok tt
                  else raise ValueError "evidence signature verification failed"
      | Err _ => raise ValueError "evidence signature verification failed"
      end
  end.
End verifier.

Record PolicyDecision := {
  allowed : bool;
  pd_digest : string;
  reasons : list string;
}.

Definition VERSION : string := "factory-policy-v1".

(** [FactoryPolicy.evaluate] *)
Definition evaluate (s : FactorySpec) : PolicyDecision :=
  let rs :=
    (if bool_decide (s.(environment) = "production") && s.(internet_egress)
     then ["production workloads require approved private egress"] else []) ++
    (if bool_decide (s.(data_classification) = "restricted") && s.(internet_egress)
     then ["restricted data cannot use internet egress"] else []) ++
    (if s.(requires_gpu) && fgtb s.(slo).(availability_target) (fratio 9999 10000)
     then ["GPU availability target requires a reviewed multi-zone capacity plan"] else []) in
  {| allowed := match rs with [] => true | _ => false end;
     pd_digest := "sha256:" +:+ sha256_hex VERSION; reasons := rs |}.

End Governance.

Module FactoryStore.
Import Domain.

Definition slo_json (s : SLO) : json :=
  JObj [("availability_target", JFloat s.(availability_target)); ("latency_p95_ms", JInt s.(latency_p95_ms));
        ("error_rate_target", JFloat s.(error_rate_target))].
Definition spec_json (s : FactorySpec) : json :=
  JObj [("name", JStr s.(name)); ("kind", JStr (kind_value s.(kind))); ("owner", JStr s.(owner));
        ("tenant", JStr s.(tenant)); ("environment", JStr s.(environment));
        ("artifact_digest", JStr s.(artifact_digest));
        ("data_classification", JStr s.(data_classification)); ("slo", slo_json s.(slo));
        ("requires_gpu", JBool s.(requires_gpu)); ("internet_egress", JBool s.(internet_egress))].
Definition gate_json (g : GateResult) : json :=
  JObj [("gate", JStr g.(gate)); ("status", JStr (status_value g.(status))); ("evidence", JStr g.(evidence));
        ("evaluator", JStr g.(evaluator)); ("evidence_digest", JStr g.(evidence_digest));
        ("signing_key_id", JStr g.(signing_key_id)); ("signature", JStr g.(signature));
        ("measured_at", JStr g.(measured_at))].

(** [FactoryStore._serialize]: the stored document, keys sorted. *)
Definition _serialize (w : FactoryWorkload) : json :=
  jsort (JObj [("spec", spec_json w.(spec)); ("workload_id", JStr w.(workload_id));
    ("stage", JStr (stage_value w.(stage)));
    ("gates", JObj (map (fun kv => (kv.1, gate_json kv.2)) w.(gates)));
    ("approved_by", jopt_str w.(approved_by)); ("policy_digest", jopt_str w.(policy_digest));
    ("history", JArr (map history_json w.(history)))]).

Definition json_slo (j : json) : res SLO :=
  let? a := ffloat "availability_target" j in
  let? l := fint "latency_p95_ms" j in
  let? e := ffloat "error_rate_target" j in
  SLO_post_init {| availability_target := a; latency_p95_ms := l; error_rate_target := e |}.
Definition json_spec (j : json) : res FactorySpec :=
  let? sj := jfield "slo" j in
  let? sl := json_slo sj in
  let? kt := fstr "kind" j in
  let? k := kind_of kt in
  let? n := fstr "name" j in
  let? o := fstr "owner" j in
  let? t := fstr "tenant" j in
  let? e := fstr "environment" j in
  let? a := fstr "artifact_digest" j in
  let? d := fstr "data_classification" j in
  let? g := fbool "requires_gpu" j in
  let? i := fbool "internet_egress" j in
  FactorySpec_post_init {| name := n; kind := k; owner := o; tenant := t; environment := e;
    artifact_digest := a; data_classification := d; slo := sl; requires_gpu := g; internet_egress := i |}.
Definition json_gate (j : json) : res GateResult :=
  let? g := fstr "gate" j in
  let? st := fstr "status" j in
  let? s := status_of st in
  let? e := fstr "evidence" j in
  let? ev := fstr "evaluator" j in
  let? d := fstr_or "evidence_digest" EmptyString j in
  let? k := fstr_or "signing_key_id" EmptyString j in
  let? sg := fstr_or "signature" EmptyString j in
  let? m := fstr "measured_at" j in
  GateResult_post_init {| gate := g; status := s; evidence := e; evaluator := ev; evidence_digest := d;
    signing_key_id := k; signature := sg; measured_at := m |}.

(** [FactoryStore._deserialize] *)
Definition _deserialize (raw : json) : res FactoryWorkload :=
  let? sj := jfield "spec" raw in
  let? sp := json_spec sj in
  let? wid := fstr "workload_id" raw in
  let? stt := fstr "stage" raw in
  let? st := stage_of stt in
  let? ab := fopt "approved_by" raw in
  let? pd := fopt_or "policy_digest" raw in
  let? hj := flist "history" raw in
  let? hs := map_res json_history hj in
  let? gj := fobj "gates" raw in
  let? gs := map_res (fun kv => let? g := json_gate kv.2 in Ok (kv.1, g)) gj in
  Ok {| spec := sp; workload_id := wid; stage := st; gates := gs; approved_by := ab;
        policy_digest := pd; history := hs |}.

Record row := { r_tenant : string; version : Z; document : json }.
(** The table [factory_workloads], by [workload_id]. *)
Definition table : Type := dict string row.

(** [FactoryStore.create]; the primary key refuses a second row. *)
Definition create (w : FactoryWorkload) : M table Z :=
  let! t := get_M in
  match dget w.(workload_id) t with
  | Some _ => raise_M IntegrityError "UNIQUE constraint failed"
  | None =>
      do! put_M (dset w.(workload_id)
            {| r_tenant := w.(spec).(tenant); version := 1; document := _serialize w |} t) in
      mret_M 1
  end.

(** [FactoryStore.get] *)
Definition get (id ten : string) : M table (option (FactoryWorkload * Z)) :=
  let! t := get_M in
  match dget id t with
  | Some r => if bool_decide (r.(r_tenant) = ten)
              then lift_M (let? w := _deserialize r.(document) in Ok (Some (w, r.(version))))
              else mret_M None
  | None => mret_M None
  end.

(** [FactoryStore.save]: compare-and-swap on the version. *)
Definition save (w : FactoryWorkload) (expected_version : Z) : M table Z :=
  let! t := get_M in
  match dget w.(workload_id) t with
  | Some r =>
      if bool_decide (r.(r_tenant) = w.(spec).(tenant)) && (r.(version) =? expected_version) then
        do! put_M (dset w.(workload_id)
              {| r_tenant := r.(r_tenant); version := expected_version + 1; document := _serialize w |} t) in
        mret_M (expected_version + 1)
      else raise_M ConcurrencyError "workload changed concurrently"
  | None => raise_M ConcurrencyError "workload changed concurrently"
  end.

End FactoryStore.

(** ** Lemmas *)

Module DomainFacts.
Import Domain.

Lemma gate_passes_spec w g :
  gate_passes w g = true <-> exists r, dget g w.(gates) = Some r /\ r.(status) = PASS.
Proof.
  unfold gate_passes. destruct (dget g (gates w)) as [r|]; [|naive_solver].
  rewrite bool_decide_eq_true. naive_solver.
Qed.

Lemma missing_nil w :
  missing_or_failed_gates w = [] <-> forall g, g ∈ REQUIRED_GATES -> gate_passes w g = true.
Proof.
  unfold missing_or_failed_gates, sort_str. rewrite isort_nil_iff, filter_bool_nil.
  by setoid_rewrite negb_false_iff.
Qed.

Lemma elem_of_missing w g :
  g ∈ missing_or_failed_gates w <-> g ∈ REQUIRED_GATES /\ gate_passes w g = false.
Proof. unfold missing_or_failed_gates, sort_str. rewrite elem_of_isort, elem_of_filter_bool, negb_true_iff. tauto. Qed.

Lemma missing_length w : (length (missing_or_failed_gates w) <= 6)%nat.
Proof.
  unfold missing_or_failed_gates, sort_str. rewrite length_isort.
  etrans; [apply List.filter_length_le|]. done.
Qed.

(** The stages reached only through an approval. *)
Definition past_approval (s : WorkloadStage) : bool :=
  match s with APPROVED | PROVISIONED | RELEASED | SUSPENDED | RETIRED => true | _ => false end.

(** Every required gate passed and an independent approver is on record. *)
Definition governed (w : FactoryWorkload) : Prop :=
  (forall g, g ∈ REQUIRED_GATES -> exists r, dget g w.(gates) = Some r /\ r.(status) = PASS) /\
  exists a e, w.(approved_by) = Some a /\ a <> w.(spec).(owner) /\ (a ∉ evaluators w) /\
    e ∈ w.(history) /\ e.(h_to) = stage_value APPROVED /\ e.(h_actor) = a.

Definition approvable (w : FactoryWorkload) (actor : string) : Prop :=
  w.(stage) = VALIDATED /\
  (forall g, g ∈ REQUIRED_GATES -> exists r, dget g w.(gates) = Some r /\ r.(status) = PASS) /\
  actor <> w.(spec).(owner) /\ actor ∉ evaluators w.

Definition approval_reason (policy : string) : string :=
  "all required gates passed" +:+ (if nonempty policy then "; policy=" +:+ policy else EmptyString).

Definition approved (w : FactoryWorkload) (actor policy now : string) : FactoryWorkload :=
  moved APPROVED actor (approval_reason policy) now
    (set_approval actor (if nonempty policy then Some policy else None) w).

(** Every outcome of [approve]. *)
Lemma approve_cases actor policy now w :
  (approvable w actor /\ approve actor policy now w = (Ok tt, approved w actor policy now)) \/
  (~ approvable w actor /\ exists msg, approve actor policy now w = (raise ValueError msg, w)).
Proof.
  unfold approve, approvable, approved, approval_reason. mred.
  assert ((forall g, g ∈ REQUIRED_GATES -> exists r, dget g (gates w) = Some r /\ status r = PASS) <->
          missing_or_failed_gates w = []) as Hm.
  { rewrite missing_nil. by setoid_rewrite gate_passes_spec. }
  rewrite Hm. destruct (bool_decide_reflect (stage w = VALIDATED)) as [Hs|Hs]; cbn [negb orb].
  2: { right. split; [tauto|]. eexists. reflexivity. }
  destruct (missing_or_failed_gates w) eqn:Ef.
  2: { right. split; [naive_solver|]. eexists. reflexivity. }
  destruct (bool_decide_reflect (actor = owner (spec w))) as [Ho|Ho]; cbn [orb].
  { right. split; [tauto|]. eexists. reflexivity. }
  destruct (str_in actor (evaluators w)) eqn:Ee.
  - right. apply str_in_spec in Ee. split; [tauto|]. eexists. reflexivity.
  - left. apply str_in_false in Ee. split; [tauto|]. mred. unfold _move, modify_M. by destruct (nonempty policy).
Qed.

(** One method call on a workload, whatever its outcome. *)
Inductive step (w : FactoryWorkload) : FactoryWorkload -> Prop :=
| step_record_gate g : GateResult_post_init g = Ok g -> step w (record_gate g w).2
| step_approve actor policy now : step w (approve actor policy now w).2
| step_provision actor now : step w (provision actor now w).2
| step_release actor now : step w (release actor now w).2
| step_suspend actor reason now : step w (suspend actor reason now w).2
| step_retire actor reason now : step w (retire actor reason now w).2.

(** A specification the constructors of the data classes accept. *)
Definition valid_spec (s : FactorySpec) : Prop := FactorySpec_post_init s = Ok s /\ SLO_post_init s.(slo) = Ok s.(slo).

Definition reachable (w : FactoryWorkload) : Prop :=
  exists s id, valid_spec s /\ rtc step (new_workload s id) w.

(** The moves after an approval keep everything the approval rests on. *)
Lemma workload_step_cases w w' :
  step w w' ->
  w' = w \/
  (exists g, past_approval w.(stage) = false /\ GateResult_post_init g = Ok g /\ g.(gate) ∈ REQUIRED_GATES /\ w' = set_gate g w) \/
  (exists actor policy now, approvable w actor /\ w' = approved w actor policy now) \/
  (exists target actor reason now, past_approval w.(stage) = true /\ past_approval target = true /\
     w' = moved target actor reason now w).
Proof.
  destruct 1 as [g Hg|actor policy now|actor now|actor now|actor reason now|actor reason now].
  - unfold record_gate. mred. destruct (bool_decide_reflect (stage w ∈ [DRAFT; VALIDATED])) as [Hs|]; cbn [negb]; [|by left].
    destruct (str_in (gate g) REQUIRED_GATES) eqn:Eg; cbn [negb]; [|by left].
    right; left. exists g. apply str_in_spec in Eg. split_and!; [|done|done|done].
    apply elem_of_cons in Hs as [->|Hs]; [done|]. by apply list_elem_of_singleton in Hs as ->.
  - destruct (approve_cases actor policy now w) as [[Ha ->]|[_ [msg ->]]]; [|by left]. right; right; left. eauto.
  - unfold provision. mred. destruct (bool_decide_reflect (stage w = APPROVED)) as [Hs|]; cbn [negb]; [|by left].
    do 3 right. exists PROVISIONED. rewrite Hs. eauto 10.
  - unfold release. mred. destruct (bool_decide_reflect (stage w = PROVISIONED)) as [Hs|]; cbn [negb]; [|by left].
    do 3 right. exists RELEASED. rewrite Hs. eauto 10.
  - unfold suspend. mred. destruct (bool_decide_reflect (stage w = RELEASED)) as [Hs|]; cbn [negb orb]; [|by left].
    destruct (blank reason); [by left|]. do 3 right. exists SUSPENDED. rewrite Hs. eauto 10.
  - unfold retire. mred. destruct (bool_decide_reflect (stage w ∈ [RELEASED; SUSPENDED])) as [Hs|]; cbn [negb orb]; [|by left].
    destruct (blank reason); [by left|]. do 3 right. exists RETIRED, actor, reason, now.
    apply elem_of_cons in Hs as [->|Hs]; [done|]. by apply list_elem_of_singleton in Hs as ->.
Qed.

Definition governance_inv (w : FactoryWorkload) : Prop := past_approval w.(stage) = true -> governed w.

Lemma step_governance_inv w w' : governance_inv w -> step w w' -> governance_inv w'.
Proof.
  intros Hi [->|[(g & _ & _ & _ & ->)|[(a & p & n & (Hs & Hg & Ho & He) & ->)|(t & a & re & n & Hp & _ & ->)]]]%workload_step_cases; [done|..].
  - by intros Hp.
  - intros _. split; [done|]. eexists a, _.
    split_and!; [done|done|done|apply elem_of_app; right; by left|done|done].
  - intros _. destruct (Hi Hp) as (Hg & a0 & e & H1 & H2 & H3 & H4 & H5 & H6). split; [exact Hg|].
    exists a0, e. split_and!; try done. apply elem_of_app. by left.
Qed.

Lemma reachable_governance_inv w : reachable w -> governance_inv w.
Proof.
  intros (s & id & _ & H).
  assert (forall w0 w1, rtc step w0 w1 -> governance_inv w0 -> governance_inv w1) as Hgen.
  { induction 1 as [|x y z Hxy _ IH]; [done|]. intros Hx. apply IH. by eapply step_governance_inv. }
  by apply (Hgen _ _ H).
Qed.

(** The rounded percentage of each possible count of passing gates. *)
Definition percentages : list Z := [0; 17; 33; 50; 67; 83; 100].

Lemma percentage_table n : (n <= 6)%nat ->
  fround_int (fratio (100 * Z.of_nat n) 6) = Ok (nth n percentages 0).
Proof. intros H. do 7 (destruct n as [|n]; [vm_compute; reflexivity|]). lia. Qed.

Lemma scorecard_total w :
  let blocking := missing_or_failed_gates w in
  let ok := (6 - length blocking)%nat in
  scorecard w = Ok {| required := 6; passing := Z.of_nat ok; percentage := nth ok percentages 0;
                      blocking_gates := blocking |}.
Proof.
  cbv zeta. pose proof (missing_length w) as Hl. unfold scorecard.
  change (Z.of_nat (length REQUIRED_GATES)) with 6.
  replace (6 - Z.of_nat (length (missing_or_failed_gates w)))
    with (Z.of_nat (6 - length (missing_or_failed_gates w))) by lia.
  by rewrite percentage_table by lia.
Qed.

Lemma percentage_full n : (n <= 6)%nat -> nth n percentages 0 = 100 <-> n = 6%nat.
Proof. intros H. do 7 (destruct n as [|n]; [cbn; lia|]). lia. Qed.

End DomainFacts.

Module FactoryStoreFacts.
Import Domain DomainFacts FactoryStore.

Lemma enum_roundtrip {A} `{EqDecision A} (value : A -> string) nm (all : list A) a :
  a ∈ all -> (forall x, value x = value a -> x = a) -> enum_of value nm all (value a) = Ok a.
Proof.
  intros Hin Hinj. unfold enum_of. destruct (List.find _ all) as [x|] eqn:E.
  - apply find_some in E as [_ E]. apply bool_decide_eq_true in E. by rewrite (Hinj x E).
  - apply (find_none _ _) with (x := a) in E; [|by apply list_elem_of_In].
    by apply bool_decide_eq_false in E.
Qed.

Lemma kind_roundtrip k : kind_of (kind_value k) = Ok k.
Proof. by destruct k. Qed.
Lemma stage_roundtrip s : stage_of (stage_value s) = Ok s.
Proof. by destruct s. Qed.
Lemma status_roundtrip s : status_of (status_value s) = Ok s.
Proof. by destruct s. Qed.

(** What the constructors of the data classes guarantee of a workload. *)
Definition well_formed (w : FactoryWorkload) : Prop :=
  valid_spec w.(spec) /\ dwf w.(gates) /\
  forall k g, (k, g) ∈ w.(gates) -> GateResult_post_init g = Ok g.

Lemma json_slo_roundtrip s : SLO_post_init s = Ok s -> json_slo (jsort (slo_json s)) = Ok s.
Proof. intros H. unfold json_slo, slo_json. jfields. by destruct s. Qed.

Lemma json_spec_roundtrip s : valid_spec s -> json_spec (jsort (spec_json s)) = Ok s.
Proof.
  intros [H Hs]. unfold json_spec, spec_json.
  erewrite (jfield_obj_jsort "slo"); [|solve_keys|reflexivity]. cbn [mbind res_bind].
  pose proof (json_slo_roundtrip _ Hs) as E. unfold slo_json in E. rewrite E. cbn [mbind res_bind]. jfields.
  rewrite kind_roundtrip. cbn [mbind res_bind]. jfields. by destruct s.
Qed.

Lemma json_gate_roundtrip g : GateResult_post_init g = Ok g -> json_gate (jsort (gate_json g)) = Ok g.
Proof.
  intros H. unfold json_gate, gate_json. jfields. rewrite status_roundtrip. cbn [mbind res_bind].
  jfields. by destruct g.
Qed.

(** The workload as it is read back: its gates come in key order. *)
Definition stored (w : FactoryWorkload) : FactoryWorkload :=
  {| spec := w.(spec); workload_id := w.(workload_id); stage := w.(stage); gates := sort_obj w.(gates);
     approved_by := w.(approved_by); policy_digest := w.(policy_digest); history := w.(history) |}.

Lemma deserialize_serialize w : well_formed w -> _deserialize (_serialize w) = Ok (stored w).
Proof.
  intros (Hs & _ & Hg). unfold _deserialize, _serialize.
  erewrite (jfield_obj_jsort "spec"); [|solve_keys|reflexivity]. cbn [mbind res_bind].
  pose proof (json_spec_roundtrip _ Hs) as E. unfold spec_json in E. rewrite E. cbn [mbind res_bind].
  jfields. rewrite stage_roundtrip. cbn [mbind res_bind]. jfields.
  rewrite json_histories_roundtrip. cbn [mbind res_bind].
  erewrite (fobj_jsort _ _ _ gate_json); [|reflexivity]. cbn [mbind res_bind].
  rewrite (map_res_map _ _ id), map_id; [done|].
  intros [k g] Hin. cbn [fst snd]. rewrite json_gate_roundtrip; [done|].
  apply (Hg k). by apply elem_of_isort in Hin.
Unshelve. solve_keys.
Qed.

Lemma gates_entries g (d : dict string GateResult) x k :
  (k, x) ∈ dset (gate g) g d -> x = g \/ (k, x) ∈ d.
Proof.
  induction d as [|[k' v'] d IH]; cbn; [intros H; apply list_elem_of_singleton in H; left; congruence|].
  case_decide; rewrite !elem_of_cons; [intros [H'|H']; [left; congruence|by right; right]|].
  intros [H'|H']; [right; by left|]. destruct (IH H') as [|]; [by left|right; by right].
Qed.

Lemma step_well_formed w w' : well_formed w -> step w w' -> well_formed w'.
Proof.
  intros (H1 & H2 & H3) Hst.
  destruct (workload_step_cases _ _ Hst) as [->|[(g & _ & Hg & _ & ->)|[(a & p & n & _ & ->)|(t & a & re & n & _ & _ & ->)]]];
    try done.
  split_and!; [done|by apply dset_wf|]. intros k g' [->|?]%gates_entries; [done|eauto].
Qed.
Lemma new_well_formed s id : valid_spec s -> well_formed (new_workload s id).
Proof. intros Hv. split_and!; [done|constructor|]. intros k g Hin. by apply elem_of_nil in Hin. Qed.
Lemma reachable_well_formed w : reachable w -> well_formed w.
Proof.
  intros (s & id & Hv & H). apply (new_well_formed _ id) in Hv.
  induction H as [|x y z Hxy _ IH]; [done|]. apply IH. by eapply step_well_formed.
Qed.

Lemma create_outcomes w t :
  create w t = match dget w.(workload_id) t with
               | Some _ => (raise IntegrityError "UNIQUE constraint failed", t)
               | None => (Ok 1, dset w.(workload_id)
                   {| r_tenant := w.(spec).(tenant); version := 1; document := _serialize w |} t)
               end.
Proof. unfold create. mred. by destruct (dget (workload_id w) t). Qed.

Definition saved (w : FactoryWorkload) (v : Z) (t : table) : table :=
  dset w.(workload_id) {| r_tenant := w.(spec).(tenant); version := v; document := _serialize w |} t.

Lemma save_outcomes w v t :
  ((exists r, dget w.(workload_id) t = Some r /\ r.(r_tenant) = w.(spec).(tenant) /\ r.(version) = v) /\
   save w v t = (Ok (v + 1), saved w (v + 1) t)) \/
  (~ (exists r, dget w.(workload_id) t = Some r /\ r.(r_tenant) = w.(spec).(tenant) /\ r.(version) = v) /\
   save w v t = (raise ConcurrencyError "workload changed concurrently", t)).
Proof.
  unfold save, saved. mred. destruct (dget (workload_id w) t) as [r|]; [|right; split; [naive_solver|done]].
  destruct (bool_decide_reflect (r_tenant r = tenant (spec w))) as [Ht|Ht]; cbn [andb].
  2: { right. split; [naive_solver|done]. }
  destruct (Z.eqb_spec (version r) v) as [Hv|Hv].
  - left. split; [naive_solver|]. mred. by rewrite Ht.
  - right. split; [naive_solver|done].
Qed.

End FactoryStoreFacts.

(** ** Properties *)

Module FactoryTheorems.
Import Domain DomainFacts FactoryStore FactoryStoreFacts.

(** C6: release governance.  A workload that went past approval (approved,
    provisioned, released, suspended or retired), through any sequence of
    method calls on an initially created workload, has every one of the six
    required gates recorded as passed, and its history names an approver who is
    on record, is not the owner and evaluated none of its gates. *)
Theorem release_governance : forall w,
  reachable w ->
  w.(stage) ∈ [APPROVED; PROVISIONED; RELEASED; SUSPENDED; RETIRED] ->
  (forall g, g ∈ REQUIRED_GATES -> exists r, dget g w.(gates) = Some r /\ r.(status) = PASS) /\
  exists a e, w.(approved_by) = Some a /\ a <> w.(spec).(owner) /\
    (forall k r, (k, r) ∈ w.(gates) -> r.(evaluator) <> a) /\
    e ∈ w.(history) /\ e.(h_to) = "approved" /\ e.(h_actor) = a.
Proof.
  intros w Hr Hs. apply reachable_governance_inv in Hr.
  destruct Hr as (Hg & a & e & H1 & H2 & H3 & H4 & H5 & H6).
  { rewrite !elem_of_cons, elem_of_nil in Hs. by destruct Hs as [->|[->|[->|[->|[->|[]]]]]]. }
  split; [exact Hg|]. exists a, e. split_and!; try done.
  intros k r Hin Ha. apply H3. rewrite <- Ha. unfold evaluators, dvals. rewrite map_map.
  apply list_elem_of_fmap. by exists (k, r).
Qed.

(** The workload of the witnesses, and a passing result of each gate. *)
Definition ex_spec : FactorySpec :=
  {| name := "risk-model"; kind := MODEL; owner := "ana"; tenant := "t1"; environment := "production";
     artifact_digest := "sha256:00"; data_classification := "internal";
     slo := {| availability_target := fratio 99 100; latency_p95_ms := 200; error_rate_target := fratio 1 100 |};
     requires_gpu := false; internet_egress := false |}.
Definition ex_gate (g : string) : GateResult :=
  {| gate := g; status := PASS; evidence := "s3://e"; evaluator := "eve"; evidence_digest := "sha256:1";
     signing_key_id := "k"; signature := "s"; measured_at := "2026-01-01T00:00:00+00:00" |}.
Definition ex_gated : FactoryWorkload :=
  fold_left (fun w g => (record_gate (ex_gate g) w).2) REQUIRED_GATES (new_workload ex_spec "w1").
Definition ex_approved : FactoryWorkload := (approve "bob" "sha256:p" "now" ex_gated).2.

Lemma reachable_step w w' : reachable w -> step w w' -> reachable w'.
Proof. intros (s & id & Hv & H) Hs. exists s, id. split; [done|]. by eapply rtc_r. Qed.

Lemma ex_gated_reachable : reachable ex_gated.
Proof.
  assert (forall l w, reachable w -> reachable (fold_left (fun w g => (record_gate (ex_gate g) w).2) l w)) as Hgen.
  { induction l as [|g l IH]; cbn [fold_left]; [done|]. intros w Hw. apply IH. eapply reachable_step; [done|].
    exact (step_record_gate w (ex_gate g) eq_refl). }
  apply Hgen. exists ex_spec, "w1". split; [split; vm_compute; reflexivity|apply rtc_refl].
Qed.

Lemma release_governance_witness :
  reachable ex_approved /\ ex_approved.(stage) = APPROVED /\
  exists a, ex_approved.(approved_by) = Some a /\ a <> "ana".
Proof.
  assert (reachable ex_approved) as Hr.
  { eapply reachable_step; [apply ex_gated_reachable|apply step_approve]. }
  split; [exact Hr|]. split; [vm_compute; reflexivity|].
  destruct (release_governance ex_approved Hr) as (_ & a & e & H1 & H2 & _).
  { vm_compute. constructor. }
  exists a. split; [exact H1|]. intros ->. apply H2. vm_compute. reflexivity.
Defined.

(** C7: an approval is granted exactly to a validated workload with a passing
    result recorded for each of the six gates, for an actor who neither owns it
    nor evaluated a recorded gate; it then records approver, policy digest and
    one history entry, and leaves the specification and the gates alone.  Every refused approval raises
    [ValueError] and leaves the workload as it was. *)
Theorem approve_iff : forall actor policy now w,
  let '(r, w') := approve actor policy now w in
  (r = Ok tt <-> w.(stage) = VALIDATED /\
     (forall g, g ∈ ["security"; "quality"; "reliability"; "observability"; "cost"; "rollback"] ->
        exists result, dget g w.(gates) = Some result /\ result.(status) = PASS) /\
     actor <> w.(spec).(owner) /\ (forall g result, (g, result) ∈ w.(gates) -> actor <> result.(evaluator))) /\
  (r = Ok tt ->
     w'.(stage) = APPROVED /\ w'.(approved_by) = Some actor /\ w'.(spec) = w.(spec) /\ w'.(gates) = w.(gates) /\
     w'.(policy_digest) = (if nonempty policy then Some policy else None) /\
     exists reason, w'.(history) = w.(history) ++
       [{| h_from := "validated"; h_to := "approved"; h_actor := actor; h_reason := reason; h_at := now |}]) /\
  (r <> Ok tt -> w' = w /\ exists msg, r = raise ValueError msg).
Proof.
  intros actor policy now w.
  assert ((forall g result, (g, result) ∈ w.(gates) -> actor <> result.(evaluator)) <-> actor ∉ evaluators w) as He.
  { unfold evaluators, dvals. rewrite list_elem_of_fmap. setoid_rewrite list_elem_of_fmap. split.
    - intros H (g & -> & [k g'] & -> & Hin). by apply (H k g').
    - intros H g result Hin ->. apply H. exists result. split; [done|]. by exists (g, result). }
  change ["security"; "quality"; "reliability"; "observability"; "cost"; "rollback"] with REQUIRED_GATES.
  destruct (approve_cases actor policy now w) as [[Ha ->]|[Hn [msg ->]]].
  - destruct Ha as (Hs & Hg & Ho & Hev). split; [tauto|]. split; [|done]. intros _.
    unfold approved, moved. cbn. rewrite Hs. split_and!; try done. by eexists.
  - split; [|split; [done|eauto]]. split; [done|]. intros (Hs & Hg & Ho & Hev). destruct Hn. unfold approvable. tauto.
Qed.

(** The scorecard never raises, its percentage is between 0 and 100, it
    reads 100 exactly when no gate blocks, and the blocking gates it lists are
    exactly the required gates without a passing result. *)
Theorem scorecard_correct : forall w, exists s,
  scorecard w = Ok s /\ s.(required) = 6 /\ 0 <= s.(percentage) <= 100 /\
  s.(passing) + Z.of_nat (length s.(blocking_gates)) = 6 /\
  (s.(percentage) = 100 <-> s.(blocking_gates) = []) /\
  (forall g, g ∈ s.(blocking_gates) <->
     g ∈ REQUIRED_GATES /\ ~ exists r, dget g w.(gates) = Some r /\ r.(status) = PASS).
Proof.
  intros w. pose proof (scorecard_total w) as Hs. cbv zeta in Hs.
  eexists. split; [exact Hs|]. cbn [required passing percentage blocking_gates].
  pose proof (missing_length w) as Hl. pose proof (percentage_full (6 - length (missing_or_failed_gates w))) as Hf.
  split; [done|]. split.
  { destruct (missing_or_failed_gates w) as [|g1 [|g2 [|g3 [|g4 [|g5 [|g6 [|]]]]]]]; cbn in *; lia. }
  split; [lia|]. split.
  - rewrite Hf by lia. rewrite <- length_zero_iff_nil. lia.
  - intros g. rewrite elem_of_missing, <- gate_passes_spec, not_true_iff_false. done.
Qed.

(** C8: a workload built by the constructors and method calls survives its
    serialisation: reading the stored document back gives the same workload,
    its gates in key order. *)
Theorem store_roundtrip : forall w,
  reachable w ->
  exists w', _deserialize (_serialize w) = Ok w' /\
    w'.(spec) = w.(spec) /\ w'.(workload_id) = w.(workload_id) /\ w'.(stage) = w.(stage) /\
    deq w'.(gates) w.(gates) /\ w'.(approved_by) = w.(approved_by) /\
    w'.(policy_digest) = w.(policy_digest) /\ w'.(history) = w.(history).
Proof.
  intros w Hr%reachable_well_formed. exists (stored w). split; [by apply deserialize_serialize|].
  destruct Hr as (_ & Hw & _). split_and!; try done. by apply sort_obj_deq.
Qed.

Lemma store_roundtrip_witness :
  reachable ex_gated /\ exists w', _deserialize (_serialize ex_gated) = Ok w' /\ w'.(stage) = VALIDATED.
Proof.
  split; [exact ex_gated_reachable|]. destruct (store_roundtrip ex_gated ex_gated_reachable) as (w' & H & _ & _ & H3 & _).
  exists w'. split; [exact H|]. rewrite H3. vm_compute. reflexivity.
Defined.

(** The store is a compare-and-swap table with tenant isolation.  A
    successful save consumes the version it names: repeating it, or any other
    save naming that version, is refused with [ConcurrencyError] and changes
    nothing; another workload's row is never touched, and a get for another
    tenant than the row's finds nothing. *)
Theorem store_cas_isolation : forall w w2 v t t' r,
  save w v t = (Ok r, t') -> w2.(workload_id) = w.(workload_id) ->
  r = v + 1 /\
  save w2 v t' = (raise ConcurrencyError "workload changed concurrently", t') /\
  (forall id, id <> w.(workload_id) -> dget id t' = dget id t) /\
  (forall other, other <> w.(spec).(tenant) -> get w.(workload_id) other t' = (Ok None, t')).
Proof.
  intros w w2 v t t' r H Hid. destruct (save_outcomes w v t) as [[_ E]|[_ E]]; rewrite E in H; [|done].
  injection H as <- <-. split; [done|]. split_and!.
  - destruct (save_outcomes w2 v (saved w (v + 1) t)) as [[(r & Hr & _ & Hv) _]|[_ ->]]; [|done].
    unfold saved in Hr. rewrite Hid, dget_dset_eq in Hr. injection Hr as <-. cbn in Hv. lia.
  - intros id Hne. unfold saved. by rewrite dget_dset_ne.
  - intros other Hne. unfold get. mred. unfold saved. rewrite dget_dset_eq. cbn [r_tenant].
    by rewrite bool_decide_eq_false_2.
Qed.

Lemma store_cas_isolation_witness :
  let t := (create ex_gated []).2 in
  exists t', save ex_gated 1 t = (Ok 2, t') /\
    save ex_gated 1 t' = (raise ConcurrencyError "workload changed concurrently", t').
Proof.
  intros t. exists (save ex_gated 1 t).2.
  assert (save ex_gated 1 t = (Ok 2, (save ex_gated 1 t).2)) as H by (vm_compute; reflexivity).
  split; [exact H|]. exact (proj1 (proj2 (store_cas_isolation ex_gated ex_gated 1 t _ 2 H eq_refl))).
Defined.

End FactoryTheorems.
