(* ===== verification/Http.v ===== *)
(** * JSON over HTTP with bounded retries (platforms/integrations/http.py)

    [urllib.request.urlopen] is an argument: a stateful call whose outcome is a
    response, an HTTP error, or a failure to reach the server. *)

From Stdlib Require Import String Ascii ZArith Lia.
From stdpp Require Import base list strings.
From S2P Require Import Prelude PyStr PyDict PyFloat Json.

Record JsonResponse := { status : Z; body : json }.

(** The bytes sent: method, address, body and headers. *)
Record http_request := {
  method : string;
  url : string;
  data : option string;
  headers : dict string string;
}.
(** What one [urlopen] does. *)
Inductive outcome :=
| Responded (code : Z) (content : string)
| HTTPError (code : Z)
| Unreachable.

Record JsonHttpClient := { timeout_seconds : float; maximum_attempts : Z }.

(** [JsonHttpClient.__init__] *)
Definition new_client (timeout : float) (attempts : Z) : res JsonHttpClient :=
  if fleb timeout (f_of_Z 0) || negb ((1 <=? attempts) && (attempts <=? 5)) then
    raise ValueError "invalid HTTP retry configuration"
  else Ok {| timeout_seconds := timeout; maximum_attempts := attempts |}.

Section client.
Context {W : Type} (urlopen : float -> http_request -> M W outcome).

(** What an attempt that is not repeated gives the caller. *)
Definition finish (o : outcome) : res JsonResponse :=
  match o with
  | Responded code content =>
      if nonempty content then
        match loads content with
        | Some v => Ok {| status := code; body := v |}
        | None => raise ValueError "response is not valid JSON"
        end
      else Ok {| status := code; body := JObj [] |}
  | HTTPError code => raise IntegrationError ("integration returned HTTP " +:+ str_Z code)
  | Unreachable => raise IntegrationError "integration is unavailable"
  end.
Definition retryable (o : outcome) : bool :=
  match o with Responded _ _ => false | HTTPError code => negb (code <? 500) | Unreachable => true end.

(** The loop over the attempts; [n] are left after this one. *)
Fixpoint attempt_loop (c : JsonHttpClient) (r : http_request) (n : nat) : M W JsonResponse :=
  let! o := urlopen c.(timeout_seconds) r in
  match n with
  | S n' => if retryable o then attempt_loop c r n' else lift_M (finish o)
  | O => lift_M (finish o)
  end.

(** The request a call sends. *)
Definition request_of (method_ url_ : string) (payload : option json) (extra : dict string string) : http_request :=
  let hs := fold_left (fun d kv => dset kv.1 kv.2 d) extra [("Accept", "application/json")] in
  {| method := method_; url := url_; data := dumps_gen false true <$> payload;
     headers := match payload with Some _ => dset "Content-Type" "application/json" hs | None => hs end |}.

(** [JsonHttpClient.request] *)
Definition request (c : JsonHttpClient) (method_ url_ : string) (payload : option json)
    (extra : dict string string) (idempotent : bool) : M W JsonResponse :=
  let attempts := if idempotent then Z.to_nat c.(maximum_attempts) else 1%nat in
  match attempts with
  | O => raise_M IntegrationError "integration request failed"
  | S n => attempt_loop c (request_of method_ url_ payload extra) n
  end.
End client.

(** ** Lemmas *)

Section facts.
Context {W : Type} (urlopen : float -> http_request -> M W outcome).

(** [k] calls in a row that each ended in an outcome worth retrying. *)
Inductive retried (t : float) (r : http_request) : nat -> W -> W -> Prop :=
| retried_none w : retried t r 0 w w
| retried_more k w w1 w2 o : urlopen t r w = (Ok o, w1) -> retryable o = true ->
    retried t r k w1 w2 -> retried t r (S k) w w2.

Lemma attempt_loop_calls c r n w res w' :
  attempt_loop urlopen c r n w = (res, w') ->
  exists k w1 out, (k <= n)%nat /\ retried c.(timeout_seconds) r k w w1 /\
    urlopen c.(timeout_seconds) r w1 = (out, w') /\
    match out with Ok o => res = finish o /\ (retryable o = true -> k = n) | Err e => res = Err e end.
Proof.
  revert w. induction n as [|n IH]; intros w H; cbn [attempt_loop] in H; unfold mbind_M in H;
    destruct (urlopen (timeout_seconds c) r w) as [[o|e] w1] eqn:Eo;
    try (injection H as <- <-; exists 0%nat, w, (Err e); split; [lia|]; split; [constructor|done]).
  - injection H as <- <-. exists 0%nat, w, (Ok o). split; [lia|]. split; [constructor|done].
  - destruct (retryable o) eqn:Er.
    + destruct (IH _ H) as (k & w2 & out & Hk & Hr & Hu & Ho). exists (S k), w2, out. split; [lia|].
      split; [by econstructor|]. split; [done|]. destruct out; [|done]. destruct Ho as [-> Hn]. split; [done|].
      intros Hro. by rewrite Hn.
    + injection H as <- <-. exists 0%nat, w, (Ok o). split; [lia|]. split; [constructor|]. split; [done|].
      split; [done|congruence].
Qed.
End facts.

(** ** Properties *)

Module HttpTheorems.

(** C27: requests are bounded and only transient failures are retried.  A
    request through a valid client calls the server between one and five times,
    never more than the configured attempts and exactly once when it is not
    idempotent; every call before the last ended in a server error of 500 or
    more or could not reach the server, such a failure ends the request only
    on the last attempt, and the result is decided by the last call. *)
Theorem http_bounded_retries : forall (W : Type) (urlopen : float -> http_request -> M W outcome)
    timeout attempts c method_ url_ payload extra idempotent w res w',
  new_client timeout attempts = Ok c ->
  request urlopen c method_ url_ payload extra idempotent w = (res, w') ->
  exists k w1 out, (k < 5)%nat /\ Z.of_nat (S k) <= attempts /\ (idempotent = false -> k = 0%nat) /\
    retried urlopen timeout (request_of method_ url_ payload extra) k w w1 /\
    urlopen timeout (request_of method_ url_ payload extra) w1 = (out, w') /\
    match out with
    | Ok o => res = finish o /\
        (retryable o = true -> Z.of_nat (S k) = if idempotent then attempts else 1)
    | Err e => res = Err e
    end.
Proof.
  intros W urlopen timeout attempts c m u p x idem w res w' Hc H. unfold new_client in Hc.
  destruct (_ || _) eqn:E in Hc; [done|]. injection Hc as <-. apply orb_false_iff in E as [_ E].
  apply negb_false_iff, andb_true_iff in E as [E1 E2]. apply Z.leb_le in E1, E2.
  unfold request in H. cbn [maximum_attempts] in H.
  destruct (if idem then Z.to_nat attempts else 1%nat) as [|n] eqn:En; [destruct idem; lia|].
  destruct (attempt_loop_calls urlopen _ _ _ _ _ _ H) as (k & w1 & out & Hk & Hr & Hu & Ho). exists k, w1, out.
  cbn [timeout_seconds] in *. assert (Z.of_nat (S n) = if idem then attempts else 1) as Hn by (destruct idem; lia).
  split; [destruct idem; lia|]. split; [destruct idem; lia|]. split; [intros ->; lia|].
  split; [done|]. split; [done|]. destruct out as [o|e]; [|done]. destruct Ho as [-> Ho]. split; [done|].
  intros Hro. by rewrite (Ho Hro).
Qed.

(** A server that fails once with 503 and then answers. *)
Definition ex_server (t : float) (r : http_request) : M nat outcome := fun w =>
  (Ok (match w with O => HTTPError 503 | _ => Responded 200 "[1]" end), S w).

Lemma http_bounded_retries_witness :
  exists c w', new_client (f_of_Z 5) 3 = Ok c /\
    request ex_server c "GET" "https://h" None [] true 0%nat = (Ok {| status := 200; body := JArr [JInt 1] |}, w') /\
    exists k, (k < 5)%nat.
Proof.
  exists {| timeout_seconds := f_of_Z 5; maximum_attempts := 3 |}, 2%nat.
  assert (new_client (f_of_Z 5) 3 = Ok {| timeout_seconds := f_of_Z 5; maximum_attempts := 3 |}) as H1 by (vm_compute; reflexivity).
  assert (request ex_server {| timeout_seconds := f_of_Z 5; maximum_attempts := 3 |} "GET" "https://h" None [] true 0%nat =
    (Ok {| status := 200; body := JArr [JInt 1] |}, 2%nat)) as H2 by (vm_compute; reflexivity).
  split; [exact H1|]. split; [exact H2|].
  destruct (http_bounded_retries nat ex_server (f_of_Z 5) 3 _ "GET" "https://h" None [] true 0%nat _ _ H1 H2)
    as (k & w1 & out & Hk & _). exists k. exact Hk.
Defined.

End HttpTheorems.
