(* ===== verification/Reviewer.v ===== *)
(** * Pull-request review agent (platforms/reviewer)

    [Domain] is domain.py, [Config] config.py, [GitHub] the report client of
    github.py over [Http], [Store] the SQLite table of store.py, [Service] the
    operations of service.py and [Api] the handlers of api.py. *)

From Stdlib Require Import String Ascii ZArith Lia.
From stdpp Require Import base list strings.
From S2P Require Import Prelude PyStr PyDict PyFloat Hash Json Security Http.

Module Domain.

Inductive ReviewDecision := PENDING | READY | CHANGES_REQUESTED | SKIPPED_FORK.
#[export] Instance ReviewDecision_eq_dec : EqDecision ReviewDecision.
Proof. solve_decision. Defined.
Definition decision_value (d : ReviewDecision) : string :=
  match d with
  | PENDING => "pending" | READY => "ready" | CHANGES_REQUESTED => "changes_requested"
  | SKIPPED_FORK => "skipped_fork"
  end.

Record ReviewSummary := { review_id : Z; reviewer : string; state : string; s_body : string; s_url : string }.
Record InlineComment := {
  comment_id : Z;
  c_reviewer : string;
  c_path : string;
  line : json;
  c_body : string;
  c_url : string;
}.
Record SecurityFinding := {
  source : string;
  alert_id : string;
  severity : string;
  f_path : string;
  summary : string;
  f_url : string;
}.

Record PullRequestReview := {
  owner : string;
  repository : string;
  pull_number : Z;
  head_sha : string;
  base_branch : string;
  from_fork : bool;
  eligible_at_open : bool;
  changed_paths : list string;
  summaries : list ReviewSummary;
  inline_comments : list InlineComment;
  security_findings : list SecurityFinding;
  fetched_at : option string;
  approvals : dict Z string;
}.

(** [PullRequestReview.key] *)
Definition key_of (owner_ repository_ : string) (n : Z) : string :=
  owner_ +:+ "/" +:+ repository_ +:+ "#" +:+ str_Z n.
Definition key (r : PullRequestReview) : string := key_of r.(owner) r.(repository) r.(pull_number).

Definition set_report (ss : list ReviewSummary) (cs : list InlineComment) (fs : list SecurityFinding) (now : string)
    (r : PullRequestReview) : PullRequestReview :=
  {| owner := r.(owner); repository := r.(repository); pull_number := r.(pull_number); head_sha := r.(head_sha);
     base_branch := r.(base_branch); from_fork := r.(from_fork); eligible_at_open := r.(eligible_at_open);
     changed_paths := r.(changed_paths); summaries := ss; inline_comments := cs; security_findings := fs;
     fetched_at := Some now; approvals := r.(approvals) |}.
Definition set_approval (id : Z) (actor : string) (r : PullRequestReview) : PullRequestReview :=
  {| owner := r.(owner); repository := r.(repository); pull_number := r.(pull_number); head_sha := r.(head_sha);
     base_branch := r.(base_branch); from_fork := r.(from_fork); eligible_at_open := r.(eligible_at_open);
     changed_paths := r.(changed_paths); summaries := r.(summaries); inline_comments := r.(inline_comments);
     security_findings := r.(security_findings); fetched_at := r.(fetched_at);
     approvals := dset id actor r.(approvals) |}.

(** [PullRequestReview.record_findings] *)
Definition record_findings (ss : list ReviewSummary) (cs : list InlineComment) (fs : list SecurityFinding)
    (now : string) : M PullRequestReview unit := modify_M (set_report ss cs fs now).

(** [PullRequestReview.decision] *)
Definition latest_review (login : string) (r : PullRequestReview) : option ReviewSummary :=
  max_by (fun a b => b.(review_id) <? a.(review_id))
    (List.filter (fun s => bool_decide (s.(reviewer) = login)) r.(summaries)).
Definition decision (login : string) (request_changes : bool) (r : PullRequestReview) : ReviewDecision :=
  if negb r.(eligible_at_open) then SKIPPED_FORK
  else match latest_review login r with
  | None => PENDING
  | Some latest =>
      if request_changes && bool_decide (str_upper latest.(state) = "CHANGES_REQUESTED") then CHANGES_REQUESTED
      else if negb (str_in (str_upper latest.(state)) ["APPROVED"; "COMMENTED"]) then PENDING
      else READY
  end.

(** [PullRequestReview.approve_suggestion] *)
Definition approve_suggestion (id : Z) (actor : string) : M PullRequestReview unit :=
  let! self := get_M in
  if negb (bool_decide (id ∈ map comment_id self.(inline_comments))) then
    raise_M ValueError "review comment does not exist in the fetched report"
  else if blank actor then raise_M ValueError "approval actor is required"
  else modify_M (set_approval id actor).

(** [PullRequestReview.require_approved_suggestion] *)
Definition require_approved_suggestion (id : Z) (r : PullRequestReview) : res string :=
  match dget id r.(approvals) with
  | None => raise PermissionError "explicit approval is required before applying a suggestion"
  | Some actor => Ok actor
  end.

End Domain.

Module Config.

Record PRCheck := { name : string; scope : string }.
(** [PRCheck.__post_init__] *)
Definition PRCheck_post_init (c : PRCheck) : res PRCheck :=
  do? guard_raise (negb (str_in c.(scope) ["diff"; "repo"])) ValueError "PR check scope must be diff or repo" in
  Ok c.

Record ReviewAgentConfig := {
  target_branch : string;
  fork_support : bool;
  review_request_changes : bool;
  reviewer_login : string;
  pr_checks : list PRCheck;
}.

Definition is_scanner (c : PRCheck) : bool := contains "security-scanner" (str_lower c.(name)).
(** [ReviewAgentConfig.security_alerts_enabled] *)
Definition security_alerts_enabled (c : ReviewAgentConfig) : bool := existsb is_scanner c.(pr_checks).

(** [ReviewAgentConfig.load], from the parsed YAML document. *)
Definition get_or (k : string) (d : json) (j : json) : json := default d (jget k j).
Definition load (payload : json) : res ReviewAgentConfig :=
  let payload := if truthy payload then payload else JObj [] in
  match payload with
  | JObj _ =>
    match jget "beacode" payload with
    | Some (JObj kvs) =>
        let config := JObj kvs in
        let? items := jlist (get_or "pr_checks" (JArr []) config) in
        let? checks := map_res (fun item =>
          let? n := jfield "name" item in
          PRCheck_post_init {| name := str_json n; scope := str_json (get_or "scope" (JStr "diff") item) |}) items in
        Ok {| target_branch := str_json (get_or "target_branch" (JStr "main") config);
              fork_support := truthy (get_or "fork_support" (JBool false) config);
              review_request_changes := truthy (get_or "review_request_changes" (JBool true) config);
              reviewer_login := str_json (get_or "reviewer_login" (JStr "beacode[bot]") config);
              pr_checks := checks |}
    | _ => raise TypeError "configuration must contain a top-level beacode mapping"
    end
  | _ => raise OtherError "object has no attribute 'get'"
  end.

End Config.

Module GitHub.
Import Domain.

Record ReviewReport := { r_summaries : list ReviewSummary; r_comments : list InlineComment }.

(** [item.get(k, default)] of an object of the response. *)
Definition get_or (k : string) (d : json) (j : json) : json := default d (jget k j).
(** [str(item.get(k) or "")] *)
Definition text_or_empty (k : string) (j : json) : string :=
  match jget k j with Some v => if truthy v then str_json v else EmptyString | None => EmptyString end.
(** An object, or the [AttributeError] its [get] raises. *)
Definition as_object (j : json) : res json :=
  match j with JObj _ => Ok j | _ => raise OtherError "object has no attribute 'get'" end.
(** [a or b] *)
Definition or_else (a : option json) (b : json) : json :=
  match a with Some v => if truthy v then v else b | None => b end.

Definition login_of (item : json) : res string :=
  let? u := as_object (get_or "user" (JObj []) item) in Ok (str_json (get_or "login" (JStr "unknown") u)).
Definition summary_of (item : json) : res ReviewSummary :=
  let? idj := jfield "id" item in
  let? id := int_of_json idj in
  let? login := login_of item in
  Ok {| review_id := id; reviewer := login; state := str_json (get_or "state" (JStr "PENDING") item);
        s_body := text_or_empty "body" item; s_url := text_or_empty "html_url" item |}.
Definition comment_of (item : json) : res InlineComment :=
  let? idj := jfield "id" item in
  let? id := int_of_json idj in
  let? login := login_of item in
  Ok {| comment_id := id; c_reviewer := login; c_path := text_or_empty "path" item;
        line := or_else (jget "line" item) (default JNull (jget "original_line" item));
        c_body := text_or_empty "body" item; c_url := text_or_empty "html_url" item |}.

(** [_dependabot_finding] and [_code_scanning_finding] *)
Definition _dependabot_finding (item : json) : res SecurityFinding :=
  let? advisory := as_object (or_else (jget "security_advisory" item) (JObj [])) in
  let? dependency := as_object (or_else (jget "dependency" item) (JObj [])) in
  Ok {| source := "dependabot"; alert_id := str_json (get_or "number" (JStr "unknown") item);
        severity := str_json (get_or "severity" (JStr "unknown") advisory);
        f_path := str_json (get_or "manifest_path" (JStr EmptyString) dependency);
        summary := str_json (get_or "summary" (JStr "Dependency alert") advisory);
        f_url := str_json (get_or "html_url" (JStr EmptyString) item) |}.
Definition _code_scanning_finding (item : json) : res SecurityFinding :=
  let? rule := as_object (or_else (jget "rule" item) (JObj [])) in
  let? instance := as_object (get_or "most_recent_instance" (JObj []) item) in
  let? location := as_object (get_or "location" (JObj []) instance) in
  Ok {| source := "codeql"; alert_id := str_json (get_or "number" (JStr "unknown") item);
        severity := str_json (or_else (jget "security_severity_level" rule) (get_or "severity" (JStr "unknown") rule));
        f_path := str_json (get_or "path" (JStr EmptyString) location);
        summary := str_json (get_or "description" (JStr "Code scanning alert") rule);
        f_url := str_json (get_or "html_url" (JStr EmptyString) item) |}.

Section client.
Context {W : Type} (urlopen : float -> http_request -> M W outcome).

Record GitHubReviewClient := { base_url : string; http : JsonHttpClient; headers : dict string string }.

(** [GitHubReviewClient.__init__] with the default HTTP client. *)
Definition new_github (base token : string) : res GitHubReviewClient :=
  let? h := new_client (f_of_Z 5) 3 in
  Ok {| base_url := rstrip_slash base; http := h;
        headers := [("Accept", "application/vnd.github+json"); ("Authorization", "Bearer " +:+ token);
                    ("X-GitHub-Api-Version", "2022-11-28")] |}.

Context (g : GitHubReviewClient).

(** [_all_pages]: at most one hundred pages of one hundred items. *)
Fixpoint pages_from (fuel : nat) (page : Z) (url separator : string) (output : list json) : M W (list json) :=
  match fuel with
  | O => raise_M IntegrationError "GitHub API pagination exceeded safety limit"
  | S f =>
      let! r := request urlopen g.(http) "GET"
        (url +:+ separator +:+ "per_page=100&page=" +:+ str_Z page) None g.(headers) true in
      match r.(body) with
      | JArr items =>
          let output := output ++ List.filter (fun i => match i with JObj _ => true | _ => false end) items in
          if (length items <? 100)%nat then mret_M output else pages_from f (page + 1) url separator output
      | _ => raise_M IntegrationError "GitHub API returned an invalid paginated response"
      end
  end.
Definition _all_pages (url : string) : M W (list json) :=
  pages_from 100 1 url (if contains "?" url then "&" else "?") [].

(** [fetch_report] *)
Definition fetch_report (owner_ repo : string) (n : Z) : M W ReviewReport :=
  let root := g.(base_url) +:+ "/repos/" +:+ owner_ +:+ "/" +:+ repo +:+ "/pulls/" +:+ str_Z n in
  let! reviews := _all_pages (root +:+ "/reviews") in
  let! comments := _all_pages (root +:+ "/comments") in
  let! ss := lift_M (map_res summary_of reviews) in
  let! cs := lift_M (map_res comment_of comments) in
  mret_M {| r_summaries := ss; r_comments := cs |}.

(** [fetch_security_findings] *)
Definition fetch_security_findings (owner_ repo : string) (paths : list string) (scope : string) :
    M W (list SecurityFinding) :=
  if negb (str_in scope ["diff"; "repo"]) then raise_M ValueError "security scope must be diff or repo" else
  let root := g.(base_url) +:+ "/repos/" +:+ owner_ +:+ "/" +:+ repo in
  let! dependabot := _all_pages (root +:+ "/dependabot/alerts?state=open") in
  let! scanning := _all_pages (root +:+ "/code-scanning/alerts?state=open") in
  let! ds := lift_M (map_res _dependabot_finding dependabot) in
  let! cs := lift_M (map_res _code_scanning_finding scanning) in
  mret_M (if bool_decide (scope = "diff") then List.filter (fun f => str_in f.(f_path) paths) (ds ++ cs) else ds ++ cs).
End client.
Arguments GitHubReviewClient : clear implicits.

End GitHub.

Module Store.
Import Domain.

Definition summary_json (s : ReviewSummary) : json :=
  JObj [("review_id", JInt s.(review_id)); ("reviewer", JStr s.(reviewer)); ("state", JStr s.(state));
        ("body", JStr s.(s_body)); ("url", JStr s.(s_url))].
Definition comment_json (c : InlineComment) : json :=
  JObj [("comment_id", JInt c.(comment_id)); ("reviewer", JStr c.(c_reviewer)); ("path", JStr c.(c_path));
        ("line", c.(line)); ("body", JStr c.(c_body)); ("url", JStr c.(c_url))].
Definition finding_json (f : SecurityFinding) : json :=
  JObj [("source", JStr f.(source)); ("alert_id", JStr f.(alert_id)); ("severity", JStr f.(severity));
        ("path", JStr f.(f_path)); ("summary", JStr f.(summary)); ("url", JStr f.(f_url))].
Definition review_json (r : PullRequestReview) : json :=
  JObj [("owner", JStr r.(owner)); ("repository", JStr r.(repository)); ("pull_number", JInt r.(pull_number));
        ("head_sha", JStr r.(head_sha)); ("base_branch", JStr r.(base_branch)); ("from_fork", JBool r.(from_fork));
        ("eligible_at_open", JBool r.(eligible_at_open)); ("changed_paths", jstrs r.(changed_paths));
        ("summaries", JArr (map summary_json r.(summaries)));
        ("inline_comments", JArr (map comment_json r.(inline_comments)));
        ("security_findings", JArr (map finding_json r.(security_findings)));
        ("fetched_at", jopt_str r.(fetched_at));
        ("approvals", JObj (dict_of (map (fun kv => (str_Z kv.1, JStr kv.2)) r.(approvals))))].

Definition json_summary (j : json) : res ReviewSummary :=
  let? i := fint "review_id" j in let? r := fstr "reviewer" j in let? s := fstr "state" j in
  let? b := fstr "body" j in let? u := fstr "url" j in
  Ok {| review_id := i; reviewer := r; state := s; s_body := b; s_url := u |}.
Definition json_comment (j : json) : res InlineComment :=
  let? i := fint "comment_id" j in let? r := fstr "reviewer" j in let? p := fstr "path" j in
  let? l := jfield "line" j in let? b := fstr "body" j in let? u := fstr "url" j in
  Ok {| comment_id := i; c_reviewer := r; c_path := p; line := l; c_body := b; c_url := u |}.
Definition json_finding (j : json) : res SecurityFinding :=
  let? s := fstr "source" j in let? a := fstr "alert_id" j in let? v := fstr "severity" j in
  let? p := fstr "path" j in let? m := fstr "summary" j in let? u := fstr "url" j in
  Ok {| source := s; alert_id := a; severity := v; f_path := p; summary := m; f_url := u |}.
(** [data.get(k, [])] *)
Definition list_or_empty (k : string) (j : json) : res (list json) :=
  match jget k j with Some v => jlist v | None => Ok [] end.
Definition json_approval (kv : string * json) : res (Z * string) :=
  match int_of_str kv.1 with
  | Some z => let? a := jstr kv.2 in Ok (z, a)
  | None => raise ValueError "invalid literal for int() with base 10"
  end.
Definition json_review (j : json) : res PullRequestReview :=
  let? o := fstr "owner" j in
  let? r := fstr "repository" j in
  let? n := fint "pull_number" j in
  let? h := fstr "head_sha" j in
  let? b := fstr "base_branch" j in
  let? f := fbool "from_fork" j in
  let? e := fbool "eligible_at_open" j in
  let? cpj := list_or_empty "changed_paths" j in
  let? cp := map_res jstr cpj in
  let? sj := list_or_empty "summaries" j in
  let? ss := map_res json_summary sj in
  let? cj := list_or_empty "inline_comments" j in
  let? cs := map_res json_comment cj in
  let? fj := list_or_empty "security_findings" j in
  let? fs := map_res json_finding fj in
  let? fa := (if truthy_opt (jget "fetched_at" j) then fopt "fetched_at" j else Ok None) in
  let? aj := (match jget "approvals" j with Some v => jobj v | None => Ok [] end) in
  let? aps := map_res json_approval aj in
  Ok {| owner := o; repository := r; pull_number := n; head_sha := h; base_branch := b; from_fork := f;
        eligible_at_open := e; changed_paths := cp; summaries := ss; inline_comments := cs;
        security_findings := fs; fetched_at := fa; approvals := dict_of aps |}.

(** The table [pull_reviews], by [review_key]. *)
Definition table : Type := dict string json.

(** [ReviewStore.save] and [ReviewStore.get] *)
Definition save (r : PullRequestReview) : M table unit := modify_M (dset (key r) (review_json r)).
Definition get (owner_ repository_ : string) (n : Z) : M table (option PullRequestReview) :=
  let! t := get_M in
  match dget (key_of owner_ repository_ n) t with
  | None => mret_M None
  | Some doc => lift_M (let? r := json_review doc in Ok (Some r))
  end.

End Store.

Module Service.
Import Domain Config GitHub.

Section service.
Context {W : Type} (urlopen : float -> http_request -> M W outcome).
Context (config : ReviewAgentConfig) (github : GitHubReviewClient).

Definition service : Type := Store.table * W.
Definition on_store {A} (m : M Store.table A) : M service A := zoom_M fst (fun t s => (t, s.2)) m.
Definition on_github {A} (m : M W A) : M service A := zoom_M snd (fun w s => (s.1, w)) m.

(** [_required] *)
Definition _required (owner_ repository_ : string) (n : Z) : M service PullRequestReview :=
  let! r := on_store (Store.get owner_ repository_ n) in
  match r with
  | None => raise_M KeyError "pull request was not latched at open time"
  | Some review => mret_M review
  end.

(** [open_pull_request] *)
Definition new_review (owner_ repository_ : string) (n : Z) (head base : string) (fork : bool) (paths : list string) :
    PullRequestReview :=
  {| owner := owner_; repository := repository_; pull_number := n; head_sha := head; base_branch := base;
     from_fork := fork;
     eligible_at_open := bool_decide (base = config.(target_branch)) && (negb fork || config.(fork_support));
     changed_paths := paths; summaries := []; inline_comments := []; security_findings := [];
     fetched_at := None; approvals := [] |}.
Definition open_pull_request (owner_ repository_ : string) (n : Z) (head base : string) (fork : bool)
    (paths : list string) : M service PullRequestReview :=
  let! existing := on_store (Store.get owner_ repository_ n) in
  match existing with
  | Some r => mret_M r
  | None =>
      let review := new_review owner_ repository_ n head base fork paths in
      do! on_store (Store.save review) in
      mret_M review
  end.

(** The security findings of a refresh, when a check asks for them. *)
Definition security_of (owner_ repository_ : string) (review : PullRequestReview) : M service (list SecurityFinding) :=
  if security_alerts_enabled config then
    let scopes := map scope (List.filter is_scanner config.(pr_checks)) in
    on_github (fetch_security_findings urlopen github owner_ repository_ review.(changed_paths)
      (if str_in "repo" scopes then "repo" else "diff"))
  else mret_M [].

(** [refresh_report] *)
Definition refresh_report (owner_ repository_ : string) (n : Z) (now : string) : M service PullRequestReview :=
  let! review := _required owner_ repository_ n in
  if negb review.(eligible_at_open) then mret_M review else
  let! report := on_github (fetch_report urlopen github owner_ repository_ n) in
  let! security := security_of owner_ repository_ review in
  let! ur := on_object review (record_findings report.(r_summaries) report.(r_comments) security now) in
  do! on_store (Store.save ur.2) in
  mret_M ur.2.

(** [approve_suggestion] and [authorize_apply] *)
Definition approve_suggestion (owner_ repository_ : string) (n id : Z) (actor : string) : M service PullRequestReview :=
  let! review := _required owner_ repository_ n in
  let! ur := on_object review (Domain.approve_suggestion id actor) in
  do! on_store (Store.save ur.2) in
  mret_M ur.2.
Definition authorize_apply (owner_ repository_ : string) (n id : Z) : M service json :=
  let! review := _required owner_ repository_ n in
  let! actor := lift_M (require_approved_suggestion id review) in
  mret_M (JObj [("status", JStr "authorized"); ("comment_id", JInt id); ("approved_by", JStr actor)]).
End service.
End Service.

Module Api.
Import Domain Config Service.

(** [authorize] *)
Definition authorize (identity : Identity) (role : string) : res unit :=
  match require_roles [role] identity with
  | Err e => if catches [AuthorizationError] e then http 403 "required role missing" else Err e
  | Ok _ => Ok tt
  end.

(** [class OpenPullRequest(BaseModel)] *)
Record OpenPullRequest := {
  q_owner : string; q_repository : string; q_pull_number : Z; q_head_sha : string;
  q_base_branch : string; q_from_fork : bool; q_changed_paths : list string;
}.
Definition OpenPullRequest_valid (q : OpenPullRequest) : bool :=
  (0 <? q.(q_pull_number)) && len_between 7 64 q.(q_head_sha).

(** [view] *)
Definition with_field (k : string) (v : json) (j : json) : json :=
  match j with JObj kvs => JObj (dset k v kvs) | _ => j end.
Definition view (config : ReviewAgentConfig) (r : PullRequestReview) : json :=
  JObj [("pull_request", JStr (key r)); ("head_sha", JStr r.(head_sha)); ("eligible_at_open", JBool r.(eligible_at_open));
    ("decision", JStr (decision_value (decision config.(reviewer_login) config.(review_request_changes) r)));
    ("report_fetched_at", jopt_str r.(fetched_at)); ("reviews", JArr (map Store.summary_json r.(summaries)));
    ("inline_comments", JArr (map (fun c => with_field "approved_by" (jopt_str (dget c.(comment_id) r.(approvals)))
                                              (Store.comment_json c)) r.(inline_comments)));
    ("security_findings", JArr (map Store.finding_json r.(security_findings)))].

Section handlers.
Context {W : Type} (urlopen : float -> http_request -> M W outcome).
Context (config : ReviewAgentConfig) (github : GitHub.GitHubReviewClient).

Definition not_found {A} (m : M (service (W := W)) A) : M service A :=
  catch_M m [KeyError] (fun e => http_M 404 (str_exn e)).

Definition open_pull (q : OpenPullRequest) (identity : Identity) : M (service (W := W)) json :=
  if negb (OpenPullRequest_valid q) then unprocessable else
  do! lift_M (authorize identity "review-operator") in
  let! r := open_pull_request config q.(q_owner) q.(q_repository) q.(q_pull_number) q.(q_head_sha)
    q.(q_base_branch) q.(q_from_fork) q.(q_changed_paths) in
  mret_M (view config r).
Definition refresh (owner_ repository_ : string) (n : Z) (identity : Identity) (now : string) : M service json :=
  do! lift_M (authorize identity "review-operator") in
  not_found (let! r := refresh_report urlopen config github owner_ repository_ n now in mret_M (view config r)).
Definition approve (owner_ repository_ : string) (n id : Z) (identity : Identity) : M (service (W := W)) json :=
  do! lift_M (authorize identity "review-approver") in
  catch_M (not_found (let! r := Service.approve_suggestion owner_ repository_ n id identity.(subject) in
                      mret_M (view config r)))
    [ValueError] (fun e => http_M 422 (str_exn e)).
Definition authorize_apply_handler (owner_ repository_ : string) (n id : Z) (identity : Identity) :
    M (service (W := W)) json :=
  do! lift_M (authorize identity "review-operator") in
  catch_M (not_found (authorize_apply owner_ repository_ n id))
    [PermissionError] (fun e => http_M 403 (str_exn e)).
End handlers.
End Api.

(** ** Lemmas *)

Module ReviewerFacts.
Import Domain Config Store Service.

Lemma json_summary_roundtrip s : json_summary (summary_json s) = Ok s.
Proof. by destruct s. Qed.
Lemma json_comment_roundtrip c : json_comment (comment_json c) = Ok c.
Proof. by destruct c. Qed.
Lemma json_finding_roundtrip f : json_finding (finding_json f) = Ok f.
Proof. by destruct f. Qed.

(** What every review of the service satisfies. *)
Definition storable (r : PullRequestReview) : Prop := dwf r.(approvals) /\ r.(fetched_at) <> Some EmptyString.

Lemma approval_keys (aps : dict Z string) : dwf aps -> NoDup (map fst (map (fun kv => (str_Z kv.1, JStr kv.2)) aps)).
Proof.
  unfold dwf, dkeys. rewrite map_map. cbn. intros H.
  rewrite <- (map_map fst str_Z). apply (NoDup_fmap_2 str_Z), H. 
Qed.

Lemma json_review_roundtrip r : storable r -> json_review (review_json r) = Ok r.
Proof.
  intros [Hw Hf]. unfold json_review, review_json.
  rewrite (dict_of_NoDup (map _ (approvals r))) by by apply approval_keys.
  set (ap := map _ (approvals r)). set (cp := jstrs _). set (ss := map _ (summaries r)).
  set (cs := map _ (inline_comments r)). set (fs := map _ (security_findings r)). set (fa := jopt_str _).
  simpl. subst ap cp ss cs fs fa.
  rewrite (map_res_map jstr JStr id), map_id by done. cbn [mbind res_bind].
  rewrite (map_res_map json_summary summary_json id), map_id by (intros; apply json_summary_roundtrip). cbn [mbind res_bind].
  rewrite (map_res_map json_comment comment_json id), map_id by (intros; apply json_comment_roundtrip). cbn [mbind res_bind].
  rewrite (map_res_map json_finding finding_json id), map_id by (intros; apply json_finding_roundtrip). cbn [mbind res_bind].
  rewrite (map_res_map json_approval _ id), map_id.
  2: { intros [z a] _. unfold json_approval. cbn [fst snd]. by rewrite int_of_str_Z. }
  assert (forall d, fopt "fetched_at" d = Ok (fetched_at r) ->
    (if truthy (jopt_str (fetched_at r)) then fopt "fetched_at" d else Ok None) = Ok (fetched_at r)) as E.
  { intros d ->. destruct (fetched_at r) as [t|]; [|done]. destruct t; [by destruct Hf|done]. }
  rewrite E by (simpl; apply jstr_opt_jopt_str). cbn [mbind res_bind].
  rewrite dict_of_NoDup by done. by destruct r.
Qed.

(** An approval given through the service. *)
Inductive event := Approved (review : string) (comment : Z) (actor : string).

(** The stored documents are reviews, and every approval was given. *)
Definition table_ok (evs : list event) (t : table) : Prop := forall k doc, dget k t = Some doc ->
  exists r, doc = review_json r /\ storable r /\ key r = k /\
    forall id a, dget id r.(approvals) = Some a -> Approved k id a ∈ evs /\ blank a = false.

Lemma table_ok_more evs evs' t : table_ok evs t -> table_ok (evs ++ evs') t.
Proof.
  intros H k doc Hd. destruct (H k doc Hd) as (r & H1 & H2 & H3 & H4). exists r. split_and!; try done.
  intros id a Ha. destruct (H4 id a Ha). split; [apply elem_of_app; by left|done].
Qed.

Lemma table_ok_save evs t r :
  table_ok evs t -> storable r ->
  (forall id a, dget id r.(approvals) = Some a -> Approved (key r) id a ∈ evs /\ blank a = false) ->
  table_ok evs (dset (key r) (review_json r) t).
Proof.
  intros Ht Hs Ha k doc Hd. destruct (decide (k = key r)) as [->|Hne].
  - rewrite dget_dset_eq in Hd. injection Hd as <-. by exists r.
  - rewrite dget_dset_ne in Hd by done. by apply Ht.
Qed.

Section service.
Context {W : Type} (urlopen : float -> http_request -> M W outcome).
Context (config : ReviewAgentConfig) (github : GitHub.GitHubReviewClient).
Implicit Types s : service (W := W).

Lemma get_cases evs o rp n s : table_ok evs s.1 ->
  (dget (key_of o rp n) s.1 = None /\ on_store (get o rp n) s = (Ok None, s)) \/
  (exists r, dget (key_of o rp n) s.1 = Some (review_json r) /\ on_store (get o rp n) s = (Ok (Some r), s) /\ storable r /\
     key r = key_of o rp n /\
     forall id a, dget id r.(approvals) = Some a -> Approved (key r) id a ∈ evs /\ blank a = false).
Proof.
  intros H. unfold on_store, zoom_M, get. mred. destruct (dget (key_of o rp n) s.1) as [doc|] eqn:E.
  - right. destruct (H _ _ E) as (r & -> & Hs & Hk & Ha). exists r. rewrite Hk. split_and!; try done.
    unfold lift_M. rewrite json_review_roundtrip by done. by destruct s.
  - left. split; [done|]. by destruct s.
Qed.

Lemma required_cases evs o rp n s : table_ok evs s.1 ->
  (dget (key_of o rp n) s.1 = None /\
   _required o rp n s = (raise KeyError "pull request was not latched at open time", s)) \/
  (exists r, dget (key_of o rp n) s.1 = Some (review_json r) /\ _required o rp n s = (Ok r, s) /\ storable r /\
     key r = key_of o rp n /\
     forall id a, dget id r.(approvals) = Some a -> Approved (key r) id a ∈ evs /\ blank a = false).
Proof.
  intros H. unfold _required. destruct (get_cases evs o rp n s H) as [[E1 E]|(r & E1 & E & Hr)]; rewrite (bind_ok _ _ _ _ _ E).
  - by left.
  - right. by exists r.
Qed.

Lemma on_github_table {A} (m : M W A) s r s' : on_github m s = (r, s') -> s'.1 = s.1.
Proof. unfold on_github, zoom_M. destruct (m s.2) as [r' w]. by intros [= <- <-]. Qed.

Lemma security_table o rp r s x s' : security_of urlopen config github o rp r s = (x, s') -> s'.1 = s.1.
Proof. unfold security_of. destruct (security_alerts_enabled config); [apply on_github_table|]. by intros [= _ <-]. Qed.

Lemma refresh_table evs o rp n now s : table_ok evs s.1 -> now <> EmptyString ->
  table_ok evs (refresh_report urlopen config github o rp n now s).2.1.
Proof.
  intros Ht Hnow. unfold refresh_report.
  destruct (required_cases evs o rp n s Ht) as [[_ E]|(r & _ & E & Hs & Hk & Ha)].
  { by rewrite (bind_err _ _ _ _ _ E). }
  rewrite (bind_ok _ _ _ _ _ E). destruct (negb (eligible_at_open r)); [done|].
  unfold mbind_M at 1. destruct (on_github _ s) as [[rep|e] s1] eqn:E1; apply on_github_table in E1; cbn [snd]; [|by rewrite E1].
  unfold mbind_M at 1.
  destruct (security_of urlopen config github o rp r s1) as [[sec|e] s2] eqn:E2; apply security_table in E2.
  - assert (s2.1 = s.1) as E3 by congruence.
    rewrite (bind_ok _ _ s2 (tt, set_report rep.(GitHub.r_summaries) rep.(GitHub.r_comments) sec now r) s2) by done. cbn [fst snd].
    unfold mbind_M, on_store, zoom_M, save, modify_M. cbn [fst snd]. rewrite E3.
    change (key (set_report _ _ _ _ r)) with (key r).
    apply (table_ok_save evs s.1 (set_report rep.(GitHub.r_summaries) rep.(GitHub.r_comments) sec now r)); [done| |exact Ha].
    destruct Hs as [Hw _]. split; [done|]. cbn. congruence.
  - cbn [snd]. by rewrite E2, E1.
Qed.

Lemma open_table evs o rp n h b f ps s : table_ok evs s.1 ->
  table_ok evs (open_pull_request config o rp n h b f ps s).2.1.
Proof.
  intros Ht. unfold open_pull_request.
  destruct (get_cases evs o rp n s Ht) as [[E1 E]|(r & E1 & E & Hr)]; rewrite (bind_ok _ _ _ _ _ E); [|done].
  apply (table_ok_save evs s.1 (new_review config o rp n h b f ps)); [done| |done]. split; [constructor|done].
Qed.

Lemma approve_table evs o rp n id a s : table_ok evs s.1 ->
  let '(r, s') := approve_suggestion o rp n id a s in
  match r with
  | Ok _ => table_ok (evs ++ [Approved (key_of o rp n) id a]) s'.1
  | Err _ => s' = s
  end.
Proof.
  intros Ht. unfold approve_suggestion.
  destruct (required_cases evs o rp n s Ht) as [[_ E]|(r & _ & E & Hs & Hk & Ha)].
  { by rewrite (bind_err _ _ _ _ _ E). }
  rewrite (bind_ok _ _ _ _ _ E). unfold on_object, mbind_M at 1. unfold Domain.approve_suggestion. mred.
  destruct (negb _); [done|]. destruct (blank a) eqn:Eb; [done|].
  unfold modify_M. cbn [fst snd]. unfold mbind_M, on_store, zoom_M, save, modify_M. cbn [fst snd].
  apply (table_ok_save _ s.1 (set_approval id a r)); [by apply table_ok_more| |].
  - destruct Hs as [Hw Hf]. split; [by apply dset_wf|done].
  - intros id' a' Hd. cbn [approvals set_approval] in Hd. change (key (set_approval id a r)) with (key r).
    destruct (decide (id' = id)) as [->|Hne].
    + rewrite dget_dset_eq in Hd. injection Hd as <-. rewrite Hk. split; [apply elem_of_app; right; by left|done].
    + rewrite dget_dset_ne in Hd by done. destruct (Ha _ _ Hd). split; [apply elem_of_app; by left|done].
Qed.
End service.
End ReviewerFacts.

(** ** Properties *)

Module ReviewerTheorems.
Import Domain Config Store Service ReviewerFacts.

Section theorems.
Context {W : Type} (urlopen : float -> http_request -> M W outcome).
Context (config : ReviewAgentConfig) (github : GitHub.GitHubReviewClient).

(** Calls on the service from an empty table, with the approvals it gave. *)
Inductive run : list event -> service (W := W) -> Prop :=
| run_start w : run [] ([], w)
| run_open evs s o rp n h b f ps : run evs s -> run evs (open_pull_request config o rp n h b f ps s).2
| run_refresh evs s o rp n now : now <> EmptyString -> run evs s ->
    run evs (refresh_report urlopen config github o rp n now s).2
| run_approve evs s o rp n id a r s' : run evs s -> approve_suggestion o rp n id a s = (Ok r, s') ->
    run (evs ++ [Approved (key_of o rp n) id a]) s'.

Lemma run_table evs s : run evs s -> table_ok evs s.1.
Proof.
  induction 1 as [w|evs s o rp n h b f ps _ IH|evs s o rp n now Hn _ IH|evs s o rp n id a r s' _ IH H].
  - intros k doc Hd. done.
  - by apply open_table.
  - by apply refresh_table.
  - pose proof (approve_table evs o rp n id a s IH) as Ht. by rewrite H in Ht.
Qed.
End theorems.

(** A suggestion is applied only with an explicit approval when requests are
    served one after the other.  In every state the service reaches, authorising
    the application of a comment of a pull request succeeds exactly when a
    stored approval exists, reports its actor, who is not blank and did approve
    that very comment through the service, and changes nothing; without it the answer is [PermissionError], and
    [KeyError] for a pull request never opened. *)
Theorem apply_requires_approval : forall (W : Type) (urlopen : float -> http_request -> M W outcome) config github evs s o rp n id,
  run urlopen config github evs s ->
  (exists actor, blank actor = false /\ Approved (key_of o rp n) id actor ∈ evs /\
     authorize_apply o rp n id s =
       (Ok (JObj [("status", JStr "authorized"); ("comment_id", JInt id); ("approved_by", JStr actor)]), s)) \/
  (exists msg, authorize_apply o rp n id s = (raise PermissionError msg, s)) \/
  (dget (key_of o rp n) s.1 = None /\ exists msg, authorize_apply o rp n id s = (raise KeyError msg, s)).
Proof.
  intros W urlopen config github evs s o rp n id H%run_table. unfold authorize_apply.
  destruct (required_cases evs o rp n s H) as [[E1 E]|(r & _ & E & Hs & Hk & Ha)].
  { right; right. split; [done|]. rewrite (bind_err _ _ _ _ _ E). by eexists. }
  rewrite (bind_ok _ _ _ _ _ E). unfold require_approved_suggestion.
  destruct (dget id (approvals r)) as [a|] eqn:Ea.
  - left. exists a. destruct (Ha _ _ Ea) as [H1 H2]. rewrite Hk in H1. done.
  - right; left. by eexists.
Qed.

Definition ex_config : ReviewAgentConfig :=
  {| target_branch := "main"; fork_support := false; review_request_changes := true; reviewer_login := "bot"; pr_checks := [] |}.
Definition ex_server (t : float) (r : http_request) : M unit outcome := fun w =>
  (Ok (Responded 200 (if contains "/comments" r.(url) then
     of_chars (map (fun c => if bool_decide (c = squote) then dquote else c) (chars "[{'id': 7}]")) else "[]")), w).
Definition ex_github : GitHub.GitHubReviewClient :=
  {| GitHub.base_url := "https://api.github.com"; GitHub.http := {| timeout_seconds := f_of_Z 5; maximum_attempts := 3 |};
     GitHub.headers := [] |}.
Definition ex_state : service (W := unit) :=
  (refresh_report ex_server ex_config ex_github "o" "r" 1 "now" (open_pull_request ex_config "o" "r" 1 "abcdefg" "main" false [] ([], tt)).2).2.

Lemma apply_requires_approval_witness :
  exists r s', approve_suggestion "o" "r" 1 7 "ana" ex_state = (Ok r, s') /\
    exists j, authorize_apply "o" "r" 1 7 s' = (Ok j, s').
Proof.
  assert (run ex_server ex_config ex_github [] ex_state) as Hr.
  { apply run_refresh; [discriminate|]. apply run_open. constructor. }
  destruct (approve_suggestion "o" "r" 1 7 "ana" ex_state) as [[r|e] s'] eqn:E.
  2: { exfalso. assert (is_ok (approve_suggestion "o" "r" 1 7 "ana" ex_state).1 = true) as K by (vm_compute; reflexivity).
       rewrite E in K. discriminate K. }
  exists r, s'. split; [reflexivity|].
  pose proof (run_approve _ _ _ _ _ _ _ _ _ _ _ _ Hr E) as Hr'.
  destruct (apply_requires_approval unit ex_server ex_config ex_github _ s' "o" "r" 1 7 Hr') as [(a & _ & _ & H)|[[msg H]|[_ [msg H]]]].
  - eexists. exact H.
  - exfalso. assert (is_ok (authorize_apply "o" "r" 1 7 (approve_suggestion "o" "r" 1 7 "ana" ex_state).2).1 = true) as K by (vm_compute; reflexivity).
    rewrite E in K. cbn [snd] in K. rewrite H in K. discriminate K.
  - exfalso. assert (is_ok (authorize_apply "o" "r" 1 7 (approve_suggestion "o" "r" 1 7 "ana" ex_state).2).1 = true) as K by (vm_compute; reflexivity).
    rewrite E in K. cbn [snd] in K. rewrite H in K. discriminate K.
Defined.

(** The eligibility of a pull request is latched when it is first opened.
    In every reached state, opening a pull request again, whatever head, base
    or fork flag it now claims, returns the stored review and changes nothing;
    a first opening is eligible exactly for the target branch and, from a
    fork, with fork support; and refreshing an ineligible pull request calls
    GitHub for nothing and changes nothing. *)
Theorem eligibility_latched : forall (W : Type) (urlopen : float -> http_request -> M W outcome) config github evs s o rp n h b f ps now,
  run urlopen config github evs s ->
  (dget (key_of o rp n) s.1 = None /\
     exists r s', open_pull_request config o rp n h b f ps s = (Ok r, s') /\
       (r.(eligible_at_open) = true <-> b = config.(target_branch) /\ (f = true -> config.(fork_support) = true)) /\
       forall h2 b2 f2 ps2, open_pull_request config o rp n h2 b2 f2 ps2 s' = (Ok r, s')) \/
  (exists r, (forall h2 b2 f2 ps2, open_pull_request config o rp n h2 b2 f2 ps2 s = (Ok r, s)) /\
     (r.(eligible_at_open) = false -> refresh_report urlopen config github o rp n now s = (Ok r, s))).
Proof.
  intros W urlopen config github evs s o rp n h b f ps now H%run_table.
  destruct (get_cases evs o rp n s H) as [[E1 E]|(r & E1 & E & Hs & Hk & Ha)].
  - left. split; [done|]. exists (new_review config o rp n h b f ps), (dset (key_of o rp n) (review_json (new_review config o rp n h b f ps)) s.1, s.2).
    split; [unfold open_pull_request; rewrite (bind_ok _ _ _ _ _ E); done|]. split.
    + cbn [eligible_at_open new_review]. rewrite andb_true_iff, bool_decide_eq_true, orb_true_iff, negb_true_iff.
      destruct f; naive_solver.
    + intros h2 b2 f2 ps2. unfold open_pull_request, on_store, zoom_M, get, mbind_M at 1. mred. cbn [fst snd].
      rewrite dget_dset_eq. unfold lift_M. rewrite json_review_roundtrip; [done|]. split; [constructor|done].
  - right. exists r. split.
    + intros h2 b2 f2 ps2. unfold open_pull_request. by rewrite (bind_ok _ _ _ _ _ E).
    + intros He. unfold refresh_report, _required. rewrite bind_assoc, (bind_ok _ _ _ _ _ E), bind_ret. by rewrite He.
Qed.

Lemma eligibility_latched_witness :
  exists r s', open_pull_request ex_config "o" "r" 1 "abcdefg" "dev" false [] ([], tt) = (Ok r, s') /\
    open_pull_request ex_config "o" "r" 1 "abcdefg" "main" false [] s' = (Ok r, s').
Proof.
  destruct (eligibility_latched unit ex_server ex_config ex_github [] ([], tt) "o" "r" 1 "abcdefg" "dev" false [] "now" (run_start _ _ _ tt))
    as [(_ & r & s' & H1 & _ & H2)|(r & H & _)].
  - exists r, s'. split; [exact H1|]. apply H2.
  - exfalso. assert (dget (key_of "o" "r" 1) (open_pull_request ex_config "o" "r" 1 "abcdefg" "dev" false [] ([], tt)).2.1 = None) as K by by rewrite H.
    vm_compute in K. discriminate K.
Defined.

End ReviewerTheorems.
