(* ===== verification/ReviewerConcurrency.v ===== *)
(** * Concurrent requests to the review service

    The methods of platforms/reviewer/service.py read a whole review, change it
    and save it whole, with no revision to compare; the handlers of api.py run
    on threads of their own.  [Machine] splits each method at the read and the
    save; [Theorems] shows what survives every interleaving (a stored approval
    was given) and what does not (an approval that was given may be lost). *)

From Stdlib Require Import String ZArith Lia.
From stdpp Require Import base list strings.
From S2P Require Import Prelude PyStr PyDict PyFloat Json Security Http Reviewer.

Module Machine.
Import Domain Config GitHub Service ReviewerFacts.

Section machine.
Context {W : Type} (urlopen : float -> http_request -> M W outcome).
Context (config : ReviewAgentConfig) (github : GitHubReviewClient).

(** The requests that change the store, and a request that has read it: the
    review it will save, or change and save. *)
Inductive call :=
| Open (o rp : string) (n : Z) (head base : string) (fork : bool) (paths : list string)
| Refresh (o rp : string) (n : Z) (now : string)
| Approve (o rp : string) (n id : Z) (actor : string).
Inductive task :=
| Opening (r : PullRequestReview)
| Refreshing (o rp : string) (n : Z) (now : string) (r : PullRequestReview)
| Approving (id : Z) (actor : string) (r : PullRequestReview).

(** The method of a request. *)
Definition serve (q : call) : M (service (W := W)) PullRequestReview :=
  match q with
  | Open o rp n head base fork paths => open_pull_request config o rp n head base fork paths
  | Refresh o rp n now => refresh_report urlopen config github o rp n now
  | Approve o rp n id actor => approve_suggestion o rp n id actor
  end.
(** Its part up to the read, which ends it or leaves a task, and the rest of it. *)
Definition first_part (q : call) : M (service (W := W)) (PullRequestReview + task) :=
  match q with
  | Open o rp n head base fork paths =>
      let! existing := on_store (Store.get o rp n) in
      mret_M (match existing with
              | Some r => inl r
              | None => inr (Opening (new_review config o rp n head base fork paths))
              end)
  | Refresh o rp n now =>
      let! r := _required o rp n in
      mret_M (if negb r.(eligible_at_open) then inl r else inr (Refreshing o rp n now r))
  | Approve o rp n id actor => let! r := _required o rp n in mret_M (inr (Approving id actor r))
  end.
Definition second_part (t : task) : M (service (W := W)) PullRequestReview :=
  match t with
  | Opening r => do! on_store (Store.save r) in mret_M r
  | Refreshing o rp n now r =>
      let! report := on_github (fetch_report urlopen github o rp n) in
      let! security := security_of urlopen config github o rp r in
      let! ur := on_object r (record_findings report.(r_summaries) report.(r_comments) security now) in
      do! on_store (Store.save ur.2) in
      mret_M ur.2
  | Approving id actor r =>
      let! ur := on_object r (Domain.approve_suggestion id actor) in
      do! on_store (Store.save ur.2) in
      mret_M ur.2
  end.

(** The server: the store and GitHub, the requests between their two parts, and
    the approvals that were answered. *)
Record server := { state : service (W := W); waiting : list task; given : list event }.
Inductive turn := Arrive (q : call) | Resume (n : nat).
Definition granted {A} (t : task) (x : res A) : list event :=
  match t, x with Approving id actor r, Ok _ => [Approved (key r) id actor] | _, _ => [] end.
Definition take_turn (x : turn) (c : server) : server :=
  match x with
  | Arrive q =>
      let '(a, s) := first_part q c.(state) in
      {| state := s; waiting := match a with Ok (inr t) => c.(waiting) ++ [t] | _ => c.(waiting) end; given := c.(given) |}
  | Resume n =>
      match c.(waiting) !! n with
      | None => c
      | Some t =>
          let '(a, s) := second_part t c.(state) in
          {| state := s; waiting := delete n c.(waiting); given := c.(given) ++ granted t a |}
      end
  end.
Definition run_schedule (xs : list turn) (c : server) : server := fold_left (fun c x => take_turn x c) xs c.
(** The clock prints a date. *)
Definition proper (x : turn) : Prop := match x with Arrive (Refresh _ _ _ now) => now <> EmptyString | _ => True end.
Definition new_server (w : W) : server := {| state := ([], w); waiting := []; given := [] |}.
End machine.
Arguments server : clear implicits.

End Machine.

Module MachineFacts.
Import Domain Config GitHub Store Service ReviewerFacts Machine.

Section facts.
Context {W : Type} (urlopen : float -> http_request -> M W outcome).
Context (config : ReviewAgentConfig) (github : GitHubReviewClient).
Abbreviation take_turn := (take_turn urlopen config github).
Abbreviation run_schedule := (run_schedule urlopen config github).

(** A method is its two parts. *)
Lemma serve_parts q (s : service (W := W)) : serve urlopen config github q s =
  (let! x := first_part config q in match x with inl r => mret_M r | inr t => second_part urlopen config github t end) s.
Proof.
  destruct q; cbn [serve first_part]; unfold open_pull_request, refresh_report, approve_suggestion; rewrite bind_assoc.
  - destruct (on_store (get o rp n) s) as [[[r|]|e] s1] eqn:E; [rewrite !(bind_ok _ _ _ _ _ E)..|rewrite !(bind_err _ _ _ _ _ E)]; done.
  - destruct (_required o rp n s) as [[r|e] s1] eqn:E; [rewrite !(bind_ok _ _ _ _ _ E)|by rewrite !(bind_err _ _ _ _ _ E)].
    by destruct (negb _).
  - destruct (_required o rp n s) as [[r|e] s1] eqn:E; [rewrite !(bind_ok _ _ _ _ _ E)|rewrite !(bind_err _ _ _ _ _ E)]; done.
Qed.

(** A review whose approvals were given. *)
Definition sound (evs : list event) (r : PullRequestReview) : Prop :=
  storable r /\ forall id a, dget id r.(approvals) = Some a -> Approved (key r) id a ∈ evs /\ blank a = false.
Definition task_ok (evs : list event) (t : task) : Prop :=
  match t with
  | Opening r => sound evs r
  | Refreshing _ _ _ now r => sound evs r /\ now <> EmptyString
  | Approving _ _ r => sound evs r
  end.
Lemma sound_more evs e r : sound evs r -> sound (evs ++ e) r.
Proof. intros [H1 H2]. split; [done|]. intros id a Ha. destruct (H2 id a Ha). split; [apply elem_of_app; by left|done]. Qed.
Lemma task_ok_more evs e t : task_ok evs t -> task_ok (evs ++ e) t.
Proof. destruct t; cbn; [apply sound_more|intros [? ?]; split; [by apply sound_more|done]|apply sound_more]. Qed.
Lemma table_ok_sound evs t r : table_ok evs t -> sound evs r -> table_ok evs (dset (key r) (review_json r) t).
Proof. intros Ht [H1 H2]. by apply table_ok_save. Qed.
Lemma sound_report evs ss cs fs now r : sound evs r -> now <> EmptyString -> sound evs (set_report ss cs fs now r).
Proof. intros [[Hw _] Ha] Hn. split; [split; [done|cbn; congruence]|exact Ha]. Qed.
Lemma sound_approval evs id a r : sound evs r -> blank a = false -> sound (evs ++ [Approved (key r) id a]) (set_approval id a r).
Proof.
  intros [[Hw Hf] Ha] Hb. split; [split; [by apply dset_wf|done]|]. intros id' a' Hd. cbn [approvals set_approval] in Hd.
  change (key (set_approval id a r)) with (key r). destruct (decide (id' = id)) as [->|Hne].
  - rewrite dget_dset_eq in Hd. injection Hd as <-. split; [apply elem_of_app; right; by left|done].
  - rewrite dget_dset_ne in Hd by done. destruct (Ha _ _ Hd). split; [apply elem_of_app; by left|done].
Qed.

Lemma first_part_ok evs q (s : service (W := W)) a s' : table_ok evs s.1 -> proper (Arrive q) ->
  first_part config q s = (a, s') -> s' = s /\ forall t, a = Ok (inr t) -> task_ok evs t.
Proof.
  intros Ht Hp H. destruct q as [o rp n h b f ps|o rp n now|o rp n id actor]; cbn [first_part] in H.
  - destruct (get_cases evs o rp n s Ht) as [[_ E]|(r & _ & E & _)]; rewrite (bind_ok _ _ _ _ _ E) in H;
      apply pair_equal_spec in H as [<- <-]; (split; [done|]); intros t [= <-]. split; [split; [constructor|done]|done].
  - destruct (required_cases evs o rp n s Ht) as [[_ E]|(r & _ & E & Hs & Hk & Ha)];
      [rewrite (bind_err _ _ _ _ _ E) in H|rewrite (bind_ok _ _ _ _ _ E) in H]; apply pair_equal_spec in H as [<- <-]; (split; [done|]).
    + done.
    + intros t. destruct (negb _); intros [= <-]. cbn in *. done.
  - destruct (required_cases evs o rp n s Ht) as [[_ E]|(r & _ & E & Hs & Hk & Ha)];
      [rewrite (bind_err _ _ _ _ _ E) in H|rewrite (bind_ok _ _ _ _ _ E) in H]; apply pair_equal_spec in H as [<- <-]; (split; [done|]).
    + done.
    + by intros t [= <-].
Qed.
Lemma second_part_ok evs t (s : service (W := W)) a s' : table_ok evs s.1 -> task_ok evs t ->
  second_part urlopen config github t s = (a, s') -> table_ok (evs ++ granted t a) s'.1.
Proof.
  intros Ht Hk H. destruct t as [r|o rp n now r|id actor r]; cbn [second_part] in H.
  - apply pair_equal_spec in H as [<- <-]. cbn [granted]. rewrite app_nil_r. by apply table_ok_sound.
  - replace (granted _ a) with (@nil event) by (by destruct a). rewrite app_nil_r. destruct Hk as [Hs Hn].
    unfold mbind_M at 1 in H. destruct (on_github _ s) as [[rep|e] s1] eqn:E1; apply on_github_table in E1;
      [|apply pair_equal_spec in H as [_ <-]; by rewrite E1].
    unfold mbind_M at 1 in H. destruct (security_of urlopen config github o rp r s1) as [[sec|e] s2] eqn:E2;
      apply security_table in E2; [|apply pair_equal_spec in H as [_ <-]; by rewrite E2, E1].
    apply pair_equal_spec in H as [_ <-]. cbn [fst snd save modify_M]. change (s2.1) with (fst s2). rewrite E2, E1.
    by apply table_ok_sound, sound_report.
  - unfold on_object, mbind_M at 1, Domain.approve_suggestion in H. unfold mbind_M at 1, get_M in H.
    destruct (negb _); [apply pair_equal_spec in H as [<- <-]; by rewrite app_nil_r|].
    destruct (blank actor) eqn:Eb; [apply pair_equal_spec in H as [<- <-]; by rewrite app_nil_r|].
    apply pair_equal_spec in H as [<- <-]. cbn [granted fst snd].
    apply (table_ok_sound _ s.1 (set_approval id actor r)); [by apply table_ok_more|by apply sound_approval].
Qed.

(** *** The invariant of the server *)

Definition server_ok (c : server W) : Prop :=
  table_ok c.(given) c.(state).1 /\ forall t, t ∈ c.(waiting) -> task_ok c.(given) t.
Lemma turn_ok x c : proper x -> server_ok c -> server_ok (take_turn x c).
Proof.
  intros Hp [H1 H2]. destruct x as [q|n]; unfold Machine.take_turn.
  - destruct (first_part config q (state c)) as [a s] eqn:E.
    destruct (first_part_ok _ _ _ _ _ H1 Hp E) as [-> Ht]. split; cbn [state waiting given]; [done|].
    intros t. destruct a as [[r|t0]|e]; [apply H2| |apply H2].
    intros [Hin| ->%list_elem_of_singleton]%elem_of_app; [by apply H2|by apply Ht].
  - destruct (waiting c !! n) as [t|] eqn:En; [|done].
    destruct (second_part urlopen config github t (state c)) as [a s] eqn:E.
    assert (task_ok (given c) t) as Ht by (by eapply H2, list_elem_of_lookup_2).
    split; cbn [state waiting given]; [by eapply second_part_ok|]. intros t' [k Hk]%list_elem_of_lookup_1.
    apply task_ok_more, H2. rewrite list_lookup_delete in Hk. case_decide; by eapply list_elem_of_lookup_2.
Qed.
Lemma schedule_ok xs c : Forall proper xs -> server_ok c -> server_ok (run_schedule xs c).
Proof. apply schedule_invariant. intros x c'. apply turn_ok. Qed.
Lemma new_server_ok w : server_ok (new_server w).
Proof. split; [by intros k doc|]. intros t Ht. by apply elem_of_nil in Ht. Qed.

End facts.

End MachineFacts.

(** ** Properties *)

Module ReviewerConcurrencyTheorems.
Import Domain Config GitHub Store Service ReviewerFacts Machine MachineFacts ReviewerTheorems.

(** A request served alone is a schedule: it arrives, and resumes at once. *)
Theorem served_alone {W} urlopen config github q (c : server W) :
  (run_schedule urlopen config github [Arrive q; Resume (length c.(waiting))] c).(state) = (serve urlopen config github q c.(state)).2 /\
  (run_schedule urlopen config github [Arrive q; Resume (length c.(waiting))] c).(waiting) = c.(waiting).
Proof.
  rewrite serve_parts. unfold run_schedule. cbn [fold_left take_turn]. unfold mbind_M.
  destruct (first_part config q (state c)) as [[[r|t]|e] s]; cbn [waiting state snd];
    [by rewrite (lookup_ge_None_2 (waiting c)) by lia| |by rewrite (lookup_ge_None_2 (waiting c)) by lia].
  rewrite list_lookup_middle by done. destruct (second_part urlopen config github t s) as [a s'].
  cbn [waiting state snd]. split; [done|]. by rewrite delete_middle, app_nil_r.
Qed.

(** C28: a suggestion is applied only with an explicit approval, however the
    requests interleave.  After any schedule of requests, each split between its
    read of the review and its save, authorising the application of a comment
    changes nothing.  For a pull request the store does not hold, the answer is
    [KeyError].  For one it holds, the stored document is that of a review: when
    this review has an approval of that very comment the answer is a success that
    reports its actor, who is not blank and whose approval of that comment was
    answered by the service; when it has none the answer is [PermissionError]. *)
Theorem apply_requires_answered_approval : forall (W : Type) (urlopen : float -> http_request -> M W outcome) config github xs w o rp n id,
  Forall proper xs -> let c := run_schedule urlopen config github xs (new_server w) in
  let '(a, s) := authorize_apply o rp n id c.(state) in
  s = c.(state) /\
  match dget (key_of o rp n) c.(state).1 with
  | None => exists msg, a = raise KeyError msg
  | Some doc => exists r, json_review doc = Ok r /\
      match dget id r.(approvals) with
      | Some actor =>
          a = Ok (JObj [("status", JStr "authorized"); ("comment_id", JInt id); ("approved_by", JStr actor)]) /\
          blank actor = false /\ ReviewerFacts.Approved (key_of o rp n) id actor ∈ c.(given)
      | None => exists msg, a = raise PermissionError msg
      end
  end.
Proof.
  intros W urlopen config github xs w o rp n id Hx c.
  destruct (schedule_ok urlopen config github xs (new_server w) Hx (new_server_ok w)) as [H _]. fold c in H.
  unfold authorize_apply. destruct (required_cases _ o rp n _ H) as [[E1 E]|(r & E1 & E & Hs & Hk & Ha)].
  { rewrite (bind_err _ _ _ _ _ E), E1. split; [done|by eexists]. }
  rewrite (bind_ok _ _ _ _ _ E), E1. unfold require_approved_suggestion.
  destruct (dget id (approvals r)) as [a|] eqn:Ea.
  - split; [done|]. exists r. rewrite json_review_roundtrip by done. rewrite Ea. split; [done|]. split; [done|].
    destruct (Ha _ _ Ea) as [H1 H2]. by rewrite Hk in H1.
  - split; [done|]. exists r. rewrite json_review_roundtrip by done. rewrite Ea. split; [done|by eexists].
Qed.

(** A refresh that read the review before an approval was saved, and saves after
    it: the approval that was answered is gone. *)
Definition ex_lost : list turn :=
  [Arrive (Open "o" "r" 1 "abcdefg" "main" false []); Resume 0; Arrive (Refresh "o" "r" 1 "t1"); Resume 0;
   Arrive (Refresh "o" "r" 1 "t2"); Arrive (Approve "o" "r" 1 7 "ana"); Resume 1; Resume 0].
Definition ex_kept : list turn := take 4 ex_lost ++ [Arrive (Approve "o" "r" 1 7 "ana"); Resume 0].

Lemma apply_requires_answered_approval_witness :
  let c := run_schedule ex_server ex_config ex_github ex_kept (new_server tt) in
  (authorize_apply "o" "r" 1 7 c.(state)).1 =
    Ok (JObj [("status", JStr "authorized"); ("comment_id", JInt 7); ("approved_by", JStr "ana")]) /\
  ReviewerFacts.Approved "o/r#1" 7 "ana" ∈ c.(given).
Proof.
  intros c.
  assert (Forall proper ex_kept) as Hx by (repeat constructor; discriminate).
  pose proof (apply_requires_answered_approval unit ex_server ex_config ex_github ex_kept tt "o" "r" 1 7 Hx) as H.
  change (run_schedule ex_server ex_config ex_github ex_kept (new_server tt)) with c in H. cbv zeta in H.
  change (key_of "o" "r" 1) with "o/r#1" in H.
  assert ((doc ← match dget "o/r#1" c.(state).1 with Some doc => Ok doc | None => raise KeyError EmptyString end;
    r ← json_review doc; Ok (dget 7 r.(approvals))) = Ok (Some "ana")) as K by (vm_compute; reflexivity).
  destruct (authorize_apply "o" "r" 1 7 (state c)) as [a s]. destruct H as [_ H].
  destruct (dget "o/r#1" (state c).1) as [doc|]; [|discriminate K].
  destruct H as (r & E & H). cbn [mbind res_bind] in K. rewrite E in K. cbn [mbind res_bind] in K.
  injection K as K. rewrite K in H. destruct H as (-> & _ & H). split; [reflexivity|exact H].
Defined.

(** The answered approval is refused afterwards. *)
Lemma approval_lost : let c := run_schedule ex_server ex_config ex_github ex_lost (new_server tt) in
  ReviewerFacts.Approved "o/r#1" 7 "ana" ∈ c.(given) /\ is_ok (authorize_apply "o" "r" 1 7 c.(state)).1 = false.
Proof. vm_compute. split; [by left|reflexivity]. Qed.

Lemma open_arrives {W} (urlopen : float -> http_request -> M W outcome) config github o rp n h b f p (s : service (W := W)) l g :
  dget (key_of o rp n) s.1 = None ->
  take_turn urlopen config github (Arrive (Open o rp n h b f p)) {| state := s; waiting := l; given := g |} =
  {| state := s; waiting := l ++ [Opening (new_review config o rp n h b f p)]; given := g |}.
Proof.
  intros Hn. unfold take_turn. cbn [first_part state waiting given]. unfold on_store, zoom_M, Store.get, mbind_M, get_M.
  rewrite Hn. by destruct s.
Qed.
Lemma open_resumes {W} (urlopen : float -> http_request -> M W outcome) config github k r (s : service (W := W)) l g :
  l !! k = Some (Opening r) ->
  take_turn urlopen config github (Resume k) {| state := s; waiting := l; given := g |} =
  {| state := (dset (key r) (review_json r) s.1, s.2); waiting := delete k l; given := g |}.
Proof. intros Hk. unfold take_turn. cbn [waiting state given]. rewrite Hk. cbn. by rewrite app_nil_r. Qed.
(** Of two requests that open one pull request, both of which found none, the
    later one replaces what was latched, the approvals given in between too. *)
Theorem latch_replaced {W} (urlopen : float -> http_request -> M W outcome) config github o rp n h1 b1 f1 p1 h2 b2 f2 p2 (c : server W) :
  c.(waiting) = [] -> dget (key_of o rp n) c.(state).1 = None ->
  let c' := run_schedule urlopen config github
    [Arrive (Open o rp n h1 b1 f1 p1); Arrive (Open o rp n h2 b2 f2 p2); Resume 1; Resume 0] c in
  on_store (Store.get o rp n) c'.(state) = (Ok (Some (new_review config o rp n h1 b1 f1 p1)), c'.(state)).
Proof.
  intros Hw Hn. destruct c as [s l g]. cbn [waiting state] in Hw, Hn. subst l.
  unfold run_schedule. cbn [fold_left]. rewrite !open_arrives by done.
  rewrite (open_resumes urlopen config github _ (new_review config o rp n h2 b2 f2 p2)) by done. cbn [delete list_delete].
  rewrite (open_resumes urlopen config github _ (new_review config o rp n h1 b1 f1 p1)) by done.
  unfold on_store, zoom_M, Store.get, mbind_M, get_M. cbn [fst snd state].
  change (key (new_review config o rp n ?h ?b ?f ?p)) with (key_of o rp n). rewrite dget_dset_eq.
  unfold lift_M. rewrite json_review_roundtrip by (split; [constructor|done]). done.
Qed.

End ReviewerConcurrencyTheorems.
