(* ===== verification/Agents.v ===== *)
(** * Agent platform (platforms/agents, packages/contracts/models.py)

    [Models] is the endpoint and release contracts, [Policy] the local
    guardrail and the tool registry of policy.py, [Providers] the model clients
    of providers.py over an HTTP transport, [Runtime] the guarded invocation of
    runtime.py with its traces, [FeedbackQueue] feedback.py and [Api] the
    handlers of api.py. *)

From Stdlib Require Import String Ascii ZArith Lia.
From stdpp Require Import base list strings.
From S2P Require Import Prelude PyStr PyDict PyFloat Hash Regex Json.

Module Models.

Record ModelEndpoint := {
  name : string;
  revision : string;
  base_url : string;
  protocol : string;
  timeout_seconds : Z;
}.
(** [ModelEndpoint.__post_init__] *)
Definition ModelEndpoint_post_init (e : ModelEndpoint) : res ModelEndpoint :=
  do? guard_raise (negb (nonempty e.(name)) || negb (nonempty e.(revision)) ||
                   negb (startswith_any ["http://"; "https://"] e.(base_url)))
        ValueError "model endpoint requires a name, revision and HTTP(S) base URL" in
  do? guard_raise ((e.(timeout_seconds) <? 1) || (e.(timeout_seconds) >? 600))
        ValueError "timeout_seconds must be between 1 and 600" in
  Ok e.

Record ModelRelease := { model_name : string; version : string; artifact_digest : string; stage : string }.
(** [ModelRelease.__post_init__] *)
Definition ModelRelease_post_init (r : ModelRelease) : res ModelRelease :=
  do? guard_raise (negb (str_in r.(stage) ["candidate"; "staging"; "production"; "retired"]))
        ValueError ("unsupported stage: " +:+ r.(stage)) in
  do? guard_raise (negb (startswith "sha256:" r.(artifact_digest)))
        ValueError "artifact_digest must be content-addressed with sha256" in
  Ok r.

(** [CATALOG] and [get_model] of catalog.py *)
Record OpenWeightModel := {
  model_id : string; family : string; license_name : string; use_case : string; minimum_memory_gb : Z;
}.
Definition CATALOG : dict string OpenWeightModel :=
  [("qwen-small", {| model_id := "qwen2.5:3b"; family := "Qwen"; license_name := "Apache-2.0";
                     use_case := "local development"; minimum_memory_gb := 6 |});
   ("mistral-small", {| model_id := "mistral:7b"; family := "Mistral"; license_name := "Apache-2.0";
                        use_case := "general assistant"; minimum_memory_gb := 10 |});
   ("gemma-small", {| model_id := "gemma3:4b"; family := "Gemma"; license_name := "Gemma Terms";
                      use_case := "local multimodal experiments"; minimum_memory_gb := 8 |})].
Definition get_model (alias : string) : res OpenWeightModel :=
  match dget alias CATALOG with
  | Some m => Ok m
  | None => raise ValueError ("unknown model alias: " +:+ alias)
  end.

End Models.

Module Policy.

Record GuardrailResult := { allowed : bool; safe_text : string; reasons : list string }.

(** [\b] holds before a word character that no word character precedes. *)
Definition is_word (c : ascii) : bool :=
  is_lower_digit (lower_char c) || bool_decide (c = "_"%char).
Fixpoint search_word_from (prev_word : bool) (r : re) (l : list ascii) : bool :=
  (negb prev_word && match_all r l) ||
  match l with [] => false | c :: l' => search_word_from (is_word c) r l' end.
Definition anything : re := Star (Chr (fun _ => true)).
(** A match that starts at a word boundary, whatever follows it, or followed by
    a word boundary. *)
Definition search_word (r : re) (s : string) : bool := search_word_from false (Cat r anything) (chars s).
Definition search_whole_word (r : re) (s : string) : bool :=
  search_word_from false (Cat r (Alt Eps (Cat (Chr (fun c => negb (is_word c))) anything))) (chars s).

Definition space : re := Chr is_space.
(** [(?:password|secret|api[_ -]?key)\s*[:=]\s*\S+], ignoring case. *)
Definition credential_re : re :=
  cats [alts [lit_ci "password"; lit_ci "secret"; cats [lit_ci "api"; opt (Chr (one_of "_ -")); lit_ci "key"]];
        Star space; Chr (one_of ":="); Star space; plus (Chr (fun c => negb (is_space c)))].
(** [\d{3}-\d{2}-\d{4}] *)
Definition identifier_re : re :=
  let d := Chr is_digit in cats [rep 3 d; lit "-"; rep 2 d; lit "-"; rep 4 d].

(** [LocalGuardrail.check] *)
Definition check (text : string) : GuardrailResult :=
  let found := (if search_word credential_re text then ["credential"] else []) ++
               (if search_whole_word identifier_re text then ["government_identifier"] else []) in
  match found with
  | [] => {| allowed := true; safe_text := text; reasons := [] |}
  | _ => {| allowed := false; safe_text := "Request blocked by safety policy."; reasons := found |}
  end.

Section tools.
Context {W : Type}.

(** [ToolSpec]; its handler may change the outside world and raise. *)
Record ToolSpec := {
  tool_name : string;
  handler : dict string json -> M W json;
  required_arguments : list string;
  allowed_roles : list string;
  side_effecting : bool;
}.
Definition registry : Type := dict string ToolSpec.

(** [ToolRegistry.register] *)
Definition register (spec : ToolSpec) : M registry unit :=
  let! tools := get_M in
  if dmem spec.(tool_name) tools then raise_M ValueError ("duplicate tool: " +:+ spec.(tool_name))
  else put_M (dset spec.(tool_name) spec tools).

(** [ToolRegistry.invoke] *)
Definition invoke (tools : registry) (name : string) (arguments : dict string json) (role : string)
    (approved : bool) : M W json :=
  match dget name tools with
  | None => raise_M PolicyDenied "tool is not allow-listed"
  | Some spec =>
      if negb (str_in role spec.(allowed_roles)) then
        raise_M PolicyDenied "caller role is not permitted for this tool"
      else match set_diff_sorted spec.(required_arguments) (dkeys arguments) with
      | _ :: _ as missing => raise_M PolicyDenied ("missing required arguments: " +:+ repr_list missing)
      | [] =>
          if spec.(side_effecting) && negb approved then
            raise_M PolicyDenied "side-effecting tool requires explicit approval"
          else spec.(handler) arguments
      end
  end.
End tools.

End Policy.

Module Providers.
Import Models.

(** What [urllib.request.urlopen] and the reading of the response come to: a
    body, or one of the exceptions [HTTPError], [URLError] and [TimeoutError]. *)
Inductive reply := Body (text : string) | Failed (class : string).
(** [UrllibTransport.post]; [ModelProviderError] is a [RuntimeError]. *)
Definition urllib_post {W} (urlopen : string -> string -> dict string string -> Z -> M W reply)
    (url : string) (payload : json) (headers : dict string string) (timeout : Z) : M W json :=
  let sent := fold_left (fun d kv => dset kv.1 kv.2 d) headers [("Content-Type", "application/json")] in
  let! r := urlopen url (dumps payload) sent timeout in
  match r with
  | Failed class => raise_M RuntimeError ("model provider request failed: " +:+ class)
  | Body text =>
      match loads text with
      | Some j => mret_M j
      | None => raise_M RuntimeError "model provider request failed: JSONDecodeError"
      end
  end.

Section providers.
(** [HttpTransport.post]: address, payload, headers and timeout. *)
Context {W : Type} (post : string -> json -> dict string string -> Z -> M W json).

(** [value[k]] of a decoded document: [KeyError] on a missing key,
    [TypeError] on a document without keys. *)
Definition item (k : string) (j : json) : res json :=
  match j with JObj _ => jfield k j | _ => raise TypeError "indices must be integers" end.
Definition first_item (j : json) : res json :=
  match j with
  | JArr (x :: _) => Ok x
  | JArr [] => raise OtherError "list index out of range"
  | JObj _ => raise KeyError "0"
  | JStr (String c _) => Ok (JStr (of_chars [c]))
  | _ => raise TypeError "object is not subscriptable"
  end.

Definition messages (system_prompt user_input : string) : json :=
  JArr [JObj [("role", JStr "system"); ("content", JStr system_prompt)];
        JObj [("role", JStr "user"); ("content", JStr user_input)]].

(** [OllamaModel.generate]; [ModelProviderError] is a [RuntimeError]. *)
Definition ollama_generate (e : ModelEndpoint) (system_prompt user_input : string) : M W string :=
  let! r := post (rstrip_slash e.(base_url) +:+ "/api/chat")
    (JObj [("model", JStr e.(revision)); ("stream", JBool false); ("messages", messages system_prompt user_input)])
    [] e.(timeout_seconds) in
  lift_M (try_res (let? m := item "message" r in let? c := item "content" m in Ok (str_json c))
    [KeyError; TypeError]
    (fun _ => raise RuntimeError "Ollama response did not contain message.content")).

(** [OpenAICompatibleModel.generate] *)
Definition openai_generate (api_key : string) (e : ModelEndpoint) (system_prompt user_input : string) : M W string :=
  let headers := if nonempty api_key then [("Authorization", "Bearer " +:+ api_key)] else [] in
  let! r := post (rstrip_slash e.(base_url) +:+ "/v1/chat/completions")
    (JObj [("model", JStr e.(revision)); ("messages", messages system_prompt user_input); ("temperature", JInt 0)])
    headers e.(timeout_seconds) in
  lift_M (try_res (let? cs := item "choices" r in let? c := first_item cs in let? m := item "message" c in
                   let? t := item "content" m in Ok (str_json t))
    [OtherError; KeyError; TypeError]
    (fun _ => raise RuntimeError "OpenAI-compatible response did not contain a completion")).
End providers.

(** [EchoModel.generate] *)
Definition echo_generate {W} (e : ModelEndpoint) (system_prompt user_input : string) : M W string :=
  mret_M ("[" +:+ e.(name) +:+ "@" +:+ e.(revision) +:+ "] " +:+ user_input).

End Providers.

Module Runtime.
Import Models Policy.

Record AgentRelease := {
  r_name : string;
  r_revision : string;
  prompt : string;
  model : ModelEndpoint;
  allowed_tools : list string;
  protected : bool;
}.

Record Trace := {
  trace_id : string;
  agent : string;
  t_revision : string;
  model_revision : string;
  t_status : string;
  latency_ms : float;
  prompt_digest : string;
  input_digest : string;
  t_reasons : list string;
}.

Record reply := { y_trace_id : string; y_status : string; response : string }.

Section runtime.
(** The model client and the guardrail, [None] when it is not configured. *)
Context {W : Type} (generate : ModelEndpoint -> string -> string -> M W string).
Context (guardrail : option (string -> M W GuardrailResult)).

Record runtime := { traces : list Trace; world : W }.
Definition on_world {A} (m : M W A) : M runtime A :=
  zoom_M world (fun w r => {| traces := r.(traces); world := w |}) m.

(** [AgentRuntime._digest] *)
Definition _digest (text : string) : string := sha256_digest text.

(** [AgentRuntime._check] *)
Definition _check (release : AgentRelease) (text : string) : M runtime GuardrailResult :=
  match guardrail with
  | None => if release.(protected)
            then raise_M GuardrailUnavailable "protected agent requires an available guardrail"
            else mret_M {| allowed := true; safe_text := text; reasons := [] |}
  | Some g => on_world (g text)
  end.

(** The body of the [try]: status, reasons and text of the reply. *)
Definition guarded (release : AgentRelease) (user_input : string) : M runtime (string * list string * string) :=
  let! inbound := _check release user_input in
  if negb inbound.(allowed) then mret_M ("blocked_input", inbound.(reasons), inbound.(safe_text)) else
  let! answer := on_world (generate release.(model) release.(prompt) inbound.(safe_text)) in
  let! outbound := _check release answer in
  if negb outbound.(allowed) then mret_M ("blocked_output", outbound.(reasons), outbound.(safe_text))
  else mret_M ("success", [], outbound.(safe_text)).

(** [AgentRuntime._invoke_guarded]; the [finally] clause appends the trace on
    every path.  [latency] is the measured time in milliseconds. *)
Definition _invoke_guarded (release : AgentRelease) (user_input id : string) (latency : float) : M runtime reply :=
  fun s =>
    let '(out, s') := guarded release user_input s in
    let status := match out with Ok (st, _, _) => st | Err _ => "error" end in
    let rs := match out with Ok (_, rs, _) => rs | Err _ => [] end in
    let trace := {| trace_id := id; agent := release.(r_name); t_revision := release.(r_revision);
      model_revision := release.(model).(revision); t_status := status; latency_ms := latency;
      prompt_digest := _digest release.(prompt); input_digest := _digest user_input; t_reasons := rs |} in
    (match out with
     | Ok (st, _, text) => Ok {| y_trace_id := id; y_status := st; response := text |}
     | Err e => Err e
     end, {| traces := s'.(traces) ++ [trace]; world := s'.(world) |}).

(** [AgentRuntime.invoke]: the telemetry span observes the call and changes
    nothing of it. *)
Definition invoke (release : AgentRelease) (user_input id : string) (latency : float) : M runtime reply :=
  _invoke_guarded release user_input id latency.
End runtime.

End Runtime.

Module FeedbackQueue.

Record Feedback := { f_trace_id : string; score : Z; category : string; comment : string; created_at : string }.
(** [Feedback.__post_init__] *)
Definition Feedback_post_init (f : Feedback) : res Feedback :=
  do? guard_raise (negb ((f.(score) =? -1) || (f.(score) =? 1))) ValueError "feedback score must be -1 or 1" in
  do? guard_raise (negb (str_in f.(category) ["correctness"; "safety"; "tool"; "retrieval"; "latency"; "other"]))
        ValueError "unsupported feedback category" in
  Ok f.

(** [FeedbackStore.add] and [FeedbackStore.evaluation_candidates] *)
Definition add (f : Feedback) : M (list Feedback) unit := modify_M (fun items => items ++ [f]).
Definition evaluation_candidates (items : list Feedback) : list Feedback :=
  List.filter (fun f => f.(score) <? 0) items.

End FeedbackQueue.

Module Api.
Import Models Policy Runtime FeedbackQueue.

Section api.
Context {W : Type} (generate : ModelEndpoint -> string -> string -> M W string).
Context (guardrail : option (string -> M W GuardrailResult)) (release : AgentRelease).

Record service := { rt : runtime (W := W); feedback : list Feedback; requests_total : counter }.
Definition on_runtime {A} (m : M (runtime (W := W)) A) : M service A :=
  zoom_M rt (fun r s => {| rt := r; feedback := s.(feedback); requests_total := s.(requests_total) |}) m.
Definition on_feedback {A} (m : M (list Feedback) A) : M service A :=
  zoom_M feedback (fun f s => {| rt := s.(rt); feedback := f; requests_total := s.(requests_total) |}) m.
Definition count (labels : list string) : M service unit :=
  modify_M (fun s => {| rt := s.(rt); feedback := s.(feedback); requests_total := inc labels s.(requests_total) |}).

(** [class Invocation(BaseModel)] *)
Definition Invocation_valid (input : string) : bool := len_between 1 20000 input.

(** [invoke] *)
Definition invoke_handler (agent_name input id : string) (latency : float) : M service reply :=
  if negb (Invocation_valid input) then unprocessable else
  if negb (bool_decide (agent_name = release.(r_name))) then http_M 404 "agent release not found" else
  catch_M (
    let! result := on_runtime (Runtime.invoke generate guardrail release input id latency) in
    do! count [result.(y_status); agent_name] in
    mret_M result)
  [GuardrailUnavailable]
  (fun _ => do! count ["guardrail_unavailable"; agent_name] in
            http_M 503 "safety dependency unavailable").

(** [class FeedbackRequest(BaseModel)] and [submit_feedback] *)
Record FeedbackRequest := { q_trace_id : string; q_score : Z; q_category : string; q_comment : string }.
Definition FeedbackRequest_valid (q : FeedbackRequest) : bool := len_between 0 2000 q.(q_comment).
Definition submit_feedback (q : FeedbackRequest) (now : string) : M service json :=
  if negb (FeedbackRequest_valid q) then unprocessable else
  catch_M (
    let! f := lift_M (Feedback_post_init {| f_trace_id := q.(q_trace_id); score := q.(q_score);
      category := q.(q_category); comment := q.(q_comment); created_at := now |}) in
    do! on_feedback (add f) in
    mret_M (JObj [("status", JStr "queued_for_curation")]))
  [ValueError] (fun e => http_M 422 (str_exn e)).
End api.
End Api.

(** ** Lemmas *)

Module RuntimeFacts.
Import Models Policy Runtime.

Section facts.
Context {W : Type} (generate : ModelEndpoint -> string -> string -> M W string).
Context (guardrail : option (string -> M W GuardrailResult)).

Lemma check_traces release text s : (_check guardrail release text s).2.(traces) = s.(traces).
Proof.
  unfold _check. destruct guardrail as [g|]; [|by destruct (protected release)].
  unfold on_world, zoom_M. by destruct (g text (world s)).
Qed.

Lemma guarded_traces release text s : (guarded generate guardrail release text s).2.(traces) = s.(traces).
Proof.
  unfold guarded, mbind_M at 1. pose proof (check_traces release text s) as H1.
  destruct (_check guardrail release text s) as [[i|e] s1]; cbn [snd] in *; [|done].
  destruct (negb (allowed i)); [done|]. unfold mbind_M at 1, on_world, zoom_M.
  destruct (generate (model release) (prompt release) (safe_text i) (world s1)) as [[a|e] w]; [|done].
  unfold mbind_M. set (s2 := {| traces := traces s1; world := w |}).
  pose proof (check_traces release a s2) as H2. destruct (_check guardrail release a s2) as [[o|e] s3]; cbn [snd] in *.
  - destruct (negb (allowed o)); cbn; by rewrite H2.
  - by rewrite H2.
Qed.

Lemma guarded_status release text s st rs t s' :
  guarded generate guardrail release text s = (Ok (st, rs, t), s') ->
  st = "blocked_input" \/ st = "blocked_output" \/ st = "success".
Proof.
  unfold guarded. intros H. apply bind_inv_ok in H as (i & s1 & _ & H).
  destruct (negb (allowed i)); [injection H; auto|]. apply bind_inv_ok in H as (a & s2 & _ & H).
  apply bind_inv_ok in H as (o & s3 & _ & H). destruct (negb (allowed o)); injection H; auto.
Qed.
End facts.
End RuntimeFacts.

(** ** Properties *)

Module AgentsTheorems.
Import Models Policy Runtime RuntimeFacts.

(** C29: the runtime fails closed and leaves exactly one trace per invocation.
    Whatever the model and the guardrail do, an invocation appends one trace,
    carrying the digests of prompt and input and the status of the reply, or
    "error" when it raises; without a guardrail a protected agent raises
    [GuardrailUnavailable] and the model is not called; an input the guardrail
    blocks is answered with the guardrail's text, the model not called; and a
    successful reply is text the guardrail allowed. *)
Theorem invocation_guarded : forall (W : Type) generate guardrail release input id latency (s : runtime (W := W)),
  let '(r, s') := invoke generate guardrail release input id latency s in
  (exists t, s'.(traces) = s.(traces) ++ [t] /\ t.(trace_id) = id /\
     t.(prompt_digest) = sha256_digest release.(prompt) /\ t.(input_digest) = sha256_digest input /\
     t.(t_status) = match r with Ok y => y.(y_status) | Err _ => "error" end) /\
  (guardrail = None -> release.(protected) = true ->
     r = raise GuardrailUnavailable "protected agent requires an available guardrail" /\ s'.(world) = s.(world)) /\
  (forall g v w, guardrail = Some g -> g input s.(world) = (Ok v, w) -> v.(allowed) = false ->
     r = Ok {| y_trace_id := id; y_status := "blocked_input"; response := v.(safe_text) |} /\ s'.(world) = w) /\
  (forall g y, guardrail = Some g -> r = Ok y -> y.(y_status) = "success" ->
     exists text w v w', g text w = (Ok v, w') /\ v.(allowed) = true /\ y.(response) = v.(safe_text)).
Proof.
  intros W generate guardrail release input id latency s. unfold invoke, _invoke_guarded.
  pose proof (guarded_traces generate guardrail release input s) as Ht.
  destruct (guarded generate guardrail release input s) as [out s'] eqn:E. cbn [snd] in Ht.
  split_and!.
  - eexists. cbn. rewrite Ht. split; [done|]. split_and!; try done. by destruct out as [[[st rs] t]|e].
  - intros -> Hp. unfold guarded, _check in E. rewrite Hp in E. rewrite bind_raise in E. by injection E as <- <-.
  - intros g v w -> Hg Hv. unfold guarded, mbind_M at 1, _check, on_world, zoom_M in E. rewrite Hg, Hv in E.
    by injection E as <- <-.
  - intros g y -> Hy Hs. destruct out as [[[st rs] t]|e]; [|done]. injection Hy as <-. cbn in Hs. subst st.
    unfold guarded in E. apply bind_inv_ok in E as (i & s1 & _ & E).
    destruct (negb (allowed i)); [done|]. apply bind_inv_ok in E as (a & s2 & _ & E).
    apply bind_inv_ok in E as (o & s3 & Ho & E). destruct (allowed o) eqn:Ea; [|done]. injection E as _ <- _.
    unfold _check, on_world, zoom_M in Ho. destruct (g a (world s2)) as [r w] eqn:Eg. injection Ho as -> _.
    by exists a, (world s2), o, w.
Qed.

(** Tools are denied by default.  A tool call runs its handler exactly when
    the tool is registered, the caller's role is allowed for it, every required
    argument is given and, for a tool with side effects, approval was explicit;
    any other call raises [PolicyDenied] with nothing done. *)
Theorem tools_deny_by_default : forall (W : Type) (tools : registry (W := W)) name arguments role approved w,
  (exists spec, dget name tools = Some spec /\ role ∈ spec.(allowed_roles) /\
     (forall a, a ∈ spec.(required_arguments) -> a ∈ dkeys arguments) /\
     (spec.(side_effecting) = true -> approved = true) /\
     Policy.invoke tools name arguments role approved w = spec.(handler) arguments w) \/
  (exists msg, Policy.invoke tools name arguments role approved w = (raise PolicyDenied msg, w)).
Proof.
  intros W tools name arguments role approved w. unfold Policy.invoke.
  destruct (dget name tools) as [spec|]; [|right; by eexists].
  destruct (str_in role (allowed_roles spec)) eqn:Er; cbn [negb]; [|right; by eexists]. apply str_in_spec in Er.
  destruct (set_diff_sorted _ _) eqn:Em; [|right; by eexists]. rewrite set_diff_sorted_nil in Em.
  destruct (side_effecting spec && negb approved) eqn:Es; [right; by eexists|].
  left. exists spec. split_and!; try done. intros Hse. rewrite Hse in Es. by destruct approved.
Qed.

(** Texts that carry a credential or a government identifier are blocked. *)
Example guardrail_ex : map (fun t => allowed (check t))
  ["my API_key = abc"; "ssn 123-45-6789."; "mypassword: x"; "secret :"; "1123-45-6789"; "PASSWORD=1"] =
  [false; false; true; true; true; false].
Proof. vm_compute. reflexivity. Qed.

End AgentsTheorems.
