(* ===== verification/Pipelines.v ===== *)
(** * Evaluation, feature, training and event contracts

    [Evaluation] is platforms/evaluation (contracts.py, adapters.py,
    providers.py), [Features] platforms/features/contracts.py, [Training]
    platforms/training/spec.py and [Events] packages/contracts/events.py. *)

From Stdlib Require Import String Ascii ZArith Lia SpecFloat.
From stdpp Require Import base list strings.
From S2P Require Import Prelude PyStr PyDict PyFloat Hash Regex Json.

Module Evaluation.

Record EvaluationCase := {
  case_id : string;
  question : string;
  answer : string;
  contexts : list string;
  expected_answer : option string;
  expected_tools : list string;
}.

Record MetricResult := { m_name : string; score : float; threshold : float; reason : string }.
(** [0 <= x <= 1] *)
Definition in_unit (x : float) : bool := fleb (f_of_Z 0) x && fleb x (f_of_Z 1).
(** [MetricResult.__post_init__] and [MetricResult.passed] *)
Definition MetricResult_post_init (m : MetricResult) : res MetricResult :=
  do? guard_raise (negb (in_unit m.(score)) || negb (in_unit m.(threshold)))
        ValueError "evaluation scores and thresholds must be between 0 and 1" in
  Ok m.
Definition metric_passed (m : MetricResult) : bool := fgeb m.(score) m.(threshold).

Record EvaluationReport := {
  engine : string;
  metrics : list MetricResult;
  case_count : Z;
  metadata : dict string string;
}.
(** [EvaluationReport.passed] *)
Definition report_passed (r : EvaluationReport) : bool :=
  (0 <? r.(case_count)) && (match r.(metrics) with [] => false | _ => true end) && forallb metric_passed r.(metrics).

Section gate.
Context {W : Type}.
(** An [EvaluationEngine]. *)
Definition engine_type : Type := list EvaluationCase -> M W EvaluationReport.

Fixpoint map_M {A B} (f : A -> M W B) (l : list A) : M W (list B) :=
  match l with
  | [] => mret_M []
  | x :: l' => let! y := f x in let! ys := map_M f l' in mret_M (y :: ys)
  end.

(** [EvaluationGate.__init__] and [EvaluationGate.run] *)
Definition new_gate (engines : list engine_type) : res (list engine_type) :=
  match engines with [] => raise ValueError "at least one evaluation engine is required" | _ => Ok engines end.
Definition run_gate (engines : list engine_type) (cases : list EvaluationCase) : M W (list EvaluationReport) :=
  match cases with
  | [] => raise_M ValueError "evaluation dataset cannot be empty"
  | _ =>
      let! reports := map_M (fun e => e cases) engines in
      if negb (forallb report_passed reports) then
        raise_M ValueError ("evaluation gate failed: " +:+
          repr_list (map engine (List.filter (fun r => negb (report_passed r)) reports)))
      else mret_M reports
  end.

(** [CallableEvaluationAdapter.evaluate] *)
Definition adapter_evaluate (name : string) (runner : list EvaluationCase -> M W (dict string json))
    (thresholds : dict string float) (cases : list EvaluationCase) : M W EvaluationReport :=
  let! scores := runner cases in
  match set_diff_sorted (dkeys thresholds) (dkeys scores) with
  | _ :: _ as missing => raise_M ValueError (name +:+ " omitted required metrics: " +:+ repr_list missing)
  | [] =>
      let! ms := lift_M (map_res (fun '(metric, t) =>
          let? s := (match dget metric scores with Some v => float_of_json v | None => raise KeyError metric end) in
          MetricResult_post_init {| m_name := metric; score := s; threshold := t; reason := EmptyString |})
        (sort_obj thresholds)) in
      mret_M {| engine := name; metrics := ms; case_count := Z.of_nat (length cases); metadata := [] |}
  end.
(** [ragas_adapter] and [deepeval_adapter] *)
Definition ragas_adapter (runner : list EvaluationCase -> M W (dict string json)) : engine_type :=
  adapter_evaluate "ragas" runner
    [("answer_relevancy", fratio 8 10); ("context_precision", fratio 8 10); ("faithfulness", fratio 9 10)].
Definition deepeval_adapter (runner : list EvaluationCase -> M W (dict string json)) : engine_type :=
  adapter_evaluate "deepeval" runner
    [("answer_relevancy", fratio 8 10); ("faithfulness", fratio 9 10); ("tool_correctness", fratio 9 10)].

(** [run_ragas]: the Ragas library, over the samples of the cases, is [evaluate]. *)
Record SingleTurnSample := { user_input : string; r_response : string; retrieved_contexts : list string; reference : option string }.
Definition sample_of (c : EvaluationCase) : SingleTurnSample :=
  {| user_input := c.(question); r_response := c.(answer); retrieved_contexts := c.(contexts);
     reference := c.(expected_answer) |}.
Definition run_ragas (evaluate : list SingleTurnSample -> M W (dict string json)) (cases : list EvaluationCase) :
    M W (dict string float) :=
  let! result := evaluate (map sample_of cases) in
  let! kvs := lift_M (map_res (fun kv => let? f := float_of_json kv.2 in Ok (kv.1, f))
    (List.filter (fun kv => match kv.2 with JInt _ | JFloat _ | JBool _ => true | _ => false end) result)) in
  mret_M kvs.

(** [run_deepeval]: a metric is its class name and the score it measures on a
    case. *)
Definition removesuffix (p s : string) : string :=
  if endswith p s then slice_to (String.length s - String.length p) s else s.
Definition metric_key (class : string) : string := str_lower (removesuffix "Metric" class).
Definition run_deepeval (ms : list (string * (EvaluationCase -> M W float))) (cases : list EvaluationCase) :
    M W (dict string float) :=
  let! measured := map_M (fun '(class, measure) =>
      let! vs := map_M measure cases in mret_M (metric_key class, vs)) ms in
  let scores := fold_left (fun d kv => match kv.2 with [] => d | _ => dset kv.1 (default [] (dget kv.1 d) ++ kv.2) d end)
                  measured [] in
  lift_M (map_res (fun kv => let? v := fdiv (fsum kv.2) (f_of_Z (Z.of_nat (length kv.2))) in Ok (kv.1, v)) scores).
End gate.

End Evaluation.

Module Features.

Record FeatureDefinition := {
  name : string;
  dtype : string;
  owner : string;
  description : string;
  minimum : option float;
  maximum : option float;
  ttl_seconds : option Z;
}.

(** [value < bound] and [value > bound]; texts do not compare with numbers. *)
Definition below (v : json) (bound : float) : res bool :=
  match v with
  | JInt z => Ok (Z_lt_float z bound)
  | JBool b => Ok (Z_lt_float (if b then 1 else 0) bound)
  | JFloat f => Ok (fltb f bound)
  | _ => raise TypeError "'<' not supported"
  end.
Definition above (v : json) (bound : float) : res bool :=
  match v with
  | JInt z => Ok (float_lt_Z bound z)
  | JBool b => Ok (float_lt_Z bound (if b then 1 else 0))
  | JFloat f => Ok (fgtb f bound)
  | _ => raise TypeError "'>' not supported"
  end.

Definition has_type (dtype_ : string) (v : json) : bool :=
  if bool_decide (dtype_ = "float") then match v with JFloat _ | JInt _ => true | _ => false end
  else if bool_decide (dtype_ = "int") then match v with JInt _ => true | _ => false end
  else if bool_decide (dtype_ = "string") then match v with JStr _ => true | _ => false end
  else if bool_decide (dtype_ = "bool") then match v with JBool _ => true | _ => false end
  else false.

(** [FeatureDefinition.validate] *)
Definition validate_value (d : FeatureDefinition) (v : json) : res unit :=
  do? guard_raise (negb (has_type d.(dtype) v)) FeatureContractError (d.(name) +:+ " must be " +:+ d.(dtype)) in
  let? lo := (match d.(minimum) with Some m => below v m | None => Ok false end) in
  do? guard_raise lo FeatureContractError (d.(name) +:+ " below minimum") in
  let? hi := (match d.(maximum) with Some m => above v m | None => Ok false end) in
  guard_raise hi FeatureContractError (d.(name) +:+ " above maximum").

(** [FeatureRecord]; times in microseconds. *)
Record FeatureRecord := { entity_id : string; event_timestamp : Z; has_timezone : bool; values : dict string json }.
Definition FeatureRecord_post_init (now : Z) (r : FeatureRecord) : res FeatureRecord :=
  do? guard_raise (negb r.(has_timezone)) FeatureContractError "event_timestamp must be timezone aware" in
  do? guard_raise (r.(event_timestamp) >? now) FeatureContractError "event_timestamp cannot be in the future" in
  Ok r.

(** [FeatureService.__init__] and [FeatureService.validate] *)
Definition new_service (ds : list FeatureDefinition) : dict string FeatureDefinition :=
  dict_of (map (fun d => (d.(name), d)) ds).
Definition validate (service : dict string FeatureDefinition) (r : FeatureRecord) : res unit :=
  let unknown := set_diff_sorted (dkeys r.(values)) (dkeys service) in
  let missing := set_diff_sorted (dkeys service) (dkeys r.(values)) in
  do? guard_raise (match unknown, missing with [], [] => false | _, _ => true end) FeatureContractError
        ("feature mismatch unknown=" +:+ repr_list unknown +:+ " missing=" +:+ repr_list missing) in
  do? map_res (fun kv => match dget kv.1 service with
                         | Some d => validate_value d kv.2
                         | None => raise KeyError kv.1 end) r.(values) in
  Ok tt.

End Features.

Module Training.

Record ResourceSpec := { workers : Z; cpu_per_worker : Z; gpu_per_worker : Z; memory_gb_per_worker : Z }.
(** [ResourceSpec.__post_init__] *)
Definition ResourceSpec_post_init (r : ResourceSpec) : res ResourceSpec :=
  do? guard_raise ((r.(workers) <? 1) || (r.(workers) >? 256)) ValueError "workers must be between 1 and 256" in
  do? guard_raise ((r.(cpu_per_worker) <? 1) || (r.(memory_gb_per_worker) <? 1) || (r.(gpu_per_worker) <? 0))
        ValueError "invalid worker resources" in
  Ok r.

Record TrainingSpec := {
  run_id : string;
  image_digest : string;
  dataset_uri : string;
  dataset_digest : string;
  entrypoint : string;
  resources : ResourceSpec;
  environment : dict string string;
}.
(** [TrainingSpec.__post_init__] *)
Definition secret_name (key : string) : bool := endswith_any ["secret"; "password"; "token"; "key"] (str_lower key).
Definition TrainingSpec_post_init (s : TrainingSpec) : res TrainingSpec :=
  do? guard_raise (negb (startswith "sha256:" s.(image_digest)) || negb (startswith "sha256:" s.(dataset_digest)))
        ValueError "training image and dataset must be immutable sha256 digests" in
  do? guard_raise (existsb secret_name (dkeys s.(environment)))
        ValueError "secrets must use workload identity or secret references, not environment values" in
  Ok s.

(** [ray_job] *)
Definition ray_job (s : TrainingSpec) : json :=
  let worker_env := JArr (map (fun kv => JObj [("name", JStr kv.1); ("value", JStr kv.2)]) (sort_obj s.(environment))) in
  let image := JStr ("training-image@" +:+ s.(image_digest)) in
  let r := s.(resources) in
  let requests := [("cpu", JStr (str_Z r.(cpu_per_worker))); ("memory", JStr (str_Z r.(memory_gb_per_worker) +:+ "Gi"))] ++
    (if r.(gpu_per_worker) =? 0 then [] else [("nvidia.com/gpu", JStr (str_Z r.(gpu_per_worker)))]) in
  JObj [("apiVersion", JStr "ray.io/v1"); ("kind", JStr "RayJob");
    ("metadata", JObj [("name", JStr ("training-" +:+ s.(run_id)))]);
    ("spec", JObj [("entrypoint", JStr s.(entrypoint)); ("shutdownAfterJobFinishes", JBool true);
      ("rayClusterSpec", JObj [("rayVersion", JStr "2.49.0");
        ("headGroupSpec", JObj [("rayStartParams", JObj [("dashboard-host", JStr "0.0.0.0")]);
          ("template", JObj [("spec", JObj [("containers",
            JArr [JObj [("name", JStr "ray-head"); ("image", image); ("env", worker_env)]])])])]);
        ("workerGroupSpecs", JArr [JObj [("groupName", JStr "workers"); ("replicas", JInt r.(workers));
          ("minReplicas", JInt r.(workers)); ("maxReplicas", JInt r.(workers)); ("rayStartParams", JObj []);
          ("template", JObj [("spec", JObj [("containers",
            JArr [JObj [("name", JStr "ray-worker"); ("image", image); ("env", worker_env);
                        ("resources", JObj [("requests", JObj requests)])]])])])]])])])].

End Training.

Module Events.

Record FactoryEvent := {
  event_type : string;
  source : string;
  tenant : string;
  subject : string;
  data : dict string json;
  schema_version : string;
  event_id : string;
  trace_id : string;
  occurred_at : string;
  has_timezone : bool;
}.

(** [[a-z]+(?:\.[a-z0-9_-]+)+] and [[0-9a-f]{32}] *)
Definition event_type_re : re :=
  Cat (plus (Chr is_lower)) (plus (Cat (lit ".") (plus (Chr (fun c => is_lower_digit c || one_of "_-" c))))).

(** [FactoryEvent.__post_init__] *)
Definition FactoryEvent_post_init (e : FactoryEvent) : res FactoryEvent :=
  do? guard_raise (negb (fullmatch event_type_re e.(event_type)))
        ValueError "event_type must be a namespaced lowercase identifier" in
  do? guard_raise (negb (nonempty e.(source)) || negb (nonempty e.(tenant)) || negb (nonempty e.(subject)))
        ValueError "source, tenant and subject are required" in
  do? guard_raise (negb (is_hex_text 32 e.(trace_id)))
        ValueError "trace_id must contain 32 lowercase hexadecimal characters" in
  do? guard_raise (negb e.(has_timezone)) ValueError "occurred_at must be timezone aware" in
  Ok e.

(** [FactoryEvent.idempotency_key] *)
Definition idempotency_key (e : FactoryEvent) : string :=
  sha256_hex (dumps_canonical (JObj [("event_type", JStr e.(event_type)); ("source", JStr e.(source));
    ("tenant", JStr e.(tenant)); ("subject", JStr e.(subject)); ("data", JObj e.(data));
    ("schema_version", JStr e.(schema_version))])).

(** [FactoryEvent.envelope] *)
Definition envelope (e : FactoryEvent) : json :=
  JObj [("specversion", JStr "1.0"); ("id", JStr e.(event_id)); ("type", JStr e.(event_type));
    ("source", JStr e.(source)); ("subject", JStr e.(subject)); ("time", JStr e.(occurred_at));
    ("datacontenttype", JStr "application/json");
    ("dataschema", JStr ("openmodelops://contracts/" +:+ e.(event_type) +:+ "/" +:+ e.(schema_version)));
    ("tenant", JStr e.(tenant)); ("trace_id", JStr e.(trace_id));
    ("idempotency_key", JStr (idempotency_key e)); ("data", JObj e.(data))].

End Events.

(** ** Lemmas *)

Module PipelinesFacts.
Import Evaluation Features.

Lemma map_M_ok {W A B} (f : A -> M W B) l w ys w' :
  map_M f l w = (Ok ys, w') -> length ys = length l /\ forall y, y ∈ ys -> exists x w1 w2, x ∈ l /\ f x w1 = (Ok y, w2).
Proof.
  revert w ys. induction l as [|x l IH]; cbn; intros w ys H.
  - injection H as <- <-. split; [done|]. intros y Hy. by apply elem_of_nil in Hy.
  - apply bind_inv_ok in H as (y & w1 & Hy & H). apply bind_inv_ok in H as (ys' & w2 & Hys & H).
    injection H as <- <-. destruct (IH _ _ Hys) as [Hl Hin]. split; [cbn; by rewrite Hl|].
    intros z [->|Hz]%elem_of_cons.
    + exists x, w, w1. split; [by left|done].
    + destruct (Hin z Hz) as (x' & w3 & w4 & Hx & Hf). exists x', w3, w4. split; [by right|done].
Qed.

Lemma map_res_unit_ok {A} (f : A -> res unit) l :
  (exists us, map_res f l = Ok us) <-> forall x, x ∈ l -> f x = Ok tt.
Proof.
  induction l as [|x l IH]; cbn.
  - split; [|by exists []]. intros _ x Hx. by apply elem_of_nil in Hx.
  - unfold mbind, res_bind. split.
    + intros [us H]. destruct (f x) as [[]|] eqn:Ex; [|done]. destruct (map_res f l) as [us'|] eqn:El; [|done].
      intros y [->|Hy]%elem_of_cons; [done|]. apply (proj1 IH); [by exists us'|done].
    + intros H. rewrite (H x) by (by left). destruct (proj2 IH) as [us ->]; [intros y Hy; apply H; by right|]. eauto.
Qed.

(** The shape of a check: raise when the condition holds, go on otherwise. *)
Lemma guard_ok b c msg (k : res unit) : (do? guard_raise b c msg in k) = Ok tt <-> b = false /\ k = Ok tt.
Proof. destruct b; cbn; naive_solver. Qed.
Lemma bound_ok (x : res bool) c msg (k : res unit) :
  (let? b := x in do? guard_raise b c msg in k) = Ok tt <-> x = Ok false /\ k = Ok tt.
Proof. destruct x as [[]|]; cbn; naive_solver. Qed.
Lemma bound_last_ok (x : res bool) c msg : (let? b := x in guard_raise b c msg) = Ok tt <-> x = Ok false.
Proof. destruct x as [[]|]; cbn; naive_solver. Qed.
Lemma bound_iff (o : option float) (f : float -> res bool) :
  match o with Some m => f m | None => Ok false end = Ok false <-> forall m, o = Some m -> f m = Ok false.
Proof. destruct o; naive_solver. Qed.
End PipelinesFacts.

(** ** Properties *)

Module PipelinesTheorems.
Import Evaluation Features PipelinesFacts.

(** The evaluation gate lets nothing through by default.  When it returns,
    the dataset was not empty, every engine produced one report, and each
    report covers at least one case and at least one metric, all of them at
    or above their thresholds; a report that fails makes the gate raise. *)
Theorem gate_requires_every_report : forall (W : Type) (engines : list (engine_type (W := W))) cases w reports w',
  run_gate engines cases w = (Ok reports, w') ->
  cases <> [] /\ length reports = length engines /\
  forall r, r ∈ reports ->
    (exists e w1 w2, e ∈ engines /\ e cases w1 = (Ok r, w2)) /\ 0 < r.(case_count) /\ r.(metrics) <> [] /\
    forall m, m ∈ r.(metrics) -> fleb m.(threshold) m.(score) = true.
Proof.
  intros W engines cases w reports w' H. unfold run_gate in H.
  destruct cases as [|c cs]; [done|]. split; [done|].
  apply bind_inv_ok in H as (rs & w1 & Hm & H). destruct (forallb report_passed rs) eqn:Ep; [|done].
  injection H as <- <-. apply map_M_ok in Hm as [Hl Hin]. split; [done|]. intros r Hr.
  split; [by apply Hin|]. rewrite forallb_elem in Ep. specialize (Ep r Hr). unfold report_passed in Ep.
  apply andb_true_iff in Ep as [[Hc Hne]%andb_true_iff Hms]. split; [by apply Z.ltb_lt|].
  split; [by destruct (metrics r)|]. intros m Hm. rewrite forallb_elem in Hms. by apply Hms.
Qed.

Definition ex_runner (cases : list EvaluationCase) : M nat (dict string json) := fun w =>
  (Ok [("answer_relevancy", JFloat (fratio 9 10)); ("context_precision", JInt 1); ("faithfulness", JFloat (fratio 95 100))], S w).
Definition ex_case : EvaluationCase :=
  {| case_id := "c1"; question := "q"; answer := "a"; contexts := []; expected_answer := None; expected_tools := [] |}.

Lemma gate_requires_every_report_witness :
  exists reports w', run_gate [ragas_adapter ex_runner] [ex_case] 0%nat = (Ok reports, w') /\ length reports = 1%nat.
Proof.
  destruct (run_gate [ragas_adapter ex_runner] [ex_case] 0%nat) as [[reports|e] w'] eqn:E.
  - exists reports, w'. split; [reflexivity|].
    exact (proj1 (proj2 (gate_requires_every_report nat [ragas_adapter ex_runner] [ex_case] 0%nat reports w' E))).
  - exfalso. assert (is_ok (run_gate [ragas_adapter ex_runner] [ex_case] 0%nat).1 = true) as K by (vm_compute; reflexivity).
    rewrite E in K. discriminate K.
Defined.

(** A feature record is accepted exactly when it carries every defined
    feature and no other, each of the declared type and not out of its range. *)
Theorem feature_record_accepted_iff : forall ds r,
  validate (new_service ds) r = Ok tt <->
  (forall k, k ∈ dkeys r.(values) <-> k ∈ map name ds) /\
  (forall k v, (k, v) ∈ r.(values) -> exists d, dget k (new_service ds) = Some d /\
     has_type d.(dtype) v = true /\
     (forall m, d.(minimum) = Some m -> below v m = Ok false) /\
     (forall m, d.(maximum) = Some m -> above v m = Ok false)).
Proof.
  intros ds r. unfold validate.
  assert (forall k, k ∈ dkeys (new_service ds) <-> k ∈ map name ds) as Hk.
  { intros k. unfold new_service. rewrite dkeys_dict_of, map_map. done. }
  assert (forall d v, validate_value d v = Ok tt <-> has_type d.(dtype) v = true /\
     (forall m, d.(minimum) = Some m -> below v m = Ok false) /\
     (forall m, d.(maximum) = Some m -> above v m = Ok false)) as Hv.
  { intros d v. unfold validate_value. rewrite guard_ok, bound_ok, bound_last_ok, negb_false_iff, !bound_iff. done. }
  pose proof (set_diff_sorted_nil (dkeys (values r)) (dkeys (new_service ds))) as H1.
  pose proof (set_diff_sorted_nil (dkeys (new_service ds)) (dkeys (values r))) as H2.
  pose proof (map_res_unit_ok (fun kv => match dget kv.1 (new_service ds) with
    Some d => validate_value d kv.2 | None => raise KeyError kv.1 end) (values r)) as H3.
  assert ((forall x, x ∈ values r -> match dget x.1 (new_service ds) with Some d => validate_value d x.2 | None => raise KeyError x.1 end = Ok tt) <->
    (forall k v, (k, v) ∈ values r -> exists d, dget k (new_service ds) = Some d /\ has_type d.(dtype) v = true /\
     (forall m, d.(minimum) = Some m -> below v m = Ok false) /\ (forall m, d.(maximum) = Some m -> above v m = Ok false))) as H4.
  { setoid_rewrite <- Hv. split.
    - intros H k v Hin. specialize (H _ Hin). cbn in H. destruct (dget k (new_service ds)) as [d|]; [by exists d|done].
    - intros H [k v] Hin. destruct (H _ _ Hin) as (d & E & Hd). cbn. by rewrite E. }
  rewrite <- H4, <- H3. setoid_rewrite <- Hk.
  destruct (set_diff_sorted (dkeys (values r)) _), (set_diff_sorted (dkeys (new_service ds)) _); cbn [guard_raise mbind res_bind].
  - destruct (map_res _ (values r)) as [us|e]; split; try done.
    + intros _. split; [|by exists us]. intros k. split; [by apply H1|by apply H2].
    + by intros [_ [us ?]].
  - split; [done|]. intros [H _]. assert (s :: l = []) by (apply H2; intros; by apply H). done.
  - split; [done|]. intros [H _]. assert (s :: l = []) by (apply H1; intros; by apply H). done.
  - split; [done|]. intros [H _]. assert (s :: l = []) by (apply H1; intros; by apply H). done.
Qed.

Import Events.

(** The idempotency key of an event identifies its content and nothing of
    its delivery: a redelivery with a fresh identifier, trace and time, whose
    data lists the same fields in another order, has the same key, and the key
    is the one its envelope carries. *)
Theorem idempotency_key_canonical : forall e e',
  dwf e.(data) -> e.(data) ≡ₚ e'.(data) ->
  e.(event_type) = e'.(event_type) -> e.(source) = e'.(source) -> e.(tenant) = e'.(tenant) ->
  e.(subject) = e'.(subject) -> e.(schema_version) = e'.(schema_version) ->
  idempotency_key e = idempotency_key e' /\
  jget "idempotency_key" (envelope e') = Some (JStr (idempotency_key e)) /\
  is_hex_text 64 (idempotency_key e) = true.
Proof.
  intros e e' Hwf Hp Ht Hs Hn Hj Hv.
  assert (idempotency_key e = idempotency_key e') as Hk.
  { unfold idempotency_key. rewrite Ht, Hs, Hn, Hj, Hv. f_equal.
    pose proof (dumps_obj_perm _ _ Hwf Hp) as H. unfold dumps_canonical in H |- *.
    cbn [dumps_gen map fst snd] in H |- *. by rewrite H. }
  split; [done|]. split; [|apply sha256_hex_is_hex]. rewrite Hk. reflexivity.
Qed.

Definition ex_event (d : dict string json) (id trace : string) : FactoryEvent :=
  {| event_type := "release.created"; source := "factory"; tenant := "acme"; subject := "svc"; data := d;
     schema_version := "1.0"; event_id := id; trace_id := trace; occurred_at := "2026-01-01T00:00:00+00:00"; has_timezone := true |}.

Lemma idempotency_key_canonical_witness :
  idempotency_key (ex_event [("a", JInt 1); ("b", JStr "x")] "e1" "t1") =
  idempotency_key (ex_event [("b", JStr "x"); ("a", JInt 1)] "e2" "t2").
Proof.
  refine (proj1 (idempotency_key_canonical (ex_event [("a", JInt 1); ("b", JStr "x")] "e1" "t1")
    (ex_event [("b", JStr "x"); ("a", JInt 1)] "e2" "t2") _ _ eq_refl eq_refl eq_refl eq_refl eq_refl)).
  - solve_keys.
  - apply Permutation_swap.
Defined.

End PipelinesTheorems.
