(* ===== verification/Integrations.v ===== *)
(** * Integration outbox, dispatcher and ARIA intelligence (platforms/integrations)

    [Outbox] is the table of outbox.py, [Dispatcher] the delivery loop of
    dispatcher.py, [Aria] the signed intelligence receiver of
    aria_intelligence.py.  Times are microseconds since the epoch; the table's
    rows are in insertion order. *)

From Stdlib Require Import String Ascii ZArith Lia.
From stdpp Require Import base list strings.
From S2P Require Import Prelude PyStr PyDict PyFloat Hash Json.

Module Outbox.

Record OutboxMessage := {
  message_id : string;
  destination : string;
  idempotency_key : string;
  payload : json;
  status : string;
  attempts : Z;
  available_at : Z;
  last_error : string;
}.

Definition outbox : Type := list OutboxMessage.

Definition seconds (n : Z) : Z := n * 1000000.

(** The row whose key is taken, if any. *)
Definition find_key (key : string) (t : outbox) : option OutboxMessage :=
  List.find (fun r => bool_decide (r.(idempotency_key) = key)) t.

(** [insert(outbox_table)]: the primary key and the unique key are checked. *)
Definition insert_message (r : OutboxMessage) : M outbox unit :=
  let! t := get_M in
  if existsb (fun q => bool_decide (q.(message_id) = r.(message_id)) ||
                       bool_decide (q.(idempotency_key) = r.(idempotency_key))) t then
    raise_M IntegrityError "UNIQUE constraint failed"
  else put_M (t ++ [r]).

(** The row of a new message. *)
Definition new_message (fresh_id : string) (now : Z) (dest key : string) (doc : json) : OutboxMessage :=
  {| message_id := fresh_id; destination := dest; idempotency_key := key; payload := jsort doc; status := "pending";
     attempts := 0; available_at := now; last_error := EmptyString |}.
(** The first transaction of [enqueue]: the identifier under a key, if true. *)
Definition existing_id (key : string) (t : outbox) : option string :=
  match find_key key t with
  | Some r => if nonempty r.(message_id) then Some r.(message_id) else None
  | None => None
  end.
(** [IntegrationOutbox.enqueue] *)
Definition enqueue (fresh_id : string) (now : Z) (dest key : string) (doc : json) : M outbox string :=
  let! t := get_M in
  match existing_id key t with
  | Some id => mret_M id
  | None =>
      do! insert_message (new_message fresh_id now dest key doc) in
      mret_M fresh_id
  end.

(** [LIMIT n]; a negative limit is none. *)
Definition limit_to {A} (limit : Z) (l : list A) : list A :=
  if limit <? 0 then l else take (Z.to_nat limit) l.

Definition due (now : Z) (r : OutboxMessage) : bool :=
  bool_decide (r.(status) = "pending") && (r.(available_at) <=? now).

(** [IntegrationOutbox.pending] *)
Definition pending (now limit : Z) (t : outbox) : list OutboxMessage :=
  limit_to limit (isort (fun a b => a.(available_at) <=? b.(available_at)) (List.filter (due now) t)).

Definition update_row (id : string) (f : OutboxMessage -> OutboxMessage) (t : outbox) : outbox :=
  map (fun r => if bool_decide (r.(message_id) = id) then f r else r) t.

Definition as_delivered (r : OutboxMessage) : OutboxMessage :=
  {| message_id := r.(message_id); destination := r.(destination); idempotency_key := r.(idempotency_key);
     payload := r.(payload); status := "delivered"; attempts := r.(attempts);
     available_at := r.(available_at); last_error := r.(last_error) |}.
Definition as_failed (error : string) (n now : Z) (r : OutboxMessage) : OutboxMessage :=
  {| message_id := r.(message_id); destination := r.(destination); idempotency_key := r.(idempotency_key);
     payload := r.(payload); status := if n >=? 5 then "dead-letter" else "pending"; attempts := n;
     available_at := now + seconds (Z.min 300 (2 ^ n)); last_error := slice_to 256 error |}.

(** [IntegrationOutbox.delivered] and [IntegrationOutbox.failed] *)
Definition delivered (id : string) : M outbox unit := modify_M (update_row id as_delivered).
Definition failed (id error : string) (n now : Z) : M outbox unit :=
  modify_M (update_row id (as_failed error n now)).

End Outbox.

Module Dispatcher.
Import Outbox.

Record DispatchResult := { delivered_count : Z; failed_count : Z; dead_lettered : Z }.

Section dispatcher.
(** The delivery handlers, by destination: each may change the outside world
    [W] and raise. *)
Context {W : Type} (handlers : dict string (json -> string -> M W unit)).
(** The time at which the outcome of a message is recorded. *)
Context (clock : string -> Z).

Definition on_outbox {A} (m : M outbox A) : M (outbox * W) A := zoom_M fst (fun t s => (t, s.2)) m.
Definition on_world {A} (m : M W A) : M (outbox * W) A := zoom_M snd (fun w s => (s.1, w)) m.

Definition add_counts (d f x : Z) (r : DispatchResult) : DispatchResult :=
  {| delivered_count := r.(delivered_count) + d; failed_count := r.(failed_count) + f;
     dead_lettered := r.(dead_lettered) + x |}.

(** One turn of the loop: the counts it adds. *)
Definition dispatch (m : OutboxMessage) : M (outbox * W) (DispatchResult -> DispatchResult) :=
  match dget m.(destination) handlers with
  | None =>
      do! on_outbox (failed m.(message_id) "destination has no registered handler" 5 (clock m.(message_id))) in
      mret_M (add_counts 0 0 1)
  | Some handler =>
      catch_M (
        do! on_world (handler m.(payload) m.(idempotency_key)) in
        do! on_outbox (delivered m.(message_id)) in
        mret_M (add_counts 1 0 0))
      [RuntimeError; ValueError]
      (fun exc =>
        let n := m.(attempts) + 1 in
        do! on_outbox (failed m.(message_id) (exn_name exc) n (clock m.(message_id))) in
        mret_M (if n >=? 5 then add_counts 0 0 1 else add_counts 0 1 0))
  end.

Fixpoint dispatch_all (ms : list OutboxMessage) (acc : DispatchResult) : M (outbox * W) DispatchResult :=
  match ms with
  | [] => mret_M acc
  | m :: ms' => let! f := dispatch m in dispatch_all ms' (f acc)
  end.

(** [OutboxDispatcher.run_once] *)
Definition run_once (now limit : Z) : M (outbox * W) DispatchResult :=
  let! s := get_M in
  dispatch_all (pending now limit s.1) {| delivered_count := 0; failed_count := 0; dead_lettered := 0 |}.
End dispatcher.

(** [delivery_headers] *)
Definition delivery_headers (m : OutboxMessage) : dict string string :=
  [("Idempotency-Key", m.(idempotency_key)); ("X-OpenModelOps-Message-ID", m.(message_id))].

End Dispatcher.

Module Aria.

Record AriaIntelligenceVerifier := { secret : string; tolerance_seconds : Z }.

(** The signed message and its signature. *)
Definition message (timestamp nonce body : string) : string :=
  timestamp +:+ "." +:+ nonce +:+ "." +:+ body.
Definition expected_signature (v : AriaIntelligenceVerifier) (timestamp nonce body : string) : string :=
  "sha256=" +:+ hmac_hex v.(secret) (message timestamp nonce body).

(** [AriaIntelligenceVerifier.verify]; [now] is [int(time.time())]. *)
Definition verify (v : AriaIntelligenceVerifier) (now : Z) (body timestamp nonce signature : string) : res json :=
  if negb (nonempty v.(secret)) || negb (nonempty timestamp) || negb (nonempty nonce) || negb (nonempty signature) then
    raise IntelligenceVerificationError "signed ARIA headers are required"
  else match int_of_str timestamp with
  | None => raise IntelligenceVerificationError "invalid ARIA timestamp"
  | Some observed =>
    if Z.abs (now - observed) >? v.(tolerance_seconds) then
      raise IntelligenceVerificationError "ARIA message is outside the replay window"
    else if negb (bool_decide (expected_signature v timestamp nonce body = signature)) then
      raise IntelligenceVerificationError "ARIA signature verification failed"
    else match loads body with
    | None => raise IntelligenceVerificationError "ARIA payload is not valid JSON"
    | Some (JObj kvs) =>
        let payload := JObj kvs in
        if negb (jeq_str (jget "source" payload) "aria") ||
           negb (jeq_str (jget "schema_version" payload) "1.0") ||
           negb (truthy_opt (jget "signal_id" payload)) then
          raise IntelligenceVerificationError "unsupported ARIA intelligence contract"
        else Ok payload
    | Some _ => raise OtherError "object has no attribute 'get'"
    end
  end.

(** A row of [aria_incident_evidence]. *)
Record evidence_row := { signal_id : string; nonce : string; received_at : string; payload : json }.
Definition evidence_table : Type := list evidence_row.

(** The text SQLite stores for a bound value of a string column. *)
Definition column_text (j : json) : res string :=
  match j with
  | JStr s => Ok s
  | JInt z => Ok (str_Z z)
  | JBool b => Ok (if b then "1" else "0")
  | JFloat f => Ok (repr_float f)
  | _ => raise OtherError "type is not supported"
  end.

(** [AriaIntelligenceStore.record] *)
Definition record (payload_ : json) (nonce_ received_at_ : string) : M evidence_table unit :=
  let! sid := lift_M (let? j := jfield "signal_id" payload_ in column_text j) in
  let! t := get_M in
  if existsb (fun r => bool_decide (r.(signal_id) = sid) || bool_decide (r.(nonce) = nonce_)) t then
    raise_M IntelligenceVerificationError "ARIA signal or nonce was already accepted"
  else put_M (t ++ [{| signal_id := sid; nonce := nonce_; received_at := received_at_; payload := jsort payload_ |}]).

Definition severity_rank : dict string Z := [("low", 1); ("medium", 2); ("high", 3); ("critical", 4)].
(** [severity_rank.get(item.get("severity", "low"), 0)] *)
Definition rank_of (item : json) : res Z :=
  match default (JStr "low") (jget "severity" item) with
  | JStr s => Ok (default 0 (dget s severity_rank))
  | JArr _ | JObj _ => raise TypeError "unhashable type"
  | _ => Ok 0
  end.

Definition is_severe (item : json) : bool :=
  match jget "severity" item with Some (JStr s) => str_in s ["critical"; "high"] | _ => false end.

Record Scorecard := {
  signals : Z;
  critical_or_high : Z;
  highest_severity : option json;
  minimum_confidence : option float;
  release_gate_impact : string;
  automatic_promotion : bool;
}.

Definition matching (tenant workload_id : string) (t : evidence_table) : list json :=
  List.filter (fun p => jeq_str (jget "tenant" p) tenant && jeq_str (jget "workload_id" p) workload_id)
    (map payload t).

(** [AriaIntelligenceStore.scorecard] *)
Definition scorecard (tenant workload_id : string) (t : evidence_table) : res Scorecard :=
  let items := matching tenant workload_id t in
  let? ranked := map_res (fun i => let? r := rank_of i in Ok (i, r)) items in
  let highest := fst <$> max_by (fun a b => b.2 <? a.2) ranked in
  let? confidences := map_res (fun i => float_of_json (default (JInt 0) (jget "confidence" i))) items in
  Ok {| signals := Z.of_nat (length items);
        critical_or_high := Z.of_nat (length (List.filter is_severe items));
        highest_severity := highest ≫= jget "severity";
        minimum_confidence := match confidences with [] => None | _ => Some (fmin_list fzero confidences) end;
        release_gate_impact :=
          if match highest with Some h => is_severe h | None => false end then "fail-candidate" else "none";
        automatic_promotion := false |}.

End Aria.

(** ** Lemmas *)

Module OutboxFacts.
Import Outbox.

(** The constraints of the table, and retries stop at the fifth attempt. *)
Record valid (t : outbox) : Prop := {
  v_keys : NoDup (map idempotency_key t);
  v_ids : NoDup (map message_id t);
  v_named : forall r, r ∈ t -> nonempty r.(message_id) = true;
  v_attempts : forall r, r ∈ t -> r.(status) = "pending" -> 0 <= r.(attempts) < 5;
}.

Lemma insert_outcomes r t :
  ((exists q, q ∈ t /\ (q.(message_id) = r.(message_id) \/ q.(idempotency_key) = r.(idempotency_key))) /\
   insert_message r t = (raise IntegrityError "UNIQUE constraint failed", t)) \/
  (r.(message_id) ∉ map message_id t /\ r.(idempotency_key) ∉ map idempotency_key t /\
   insert_message r t = (Ok tt, t ++ [r])).
Proof.
  unfold insert_message. mred. destruct (existsb _ t) eqn:E.
  - left. split; [|done]. apply existsb_elem in E as (q & Hq & E).
    exists q. split; [done|]. apply orb_true_iff in E as [E|E]; apply bool_decide_eq_true in E; auto.
  - right. rewrite existsb_false in E. split_and!; [| |done];
      intros (q & Hq & Hin)%list_elem_of_fmap; specialize (E q Hin);
      apply orb_false_iff in E as [E1 E2]; apply bool_decide_eq_false in E1, E2; congruence.
Qed.

Lemma find_key_spec key t r : find_key key t = Some r -> r ∈ t /\ r.(idempotency_key) = key.
Proof.
  intros H. apply find_some in H as [H1 H2]. apply list_elem_of_In in H1. split; [done|].
  by apply bool_decide_eq_true in H2.
Qed.

Lemma find_key_None key t : find_key key t = None -> key ∉ map idempotency_key t.
Proof.
  intros H (r & -> & Hr)%list_elem_of_fmap. apply list_elem_of_In in Hr.
  apply (find_none _ _ H) in Hr. by apply bool_decide_eq_false in Hr.
Qed.

Lemma find_key_app key t r : key ∉ map idempotency_key t -> r.(idempotency_key) = key -> find_key key (t ++ [r]) = Some r.
Proof.
  intros Hk Hr. unfold find_key. induction t as [|q t IH]; cbn in *.
  - by rewrite bool_decide_eq_true_2.
  - apply not_elem_of_cons in Hk as [Hq Hk]. rewrite bool_decide_eq_false_2 by congruence. auto.
Qed.

Lemma valid_snoc r t :
  valid t -> r.(message_id) ∉ map message_id t -> r.(idempotency_key) ∉ map idempotency_key t ->
  nonempty r.(message_id) = true -> (r.(status) = "pending" -> 0 <= r.(attempts) < 5) -> valid (t ++ [r]).
Proof.
  intros [H1 H2 H3 H4] Hi Hk Hn Ha. split; rewrite ?map_app; [by apply NoDup_snoc..| |];
    intros q [Hq|Hq]%elem_of_app; eauto; apply list_elem_of_singleton in Hq as ->; auto.
Qed.

(** A key already in a valid table is answered with its message. *)
Lemma enqueue_known fresh now d k doc t r :
  find_key k t = Some r -> nonempty r.(message_id) = true ->
  enqueue fresh now d k doc t = (Ok r.(message_id), t).
Proof. intros H Hn. unfold enqueue, existing_id. mred. rewrite H, Hn. done. Qed.

Lemma elem_of_pending now limit t r : r ∈ pending now limit t -> r ∈ t /\ due now r = true.
Proof.
  unfold pending, limit_to. intros H.
  assert (r ∈ isort (fun a b => available_at a <=? available_at b) (List.filter (due now) t)) as Hr.
  { destruct (limit <? 0); [done|]. rewrite <- (take_drop (Z.to_nat limit)). apply elem_of_app. by left. }
  rewrite elem_of_isort, elem_of_filter_bool in Hr. tauto.
Qed.

Lemma pending_ids_NoDup now limit t : NoDup (map message_id t) -> NoDup (map message_id (pending now limit t)).
Proof.
  intros Hnd. unfold pending, limit_to.
  set (l := isort _ _). assert (NoDup (map message_id l)) as Hl.
  { unfold l. rewrite (Permutation_map message_id
      (isort_perm (fun a b => available_at a <=? available_at b) (List.filter (due now) t))).
    induction t as [|q t IH]; cbn in *; [done|]. apply NoDup_cons in Hnd as [Hq Hnd].
    destruct (due now q); cbn; [|auto]. apply NoDup_cons. split; [|auto].
    intros (r & Hr & Hin)%list_elem_of_fmap. apply elem_of_filter_bool in Hin as [_ Hin].
    apply Hq. rewrite Hr. by apply list_elem_of_fmap_2. }
  destruct (limit <? 0); [done|]. rewrite <- (take_drop (Z.to_nat limit) l), map_app in Hl.
  by apply NoDup_app in Hl as [Hl _].
Qed.

End OutboxFacts.

Module DispatcherFacts.
Import Outbox OutboxFacts Dispatcher.

(** What becomes of a selected message. *)
Inductive outcome := ODelivered | OFailed (error : string) (n now : Z).

Definition apply_outcome (o : outcome) (r : OutboxMessage) : OutboxMessage :=
  match o with ODelivered => as_delivered r | OFailed e n now => as_failed e n now r end.
Definition settle (outs : dict string outcome) (t : outbox) : outbox :=
  map (fun r => match dget r.(message_id) outs with Some o => apply_outcome o r | None => r end) t.

Definition is_delivered (o : string * outcome) : bool := match o.2 with ODelivered => true | _ => false end.
Definition is_dead (o : string * outcome) : bool := match o.2 with OFailed _ n _ => n >=? 5 | _ => false end.
Definition is_retry (o : string * outcome) : bool := match o.2 with OFailed _ n _ => negb (n >=? 5) | _ => false end.
Definition tally (f : string * outcome -> bool) (outs : list (string * outcome)) : Z :=
  Z.of_nat (length (List.filter f outs)).
Definition counts (outs : list (string * outcome)) (r : DispatchResult) : DispatchResult :=
  add_counts (tally is_delivered outs) (tally is_retry outs) (tally is_dead outs) r.

Lemma message_id_apply o r : (apply_outcome o r).(message_id) = r.(message_id).
Proof. by destruct o. Qed.
Lemma key_apply o r : (apply_outcome o r).(idempotency_key) = r.(idempotency_key).
Proof. by destruct o. Qed.

Lemma settle_nil t : settle [] t = t.
Proof. unfold settle. cbn. apply map_id. Qed.

Lemma settle_cons id o outs t :
  id ∉ dkeys outs -> settle outs (update_row id (apply_outcome o) t) = settle ((id, o) :: outs) t.
Proof.
  intros Hid. unfold settle, update_row. rewrite map_map. apply map_ext. intros r. cbn [dget].
  destruct (bool_decide_reflect (message_id r = id)) as [Hr|Hr].
  - rewrite message_id_apply, Hr, decide_True by done. by apply dget_None in Hid as ->.
  - by rewrite decide_False.
Qed.

Lemma counts_cons id o outs r : counts ((id, o) :: outs) r = counts outs (counts [(id, o)] r).
Proof.
  unfold counts, add_counts, tally. cbn. destruct o; cbn; [f_equal; lia|].
  destruct (n >=? 5); cbn; f_equal; lia.
Qed.

Lemma tally_total outs : tally is_delivered outs + tally is_retry outs + tally is_dead outs = Z.of_nat (length outs).
Proof.
  unfold tally. induction outs as [|[id o] outs IH]; [done|]. destruct o; cbn in *; [lia|].
  destruct (n >=? 5); cbn; lia.
Qed.

Section facts.
Context {W : Type} (handlers : dict string (json -> string -> M W unit)) (clock : string -> Z).

(** Handlers raise only the exceptions the dispatcher catches. *)
Definition contained : Prop := forall d h, dget d handlers = Some h ->
  forall p k w e w', h p k w = (Err e, w') -> catches [RuntimeError; ValueError] e = true.

Definition legit (m : OutboxMessage) (o : outcome) : Prop :=
  match o with
  | ODelivered => dmem m.(destination) handlers = true
  | OFailed e n now => now = clock m.(message_id) /\
      if dmem m.(destination) handlers then n = m.(attempts) + 1 else n = 5
  end.

Context (Hc : contained).

Lemma dispatch_outcome m t w : exists o w',
  dispatch handlers clock m (t, w) =
    (Ok (counts [(m.(message_id), o)]), (update_row m.(message_id) (apply_outcome o) t, w')) /\ legit m o.
Proof.
  unfold dispatch. destruct (dget (destination m) handlers) as [h|] eqn:Ed.
  2: { exists (OFailed "destination has no registered handler" 5 (clock (message_id m))), w.
       split; [done|]. unfold legit, dmem. by rewrite Ed. }
  destruct (h (payload m) (idempotency_key m) w) as [[u|e] w'] eqn:Eh.
  - exists ODelivered, w'. split; [|unfold legit, dmem; by rewrite Ed].
    unfold catch_M, mbind_M, on_world, zoom_M. cbn [fst snd]. rewrite Eh. done.
  - pose proof (Hc _ _ Ed _ _ _ _ _ Eh) as Hcat.
    exists (OFailed (exn_name e) (attempts m + 1) (clock (message_id m))), w'.
    split; [|unfold legit, dmem; by rewrite Ed].
    unfold catch_M, mbind_M, on_world, zoom_M. cbn [fst snd]. rewrite Eh. cbn [fst snd]. rewrite Hcat.
    unfold counts, tally, is_delivered, is_retry, is_dead. cbn. by destruct (attempts m + 1 >=? 5).
Qed.

Lemma dispatch_all_outcome ms acc t w : NoDup (map message_id ms) -> exists outs w',
  dispatch_all handlers clock ms acc (t, w) = (Ok (counts outs acc), (settle outs t, w')) /\
  Forall2 (fun m o => o.1 = m.(message_id) /\ legit m o.2) ms outs.
Proof.
  revert acc t w. induction ms as [|m ms IH]; intros acc t w Hnd; cbn [dispatch_all].
  - exists [], w. rewrite settle_nil. split; [|constructor]. unfold counts, add_counts, tally. cbn.
    destruct acc as [d f x]. unfold mret_M. cbn. by rewrite !Z.add_0_r.
  - cbn in Hnd. apply NoDup_cons in Hnd as [Hm Hnd].
    destruct (dispatch_outcome m t w) as (o & w1 & Hd & Hl). rewrite (bind_ok _ _ _ _ _ Hd).
    destruct (IH (counts [(message_id m, o)] acc) (update_row (message_id m) (apply_outcome o) t) w1 Hnd)
      as (outs & w2 & -> & Hf).
    exists ((message_id m, o) :: outs), w2. split; [|by constructor].
    rewrite <- counts_cons, settle_cons; [done|]. intros Hin. apply Hm.
    assert (dkeys outs = map message_id ms) as <-; [|done].
    clear -Hf. induction Hf as [|? ? ? ? [Hx _] _ IH]; [done|]. unfold dkeys in *. cbn [map]. by rewrite Hx, IH.
Qed.
End facts.

(** A row of the settled table: selected and given its outcome, or untouched. *)
Lemma settle_row {W} (handlers : dict string (json -> string -> M W unit)) clock t ms outs r :
  NoDup (map message_id t) -> (forall m, m ∈ ms -> m ∈ t) ->
  Forall2 (fun m o => o.1 = m.(message_id) /\ legit handlers clock m o.2) ms outs -> r ∈ t ->
  (exists o, r ∈ ms /\ dget r.(message_id) outs = Some o /\ legit handlers clock r o) \/
  (r ∉ ms /\ dget r.(message_id) outs = None).
Proof.
  intros Hnd Hms Hf Hr. destruct (dget (message_id r) outs) as [o|] eqn:Eo.
  - left. exists o. apply dget_elem, list_elem_of_lookup in Eo as [i Ho].
    destruct (Forall2_lookup_r _ _ _ _ _ Hf Ho) as (m & Hm & Hid & Hl). cbn in Hid, Hl.
    apply list_elem_of_lookup_2 in Hm. rewrite (NoDup_map_inj message_id t r m Hnd Hr (Hms m Hm) Hid). done.
  - right. split; [|done]. intros Hin. apply dget_None in Eo. apply Eo.
    assert (dkeys outs = map message_id ms) as ->; [|by apply list_elem_of_fmap_2].
    clear -Hf. induction Hf as [|? ? ? ? [Hx _] _ IH]; [done|]. unfold dkeys in *. cbn [map]. by rewrite Hx, IH.
Qed.

Lemma settle_valid {W} (handlers : dict string (json -> string -> M W unit)) clock t ms outs :
  valid t -> (forall m, m ∈ ms -> m ∈ t /\ m.(status) = "pending") ->
  Forall2 (fun m o => o.1 = m.(message_id) /\ legit handlers clock m o.2) ms outs -> valid (settle outs t).
Proof.
  intros [H1 H2 H3 H4] Hms Hf.
  assert (forall {B} (f : OutboxMessage -> B), (forall o r, f (apply_outcome o r) = f r) ->
    map f (settle outs t) = map f t) as Hsame.
  { intros B f Hfo. unfold settle. rewrite map_map. apply map_ext. intros r.
    destruct (dget (message_id r) outs); [apply Hfo|done]. }
  assert (forall r', r' ∈ settle outs t -> exists r, r ∈ t /\
    r' = match dget r.(message_id) outs with Some o => apply_outcome o r | None => r end) as Hrow.
  { intros r' (r & -> & Hr)%list_elem_of_fmap. eauto. }
  split.
  - by rewrite (Hsame _ _ key_apply).
  - by rewrite (Hsame _ _ message_id_apply).
  - intros r' (r & Hr & ->)%Hrow. destruct (dget (message_id r) outs); rewrite ?message_id_apply; auto.
  - intros r' (r & Hr & ->)%Hrow.
    destruct (settle_row handlers clock t ms outs r H2 (fun m Hm => proj1 (Hms m Hm)) Hf Hr) as [(o & Hm & -> & Hl)|[_ ->]]; [|auto].
    specialize (H4 r Hr (proj2 (Hms r Hm))).
    destruct o as [|e n now]; cbn [apply_outcome as_delivered as_failed status attempts]; [done|].
    destruct Hl as [_ Hn]. destruct (Z.geb_spec n 5); [done|]. intros _.
    destruct (dmem (destination r) handlers); lia.
Qed.

Definition no_counts : DispatchResult := {| delivered_count := 0; failed_count := 0; dead_lettered := 0 |}.
Lemma run_once_settles {W} (handlers : dict string (json -> string -> M W unit)) clock now limit t w :
  valid t -> contained handlers -> exists outs w',
  run_once handlers clock now limit (t, w) = (Ok (counts outs no_counts), (settle outs t, w')) /\
  Forall2 (fun m o => o.1 = m.(message_id) /\ legit handlers clock m o.2) (pending now limit t) outs /\
  valid (settle outs t).
Proof.
  intros Hv Hc. destruct (dispatch_all_outcome handlers clock Hc (pending now limit t) no_counts t w) as (outs & w' & Hd & Hf).
  { apply pending_ids_NoDup, Hv. }
  exists outs, w'. split; [unfold run_once; mred; exact Hd|]. split; [exact Hf|].
  eapply settle_valid; [done| |exact Hf]. intros m [Hm Hdue]%elem_of_pending. split; [done|].
  unfold due in Hdue. apply andb_true_iff in Hdue as [Hs _]. by apply bool_decide_eq_true in Hs.
Qed.

End DispatcherFacts.

Module AriaFacts.
Import Aria.

Lemma rank_severe i r : rank_of i = Ok r -> (is_severe i = true <-> 3 <= r).
Proof.
  unfold rank_of, is_severe. destruct (jget "severity" i) as [j|] eqn:E.
  - cbn [default]. destruct j as [|b|z|f|s|l|kvs]; intros [= <-]; try (split; [done|lia]).
    rewrite str_in_spec, !elem_of_cons, elem_of_nil. unfold severity_rank. cbn [dget].
    repeat case_decide; subst; cbn; split; try lia; try naive_solver.
  - intros [= <-]. split; [done|]. vm_compute. tauto.
Qed.

(** A payload whose severity is a text and whose confidence is a number. *)
Definition readable (i : json) : Prop :=
  (match jget "severity" i with Some (JStr _) | None => True | _ => False end) /\
  (match jget "confidence" i with Some (JInt z) => is_finite (f_of_Z z) = true | Some (JFloat _) | None => True | _ => False end).

Lemma readable_rank i : readable i -> exists r, rank_of i = Ok r.
Proof. intros [H _]. unfold rank_of. destruct (jget "severity" i) as [[]|]; try done; cbn; eauto. Qed.

Lemma readable_confidence i : readable i -> exists f, float_of_json (default (JInt 0) (jget "confidence" i)) = Ok f.
Proof.
  intros [_ H]. destruct (jget "confidence" i) as [[]|]; try done; cbn [default id float_of_json] in *.
  - rewrite H. eauto.
  - eauto.
  - change (is_finite (f_of_Z 0)) with true. eauto.
Qed.

Lemma map_res_total {A B} (f : A -> res B) l : (forall x, x ∈ l -> exists y, f x = Ok y) -> exists ys, map_res f l = Ok ys.
Proof.
  induction l as [|x l IH]; cbn; intros H; [eauto|].
  destruct (H x) as [y ->]; [by left|]. destruct IH as [ys ->]; [intros z Hz; apply H; by right|]. eauto.
Qed.

Lemma ranked_spec items ranked :
  map_res (fun i => let? r := rank_of i in Ok (i, r)) items = Ok ranked ->
  map fst ranked = items /\ forall p, p ∈ ranked -> rank_of p.1 = Ok p.2.
Proof.
  intros H%map_res_Forall2. induction H as [|i p items ranked Hip _ [IH1 IH2]]; cbn.
  - split; [done|]. intros p Hp. by apply elem_of_nil in Hp.
  - unfold mbind, res_bind in Hip. destruct (rank_of i) eqn:E; [|done]. injection Hip as <-. cbn. split; [by rewrite IH1|].
    intros p [->|Hp]%elem_of_cons; [done|auto].
Qed.

Lemma highest_severe items ranked :
  map_res (fun i => let? r := rank_of i in Ok (i, r)) items = Ok ranked ->
  match fst <$> max_by (fun a b => b.2 <? a.2) ranked with Some h => is_severe h | None => false end = true <->
  exists i, i ∈ items /\ is_severe i = true.
Proof.
  intros H%ranked_spec. destruct H as [<- Hr].
  destruct (max_by (fun a b => b.2 <? a.2) ranked) as [h|] eqn:E; cbn.
  - pose proof (max_by_elem _ _ _ E) as Hh. pose proof (Hr _ Hh) as Hrh. split.
    + intros Hs. exists h.1. split; [by apply list_elem_of_fmap_2|done].
    + intros (i & (p & -> & Hp)%list_elem_of_fmap & Hs). apply (rank_severe _ _ Hrh).
      apply (rank_severe _ _ (Hr _ Hp)) in Hs. pose proof (max_by_ge (fun p => p.2) _ _ _ E Hp). cbn in *. lia.
  - destruct ranked; [|done]. split; [done|]. intros (i & Hi & _). by apply elem_of_nil in Hi.
Qed.

Lemma record_outcomes p n at_ t :
  (exists e, record p n at_ t = (Err e, t)) \/
  (exists sid j, jget "signal_id" p = Some j /\ column_text j = Ok sid /\
     (forall r, r ∈ t -> r.(signal_id) <> sid /\ r.(nonce) <> n) /\
     record p n at_ t = (Ok tt, t ++ [{| signal_id := sid; nonce := n; received_at := at_; payload := jsort p |}])).
Proof.
  unfold record, jfield. destruct (jget "signal_id" p) as [j|]; [|left; by eexists].
  cbn [mbind res_bind]. destruct (column_text j) as [sid|e] eqn:Ec; [|left; by eexists]. mred.
  destruct (existsb _ t) eqn:E; [left; by eexists|]. right. exists sid, j. split_and!; try done.
  rewrite existsb_false in E. intros r Hr. specialize (E r Hr). apply orb_false_iff in E as [E1 E2].
  by apply bool_decide_eq_false in E1, E2.
Qed.

End AriaFacts.

(** ** Properties *)

Module IntegrationsTheorems.
Import Outbox OutboxFacts Dispatcher DispatcherFacts.

(** Enqueueing is idempotent.  On a valid outbox an enqueue returns a
    message carrying its key, adds at most that message, keeps every constraint
    of the table, and from then on every enqueue of the same key, whatever its
    destination and payload, returns the same message and changes nothing; a
    concurrent insert of the key that passed its lookup before is refused by
    the table. *)
Theorem enqueue_idempotent : forall t fresh now dest key doc id t',
  valid t -> nonempty fresh = true ->
  enqueue fresh now dest key doc t = (Ok id, t') ->
  valid t' /\
  (exists m, m ∈ t' /\ m.(message_id) = id /\ m.(idempotency_key) = key /\ (t' = t \/ t' = t ++ [m])) /\
  (forall fresh2 now2 dest2 doc2, enqueue fresh2 now2 dest2 key doc2 t' = (Ok id, t')) /\
  (forall m2, m2.(idempotency_key) = key -> exists msg, insert_message m2 t' = (raise IntegrityError msg, t')).
Proof.
  intros t fresh now dest key doc id t' Hv Hn H.
  assert (valid t' /\ exists m, find_key key t' = Some m /\ m.(message_id) = id /\ (t' = t \/ t' = t ++ [m])) as (Hv' & m & Hm & Hid & Ht).
  { unfold enqueue, existing_id in H. mred in H. destruct (find_key key t) as [r|] eqn:Ek.
    - pose proof (find_key_spec _ _ _ Ek) as [Hr Hk]. rewrite (v_named _ Hv _ Hr) in H.
      injection H as <- <-. split; [done|]. exists r. auto.
    - apply find_key_None in Ek as Hk.
      set (m := new_message fresh now dest key doc) in H.
      destruct (insert_outcomes m t) as [[_ E]|(Hi & _ & E)]; [by rewrite (bind_err _ _ _ _ _ E) in H|].
      rewrite (bind_ok _ _ _ _ _ E) in H. injection H as <- <-. split.
      + apply valid_snoc; auto. cbn. lia.
      + exists m. split_and!; [by apply find_key_app|done|by right]. }
  pose proof (find_key_spec _ _ _ Hm) as [Hin Hk]. split; [done|]. split; [by exists m|]. split.
  - intros. rewrite (enqueue_known _ _ _ _ _ _ _ Hm), Hid; [done|]. by apply (v_named _ Hv').
  - intros m2 Hk2. destruct (insert_outcomes m2 t') as [[_ ->]|(_ & Hno & _)]; [by eexists|].
    exfalso. apply Hno. rewrite Hk2, <- Hk. by apply list_elem_of_fmap_2.
Qed.

Lemma valid_nil : valid [].
Proof. split; [apply NoDup_nil_2..| |]; intros r Hr; by apply elem_of_nil in Hr. Qed.

Lemma enqueue_idempotent_witness :
  exists t', enqueue "m1" 0 "mlflow" "k1" JNull [] = (Ok "m1", t') /\
    enqueue "m2" 5 "aria" "k1" (JInt 3) t' = (Ok "m1", t').
Proof.
  exists (enqueue "m1" 0 "mlflow" "k1" JNull []).2.
  assert (enqueue "m1" 0 "mlflow" "k1" JNull [] = (Ok "m1", (enqueue "m1" 0 "mlflow" "k1" JNull []).2)) as H
    by (vm_compute; reflexivity).
  split; [exact H|].
  exact (proj1 (proj2 (proj2 (enqueue_idempotent [] "m1" 0 "mlflow" "k1" JNull "m1" _ valid_nil eq_refl H)))
    "m2" 5 "aria" (JInt 3)).
Defined.

(** One delivery round accounts for every due message.  With handlers that
    raise only what the dispatcher catches, [run_once] returns; each selected
    message is settled once as delivered or failed, the counts are those of the
    outcomes and add up to the messages selected, a missing handler
    dead-letters at once and a failing one increments the attempts; a retry is
    delayed by [min(300, 2^attempts)] seconds, the fifth attempt is terminal,
    rows not selected are untouched and the table stays valid. *)
Theorem run_once_accounting : forall (W : Type) (handlers : dict string (json -> string -> M W unit)) clock now limit t w,
  valid t -> contained handlers ->
  exists res outs w',
    run_once handlers clock now limit (t, w) = (Ok res, (settle outs t, w')) /\
    Forall2 (fun m o => o.1 = m.(message_id) /\ legit handlers clock m o.2) (pending now limit t) outs /\
    res.(delivered_count) = tally is_delivered outs /\ res.(dead_lettered) = tally is_dead outs /\
    res.(delivered_count) + res.(failed_count) + res.(dead_lettered) = Z.of_nat (length (pending now limit t)) /\
    valid (settle outs t) /\
    (forall r, r ∈ t -> r ∉ pending now limit t -> r ∈ settle outs t) /\
    (forall e n at_ r, (apply_outcome (OFailed e n at_) r).(status) = (if 5 <=? n then "dead-letter" else "pending") /\
       (apply_outcome (OFailed e n at_) r).(available_at) = at_ + Z.min 300 (2 ^ n) * 1000000).
Proof.
  intros W handlers clock now limit t w Hv Hc.
  destruct (run_once_settles handlers clock now limit t w Hv Hc) as (outs & w' & Hd & Hf & Hv').
  eexists _, outs, w'. split; [exact Hd|]. split; [exact Hf|]. cbn [counts no_counts add_counts delivered_count failed_count dead_lettered].
  pose proof (tally_total outs) as Ht. pose proof (Forall2_length _ _ _ Hf) as Hlen.
  split; [done|]. split; [done|]. split; [lia|]. split; [done|split].
  - intros r Hr Hn. unfold settle. apply list_elem_of_fmap. exists r. split; [|done].
    destruct (settle_row handlers clock t (pending now limit t) outs r (v_ids _ Hv)
      (fun m Hm => proj1 (elem_of_pending _ _ _ _ Hm)) Hf Hr) as [(o & Hin & _)|[_ ->]]; [by destruct Hn|done].
  - intros e n at_ r. cbn. by rewrite Z.geb_leb.
Qed.

Definition ex_handlers : dict string (json -> string -> M nat unit) :=
  [("ok", fun _ _ w => (Ok tt, S w)); ("down", fun _ _ w => (raise RuntimeError "down", w))].
Definition ex_outbox : outbox :=
  snd ((do! enqueue "m1" 0 "ok" "k1" JNull in do! enqueue "m2" 0 "down" "k2" JNull in
        enqueue "m3" 0 "gone" "k3" JNull) []).

Lemma ex_outbox_valid : valid ex_outbox.
Proof.
  split; [apply (bool_decide_unpack _); vm_compute; exact I..| |];
    let l := eval vm_compute in ex_outbox in change ex_outbox with l;
    intros r Hr; rewrite !elem_of_cons, elem_of_nil in Hr;
    destruct Hr as [->|[->|[->|[]]]]; cbn; (done || lia).
Qed.
Lemma ex_handlers_contained : contained ex_handlers.
Proof.
  intros d h Hd p k w e w' He. apply dget_elem in Hd. unfold ex_handlers in Hd.
  rewrite !elem_of_cons, elem_of_nil in Hd.
  destruct Hd as [[= -> ->]|[[= -> ->]|[]]]; [discriminate He|]. injection He as <- _. reflexivity.
Qed.

Lemma run_once_accounting_witness :
  exists res outs w', run_once ex_handlers (fun _ => 10) 5 100 (ex_outbox, O) = (Ok res, (settle outs ex_outbox, w')) /\
    res = {| delivered_count := 1; failed_count := 1; dead_lettered := 1 |}.
Proof.
  destruct (run_once_accounting nat ex_handlers (fun _ => 10) 5 100 ex_outbox O ex_outbox_valid ex_handlers_contained)
    as (res & outs & w' & H & _).
  exists res, outs, w'. split; [exact H|].
  assert ((run_once ex_handlers (fun _ => 10) 5 100 (ex_outbox, O)).1 = Ok {| delivered_count := 1; failed_count := 1; dead_lettered := 1 |}) as E
    by (vm_compute; reflexivity).
  rewrite H in E. injection E as ->. reflexivity.
Defined.

Import Aria AriaFacts.

(** An ARIA message is accepted exactly when a secret is configured, its
    headers are present, its timestamp is an integer within the replay window,
    its signature is the HMAC-SHA256 of timestamp, nonce and body under the
    secret, and its body is a JSON object of the supported contract; the value
    returned is that object, and every refusal of an object raises
    [IntelligenceVerificationError]. *)
Theorem aria_accepts_iff : forall v now body timestamp nonce signature payload,
  (verify v now body timestamp nonce signature = Ok payload <->
    v.(secret) <> EmptyString /\ timestamp <> EmptyString /\ nonce <> EmptyString /\ signature <> EmptyString /\
    (exists observed, int_of_str timestamp = Some observed /\ Z.abs (now - observed) <= v.(tolerance_seconds)) /\
    signature = "sha256=" +:+ hmac_hex v.(secret) (timestamp +:+ "." +:+ nonce +:+ "." +:+ body) /\
    loads body = Some payload /\ (exists kvs, payload = JObj kvs) /\
    jeq_str (jget "source" payload) "aria" = true /\ jeq_str (jget "schema_version" payload) "1.0" = true /\
    truthy_opt (jget "signal_id" payload) = true) /\
  (forall e, verify v now body timestamp nonce signature = Err e ->
    match loads body with Some (JObj _) | None => exists msg, e = Exn IntelligenceVerificationError msg | _ => True end).
Proof.
  intros v now body ts n sig payload. unfold verify.
  assert (forall s : string, nonempty s = true <-> s <> EmptyString) as Hne by (intros []; done).
  destruct (nonempty (secret v)) eqn:E1, (nonempty ts) eqn:E2, (nonempty n) eqn:E3, (nonempty sig) eqn:E4; cbn [negb orb];
    try (split; [split; [done|]; rewrite <- !Hne; intuition congruence|intros e [= <-]; destruct (loads body) as [[]|]; eauto]).
  rewrite !Hne in E1, E2, E3, E4.
  destruct (int_of_str ts) as [o|]; [|split; [split; [done|]; naive_solver|intros e [= <-]; destruct (loads body) as [[]|]; eauto]].
  destruct (Z.gtb_spec (Z.abs (now - o)) (tolerance_seconds v)) as [Hw|Hw].
  { split; [split; [done|]|intros e [= <-]; destruct (loads body) as [[]|]; eauto].
    intros (_ & _ & _ & _ & (o' & [= <-] & Ho) & _). lia. }
  unfold expected_signature, message.
  destruct (bool_decide_reflect ("sha256=" +:+ hmac_hex (secret v) (ts +:+ "." +:+ n +:+ "." +:+ body) = sig)) as [Hs|Hs]; cbn [negb].
  2: { split; [split; [done|]; naive_solver|intros e [= <-]; destruct (loads body) as [[]|]; eauto]. }
  destruct (loads body) as [j|]; [|split; [split; [done|]; naive_solver|intros e [= <-]; eauto]].
  destruct j as [|b|z|f|s|l|kvs]; try (split; [split; [done|]; naive_solver|done]).
  destruct (jeq_str (jget "source" (JObj kvs)) "aria") eqn:J1, (jeq_str (jget "schema_version" (JObj kvs)) "1.0") eqn:J2,
    (truthy_opt (jget "signal_id" (JObj kvs))) eqn:J3; cbn [negb orb];
    try (split; [split; [done|]; naive_solver congruence|intros e [= <-]; eauto]).
  split; [|done]. split.
  - intros [= <-]. split_and!; try done; eauto with lia.
  - by intros (_ & _ & _ & _ & _ & _ & [= ->] & _).
Qed.

(** Accepted evidence cannot be replayed and drives the release gate.
    Recording appends one row; recording the same nonce or the same signal
    again raises and leaves the evidence as it was.  Over readable payloads the
    scorecard of a workload is defined, counts its matching signals, asks to
    fail the candidate exactly when one of them is of high or critical
    severity, and never promotes automatically. *)
Theorem aria_evidence : forall t t' p n at_ tenant workload,
  record p n at_ t = (Ok tt, t') ->
  (exists row, t' = t ++ [row] /\ row.(payload) = jsort p /\ row.(nonce) = n) /\
  (forall p2 n2 at2, n2 = n \/ jget "signal_id" p2 = jget "signal_id" p ->
     exists e, record p2 n2 at2 t' = (Err e, t')) /\
  ((forall i, i ∈ matching tenant workload t' -> readable i) ->
   exists s, scorecard tenant workload t' = Ok s /\
     s.(signals) = Z.of_nat (length (matching tenant workload t')) /\
     (s.(release_gate_impact) = "fail-candidate" <->
        exists i, i ∈ matching tenant workload t' /\ is_severe i = true) /\
     s.(automatic_promotion) = false).
Proof.
  intros t t' p n at_ tenant workload H. split; [|split].
  - destruct (record_outcomes p n at_ t) as [[e E]|(sid & j & _ & _ & _ & E)]; rewrite E in H; [done|].
    injection H as <-. by eexists.
  - intros p2 n2 at2 Hrep. destruct (record_outcomes p2 n2 at2 t') as [[e E]|(sid2 & j2 & Hj2 & Hc2 & Hfresh & _)]; [eauto|].
    destruct (record_outcomes p n at_ t) as [[e E]|(sid & j & Hj & Hc & _ & E)]; rewrite E in H; [done|].
    injection H as <-. exfalso.
    destruct (Hfresh {| signal_id := sid; nonce := n; received_at := at_; payload := jsort p |}) as [H1 H2].
    { apply elem_of_app. right. by left. }
    destruct Hrep as [->|Hs]; [by apply H2|]. apply H1. cbn. congruence.
  - intros Hr. unfold scorecard.
    destruct (map_res_total (fun i => let? r := rank_of i in Ok (i, r)) (matching tenant workload t')) as [ranked Hk].
    { intros i Hi. destruct (readable_rank i (Hr i Hi)) as [r ->]. cbn. eauto. }
    destruct (map_res_total (fun i => float_of_json (default (JInt 0) (jget "confidence" i))) (matching tenant workload t')) as [cs Hcs].
    { intros i Hi. apply readable_confidence, Hr, Hi. }
    rewrite Hk. cbn [mbind res_bind]. rewrite Hcs. cbn [mbind res_bind]. eexists. split; [done|].
    cbn [signals release_gate_impact automatic_promotion]. split; [done|]. split; [|done].
    rewrite <- (highest_severe _ _ Hk). destruct (match _ with Some h => is_severe h | None => false end); done.
Qed.

Lemma aria_evidence_witness :
  let p := JObj [("signal_id", JStr "s1"); ("tenant", JStr "t"); ("workload_id", JStr "w"); ("severity", JStr "high"); ("confidence", JInt 1)] in
  exists t', record p "n1" "now" [] = (Ok tt, t') /\ (exists e, record (JObj [("signal_id", JStr "s2")]) "n1" "now" t' = (Err e, t')) /\
    exists s, scorecard "t" "w" t' = Ok s /\ s.(automatic_promotion) = false.
Proof.
  intros p. exists (record p "n1" "now" []).2.
  assert (record p "n1" "now" [] = (Ok tt, (record p "n1" "now" []).2)) as H by (vm_compute; reflexivity).
  destruct (aria_evidence [] _ p "n1" "now" "t" "w" H) as (_ & H1 & H2).
  split; [exact H|]. split; [apply H1; left; reflexivity|].
  destruct H2 as (s & Hs & _ & _ & Ha); [|exists s; split; [exact Hs|exact Ha]].
  intros i Hi. vm_compute in Hi. apply list_elem_of_singleton in Hi as ->. split; vm_compute; exact I || reflexivity.
Defined.

End IntegrationsTheorems.
