(* ===== verification/Delivery.v ===== *)
(** * Delivery of the outbox over many rounds

    [Integrations] says what one enqueue and one round of the dispatcher do.
    [Rounds] is a sequence of rounds, as a worker that polls the table makes
    them: the outbox drains, nothing being assumed of the handlers but that they
    raise only what the dispatcher catches.  [Interleaving] is the step relation
    of the single transactions of any number of callers and dispatchers: a key is
    enqueued once. *)

From Stdlib Require Import String ZArith Lia.
From stdpp Require Import base list strings relations.
From S2P Require Import Prelude PyStr PyDict Json Integrations.

Module Rounds.
Import Outbox OutboxFacts Dispatcher DispatcherFacts.

(** One round: when the table is polled, how many messages are taken and when
    the outcome of each is recorded. *)
Record round := { polled_at : Z; batch : Z; recorded_at : string -> Z }.

Section rounds.
Context {W : Type} (handlers : dict string (json -> string -> M W unit)).

Fixpoint rounds (rs : list round) : M (outbox * W) (list DispatchResult) :=
  match rs with
  | [] => mret_M []
  | r :: rs' =>
      let! x := run_once handlers r.(recorded_at) r.(polled_at) r.(batch) in
      let! xs := rounds rs' in
      mret_M (x :: xs)
  end.
End rounds.

(** Each round takes something and begins at least 16 seconds, the longest
    delay of a retry, after the outcomes of the previous one; the first begins
    after [ready]. *)
Fixpoint spaced (ready : Z) (rs : list round) : Prop :=
  match rs with
  | [] => True
  | r :: rs' => ready <= r.(polled_at) /\ r.(batch) <> 0 /\ exists ready',
      r.(polled_at) <= ready' /\ (forall id, r.(recorded_at) id + seconds 16 <= ready') /\ spaced ready' rs'
  end.

(** A round that takes every message of the table. *)
Definition whole (t : outbox) (r : round) : bool := (r.(batch) <? 0) || (Z.of_nat (length t) <=? r.(batch)).

Definition is_pending (r : OutboxMessage) : bool := bool_decide (r.(status) = "pending").
(** The attempts a message has left, and those of the table. *)
Definition left_of (r : OutboxMessage) : nat := if is_pending r then Z.to_nat (5 - r.(attempts)) else 0.
Definition work (t : outbox) : nat := sum_list_with left_of t.

Definition ready_by (b : Z) (t : outbox) : Prop := forall r, r ∈ t -> is_pending r = true -> r.(available_at) <= b.

(** What may become of a row, known destinations being those of [handlers]. *)
Definition moved {W} (handlers : dict string (json -> string -> M W unit)) (r r' : OutboxMessage) : Prop :=
  r'.(message_id) = r.(message_id) /\ r'.(idempotency_key) = r.(idempotency_key) /\
  r'.(destination) = r.(destination) /\ r'.(payload) = r.(payload) /\
  (is_pending r = false -> r' = r) /\
  (is_pending r = true -> is_pending r' = true \/ r'.(status) = "dead-letter" \/
     (r'.(status) = "delivered" /\ dmem r.(destination) handlers = true)).

(** ** Lemmas *)

Section facts.
Context {W : Type} (handlers : dict string (json -> string -> M W unit)).

Lemma moved_refl r : moved handlers r r.
Proof. split_and!; auto. Qed.
Lemma moved_trans r1 r2 r3 : moved handlers r1 r2 -> moved handlers r2 r3 -> moved handlers r1 r3.
Proof.
  intros (A1 & A2 & A3 & A4 & A5 & A6) (B1 & B2 & B3 & B4 & B5 & B6). unfold moved. split_and!; try congruence.
  - intros H. rewrite B5; [auto|]. by rewrite (A5 H).
  - intros H. destruct (is_pending r2) eqn:E; [rewrite <- A3; auto|]. rewrite B5 by done.
    destruct (A6 H) as [H2|H2]; [congruence|by right].
Qed.

Lemma sum_le (f : OutboxMessage -> nat) g (t : outbox) : (forall r, r ∈ t -> (f (g r) <= f r)%nat) ->
  (sum_list_with f (map g t) <= sum_list_with f t)%nat.
Proof.
  induction t as [|r t IH]; intros H; cbn; [lia|]. pose proof (H r ltac:(by left)).
  assert (sum_list_with f (map g t) <= sum_list_with f t)%nat by (apply IH; intros; apply H; by right). lia.
Qed.
Lemma sum_lt (f : OutboxMessage -> nat) g (t : outbox) r0 : (forall r, r ∈ t -> (f (g r) <= f r)%nat) ->
  r0 ∈ t -> (f (g r0) < f r0)%nat -> (sum_list_with f (map g t) < sum_list_with f t)%nat.
Proof.
  intros H Hr0 Hlt. apply elem_of_Permutation in Hr0 as [t' Ht]. rewrite Ht. cbn.
  assert (sum_list_with f (map g t') <= sum_list_with f t')%nat; [|lia].
  apply sum_le. intros r Hr. apply H. rewrite Ht. by right.
Qed.
Lemma work_done t : valid t -> (work t = 0%nat <-> forall r, r ∈ t -> is_pending r = false).
Proof.
  intros Hv. assert (forall r, r ∈ t -> (left_of r = 0%nat <-> is_pending r = false)) as Hl.
  { intros r Hr. unfold left_of. destruct (is_pending r) eqn:E; [|done]. split; [|done].
    apply bool_decide_eq_true in E. pose proof (v_attempts _ Hv r Hr E). lia. }
  clear Hv. unfold work. induction t as [|r t IH]; cbn; [split; [intros _ q Hq; by apply elem_of_nil in Hq|done]|].
  assert (sum_list_with left_of t = 0%nat <-> (forall q, q ∈ t -> is_pending q = false)) as IH' by (apply IH; intros; apply Hl; by right).
  pose proof (Hl r ltac:(by left)) as Hr. split.
  - intros H q [->|Hq]%elem_of_cons; [apply Hr; lia|]. apply IH'; [lia|done].
  - intros H. assert (left_of r = 0%nat) by (apply Hr, H; by left).
    assert (sum_list_with left_of t = 0%nat) by (apply IH'; intros; apply H; by right). lia.
Qed.

(** What a poll selects when every pending message is due. *)
Lemma due_ready b now t r : ready_by b t -> b <= now -> r ∈ t -> due now r = is_pending r.
Proof.
  intros Hb Hn Hr. unfold due. destruct (bool_decide (status r = "pending")) eqn:E; unfold is_pending; rewrite E; [|done].
  specialize (Hb r Hr E). apply Z.leb_le. lia.
Qed.
Lemma pending_some b now limit t r : ready_by b t -> b <= now -> limit <> 0 -> r ∈ t -> is_pending r = true ->
  exists m, m ∈ pending now limit t.
Proof.
  intros Hb Hn Hl Hr Hp. unfold pending, limit_to. set (l := isort _ _).
  assert (r ∈ l) as Hin by (apply elem_of_isort, elem_of_filter_bool; by rewrite (due_ready b now t)).
  destruct (Z.ltb_spec limit 0); [by exists r|]. destruct l as [|m l]; [by apply elem_of_nil in Hin|].
  exists m. destruct (Z.to_nat limit) eqn:E; [lia|]. by left.
Qed.
Lemma pending_whole b now r0 t r : ready_by b t -> b <= now -> whole t r0 = true -> r ∈ t -> is_pending r = true ->
  r ∈ pending now r0.(batch) t.
Proof.
  intros Hb Hn Hw Hr Hp. unfold pending, limit_to. set (l := isort _ _).
  assert (r ∈ l) as Hin by (apply elem_of_isort, elem_of_filter_bool; by rewrite (due_ready b now t)).
  unfold whole in Hw. destruct (batch r0 <? 0); [done|]. apply Z.leb_le in Hw. rewrite take_ge; [done|].
  unfold l. rewrite length_isort. pose proof (List.filter_length_le (due now) t). lia.
Qed.

(** A selected message loses an attempt or is settled. *)
Lemma apply_left clock r o : is_pending r = true -> 0 <= r.(attempts) < 5 -> legit handlers clock r o ->
  (left_of (apply_outcome o r) < left_of r)%nat /\ moved handlers r (apply_outcome o r) /\
  (is_pending (apply_outcome o r) = true -> (apply_outcome o r).(available_at) <= clock r.(message_id) + seconds 16).
Proof.
  intros Hp Ha Hl. unfold left_of at 2. unfold moved. rewrite Hp.
  assert (is_pending (apply_outcome o r) = match o with OFailed _ n _ => negb (n >=? 5) | ODelivered => false end) as E
    by (unfold is_pending; destruct o as [|e n now]; cbn; [done|by destruct (n >=? 5)]).
  unfold left_of. rewrite E. destruct o as [|e n now]; cbn in *; [split; [lia|]; split_and!; by auto|].
  destruct Hl as [-> Hn]. assert (n = attempts r + 1 \/ n = 5) as Hn' by (destruct (dmem _ _); auto).
  destruct (Z.geb_spec n 5); cbn; (split; [lia|]); (split; [split_and!; by auto|]); [done|].
  intros _. assert (2 ^ n <= 2 ^ 4) by (apply Z.pow_le_mono_r; lia). unfold seconds in *. lia.
Qed.

(** One round when every pending message is due. *)
Lemma round_step t w r b ready : valid t -> contained handlers -> ready_by b t -> b <= r.(polled_at) -> r.(batch) <> 0 ->
  r.(polled_at) <= ready -> (forall id, r.(recorded_at) id + seconds 16 <= ready) ->
  exists x g w', run_once handlers r.(recorded_at) r.(polled_at) r.(batch) (t, w) = (Ok x, (map g t, w')) /\
    valid (map g t) /\ ready_by ready (map g t) /\ (forall m, m ∈ t -> moved handlers m (g m)) /\
    (work (map g t) <= work t - 1)%nat /\
    (whole t r = true -> forall m, m ∈ t -> (left_of (g m) <= left_of m - 1)%nat).
Proof.
  intros Hv Hc Hb Hpoll Hbatch Hr1 Hr2.
  destruct (run_once_settles handlers (recorded_at r) (polled_at r) (batch r) t w Hv Hc) as (outs & w' & Hrun & Hf & Hv').
  set (g := fun m => match dget m.(message_id) outs with Some o => apply_outcome o m | None => m end).
  assert (Hg : forall m, m ∈ t -> (m ∈ pending (polled_at r) (batch r) t /\ (left_of (g m) < left_of m)%nat /\ moved handlers m (g m) /\
      (is_pending (g m) = true -> (g m).(available_at) <= ready)) \/ (m ∉ pending (polled_at r) (batch r) t /\ g m = m)).
  { intros m Hm. destruct (settle_row handlers (recorded_at r) t _ outs m (v_ids _ Hv)
      (fun q Hq => proj1 (elem_of_pending _ _ _ _ Hq)) Hf Hm) as [(o & Hin & Ho & Hl)|[Hn Ho]]; unfold g; rewrite Ho; [left|by right].
    split; [done|]. pose proof (elem_of_pending _ _ _ _ Hin) as [_ Hdue]. rewrite (due_ready b _ t) in Hdue by done.
    assert (0 <= attempts m < 5) as Ha by (apply (v_attempts _ Hv m Hm); by apply bool_decide_eq_true in Hdue).
    destruct (apply_left _ m o Hdue Ha Hl) as (H1 & H2 & H3). split; [done|]. split; [done|]. intros Hp.
    specialize (H3 Hp). specialize (Hr2 (message_id m)). lia. }
  assert (Hle : forall m, m ∈ t -> (left_of (g m) <= left_of m)%nat) by (intros m Hm; destruct (Hg m Hm) as [(_ & H & _)|[_ ->]]; lia).
  exists (counts outs no_counts), g, w'. split; [exact Hrun|]. split; [exact Hv'|]. split; [|split; [|split]].
  - intros q (m & -> & Hm)%list_elem_of_fmap Hp. destruct (Hg m Hm) as [(_ & _ & _ & H)|[_ E]]; [auto|]. rewrite E in *.
    specialize (Hb m Hm Hp). lia.
  - intros m Hm. destruct (Hg m Hm) as [(_ & _ & H & _)|[_ ->]]; [done|apply moved_refl].
  - destruct (work t) eqn:E; [pose proof (sum_le left_of g t Hle); unfold work in *; lia|].
    assert (exists m, m ∈ t /\ is_pending m = true) as (m & Hm & Hp).
    { destruct (existsb is_pending t) eqn:Ex; [by apply existsb_elem in Ex as (m & ? & ?); exists m|].
      rewrite existsb_false in Ex. apply (work_done t Hv) in Ex. lia. }
    destruct (pending_some b (polled_at r) (batch r) t m Hb Hpoll Hbatch Hm Hp) as [q Hq].
    pose proof (elem_of_pending _ _ _ _ Hq) as [Hqt _]. destruct (Hg q Hqt) as [(_ & Hlt & _)|[Hn _]]; [|by destruct Hn].
    pose proof (sum_lt left_of g t q Hle Hqt Hlt). unfold work in *. lia.
  - intros Hw m Hm. destruct (Hg m Hm) as [(_ & H & _)|[Hn ->]]; [lia|]. unfold left_of. destruct (is_pending m) eqn:Hp; [|lia].
    destruct Hn. by eapply pending_whole.
Qed.

Lemma rounds_step rs : forall t w b, valid t -> contained handlers -> ready_by b t -> spaced b rs ->
  exists xs g w', rounds handlers rs (t, w) = (Ok xs, (map g t, w')) /\ valid (map g t) /\
    (forall m, m ∈ t -> moved handlers m (g m)) /\ (work (map g t) <= work t - length rs)%nat /\
    (forallb (whole t) rs = true -> forall m, m ∈ t -> (left_of (g m) <= left_of m - length rs)%nat).
Proof.
  induction rs as [|r rs IH]; intros t w b Hv Hc Hb Hs.
  - exists [], (fun m => m), w. rewrite map_id. split; [done|]. split; [done|]. split; [intros; apply moved_refl|].
    cbn. split; [lia|]. intros; lia.
  - destruct Hs as (Hpoll & Hbatch & ready & Hr1 & Hr2 & Hs).
    destruct (round_step t w r b ready Hv Hc Hb Hpoll Hbatch Hr1 Hr2) as (x & g & w1 & Hrun & Hv1 & Hb1 & Hm1 & Hw1 & Hl1).
    destruct (IH (map g t) w1 ready Hv1 Hc Hb1 Hs) as (xs & h & w2 & Hruns & Hv2 & Hm2 & Hw2 & Hl2).
    exists (x :: xs), (fun m => h (g m)), w2. rewrite map_map in *. split; [|split; [done|split; [|split]]].
    + cbn [rounds]. by rewrite (bind_ok _ _ _ _ _ Hrun), (bind_ok _ _ _ _ _ Hruns).
    + intros m Hm. eapply moved_trans; [by apply Hm1|]. by apply Hm2, list_elem_of_fmap_2.
    + cbn. lia.
    + cbn [forallb]. intros [Hw Hws]%andb_true_iff m Hm. cbn.
      assert (forallb (whole (map g t)) rs = true) as Hws' by (unfold whole in *; by rewrite length_map).
      specialize (Hl1 Hw m Hm). specialize (Hl2 Hws' (g m) ltac:(by apply list_elem_of_fmap_2)). lia.
Qed.

Lemma work_bound t : valid t -> (work t <= 5 * length (List.filter is_pending t))%nat.
Proof.
  intros Hv. assert (forall r, r ∈ t -> (left_of r <= if is_pending r then 5 else 0)%nat) as Hl.
  { intros r Hr. unfold left_of. destruct (is_pending r) eqn:E; [|lia].
    apply bool_decide_eq_true in E. pose proof (v_attempts _ Hv r Hr E). lia. }
  clear Hv. unfold work. induction t as [|r t IH]; cbn; [lia|]. pose proof (Hl r ltac:(by left)).
  assert (sum_list_with left_of t <= 5 * length (List.filter is_pending t))%nat by (apply IH; intros; apply Hl; by right).
  destruct (is_pending r); cbn; lia.
Qed.
End facts.
End Rounds.

Module Interleaving.
Import Outbox OutboxFacts Dispatcher DispatcherFacts Rounds.

(** The table and the requests in flight: the rows of the enqueues that found
    their key free and have still to insert, the messages the dispatchers have
    read and have still to deliver, and the answers given, a key with the
    identifier returned. *)
Record system := {
  table : outbox;
  waiting : list OutboxMessage;
  taken : list OutboxMessage;
  answered : list (string * string);
}.

(** Each transaction is a step: the two of an enqueue, the poll of a dispatcher
    and the delivery of one message.  Any number of callers and dispatchers,
    whose handlers and clocks may differ, take them in any order. *)
Inductive step (s : system) : system -> Prop :=
| step_found key id : existing_id key s.(table) = Some id ->
    step s {| table := s.(table); waiting := s.(waiting); taken := s.(taken); answered := (key, id) :: s.(answered) |}
| step_missed fresh now dest key doc : nonempty fresh = true -> existing_id key s.(table) = None ->
    step s {| table := s.(table); waiting := new_message fresh now dest key doc :: s.(waiting); taken := s.(taken);
              answered := s.(answered) |}
| step_inserted m w1 w2 t' : s.(waiting) = w1 ++ m :: w2 -> insert_message m s.(table) = (Ok tt, t') ->
    step s {| table := t'; waiting := w1 ++ w2; taken := s.(taken);
              answered := (m.(idempotency_key), m.(message_id)) :: s.(answered) |}
| step_refused m w1 w2 e t' : s.(waiting) = w1 ++ m :: w2 -> insert_message m s.(table) = (Err e, t') ->
    step s {| table := t'; waiting := w1 ++ w2; taken := s.(taken); answered := s.(answered) |}
| step_polled now limit :
    step s {| table := s.(table); waiting := s.(waiting); taken := pending now limit s.(table) ++ s.(taken);
              answered := s.(answered) |}
| step_dispatched W (handlers : dict string (json -> string -> M W unit)) clock m k1 k2 w x t' w' :
    s.(taken) = k1 ++ m :: k2 -> dispatch handlers clock m (s.(table), w) = (x, (t', w')) ->
    step s {| table := t'; waiting := s.(waiting); taken := k1 ++ k2; answered := s.(answered) |}.

Definition idle (t : outbox) : system := {| table := t; waiting := []; taken := []; answered := [] |}.

(** Two rows of one message. *)
Definition same_message (r r' : OutboxMessage) : Prop :=
  r'.(message_id) = r.(message_id) /\ r'.(idempotency_key) = r.(idempotency_key) /\
  r'.(destination) = r.(destination) /\ r'.(payload) = r.(payload).

Record inv (s : system) : Prop := {
  i_valid : valid s.(table);
  i_waiting : forall m, m ∈ s.(waiting) -> nonempty m.(message_id) = true /\ m.(status) = "pending" /\ m.(attempts) = 0;
  i_taken : forall m, m ∈ s.(taken) -> 0 <= m.(attempts) < 5;
  i_answered : forall key id, (key, id) ∈ s.(answered) ->
    exists r, r ∈ s.(table) /\ r.(idempotency_key) = key /\ r.(message_id) = id;
}.

(** ** Lemmas *)

(** What one delivery does to the table, whatever the handler does. *)
Lemma dispatch_table {W} (handlers : dict string (json -> string -> M W unit)) clock m t w x t' w' :
  dispatch handlers clock m (t, w) = (x, (t', w')) ->
  t' = t \/ exists o, t' = update_row m.(message_id) (apply_outcome o) t /\
    match o with ODelivered => True | OFailed _ n _ => n = m.(attempts) + 1 \/ n = 5 end.
Proof.
  unfold dispatch. destruct (dget (destination m) handlers) as [h|].
  2: { intros [= _ <- _]. right. exists (OFailed "destination has no registered handler" 5 (clock (message_id m))). auto. }
  unfold catch_M, mbind_M, on_world, zoom_M. cbn [fst snd].
  destruct (h (payload m) (idempotency_key m) w) as [[u|e] w1]; cbn [fst snd].
  - intros [= _ <- _]. right. by exists ODelivered.
  - destruct (catches _ e); cbn [fst snd]; [|intros [= _ <- _]; by left]. intros [= _ <- _]. right.
    exists (OFailed (exn_name e) (attempts m + 1) (clock (message_id m))). auto.
Qed.

Lemma update_row_same id o t : Forall2 same_message t (update_row id (apply_outcome o) t).
Proof.
  unfold update_row. induction t as [|r t IH]; cbn; constructor; [|done].
  case_bool_decide; [by destruct o|done].
Qed.
Lemma same_refl t : Forall2 same_message t t.
Proof. induction t; constructor; done. Qed.
Lemma same_keys t t' : Forall2 same_message t t' ->
  map idempotency_key t' = map idempotency_key t /\ map message_id t' = map message_id t.
Proof. induction 1 as [|r r' t t' (H1 & H2 & _) _ [IH1 IH2]]; cbn; [done|]. by rewrite H1, H2, IH1, IH2. Qed.
Lemma same_row t t' r : Forall2 same_message t t' -> r ∈ t -> exists r', r' ∈ t' /\ same_message r r'.
Proof. intros Hf [i Hi]%list_elem_of_lookup. destruct (Forall2_lookup_l _ _ _ _ _ Hf Hi) as (r' & Hr' & Hs). exists r'. split; [by apply list_elem_of_lookup_2 in Hr'|done]. Qed.

(** A delivery made from an old reading of the table keeps it valid. *)
Lemma update_row_valid id o t : valid t ->
  match o with ODelivered => True | OFailed _ n _ => 0 <= n end -> valid (update_row id (apply_outcome o) t).
Proof.
  intros [H1 H2 H3 H4] Ho. destruct (same_keys _ _ (update_row_same id o t)) as [Hk Hi].
  split; [by rewrite Hk|by rewrite Hi| |]; intros r' (r & -> & Hr)%list_elem_of_fmap; case_bool_decide; auto;
    [rewrite message_id_apply; auto|].
  destruct o as [|e n now]; cbn; [done|]. destruct (Z.geb_spec n 5); [done|]. intros _. lia.
Qed.

Lemma existing_row key t id : existing_id key t = Some id -> exists r, r ∈ t /\ r.(idempotency_key) = key /\ r.(message_id) = id.
Proof.
  unfold existing_id. destruct (find_key key t) as [r|] eqn:E; [|done]. destruct (nonempty _); [|done].
  intros [= <-]. apply find_key_spec in E as [H1 H2]. by exists r.
Qed.

(** Tables only grow, and rows keep their message. *)
Lemma step_rows s s' : step s s' -> exists t1 t2, s'.(table) = t1 ++ t2 /\ Forall2 same_message s.(table) t1.
Proof.
  assert (forall t, exists t1 t2, t = t1 ++ t2 /\ Forall2 same_message t t1) as Hsame
    by (intros t; exists t, []; rewrite app_nil_r; split; [done|apply same_refl]).
  destruct 1 as [key id H|fresh now dest key doc Hn H|m w1 w2 t' Hw H|m w1 w2 e t' Hw H|now limit|W handlers clock m k1 k2 w x t' w' Hk H];
    cbn [table]; try apply Hsame.
  - destruct (insert_outcomes m (table s)) as [[_ E]|(_ & _ & E)]; rewrite E in H; [done|]. injection H as <-.
    exists (table s), [m]. split; [done|apply same_refl].
  - destruct (insert_outcomes m (table s)) as [[_ E]|(_ & _ & E)]; rewrite E in H; [|done]. injection H as _ <-. apply Hsame.
  - apply dispatch_table in H as [->|(o & -> & _)]; [apply Hsame|]. eexists _, []. rewrite app_nil_r. split; [done|apply update_row_same].
Qed.
Lemma step_row s s' r : step s s' -> r ∈ s.(table) -> exists r', r' ∈ s'.(table) /\ same_message r r'.
Proof.
  intros (t1 & t2 & E & Hf)%step_rows Hr. destruct (same_row _ _ _ Hf Hr) as (r' & Hr' & Hs). exists r'. split; [|done].
  rewrite E. apply elem_of_app. by left.
Qed.
Lemma steps_row s s' r : rtc step s s' -> r ∈ s.(table) -> exists r', r' ∈ s'.(table) /\ same_message r r'.
Proof.
  intros H. revert r. induction H as [|s1 s2 s3 Hst _ IH]; intros r Hr; [by exists r|].
  destruct (step_row _ _ _ Hst Hr) as (r1 & Hr1 & A1 & A2 & A3 & A4). destruct (IH r1 Hr1) as (r2 & Hr2 & B1 & B2 & B3 & B4).
  exists r2. split; [done|]. unfold same_message. by rewrite B1, B2, B3, B4.
Qed.

Lemma idle_inv t : valid t -> inv (idle t).
Proof. intros Hv. split; cbn; [done|..]; intros *; intros H; by apply elem_of_nil in H. Qed.

Lemma interleaved_inv s s' : inv s -> step s s' -> inv s'.
Proof.
  intros [Hv Hw Ht Ha] Hst. pose proof (fun r => step_row s s' r Hst) as Hrow.
  assert (forall key id, (key, id) ∈ answered s -> exists r, r ∈ table s' /\ idempotency_key r = key /\ message_id r = id) as Hans.
  { intros key id (r & Hr & <- & <-)%Ha. destruct (Hrow r Hr) as (r' & Hr' & H1 & H2 & _). by exists r'. }
  destruct Hst as [key id H|fresh now dest key doc Hn H|m w1 w2 t' E H|m w1 w2 e t' E H|now limit|W handlers clock m k1 k2 w x t' w' E H];
    cbn [table] in *.
  - split; cbn; try done. intros k i [[= -> ->]|Hin]%elem_of_cons; [by apply existing_row|auto].
  - split; cbn; try done. intros m [->|Hin]%elem_of_cons; [done|auto].
  - assert (m ∈ waiting s) as Hm by (rewrite E; apply elem_of_app; right; by left).
    destruct (Hw m Hm) as (Hid & Hp & Hz). destruct (insert_outcomes m (table s)) as [[_ E1]|(Hi & Hk & E1)]; rewrite E1 in H; [done|].
    injection H as <-. split; cbn; [apply valid_snoc; auto; lia| |done|].
    + intros q Hq. apply Hw. rewrite E. by apply (drop_middle w1 w2 m).
    + intros k i [[= -> ->]|Hin]%elem_of_cons; [|auto]. exists m. split; [|done]. apply elem_of_app. right. by left.
  - destruct (insert_outcomes m (table s)) as [[_ E1]|(_ & _ & E1)]; rewrite E1 in H; [|done]. injection H as _ <-.
    split; cbn; try done. intros q Hq. apply Hw. rewrite E. by apply (drop_middle w1 w2 m).
  - split; cbn; try done. intros m [Hm|Hm]%elem_of_app; [|auto]. apply elem_of_pending in Hm as [Hm Hd].
    apply (v_attempts _ Hv m Hm). unfold due in Hd. apply andb_true_iff in Hd as [Hd _]. by apply bool_decide_eq_true in Hd.
  - assert (m ∈ taken s) as Hm by (rewrite E; apply elem_of_app; right; by left). specialize (Ht m Hm) as Hm'.
    split; cbn; [|done| |done].
    + apply dispatch_table in H as [->|(o & -> & Ho)]; [done|]. apply update_row_valid; [done|]. destruct o; [done|lia].
    + intros q Hq. apply Ht. rewrite E. by apply (drop_middle k1 k2 m).
Qed.
Lemma interleavings_inv s s' : rtc step s s' -> inv s -> inv s'.
Proof. induction 1 as [|s1 s2 s3 Hst _ IH]; [done|]. intros Hi. apply IH. by eapply interleaved_inv. Qed.

(** [enqueue] called alone is one of these interleavings. *)
Lemma enqueue_steps fresh now dest key doc s : nonempty fresh = true ->
  exists s', rtc step s s' /\ s'.(table) = (enqueue fresh now dest key doc s.(table)).2 /\
    forall id, (enqueue fresh now dest key doc s.(table)).1 = Ok id -> (key, id) ∈ s'.(answered).
Proof.
  intros Hf. unfold enqueue. mred. destruct (existing_id key (table s)) as [id|] eqn:E.
  - eexists. split; [apply rtc_once; by apply (step_found s key id)|]. split; [done|]. intros i [= <-]. by left.
  - set (m := new_message fresh now dest key doc).
    pose proof (step_missed s fresh now dest key doc Hf E) as H1. fold m in H1.
    destruct (insert_outcomes m (table s)) as [[_ Ei]|(_ & _ & Ei)].
    + rewrite (bind_err _ _ _ _ _ Ei). eexists. split; [eapply rtc_l; [exact H1|apply rtc_once]|].
      * by eapply (step_refused _ m [] (waiting s)).
      * done.
    + rewrite (bind_ok _ _ _ _ _ Ei). eexists. split; [eapply rtc_l; [exact H1|apply rtc_once]|].
      * by apply (step_inserted _ m [] (waiting s) (table s ++ [m])).
      * split; [done|]. intros i [= <-]. by left.
Qed.
End Interleaving.

(** ** Properties *)

Module DeliveryTheorems.
Import Outbox OutboxFacts Dispatcher DispatcherFacts Rounds.

(** C15: the outbox drains.  Whatever the handlers do, as long as they raise only
    what the dispatcher catches, a sequence of rounds that leaves a failed
    message its delay of at most 16 seconds settles every pending message: after
    five rounds when each takes the whole table, and after five rounds for each
    pending message whatever the limit.  No round raises; a pending message ends
    delivered to a registered destination or dead-lettered, with its key,
    destination and payload as enqueued, and settled messages stay as they
    were. *)
Theorem outbox_drains : forall (W : Type) (handlers : dict string (json -> string -> M W unit)) rs t w b,
  valid t -> contained handlers -> ready_by b t -> spaced b rs ->
  (5 <= length rs /\ forallb (whole t) rs = true \/ 5 * length (List.filter is_pending t) <= length rs)%nat ->
  exists results g w', rounds handlers rs (t, w) = (Ok results, (map g t, w')) /\ valid (map g t) /\
    forall m, m ∈ t ->
      (g m).(message_id) = m.(message_id) /\ (g m).(idempotency_key) = m.(idempotency_key) /\
      (g m).(destination) = m.(destination) /\ (g m).(payload) = m.(payload) /\
      (m.(status) <> "pending" -> g m = m) /\
      (m.(status) = "pending" -> (g m).(status) = "dead-letter" \/
         ((g m).(status) = "delivered" /\ dmem m.(destination) handlers = true)).
Proof.
  intros W handlers rs t w b Hv Hc Hb Hs Hlen.
  destruct (rounds_step handlers rs t w b Hv Hc Hb Hs) as (xs & g & w' & Hrun & Hv' & Hm & Hw & Hl).
  exists xs, g, w'. split; [done|]. split; [done|]. intros m Hin.
  assert (is_pending (g m) = false) as Hp.
  { destruct Hlen as [[H5 Hwh]|H5].
    - specialize (Hl Hwh m Hin). assert (left_of m <= 5)%nat as Hm5.
      { unfold left_of. destruct (is_pending m) eqn:E; [|lia]. apply bool_decide_eq_true in E.
        pose proof (v_attempts _ Hv m Hin E). lia. }
      destruct (is_pending (g m)) eqn:E; [|done]. unfold left_of in Hl at 1. rewrite E in Hl. apply bool_decide_eq_true in E.
      pose proof (v_attempts _ Hv' (g m) ltac:(by apply list_elem_of_fmap_2) E). lia.
    - pose proof (work_bound t Hv). apply (proj1 (work_done (map g t) Hv')); [lia|by apply list_elem_of_fmap_2]. }
  destruct (Hm m Hin) as (H1 & H2 & H3 & H4 & H5 & H6). split_and!; try done.
  - intros H. apply H5. by apply bool_decide_eq_false.
  - intros H. assert (is_pending m = true) as Hpm by (by apply bool_decide_eq_true). destruct (H6 Hpm) as [E|E]; [congruence|done].
Qed.

(** A destination that works, one that is down and one that is not registered. *)
Definition ex_round (i : Z) : round := {| polled_at := seconds (100 * i); batch := 100; recorded_at := fun _ => seconds (100 * i + 2) |}.
Definition ex_rounds : list round := map ex_round [1; 2; 3; 4; 5].
Lemma ex_spaced i rs : spaced (seconds (100 * (i + 1))) rs -> spaced (seconds (100 * i)) (ex_round i :: rs).
Proof.
  intros H. split; [cbn; lia|]. split; [done|]. exists (seconds (100 * (i + 1))).
  split_and!; [unfold seconds; cbn; unfold seconds; lia|intros id; unfold seconds; cbn; unfold seconds; lia|done].
Qed.

Lemma outbox_drains_witness : exists results g w',
  rounds IntegrationsTheorems.ex_handlers ex_rounds (IntegrationsTheorems.ex_outbox, O) = (Ok results, (map g IntegrationsTheorems.ex_outbox, w')) /\
  map status (map g IntegrationsTheorems.ex_outbox) = ["delivered"; "dead-letter"; "dead-letter"].
Proof.
  destruct (outbox_drains nat IntegrationsTheorems.ex_handlers ex_rounds IntegrationsTheorems.ex_outbox O (seconds 100)) as (xs & g & w' & Hrun & _ & _).
  - exact IntegrationsTheorems.ex_outbox_valid.
  - exact IntegrationsTheorems.ex_handlers_contained.
  - intros r Hr _. revert r Hr. apply Forall_forall. apply (bool_decide_unpack _). vm_compute. exact I.
  - exact (ex_spaced 1 _ (ex_spaced 2 _ (ex_spaced 3 _ (ex_spaced 4 _ (ex_spaced 5 [] I))))).
  - left. split; [cbn; lia|reflexivity].
  - exists xs, g, w'. split; [exact Hrun|].
    assert (map status (rounds IntegrationsTheorems.ex_handlers ex_rounds (IntegrationsTheorems.ex_outbox, O)).2.1 =
      ["delivered"; "dead-letter"; "dead-letter"]) as E by (vm_compute; reflexivity).
    by rewrite Hrun in E.
Defined.

Import Interleaving.

(** C14: a key is enqueued once, whatever is interleaved.  Callers that enqueue in
    two transactions, and dispatchers that poll and deliver message by message
    from what they have read, take their steps in any order, with any handlers
    and clocks, failing ones included.  The table stays valid (keys and
    identifiers unique, pending messages with attempts left); every answer to a
    key is the same identifier, and its message stays in the table, the only one
    of its key; a message once stored is never lost nor its destination or
    payload changed; and [enqueue] called alone is one of these interleavings. *)
Theorem enqueued_once : forall t s, valid t -> rtc step (idle t) s ->
  valid s.(table) /\
  (forall key id id', (key, id) ∈ s.(answered) -> (key, id') ∈ s.(answered) -> id = id') /\
  (forall s', rtc step s s' ->
     (forall key id, (key, id) ∈ s.(answered) ->
        exists r, r ∈ s'.(table) /\ r.(message_id) = id /\
          forall r', r' ∈ s'.(table) /\ r'.(idempotency_key) = key <-> r' = r) /\
     (forall r, r ∈ s.(table) -> exists r', r' ∈ s'.(table) /\ same_message r r')) /\
  (forall fresh now dest key doc, nonempty fresh = true ->
     exists s', rtc step s s' /\ s'.(table) = (enqueue fresh now dest key doc s.(table)).2 /\
       forall id, (enqueue fresh now dest key doc s.(table)).1 = Ok id -> (key, id) ∈ s'.(answered)).
Proof.
  intros t s Hv Hs. pose proof (interleavings_inv _ _ Hs (idle_inv t Hv)) as [Hval _ _ Ha]. split; [done|]. split; [|split].
  - intros key id id' (r & Hr & Hk & <-)%Ha (r' & Hr' & Hk' & <-)%Ha. f_equal.
    apply (NoDup_map_inj idempotency_key (table s)); [apply Hval|done|done|congruence].
  - intros s' Hs'. assert (rtc step (idle t) s') as Hall by (by etrans).
    pose proof (i_valid _ (interleavings_inv _ _ Hall (idle_inv t Hv))) as Hval'. split; [|intros r; by apply steps_row].
    intros key id (r & Hr & <- & <-)%Ha. destruct (steps_row _ _ _ Hs' Hr) as (r' & Hr' & H1 & H2 & _).
    exists r'. split; [done|]. split; [done|]. intros q. split; [|intros ->; done].
    intros [Hq Hk]. apply (NoDup_map_inj idempotency_key (table s')); [apply Hval'|done|done|congruence].
  - intros. by apply enqueue_steps.
Qed.

(** Two callers find the same key free; the second insertion is refused, and a
    dispatcher delivers the message. *)
Definition ex_row : OutboxMessage := new_message "m1" 0 "ok" "k1" JNull.
Lemma ex_interleaved : rtc step (idle [])
  {| table := [as_delivered ex_row]; waiting := []; taken := []; answered := [("k1", "m1")] |}.
Proof.
  set (other := new_message "m2" 5 "down" "k1" JNull). set (done_ := [("k1", "m1")]).
  apply (rtc_l _ _ (Build_system [] [ex_row] [] [])); [by apply (step_missed (idle []) "m1" 0 "ok" "k1" JNull)|].
  apply (rtc_l _ _ (Build_system [] [other; ex_row] [] [])).
  { by apply (step_missed (Build_system [] [ex_row] [] []) "m2" 5 "down" "k1" JNull). }
  apply (rtc_l _ _ (Build_system [ex_row] [other] [] done_)).
  { by apply (step_inserted (Build_system [] [other; ex_row] [] []) ex_row [other] []). }
  apply (rtc_l _ _ (Build_system [ex_row] [] [] done_)).
  { by apply (step_refused (Build_system [ex_row] [other] [] done_) other [] [] (Exn IntegrityError "UNIQUE constraint failed")). }
  apply (rtc_l _ _ (Build_system [ex_row] [] [ex_row] done_)); [exact (step_polled (Build_system [ex_row] [] [] done_) 9 10)|].
  apply rtc_once.
  by apply (step_dispatched (Build_system [ex_row] [] [ex_row] done_) nat IntegrationsTheorems.ex_handlers (fun _ => 9) ex_row
    [] [] O (Ok (add_counts 1 0 0)) [as_delivered ex_row] 1%nat).
Qed.
Lemma enqueued_once_witness : (exists r, [as_delivered ex_row] = [r] /\ r.(message_id) = "m1") /\ valid [as_delivered ex_row].
Proof.
  destruct (enqueued_once _ _ IntegrationsTheorems.valid_nil ex_interleaved) as (Hv & _ & Hl & _). split; [|exact Hv].
  destruct (proj1 (Hl _ (rtc_refl _ _)) "k1" "m1" ltac:(by left)) as (r & Hr & Hid & _).
  apply list_elem_of_singleton in Hr. exists r. by rewrite Hr.
Defined.

(** The settlements are not guarded by the status of the row: of two dispatchers
    that have read the same message, the one that fails puts a message the other
    has delivered back among the pending ones, to be delivered again. *)
Lemma delivered_twice : exists s, rtc step (idle [ex_row]) s /\
  exists s', rtc step s s' /\ map status s.(table) = ["delivered"] /\ map status s'.(table) = ["pending"].
Proof.
  set (failing := [("ok", fun (_ : json) (_ : string) (w : nat) => (raise RuntimeError "down" : res unit, w))]).
  exists (Build_system [as_delivered ex_row] [] [ex_row] []). split.
  - apply (rtc_l _ _ (Build_system [ex_row] [] [ex_row] [])); [exact (step_polled (idle [ex_row]) 9 10)|].
    apply (rtc_l _ _ (Build_system [ex_row] [] [ex_row; ex_row] [])); [exact (step_polled (Build_system [ex_row] [] [ex_row] []) 9 10)|].
    apply rtc_once. by apply (step_dispatched (Build_system [ex_row] [] [ex_row; ex_row] []) nat IntegrationsTheorems.ex_handlers
      (fun _ => 9) ex_row [] [ex_row] O (Ok (add_counts 1 0 0)) [as_delivered ex_row] 1%nat).
  - exists (Build_system [as_failed "RuntimeError" 1 9 (as_delivered ex_row)] [] [] []). split; [|done].
    apply rtc_once. by apply (step_dispatched (Build_system [as_delivered ex_row] [] [ex_row] []) nat failing
      (fun _ => 9) ex_row [] [] O (Ok (add_counts 0 1 0)) [as_failed "RuntimeError" 1 9 (as_delivered ex_row)] O).
Qed.

(** A handler that raises anything else stops the round before its message is
    settled: the first message due, it is taken first again by every later
    round, and nothing behind it is delivered. *)
Theorem uncaught_error_blocks : forall (W : Type) (handlers : dict string (json -> string -> M W unit)) clock now limit t w m ms h e w',
  pending now limit t = m :: ms -> dget m.(destination) handlers = Some h ->
  h m.(payload) m.(idempotency_key) w = (Err e, w') -> catches [RuntimeError; ValueError] e = false ->
  run_once handlers clock now limit (t, w) = (Err e, (t, w')).
Proof.
  intros W handlers clock now limit t w m ms h e w' Hp Hh He Hc. unfold run_once. mred. cbn [fst]. rewrite Hp. cbn [dispatch_all].
  unfold dispatch. rewrite Hh. unfold mbind_M, catch_M, on_world, zoom_M. cbn [fst snd]. rewrite He. cbn [fst snd]. by rewrite Hc.
Qed.
End DeliveryTheorems.
