(* ===== verification/FactoryApi.v ===== *)
(** * AI SRE Factory: HTTP handlers (platforms/factory/api.py)

    The handlers over the workload table and the ARIA evidence table, their
    role checks, the evidence-signature check and the release policy.  The
    identity is the one [current_identity] produced for the request. *)

From Stdlib Require Import String Ascii ZArith Lia.
From stdpp Require Import base list strings.
From S2P Require Import Prelude PyStr PyDict PyFloat Hash Json AuditLog Security Factory Integrations.
Import Domain.

Record service := {
  workloads : FactoryStore.table;
  evidence_rows : Aria.evidence_table;
}.
Definition on_workloads {A} (m : M FactoryStore.table A) : M service A :=
  zoom_M workloads (fun t s => {| workloads := t; evidence_rows := s.(evidence_rows) |}) m.
Definition on_evidence {A} (m : M Aria.evidence_table A) : M service A :=
  zoom_M evidence_rows (fun t s => {| workloads := s.(workloads); evidence_rows := t |}) m.

(** [class SLORequest(BaseModel)] *)
Record SLORequest := { q_availability_target : float; q_latency_p95_ms : Z; q_error_rate_target : float }.
(** [class WorkloadRequest(BaseModel)] *)
Record WorkloadRequest := {
  q_name : string;
  q_kind : WorkloadKind;
  q_owner : string;
  q_environment : string;
  q_artifact_digest : string;
  q_data_classification : string;
  q_slo : SLORequest;
  q_requires_gpu : bool;
  q_internet_egress : bool;
}.
(** [class GateRequest(BaseModel)] *)
Record GateRequest := {
  g_gate : string;
  g_passed : bool;
  g_evidence : string;
  g_evidence_digest : string;
  g_signing_key_id : string;
  g_signature : string;
}.

(** [authorize] *)
Definition authorize (identity : Identity) (role : string) : res unit :=
  match require_roles [role] identity with
  | Err e => if catches [AuthorizationError] e then http 403 "required role missing" else Err e
  | Ok _ => Ok tt
  end.

(** [view] *)
Definition scorecard_json (s : Scorecard) : json :=
  JObj [("required", JInt s.(required)); ("passing", JInt s.(passing)); ("percentage", JInt s.(percentage));
        ("blocking_gates", jstrs s.(blocking_gates))].
Definition view (w : FactoryWorkload) (version : Z) : res json :=
  let? s := scorecard w in
  Ok (JObj [("workload_id", JStr w.(workload_id)); ("name", JStr w.(spec).(name));
    ("kind", JStr (kind_value w.(spec).(kind))); ("stage", JStr (stage_value w.(stage)));
    ("scorecard", scorecard_json s); ("approved_by", jopt_str w.(approved_by));
    ("policy_digest", jopt_str w.(policy_digest)); ("history", JArr (map history_json w.(history)));
    ("version", JInt version)]).

(** [get_workload] *)
Definition get_workload (id tenant : string) : M service (FactoryWorkload * Z) :=
  let! result := on_workloads (FactoryStore.get id tenant) in
  match result with
  | None => http_M 404 "workload not found"
  | Some r => mret_M r
  end.

(** [except ConcurrencyError ... except ValueError ...]: both answer 409. *)
Definition conflict {A} (m : M service A) : M service A :=
  catch_M m [ConcurrencyError; ValueError] (fun e => http_M 409 (str_exn e)).

(** [create_workload] *)
Definition create_workload (fresh_id : string) (q : WorkloadRequest) (identity : Identity) : M service json :=
  do! lift_M (authorize identity "factory-admin") in
  let! w := lift_M (try_res (
      let? sl := SLO_post_init {| availability_target := q.(q_slo).(q_availability_target);
        latency_p95_ms := q.(q_slo).(q_latency_p95_ms); error_rate_target := q.(q_slo).(q_error_rate_target) |} in
      let? sp := FactorySpec_post_init {| name := q.(q_name); kind := q.(q_kind); owner := q.(q_owner);
        tenant := identity.(Security.tenant); environment := q.(q_environment);
        artifact_digest := q.(q_artifact_digest); data_classification := q.(q_data_classification);
        slo := sl; requires_gpu := q.(q_requires_gpu); internet_egress := q.(q_internet_egress) |} in
      Ok (new_workload sp fresh_id))
    [ValueError] (fun e => http 422 (str_exn e))) in
  let! version := on_workloads (FactoryStore.create w) in
  lift_M (view w version).

Section handlers.
(** The Ed25519 check of the cryptography package, the environment of the
    process and the text of the current time. *)
Context (ed25519_verify : list Z -> list Z -> string -> bool).
Context (env : environ).

(** [{key_id: base64.b64decode(value) for ... in raw_keys.items()}] *)
Definition public_keys : res (dict string (list Z)) :=
  match loads (getenv "EVIDENCE_PUBLIC_KEYS_JSON" "{}" env) with
  | None => raise ValueError "invalid JSON"
  | Some (JObj kvs) =>
      map_res (fun kv => let? v := jstr kv.2 in let? b := b64decode_lax v in Ok (kv.1, b)) kvs
  | Some _ => raise OtherError "object has no attribute 'items'"
  end.

(** [verify_gate_evidence] *)
Definition verify_gate_evidence (s : Governance.EvidenceStatement) (q : GateRequest) : res unit :=
  let? keys := public_keys in
  let production := bool_decide (getenv "FACTORY_ENV" "development" env = "production") in
  if production && (negb (nonempty q.(g_signing_key_id)) || negb (nonempty q.(g_signature))) then
    http 422 "signed evidence is required in production"
  else if nonempty q.(g_signing_key_id) || nonempty q.(g_signature) then
    try_res (Governance.verify ed25519_verify keys s q.(g_signing_key_id) q.(g_signature))
      [ValueError] (fun e => http 422 (str_exn e))
  else Ok tt.

Definition statement_of (id : string) (q : GateRequest) (identity : Identity) : Governance.EvidenceStatement :=
  {| Governance.es_workload_id := id; Governance.es_gate := q.(g_gate);
     Governance.evidence_uri := q.(g_evidence); Governance.es_digest := q.(g_evidence_digest);
     Governance.es_evaluator := identity.(subject) |}.
Definition result_of (q : GateRequest) (identity : Identity) (now : string) : GateResult :=
  {| gate := q.(g_gate); status := if q.(g_passed) then PASS else FAIL; evidence := q.(g_evidence);
     evaluator := identity.(subject); evidence_digest := q.(g_evidence_digest);
     signing_key_id := q.(g_signing_key_id); signature := q.(g_signature); measured_at := now |}.

(** [record_gate] *)
Definition record_gate_handler (id : string) (q : GateRequest) (identity : Identity) (now : string) : M service json :=
  do! lift_M (authorize identity "gate-evaluator") in
  let! wv := get_workload id identity.(Security.tenant) in
  let! statement := lift_M (Governance.EvidenceStatement_post_init (statement_of id q identity)) in
  do! lift_M (verify_gate_evidence statement q) in
  let! uv := conflict (
      let! g := lift_M (GateResult_post_init (result_of q identity now)) in
      let! uw := on_object wv.1 (record_gate g) in
      let! v := on_workloads (FactoryStore.save uw.2 wv.2) in
      mret_M (uw.2, v)) in
  lift_M (view uv.1 uv.2).

(** [advance] *)
Definition operate (operation reason : string) (identity : Identity) (now : string) (w : FactoryWorkload) :
    M service (unit * FactoryWorkload) :=
  if bool_decide (operation = "approve") then
    let decision := Governance.evaluate w.(spec) in
    if negb decision.(Governance.allowed) then
      raise_M ValueError ("policy denied release: " +:+ repr_list decision.(Governance.reasons))
    else on_object w (approve identity.(subject) decision.(Governance.pd_digest) now)
  else if bool_decide (operation = "provision") then on_object w (provision identity.(subject) now)
  else if bool_decide (operation = "release") then on_object w (release identity.(subject) now)
  else if bool_decide (operation = "suspend") then on_object w (suspend identity.(subject) reason now)
  else if bool_decide (operation = "retire") then on_object w (retire identity.(subject) reason now)
  else http_M 404 "unknown operation".

Definition advance (id operation reason : string) (identity : Identity) (now : string) : M service json :=
  do! lift_M (authorize identity (if bool_decide (operation = "approve") then "release-approver" else "factory-admin")) in
  let! wv := get_workload id identity.(Security.tenant) in
  let! uv := conflict (
      let! uw := operate operation reason identity now wv.1 in
      let! v := on_workloads (FactoryStore.save uw.2 wv.2) in
      mret_M (uw.2, v)) in
  lift_M (view uv.1 uv.2).

(** [receive_aria_intelligence]; [now] is [time.time()], [now_text] the
    recorded time. *)
Definition receive_aria_intelligence (now : Z) (now_text body timestamp nonce signature : string) : M service json :=
  let! payload := catch_M (
      let! p := lift_M (Aria.verify {| Aria.secret := getenv "ARIA_INTEGRATION_SECRET" EmptyString env;
                  Aria.tolerance_seconds := 300 |} now body timestamp nonce signature) in
      do! on_evidence (Aria.record p nonce now_text) in
      mret_M p)
    [IntelligenceVerificationError]
    (fun e => http_M (if contains "signature" (str_exn e) then 401 else 409) (str_exn e)) in
  let! sid := lift_M (jfield "signal_id" payload) in
  mret_M (JObj [("signal_id", sid); ("status", JStr "accepted")]).

(** [incident_scorecard] *)
Definition incident_scorecard (id : string) (identity : Identity) : M service Aria.Scorecard :=
  do! lift_M (authorize identity "factory-admin") in
  do! get_workload id identity.(Security.tenant) in
  let! s := get_M in
  lift_M (Aria.scorecard identity.(Security.tenant) id s.(evidence_rows)).

End handlers.

(** ** Lemmas *)

Lemma authorize_ok i role : authorize i role = Ok tt <-> role ∈ i.(roles).
Proof.
  unfold authorize. destruct (require_roles [role] i) as [i'|e] eqn:E.
  - apply require_roles_ok in E as [_ E]. split; [|done]. intros _. apply E. by left.
  - split; [destruct (catches _ e); done|]. intros Hr.
    assert (require_roles [role] i = Ok i) as Hi.
    { apply require_roles_ok. split; [done|]. intros r Hin. apply list_elem_of_singleton in Hin as ->. done. }
    congruence.
Qed.

Lemma get_workload_ok id tenant s w v s' :
  get_workload id tenant s = (Ok (w, v), s') -> s' = s /\
  exists r, dget id s.(workloads) = Some r /\ r.(FactoryStore.r_tenant) = tenant /\ r.(FactoryStore.version) = v /\
    FactoryStore._deserialize r.(FactoryStore.document) = Ok w.
Proof.
  unfold get_workload. intros H. apply bind_inv_ok in H as (o & s1 & Hg & H).
  destruct o as [[w' v']|]; [|done]. injection H as -> -> <-.
  unfold on_workloads, zoom_M in Hg.
  destruct (FactoryStore.get id tenant (workloads s)) as [[o|e] t] eqn:Eg; [|done].
  injection Hg as -> <-. unfold FactoryStore.get in Eg. mred in Eg.
  destruct (dget id (workloads s)) as [r|]; [|done].
  destruct (bool_decide_reflect (FactoryStore.r_tenant r = tenant)); [|done].
  unfold lift_M, mbind, res_bind in Eg. destruct (FactoryStore._deserialize _) eqn:Ed; [|done].
  injection Eg as -> <- <-. split; [by destruct s|]. by exists r.
Qed.

Lemma conflict_ok {A} (m : M service A) s a s' : conflict m s = (Ok a, s') -> m s = (Ok a, s').
Proof. unfold conflict, catch_M. destruct (m s) as [[b|e] s1]; [done|]. by destruct (catches _ e). Qed.

Lemma on_object_inv {S T A} (o : T) (m : M T A) (s : S) a o' s' :
  on_object o m s = (Ok (a, o'), s') -> m o = (Ok a, o') /\ s' = s.
Proof. unfold on_object. destruct (m o) as [[b|e] o1]; [|done]. by intros [= -> -> ->]. Qed.

Lemma on_save_ok w v s r s' :
  on_workloads (FactoryStore.save w v) s = (Ok r, s') ->
  r = v + 1 /\ s'.(workloads) = FactoryStoreFacts.saved w r s.(workloads) /\ s'.(evidence_rows) = s.(evidence_rows).
Proof.
  unfold on_workloads, zoom_M.
  destruct (FactoryStoreFacts.save_outcomes w v (workloads s)) as [[_ ->]|[_ ->]]; [|done].
  by intros [= <- <-].
Qed.

(** What each operation does to the workload it accepts. *)
Lemma operate_result op reason i now w s w' s' : operate op reason i now w s = (Ok (tt, w'), s') ->
  s' = s /\ exists from target why, let decision := Governance.evaluate w.(spec) in let approves := bool_decide (op = "approve") in
    w.(stage) = from /\
    (op, from, target, why) ∈
      [("approve", VALIDATED, APPROVED, DomainFacts.approval_reason decision.(Governance.pd_digest));
       ("provision", APPROVED, PROVISIONED, "platform resources provisioned");
       ("release", PROVISIONED, RELEASED, "workload released");
       ("suspend", RELEASED, SUSPENDED, reason);
       ("retire", RELEASED, RETIRED, reason); ("retire", SUSPENDED, RETIRED, reason)] /\
    (op ∈ ["suspend"; "retire"] -> blank reason = false) /\
    w' = {| spec := w.(spec); workload_id := w.(workload_id); stage := target; gates := w.(gates);
            approved_by := if approves then Some i.(subject) else w.(approved_by);
            policy_digest := if approves then (if nonempty decision.(Governance.pd_digest) then Some decision.(Governance.pd_digest) else None)
                             else w.(policy_digest);
            history := w.(history) ++ [{| h_from := stage_value from; h_to := stage_value target;
              h_actor := i.(subject); h_reason := why; h_at := now |}] |} /\
    (op = "approve" -> decision.(Governance.reasons) = [] /\ DomainFacts.approvable w i.(subject)).
Proof.
  intros H. unfold operate in H. set (decision := Governance.evaluate (spec w)) in *.
  assert (Governance.allowed decision = true -> Governance.reasons decision = []) as Hal
    by (unfold decision, Governance.evaluate; cbn [Governance.allowed Governance.reasons]; by destruct (_ ++ _)).
  clearbody decision. case_bool_decide as Ea.
  { destruct (Governance.allowed decision); [|done]. apply on_object_inv in H as [H ->]. split; [done|].
    destruct (DomainFacts.approve_cases (subject i) (Governance.pd_digest decision) now w) as [[Hap E]|[_ [msg E]]];
      rewrite E in H; [|done]. apply pair_equal_spec in H as [_ <-]. pose proof Hap as [Hst _].
    exists VALIDATED, APPROVED, (DomainFacts.approval_reason (Governance.pd_digest decision)). subst op.
    split_and!; [done|by left|by intros [?|[?|?%elem_of_nil]%elem_of_cons]%elem_of_cons| |auto].
    unfold DomainFacts.approved, moved, set_approval. cbn [spec workload_id stage gates approved_by policy_digest history]. by rewrite Hst. }
  repeat match type of H with
  | (if bool_decide (op = ?n) then _ else _) _ = _ => destruct (bool_decide_reflect (op = n)) as [->|?]
  end; [..|done]; apply on_object_inv in H as [H ->]; (split; [done|]);
    [exists APPROVED, PROVISIONED, "platform resources provisioned"|exists PROVISIONED, RELEASED, "workload released"
    |exists RELEASED, SUSPENDED, reason|exists w.(stage), RETIRED, reason];
    unfold provision, release, suspend, retire in H; mred in H.
  all: match type of H with context [if ?b then raise_M _ _ else _] => destruct b eqn:Eb end; [done|]; bprop;
    unfold _move, modify_M in H; injection H as <-; cbn zeta; unfold moved.
  4: match goal with Hin : stage ?x ∈ _ |- _ => apply elem_of_cons in Hin as [Hst|Hst%list_elem_of_singleton] end.
  all: repeat match goal with Hs : stage ?x = _ |- _ => rewrite !Hs; clear Hs end.
  all: split_and!; try done; try (repeat (apply elem_of_cons; first [left; reflexivity|right]); fail).
  all: try (by intros [?|[?|?%elem_of_nil]%elem_of_cons]%elem_of_cons).
Qed.
(** A successful operation is one method call on the workload, and leaves the
    service alone. *)
Lemma operate_step op reason i now w s u w' s' :
  operate op reason i now w s = (Ok (u, w'), s') ->
  s' = s /\ DomainFacts.step w w' /\ op ∈ ["approve"; "provision"; "release"; "suspend"; "retire"].
Proof.
  unfold operate. intros H. destruct u.
  assert (forall m, on_object w m s = (Ok (tt, w'), s') -> (forall r, m w = (r, w') -> DomainFacts.step w w') ->
    op ∈ ["approve"; "provision"; "release"; "suspend"; "retire"] ->
    s' = s /\ DomainFacts.step w w' /\ op ∈ ["approve"; "provision"; "release"; "suspend"; "retire"]) as Hm.
  { intros m [Ho ->]%on_object_inv Hst. split; [done|]. split; [by eapply Hst|done]. }
  destruct (bool_decide_reflect (op = "approve")) as [->|_].
  { destruct (negb _); [done|]. apply (Hm _ H); [|rewrite !elem_of_cons; tauto]. intros r E.
    replace w' with (approve (subject i) (Governance.pd_digest (Governance.evaluate (spec w))) now w).2 by (by rewrite E). constructor. }
  repeat match type of H with
  | (if bool_decide ?P then _ else _) _ = _ => destruct (bool_decide_reflect P) as [->|?]
  end; try done; (apply (Hm _ H); [|rewrite !elem_of_cons; tauto]; intros r E;
    replace w' with (snd (r, w')) by done; rewrite <- E; constructor).
Qed.

(** ** Properties *)

Module FactoryApiTheorems.

(** C9: signed evidence in production.  In the production environment a gate
    result is recorded only for a gate evaluator of the workload's tenant, with
    a signature that verifies, under a configured public key, over the
    statement naming exactly this workload, gate, evidence, digest and
    evaluator; what is then stored for the gate is that evidence. *)
Theorem production_evidence_signed : forall ed env id q identity now s j s',
  getenv "FACTORY_ENV" "development" env = "production" ->
  record_gate_handler ed env id q identity now s = (Ok j, s') ->
  "gate-evaluator" ∈ identity.(roles) /\
  (exists r, dget id s.(workloads) = Some r /\ r.(FactoryStore.r_tenant) = identity.(Security.tenant)) /\
  (exists keys key sig, public_keys env = Ok keys /\ dget q.(g_signing_key_id) keys = Some key /\
     b64decode q.(g_signature) = Ok sig /\
     ed key sig (Governance.canonical_bytes (statement_of id q identity)) = true) /\
  (exists w, s'.(workloads) = FactoryStoreFacts.saved w (match dget id s.(workloads) with Some r => r.(FactoryStore.version) + 1 | None => 0 end) s.(workloads) /\
     dget q.(g_gate) w.(gates) = Some (result_of q identity now) /\ w.(stage) = VALIDATED).
Proof.
  intros ed env id q i now s j s' Hp H. unfold record_gate_handler in H.
  apply bind_inv_ok in H as ([] & s1 & Ha & H). injection Ha as Ha <-. apply authorize_ok in Ha. split; [done|].
  apply bind_inv_ok in H as ([w v] & s1 & Hg & H). apply get_workload_ok in Hg as (-> & r & Hr & Ht & Hv & _).
  split; [by exists r|].
  apply bind_inv_ok in H as (st & s1 & Hst & H). injection Hst as Hst <-.
  apply bind_inv_ok in H as ([] & s1 & Hev & H). injection Hev as Hev <-.
  apply bind_inv_ok in H as ([w' v'] & s1 & Hc & H). injection H as _ <-. apply conflict_ok in Hc.
  assert (st = statement_of id q i) as ->.
  { revert Hst. unfold Governance.EvidenceStatement_post_init, guard_raise, mbind, res_bind.
    destruct (negb _); [done|]. destruct (negb _); [done|]. by intros [= <-]. }
  split.
  - revert Hev. unfold verify_gate_evidence. destruct (public_keys env) as [keys|]; [|done]. cbn [mbind res_bind].
    rewrite Hp, bool_decide_eq_true_2 by done. cbn [andb].
    destruct (nonempty (g_signing_key_id q)), (nonempty (g_signature q)); cbn [negb orb]; try done.
    unfold try_res, Governance.verify. destruct (dget (g_signing_key_id q) keys) as [key|] eqn:Ek; [|done].
    destruct (b64decode (g_signature q)) as [sig|]; [|done].
    destruct (ed key sig _) eqn:Ed; [|done]. intros _. exists keys, key, sig. auto.
  - cbn [fst snd] in Hc. apply bind_inv_ok in Hc as (g & s2 & Hg & Hc). injection Hg as Hg <-.
    assert (g = result_of q i now) as ->.
    { revert Hg. unfold GateResult_post_init, guard_raise, mbind, res_bind. destruct (blank _); [done|]. by intros [= <-]. }
    apply bind_inv_ok in Hc as ([[] w1] & s2 & Ho & Hc). apply on_object_inv in Ho as [Ho ->].
    apply bind_inv_ok in Hc as (v1 & s3 & Hs & Hc). injection Hc as <- <- <-. apply on_save_ok in Hs as (-> & Hs & _).
    exists w1. rewrite Hr, Hv. split; [exact Hs|].
    unfold record_gate in Ho. mred in Ho. destruct (negb _); [done|]. destruct (negb _); [done|].
    injection Ho as <-. cbn [set_gate gates stage]. by rewrite dget_dset_eq.
Qed.

Definition ex_env : environ :=
  [("FACTORY_ENV", "production"); ("EVIDENCE_PUBLIC_KEYS_JSON",
    of_chars (map (fun c => if bool_decide (c = squote) then dquote else c) (chars "{'k1': 'AAAA'}")))].
Definition ex_request : GateRequest :=
  {| g_gate := "security"; g_passed := true; g_evidence := "s3://e"; g_evidence_digest := "sha256:1";
     g_signing_key_id := "k1"; g_signature := "AAAA" |}.
Definition ex_service : service :=
  {| workloads := (FactoryStore.create (new_workload FactoryTheorems.ex_spec "w1") []).2; evidence_rows := [] |}.
Definition ex_evaluator : Identity := {| subject := "eve"; roles := ["gate-evaluator"]; Security.tenant := "t1" |}.

Lemma production_evidence_signed_witness :
  exists j s', record_gate_handler (fun _ _ _ => true) ex_env "w1" ex_request ex_evaluator "now" ex_service = (Ok j, s') /\
    exists w, dget "security" w.(gates) = Some (result_of ex_request ex_evaluator "now").
Proof.
  destruct (record_gate_handler (fun _ _ _ => true) ex_env "w1" ex_request ex_evaluator "now" ex_service) as [[j|e] s'] eqn:E.
  - exists j, s'. split; [reflexivity|].
    destruct (production_evidence_signed _ ex_env "w1" ex_request ex_evaluator "now" ex_service j s' eq_refl E)
      as (_ & _ & _ & w & _ & H & _). exists w. exact H.
  - exfalso.
    assert (is_ok (record_gate_handler (fun _ _ _ => true) ex_env "w1" ex_request ex_evaluator "now" ex_service).1 = true) as K
      by (vm_compute; reflexivity).
    rewrite E in K. discriminate K.
Defined.

(** C10: release operations over HTTP.  A successful operation finds the stored
    workload of the caller's tenant in a stage from which its name leads on, and
    saves at the next version that workload in the stage it leads to, with one
    history entry by the caller and nothing else changed, except that an approval
    records the caller and the digest of the policy; suspension and retirement
    need a reason.  An approval further needs the release-approver role, a policy
    decision that allows the specification, every gate passed and an actor who is
    neither owner nor evaluator; the other operations need the factory-admin
    role. *)
Theorem advance_governed : forall id operation reason identity now s j s',
  advance id operation reason identity now s = (Ok j, s') ->
  exists r w from target why, let decision := Governance.evaluate w.(spec) in let approves := bool_decide (operation = "approve") in
    let w' := {| spec := w.(spec); workload_id := w.(workload_id); stage := target; gates := w.(gates);
                 approved_by := if approves then Some identity.(subject) else w.(approved_by);
                 policy_digest := if approves then (if nonempty decision.(Governance.pd_digest) then Some decision.(Governance.pd_digest) else None)
                                  else w.(policy_digest);
                 history := w.(history) ++ [{| h_from := stage_value from; h_to := stage_value target;
                   h_actor := identity.(subject); h_reason := why; h_at := now |}] |} in
    dget id s.(workloads) = Some r /\ r.(FactoryStore.r_tenant) = identity.(Security.tenant) /\
    FactoryStore._deserialize r.(FactoryStore.document) = Ok w /\ w.(stage) = from /\
    (operation, from, target, why) ∈
      [("approve", VALIDATED, APPROVED, DomainFacts.approval_reason decision.(Governance.pd_digest));
       ("provision", APPROVED, PROVISIONED, "platform resources provisioned");
       ("release", PROVISIONED, RELEASED, "workload released");
       ("suspend", RELEASED, SUSPENDED, reason);
       ("retire", RELEASED, RETIRED, reason); ("retire", SUSPENDED, RETIRED, reason)] /\
    (operation ∈ ["suspend"; "retire"] -> blank reason = false) /\
    s'.(workloads) = FactoryStoreFacts.saved w' (r.(FactoryStore.version) + 1) s.(workloads) /\
    (if approves then
       "release-approver" ∈ identity.(roles) /\ decision.(Governance.reasons) = [] /\ DomainFacts.approvable w identity.(subject)
     else "factory-admin" ∈ identity.(roles)).
Proof.
  intros id op reason i now s j s' H. unfold advance in H.
  apply bind_inv_ok in H as ([] & s1 & Ha & H). injection Ha as Ha <-. apply authorize_ok in Ha.
  apply bind_inv_ok in H as ([w v] & s1 & Hg & H). apply get_workload_ok in Hg as (-> & r & Hr & Ht & Hv & Hd).
  apply bind_inv_ok in H as ([w' v'] & s1 & Hc & H). injection H as _ <-. apply conflict_ok in Hc.
  cbn [fst snd] in Hc. apply bind_inv_ok in Hc as ([[] w1] & s2 & Ho & Hc).
  apply bind_inv_ok in Hc as (v1 & s3 & Hs & Hc). injection Hc as <- <- <-. apply on_save_ok in Hs as (-> & Hs & _).
  apply operate_result in Ho as (-> & from & target & why & Hfrom & Hop & Hreason & -> & Hgov).
  exists r, w, from, target, why. cbn zeta. rewrite Hv. split_and!; try done.
  case_bool_decide; [|done]. by destruct (Hgov ltac:(done)).
Qed.

Definition ex_approved_service : service :=
  {| workloads := (FactoryStore.create FactoryTheorems.ex_gated []).2; evidence_rows := [] |}.
Definition ex_approver : Identity := {| subject := "bob"; roles := ["release-approver"]; Security.tenant := "t1" |}.

Lemma advance_governed_witness :
  exists j s', advance "w1" "approve" EmptyString ex_approver "now" ex_approved_service = (Ok j, s') /\
    exists w, DomainFacts.approvable w "bob".
Proof.
  destruct (advance "w1" "approve" EmptyString ex_approver "now" ex_approved_service) as [[j|e] s'] eqn:E.
  - exists j, s'. split; [reflexivity|].
    destruct (advance_governed "w1" "approve" EmptyString ex_approver "now" ex_approved_service j s' E)
      as (r & w & from & target & why & _ & _ & _ & _ & _ & _ & _ & _ & _ & H). exists w. exact H.
  - exfalso.
    assert (is_ok (advance "w1" "approve" EmptyString ex_approver "now" ex_approved_service).1 = true) as K
      by (vm_compute; reflexivity).
    rewrite E in K. discriminate K.
Defined.

End FactoryApiTheorems.
