(* ===== verification/MLOpsConcurrency.v ===== *)
(** * Concurrent requests to the run service

    FastAPI runs the handlers of platforms/mlops/api.py in threads, and each
    statement of store.py on a connection of its own.  [RunRequests] splits the
    handlers at these statements: the read of [RunStore.get], the SELECT of
    [RunStore.save] and its INSERT or UPDATE; a schedule says whose statement
    comes next.  Whatever the schedule, what is stored obeys the rules of the
    lifecycle; that no update is lost needs each save to run uninterrupted, and
    [update_lost] is a schedule where one is lost. *)

From Stdlib Require Import String ZArith Lia.
From stdpp Require Import base list strings.
From S2P Require Import Prelude PyStr PyDict PyFloat Json AuditLog MLOps.

Module RunRequests.
Import MLOps.Run MLOps.RunStore MLOps.MLOpsApi.

(** The handlers that write, with their arguments. *)
Inductive request :=
| Creating (fresh_id : string) (q : CreateRun)
| Transiting (id : string) (q : Transition) (if_match : Z) (now : string)
| Evaluating (id : string) (q : Evaluation) (if_match : Z) (now : string).

(** The handler up to its save: the run it will save and the revision it names. *)
Definition prepare (q : request) : M service (ModelRun * option Z) :=
  match q with
  | Creating id q =>
      if negb (CreateRun_valid q) then unprocessable else
      mret_M (new_run id q.(c_model_name) q.(c_dataset_digest) q.(c_code_revision) q.(c_owner), None)
  | Transiting id q if_match now =>
      if negb (Transition_valid q) then unprocessable else
      let! rr := on_store (get id) in
      if negb (rr.2 =? if_match) then http_M 409 "stale revision" else
      let! ur := on_object rr.1 (transition q.(t_target) q.(t_actor) q.(t_reason) now) in
      do! inc_transition q.(t_target) in
      mret_M (ur.2, Some rr.2)
  | Evaluating id q if_match now =>
      if negb (Evaluation_valid q) then unprocessable else
      let! rr := on_store (get id) in
      if negb (rr.2 =? if_match) then http_M 409 "stale revision" else
      let! br := on_object rr.1 (record_evaluation q.(e_metrics) q.(e_artifact_digest)
        {| minimum_metrics := q.(e_minimum_metrics); maximum_metrics := q.(e_maximum_metrics) |}
        q.(e_actor) now) in
      mret_M (br.2, Some rr.2)
  end.
(** The [except] clauses around the handler. *)
Definition errors {A} (q : request) (m : M service A) : M service A :=
  match q with Creating _ _ => m | _ => with_errors m end.

Definition serve (q : request) : M service json :=
  match q with
  | Creating id q => create_run id q
  | Transiting id q if_match now => transition_run id q if_match now
  | Evaluating id q if_match now => record_evaluation_run id q if_match now
  end.

(** A request between two statements: before its first one, with the run it is
    to save, with what the SELECT of the save found, and answered. *)
Inductive progress :=
| Asked
| Prepared (r : ModelRun) (expected : option Z)
| Checked (r : ModelRun) (found : option Z)
| Answered (x : res json).
Record caller := { asks : request; at_ : progress }.

(** The service, the runs written so far in their order, the requests. *)
Record system := { shared : service; writes : list ModelRun; callers : list caller }.

(** The next statement of a request, with what it writes. *)
Definition advance (c : caller) (s : service) : (progress * list ModelRun) * service :=
  let stop e s' := ((Answered (errors c.(asks) (lift_M (Err e)) s').1, []), s') in
  match c.(at_) with
  | Asked =>
      match prepare c.(asks) s with
      | (Ok (r, expected), s') => ((Prepared r expected, []), s')
      | (Err e, s') => stop e s'
      end
  | Prepared r expected =>
      match on_store (save_check r expected) s with
      | (Ok found, s') => ((Checked r found, []), s')
      | (Err e, s') => stop e s'
      end
  | Checked r found =>
      match on_store (save_write r found) s with
      | (Ok rev, s') => ((Answered (Ok (_serialize r rev)), [r]), s')
      | (Err e, s') => stop e s'
      end
  | Answered x => ((Answered x, []), s)
  end.

(** A turn: the next statement of a request, or its refusal by the driver (a
    locked database), which ends the request. *)
Inductive turn := Goes (i : nat) | Locked (i : nat).
Definition whose (x : turn) : nat := match x with Goes i | Locked i => i end.
Definition take_turn (x : turn) (s : system) : system :=
  match s.(callers) !! whose x with
  | None => s
  | Some c =>
      let '((p, w), sv) :=
        match x, c.(at_) with
        | Locked _, Answered y => ((Answered y, []), s.(shared))
        | Locked _, _ => ((Answered (raise OtherError "database is locked"), []), s.(shared))
        | Goes _, _ => advance c s.(shared)
        end in
      {| shared := sv; writes := s.(writes) ++ w;
         callers := <[whose x := {| asks := c.(asks); at_ := p |}]> s.(callers) |}
  end.
Definition run_schedule (xs : list turn) (s : system) : system := fold_left (fun s x => take_turn x s) xs s.

Definition begin_all (qs : list request) (sv : service) : system :=
  {| shared := sv; writes := []; callers := map (fun q => {| asks := q; at_ := Asked |}) qs |}.

(** Saves run uninterrupted: while one request is between the SELECT and the
    write of its save, no other one takes a turn. *)
Definition is_checked (p : progress) : bool := match p with Checked _ _ => true | _ => false end.
Definition others_idle (i : nat) (s : system) : Prop :=
  forall j c, s.(callers) !! j = Some c -> is_checked c.(at_) = true -> j = i.
Fixpoint uninterrupted (xs : list turn) (s : system) : Prop :=
  match xs with
  | [] => True
  | x :: xs' => others_idle (whose x) s /\ uninterrupted xs' (take_turn x s)
  end.

(** The writes of one run. *)
Definition versions (id : string) (l : list ModelRun) : list ModelRun :=
  List.filter (fun r => bool_decide (r.(run_id) = id)) l.

End RunRequests.

Module RunRequestsFacts.
Import MLOps.Run MLOps.RunStore MLOps.RunFacts MLOps.RunStoreFacts MLOps.MLOpsApi MLOps.MLOpsApiFacts RunRequests.

(** *** Lifecycle calls *)

(** The runs requests create, and their successful method calls. *)
Definition created (r : ModelRun) : Prop := exists rid mn dd cr ow, r = new_run rid mn dd cr ow.
Definition called (r r' : ModelRun) : Prop :=
  (exists target actor reason now, transition target actor reason now r = (Ok tt, r')) \/
  (exists ms digest p actor now b, record_evaluation ms digest p actor now r = (Ok b, r')).

Lemma called_step r r' : called r r' -> step r r'.
Proof.
  intros [(t & a & re & n & E)|(ms & d & p & a & n & b & E)];
    [replace r' with (transition t a re n r).2 by (by rewrite E)|replace r' with (record_evaluation ms d p a n r).2 by (by rewrite E)];
    constructor.
Qed.
Lemma called_key r r' : called r r' -> run_id r' = run_id r.
Proof.
  intros [->|[(t & a & re & n & _ & ->)|(ms & d & p & a & n & _ & _ & ->)]]%called_step%run_step_cases; [done|apply run_id_moved|].
  unfold evaluated. destruct (evaluate p ms) as [b fs]. apply (run_id_moved (set_results ms d r)).
Qed.

(** The rules of the lifecycle. *)
Definition rules (r : ModelRun) : Prop := approval_inv r /\ trail CREATED r.(history) r.(state).
Lemma created_rules r : created r -> rules r.
Proof. intros (rid & mn & dd & cr & ow & ->). split; [done|constructor]. Qed.
Lemma stored_rules r : rules r -> rules (stored r).
Proof. by destruct r. Qed.
Lemma called_rules r r' : rules r -> called r r' -> rules r'.
Proof. intros [H1 H2] H%called_step. split; [by eapply step_approval_inv|by eapply step_trail]. Qed.

(** A run that a request may write after the writes [l]: a new one, or the
    outcome of a successful call on one that was written. *)
Definition lawful (l : list ModelRun) (r : ModelRun) : Prop :=
  created r \/ exists w, w ∈ l /\ called (stored w) r.
Inductive lawful_writes : list ModelRun -> Prop :=
| writes_nil : lawful_writes []
| writes_snoc l r : lawful_writes l -> lawful l r -> lawful_writes (l ++ [r]).

Lemma lawful_more l e r : lawful l r -> lawful (l ++ e) r.
Proof. intros [H|(w & Hw & H)]; [by left|]. right. exists w. split; [apply elem_of_app; by left|done]. Qed.
Lemma lawful_rules l r : lawful_writes l -> r ∈ l -> rules r.
Proof.
  intros H. revert r. induction H as [|l r _ IH Hr]; intros x Hx; [by apply elem_of_nil in Hx|].
  apply elem_of_app in Hx as [Hx| ->%list_elem_of_singleton]; [by apply IH|].
  destruct Hr as [Hr|(w & Hw & Hr)]; [by apply created_rules|].
  eapply called_rules; [|exact Hr]. by apply stored_rules, IH.
Qed.

(** A serial history of one run: each version is new, or the outcome of a
    successful call on the version before it. *)
Definition succeeds (l : list ModelRun) (r : ModelRun) : Prop :=
  created r \/ exists l1 w, l = l1 ++ [w] /\ called (stored w) r.
Inductive serial : list ModelRun -> Prop :=
| serial_nil : serial []
| serial_snoc l r : serial l -> succeeds l r -> serial (l ++ [r]).

(** *** Versions *)

Lemma saved_versions_app id l e : versions id (l ++ e) = versions id l ++ versions id e.
Proof. apply List.filter_app. Qed.
Lemma saved_versions_one id r : versions id [r] = if bool_decide (run_id r = id) then [r] else [].
Proof. unfold versions. cbn. by case_bool_decide. Qed.
Lemma versions_elem id l r : r ∈ versions id l <-> run_id r = id /\ r ∈ l.
Proof. unfold versions. by rewrite elem_of_filter_bool, bool_decide_eq_true. Qed.
Lemma last_version id l r : last (versions id l) = Some r -> run_id r = id /\ r ∈ l.
Proof. intros [l1 E]%last_Some. apply versions_elem. rewrite E. apply elem_of_app. right. by left. Qed.
Definition count (id : string) (l : list ModelRun) : Z := Z.of_nat (length (versions id l)).
Lemma count_more id l e : count id l <= count id (l ++ e).
Proof. unfold count. rewrite saved_versions_app, length_app. lia. Qed.

(** A row of the table, against the writes so far: the last version of its run,
    at a revision in range. *)
Definition row_of (l : list ModelRun) (id : string) (x : option row) : Prop :=
  match x, last (versions id l) with
  | Some x, Some w => x.(payload) = jsort (run_json w) /\ 1 <= x.(revision) <= count id l
  | None, None => True
  | _, _ => False
  end.
Lemma row_found l id t x : row_of l id (dget id t) -> dget id t = Some x -> exists w,
  last (versions id l) = Some w /\ dget id t = Some {| payload := jsort (run_json w); revision := x.(revision) |} /\
  1 <= x.(revision) <= count id l.
Proof.
  intros H E. rewrite E in H. unfold row_of in H. destruct (last _) as [w|]; [|done]. exists w.
  rewrite E. destruct x as [d n], H as [H1 H2]. cbn in *. by rewrite H1.
Qed.
Lemma row_written l r t rev : (forall id, row_of l id (dget id t)) -> 1 <= rev <= count (run_id r) l + 1 -> forall id,
  row_of (l ++ [r]) id (dget id (dset (run_id r) {| payload := jsort (run_json r); revision := rev |} t)).
Proof.
  intros H Hn id. unfold row_of, count. rewrite saved_versions_app, saved_versions_one. case_bool_decide as E.
  - subst id. rewrite dget_dset_eq, last_snoc, length_app. cbn. unfold count in Hn. split; [done|lia].
  - rewrite app_nil_r, dget_dset_ne by done. apply H.
Qed.

(** *** The first part of a handler *)

Lemma set_store_same s : set_store s.(MLOpsApi.store) s = s.
Proof. by destruct s. Qed.
Lemma on_get id s x s' : on_store (get id) s = (x, s') -> s' = s /\ get id s.(MLOpsApi.store) = (x, s.(MLOpsApi.store)).
Proof.
  unfold on_store, zoom_M. pose proof (get_unchanged id s.(MLOpsApi.store)) as Hu.
  destruct (get id _) as [y t]. cbn in Hu. subst t. intros H. injection H as -> <-. by rewrite set_store_same.
Qed.
Lemma get_stored l id t r n : row_of l id (dget id t) -> get id t = (Ok (r, n), t) -> exists w,
  last (versions id l) = Some w /\ r = stored w /\ 1 <= n <= count id l /\ revision <$> dget id t = Some n.
Proof.
  intros Hrow Hg. destruct (dget id t) as [x|] eqn:E; [|unfold get in Hg; mred in Hg; by rewrite E in Hg].
  rewrite <- E in Hrow. destruct (row_found _ _ _ _ Hrow E) as (w & Hw & Hd & Hr).
  rewrite (get_saved _ _ _ _ Hd) in Hg. injection Hg as <- <-. rewrite <- E, Hd. eauto 10.
Qed.

(** What a request holds after its first part: a new run, or the outcome of a
    call on the version it read; the table is as it was. *)
Lemma prepare_ok q s r e s' : prepare q s = (Ok (r, e), s') -> s'.(MLOpsApi.store) = s.(MLOpsApi.store) /\
  ((created r /\ e = None) \/
   exists id w n, get id s.(MLOpsApi.store) = (Ok (w, n), s.(MLOpsApi.store)) /\ called w r /\ e = Some n).
Proof.
  destruct q as [id q|id q m now|id q m now]; cbn [prepare].
  - destruct (negb _); [done|]. intros [= <- <- <-]. split; [done|]. left. split; [by do 5 eexists|done].
  - destruct (negb _); [done|]. unfold mbind_M at 1. destruct (on_store (get id) s) as [[[w n]|x] s1] eqn:Hg; [|done].
    apply on_get in Hg as [-> Hg]. cbn [fst snd]. destruct (negb _); [done|]. unfold mbind_M at 1, on_object.
    destruct (transition _ _ _ _ w) as [[[]|x] w'] eqn:E; [|done]. unfold inc_transition. mred. intros [= <- <- <-].
    split; [done|]. right. exists id, w, n. split; [done|]. split; [left; eauto|done].
  - destruct (negb _); [done|]. unfold mbind_M at 1. destruct (on_store (get id) s) as [[[w n]|x] s1] eqn:Hg; [|done].
    apply on_get in Hg as [-> Hg]. cbn [fst snd]. destruct (negb _); [done|]. unfold mbind_M at 1, on_object.
    destruct (record_evaluation _ _ _ _ _ w) as [[b|x] w'] eqn:E; [|done]. mred. intros [= <- <- <-].
    split; [done|]. right. exists id, w, n. split; [done|]. split; [right; eauto 10|done].
Qed.
Lemma prepare_err q s x s' : prepare q s = (Err x, s') -> s'.(MLOpsApi.store) = s.(MLOpsApi.store).
Proof.
  destruct q as [id q|id q m now|id q m now]; cbn [prepare]; (destruct (negb _); [by intros [= _ <-]|]); [done|..];
    unfold mbind_M at 1; (destruct (on_store (get id) s) as [[[w n]|y] s1] eqn:Hg; apply on_get in Hg as [-> _]; [|by intros [= _ <-]]);
    cbn [fst snd]; (destruct (negb _); [by intros [= _ <-]|]); unfold mbind_M at 1, on_object.
  - destruct (transition _ _ _ _ w) as [[[]|z] w']; [done|by intros [= _ <-]].
  - destruct (record_evaluation _ _ _ _ _ w) as [[b|z] w']; [done|by intros [= _ <-]].
Qed.
Lemma on_store_eq {A} (m : M RunStore.table A) s : on_store m s = ((m s.(MLOpsApi.store)).1, set_store (m s.(MLOpsApi.store)).2 s).
Proof. unfold on_store, zoom_M. by destruct (m _). Qed.

(** *** What every schedule keeps *)

Definition caller_ok (l : list ModelRun) (p : progress) : Prop :=
  match p with
  | Prepared r _ => lawful l r
  | Checked r found => lawful l r /\ 0 <= default 0 found <= count (run_id r) l /\ (found <> None -> versions (run_id r) l <> [])
  | Answered (Ok j) => exists r rev, r ∈ l /\ j = _serialize r rev
  | _ => True
  end.
Record sound (l : list ModelRun) (t : RunStore.table) (ps : list caller) : Prop := {
  so_writes : lawful_writes l;
  so_rows : forall id, row_of l id (dget id t);
  so_callers : forall i c, ps !! i = Some c -> caller_ok l c.(at_);
}.

Lemma caller_more l e p : caller_ok l p -> caller_ok (l ++ e) p.
Proof.
  destruct p as [|r x|r f|[j|x]]; cbn; try done.
  - apply lawful_more.
  - intros (H1 & H2 & H3). pose proof (count_more (run_id r) l e) as Hc. split_and!; [by apply lawful_more|lia|lia|].
    intros Hf. rewrite saved_versions_app. by destruct (versions (run_id r) l); [destruct H3|].
  - intros (r & rev & Hr & ->). exists r, rev. split; [apply elem_of_app; by left|done].
Qed.
(** The other callers keep what they have. *)
Lemma callers_update (P Q : progress -> Prop) (ps : list caller) i c p :
  (forall j c, ps !! j = Some c -> P c.(at_)) -> (forall j c, j <> i -> ps !! j = Some c -> P c.(at_) -> Q c.(at_)) -> Q p ->
  forall j c', <[i := {| asks := c; at_ := p |}]> ps !! j = Some c' -> Q c'.(at_).
Proof.
  intros H Hm Hp j c' Hj. destruct (decide (j = i)) as [->|Hne].
  - apply list_lookup_insert_Some in Hj as [(_ & <- & _)|[? _]]; [done|lia].
  - rewrite list_lookup_insert_ne in Hj by done. eauto.
Qed.

(** One statement: the cases of [advance]. *)
Inductive moves (c : caller) (s : service) : progress -> list ModelRun -> service -> Prop :=
| move_prepare r e s' : c.(at_) = Asked -> prepare c.(asks) s = (Ok (r, e), s') -> moves c s (Prepared r e) [] s'
| move_check r e f : c.(at_) = Prepared r e -> save_check r e s.(MLOpsApi.store) = (Ok f, s.(MLOpsApi.store)) ->
    moves c s (Checked r f) [] s
| move_write r f rev t : c.(at_) = Checked r f -> save_write r f s.(MLOpsApi.store) = (Ok rev, t) ->
    moves c s (Answered (Ok (_serialize r rev))) [r] (set_store t s)
| move_stop x s' : is_ok x = false -> s'.(MLOpsApi.store) = s.(MLOpsApi.store) -> moves c s (Answered x) [] s'
| move_stay x : c.(at_) = Answered x -> moves c s (Answered x) [] s.

Lemma errors_err {A} q e s : is_ok (errors (A := A) q (lift_M (Err e)) s).1 = false.
Proof.
  assert (is_ok (with_errors (A := A) (lift_M (Err e)) s).1 = false) as H
    by (unfold with_errors, catch_M, lift_M, http_M; destruct (catches [KeyError] e); [done|]; by destruct (catches [ValueError] e)).
  by destruct q.
Qed.
Lemma advance_moves c s p w s' : advance c s = ((p, w), s') -> moves c s p w s'.
Proof.
  unfold advance. destruct (at_ c) as [|r e|r f|x] eqn:E.
  - destruct (prepare (asks c) s) as [[[r e]|y] s1] eqn:Hp; intros [= <- <- <-]; [by constructor|].
    apply move_stop; [apply errors_err|by eapply prepare_err].
  - rewrite on_store_eq. pose proof (save_check_unchanged r e s.(MLOpsApi.store)) as Hu.
    destruct (save_check r e (MLOpsApi.store s)) as [[f|y] t] eqn:Hc; cbn [fst snd] in Hu |- *; subst t; rewrite set_store_same;
      intros [= <- <- <-]; [by eapply move_check|]. apply move_stop; [apply errors_err|done].
  - rewrite on_store_eq. destruct (save_write r f (MLOpsApi.store s)) as [[rev|y] t] eqn:Hc; cbn [fst snd]; intros [= <- <- <-].
    + by eapply move_write.
    + apply save_write_err in Hc as ->. rewrite set_store_same. apply move_stop; [apply errors_err|done].
  - intros [= <- <- <-]. by apply move_stay.
Qed.
Lemma turn_cases x s : take_turn x s = s \/ exists c p w sv, s.(callers) !! whose x = Some c /\ moves c s.(shared) p w sv /\
  take_turn x s = {| shared := sv; writes := s.(writes) ++ w; callers := <[whose x := {| asks := c.(asks); at_ := p |}]> s.(callers) |}.
Proof.
  unfold take_turn. destruct (callers s !! whose x) as [c|] eqn:Hc; [right|by left]. destruct x as [i|i].
  - destruct (advance c (shared s)) as [[p w] sv] eqn:E. apply advance_moves in E. eauto 10.
  - destruct (at_ c) as [| | |y] eqn:E; do 4 eexists; (split; [done|]; split; [|reflexivity]);
      [by apply move_stop..|by apply move_stay].
Qed.

Lemma move_sound l s c p w s' ps i : sound l s.(MLOpsApi.store) ps -> ps !! i = Some c -> moves c s p w s' ->
  sound (l ++ w) s'.(MLOpsApi.store) (<[i := {| asks := c.(asks); at_ := p |}]> ps).
Proof.
  intros [Hw Hr Hc] Hi Hm. pose proof (Hc i c Hi) as Hci.
  assert (Hmore : forall e q, caller_ok (l ++ e) q ->
    forall j c', <[i := {| asks := c.(asks); at_ := q |}]> ps !! j = Some c' -> caller_ok (l ++ e) c'.(at_))
    by (intros e q Hq; eapply callers_update; [exact Hc| |exact Hq]; intros; by apply caller_more).
  destruct Hm as [r e s' Ha Hp|r e f Ha Hp|r f rev t Ha Hp|x s' Hx Hs|x Ha]; try rewrite Ha in Hci; cbn [caller_ok] in Hci.
  - apply prepare_ok in Hp as [Hs Hp]. rewrite Hs. split; [by rewrite app_nil_r|intros id; rewrite app_nil_r; apply Hr|].
    apply Hmore, caller_more. destruct Hp as [[Hp _]|(id & v & n & Hg & Hp & _)]; [by left|].
    destruct (get_stored _ _ _ _ _ (Hr id) Hg) as (u & Hu & -> & _). apply last_version in Hu as [_ Hu]. right. by exists u.
  - apply save_check_found in Hp as (_ & -> & _). split; [by rewrite app_nil_r|intros id; rewrite app_nil_r; apply Hr|].
    apply Hmore, caller_more. cbn. split; [done|]. destruct (dget (run_id r) (MLOpsApi.store s)) as [x|] eqn:Ed; cbn;
      [|split; [unfold count; lia|done]].
    pose proof (Hr (run_id r)) as Hrow. destruct (row_found _ _ _ _ Hrow Ed) as (u & Hu & _ & Hn). split; [lia|].
    intros _ Hnil. by rewrite Hnil in Hu.
  - destruct Hci as (Hl & Hn & Hf). apply save_write_ok in Hp as [-> [[_ ->]|(Hd & Hs & _)]].
    + split; [by constructor|apply row_written; [done|lia]|]. apply Hmore. cbn. exists r, (default 0 f + 1).
      split; [apply elem_of_app; right; by left|done].
    + specialize (Hr (run_id r)). rewrite Hd in Hr. unfold row_of in Hr. destruct (last _) eqn:El; [done|].
      apply last_None in El. by destruct (Hf Hs).
  - rewrite Hs. split; [by rewrite app_nil_r|intros id; rewrite app_nil_r; apply Hr|]. apply Hmore. by destruct x.
  - split; [by rewrite app_nil_r|intros id; rewrite app_nil_r; apply Hr|]. by apply Hmore, caller_more.
Qed.

Definition sound_system (s : system) : Prop := sound s.(writes) s.(shared).(MLOpsApi.store) s.(callers).
Lemma turn_sound x s : sound_system s -> sound_system (take_turn x s).
Proof.
  intros H. destruct (turn_cases x s) as [->|(c & p & w & sv & Hc & Hm & ->)]; [done|].
  by eapply move_sound.
Qed.
Lemma schedule_sound xs qs c : sound_system (run_schedule xs (begin_all qs {| MLOpsApi.store := []; transitions := c |})).
Proof.
  apply (schedule_invariant take_turn (fun _ => True) sound_system); [intros x s _; apply turn_sound|by apply Forall_true|].
  split; cbn; [constructor|done|]. intros i x. rewrite list_lookup_fmap. by destruct (qs !! i); intros [= <-].
Qed.

(** *** What uninterrupted saves keep *)

(** What a request holds, against the history of its run. *)
Definition in_line (l : list ModelRun) (p : progress) : Prop :=
  match p with
  | Prepared r e => (created r /\ e = None) \/ exists l1 w l2,
      versions (run_id r) l = (l1 ++ [w]) ++ l2 /\ called (stored w) r /\ e = Some (Z.of_nat (length (l1 ++ [w])))
  | Checked r f => succeeds (versions (run_id r) l) r /\ default 0 f = count (run_id r) l
  | Answered (Ok j) => exists r l1 l2, versions (run_id r) l = (l1 ++ [r]) ++ l2 /\
      j = _serialize r (Z.of_nat (length (l1 ++ [r])))
  | _ => True
  end.
Record in_order (l : list ModelRun) (t : RunStore.table) (ps : list caller) : Prop := {
  io_serial : forall id, serial (versions id l);
  io_revision : forall id, default 0 (revision <$> dget id t) = count id l;
  io_callers : forall i c, ps !! i = Some c -> in_line l c.(at_);
}.

Lemma in_line_more l e p : e = [] \/ is_checked p = false -> in_line l p -> in_line (l ++ e) p.
Proof.
  intros [->|Hp]; [by rewrite app_nil_r|]. destruct p as [|r x|r f|[j|x]]; cbn; try done.
  - intros [H|(l1 & w & l2 & E & H)]; [by left|]. right. exists l1, w, (l2 ++ versions (run_id r) e).
    by rewrite saved_versions_app, E, app_assoc.
  - intros (r & l1 & l2 & E & H). exists r, l1, (l2 ++ versions (run_id r) e). by rewrite saved_versions_app, E, app_assoc.
Qed.

(** The SELECT of a save that passes finds the version the request read. *)
Lemma check_succeeds l t r e f : (forall id, default 0 (revision <$> dget id t) = count id l) ->
  in_line l (Prepared r e) -> save_check r e t = (Ok f, t) -> in_line l (Checked r f).
Proof.
  intros Hn Hp (_ & -> & He)%save_check_found. cbn. split; [|apply Hn].
  destruct Hp as [[Hp _]|(l1 & w & l2 & E & Hc & ->)]; [by left|]. right.
  specialize (Hn (run_id r)). unfold count in Hn. rewrite E, length_app in Hn.
  destruct (dget (run_id r) t) as [x|]; cbn in Hn, He.
  - specialize (He _ _ eq_refl eq_refl). destruct l2; [|cbn in Hn; lia]. exists l1, w. by rewrite app_nil_r in E.
  - rewrite length_app in Hn. cbn in Hn. lia.
Qed.

Lemma move_in_order l s c p w s' ps i : sound l s.(MLOpsApi.store) ps -> in_order l s.(MLOpsApi.store) ps ->
  (forall j c, ps !! j = Some c -> is_checked c.(at_) = true -> j = i) -> ps !! i = Some c -> moves c s p w s' ->
  in_order (l ++ w) s'.(MLOpsApi.store) (<[i := {| asks := c.(asks); at_ := p |}]> ps).
Proof.
  intros Hso [Hs Hn Hc] Hidle Hi Hm. pose proof (Hc i c Hi) as Hci.
  assert (Hmore : forall e q, in_line (l ++ e) q ->
    forall j c', <[i := {| asks := c.(asks); at_ := q |}]> ps !! j = Some c' -> in_line (l ++ e) c'.(at_)).
  { intros e q Hq. eapply (callers_update (in_line l)); [exact Hc| |exact Hq]. intros j d Hj Hd Hl. apply in_line_more; [|done].
    right. destruct (is_checked (at_ d)) eqn:Ed; [|done]. by destruct (Hj (Hidle j d Hd Ed)). }
  assert (Hstay : forall q t, in_line l q -> t = s.(MLOpsApi.store) -> in_order (l ++ []) t (<[i := {| asks := c.(asks); at_ := q |}]> ps)).
  { intros q t Hq ->. split; [intros id; rewrite app_nil_r; apply Hs|intros id; rewrite app_nil_r; apply Hn|].
    apply Hmore. by rewrite app_nil_r. }
  destruct Hm as [r e s' Ha Hp|r e f Ha Hp|r f rev t Ha Hp|x s' Hx Hx'|x Ha]; try rewrite Ha in Hci.
  - apply prepare_ok in Hp as [Hst Hp]. apply Hstay; [|done].
    destruct Hp as [Hp|(id & v & n & Hg & Hp & ->)]; [by left|]. right.
    destruct (get_stored _ _ _ _ _ (so_rows _ _ _ Hso id) Hg) as (u & Hu & -> & _ & Hrev).
    specialize (Hn id). rewrite Hrev in Hn. pose proof (last_version _ _ _ Hu) as [Hid _]. apply last_Some in Hu as [l1 E].
    exists l1, u, []. rewrite app_nil_r, (called_key _ _ Hp). change (run_id (stored u)) with (run_id u). rewrite Hid.
    split; [done|]. split; [done|]. f_equal. cbn in Hn. unfold count in Hn. by rewrite E in Hn.
  - apply Hstay; [|done]. by apply (check_succeeds l (MLOpsApi.store s) r e f Hn).
  - destruct Hci as [Hr Hf]. pose proof (so_callers _ _ _ Hso i c Hi) as Hso'. rewrite Ha in Hso'. destruct Hso' as (_ & _ & Hf').
    apply save_write_ok in Hp as [-> [[_ ->]|(Hd & Hsome & _)]].
    2: { specialize (Hn (run_id r)). rewrite Hd in Hn. cbn in Hn. unfold count in Hn.
         destruct (versions (run_id r) l); [by destruct (Hf' Hsome)|done]. }
    cbn [MLOpsApi.store set_store]. split.
    + intros id. rewrite saved_versions_app, saved_versions_one. case_bool_decide as E; [|by rewrite app_nil_r].
      subst id. by apply serial_snoc.
    + intros id. unfold count. rewrite saved_versions_app, saved_versions_one, length_app. case_bool_decide as E.
      * subst id. rewrite dget_dset_eq. cbn. unfold count in Hf. lia.
      * rewrite dget_dset_ne by done. rewrite Hn. unfold count. cbn. lia.
    + apply Hmore. exists r, (versions (run_id r) l), []. rewrite saved_versions_app, saved_versions_one, bool_decide_eq_true_2 by done.
      rewrite app_nil_r, length_app. split; [done|]. f_equal. cbn. unfold count in Hf. lia.
  - apply Hstay; [by destruct x|done].
  - by apply Hstay.
Qed.
Definition order_system (s : system) : Prop := in_order s.(writes) s.(shared).(MLOpsApi.store) s.(callers).
Lemma schedule_in_order xs s : sound_system s -> order_system s -> uninterrupted xs s -> order_system (run_schedule xs s).
Proof.
  revert s. induction xs as [|x xs IH]; intros s Hs Ho; [done|]. intros [Hidle Hu]. cbn. apply IH; [by apply turn_sound| |done].
  destruct (turn_cases x s) as [->|(c & p & w & sv & Hc & Hm & ->)]; [done|]. by eapply move_in_order.
Qed.
Lemma begin_in_order qs c : order_system (begin_all qs {| MLOpsApi.store := []; transitions := c |}).
Proof.
  split; cbn; [constructor|done|]. intros i x. rewrite list_lookup_fmap. by destruct (qs !! i); intros [= <-].
Qed.

(** *** A handler called alone *)

Lemma on_store_save r e s : on_store (RunStore.save r e) s =
  (let! f := on_store (save_check r e) in on_store (save_write r f)) s.
Proof.
  unfold mbind_M at 1. rewrite !on_store_eq. unfold RunStore.save, mbind_M.
  destruct (save_check r e (MLOpsApi.store s)) as [[f|x] t]; cbn [fst snd]; [|done]. by rewrite on_store_eq; destruct s.
Qed.
Lemma with_errors_eq {A} (m : M service A) s : with_errors m s =
  match m s with (Ok a, s') => (Ok a, s') | (Err e, s') => ((with_errors (A := A) (lift_M (Err e)) s').1, s') end.
Proof.
  unfold with_errors, catch_M, lift_M, http_M. destruct (m s) as [[a|e] s']; [done|].
  destruct (catches [KeyError] e); [done|]. by destruct (catches [ValueError] e).
Qed.
Lemma errors_eq {A} q (m : M service A) s : errors q m s =
  match m s with (Ok a, s') => (Ok a, s') | (Err e, s') => ((errors (A := A) q (lift_M (Err e)) s').1, s') end.
Proof. destruct q; [|apply with_errors_eq..]. cbn. by destruct (m s) as [[a|e] s']. Qed.

Lemma with_errors_ext {A} (m m' : M service A) s : m s = m' s -> with_errors m s = with_errors m' s.
Proof. unfold with_errors, catch_M. by intros ->. Qed.
Lemma bind_save {B} r e (k : Z -> M service B) s : (let! rev := on_store (RunStore.save r e) in k rev) s =
  (let! f := on_store (save_check r e) in let! rev := on_store (save_write r f) in k rev) s.
Proof.
  unfold mbind_M at 1. rewrite on_store_save. unfold mbind_M.
  destruct (on_store (save_check r e) s) as [[f|x] s']; [|done]. by destruct (on_store (save_write r f) s') as [[]].
Qed.

(** A handler is its first part and the two statements of the save. *)
Lemma run_request_parts q s : serve q s = errors q (let! re := prepare q in let! f := on_store (save_check re.1 re.2) in
  let! rev := on_store (save_write re.1 f) in mret_M (_serialize re.1 rev)) s.
Proof.
  destruct q as [id q|id q n now|id q n now]; cbn [serve prepare errors].
  - unfold create_run. destruct (negb _); [done|]. apply bind_save.
  - unfold transition_run. destruct (negb _); [done|]. apply with_errors_ext. unfold mbind_M at 1 5 6.
    destruct (on_store (get id) s) as [[rr|e] s1]; [|done]. destruct (negb _); [done|]. unfold mbind_M at 1 4.
    destruct (on_object rr.1 _ s1) as [[ur|e] s2]; [|done]. apply bind_save.
  - unfold record_evaluation_run. destruct (negb _); [done|]. apply with_errors_ext. unfold mbind_M at 1 4 5.
    destruct (on_store (get id) s) as [[rr|e] s1]; [|done]. destruct (negb _); [done|]. unfold mbind_M at 1 3.
    destruct (on_object rr.1 _ s1) as [[ur|e] s2]; [|done]. apply bind_save.
Qed.

Lemma take_turn_at i s q p : s.(callers) !! i = Some {| asks := q; at_ := p |} ->
  let '((p', w), sv) := advance {| asks := q; at_ := p |} s.(shared) in
  take_turn (Goes i) s = {| shared := sv; writes := s.(writes) ++ w; callers := <[i := {| asks := q; at_ := p' |}]> s.(callers) |}.
Proof. intros H. unfold take_turn. cbn [whose]. rewrite H. by destruct (advance _ _) as [[p' w] sv]. Qed.
(** A further turn of a request that this turn brings to [p]. *)
Lemma take_turn_again i sv l ps c0 q p : ps !! i = Some c0 ->
  let '((p', w), sv') := advance {| asks := q; at_ := p |} sv in
  take_turn (Goes i) {| shared := sv; writes := l; callers := <[i := {| asks := q; at_ := p |}]> ps |} =
    {| shared := sv'; writes := l ++ w; callers := <[i := {| asks := q; at_ := p' |}]> ps |}.
Proof.
  intros H. pose proof (take_turn_at i {| shared := sv; writes := l; callers := <[i := {| asks := q; at_ := p |}]> ps |} q p) as Ht.
  cbn [shared writes callers] in Ht. destruct (advance _ sv) as [[p' w] sv']. rewrite Ht; [by rewrite list_insert_insert_eq|].
  apply list_lookup_insert_eq. by eapply lookup_lt_Some.
Qed.
Lemma answered_stays i sv l ps c0 q x : ps !! i = Some c0 ->
  take_turn (Goes i) {| shared := sv; writes := l; callers := <[i := {| asks := q; at_ := Answered x |}]> ps |} =
    {| shared := sv; writes := l; callers := <[i := {| asks := q; at_ := Answered x |}]> ps |}.
Proof. intros H. rewrite (take_turn_again i sv l ps c0 q (Answered x) H). by rewrite app_nil_r. Qed.

(** The three turns of one request in a row are its handler. *)
Lemma run_request_alone i q s : s.(callers) !! i = Some {| asks := q; at_ := Asked |} -> exists l,
  run_schedule [Goes i; Goes i; Goes i] s =
    {| shared := (serve q s.(shared)).2; writes := s.(writes) ++ l;
       callers := <[i := {| asks := q; at_ := Answered (serve q s.(shared)).1 |}]> s.(callers) |}.
Proof.
  intros Hi. change (run_schedule [Goes i; Goes i; Goes i] s) with (take_turn (Goes i) (take_turn (Goes i) (take_turn (Goes i) s))).
  rewrite run_request_parts, errors_eq. unfold mbind_M. pose proof (take_turn_at _ _ _ _ Hi) as H1. unfold advance in H1. cbn [at_ asks] in H1.
  destruct (prepare q (shared s)) as [[[r e]|x] s1].
  2: { exists []. rewrite H1. by rewrite !(answered_stays _ _ _ _ _ _ _ Hi). }
  rewrite H1. cbn [fst snd]. pose proof (take_turn_again i s1 (writes s ++ []) (callers s) _ q (Prepared r e) Hi) as H2.
  unfold advance in H2. cbn [at_ asks] in H2. destruct (on_store (save_check r e) s1) as [[f|x] s2].
  2: { exists []. rewrite H2. rewrite !(answered_stays _ _ _ _ _ _ _ Hi). by rewrite app_nil_r. }
  rewrite H2. pose proof (take_turn_again i s2 ((writes s ++ []) ++ []) (callers s) _ q (Checked r f) Hi) as H3.
  unfold advance in H3. cbn [at_ asks] in H3. destruct (on_store (save_write r f) s2) as [[rev|x] s3]; rewrite H3.
  - exists [r]. by rewrite !app_nil_r.
  - exists []. by rewrite !app_nil_r.
Qed.

End RunRequestsFacts.

(** ** Properties *)

Module RunConcurrencyTheorems.
Import MLOps.Run MLOps.RunStore MLOps.RunFacts MLOps.RunStoreFacts MLOps.MLOpsApi RunRequests RunRequestsFacts.

(** C2: the run service under every interleaving of the statements of requests
    that create, move and evaluate runs, from an empty store.  Each run written
    is a new one or the outcome of a successful lifecycle call on one written
    before it, obeys the separation of duties, and its history is a path of the
    transition table; a read finds the last run written under its identifier,
    at a revision between 1 and the number of those writes; an answered run was
    written.  If no statement of another request comes between the SELECT and
    the write of a save, the writes of each run are moreover a serial history,
    each on the one before it (or a creation), the revision of a run is their
    number, and each answer names the place of its run in this history, so no
    update is lost.  The three statements of a request in a row are its
    handler. *)
Theorem runs_lawful_interleaved : forall qs c xs,
  let s0 := begin_all qs {| MLOpsApi.store := []; transitions := c |} in
  let s := run_schedule xs s0 in let t := s.(shared).(MLOpsApi.store) in
  (lawful_writes s.(writes) /\ forall r, r ∈ s.(writes) ->
     (past_approval r.(state) = true -> approved_by_other r) /\ trail CREATED r.(history) r.(state)) /\
  (forall id r n, get id t = (Ok (r, n), t) -> exists w, last (versions id s.(writes)) = Some w /\ r = stored w /\
     1 <= n <= Z.of_nat (length (versions id s.(writes)))) /\
  (forall i q j, s.(callers) !! i = Some {| asks := q; at_ := Answered (Ok j) |} ->
     exists r n, r ∈ s.(writes) /\ j = _serialize r n) /\
  (uninterrupted xs s0 ->
     (forall id, serial (versions id s.(writes)) /\
        get id t = (match last (versions id s.(writes)) with
                    | Some r => Ok (stored r, Z.of_nat (length (versions id s.(writes))))
                    | None => raise KeyError id
                    end, t)) /\
     (forall i q j, s.(callers) !! i = Some {| asks := q; at_ := Answered (Ok j) |} -> exists r l1 l2,
        versions r.(run_id) s.(writes) = (l1 ++ [r]) ++ l2 /\ j = _serialize r (Z.of_nat (length (l1 ++ [r]))))) /\
  (forall i q, s.(callers) !! i = Some {| asks := q; at_ := Asked |} ->
     let s' := run_schedule [Goes i; Goes i; Goes i] s in
     s'.(shared) = (serve q s.(shared)).2 /\
     s'.(callers) = <[i := {| asks := q; at_ := Answered (serve q s.(shared)).1 |}]> s.(callers)).
Proof.
  intros qs c xs s0 s t. pose proof (schedule_sound xs qs c) as Hs. destruct Hs as [Hw Hr Hc]. fold s0 s t in Hw, Hr, Hc.
  split_and!.
  - done.
  - intros r H. exact (lawful_rules _ r Hw H).
  - intros id r n Hg. destruct (get_stored _ _ _ _ _ (Hr id) Hg) as (w & H1 & H2 & H3 & _). by exists w.
  - intros i q j H. exact (Hc i _ H).
  - intros Hu. pose proof (schedule_in_order xs s0 (schedule_sound [] qs c) (begin_in_order qs c) Hu) as [Ho Hn Ha].
    fold s t in Ho, Hn, Ha. split; [|intros i q j H; exact (Ha i _ H)]. intros id. split; [apply Ho|].
    specialize (Hr id). specialize (Hn id). destruct (dget id t) as [x|] eqn:E.
    + pose proof E as E'. rewrite <- E in Hr. destruct (row_found _ _ _ _ Hr E) as (w & Hlast & Hd & _). rewrite Hlast.
      rewrite (get_saved _ _ _ _ Hd). cbn in Hn. by rewrite Hn.
    + unfold row_of in Hr. destruct (last _); [done|]. unfold get. mred. by rewrite E.
  - intros i q Hi s'. destruct (run_request_alone i q s Hi) as [l E]. unfold s'. by rewrite E.
Qed.

(** Two callers move a new run; the second one waits for the first one's save. *)
Definition ex_create : CreateRun := {| c_model_name := "fraud";
  c_dataset_digest := "sha256:0000000000000000000000000000000000000000000000000000000000000000";
  c_code_revision := "0123456789"; c_owner := "trainer" |}.
Definition ex_train (actor : string) : request :=
  Transiting "r1" {| t_target := TRAINING; t_actor := actor; t_reason := EmptyString |} 1 "now".
Definition ex_requests : list request := [Creating "r1" ex_create; ex_train "anna"; ex_train "ben"].
Abbreviation ex_begin := (begin_all ex_requests {| MLOpsApi.store := []; transitions := [] |}).
Definition ex_turns : list turn := [Goes 0; Goes 0; Goes 0; Goes 1; Goes 2; Goes 1; Goes 1; Goes 2].
(** ... or both look for the revision before either of them writes. *)
Definition ex_crossing : list turn := [Goes 0; Goes 0; Goes 0; Goes 1; Goes 2; Goes 1; Goes 2; Goes 1; Goes 2].

Lemma ex_uninterrupted : uninterrupted ex_turns ex_begin.
Proof. repeat split; intros [|[|[|j]]] x; vm_compute; try done; intros [= <-]; done. Qed.

Lemma runs_lawful_interleaved_witness : exists r,
  get "r1" (run_schedule ex_turns ex_begin).(shared).(MLOpsApi.store) =
    (Ok (stored r, 2), (run_schedule ex_turns ex_begin).(shared).(MLOpsApi.store)) /\
  map h_actor r.(history) = ["anna"] /\
  map at_ (callers (run_schedule ex_turns ex_begin)) !! 2%nat = Some (Answered (raise RuntimeError "concurrent update detected")).
Proof.
  destruct (runs_lawful_interleaved ex_requests [] ex_turns) as (_ & _ & _ & Hu & _).
  destruct (Hu ex_uninterrupted) as [H _]. destruct (H "r1") as [_ Hg]. eexists. split; [exact Hg|].
  split; vm_compute; reflexivity.
Defined.

(** Both callers are answered that their run is stored at revision 2; the
    history of the stored run does not have the first one's transition. *)
Lemma update_lost : let s := run_schedule ex_crossing ex_begin in exists ra rb,
  map at_ s.(callers) !! 1%nat = Some (Answered (Ok (_serialize ra 2))) /\ map h_actor ra.(history) = ["anna"] /\
  map at_ s.(callers) !! 2%nat = Some (Answered (Ok (_serialize rb 2))) /\ map h_actor rb.(history) = ["ben"] /\
  get "r1" s.(shared).(MLOpsApi.store) = (Ok (rb, 2), s.(shared).(MLOpsApi.store)).
Proof.
  pose (run0 := new_run "r1" "fraud" ex_create.(c_dataset_digest) "0123456789" "trainer").
  exists (transition TRAINING "anna" EmptyString "now" run0).2, (transition TRAINING "ben" EmptyString "now" run0).2.
  vm_compute. done.
Qed.

End RunConcurrencyTheorems.
