(* ===== verification/Concurrency.v ===== *)
(** * Concurrent requests to the factory

    The store of platforms/factory/store.py, whose UPDATE names the version it
    replaces, is an instance of the interface of [Cas], and the handlers of
    platforms/factory/api.py its clients: a read, a method call and a save that
    names the version read.  The theorem carries the rules of a workload from one
    object to the stored objects under every interleaving of requests, and each
    handler called alone is one of these interleavings. *)

From Stdlib Require Import String ZArith Lia.
From stdpp Require Import base list strings.
From S2P Require Import Prelude PyStr PyDict PyFloat Json AuditLog Security Factory FactoryApi Cas.

Module Workloads.
Import Factory.Domain Factory.DomainFacts Factory.FactoryStore Factory.FactoryStoreFacts FactoryApi.

(** The factory's store; a row is readable in the tenant of its document. *)
Definition read_row (r : FactoryStore.row) : res FactoryWorkload :=
  let? w := _deserialize r.(document) in
  if bool_decide (r.(r_tenant) = w.(spec).(tenant)) then Ok w else raise OtherError "row of another tenant".
#[export] Instance workload_store : CasStore FactoryStore.table FactoryWorkload := {
  key := workload_id;
  scope := fun w => w.(spec).(tenant);
  view := fun id t => (fun r => (read_row r, r.(version))) <$> dget id t;
  back := stored;
  put_new := FactoryStore.create;
  put_at := FactoryStore.save;
}.

Lemma view_row id (t : FactoryStore.table) w n : Cas.view (V := FactoryWorkload) id t = Some (w, n) ->
  exists r, dget id t = Some r /\ read_row r = w /\ r.(version) = n.
Proof. cbn. destruct (dget id t) as [r|]; [|done]. intros [= <- <-]. by exists r. Qed.
Lemma read_row_ok r w : read_row r = Ok w -> _deserialize r.(document) = Ok w /\ r.(r_tenant) = w.(spec).(tenant).
Proof. unfold read_row. destruct (_deserialize _) as [x|]; cbn [mbind res_bind]; [|done]. case_bool_decide; [|done]. by intros [= ->]. Qed.
Lemma workload_saved w n t : well_formed w -> Cas.view (key w) (saved w n t) = Some (Ok (stored w), n) /\
  forall id, id <> key w -> Cas.view (V := FactoryWorkload) id (saved w n t) = Cas.view id t.
Proof.
  intros Hw. unfold saved. split.
  - cbn [Cas.view key workload_store]. rewrite dget_dset_eq. cbn [fmap option_fmap option_map version].
    unfold read_row. cbn [document r_tenant]. rewrite deserialize_serialize by done. cbn [mbind res_bind].
    by rewrite bool_decide_eq_true_2.
  - intros id Hid. cbn [Cas.view workload_store]. by rewrite dget_dset_ne.
Qed.

Lemma stored_well_formed w : well_formed w -> well_formed (stored w).
Proof.
  intros (H1 & H2 & H3). split_and!; [done|by apply sort_obj_wf|]. intros k g Hin%elem_of_isort. by apply (H3 k).
Qed.
#[export] Instance workload_laws : CasLaws FactoryStore.table FactoryWorkload well_formed.
Proof.
  split; try done.
  - apply stored_well_formed.
  - intros w t Hw Hv. exists (saved w 1 t). split; [|by apply workload_saved]. cbn [put_new workload_store]. rewrite create_outcomes.
    cbn in Hv. by destruct (dget (workload_id w) t).
  - intros w t w0 n Hw (r & Hr & [_ Ht]%read_row_ok & <-)%view_row Hsc. exists (saved w (version r + 1) t).
    split; [|by apply workload_saved]. cbn [put_at workload_store].
    destruct (save_outcomes w (version r) t) as [[_ E]|[Hn _]]; [done|]. destruct Hn. exists r. by rewrite Ht.
  - intros w t w0 m n (r & Hr & _ & <-)%view_row Hne. cbn [put_at workload_store].
    destruct (save_outcomes w n t) as [[(r' & Hr' & _ & <-) _]|[_ E]]; [|eauto]. cbn in Hr. congruence.
Qed.

(** The values requests create, and their successful method calls. *)
Definition registered (w : FactoryWorkload) : Prop := exists s id, valid_spec s /\ w = new_workload s id.
Definition called (w w' : FactoryWorkload) : Prop :=
  (exists g, GateResult_post_init g = Ok g /\ record_gate g w = (Ok tt, w')) \/
  (exists op reason i now (s : service), operate op reason i now w s = (Ok (tt, w'), s)).

Lemma method_step w w' : called w w' -> step w w'.
Proof.
  intros [(g & Hg & E)|(op & re & i & n & s & (_ & H & _)%operate_step)]; [|done].
  replace w' with (record_gate g w).2 by (by rewrite E). by constructor.
Qed.
Lemma method_key w w' : called w w' -> key w' = key w /\ scope w' = scope w.
Proof. intros [->|[(g & _ & _ & _ & ->)|[(a & p & n & _ & ->)|(t & a & re & n & _ & _ & ->)]]]%method_step%workload_step_cases; done. Qed.
Lemma registered_ok w : registered w -> well_formed w.
Proof. intros (s & id & Hs & ->). by apply new_well_formed. Qed.
Lemma called_ok w w' : well_formed w -> called w w' -> well_formed w'.
Proof. intros Hw H%method_step. by eapply step_well_formed. Qed.

(** Governance survives the store, which puts the gates in key order. *)
Definition governed_row (w : FactoryWorkload) : Prop := well_formed w /\ governance_inv w.
Lemma stored_governed w : governed_row w -> governed_row (stored w).
Proof.
  intros [Hw Hi]. split; [by apply stored_well_formed|].
  intros Hp. destruct (Hi Hp) as (Hg & a & e & H1 & H2 & H3 & H4). destruct Hw as (_ & Hd & _). split.
  - intros g Hin. destruct (Hg g Hin) as (r & Hr & Hs). exists r. split; [|done]. cbn. by rewrite (sort_obj_deq _ Hd g).
  - exists a, e. split_and!; try done; try apply H4. unfold evaluators, dvals in *. cbn.
    rewrite (Permutation_map evaluator (Permutation_map snd (isort_perm key_leb (gates w)))). done.
Qed.
Lemma registered_governed w : registered w -> governed_row w.
Proof. intros H. split; [by apply registered_ok|]. destruct H as (s & id & _ & ->). done. Qed.
Lemma called_governed w w' : governed_row w -> called w w' -> governed_row w'.
Proof. intros [H1 H2] H. split; [by eapply called_ok|]. eapply step_governance_inv; [done|by apply method_step]. Qed.

(** ** The handlers as clients *)

Abbreviation workload_exec := (exec (T := FactoryStore.table) (V := FactoryWorkload) registered called).

Lemma linear_view l s id r : linear registered called l s -> dget id s.(rows) = Some r -> exists w,
  Cas.view id s.(rows) = Some (Ok w, r.(version)) /\ _deserialize r.(document) = Ok w.
Proof.
  intros Hl Hr. pose proof (lin_view _ _ _ _ Hl id) as Hv.
  assert (Cas.view id s.(rows) = Some (read_row r, r.(version))) as Hw by (cbn; by rewrite Hr).
  rewrite Hw in Hv. destruct (last _) as [u|]; [|done]. injection Hv as Hu _.
  exists (back u). rewrite Hw, Hu. split; [done|]. by apply read_row_ok in Hu as [Hu _].
Qed.
Lemma get_workload_view l t id tenant (sv : service) w n s' : linear registered called l {| rows := sv.(workloads); reading := t |} ->
  get_workload id tenant sv = (Ok (w, n), s') -> s' = sv /\ Cas.view id sv.(workloads) = Some (Ok w, n).
Proof.
  intros Hl (-> & r & Hr & _ & <- & Hd)%get_workload_ok. destruct (linear_view _ _ id r Hl Hr) as (w' & Hv & Hd'). cbn in Hd'.
  rewrite Hd in Hd'. by injection Hd' as <-.
Qed.
Lemma get_workload_state id tenant sv : (get_workload id tenant sv).2 = sv.
Proof.
  unfold get_workload, mbind_M, on_workloads, zoom_M, get. mred. destruct sv as [t ev]. cbn [workloads].
  destruct (dget id t) as [r|]; [|done]. case_bool_decide; [|done]. unfold lift_M, mbind, res_bind. by destruct (_deserialize _).
Qed.
Lemma conflict_state {A} (m : M service A) s : (conflict m s).2 = (m s).2.
Proof. unfold conflict, catch_M, http_M. destruct (m s) as [[a|e] s']; [done|]. by destruct (catches _ e). Qed.
Lemma conflict_ext {A} (m m' : M service A) s : (forall s, m s = m' s) -> conflict m s = conflict m' s.
Proof. intros H. unfold conflict, catch_M. by rewrite H. Qed.
Lemma on_object_state {A} (w : FactoryWorkload) (m : M FactoryWorkload A) (s : service) : (on_object w m s).2 = s.
Proof. unfold on_object. by destruct (m w) as [[a|e] w']. Qed.
Lemma operate_state op re i now w sv : (operate op re i now w sv).2 = sv.
Proof.
  unfold operate. destruct (bool_decide (op = "approve")); [destruct (negb _); [done|apply on_object_state]|].
  repeat match goal with |- context [if bool_decide ?P then _ else _] => destruct (bool_decide P); [apply on_object_state|] end. done.
Qed.

(** The values of a request that pass the constructors. *)
Lemma SLO_same s s' : SLO_post_init s = Ok s' -> s' = s.
Proof. unfold SLO_post_init, guard_raise. repeat (match goal with |- context [if ?b then _ else _] => destruct b; cbn [mbind res_bind]; [done|] end). by intros [= ->]. Qed.
Lemma FactorySpec_same s s' : FactorySpec_post_init s = Ok s' -> s' = s.
Proof. unfold FactorySpec_post_init, guard_raise. repeat (match goal with |- context [if ?b then _ else _] => destruct b; cbn [mbind res_bind]; [done|] end). by intros [= ->]. Qed.
Lemma accepted_registered slo_ (spec_ : SLO -> FactorySpec) id cs h w : (forall s, (spec_ s).(slo) = s) ->
  (forall e w, h e <> Ok w) ->
  try_res (let? sl := SLO_post_init slo_ in let? sp := FactorySpec_post_init (spec_ sl) in Ok (new_workload sp id)) cs h = Ok w ->
  registered w.
Proof.
  intros Hslo Hh. unfold try_res. destruct (SLO_post_init slo_) as [sl|e] eqn:Es; cbn [mbind res_bind].
  2: { destruct (catches cs e); [intros H; by apply Hh in H|done]. }
  destruct (FactorySpec_post_init (spec_ sl)) as [sp|e] eqn:Ef; cbn [mbind res_bind].
  2: { destruct (catches cs e); [intros H; by apply Hh in H|done]. }
  intros [= <-]. pose proof (SLO_same _ _ Es) as ->. pose proof (FactorySpec_same _ _ Ef) as ->.
  exists (spec_ slo_), id. split; [split; [done|by rewrite Hslo]|done].
Qed.

(** The common end of the two handlers: [m] computes the changed workload. *)
Lemma save_exec {B} (m : M service (unit * FactoryWorkload)) (answer : FactoryWorkload -> Z -> res B) id w n sv t :
  Cas.view id sv.(workloads) = Some (Ok w, n) -> (m sv).2 = sv ->
  (forall w', m sv = (Ok (tt, w'), sv) -> called w w') ->
  exists l, workload_exec {| rows := sv.(workloads); reading := t |} l
    {| rows := (mbind_M (conflict (let! uw := m in let! v := on_workloads (FactoryStore.save uw.2 n) in mret_M (uw.2, v)))
         (fun uv => lift_M (answer uv.1 uv.2)) sv).2.(workloads); reading := t |}.
Proof.
  intros Hv Hst Hc.
  assert (forall c : res (FactoryWorkload * Z) * service, (match c with (Ok a, s') => lift_M (answer a.1 a.2) s' | (Err e, s') => (Err e, s') end).2 = c.2) as Hl.
  { intros [[a|e] s']; [|done]. by destruct (answer a.1 a.2). }
  unfold mbind_M at 1. rewrite Hl, conflict_state. unfold mbind_M at 1.
  destruct (m sv) as [[[[] w']|e] s1] eqn:E; cbn [snd] in Hst; subst s1; [|eexists; apply exec_here]. cbn [snd].
  specialize (Hc w' eq_refl). eexists. eapply eq_ind; [apply (read_write (T := FactoryStore.table) registered called id _ t w n w' Hv Hc)|].
  cbn [put_at workload_store]. unfold mbind_M, on_workloads, zoom_M.
  by destruct (FactoryStore.save w' n (workloads sv)) as [[v|e] t'].
Qed.

Lemma advance_exec l t id op re i now sv : linear registered called l {| rows := sv.(workloads); reading := t |} ->
  exists l', workload_exec {| rows := sv.(workloads); reading := t |} l'
    {| rows := (advance id op re i now sv).2.(workloads); reading := t |}.
Proof.
  intros Hl. unfold advance. unfold mbind_M at 1. destruct (lift_M _ sv) as [[[]|e] s1] eqn:Ha; injection Ha as _ <-; [|eexists; apply exec_here].
  unfold mbind_M at 1. pose proof (get_workload_state id (Security.tenant i) sv) as Hg.
  destruct (get_workload id (Security.tenant i) sv) as [[[w n]|e] s1] eqn:E; cbn [snd] in Hg; subst s1; [|eexists; apply exec_here].
  destruct (get_workload_view _ _ _ _ _ _ _ _ Hl E) as [_ Hv]. cbn [fst snd].
  apply (save_exec _ view id w n sv t Hv); [apply operate_state|]. intros w' H. right. eauto 10.
Qed.
Lemma create_workload_exec id q i sv t : exists l', workload_exec {| rows := sv.(workloads); reading := t |} l'
    {| rows := (create_workload id q i sv).2.(workloads); reading := t |}.
Proof.
  unfold create_workload. unfold mbind_M at 1. destruct (lift_M _ sv) as [[[]|e] s1] eqn:Ha; injection Ha as _ <-; [|eexists; apply exec_here].
  unfold mbind_M at 1, lift_M at 1. destruct (try_res _ _ _) as [w|e] eqn:Hw; [|eexists; apply exec_here].
  assert (registered w) as Hreg by (by eapply accepted_registered in Hw).
  unfold mbind_M, on_workloads, zoom_M. rewrite create_outcomes.
  destruct (dget (workload_id w) (workloads sv)) as [r|] eqn:Hr; [eexists; apply exec_here|].
  exists ([] ++ [w]). eapply exec_step; [apply exec_here|].
  destruct (lift_M (view w 1) _) as [x s2] eqn:El. injection El as _ <-. cbn [snd workloads].
  eapply (client_create registered called w); [done|apply fmap_None; exact Hr|]. cbn [put_new workload_store]. rewrite create_outcomes.
  by rewrite Hr.
Qed.
Lemma record_gate_exec l t ed env id q i now sv : linear registered called l {| rows := sv.(workloads); reading := t |} ->
  exists l', workload_exec {| rows := sv.(workloads); reading := t |} l'
    {| rows := (record_gate_handler ed env id q i now sv).2.(workloads); reading := t |}.
Proof.
  intros Hl. unfold record_gate_handler. unfold mbind_M at 1.
  destruct (lift_M _ sv) as [[[]|e] s1] eqn:Ha; injection Ha as _ <-; [|eexists; apply exec_here].
  unfold mbind_M at 1. pose proof (get_workload_state id (Security.tenant i) sv) as Hg.
  destruct (get_workload id (Security.tenant i) sv) as [[[w n]|e] s1] eqn:E; cbn [snd] in Hg; subst s1; [|eexists; apply exec_here].
  destruct (get_workload_view _ _ _ _ _ _ _ _ Hl E) as [_ Hv]. cbn [fst snd].
  unfold mbind_M at 1, lift_M at 1. destruct (Governance.EvidenceStatement_post_init _); [|eexists; apply exec_here].
  unfold mbind_M at 1, lift_M at 1. destruct (verify_gate_evidence _ _ _ _); [|eexists; apply exec_here].
  destruct (save_exec (let! g := lift_M (GateResult_post_init (result_of q i now)) in on_object w (record_gate g)) view id w n sv t Hv)
    as [l' H].
  - unfold mbind_M, lift_M. destruct (GateResult_post_init _); [apply on_object_state|done].
  - intros w' H. unfold mbind_M, lift_M in H. destruct (GateResult_post_init _) as [g|] eqn:Eg; [|done].
    apply on_object_inv in H as [H _]. left. exists g. split; [|done]. revert Eg. unfold GateResult_post_init, guard_raise. destruct (blank _) eqn:Eb; [done|]. intros [= <-]. by rewrite Eb.
  - exists l'. revert H. unfold mbind_M at 1. unfold mbind_M at 4.
    erewrite conflict_ext; [|intros ?; apply bind_assoc]. done.
Qed.

End Workloads.

(** ** Properties *)

Module WorkloadConcurrency.
Import Factory.Domain Factory.DomainFacts Factory.FactoryStore Factory.FactoryStoreFacts FactoryApi Workloads.

(** C11: the factory is serialisable.  Under every interleaving of requests that
    register workloads, read them and save gates or operations, the writes of
    each workload are one registration and successful method calls, each on
    what the previous one stored; a workload read in its tenant is the last of
    them with their number as its version, and one past its approval has every
    required gate passed and an approver who is neither its owner nor an
    evaluator of its gates; and the three changing handlers, called alone, are
    such interleavings. *)
Theorem factory_serialisable : forall l s,
  workload_exec {| rows := []; reading := [] |} l s -> forall id,
  serial registered called (versions id l) /\
  (forall tenant w n, get id tenant s.(rows) = (Ok (Some (w, n)), s.(rows)) ->
     n = Z.of_nat (length (versions id l)) /\ w.(spec).(Domain.tenant) = tenant /\
     (exists u, last (versions id l) = Some u /\ w = stored u) /\
     (past_approval w.(stage) = true -> governed w)) /\
  (forall ed env op reason f q i now ev, let sv := {| workloads := s.(rows); evidence_rows := ev |} in
     (exists l', workload_exec s l' {| rows := (create_workload id f i sv).2.(workloads); reading := s.(reading) |}) /\
     (exists l', workload_exec s l' {| rows := (advance id op reason i now sv).2.(workloads); reading := s.(reading) |}) /\
     (exists l', workload_exec s l' {| rows := (record_gate_handler ed env id q i now sv).2.(workloads); reading := s.(reading) |})).
Proof.
  intros l s H id. assert (linear registered called l s) as Hl
    by (by eapply (exec_serial (ok := well_formed) registered called); [apply registered_ok|apply called_ok|apply method_key| |exact H]).
  pose proof Hl as [Hs Hv _]. split; [done|]. split.
  - intros ten w n Hg. unfold get in Hg. mred in Hg. destruct (dget id (rows s)) as [r|] eqn:Er; [|done].
    case_bool_decide as Ht; [|done]. destruct (linear_view _ _ _ _ Hl Er) as (w' & Hw & Hd).
    unfold lift_M in Hg. rewrite Hd in Hg. injection Hg as -> <-. rewrite Hv in Hw.
    destruct (last (versions id l)) as [u|] eqn:El; [|done]. injection Hw as Hu Hn.
    symmetry in Hu. subst w.
    assert (u ∈ versions id l) as Hin by (apply last_Some in El as [l1 ->]; apply elem_of_app; right; by left).
    split; [done|]. split; [|split; [by exists u|]].
    + specialize (Hv id). rewrite El in Hv. cbn in Hv. rewrite Er in Hv. cbn in Hv. injection Hv as Hv _.
      apply read_row_ok in Hv as [_ Hv]. by rewrite <- Hv.
    + apply (stored_governed u).
      apply (serial_invariant registered called governed_row (versions id l));
        [exact registered_governed|exact stored_governed|exact called_governed|exact (Hs id)|exact Hin].
  - intros ed env op reason f q i now ev sv. destruct s as [t p]. split_and!.
    + exact (create_workload_exec id f i sv p).
    + exact (advance_exec l p id op reason i now sv Hl).
    + exact (record_gate_exec l p ed env id q i now sv Hl).
Qed.
(** Two evaluators read a workload; the second gate is saved against a stale
    version and refused. *)
Definition ex_new : FactoryWorkload := new_workload FactoryTheorems.ex_spec "w1".
Definition ex_one_gate (g : string) : FactoryWorkload := (record_gate (FactoryTheorems.ex_gate g) ex_new).2.
Lemma ex_workload_exec : workload_exec {| rows := []; reading := [] |} [ex_new; ex_one_gate "security"]
  {| rows := saved (ex_one_gate "security") 2 (saved ex_new 1 []); reading := [] |}.
Proof.
  assert (forall g, str_in g REQUIRED_GATES = true -> called ex_new (ex_one_gate g)) as Hc.
  { intros g Hg. left. exists (FactoryTheorems.ex_gate g). split; [reflexivity|]. unfold ex_one_gate, record_gate.
    mred. cbn [gate FactoryTheorems.ex_gate]. rewrite Hg. reflexivity. }
  set (t1 := saved ex_new 1 []).
  assert (Hread : forall p, client_step registered called {| rows := t1; reading := p |} []
    {| rows := t1; reading := (ex_new, 1) :: p |}) by (intros p; apply (client_read _ _ "w1"); vm_compute; reflexivity).
  apply (exec_step registered called _ [ex_new; ex_one_gate "security"] {| rows := saved (ex_one_gate "security") 2 t1; reading := [(ex_new, 1)] |} []).
  2: { apply (client_conflict registered called ex_new 1 (ex_one_gate "cost")
         (Exn ConcurrencyError "workload changed concurrently") _ _ [] []); [apply Hc; reflexivity|vm_compute; reflexivity]. }
  apply (exec_step registered called _ [ex_new] {| rows := t1; reading := [(ex_new, 1); (ex_new, 1)] |} [ex_one_gate "security"]).
  2: { apply (client_write registered called ex_new 1 (ex_one_gate "security") 2 t1 (saved (ex_one_gate "security") 2 t1) [] [(ex_new, 1)]);
       [apply Hc; reflexivity|vm_compute; reflexivity]. }
  apply (exec_step registered called _ [ex_new] {| rows := t1; reading := [(ex_new, 1)] |} []); [|apply Hread].
  apply (exec_step registered called _ [ex_new] {| rows := t1; reading := [] |} []); [|apply Hread].
  apply (exec_step registered called _ [] {| rows := []; reading := [] |} [ex_new]); [apply exec_here|].
  apply (client_create registered called ex_new _ _ 1); [|done|vm_compute; reflexivity].
  exists FactoryTheorems.ex_spec, "w1". split; [split; vm_compute; reflexivity|done].
Qed.

Lemma factory_serialisable_witness :
  serial registered called [ex_new; ex_one_gate "security"].
Proof.
  exact (proj1 (factory_serialisable _ _ ex_workload_exec "w1")).
Defined.
End WorkloadConcurrency.
