(* ===== verification/Catalog.v ===== *)
(** * Component catalog (platforms/factory/catalog.py)

    The components, their validation, and the depth-first search that refuses
    cyclic dependencies. *)

From Stdlib Require Import String Ascii ZArith Lia.
From stdpp Require Import base list strings relations gmap sets.
From S2P Require Import Prelude PyStr PyDict Regex Json Factory.

Definition MATURITY_LEVELS : list string := ["reference"; "integration-ready"; "implemented"; "verified"].

Record Component := {
  component_id : string;
  name : string;
  domain : string;
  owner : string;
  source : string;
  maturity : string;
  interface_version : string;
  health_endpoint : string;
  capabilities : list string;
  evidence : list string;
  dependencies : list string;
}.

(** [v\d+] *)
Definition version_re : re := Cat (Chr (fun c => bool_decide (c = "v"%char))) (plus (Chr is_digit)).

(** [Component.__post_init__] *)
Definition Component_post_init (c : Component) : res Component :=
  do? guard_raise (negb (fullmatch Domain.identifier_re c.(component_id)))
        ValueError ("invalid component id: " +:+ c.(component_id)) in
  do? guard_raise (negb (str_in c.(domain) ["mlops"; "llmops"; "agentops"; "ai-sre"; "shared"]))
        ValueError ("invalid domain for " +:+ c.(component_id)) in
  do? guard_raise (negb (str_in c.(maturity) MATURITY_LEVELS))
        ValueError ("invalid maturity for " +:+ c.(component_id)) in
  do? guard_raise (negb (startswith "https://github.com/" c.(source)))
        ValueError ("source must be a GitHub URL for " +:+ c.(component_id)) in
  do? guard_raise (negb (fullmatch version_re c.(interface_version)))
        ValueError ("invalid interface version for " +:+ c.(component_id)) in
  do? guard_raise (match c.(capabilities), c.(evidence) with _ :: _, _ :: _ => false | _, _ => true end)
        ValueError ("capabilities and evidence are required for " +:+ c.(component_id)) in
  Ok c.

Definition catalog : Type := dict string Component.

Section acyclic.
Context (components : catalog).

(** The sets [visiting] and [visited]. *)
Definition marks : Type := gset string * gset string.

(** The inner function [visit]; the fuel bounds the depth of the recursion. *)
Fixpoint visit (fuel : nat) (id : string) : M marks unit :=
  match fuel with
  | O => raise_M OtherError "maximum recursion depth exceeded"
  | S f =>
      let! s := get_M in
      if bool_decide (id ∈ s.1) then raise_M ValueError ("dependency cycle detected at " +:+ id)
      else if bool_decide (id ∈ s.2) then mret_M tt
      else
      do! put_M ({[id]} ∪ s.1, s.2) in
      match dget id components with
      | None => raise_M KeyError id
      | Some c =>
          do! iter_M (visit f) c.(dependencies) in
          modify_M (fun s' => (s'.1 ∖ {[id]}, {[id]} ∪ s'.2))
      end
  end.

(** [Catalog._validate_acyclic]: a path of distinct components is never longer
    than their number. *)
Definition _validate_acyclic : res unit :=
  (iter_M (visit (S (length components))) (dkeys components) (∅, ∅)).1.
End acyclic.

(** [Catalog.__init__] *)
Definition check_dependencies (by_id : catalog) (c : Component) : res unit :=
  match set_diff_sorted c.(dependencies) (dkeys by_id) with
  | [] => Ok tt
  | missing => raise ValueError (c.(component_id) +:+ " has unknown dependencies: " +:+ repr_list missing)
  end.
Definition Catalog_init (cs : list Component) : res catalog :=
  let by_id := dict_of (map (fun c => (c.(component_id), c)) cs) in
  if negb (length by_id =? length cs)%nat then raise ValueError "duplicate component id" else
  do? map_res (check_dependencies by_id) cs in
  do? _validate_acyclic by_id in
  Ok by_id.

Definition strs (k : string) (j : json) : res (list string) := let? l := flist k j in map_res jstr l.
Definition read_component (raw : json) : res Component :=
  let? id := fstr "id" raw in
  let? nm := fstr "name" raw in
  let? dm := fstr "domain" raw in
  let? ow := fstr "owner" raw in
  let? so := fstr "source" raw in
  let? ma := fstr "maturity" raw in
  let? iv := fstr "interfaceVersion" raw in
  let? he := fstr "healthEndpoint" raw in
  let? ca := strs "capabilities" raw in
  let? ev := strs "evidence" raw in
  let? de := (match jget "dependencies" raw with Some _ => strs "dependencies" raw | None => Ok [] end) in
  Component_post_init {| component_id := id; name := nm; domain := dm; owner := ow; source := so; maturity := ma;
    interface_version := iv; health_endpoint := he; capabilities := ca; evidence := ev; dependencies := de |}.

(** [Catalog.load], from the YAML documents in the order of their paths. *)
Definition load (documents : list json) : res catalog :=
  let? cs := map_res read_component documents in
  match cs with
  | [] => raise ValueError "component catalog is empty"
  | _ => Catalog_init cs
  end.

(** [Catalog.summary] *)
Definition summary (cat : catalog) : list json :=
  map (fun c => JObj [("id", JStr c.(component_id)); ("name", JStr c.(name)); ("domain", JStr c.(domain));
    ("maturity", JStr c.(maturity)); ("capabilities", jstrs c.(capabilities));
    ("dependencies", jstrs c.(dependencies))]) (dvals cat).

(** ** Lemmas *)

Section facts.
Context (cat : catalog).

(** [a] depends directly on [b]. *)
Definition depends (a b : string) : Prop := exists c, dget a cat = Some c /\ b ∈ c.(dependencies).
Definition closed : Prop := forall a b, depends a b -> b ∈ dkeys cat.
Definition grounded (a : string) : Prop := Acc (fun b a => depends a b) a.

Lemma grounded_no_cycle a : grounded a -> ~ tc depends a a.
Proof.
  induction 1 as [a _ IH]. intros Ht.
  assert (exists b, depends a b /\ rtc depends b a) as (b & Hb & Hr).
  { inversion Ht; subst; [by exists a; split; [|apply rtc_refl]|].
    eexists. split; [done|]. by apply tc_rtc. }
  apply (IH b Hb). by eapply tc_rtc_l, tc_once.
Qed.

Definition cycle_at (r : res unit) : Prop :=
  exists x, r = raise ValueError ("dependency cycle detected at " +:+ x) /\ tc depends x x.

Lemma path_bound (P : gset string) : (forall x, x ∈ P -> x ∈ dkeys cat) -> (size P <= length cat)%nat.
Proof.
  intros H. unfold size, set_size. cbn.
  rewrite <- (length_map fst cat). apply submseteq_length, NoDup_submseteq; [apply NoDup_elements|].
  intros x Hx. apply H. by apply elem_of_elements.
Qed.

(** What a call of [visit] achieves from a state whose [visiting] set is the
    path to the component. *)
Definition visit_ok (P V : gset string) (id : string) (out : res unit * marks) : Prop :=
  cycle_at out.1 \/
  exists V', out = (Ok tt, (P, V')) /\ V ⊆ V' /\ id ∈ V' /\ (forall x, x ∈ V' -> grounded x).

Lemma iter_visit_ok f (P V : gset string) ids :
  (forall id V0, id ∈ ids -> (forall x, x ∈ V0 -> grounded x) -> visit_ok P V0 id (visit cat f id (P, V0))) ->
  (forall x, x ∈ V -> grounded x) ->
  cycle_at (iter_M (visit cat f) ids (P, V)).1 \/
  exists V', iter_M (visit cat f) ids (P, V) = (Ok tt, (P, V')) /\ V ⊆ V' /\
    (forall id, id ∈ ids -> id ∈ V') /\ (forall x, x ∈ V' -> grounded x).
Proof.
  revert V. induction ids as [|id ids IH]; intros V Hv Hg; cbn [iter_M].
  - right. exists V. split_and!; try done. intros id Hid. by apply elem_of_nil in Hid.
  - destruct (Hv id V) as [(x & Hx & Hc)|(V1 & E & Hs & Hid & Hg1)]; [by left|done| |].
    + left. unfold mbind_M. destruct (visit cat f id (P, V)) as [[]  ]; cbn in Hx; [done|]. injection Hx as ->. by exists x.
    + rewrite (bind_ok _ _ _ _ _ E).
      destruct (IH V1) as [Hc|(V2 & E2 & Hs2 & Hi2 & Hg2)]; [intros; apply Hv; [by right|done]|done|by left|].
      right. exists V2. split_and!; [done|set_solver| |done].
      intros i [->|Hi]%elem_of_cons; [set_solver|auto].
Qed.

Lemma visit_correct f id (P V : gset string) :
  closed -> id ∈ dkeys cat -> (forall x, x ∈ P -> x ∈ dkeys cat /\ tc depends x id) ->
  (forall x, x ∈ V -> grounded x) -> (length cat < size P + f)%nat ->
  visit_ok P V id (visit cat f id (P, V)).
Proof.
  intros Hcl. revert id P V. induction f as [|f IH]; intros id P V Hid HP HV Hf.
  { pose proof (path_bound P). assert (size P <= length cat)%nat by (apply H; intros x Hx; by apply HP). lia. }
  cbn [visit]. mred. cbn [fst snd].
  destruct (bool_decide_reflect (id ∈ P)) as [Hin|Hin]; [left; exists id; split; [done|by apply HP]|].
  destruct (bool_decide_reflect (id ∈ V)) as [Hv|Hv]; [right; by exists V|]. mred.
  destruct (dget id cat) as [c|] eqn:Ec; [|by apply dget_None in Ec].
  destruct (iter_visit_ok f ({[id]} ∪ P) V (dependencies c)) as [(x & Hx & Hc)|(V1 & E & Hs & Hd & Hg)].
  - intros d V0 Hd H0. assert (depends id d) as Hdep by (by exists c). apply IH; [by eapply Hcl| |done|].
    + intros x [->%elem_of_singleton|Hx]%elem_of_union; [by split; [|apply tc_once]|].
      destruct (HP x Hx) as [Hk Ht]. split; [done|]. by eapply tc_r.
    + rewrite size_union, size_singleton by set_solver. lia.
  - done.
  - left. unfold mbind_M. destruct (iter_M _ _ _) as [[]  ]; cbn in Hx; [done|]. injection Hx as ->. by exists x.
  - rewrite (bind_ok _ _ _ _ _ E). right. exists ({[id]} ∪ V1).
    assert (grounded id) as Hgid.
    { constructor. intros d (c' & Hc' & Hd'). apply Hg, Hd. congruence. }
    split; [unfold modify_M; cbn [fst snd]; f_equal; f_equal; set_solver|].
    split_and!; [set_solver|set_solver|]. intros x [->%elem_of_singleton|Hx]%elem_of_union; auto.
Qed.

Lemma validate_acyclic_correct : closed ->
  (_validate_acyclic cat = Ok tt /\ forall x, x ∈ dkeys cat -> grounded x) \/ cycle_at (_validate_acyclic cat).
Proof.
  intros Hcl. unfold _validate_acyclic.
  destruct (iter_visit_ok (S (length cat)) ∅ ∅ (dkeys cat)) as [Hc|(V & E & _ & Hk & Hg)].
  - intros id V0 Hid H0. apply visit_correct; try done. lia.
  - done.
  - by right.
  - left. rewrite E. split; [done|]. auto.
Qed.
End facts.

Lemma check_dependencies_ok by_id c :
  check_dependencies by_id c = Ok tt <-> forall d, d ∈ c.(dependencies) -> d ∈ dkeys by_id.
Proof.
  unfold check_dependencies. rewrite <- set_diff_sorted_nil. by destruct (set_diff_sorted _ _).
Qed.

Lemma check_all_ok by_id cs :
  is_ok (map_res (check_dependencies by_id) cs) = true <->
  forall c d, c ∈ cs -> d ∈ c.(dependencies) -> d ∈ dkeys by_id.
Proof.
  induction cs as [|c cs IH]; cbn.
  - split; [|done]. intros _ c d Hc. by apply elem_of_nil in Hc.
  - unfold mbind, res_bind. destruct (check_dependencies by_id c) as [[]|e] eqn:E.
    + transitivity (is_ok (map_res (check_dependencies by_id) cs) = true); [by destruct (map_res _ cs)|]. rewrite IH.
      rewrite check_dependencies_ok in E. split.
      * intros H c' d [->|Hc]%elem_of_cons; [apply E|by apply H].
      * intros H c' d Hc. apply H. by right.
    + split; [done|]. intros H. assert (check_dependencies by_id c = Ok tt) as K; [|congruence].
      apply check_dependencies_ok. intros d. apply H. by left.
Qed.

Lemma check_all_err by_id cs e :
  map_res (check_dependencies by_id) cs = Err e -> exists msg, e = Exn ValueError msg.
Proof.
  revert e. induction cs as [|c cs IH]; cbn; [done|]. unfold mbind, res_bind. intros e.
  unfold check_dependencies at 1. destruct (set_diff_sorted _ _); [|intros [= <-]; by eexists].
  destruct (map_res (check_dependencies by_id) cs); [done|]. intros [= <-]. eauto.
Qed.

Module CatalogTheorems.

(** C12: a list of components forms a catalog exactly when their identifiers
    are distinct, every dependency names a component of the list and no
    component depends on itself, directly or through others; the search always
    finishes, and any refusal is a [ValueError]. *)
Theorem catalog_accepts_iff : forall cs,
  let by_id := dict_of (map (fun c => (c.(component_id), c)) cs) in
  (Catalog_init cs = Ok by_id <->
     NoDup (map component_id cs) /\
     (forall c d, c ∈ cs -> d ∈ c.(dependencies) -> d ∈ map component_id cs) /\
     (forall x, ~ tc (depends by_id) x x)) /\
  (Catalog_init cs = Ok by_id \/ exists msg, Catalog_init cs = raise ValueError msg).
Proof.
  intros cs by_id. unfold Catalog_init. fold by_id.
  assert (map fst (map (fun c => (component_id c, c)) cs) = map component_id cs) as Hfst by (rewrite map_map; done).
  assert (forall x, x ∈ dkeys by_id <-> x ∈ map component_id cs) as Hkeys.
  { intros x. unfold by_id. by rewrite dkeys_dict_of, Hfst. }
  pose proof (dict_of_length_iff (map (fun c => (component_id c, c)) cs)) as Hlen.
  rewrite length_map, Hfst in Hlen. fold by_id in Hlen.
  destruct (Nat.eqb_spec (length by_id) (length cs)) as [Hl|Hl]; cbn [negb].
  2: { split; [|right; by eexists]. split; [done|]. intros [Hn _]. by apply Hlen in Hn. }
  apply Hlen in Hl. pose proof (check_all_ok by_id cs) as Hchk. setoid_rewrite Hkeys in Hchk.
  destruct (map_res (check_dependencies by_id) cs) as [us|e] eqn:Em; cbn [mbind res_bind].
  2: { split; [split; [done|]; intros (_ & Hd & _); by apply Hchk in Hd|]. right. destruct (check_all_err _ _ _ Em) as [msg ->]. by eexists. }
  assert (forall a b, depends by_id a b -> b ∈ dkeys by_id) as Hclosed.
  { intros a b (c & Hc & Hb). apply Hkeys, (proj1 Hchk eq_refl c b); [|done].
    unfold by_id in Hc. rewrite dict_of_NoDup in Hc by by rewrite Hfst.
    apply dget_elem, list_elem_of_fmap in Hc as (c' & [= _ ->] & Hc'). done. }
  destruct (validate_acyclic_correct by_id Hclosed) as [[-> Hg]|(x & -> & Hx)]; cbn [mbind res_bind raise].
  - split; [|by left]. split; [|done]. intros _. split; [done|]. split; [by apply (proj1 Hchk)|].
    intros x Ht. apply (grounded_no_cycle by_id x); [|done]. apply Hg.
    inversion Ht as [? ? (c & Hc & _)|? ? ? (c & Hc & _)]; subst; apply dmem_spec; unfold dmem; by rewrite Hc.
  - split; [|right; by eexists]. split; [done|]. intros (_ & _ & Hno). by apply Hno in Hx.
Qed.

End CatalogTheorems.
