(* ===== verification/DecisionOps.v ===== *)
(** * DecisionOps (platforms/decisionops)

    [Contracts] is contracts.py, [Registry] registry.py, [Engine] the decision
    engine of engine.py with its circuit breaker and its bounded cache, and
    [Jev] the provider adapter of jev.py.  Providers are arbitrary stateful
    calls; [time.monotonic()] readings are arguments. *)

From Stdlib Require Import String Ascii ZArith Lia SpecFloat.
From stdpp Require Import base list strings.
From S2P Require Import Prelude PyStr PyDict PyFloat Hash Regex Json.

Module Contracts.

Inductive DecisionType := CHOICE | SCORE | PROBABILITY.
#[export] Instance DecisionType_eq_dec : EqDecision DecisionType.
Proof. solve_decision. Defined.
Definition type_value (t : DecisionType) : string :=
  match t with CHOICE => "choice" | SCORE => "score" | PROBABILITY => "probability" end.

Record QuestionDefinition := {
  question_id : string;
  version : string;
  decision_type : DecisionType;
  description : string;
  owner : string;
  required_state : list string;
  options : list string;
  score_levels : list string;
  minimum_score : number;
  maximum_score : number;
  confidence_threshold : float;
  cacheable : bool;
  risk_tier : string;
}.

(** [[a-z][a-z0-9_.-]{2,119}] *)
Definition question_id_re : re :=
  Cat (Chr is_lower) (rep_range 2 119 (Chr (fun c => is_lower_digit c || one_of "_.-" c))).

Definition count_between {A} (lo hi : Z) (l : list A) : bool :=
  let n := Z.of_nat (length l) in (lo <=? n) && (n <=? hi).
Definition unit_interval (f : float) : bool := fleb (f_of_Z 0) f && fleb f (f_of_Z 1).

(** The field constraints and [validate_type_configuration]. *)
Definition QuestionDefinition_validate (q : QuestionDefinition) : res QuestionDefinition :=
  let typ t := bool_decide (q.(decision_type) = t) in
  do? guard_raise (negb (fullmatch question_id_re q.(question_id) && len_between 1 40 q.(version) &&
         len_between 10 2000 q.(description) && len_between 1 120 q.(owner) &&
         count_between 1 100 q.(required_state) && count_between 0 100 q.(options) &&
         count_between 0 100 q.(score_levels) && unit_interval q.(confidence_threshold) &&
         str_in q.(risk_tier) ["standard"; "high"; "critical"]))
        ValidationError "invalid question definition" in
  do? guard_raise (typ CHOICE && (length q.(options) <? 2)%nat)
        ValidationError "choice questions require at least two options" in
  do? guard_raise (negb (typ CHOICE) && negb (length q.(options) =? 0)%nat)
        ValidationError "only choice questions may define options" in
  do? guard_raise (typ SCORE && (length q.(score_levels) <? 2)%nat)
        ValidationError "score questions require at least two ordered score_levels" in
  do? guard_raise (negb (typ SCORE) && negb (length q.(score_levels) =? 0)%nat)
        ValidationError "only score questions may define score_levels" in
  do? guard_raise (typ SCORE && fgeb (num q.(minimum_score)) (num q.(maximum_score)))
        ValidationError "score questions require minimum_score below maximum_score" in
  do? guard_raise (bool_decide (q.(risk_tier) = "critical") && q.(cacheable))
        ValidationError "critical decisions cannot be cached" in
  Ok q.

(** [QuestionDefinition.digest] *)
Definition digest (q : QuestionDefinition) : string :=
  canonical_digest (JObj [("question_id", JStr q.(question_id)); ("version", JStr q.(version));
    ("decision_type", JStr (type_value q.(decision_type))); ("description", JStr q.(description));
    ("owner", JStr q.(owner)); ("required_state", jstrs q.(required_state)); ("options", jstrs q.(options));
    ("score_levels", jstrs q.(score_levels)); ("minimum_score", num_json q.(minimum_score));
    ("maximum_score", num_json q.(maximum_score)); ("confidence_threshold", JFloat q.(confidence_threshold));
    ("cacheable", JBool q.(cacheable)); ("risk_tier", JStr q.(risk_tier))]).

Inductive decision_value := VStr (s : string) | VNum (f : float).

Record DecisionOutput := {
  value : decision_value;
  confidence : float;
  probabilities : dict string float;
  rationale : string;
}.
(** [DecisionOutput(...)]: its field constraints. *)
Definition DecisionOutput_validate (o : DecisionOutput) : res DecisionOutput :=
  do? guard_raise (negb (unit_interval o.(confidence) && len_between 0 2000 o.(rationale)))
        ValidationError "invalid decision output" in
  Ok o.

Record DecisionRecord := {
  decision_id : string;
  trace_id : string;
  provider : string;
  provider_revision : string;
  r_question_id : string;
  r_question_version : string;
  r_question_digest : string;
  r_policy_version : string;
  r_state_schema_version : string;
  r_state_digest : string;
  output : DecisionOutput;
  disposition : string;
  timestamp : string;
}.

(** [state_digest] *)
Definition state_digest (state : dict string json) : string := canonical_digest (JObj state).

End Contracts.

Module Registry.
Import Contracts.

Definition registry : Type := dict (string * string) QuestionDefinition.
Definition key_of (q : QuestionDefinition) : string * string := (q.(question_id), q.(version)).

(** [QuestionRegistry.__init__] *)
Definition new_registry (questions : list QuestionDefinition) : res registry :=
  let keys := map key_of questions in
  if negb (length keys =? length (remove_dups keys))%nat then
    raise ValueError "question IDs and versions must be unique"
  else Ok (dict_of (map (fun q => (key_of q, q)) questions)).

(** [QuestionRegistry.from_directory]: the names the directory lists, in their
    order, each file read as YAML and validated; [fields] makes a question of a
    document whose fields have the declared types. *)
Definition load_question (read : string -> res json) (fields : json -> res QuestionDefinition) (file : string) :
    res QuestionDefinition :=
  let? payload := read file in let? q := fields payload in QuestionDefinition_validate q.
Definition from_directory (read : string -> res json) (fields : json -> res QuestionDefinition) (files : list string) :
    res registry :=
  let? questions := map_res (load_question read fields) (sort_str files) in
  match questions with
  | [] => raise ValueError "question registry cannot be empty"
  | _ => new_registry questions
  end.

(** [QuestionRegistry.get] *)
Definition get (qid version_ : string) (r : registry) : res QuestionDefinition :=
  match dget (qid, version_) r with
  | Some q => Ok q
  | None => raise KeyError ("unknown question: " +:+ qid +:+ "@" +:+ version_)
  end.

End Registry.

Module Engine.
Import Contracts.

Record CircuitBreaker := {
  failure_threshold : Z;
  reset_seconds : float;
  failures : Z;
  opened_at : option float;
}.
Definition new_breaker : CircuitBreaker :=
  {| failure_threshold := 3; reset_seconds := f_of_Z 30; failures := 0; opened_at := None |}.
Definition set_breaker (n : Z) (at_ : option float) (b : CircuitBreaker) : CircuitBreaker :=
  {| failure_threshold := b.(failure_threshold); reset_seconds := b.(reset_seconds);
     failures := n; opened_at := at_ |}.

(** [CircuitBreaker.allow], [success] and [failure]. *)
Definition allow (now : float) : M CircuitBreaker bool :=
  let! self := get_M in
  match self.(opened_at) with
  | None => mret_M true
  | Some t =>
      if fgeb (fsub now t) self.(reset_seconds) then
        do! modify_M (set_breaker 0 None) in mret_M true
      else mret_M false
  end.
Definition success : M CircuitBreaker unit := modify_M (set_breaker 0 None).
Definition failure (now : float) : M CircuitBreaker unit :=
  modify_M (fun b =>
    let n := b.(failures) + 1 in
    set_breaker n (if n >=? b.(failure_threshold) then Some now else b.(opened_at)) b).

(** [_validate] *)
Definition _validate (o : DecisionOutput) (q : QuestionDefinition) : res unit :=
  match q.(decision_type), o.(value) with
  | CHOICE, v =>
      do? guard_raise (match v with VStr s => negb (str_in s q.(options)) | VNum _ => true end)
            ValueError "choice provider returned an unknown option" in
      do? guard_raise (negb (length o.(probabilities) =? 0)%nat &&
            negb (forallb (fun k => str_in k q.(options)) (dkeys o.(probabilities)) &&
                  forallb (fun k => str_in k (dkeys o.(probabilities))) q.(options)))
            ValueError "choice probabilities must cover every option exactly" in
      do? guard_raise (existsb (fun p => fltb p (f_of_Z 0) || fgtb p (f_of_Z 1)) (dvals o.(probabilities)))
            ValueError "choice probabilities must be between zero and one" in
      guard_raise (negb (length o.(probabilities) =? 0)%nat &&
            fgtb (fabs (fsub (fsum (dvals o.(probabilities))) (f_of_Z 1))) (fratio 1 1000))
            ValueError "choice probabilities must sum to one"
  | _, VStr _ => raise ValueError "score and probability decisions require numeric values"
  | PROBABILITY, VNum f =>
      guard_raise (negb (unit_interval f)) ValueError "probability decision must be between zero and one"
  | SCORE, VNum f =>
      guard_raise (negb (fleb (num q.(minimum_score)) f && fleb f (num q.(maximum_score))))
        ValueError "score decision is outside the registered range"
  end.

Section engine.
(** The state of the providers. *)
Context {W : Type}.

(** A [DecisionProvider]. *)
Record DecisionProvider := {
  provider_id : string;
  p_revision : string;
  decide : dict string json -> QuestionDefinition -> M W DecisionOutput;
}.

(** The configuration of a [DecisionEngine], and its mutable part. *)
Record config := {
  primary : DecisionProvider;
  fallback : DecisionProvider;
  policy_version : string;
  state_schema_version : string;
  cache_capacity : Z;
}.
Record engine := { breaker : CircuitBreaker; _cache : dict string DecisionOutput; world : W }.

Definition on_breaker {A} (m : M CircuitBreaker A) : M engine A :=
  zoom_M breaker (fun b e => {| breaker := b; _cache := e.(_cache); world := e.(world) |}) m.
Definition on_world {A} (m : M W A) : M engine A :=
  zoom_M world (fun w e => {| breaker := e.(breaker); _cache := e.(_cache); world := w |}) m.
Definition on_cache {A} (m : M (dict string DecisionOutput) A) : M engine A :=
  zoom_M _cache (fun c e => {| breaker := e.(breaker); _cache := c; world := e.(world) |}) m.

Context (c : config).

(** [_cache_key] *)
Definition _cache_key (state_digest_ : string) (q : QuestionDefinition) : string :=
  dumps_canonical (jstrs [state_digest_; digest q; c.(primary).(p_revision); c.(policy_version); c.(state_schema_version)]).

Definition call_fallback (state : dict string json) (q : QuestionDefinition) : M engine (DecisionOutput * bool) :=
  let! o := on_world (c.(fallback).(decide) state q) in
  do! lift_M (_validate o q) in
  mret_M (o, true).

(** The output and whether the fallback produced it. *)
Definition choose (now_allow now_fail : float) (cached : option DecisionOutput) (key : string)
    (state : dict string json) (q : QuestionDefinition) : M engine (DecisionOutput * bool) :=
  match cached with
  | Some o => do! on_cache (modify_M (move_to_end key)) in mret_M (o, false)
  | None =>
      let! allowed := on_breaker (allow now_allow) in
      if allowed then
        catch_all_M (
          let! o := on_world (c.(primary).(decide) state q) in
          do! lift_M (_validate o q) in
          do! on_breaker success in
          mret_M (o, false))
        (fun _ => do! on_breaker (failure now_fail) in call_fallback state q)
      else call_fallback state q
  end.

(** [DecisionEngine.evaluate] *)
Definition evaluate (now_allow now_fail : float) (fresh_id now_text trace : string)
    (state : dict string json) (q : QuestionDefinition) : M engine DecisionRecord :=
  match set_diff_sorted q.(required_state) (dkeys state) with
  | _ :: _ as missing => raise_M ValueError ("state omitted required fields: " +:+ repr_list missing)
  | [] =>
    let d := state_digest state in
    let key := _cache_key d q in
    let! e := get_M in
    let cached := if q.(cacheable) then dget key e.(_cache) else None in
    let! ou := choose now_allow now_fail cached key state q in
    do! (if q.(cacheable) && match cached with None => true | Some _ => false end && negb ou.2 then
           on_cache (do! modify_M (dset key ou.1) in evict c.(cache_capacity))
         else mret_M tt) in
    let disp := if fltb ou.1.(confidence) q.(confidence_threshold) then "human_review"
                else if ou.2 then "fallback" else "accepted" in
    let p := if ou.2 then c.(fallback) else c.(primary) in
    mret_M {| decision_id := fresh_id; trace_id := trace; provider := p.(provider_id);
              provider_revision := p.(p_revision); r_question_id := q.(question_id);
              r_question_version := q.(version); r_question_digest := digest q;
              r_policy_version := c.(policy_version); r_state_schema_version := c.(state_schema_version);
              r_state_digest := d; output := ou.1; disposition := disp; timestamp := now_text |}
  end.
End engine.
End Engine.

Module Jev.
Import Contracts.

(** The typed question sent to the service, and its answers. *)
Inductive typed_question :=
| Choice (instructions : string) (criteria : list string)
| Score (instructions : string) (criteria : list string)
| Noul (instructions : string).
Record choice_answer := { choice : json; c_probabilities : list (json * json); c_confidence : json }.
Record score_answer := { score : json; s_probabilities : list (json * json); s_confidence : json }.
Record response := {
  choices : dict string choice_answer;
  scores : dict string score_answer;
  nouls : dict string json;
}.

Definition lookup {V} (k : string) (d : dict string V) : res V :=
  match dget k d with Some v => Ok v | None => raise KeyError k end.
Definition float_probabilities (l : list (json * json)) : res (dict string float) :=
  let? kvs := map_res (fun kv => let? f := float_of_json kv.2 in Ok (str_json kv.1, f)) l in Ok (dict_of kvs).

Section provider.
(** [self.client.system_one(state=..., questions={id: question})] *)
Context {W : Type} (system_one : dict string json -> string -> typed_question -> M W response).

(** [JevDecisionProvider.decide] *)
Definition decide (state : dict string json) (q : QuestionDefinition) : M W DecisionOutput :=
  let typed := match q.(decision_type) with
    | CHOICE => Choice q.(description) (dkeys (dict_of (map (fun o => (o, tt)) q.(options))))
    | SCORE => Score q.(description) q.(score_levels)
    | PROBABILITY => Noul q.(description)
    end in
  let! r := system_one state q.(question_id) typed in
  match q.(decision_type) with
  | CHOICE =>
      let! a := lift_M (lookup q.(question_id) r.(choices)) in
      let! ps := lift_M (float_probabilities a.(c_probabilities)) in
      let! conf := lift_M (float_of_json a.(c_confidence)) in
      lift_M (DecisionOutput_validate {| value := VStr (str_json a.(choice)); confidence := conf;
        probabilities := ps; rationale := "Typed Choice decision returned by JEV." |})
  | SCORE =>
      let! a := lift_M (lookup q.(question_id) r.(scores)) in
      let! v := lift_M (float_of_json a.(score)) in
      let! ps := lift_M (float_probabilities a.(s_probabilities)) in
      let! conf := lift_M (float_of_json a.(s_confidence)) in
      lift_M (DecisionOutput_validate {| value := VNum v; confidence := conf;
        probabilities := ps; rationale := "Typed Score decision returned by JEV." |})
  | PROBABILITY =>
      let! a := lift_M (lookup q.(question_id) r.(nouls)) in
      let! p := lift_M (float_of_json a) in
      lift_M (DecisionOutput_validate {| value := VNum p;
        confidence := fround 6 (fmul (fabs (fsub p (fratio 1 2))) (f_of_Z 2)); probabilities := [];
        rationale := "Typed Noul probability returned by JEV; confidence is derived distance from 0.5." |})
  end.
End provider.
End Jev.

(** ** Lemmas *)

Module EngineFacts.
Import Contracts Registry Engine.

Section facts.
Context {W : Type} (c : config (W := W)).

(** Keys of the cache distinguish states and questions with different digests. *)
Lemma cache_key_inj st1 st2 q1 q2 :
  _cache_key c (state_digest st1) q1 = _cache_key c (state_digest st2) q2 ->
  state_digest st1 = state_digest st2 /\ digest q1 = digest q2.
Proof.
  unfold _cache_key, dumps_canonical, jstrs. cbn [dumps_gen map join item_sep String.concat].
  intros H. apply str_app_inj_l in H. rewrite !str_app_assoc in H.
  apply digest_text_inj in H as [Hs H]; [|apply canonical_digest_shape..]. split; [done|].
  apply str_app_inj_l, digest_text_inj in H as [H _]; [done|apply canonical_digest_shape..].
Qed.

(** The evaluations that were begun: the engine they found, the state and the
    question. *)
Definition asked : Type := list (engine (W := W) * dict string json * QuestionDefinition).
(** An output the primary provider gave in one of them for this question, on a
    state of this digest. *)
Definition given (h : asked) (d : string) (q : QuestionDefinition) (o : DecisionOutput) : Prop :=
  exists e0 st0 w0, (e0, st0, q) ∈ h /\ state_digest st0 = d /\ c.(primary).(decide) st0 q e0.(world) = (Ok o, w0).
Lemma given_more h h' d q o : given h d q o -> given (h ++ h') d q o.
Proof. intros (e0 & st0 & w0 & H & ?). exists e0, st0, w0. split; [apply elem_of_app; by left|done]. Qed.

Definition cached_ok (qs : list QuestionDefinition) (h : asked) (cache : dict string DecisionOutput) : Prop :=
  dwf cache /\ forall k o, (k, o) ∈ cache ->
    exists q st, q ∈ qs /\ k = _cache_key c (state_digest st) q /\ _validate o q = Ok tt /\ given h (state_digest st) q o.
Lemma cached_ok_more qs h h' cache : cached_ok qs h cache -> cached_ok qs (h ++ h') cache.
Proof.
  intros [Hw H]. split; [done|]. intros k o Hin. destruct (H k o Hin) as (q & st & H1 & H2 & H3 & H4). exists q, st.
  do 3 (split; [done|]). by apply given_more.
Qed.

Lemma call_fallback_ok st q e o fb e' :
  call_fallback c st q e = (Ok (o, fb), e') -> fb = true /\ _validate o q = Ok tt /\
    exists w1, c.(fallback).(decide) st q w1 = (Ok o, e'.(world)).
Proof.
  unfold call_fallback. intros H. apply bind_inv_ok in H as (o1 & e1 & H1 & H).
  apply bind_inv_ok in H as ([] & e2 & H2 & H). injection H2 as Hv <-. injection H as <- <- <-.
  unfold on_world, zoom_M in H1. destruct (decide _ st q _) as [r w] eqn:E. injection H1 as -> <-. split_and!; [done..|by eexists].
Qed.

Lemma call_fallback_cache st q e : (call_fallback c st q e).2.(_cache) = e.(_cache).
Proof.
  unfold call_fallback, mbind_M, on_world, zoom_M, lift_M.
  destruct (decide _ st q _) as [[o|x] w]; [|done]. by destruct (_validate o q).
Qed.

Lemma choose_cache na nf cached key st q e :
  (choose c na nf cached key st q e).2.(_cache) =
  match cached with Some _ => move_to_end key e.(_cache) | None => e.(_cache) end.
Proof.
  unfold choose. destruct cached as [o|]; [done|].
  unfold mbind_M at 1. unfold on_breaker at 1, zoom_M at 1. destruct (allow na (breaker e)) as [[[]|x] b]; [| |done].
  2: { by rewrite call_fallback_cache. }
  unfold catch_all_M, on_world. cbn [_cache].
  unfold mbind_M at 1, zoom_M at 1. cbn [world].
  destruct (decide (primary c) st q (world e)) as [[o|x] w].
  - unfold mbind_M at 1, lift_M. destruct (_validate o q) as [[]|y]; [done|]. unfold mbind_M. cbn. by rewrite call_fallback_cache.
  - unfold mbind_M. cbn. by rewrite call_fallback_cache.
Qed.

(** The output chosen is valid for the question, and whose it is. *)
Lemma choose_ok na nf cached key st q e o fb e' :
  (forall o0, cached = Some o0 -> _validate o0 q = Ok tt) ->
  choose c na nf cached key st q e = (Ok (o, fb), e') ->
  _validate o q = Ok tt /\
  if fb then exists w1, c.(fallback).(decide) st q w1 = (Ok o, e'.(world))
  else cached = Some o \/ cached = None /\ c.(primary).(decide) st q e.(world) = (Ok o, e'.(world)).
Proof.
  intros Hc. unfold choose. destruct cached as [o1|].
  { intros [= <- <- <-]. split; [by apply Hc|by left]. }
  intros H. apply bind_inv_ok in H as (al & e1 & Hal & H).
  assert (e1.(world) = e.(world)) as Hw by (unfold on_breaker, zoom_M in Hal; destruct (allow na (breaker e)); by injection Hal as _ <-).
  destruct al; [|by apply call_fallback_ok in H as (-> & Hv & Hf)].
  unfold catch_all_M in H. destruct (mbind_M _ _ e1) as [[p|x] e2] eqn:E.
  - injection H as -> <-. apply bind_inv_ok in E as (o2 & e3 & Hp & E).
    apply bind_inv_ok in E as ([] & e4 & Hv & E). injection Hv as Hv ->.
    apply bind_inv_ok in E as ([] & e5 & Hs & E). injection E as <- <- <-. injection Hs as <-. split; [done|]. right. split; [done|].
    unfold on_world, zoom_M in Hp. rewrite Hw in Hp. destruct (decide _ st q _) as [r w]. by injection Hp as -> <-.
  - apply bind_inv_ok in H as ([] & e3 & _ & H). by apply call_fallback_ok in H as (-> & Hv & Hf).
Qed.

(** The breaker of a call that was allowed and failed. *)
Lemma allowed_then_failed na nf b :
  (forall t, b.(opened_at) = Some t -> fgeb (fsub na t) b.(reset_seconds) = true) ->
  let n := match b.(opened_at) with None => b.(failures) + 1 | Some _ => 1 end in
  exists b1, allow na b = (Ok true, b1) /\
    (failure nf b1).2 = {| failure_threshold := b.(failure_threshold); reset_seconds := b.(reset_seconds);
      failures := n; opened_at := if b.(failure_threshold) <=? n then Some nf else None |}.
Proof.
  intros Hb. unfold allow. mred. destruct (opened_at b) as [t|] eqn:E.
  - rewrite (Hb t eq_refl), bind_modify. eexists. split; [done|]. cbn. by rewrite Z.geb_leb.
  - eexists. split; [done|]. cbn. by rewrite Z.geb_leb, E.
Qed.

(** A primary that fails: what is left and what the fallback says. *)
Lemma choose_failed na nf key st q e r w1 rf w2 :
  (forall t, e.(breaker).(opened_at) = Some t -> fgeb (fsub na t) e.(breaker).(reset_seconds) = true) ->
  c.(primary).(decide) st q e.(world) = (r, w1) ->
  (forall o1, r = Ok o1 -> _validate o1 q <> Ok tt) ->
  c.(fallback).(decide) st q w1 = (rf, w2) ->
  let n := match e.(breaker).(opened_at) with None => e.(breaker).(failures) + 1 | Some _ => 1 end in
  choose c na nf None key st q e =
  (match (o ← rf; do? _validate o q in Ok o) with Ok o => Ok (o, true) | Err x => Err x end,
   {| breaker := {| failure_threshold := e.(breaker).(failure_threshold); reset_seconds := e.(breaker).(reset_seconds);
                    failures := n; opened_at := if e.(breaker).(failure_threshold) <=? n then Some nf else None |};
      _cache := e.(_cache); world := w2 |}).
Proof.
  intros Hb Hp Hbad Hf n.
  destruct (allowed_then_failed na nf (breaker e) Hb) as (b1 & H1 & H2).
  unfold choose. rewrite (bind_ok _ _ e true {| breaker := b1; _cache := _cache e; world := world e |}).
  2: { unfold on_breaker, zoom_M. by rewrite H1. }
  unfold catch_all_M, on_world, zoom_M, mbind_M at 1. cbn [world]. rewrite Hp.
  assert (forall w, (do! on_breaker (failure nf) in call_fallback c st q)
    {| breaker := b1; _cache := _cache e; world := w |} =
    call_fallback c st q {| breaker := (failure nf b1).2; _cache := _cache e; world := w |}) as Hc by done.
  assert (forall b, call_fallback c st q {| breaker := b; _cache := _cache e; world := w1 |} =
    (match (o ← rf; do? _validate o q in Ok o) with Ok o => Ok (o, true) | Err x => Err x end,
     {| breaker := b; _cache := _cache e; world := w2 |})) as Hcf.
  { intros b. unfold call_fallback, on_world, zoom_M, mbind_M. cbn [world]. rewrite Hf. destruct rf as [o|x]; [|done].
    unfold lift_M. cbn [mbind res_bind]. by destruct (_validate o q) as [[]|y]. }
  rewrite H2 in Hc. destruct r as [o1|x].
  - unfold mbind_M at 1, lift_M. specialize (Hbad o1 eq_refl). destruct (_validate o1 q) as [[]|y]; [done|].
    rewrite Hc. apply Hcf.
  - rewrite Hc. apply Hcf.
Qed.

Lemma cached_ok_move qs h cache k : cached_ok qs h cache -> cached_ok qs h (move_to_end k cache).
Proof.
  intros [Hw H]. split; [by apply move_to_end_wf|]. intros k' o Hin. apply H.
  apply dget_elem. rewrite <- (dget_move_to_end k' k cache Hw). apply elem_dget; [by apply move_to_end_wf|done].
Qed.

Lemma cached_ok_drop qs h n cache : cached_ok qs h cache -> cached_ok qs h (drop n cache).
Proof.
  intros [Hw H]. split; [by apply drop_wf|]. intros k o Hin. apply H.
  rewrite <- (take_drop n cache). apply elem_of_app. by right.
Qed.

Lemma elem_of_dset {K V} `{EqDecision K} k (v : V) (d : dict K V) k' v' :
  (k', v') ∈ dset k v d -> (k' = k /\ v' = v) \/ (k', v') ∈ d.
Proof.
  induction d as [|[k1 v1] d IH]; cbn; [intros H; apply list_elem_of_singleton in H; left; split; congruence|].
  case_decide; rewrite !elem_of_cons.
  - intros [H'|H']; [left; split; congruence|by right; right].
  - intros [H'|H']; [right; by left|]. destruct (IH H'); [by left|right; by right].
Qed.

Lemma cached_ok_dset qs h q st o cache :
  cached_ok qs h cache -> q ∈ qs -> _validate o q = Ok tt -> given h (state_digest st) q o ->
  cached_ok qs h (dset (_cache_key c (state_digest st) q) o cache).
Proof.
  intros [Hw H] Hq Hv Hg. split; [by apply dset_wf|].
  intros k o' [[-> ->]|Hin]%elem_of_dset; [by exists q, st|auto].
Qed.

Lemma evaluate_missing na nf id now tr st q e :
  (exists k, k ∈ q.(required_state) /\ k ∉ dkeys st) ->
  exists msg, evaluate c na nf id now tr st q e = (raise ValueError msg, e).
Proof.
  intros (k & Hk & Hn). unfold evaluate. destruct (set_diff_sorted _ _) eqn:E; [|by eexists].
  exfalso. apply Hn. revert Hk. by apply set_diff_sorted_nil.
Qed.

(** What a returned record holds, after the evaluations [h]. *)
Definition record_of (h : asked) (st : dict string json) (q : QuestionDefinition) (e' : engine) (rec : DecisionRecord) : Prop :=
  let review := fltb rec.(output).(confidence) q.(confidence_threshold) in
  _validate rec.(output) q = Ok tt /\
  ((rec.(provider) = c.(primary).(provider_id) /\ rec.(provider_revision) = c.(primary).(p_revision) /\
    rec.(disposition) = (if review then "human_review" else "accepted") /\ given h (state_digest st) q rec.(output)) \/
   (rec.(provider) = c.(fallback).(provider_id) /\ rec.(provider_revision) = c.(fallback).(p_revision) /\
    rec.(disposition) = (if review then "human_review" else "fallback") /\
    exists w1, c.(fallback).(decide) st q w1 = (Ok rec.(output), e'.(world)))) /\
  rec.(r_question_digest) = digest q /\ rec.(r_state_digest) = state_digest st.

(** One evaluation keeps the cache valid and bounded and returns a valid
    output under the disposition rule. *)
Lemma evaluate_spec qs h (n : nat) na nf id now tr st q e :
  NoDup (map digest qs) -> c.(cache_capacity) = Z.of_nat n -> q ∈ qs ->
  cached_ok qs h e.(_cache) -> (length e.(_cache) <= n)%nat ->
  let '(r, e') := evaluate c na nf id now tr st q e in let h' := h ++ [(e, st, q)] in
  cached_ok qs h' e'.(_cache) /\ (length e'.(_cache) <= n)%nat /\ (forall rec, r = Ok rec -> record_of h' st q e' rec).
Proof.
  intros Hnd Hn Hq Hc Hl. apply (cached_ok_more qs h [(e, st, q)]) in Hc. unfold evaluate.
  assert ((e, st, q) ∈ h ++ [(e, st, q)]) as Hin by (apply elem_of_app; right; by left).
  revert Hc Hin. generalize (h ++ [(e, st, q)]). clear h. intros h Hc Hin.
  destruct (set_diff_sorted _ _); [|split_and!; [done|done|by intros ? [=]]].
  rewrite bind_get. set (key := _cache_key c (state_digest st) q).
  set (cached := if cacheable q then dget key (_cache e) else None).
  assert (forall o, cached = Some o -> _validate o q = Ok tt /\ given h (state_digest st) q o) as Hcv.
  { unfold cached. intros o. destruct (cacheable q); [|done]. intros Hg.
    destruct (proj2 Hc key o (dget_elem _ _ _ Hg)) as (q' & st' & Hq' & Hk & Hv & Hgi).
    apply cache_key_inj in Hk as [Hst Hk]. rewrite Hst. by rewrite (NoDup_map_inj digest qs q q' Hnd Hq Hq' Hk). }
  pose proof (choose_cache na nf cached key st q e) as Hcc.
  destruct (choose c na nf cached key st q e) as [[[o fb]|x] e1] eqn:Ec; cbn [snd] in Hcc.
  2: { rewrite (bind_err _ _ _ _ _ Ec). rewrite Hcc. split; [|split; [|by intros ? [=]]].
       - destruct cached; [by apply cached_ok_move|done].
       - destruct cached; [by rewrite length_move_to_end|done]. }
  rewrite (bind_ok _ _ _ _ _ Ec).
  pose proof (choose_ok _ _ _ _ _ _ _ _ _ _ (fun o E => proj1 (Hcv o E)) Ec) as (Hv & Hsrc).
  assert (cached_ok qs h (_cache e1) /\ (length (_cache e1) <= n)%nat) as [Hc1 Hl1].
  { rewrite Hcc. destruct cached; [|done]. split; [by apply cached_ok_move|by rewrite length_move_to_end]. }
  assert (fb = false -> given h (state_digest st) q o) as Hgiven.
  { intros ->. destruct Hsrc as [E|[_ E]]; [by apply Hcv|]. by exists e, st, e1.(world). }
  cbn [fst snd]. destruct (cacheable q && _ && negb fb) eqn:Estore.
  - apply andb_true_iff in Estore as [_ ->%negb_true_iff].
    unfold on_cache, zoom_M, mbind_M, modify_M. rewrite Hn.
    pose proof (evict_spec n (dset key o (_cache e1))) as He. pose proof (evict_length n (dset key o (_cache e1))) as Hel.
    rewrite He in Hel |- *. cbn [snd] in Hel. split; [apply cached_ok_drop; apply cached_ok_dset; auto|].
    split; [cbn [_cache]; lia|]. intros rec [= <-]. split; [done|]. split; [left|done]. cbn. auto.
  - rewrite bind_ret. split; [done|]. split; [done|]. intros rec [= <-]. split; [done|]. split; [|done].
    destruct fb; [right|left]; cbn; auto.
Qed.
End facts.

Lemma validate_same q q' : QuestionDefinition_validate q = Ok q' -> q = q'.
Proof.
  unfold QuestionDefinition_validate, guard_raise.
  repeat (match goal with |- context [if ?b then _ else _] => destruct b end; cbn [mbind res_bind]; try done). by intros [= ->].
Qed.
Lemma load_validates read fields f q : load_question read fields f = Ok q -> QuestionDefinition_validate q = Ok q.
Proof.
  unfold load_question. destruct (read f) as [j|]; [|done]. cbn [mbind res_bind]. destruct (fields j) as [q'|]; [|done].
  cbn [mbind res_bind]. intros H. by rewrite (validate_same q' q H) in H.
Qed.
(** The registry of a directory indexes what its files hold. *)
Lemma directory_questions read fields files r : from_directory read fields files = Ok r -> exists qs,
  (forall q, q ∈ qs <-> exists f, f ∈ files /\ load_question read fields f = Ok q) /\
  (forall f, f ∈ files -> exists q, load_question read fields f = Ok q) /\
  qs <> [] /\ NoDup (map key_of qs) /\ r = dict_of (map (fun q => (key_of q, q)) qs).
Proof.
  unfold from_directory. destruct (map_res _ (sort_str files)) as [qs|e] eqn:E; [|done]. cbn [mbind res_bind]. intros H.
  apply map_res_Forall2 in E. exists qs.
  assert (forall f, f ∈ files -> exists q, q ∈ qs /\ load_question read fields f = Ok q) as Hf.
  { intros f [n Hn]%(elem_of_isort str_leb)%list_elem_of_lookup_1. destruct (Forall2_lookup_l _ _ _ _ _ E Hn) as (q & Hn' & Hl).
    exists q. split; [by eapply list_elem_of_lookup_2|done]. }
  split; [|split; [intros f Hin; destruct (Hf f Hin) as (q & _ & Hl); by exists q|]].
  - intros q. split.
    + intros [n Hn]%list_elem_of_lookup_1. destruct (Forall2_lookup_r _ _ _ _ _ E Hn) as (f & Hn' & Hl).
      exists f. split; [|done]. apply (elem_of_isort str_leb). by eapply list_elem_of_lookup_2.
    + intros (f & Hin & Hl). destruct (Hf f Hin) as (q' & Hq & Hl'). rewrite Hl in Hl'. by injection Hl' as <-.
  - destruct qs as [|q0 qs]; [done|]. split; [done|]. revert H. unfold new_registry. generalize (q0 :: qs). intros l.
    destruct (Nat.eqb_spec (length (map key_of l)) (length (remove_dups (map key_of l)))) as [Hn|]; cbn [negb]; [|done].
    intros [= <-]. split; [by apply remove_dups_length in Hn|done].
Qed.
Lemma breaker_fold (ts : list float) (b : CircuitBreaker) :
  let b' := fold_left (fun b t => (failure t b).2) ts b in
  b'.(failure_threshold) = b.(failure_threshold) /\ b'.(reset_seconds) = b.(reset_seconds) /\
  b'.(failures) = b.(failures) + Z.of_nat (length ts).
Proof.
  cbv zeta. revert b. induction ts as [|t ts IH]; cbn [fold_left length]; intros b.
  { split_and!; [done|done|]. cbn. lia. }
  destruct (IH (failure t b).2) as (-> & -> & ->). rewrite Nat2Z.inj_succ.
  split_and!; [done|done|]. cbn [failure modify_M snd set_breaker failures]. lia.
Qed.

Lemma failure_opened t b :
  ((failure t b).2).(opened_at) = if b.(failures) + 1 >=? b.(failure_threshold) then Some t else b.(opened_at).
Proof. done. Qed.

End EngineFacts.

(** ** Properties *)

Module DecisionOpsTheorems.
Import Contracts Registry Engine EngineFacts.

(** Evaluations of registered questions, from an engine with an empty cache,
    and what each of them found. *)
Inductive evaluated {W} (c : config (W := W)) (qs : list QuestionDefinition) : asked -> engine -> Prop :=
| evaluated_start b w : evaluated c qs [] {| breaker := b; _cache := []; world := w |}
| evaluated_step na nf id now tr st q h e : evaluated c qs h e -> q ∈ qs ->
    evaluated c qs (h ++ [(e, st, q)]) (evaluate c na nf id now tr st q e).2.

Lemma evaluated_inv {W} (c : config (W := W)) qs n h e :
  NoDup (map digest qs) -> c.(cache_capacity) = Z.of_nat n -> evaluated c qs h e ->
  cached_ok c qs h e.(_cache) /\ (length e.(_cache) <= n)%nat.
Proof.
  intros Hnd Hn. induction 1 as [b w|na nf id now tr st q h e _ [IH1 IH2] Hq].
  - split; [|cbn; lia]. split; [constructor|]. intros k o H. by apply elem_of_nil in H.
  - pose proof (evaluate_spec c qs h n na nf id now tr st q e Hnd Hn Hq IH1 IH2) as H.
    destruct (evaluate _ _ _ _ _ _ _ _ _) as [r e']. destruct H as (H1 & H2 & _). by split.
Qed.

(** C21: every decision returned by the engine is valid for its question.
    Whatever the providers do and whatever was evaluated before over questions
    with distinct digests, a returned record carries an output its question
    accepts, and names the digests of its question and state.  Either the record
    names the primary provider and the output is the primary's answer to this
    question, in this evaluation or in an earlier one of it whose state had the
    same digest: it is then accepted, or marked for human review where its confidence is below
    the question's threshold.  Or the record names the fallback provider, whose
    answer in this evaluation the output is: it is then marked as a fallback, or
    for human review below the threshold, and never accepted.  The cache never
    exceeds its capacity. *)
Theorem decisions_valid : forall (W : Type) (c : config (W := W)) qs n h e na nf id now tr st q,
  NoDup (map digest qs) -> c.(cache_capacity) = Z.of_nat n -> evaluated c qs h e -> q ∈ qs ->
  let '(r, e') := evaluate c na nf id now tr st q e in
  (length e'.(_cache) <= n)%nat /\
  forall rec, r = Ok rec ->
    let review := fltb rec.(output).(confidence) q.(confidence_threshold) in
    _validate rec.(output) q = Ok tt /\
    ((rec.(provider) = c.(primary).(provider_id) /\ rec.(provider_revision) = c.(primary).(p_revision) /\
      rec.(disposition) = (if review then "human_review" else "accepted") /\
      exists e0 st0 w0, (e0, st0, q) ∈ h ++ [(e, st, q)] /\ state_digest st0 = state_digest st /\
        c.(primary).(decide) st0 q e0.(world) = (Ok rec.(output), w0)) \/
     (rec.(provider) = c.(fallback).(provider_id) /\ rec.(provider_revision) = c.(fallback).(p_revision) /\
      rec.(disposition) = (if review then "human_review" else "fallback") /\
      exists w1, c.(fallback).(decide) st q w1 = (Ok rec.(output), e'.(world)))) /\
    rec.(r_question_digest) = digest q /\ rec.(r_state_digest) = state_digest st.
Proof.
  intros W c qs n h e na nf id now tr st q Hnd Hn He Hq.
  destruct (evaluated_inv c qs n h e Hnd Hn He) as [Hc Hl].
  pose proof (evaluate_spec c qs h n na nf id now tr st q e Hnd Hn Hq Hc Hl) as H.
  destruct (evaluate _ _ _ _ _ _ _ _ _) as [r e']. destruct H as (_ & H1 & H2). split; [exact H1|exact H2].
Qed.

Definition ex_question : QuestionDefinition :=
  {| question_id := "route.model"; version := "1"; decision_type := CHOICE; description := "which model to route to";
     owner := "ml"; required_state := ["load"]; options := ["a"; "b"]; score_levels := [];
     minimum_score := NInt 0; maximum_score := NInt 1; confidence_threshold := fratio 8 10;
     cacheable := true; risk_tier := "standard" |}.
Definition ex_output (v : string) : DecisionOutput :=
  {| value := VStr v; confidence := fratio 9 10; probabilities := []; rationale := EmptyString |}.
Definition ex_config : config (W := nat) :=
  {| primary := {| provider_id := "p"; p_revision := "1"; decide := fun _ _ w => (Ok (ex_output "a"), S w) |};
     fallback := {| provider_id := "f"; p_revision := "1"; decide := fun _ _ w => (Ok (ex_output "b"), w) |};
     policy_version := "1"; state_schema_version := "1"; cache_capacity := 1 |}.
Definition ex_engine : engine (W := nat) := {| breaker := new_breaker; _cache := []; world := O |}.

Lemma decisions_valid_witness :
  exists rec e', evaluate ex_config fzero fzero "d" "now" "t" [("load", JInt 3)] ex_question ex_engine = (Ok rec, e') /\
    rec.(disposition) = "accepted" /\ _validate rec.(output) ex_question = Ok tt.
Proof.
  pose proof (decisions_valid nat ex_config [ex_question] 1 [] ex_engine fzero fzero "d" "now" "t" [("load", JInt 3)] ex_question
    (NoDup_singleton _) eq_refl (evaluated_start _ _ _ _) (proj2 (list_elem_of_singleton _ _) eq_refl)) as H.
  destruct (evaluate ex_config fzero fzero "d" "now" "t" [("load", JInt 3)] ex_question ex_engine) as [[rec|x] e'] eqn:E.
  - exists rec, e'. split; [reflexivity|]. split; [|exact (proj1 (proj2 H rec eq_refl))].
    assert ((rec0 ← (evaluate ex_config fzero fzero "d" "now" "t" [("load", JInt 3)] ex_question ex_engine).1; Ok (disposition rec0)) = Ok "accepted") as K
      by (vm_compute; reflexivity).
    rewrite E in K. injection K as K. exact K.
  - exfalso. assert (is_ok (evaluate ex_config fzero fzero "d" "now" "t" [("load", JInt 3)] ex_question ex_engine).1 = true) as K
      by (vm_compute; reflexivity). rewrite E in K. discriminate K.
Defined.

(** C22: the primary provider is isolated.  Take an evaluation that asks the
    primary: the state has every key the question requires, no output is cached
    for them, and the breaker is closed, or open since at least its reset time.
    When the primary raises any exception, or answers what the question does not
    accept, the breaker counts one failure more (from zero when it was open) and
    is open at the time of the failure exactly when the count has reached its
    threshold; nothing is cached.  The fallback is asked in the world the
    primary left: an answer the question accepts is returned, attributed to the
    fallback provider and marked as a fallback, or for human review below the
    question's threshold; its exception, or that of an answer not accepted, is
    the evaluation's. *)
Theorem primary_isolated : forall (W : Type) (c : config (W := W)) e na nf id now tr st q r w1 rf w2,
  (forall k, k ∈ q.(required_state) -> k ∈ dkeys st) ->
  (q.(cacheable) = true -> dget (_cache_key c (state_digest st) q) e.(_cache) = None) ->
  (forall t, e.(breaker).(opened_at) = Some t -> fgeb (fsub na t) e.(breaker).(reset_seconds) = true) ->
  c.(primary).(decide) st q e.(world) = (r, w1) ->
  (forall o1, r = Ok o1 -> _validate o1 q <> Ok tt) ->
  c.(fallback).(decide) st q w1 = (rf, w2) ->
  let n := match e.(breaker).(opened_at) with None => e.(breaker).(failures) + 1 | Some _ => 1 end in
  let '(out, e') := evaluate c na nf id now tr st q e in
  e'.(breaker) = {| failure_threshold := e.(breaker).(failure_threshold); reset_seconds := e.(breaker).(reset_seconds);
                    failures := n; opened_at := if e.(breaker).(failure_threshold) <=? n then Some nf else None |} /\
  e'.(_cache) = e.(_cache) /\ e'.(world) = w2 /\
  match (o ← rf; do? _validate o q in Ok o) with
  | Ok o => exists rec, out = Ok rec /\ rec.(output) = o /\
      rec.(provider) = c.(fallback).(provider_id) /\ rec.(provider_revision) = c.(fallback).(p_revision) /\
      rec.(disposition) = if fltb o.(confidence) q.(confidence_threshold) then "human_review" else "fallback"
  | Err x => out = Err x
  end.
Proof.
  intros W c e na nf id now tr st q r w1 rf w2 Hreq Hcache Hb Hp Hbad Hf n.
  unfold evaluate. apply set_diff_sorted_nil in Hreq as ->. rewrite bind_get.
  assert ((if cacheable q then dget (_cache_key c (state_digest st) q) (_cache e) else None) = None) as ->.
  { destruct (cacheable q); [by apply Hcache|done]. }
  pose proof (choose_failed c na nf (_cache_key c (state_digest st) q) st q e r w1 rf w2 Hb Hp Hbad Hf) as E.
  fold n in E. destruct (o ← rf; _) as [o|x].
  - rewrite (bind_ok _ _ _ _ _ E). cbn [fst snd negb]. rewrite andb_false_r, bind_ret.
    split_and!; [done|done|done|]. eexists. split; [done|]. split_and!; done.
  - rewrite (bind_err _ _ _ _ _ E). done.
Qed.

Definition ex_down : config (W := nat) :=
  {| primary := {| provider_id := "p"; p_revision := "1"; decide := fun _ _ w => (raise TimeoutError "slow", S w) |};
     fallback := ex_config.(fallback); policy_version := "1"; state_schema_version := "1"; cache_capacity := 1 |}.

Lemma primary_isolated_witness :
  exists rec e', evaluate ex_down fzero fzero "d" "now" "t" [("load", JInt 3)] ex_question ex_engine = (Ok rec, e') /\
    rec.(provider) = "f" /\ rec.(disposition) = "fallback" /\ e'.(breaker).(failures) = 1.
Proof.
  pose proof (primary_isolated nat ex_down ex_engine fzero fzero "d" "now" "t" [("load", JInt 3)] ex_question
    (raise TimeoutError "slow") 1%nat (Ok (ex_output "b")) 1%nat (fun k Hk => Hk) (fun _ => eq_refl)
    ltac:(discriminate) eq_refl ltac:(discriminate) eq_refl) as H. cbv zeta in H.
  destruct (evaluate ex_down fzero fzero "d" "now" "t" [("load", JInt 3)] ex_question ex_engine) as [out e'].
  destruct H as (H1 & _ & _ & H).
  assert ((do? _validate (ex_output "b") ex_question in Ok (ex_output "b")) = Ok (ex_output "b")) as K by (vm_compute; reflexivity).
  change (match (do? _validate (ex_output "b") ex_question in Ok (ex_output "b")) with
    | Ok o => exists rec, out = Ok rec /\ rec.(output) = o /\ rec.(provider) = "f" /\ rec.(provider_revision) = "1" /\
        rec.(disposition) = if fltb o.(confidence) ex_question.(confidence_threshold) then "human_review" else "fallback"
    | Err x => out = Err x end) in H.
  rewrite K in H. destruct H as (rec & -> & _ & H3 & _ & H5). exists rec, e'. rewrite H1.
  split; [reflexivity|]. split; [exact H3|]. split; [rewrite H5; vm_compute; reflexivity|reflexivity].
Defined.

(** The circuit breaker opens at its threshold.  From a closed breaker,
    consecutive failures below the threshold leave calls allowed; from the
    threshold on calls are refused, without any change, until the reset time
    has passed since the last failure, after which the breaker is closed and
    its count starts over; a success closes it at any time. *)
Theorem breaker_opens : forall b ts now,
  b.(opened_at) = None -> b.(failures) = 0 -> 0 < b.(failure_threshold) ->
  let b' := fold_left (fun b t => (failure t b).2) ts b in
  (Z.of_nat (length ts) < b.(failure_threshold) -> allow now b' = (Ok true, b')) /\
  (b.(failure_threshold) <= Z.of_nat (length ts) -> exists ts0 t, ts = ts0 ++ [t] /\
     allow now b' = if fgeb (fsub now t) b.(reset_seconds) then (Ok true, b) else (Ok false, b')) /\
  (success b').2 = b.
Proof.
  intros b ts now Ho Hf Ht b'. pose proof (breaker_fold ts b) as (H1 & H2 & H3). fold b' in H1, H2, H3.
  assert (set_breaker 0 None b' = b) as Hb.
  { transitivity {| failure_threshold := failure_threshold b; reset_seconds := reset_seconds b;
      failures := failures b; opened_at := opened_at b |}; [|clear; by destruct b].
    unfold set_breaker. by rewrite H1, H2, Hf, Ho. }
  split; [|split; [|exact Hb]].
  - intros Hlt. assert (opened_at b' = None) as E; [|unfold allow; mred; by rewrite E].
    clear H1 H2 H3 Hb. unfold b'. clear b'. revert b Ho Hf Ht Hlt.
    induction ts as [|t ts IH] using rev_ind; [done|]. intros b Ho Hf Ht Hlt.
    rewrite length_app in Hlt. cbn in Hlt. rewrite fold_left_app. cbn [fold_left]. rewrite failure_opened.
    pose proof (breaker_fold ts b) as (-> & _ & ->). rewrite IH by (done || lia).
    destruct (Z.geb_spec (failures b + Z.of_nat (length ts) + 1) (failure_threshold b)); [lia|done].
  - intros Hge. destruct ts as [|t ts _] using rev_ind; [cbn in Hge; lia|]. exists ts, t. split; [done|].
    assert (opened_at b' = Some t) as E.
    { unfold b'. rewrite fold_left_app. cbn [fold_left]. rewrite failure_opened.
      pose proof (breaker_fold ts b) as (-> & _ & ->). rewrite length_app in Hge. cbn in Hge.
      destruct (Z.geb_spec (failures b + Z.of_nat (length ts) + 1) (failure_threshold b)); [done|lia]. }
    unfold allow. mred. rewrite E, H2. destruct (fgeb _ _); [|done]. rewrite bind_modify. by rewrite Hb.
Qed.

Lemma breaker_opens_witness :
  let b := fold_left (fun b t => (failure t b).2) [f_of_Z 1; f_of_Z 2; f_of_Z 3] new_breaker in
  allow (f_of_Z 20) b = (Ok false, b) /\ (success b).2 = new_breaker.
Proof.
  intros b.
  destruct (breaker_opens new_breaker [f_of_Z 1; f_of_Z 2; f_of_Z 3] (f_of_Z 20) eq_refl eq_refl eq_refl) as (_ & H2 & H3).
  split; [|exact H3]. destruct H2 as (ts0 & t & E & H); [discriminate|].
  apply (app_inj_tail [f_of_Z 1; f_of_Z 2]) in E as [_ <-]. refine (eq_trans H _). vm_compute. reflexivity.
Defined.

(** C23: a validated output means what the question asks.  A choice is one of
    the options, its probabilities, when given, cover exactly the options and
    none is below zero or above one; a probability lies in the unit interval
    and a score in the registered range. *)
Theorem validated_output : forall o q,
  _validate o q = Ok tt ->
  match q.(decision_type) with
  | CHOICE => exists s, o.(value) = VStr s /\ s ∈ q.(options) /\
      (o.(probabilities) <> [] -> forall k, k ∈ dkeys o.(probabilities) <-> k ∈ q.(options)) /\
      (forall k p, (k, p) ∈ o.(probabilities) -> fltb p (f_of_Z 0) = false /\ fgtb p (f_of_Z 1) = false)
  | PROBABILITY => exists f, o.(value) = VNum f /\ fleb (f_of_Z 0) f = true /\ fleb f (f_of_Z 1) = true
  | SCORE => exists f, o.(value) = VNum f /\ fleb (num q.(minimum_score)) f = true /\ fleb f (num q.(maximum_score)) = true
  end.
Proof.
  intros o q. unfold _validate, guard_raise, unit_interval.
  destruct (decision_type q), (value o) as [s|f]; cbn [mbind res_bind]; try done.
  - destruct (str_in s (options q)) eqn:Es; [|done]. cbn [negb].
    destruct (negb (length (probabilities o) =? 0)%nat && negb _) eqn:Ep; [done|].
    destruct (existsb _ _) eqn:Ee; [done|]. intros _. exists s. split; [done|]. split; [by apply str_in_spec|]. split.
    + intros Hne k. destruct (probabilities o) as [|kp ps] eqn:Epr; [done|]. rewrite <- Epr in *.
      rewrite andb_false_iff, negb_false_iff, negb_false_iff in Ep.
      destruct Ep as [Ep|Ep]; [rewrite Epr in Ep; discriminate|]. apply andb_true_iff in Ep as [E1 E2].
      rewrite !forallb_elem in E1, E2. split; intros Hk; [apply E1 in Hk|apply E2 in Hk]; by apply str_in_spec in Hk.
    + rewrite existsb_false in Ee. intros k p Hin. apply orb_false_iff, (Ee p).
      exact (list_elem_of_fmap_2 snd _ _ Hin).
  - destruct (negb _) eqn:E; [done|]. intros _. apply negb_false_iff, andb_true_iff in E. eauto.
  - destruct (negb _) eqn:E; [done|]. intros _. apply negb_false_iff, andb_true_iff in E. eauto.
Qed.

Lemma validated_output_witness :
  _validate (ex_output "a") ex_question = Ok tt /\ exists s, value (ex_output "a") = VStr s /\ s ∈ ["a"; "b"].
Proof.
  assert (_validate (ex_output "a") ex_question = Ok tt) as H by (vm_compute; reflexivity).
  split; [exact H|]. destruct (validated_output _ _ H) as (s & H1 & H2 & _). exists s. split; [exact H1|exact H2].
Defined.

(** A registry read from a directory has exactly its files' questions: each was
    read and validated, there is at least one, no two share an identifier and a
    version, and a lookup finds the one of that identifier and version. *)
Theorem registry_of_directory read fields files r : from_directory read fields files = Ok r ->
  files <> [] /\ (forall f, f ∈ files -> exists q, load_question read fields f = Ok q /\ QuestionDefinition_validate q = Ok q) /\
  forall qid v q, Registry.get qid v r = Ok q <->
    (q.(question_id), q.(version)) = (qid, v) /\ exists f, f ∈ files /\ load_question read fields f = Ok q.
Proof.
  intros (qs & Hq & Hf & Hne & Hn & ->)%directory_questions. split_and!.
  - intros ->. destruct qs as [|q qs]; [done|]. destruct (proj1 (Hq q) ltac:(by left)) as (f & Hin & _). by apply elem_of_nil in Hin.
  - intros f Hin. destruct (Hf f Hin) as [q Hl]. exists q. split; [done|]. by eapply load_validates.
  - intros qid v q. unfold Registry.get. pose proof (dget_indexed key_of qs (qid, v)) as Hd.
    transitivity (dget (qid, v) (dict_of (map (fun q => (key_of q, q)) qs)) = Some q); [destruct (dget _ _); split; by (done || congruence || (intros [= ->]))|].
    rewrite Hd by done. rewrite Hq. tauto.
Qed.

(** Probabilities that are not numbers pass the range and sum checks. *)
Lemma nan_probability_accepted :
  _validate {| value := VStr "a"; confidence := f_of_Z 1; probabilities := [("a", S754_nan); ("b", S754_nan)];
               rationale := EmptyString |} ex_question = Ok tt.
Proof. vm_compute. reflexivity. Qed.

End DecisionOpsTheorems.
