(* ===== verification/AIOps.v ===== *)
(** * AIOps incidents (platforms/aiops)

    [Workflow] is the incident state machine of workflow.py, [Api] the handlers
    of api.py over the process-wide dictionary of incidents, whose objects are
    changed in place. *)

From Stdlib Require Import String Ascii ZArith Lia.
From stdpp Require Import base list strings relations.
From S2P Require Import Prelude PyStr PyDict Json AuditLog.

Module Workflow.

Inductive IncidentState :=
| DETECTED | CORRELATED | INVESTIGATING | RECOMMENDED | APPROVED | EXECUTING | VERIFYING
| RESOLVED | ESCALATED.
#[export] Instance IncidentState_eq_dec : EqDecision IncidentState.
Proof. solve_decision. Defined.

Definition state_value (s : IncidentState) : string :=
  match s with
  | DETECTED => "detected" | CORRELATED => "correlated" | INVESTIGATING => "investigating"
  | RECOMMENDED => "recommended" | APPROVED => "approved" | EXECUTING => "executing"
  | VERIFYING => "verifying" | RESOLVED => "resolved" | ESCALATED => "escalated"
  end.

Record Signal := {
  source : string;
  s_service : string;
  severity : string;
  fingerprint : string;
  observed_at : string;
  attributes : dict string string;
}.

Record Remediation := {
  action : string;
  target : string;
  rationale : string;
  risk : string;
  rollback : string;
  side_effecting : bool;
}.

Record Incident := {
  service : string;
  signals : list Signal;
  incident_id : string;
  state : IncidentState;
  recommendation : option Remediation;
  approved_by : option string;
  audit : list HistoryEntry;
}.

Definition new_incident (service_ : string) (signals_ : list Signal) (fresh_id : string) : Incident :=
  {| service := service_; signals := signals_; incident_id := fresh_id; state := DETECTED;
     recommendation := None; approved_by := None; audit := [] |}.

Definition set_recommendation (r : Remediation) (i : Incident) : Incident :=
  {| service := i.(service); signals := i.(signals); incident_id := i.(incident_id); state := i.(state);
     recommendation := Some r; approved_by := i.(approved_by); audit := i.(audit) |}.
Definition set_approved_by (a : string) (i : Incident) : Incident :=
  {| service := i.(service); signals := i.(signals); incident_id := i.(incident_id); state := i.(state);
     recommendation := i.(recommendation); approved_by := Some a; audit := i.(audit) |}.
Definition moved (to_ : IncidentState) (actor reason now : string) (i : Incident) : Incident :=
  {| service := i.(service); signals := i.(signals); incident_id := i.(incident_id); state := to_;
     recommendation := i.(recommendation); approved_by := i.(approved_by);
     audit := i.(audit) ++ [{| h_from := state_value i.(state); h_to := state_value to_; h_actor := actor;
                               h_reason := reason; h_at := now |}] |}.

(** [Incident._move] *)
Definition _move (to_ : IncidentState) (actor reason now : string) : M Incident unit :=
  modify_M (moved to_ actor reason now).

Definition correlate (actor now : string) : M Incident unit :=
  let! self := get_M in
  if negb (bool_decide (self.(state) = DETECTED)) ||
     existsb (fun s => negb (bool_decide (s.(s_service) = self.(service)))) self.(signals) then
    raise_M ValueError "incident signals cannot be correlated"
  else _move CORRELATED actor "signals correlated by service" now.

Definition investigate (actor now : string) : M Incident unit :=
  let! self := get_M in
  if negb (bool_decide (self.(state) = CORRELATED)) then
    raise_M ValueError "incident must be correlated first"
  else _move INVESTIGATING actor "investigation started" now.

Definition recommend (r : Remediation) (actor now : string) : M Incident unit :=
  let! self := get_M in
  if negb (bool_decide (self.(state) = INVESTIGATING)) then
    raise_M ValueError "incident must be under investigation"
  else if r.(side_effecting) && (negb (nonempty r.(rollback)) || negb (str_in r.(risk) ["low"; "medium"; "high"])) then
    raise_M ValueError "side-effecting remediation requires risk and rollback"
  else
  do! modify_M (set_recommendation r) in
  _move RECOMMENDED actor r.(rationale) now.

Definition authored (who : string) (i : Incident) : bool :=
  existsb (fun e => bool_decide (e.(h_actor) = who) && bool_decide (e.(h_to) = state_value RECOMMENDED)) i.(audit).

Definition approve (approver now : string) : M Incident unit :=
  let! self := get_M in
  if negb (bool_decide (self.(state) = RECOMMENDED)) then
    raise_M ValueError "only a recommendation can be approved"
  else if authored approver self then
    raise_M ValueError "recommendation author cannot approve remediation"
  else
  do! modify_M (set_approved_by approver) in
  _move APPROVED approver "remediation approved" now.

Definition execute (actor now : string) : M Incident unit :=
  let! self := get_M in
  match self.(recommendation) with
  | Some r =>
      if negb (bool_decide (self.(state) = APPROVED)) then raise_M ValueError "approved remediation required"
      else _move EXECUTING actor r.(action) now
  | None => raise_M ValueError "approved remediation required"
  end.

Definition verify (healthy : bool) (actor now : string) : M Incident unit :=
  let! self := get_M in
  if negb (bool_decide (self.(state) = EXECUTING)) then
    raise_M ValueError "execution must precede verification"
  else
  do! _move VERIFYING actor "post-action verification" now in
  _move (if healthy then RESOLVED else ESCALATED) actor
    (if healthy then "service recovered" else "verification failed") now.

End Workflow.

Module Api.
Import Workflow.

Definition incidents : Type := dict string Incident.

Record SignalRequest := {
  q_source : string; q_service : string; q_severity : string; q_fingerprint : string;
  q_observed_at : string; q_attributes : dict string string;
}.
Record IncidentRequest := { i_service : string; i_signals : list SignalRequest }.
Record ActionRequest := {
  a_actor : string;
  a_action : option string;
  a_target : option string;
  a_rationale : option string;
  a_risk : option string;
  a_rollback : option string;
  a_healthy : option bool;
}.

(** [view] *)
Definition view (i : Incident) : json :=
  JObj [("incident_id", JStr i.(incident_id)); ("service", JStr i.(service));
        ("state", JStr (state_value i.(state))); ("approved_by", jopt_str i.(approved_by));
        ("audit", JArr (map history_json i.(audit)))].

(** [create_incident] *)
Definition create_incident (fresh_id : string) (q : IncidentRequest) : M incidents json :=
  let i := new_incident q.(i_service)
    (map (fun s => {| source := s.(q_source); s_service := s.(q_service); severity := s.(q_severity);
       fingerprint := s.(q_fingerprint); observed_at := s.(q_observed_at); attributes := s.(q_attributes) |})
       q.(i_signals)) fresh_id in
  do! modify_M (dset fresh_id i) in
  mret_M (view i).

Definition text (o : option string) : string := default EmptyString o.

(** The operation named by the path, on the incident. *)
Definition operate (operation : string) (q : ActionRequest) (now : string) : M Incident unit :=
  if bool_decide (operation = "correlate") then correlate q.(a_actor) now
  else if bool_decide (operation = "investigate") then investigate q.(a_actor) now
  else if bool_decide (operation = "recommend") then
    recommend {| action := text q.(a_action); target := text q.(a_target); rationale := text q.(a_rationale);
      risk := text q.(a_risk); rollback := text q.(a_rollback); side_effecting := true |} q.(a_actor) now
  else if bool_decide (operation = "approve") then approve q.(a_actor) now
  else if bool_decide (operation = "execute") then execute q.(a_actor) now
  else if bool_decide (operation = "verify") then
    verify (default false q.(a_healthy)) q.(a_actor) now
  else http_M 404 "unknown operation".

(** [advance] *)
Definition advance (id operation : string) (q : ActionRequest) (now : string) : M incidents json :=
  let! all := get_M in
  match dget id all with
  | None => http_M 404 "incident not found"
  | Some incident =>
      catch_M (
        let! i := (fun s => match operate operation q now incident with
                            | (Ok _, i) => (Ok i, dset id i s)
                            | (Err e, i) => (Err e, dset id i s)
                            end) in
        mret_M (view i))
      [ValueError] (fun e => http_M 409 (str_exn e))
  end.

End Api.

(** ** Lemmas *)

Module WorkflowFacts.
Import Workflow.

Inductive step (i : Incident) : Incident -> Prop :=
| step_correlate actor now : step i (correlate actor now i).2
| step_investigate actor now : step i (investigate actor now i).2
| step_recommend r actor now : step i (recommend r actor now i).2
| step_approve actor now : step i (approve actor now i).2
| step_execute actor now : step i (execute actor now i).2
| step_verify healthy actor now : step i (verify healthy actor now i).2.

Definition reachable (i : Incident) : Prop :=
  exists service signals id, rtc step (new_incident service signals id) i.

Definition recommended_or_later (s : IncidentState) : bool :=
  match s with DETECTED | CORRELATED | INVESTIGATING => false | _ => true end.
Definition approved_or_later (s : IncidentState) : bool :=
  match s with DETECTED | CORRELATED | INVESTIGATING | RECOMMENDED => false | _ => true end.

Definition sound (r : Remediation) : Prop :=
  r.(side_effecting) = true -> nonempty r.(rollback) = true /\ r.(risk) ∈ ["low"; "medium"; "high"].
Definition approved_independently (i : Incident) : Prop :=
  exists a e, i.(approved_by) = Some a /\ authored a i = false /\ e ∈ i.(audit) /\
    e.(h_to) = state_value APPROVED /\ e.(h_actor) = a.

Record inv (i : Incident) : Prop := {
  inv_recommended : recommended_or_later i.(state) = true -> exists r, i.(recommendation) = Some r /\ sound r;
  inv_approved : approved_or_later i.(state) = true -> approved_independently i;
}.

(** What a method call does to an incident. *)
Lemma incident_step_cases i i' : step i i' ->
  i' = i \/
  (exists to_ actor reason now, i' = moved to_ actor reason now i /\ to_ <> RECOMMENDED /\
     (recommended_or_later to_ = true -> recommended_or_later i.(state) = true) /\
     (approved_or_later to_ = true -> approved_or_later i.(state) = true)) \/
  (exists r actor now, sound r /\ i' = moved RECOMMENDED actor r.(rationale) now (set_recommendation r i)) \/
  (exists a now, i.(state) = RECOMMENDED /\ authored a i = false /\
     i' = moved APPROVED a "remediation approved" now (set_approved_by a i)) \/
  (exists actor now r1 r2 to_, approved_or_later i.(state) = true /\ to_ ∈ [RESOLVED; ESCALATED] /\
     i' = moved to_ actor r2 now (moved VERIFYING actor r1 now i)).
Proof.
  destruct 1 as [actor now|actor now|r actor now|actor now|actor now|healthy actor now].
  - unfold correlate. mred. destruct (negb _ || _); [by left|]. right; left. eexists _, _, _, _. by split_and!.
  - unfold investigate. mred. destruct (negb _); [by left|]. right; left. eexists _, _, _, _. by split_and!.
  - unfold recommend. mred. destruct (negb _); [by left|]. destruct (_ && _) eqn:E; [by left|].
    do 2 right; left. exists r, actor, now. split; [|done]. intros Hs. rewrite Hs in E. cbn [andb] in E.
    apply orb_false_iff in E as [E1 E2]. apply negb_false_iff in E1, E2. split; [done|by apply str_in_spec].
  - unfold approve. mred. destruct (bool_decide_reflect (state i = RECOMMENDED)); cbn [negb]; [|by left].
    destruct (authored actor i) eqn:E; [by left|]. do 3 right; left. exists actor, now. by split_and!.
  - unfold execute. mred. destruct (recommendation i) as [r|]; [|by left].
    destruct (bool_decide_reflect (state i = APPROVED)) as [Hs|]; cbn [negb]; [|by left].
    right; left. exists EXECUTING, actor, (action r), now. rewrite Hs. by split_and!.
  - unfold verify. mred. destruct (bool_decide_reflect (state i = EXECUTING)) as [Hs|]; cbn [negb]; [|by left].
    do 4 right. eexists actor, now, _, _, (if healthy then RESOLVED else ESCALATED). rewrite Hs.
    split; [done|]. split; [destruct healthy; rewrite !elem_of_cons; tauto|]. done.
Qed.

Lemma authored_moved a to_ actor reason now i :
  to_ <> RECOMMENDED -> authored a (moved to_ actor reason now i) = authored a i.
Proof.
  intros H. unfold authored, moved. cbn [audit]. rewrite existsb_app. cbn.
  rewrite (bool_decide_eq_false_2 (state_value to_ = "recommended")) by by destruct to_.
  by rewrite andb_false_r, !orb_false_r.
Qed.

Lemma approved_moved to_ actor reason now i :
  to_ <> RECOMMENDED -> approved_independently i -> approved_independently (moved to_ actor reason now i).
Proof.
  intros Hne (a & e & H1 & H2 & H3 & H4 & H5). exists a, e. rewrite authored_moved by done.
  split_and!; try done. apply elem_of_app. by left.
Qed.

Lemma remediation_step_inv i i' : inv i -> step i i' -> inv i'.
Proof.
  intros [Hr Ha] [->|[(to_ & actor & reason & now & -> & Hne & H1 & H2)|[(r & actor & now & Hs & ->)|
    [(a & now & Hs & Hau & ->)|(actor & now & r1 & r2 & to_ & Hp & Hto & ->)]]]]%incident_step_cases; [done|..].
  - split; cbn [moved state recommendation]; intros H; [auto|]. apply approved_moved; auto.
  - split; cbn; intros H; [by exists r|done].
  - split; intros _; [cbn; rewrite Hs in Hr; auto|].
    eexists a, _. rewrite authored_moved by done. split_and!; [done|done|apply elem_of_app; right; by left|done|done].
  - assert (to_ <> RECOMMENDED) by (rewrite !elem_of_cons, elem_of_nil in Hto; by destruct Hto as [->|[->|[]]]).
    split; intros _; [cbn; apply Hr; by destruct (state i)|]. by apply approved_moved, approved_moved, Ha.
Qed.

Lemma reachable_inv i : reachable i -> inv i.
Proof.
  intros (service & signals & id & H).
  assert (forall a b, rtc step a b -> inv a -> inv b) as Hgen.
  { induction 1 as [|x y z Hxy _ IH]; [done|]. intros Hx. apply IH. by eapply remediation_step_inv. }
  by apply (Hgen _ _ H).
Qed.

End WorkflowFacts.

(** ** Properties *)

Module AIOpsTheorems.
Import Workflow WorkflowFacts.

(** C24: no remediation without an independent approval.  An incident that
    reached execution, through any sequence of method calls, carries a
    recommendation, with a rollback and a declared risk when it has side
    effects, and was approved by someone, recorded in the audit trail, who
    wrote no recommendation of the incident. *)
Theorem remediation_approved : forall i,
  reachable i -> i.(state) ∈ [EXECUTING; VERIFYING; RESOLVED; ESCALATED] ->
  (exists r, i.(recommendation) = Some r /\
     (r.(side_effecting) = true -> r.(rollback) <> EmptyString /\ r.(risk) ∈ ["low"; "medium"; "high"])) /\
  exists a e, i.(approved_by) = Some a /\ e ∈ i.(audit) /\ e.(h_to) = "approved" /\ e.(h_actor) = a /\
    forall e', e' ∈ i.(audit) -> e'.(h_to) = "recommended" -> e'.(h_actor) <> a.
Proof.
  intros i [Hr Ha]%reachable_inv Hs.
  assert (recommended_or_later (state i) = true /\ approved_or_later (state i) = true) as [H1 H2].
  { rewrite !elem_of_cons, elem_of_nil in Hs. by destruct Hs as [->|[->|[->|[->|[]]]]]. }
  split.
  - destruct (Hr H1) as (r & Er & Hsd). exists r. split; [done|]. intros Hse. destruct (Hsd Hse) as [Hrb Hrk].
    split; [|done]. by destruct (rollback r).
  - destruct (Ha H2) as (a & e & E1 & E2 & E3 & E4 & E5). exists a, e. split_and!; try done.
    intros e' Hin Hto Hact. unfold authored in E2. rewrite existsb_false in E2. specialize (E2 e' Hin).
    rewrite !bool_decide_eq_true_2 in E2 by done. done.
Qed.

Definition ex_remediation : Remediation :=
  {| action := "restart"; target := "api"; rationale := "oom"; risk := "low"; rollback := "undo"; side_effecting := true |}.
Definition ex_incident : Incident :=
  (execute "ops" "t" (approve "bob" "t" (recommend ex_remediation "ana" "t"
    (investigate "ana" "t" (correlate "ana" "t" (new_incident "api" [] "i1")).2).2).2).2).2.

Lemma remediation_approved_witness :
  reachable ex_incident /\ ex_incident.(state) = EXECUTING /\ exists a, ex_incident.(approved_by) = Some a.
Proof.
  assert (reachable ex_incident) as Hr.
  { exists "api", [], "i1". unfold ex_incident.
    eapply rtc_l; [apply (step_correlate _ "ana" "t")|]. eapply rtc_l; [apply (step_investigate _ "ana" "t")|].
    eapply rtc_l; [apply (step_recommend _ ex_remediation "ana" "t")|].
    eapply rtc_l; [apply (step_approve _ "bob" "t")|]. eapply rtc_l; [apply (step_execute _ "ops" "t")|]. apply rtc_refl. }
  split; [exact Hr|]. split; [reflexivity|].
  destruct (remediation_approved ex_incident Hr) as (_ & a & e & H & _).
  { replace (state ex_incident) with EXECUTING by reflexivity. by left. }
  exists a. exact H.
Defined.

(** An incident method either succeeds and appends its audit entries, or
    raises [ValueError] and leaves the incident exactly as it was. *)
Theorem incident_atomic : forall i actor now r healthy m,
  m ∈ [correlate actor now; investigate actor now; recommend r actor now; approve actor now;
       execute actor now; verify healthy actor now] ->
  (exists i', m i = (Ok tt, i') /\ exists es, es <> [] /\ i'.(audit) = i.(audit) ++ es /\
     i'.(service) = i.(service) /\ i'.(incident_id) = i.(incident_id) /\
     forall e, e ∈ es -> e.(h_actor) = actor) \/
  (exists msg, m i = (raise ValueError msg, i)).
Proof.
  intros i actor now r healthy m Hm. rewrite !elem_of_cons, elem_of_nil in Hm.
  assert (forall i1 to_ reason, audit i1 = audit i -> service i1 = service i -> incident_id i1 = incident_id i ->
    exists i', _move to_ actor reason now i1 = (Ok tt, i') /\ exists es, es <> [] /\ audit i' = audit i ++ es /\
      service i' = service i /\ incident_id i' = incident_id i /\ forall e, e ∈ es -> h_actor e = actor) as Hmove.
  { intros i1 to_ reason E1 E2 E3. eexists. split; [done|]. eexists. cbn. rewrite E1. split; [|split; [done|]]; [done|].
    split_and!; [done|done|]. by intros e ->%list_elem_of_singleton. }
  destruct Hm as [->|[->|[->|[->|[->|[->|[]]]]]]].
  - unfold correlate. mred. destruct (negb _ || _); [right; by eexists|left; auto].
  - unfold investigate. mred. destruct (negb _); [right; by eexists|left; auto].
  - unfold recommend. mred. destruct (negb _); [right; by eexists|]. destruct (_ && _); [right; by eexists|left; mred; auto].
  - unfold approve. mred. destruct (negb _); [right; by eexists|]. destruct (authored _ _); [right; by eexists|left; mred; auto].
  - unfold execute. mred. destruct (recommendation i); [|right; by eexists]. destruct (negb _); [right; by eexists|left; auto].
  - unfold verify. mred. destruct (negb _); [right; by eexists|left]. unfold _move. mred. eexists. split; [done|].
    eexists. cbn. rewrite <- app_assoc. split; [|split; [done|]]; [done|]. split_and!; [done|done|].
    intros e He. cbn in He. rewrite !elem_of_cons, elem_of_nil in He. by destruct He as [->|[->|[]]].
Qed.

Lemma incident_atomic_witness :
  approve "ana" "t" (new_incident "api" [] "i1") = (raise ValueError "only a recommendation can be approved", new_incident "api" [] "i1") /\
  ((exists i', approve "ana" "t" (new_incident "api" [] "i1") = (Ok tt, i')) \/
   (exists msg, approve "ana" "t" (new_incident "api" [] "i1") = (raise ValueError msg, new_incident "api" [] "i1"))).
Proof.
  split; [reflexivity|].
  destruct (incident_atomic (new_incident "api" [] "i1") "ana" "t" ex_remediation true (approve "ana" "t"))
    as [(i' & H & _)|H].
  - rewrite !elem_of_cons. tauto.
  - left. exists i'. exact H.
  - right. exact H.
Defined.

End AIOpsTheorems.
