(* ===== verification/Banking.v ===== *)
(** * Synthetic banking workload (platforms/banking)

    [Domain] is the transaction contract, the score and the decision of
    domain.py; the rest is the idempotent endpoint of api.py, whose critical
    section runs under one lock.  Amounts are in cents: the contract allows
    two decimal places. *)

From Stdlib Require Import String Ascii ZArith Lia.
From stdpp Require Import base list strings.
From S2P Require Import Prelude PyStr PyDict PyFloat Hash Json.

Inductive Channel := CARD_PRESENT | ECOMMERCE | TRANSFER | BILL_PAYMENT.
#[export] Instance Channel_eq_dec : EqDecision Channel.
Proof. solve_decision. Defined.

Record Transaction := {
  event_id : string;
  account_token : string;
  amount_cents : Z;
  province : string;
  channel : Channel;
  merchant_category : string;
  occurred_at : string;
  has_timezone : bool;
  device_trusted : bool;
  international : bool;
  transactions_last_10m : Z;
  failed_auth_last_24h : Z;
}.

(** The field constraints and validators of [Transaction]. *)
Definition provinces : list string :=
  ["AB"; "BC"; "MB"; "NB"; "NL"; "NS"; "NT"; "NU"; "ON"; "PE"; "QC"; "SK"; "YT"].
Definition Transaction_valid (t : Transaction) : bool :=
  len_between 8 128 t.(event_id) && len_between 12 128 t.(account_token) &&
  (0 <? t.(amount_cents)) && (t.(amount_cents) <=? 1000000 * 100) && str_in t.(province) provinces &&
  len_between 2 64 t.(merchant_category) && t.(has_timezone) &&
  (0 <=? t.(transactions_last_10m)) && (t.(transactions_last_10m) <=? 1000) &&
  (0 <=? t.(failed_auth_last_24h)) && (t.(failed_auth_last_24h) <=? 1000).

Inductive Decision := APPROVE | REVIEW | DECLINE.
#[export] Instance Decision_eq_dec : EqDecision Decision.
Proof. solve_decision. Defined.
Definition decision_value (d : Decision) : string :=
  match d with APPROVE => "approve" | REVIEW => "review" | DECLINE => "decline" end.

Record ScoreResponse := {
  r_event_id : string;
  decision : Decision;
  risk_score : float;
  reason_codes : list string;
  model_version : string;
  duplicate : bool;
}.

Record ScoredTransaction := { s_score : float; s_reasons : list string }.

(** The conditions of [score], in the order it tests them: the amount added
    and the reason given. *)
Definition rules (t : Transaction) : list (bool * float * list string) :=
  [(t.(amount_cents) >=? 5000 * 100, fratio 28 100, ["HIGH_AMOUNT"]);
   (t.(international), fratio 18 100, ["INTERNATIONAL"]);
   (negb t.(device_trusted), fratio 24 100, ["UNTRUSTED_DEVICE"]);
   (t.(transactions_last_10m) >=? 8, fratio 25 100, ["HIGH_VELOCITY"]);
   (t.(failed_auth_last_24h) >=? 3, fratio 25 100, ["AUTH_FAILURES"]);
   (bool_decide (t.(channel) = ECOMMERCE), fratio 4 100, [])].
Definition total (rs : list (bool * float * list string)) : float :=
  fold_left (fun (v : float) (r : bool * float * list string) => if r.1.1 then fadd v r.1.2 else v) rs (fratio 2 100).

(** [score] *)
Definition score (t : Transaction) : ScoredTransaction :=
  let reasons := List.concat (map (fun r : bool * float * list string => if r.1.1 then r.2 else []) (rules t)) in
  {| s_score := fmin (total (rules t)) (f_of_Z 1);
     s_reasons := match reasons with [] => ["BASELINE_ACTIVITY"] | _ => reasons end |}.

(** [decision_for] *)
Definition decision_for (value : float) : Decision :=
  if fgeb value (fratio 70 100) then DECLINE
  else if fgeb value (fratio 35 100) then REVIEW else APPROVE.

(** [privacy_safe_account_hash] *)
Definition privacy_safe_account_hash (token : string) : string := slice_to 16 (sha256_hex token).

(** The state of the process: the idempotency index and the request counter. *)
Record service := { _seen : dict string ScoreResponse; requests : counter }.

Definition MODEL_VERSION : string := "rules-v1".

Definition as_duplicate (r : ScoreResponse) : ScoreResponse :=
  {| r_event_id := r.(r_event_id); decision := r.(decision); risk_score := r.(risk_score);
     reason_codes := r.(reason_codes); model_version := r.(model_version); duplicate := true |}.

Definition response_of (t : Transaction) : ScoreResponse :=
  let result := score t in
  {| r_event_id := t.(event_id); decision := decision_for result.(s_score); risk_score := result.(s_score);
     reason_codes := result.(s_reasons); model_version := MODEL_VERSION; duplicate := false |}.

(** [score_transaction]; [max_keys] is [MAX_IDEMPOTENCY_KEYS]. *)
Definition score_transaction (max_keys : Z) (t : Transaction) : M service ScoreResponse :=
  if negb (Transaction_valid t) then unprocessable else
  let! s := get_M in
  match dget t.(event_id) s.(_seen) with
  | Some previous =>
      let d := as_duplicate previous in
      do! put_M {| _seen := move_to_end t.(event_id) s.(_seen);
                   requests := inc [decision_value d.(decision); "true"] s.(requests) |} in
      mret_M d
  | None =>
      let response := response_of t in
      let seen := dset t.(event_id) response s.(_seen) in
      let seen := if Z.of_nat (length seen) >? max_keys then drop 1 seen else seen in
      do! put_M {| _seen := seen; requests := inc [decision_value response.(decision); "false"] s.(requests) |} in
      mret_M response
  end.

(** ** Lemmas *)

(** The score as a function of the six conditions. *)
Definition score_of_flags (fl : list bool) : float :=
  fmin (total (zip_with (fun f r => (f, r.1.2, r.2)) fl
    [(true, fratio 28 100, ["HIGH_AMOUNT"]); (true, fratio 18 100, []); (true, fratio 24 100, []);
     (true, fratio 25 100, []); (true, fratio 25 100, []); (true, fratio 4 100, @nil string)])) (f_of_Z 1).
Definition flags (t : Transaction) : list bool := map (fun r => r.1.1) (rules t).

Lemma score_flags t : (score t).(s_score) = score_of_flags (flags t).
Proof. reflexivity. Qed.

Fixpoint all_flags (n : nat) : list (list bool) :=
  match n with O => [[]] | S n' => all_flags n' ≫= fun l => [false :: l; true :: l] end.

Lemma elem_of_all_flags l : l ∈ all_flags (length l).
Proof.
  induction l as [|b l IH]; cbn; [by left|]. apply list_elem_of_bind. exists l. split; [|done].
  destruct b; [right; by left|by left].
Qed.

Definition dominated (l m : list bool) : bool := forallb (fun p => implb p.1 p.2) (zip l m).
Definition rank (d : Decision) : Z := match d with APPROVE => 0 | REVIEW => 1 | DECLINE => 2 end.

(** The scores of every set of flags, computed once. *)
Definition scored : list (list bool * float) := map (fun l => (l, score_of_flags l)) (all_flags 6).
Lemma scores_checked :
  forallb (fun x => fleb (fratio 2 100) x.2 && fleb x.2 (f_of_Z 1) &&
    forallb (fun y => implb (dominated x.1 y.1)
      (fleb x.2 y.2 && (rank (decision_for x.2) <=? rank (decision_for y.2)))) scored) scored = true.
Proof. vm_compute. reflexivity. Qed.
Lemma elem_of_scored t : (flags t, score_of_flags (flags t)) ∈ scored.
Proof. apply (list_elem_of_fmap_2 (fun l => (l, score_of_flags l))), elem_of_all_flags. Qed.

Lemma flags_checked t :
  fleb (fratio 2 100) (score_of_flags (flags t)) = true /\ fleb (score_of_flags (flags t)) (f_of_Z 1) = true /\
  forall t', dominated (flags t) (flags t') = true ->
    fleb (score_of_flags (flags t)) (score_of_flags (flags t')) = true /\
    rank (decision_for (score_of_flags (flags t))) <= rank (decision_for (score_of_flags (flags t'))).
Proof.
  pose proof scores_checked as H. rewrite forallb_elem in H.
  specialize (H _ (elem_of_scored t)).
  apply andb_true_iff in H as [[H1 H2]%andb_true_iff H3]. split; [done|]. split; [done|].
  intros t' Hd. rewrite forallb_elem in H3. specialize (H3 _ (elem_of_scored t')).
  cbn [fst snd] in H3. rewrite Hd in H3. cbn [implb] in H3. apply andb_true_iff in H3 as [H3 H4]. split; [done|]. by apply Z.leb_le.
Qed.

Definition bounded (max_keys : Z) (s : service) : Prop :=
  dwf s.(_seen) /\ Z.of_nat (length s.(_seen)) <= max_keys.

Lemma score_transaction_ok max_keys t s : Transaction_valid t = true -> 0 < max_keys -> bounded max_keys s ->
  exists r s', score_transaction max_keys t s = (Ok r, s') /\ bounded max_keys s' /\
    match dget t.(event_id) s.(_seen) with
    | Some p => r = as_duplicate p /\ dget t.(event_id) s'.(_seen) = Some p
    | None => r = response_of t /\ dget t.(event_id) s'.(_seen) = Some r
    end.
Proof.
  intros Hv Hm [Hw Hl]. unfold score_transaction. rewrite Hv. cbn [negb]. mred.
  destruct (dget (event_id t) (_seen s)) as [p|] eqn:E.
  - eexists _, _. split; [done|]. split; [split; cbn|split; [done|]].
    + by apply move_to_end_wf.
    + by rewrite length_move_to_end.
    + cbn. by rewrite dget_move_to_end.
  - set (seen := dset (event_id t) (response_of t) (_seen s)).
    assert (seen = _seen s ++ [(event_id t, response_of t)]) as Hs by (apply dset_fresh, dget_None, E).
    assert (dwf seen) as Hws by by apply dset_wf.
    assert (length seen = S (length (_seen s))) as Hls by (rewrite Hs, length_app; cbn; lia).
    eexists _, _. split; [done|]. unfold bounded. cbn [_seen].
    destruct (Z.gtb_spec (Z.of_nat (length seen)) max_keys) as [Hg|Hg].
    + assert (drop 1 seen = drop 1 (_seen s) ++ [(event_id t, response_of t)]) as Hd.
      { rewrite Hs. apply drop_app_le. destruct (_seen s); cbn in *; lia. }
      split; [split; [by apply drop_wf|rewrite length_drop; lia]|]. split; [done|].
      apply elem_dget; [by apply drop_wf|]. rewrite Hd. apply elem_of_app. right. by left.
    + split; [split; [done|lia]|]. split; [done|]. unfold seen. by rewrite dget_dset_eq.
Qed.

(** ** Properties *)

Module BankingTheorems.

(** C25: the risk score is a probability-like number, at least 0.02 and at most
    1, never lower when a transaction is at least as risky on each of the six
    conditions, and the decision is never milder; some reason is always given. *)
Theorem score_bounded_monotone : forall t,
  fleb (fratio 2 100) (score t).(s_score) = true /\ fleb (score t).(s_score) (f_of_Z 1) = true /\
  (score t).(s_reasons) <> [] /\
  forall t', t.(amount_cents) <= t'.(amount_cents) -> (t.(international) = true -> t'.(international) = true) ->
    (t.(device_trusted) = false -> t'.(device_trusted) = false) ->
    t.(transactions_last_10m) <= t'.(transactions_last_10m) ->
    t.(failed_auth_last_24h) <= t'.(failed_auth_last_24h) -> (t.(channel) = ECOMMERCE -> t'.(channel) = ECOMMERCE) ->
    fleb (score t).(s_score) (score t').(s_score) = true /\
    rank (decision_for (score t).(s_score)) <= rank (decision_for (score t').(s_score)).
Proof.
  intros t. destruct (flags_checked t) as (H1 & H2 & H3). rewrite !score_flags.
  split; [done|]. split; [done|]. split; [unfold score; cbn [s_reasons]; by destruct (List.concat _)|].
  intros t' Ha Hi Hd Hv Hf Hc. rewrite score_flags. apply H3. unfold dominated, flags, rules.
  cbn [map zip zip_with forallb fst snd].
  rewrite !Z.geb_leb, !andb_true_iff. split_and!; try done.
  - apply implb_true_iff. rewrite !Z.leb_le. lia.
  - by apply implb_true_iff.
  - apply implb_true_iff. rewrite !negb_true_iff. done.
  - apply implb_true_iff. rewrite !Z.leb_le. lia.
  - apply implb_true_iff. rewrite !Z.leb_le. lia.
  - apply implb_true_iff. rewrite !bool_decide_eq_true. done.
Qed.

(** Scoring is idempotent per event within a bounded index.  Scoring a
    valid transaction succeeds and keeps the index within its capacity; any
    valid transaction with the same event identifier scored next, even with
    other contents, is answered with the first decision, score and reasons,
    marked as a duplicate. *)
Theorem scoring_idempotent : forall max_keys t t2 s,
  Transaction_valid t = true -> Transaction_valid t2 = true -> t2.(event_id) = t.(event_id) ->
  0 < max_keys -> bounded max_keys s ->
  exists r s' s'', score_transaction max_keys t s = (Ok r, s') /\ bounded max_keys s' /\
    (dget t.(event_id) s.(_seen) = None -> r = response_of t) /\
    score_transaction max_keys t2 s' = (Ok (as_duplicate r), s'') /\ bounded max_keys s''.
Proof.
  intros mk t t2 s Hv Hv2 He Hm Hb.
  destruct (score_transaction_ok mk t s Hv Hm Hb) as (r & s' & H1 & Hb' & Hr).
  destruct (score_transaction_ok mk t2 s' Hv2 Hm Hb') as (r2 & s'' & H2 & Hb'' & Hr2).
  exists r, s', s''. split; [done|]. split; [done|]. rewrite He in Hr2. split.
  - intros Hn. rewrite Hn in Hr. apply Hr.
  - split; [|done]. rewrite H2. f_equal. f_equal. destruct (dget (event_id t) (_seen s)) as [p|].
    + destruct Hr as [-> Hp]. rewrite Hp in Hr2. by destruct Hr2 as [-> _].
    + destruct Hr as [_ Hp]. rewrite Hp in Hr2. apply Hr2.
Qed.

Definition ex_transaction : Transaction :=
  {| event_id := "evt-00001"; account_token := "acct_0123456789"; amount_cents := 900000; province := "ON";
     channel := ECOMMERCE; merchant_category := "travel"; occurred_at := "2026-01-15T12:00:00+00:00"; has_timezone := true;
     device_trusted := false; international := true; transactions_last_10m := 9; failed_auth_last_24h := 0 |}.

Lemma scoring_idempotent_witness :
  exists r s' s'', score_transaction 1 ex_transaction {| _seen := []; requests := [] |} = (Ok r, s') /\
    score_transaction 1 ex_transaction s' = (Ok (as_duplicate r), s'') /\ r.(decision) = DECLINE.
Proof.
  destruct (scoring_idempotent 1 ex_transaction ex_transaction {| _seen := []; requests := [] |}
    eq_refl eq_refl eq_refl eq_refl) as (r & s' & s'' & H1 & _ & H2 & H3 & _).
  - split; [constructor|]. discriminate.
  - exists r, s', s''. split; [exact H1|]. split; [exact H3|]. rewrite (H2 eq_refl). vm_compute. reflexivity.
Defined.

End BankingTheorems.
