(* ===== verification/Synthetic.v ===== *)
(** * The synthetic banking workload (platforms/banking/synthetic.py)

    [Random] is the interface of [random.Random]: the draws the generator makes,
    over the state of a generator, with the ranges the library documents.
    [Workload] is the transaction generator over it and the command of
    performance/banking/generator.py that writes it as lines of JSON; the
    theorem takes the workload through the request model and the scoring
    endpoint of [Banking]. *)

From Stdlib Require Import String Ascii ZArith Lia SpecFloat.
From stdpp Require Import base list strings.
From S2P Require Import Prelude PyStr PyDict PyFloat Hash Json JsonText Banking.

(** The value of a positive double lies between two integers. *)
Definition between (lo hi : Z) (x : float) : bool :=
  match x with
  | S754_finite false m e => (lo * mant_den e <=? mant_num m e) && (mant_num m e <=? hi * mant_den e)
  | _ => false
  end.

(** [random.Random]: [seeded] is the state after seeding. *)
Class Rng (G : Type) := {
  seeded : Z -> G;
  random : M G float;
  uniform : Z -> Z -> M G float;
  getrandbits : Z -> M G Z;
  choice : list string -> M G string;
  randint : Z -> Z -> M G Z;
}.

(** A draw succeeds from every state, and its value satisfies [P]. *)
Definition yields {G A} (m : M G A) (P : A -> Prop) : Prop := forall g, exists a g', m g = (Ok a, g') /\ P a.

(** The documented ranges; the bounds of [uniform] are integers a double
    represents. *)
Class RngLaws (G : Type) `{Rng G} := {
  random_law : yields random (fun x => fleb fzero x && fltb x (f_of_Z 1) = true);
  uniform_law : forall lo hi, 0 < lo -> lo <= hi -> hi < 2 ^ 53 -> yields (uniform lo hi) (fun x => between lo hi x = true);
  getrandbits_law : forall k, 0 < k -> yields (getrandbits k) (fun n => 0 <= n < 2 ^ k);
  choice_law : forall l, l <> [] -> yields (choice l) (fun x => x ∈ l);
  randint_law : forall lo hi, lo <= hi -> yields (randint lo hi) (fun n => lo <= n <= hi);
}.

Module Text.

(** [f"{n:x}"] of a non-negative integer, and [f"{n:0wx}"]. *)
Fixpoint hex_loop (fuel : nat) (n : N) (acc : list ascii) : list ascii :=
  match fuel with
  | O => acc
  | S f => let acc := hex_digit (n mod 16)%N :: acc in if (n <? 16)%N then acc else hex_loop f (n / 16)%N acc
  end.
Definition hex_text (n : Z) : string := of_chars (hex_loop (S (N.to_nat (N.log2 (Z.to_N n)))) (Z.to_N n) []).
Definition hex_fixed (w : nat) (n : Z) : string := pad_left w (hex_text n).

(** [s[a:b]] *)
Definition substr (a b : nat) (s : string) : string := of_chars (take (b - a) (drop a (chars s))).

(** [str(uuid.UUID(int=n))] *)
Definition uuid_text (n : Z) : res string :=
  if (0 <=? n) && (n <? 2 ^ 128) then
    let h := hex_fixed 32 n in
    Ok (join "-" [substr 0 8 h; substr 8 12 h; substr 12 16 h; substr 16 20 h; substr 20 32 h])
  else raise ValueError "int is out of range (need a 128-bit value)".

(** The civil date of a day counted from 1970-01-01: year, month and day of the
    proleptic Gregorian calendar, the years beginning in March. *)
Definition civil (days : Z) : Z * Z * Z :=
  let z := days + 719468 in
  let era := z / 146097 in
  let doe := z mod 146097 in
  let yoe := (doe - doe / 1460 + doe / 36524 - doe / 146096) / 365 in
  let doy := doe - (365 * yoe + yoe / 4 - yoe / 100) in
  let mp := (5 * doy + 2) / 153 in
  let m := if mp <? 10 then mp + 3 else mp - 9 in
  (yoe + era * 400 + (if m <=? 2 then 1 else 0), m, doy - (153 * mp + 2) / 5 + 1).

Definition last_day : Z := 2932896.
Definition day_us : Z := 86400 * 1000000.
Definition two (n : Z) : string := pad_left 2 (str_Z n).

(** [datetime.isoformat()] of an instant of UTC in microseconds; a date after
    the year 9999 cannot be made. *)
Definition isoformat_utc (us : Z) : res string :=
  let days := us / day_us in
  if last_day <? days then raise OverflowError "date value out of range" else
  let '(y, m, d) := civil days in
  let s := (us mod day_us) / 1000000 in
  let f := us mod 1000000 in
  Ok ((pad_left 4 (str_Z y) +:+ "-" +:+ two m +:+ "-" +:+ two d +:+ "T" +:+
      two (s / 3600) +:+ ":" +:+ two (s / 60 mod 60) +:+ ":" +:+ two (s mod 60) +:+
      (if f =? 0 then EmptyString else "." +:+ pad_left 6 (str_Z f))) +:+ "+00:00").
End Text.

Module Workload.
Import Text.

Definition PROVINCES : list string := ["ON"; "QC"; "BC"; "AB"; "MB"; "SK"; "NS"; "NB"; "NL"; "PE"].
Definition CHANNELS : list string := ["card_present"; "ecommerce"; "transfer"; "bill_payment"].
Definition MERCHANTS : list string :=
  ["grocery"; "fuel"; "restaurant"; "travel"; "utilities"; "electronics"; "pharmacy"].

(** [datetime(2026, 1, 15, 12, tzinfo=UTC)] in microseconds *)
Definition base : Z := (20468 * 24 + 12) * 3600 * 1000000.

(** The document [transactions] yields, from the values drawn. *)
Definition document (suspicious : bool) (amount : float) (event token : string) (province channel merchant at_ : string)
    (trusted international : bool) (recent failed : Z) : json :=
  JObj [("event_id", JStr event); ("account_token", JStr ("acct_" +:+ token));
    ("amount_cad", JStr (format_fixed 2 amount)); ("province", JStr province); ("channel", JStr channel);
    ("merchant_category", JStr merchant); ("occurred_at", JStr at_); ("device_trusted", JBool trusted);
    ("international", JBool international); ("transactions_last_10m", JInt recent);
    ("failed_auth_last_24h", JInt failed); ("synthetic_label", JStr (if suspicious then "suspicious" else "normal"))].

Section workload.
Context {G : Type} {rng : Rng G}.

(** One turn of [transactions], its draws in the order of the source. *)
Definition transaction (fraud_ratio : float) (index : Z) : M G json :=
  let! r := random in
  let suspicious := fltb r fraud_ratio in
  let! amount := if negb suspicious then uniform 10 450 else uniform 5000 25000 in
  let! event_bits := getrandbits 128 in
  let! event := lift_M (uuid_text event_bits) in
  let! token := getrandbits 96 in
  let! province := choice PROVINCES in
  let! channel := choice CHANNELS in
  let! merchant := choice MERCHANTS in
  let! occurred_at := lift_M (isoformat_utc (base + index * 20 * 1000)) in
  let! trusted := if negb suspicious then mret_M true else let! x := random in mret_M (fgtb x (fratio 8 10)) in
  let! international := if suspicious then let! x := random in mret_M (fltb x (fratio 7 10)) else mret_M false in
  let! recent := if negb suspicious then randint 1 4 else randint 8 20 in
  let! failed := if negb suspicious then randint 0 1 else randint 3 8 in
  mret_M (document suspicious amount event (hex_fixed 24 token) province channel merchant occurred_at
            trusted international recent failed).

Fixpoint from_index (fraud_ratio : float) (n : nat) (index : Z) : M G (list json) :=
  match n with
  | O => mret_M []
  | S n' =>
      let! doc := transaction fraud_ratio index in
      let! docs := from_index fraud_ratio n' (index + 1) in
      mret_M (doc :: docs)
  end.
(** [transactions], exhausted *)
Definition transactions (count seed : Z) (fraud_ratio : float) : res (list json) :=
  (from_index fraud_ratio (Z.to_nat count) 0 (seeded seed)).1.

(** The line of a transaction, and [main] of the command: the lines written. *)
Definition line (doc : json) : string := dumps_gen false true doc +:+ of_chars [newline].
Definition generator_main (count seed : Z) (fraud_ratio : float) : res (list string) :=
  if (count <? 1) || negb (fleb fzero fraud_ratio && fleb fraud_ratio (f_of_Z 1)) then
    raise OtherError "SystemExit: count must be positive and fraud-ratio must be between 0 and 1"
  else
    let? docs := transactions count seed fraud_ratio in
    Ok (map line docs).
End workload.

(** [Decimal(s)] of a plain decimal with at most two places, in cents. *)
Definition decimal_cents (s : string) : option Z :=
  let '(whole, frac) := break_at (fun c => bool_decide (c = "."%char)) (chars s) in
  let frac := default [] frac in
  if forallb is_digit (whole ++ frac) && bool_decide (whole <> []) && bool_decide (length frac <= 2)%nat then
    Some (digits_val whole * 100 + digits_val (frac ++ repeat "0"%char (2 - length frac)))
  else None.
Definition channel_of (s : string) : res Channel :=
  match dget s [("card_present", CARD_PRESENT); ("ecommerce", ECOMMERCE); ("transfer", TRANSFER); ("bill_payment", BILL_PAYMENT)] with
  | Some c => Ok c
  | None => raise ValueError "channel"
  end.

(** The fields of [Transaction] read from such a document, before their
    constraints; other keys are ignored, and an instant in [isoformat] with an
    offset has a timezone. *)
Definition read_transaction (doc : json) : res Transaction :=
  let? event := fstr "event_id" doc in
  let? token := fstr "account_token" doc in
  let? amount := fstr "amount_cad" doc in
  let? cents := match decimal_cents amount with Some n => Ok n | None => raise ValueError "amount_cad" end in
  let? province := fstr "province" doc in
  let? name := fstr "channel" doc in
  let? channel := channel_of name in
  let? merchant := fstr "merchant_category" doc in
  let? at_ := fstr "occurred_at" doc in
  let? trusted := fbool "device_trusted" doc in
  let? international := fbool "international" doc in
  let? recent := fint "transactions_last_10m" doc in
  let? failed := fint "failed_auth_last_24h" doc in
  Ok {| event_id := event; account_token := token; amount_cents := cents; province := province; channel := channel;
        merchant_category := merchant; occurred_at := at_; has_timezone := endswith "+00:00" at_;
        device_trusted := trusted; international := international; transactions_last_10m := recent;
        failed_auth_last_24h := failed |}.

Example isoformat_ex : isoformat_utc base = Ok "2026-01-15T12:00:00+00:00" /\
  isoformat_utc (base + 1 * 20 * 1000) = Ok "2026-01-15T12:00:00.020000+00:00" /\
  isoformat_utc (base + 46 * day_us) = Ok "2026-03-02T12:00:00+00:00" /\
  isoformat_utc (last_day * day_us) = Ok "9999-12-31T00:00:00+00:00".
Proof. vm_compute. done. Qed.
Example uuid_ex : uuid_text 255 = Ok "00000000-0000-0000-0000-0000000000ff".
Proof. vm_compute. done. Qed.
Example decimal_ex : decimal_cents "85.25" = Some 8525 /\ decimal_cents "85.5" = Some 8550 /\ decimal_cents "x" = None.
Proof. vm_compute. done. Qed.
End Workload.

(** ** Lemmas *)

Module SyntheticFacts.
Import Text Workload.

(** *** Draws *)

Section draws.
Context {G : Type}.
Lemma yields_ret {A} (a : A) (P : A -> Prop) : P a -> yields (G := G) (mret_M a) P.
Proof. intros H g. by exists a, g. Qed.
Lemma yields_lift {A} (r : res A) (a : A) (P : A -> Prop) : r = Ok a -> P a -> yields (G := G) (lift_M r) P.
Proof. intros -> H g. by exists a, g. Qed.
Lemma yields_bind {A B} (m : M G A) (k : A -> M G B) P Q : yields m P -> (forall a, P a -> yields (k a) Q) ->
  yields (mbind_M m k) Q.
Proof.
  intros Hm Hk g. destruct (Hm g) as (a & g1 & E & Ha). rewrite (bind_ok _ _ _ _ _ E). by apply Hk.
Qed.
Lemma yields_if {A} (b : bool) (m1 m2 : M G A) P1 P2 : yields m1 P1 -> yields m2 P2 ->
  yields (if b then m1 else m2) (fun a => if b then P1 a else P2 a).
Proof. by destruct b. Qed.
Lemma yields_weaken {A} (m : M G A) (P Q : A -> Prop) : yields m P -> (forall a, P a -> Q a) -> yields m Q.
Proof. intros H HPQ g. destruct (H g) as (a & g' & E & Ha). exists a, g'. auto. Qed.
End draws.

(** *** Texts *)

Lemma length_chars_app s t : length (chars (s +:+ t)) = (length (chars s) + length (chars t))%nat.
Proof. by rewrite chars_app, length_app. Qed.
Lemma zeros_chars n : chars (zeros n) = repeat "0"%char n.
Proof. induction n as [|n IH]; [done|]. cbn. by rewrite <- IH. Qed.
Lemma pad_left_chars w s : chars (pad_left w s) = repeat "0"%char (w - length (chars s)) ++ chars s.
Proof. unfold pad_left. by rewrite chars_app, zeros_chars, chars_length. Qed.
Lemma pad_left_length w s : (length (chars s) <= w)%nat -> length (chars (pad_left w s)) = w.
Proof. intros H. rewrite pad_left_chars, length_app, repeat_length. lia. Qed.

Lemma hex_loop_length fuel k n acc : (n < 16 ^ N.of_nat k)%N -> (1 <= k)%nat ->
  (length (hex_loop fuel n acc) <= k + length acc)%nat.
Proof.
  revert k n acc. induction fuel as [|f IH]; intros k n acc Hn Hk; cbn [hex_loop]; [lia|].
  destruct (N.ltb_spec n 16) as [H|H]; [cbn; lia|]. destruct k as [|[|k]]; [lia|cbn in Hn; lia|].
  etransitivity; [apply (IH (S k))|cbn; lia]; [|lia].
  apply N.Div0.div_lt_upper_bound. rewrite <- N.pow_succ_r'. by replace (N.succ (N.of_nat (S k))) with (N.of_nat (S (S k))) by lia.
Qed.
Lemma hex_fixed_length w n : (1 <= w)%nat -> 0 <= n < 16 ^ Z.of_nat w -> length (chars (hex_fixed w n)) = w.
Proof.
  intros Hw Hn. apply pad_left_length. unfold hex_text. rewrite chars_of_chars.
  pose proof (hex_loop_length (S (N.to_nat (N.log2 (Z.to_N n)))) w (Z.to_N n) []) as H. cbn [length] in H.
  rewrite Nat.add_0_r in H. apply H; [|done]. apply N2Z.inj_lt. rewrite Z2N.id, N2Z.inj_pow by lia.
  replace (Z.of_N (N.of_nat w)) with (Z.of_nat w) by lia. apply Hn.
Qed.

Lemma substr_length a b s : (a <= b)%nat -> (b <= length (chars s))%nat -> length (chars (substr a b s)) = (b - a)%nat.
Proof. intros Ha Hb. unfold substr. rewrite chars_of_chars, length_take, length_drop. lia. Qed.
Lemma uuid_text_ok n : 0 <= n < 2 ^ 128 -> exists s, uuid_text n = Ok s /\ String.length s = 36%nat.
Proof.
  intros Hn. unfold uuid_text. rewrite (proj2 (Z.leb_le 0 n)), (proj2 (Z.ltb_lt n _)) by lia. cbn [andb].
  eexists. split; [done|]. pose proof (hex_fixed_length 32 n ltac:(lia) Hn) as H.
  rewrite <- chars_length. unfold join. cbn [String.concat].
  rewrite !length_chars_app, !substr_length by (rewrite ?H; lia). done.
Qed.

Lemma endswith_app a s : endswith s (a +:+ s) = true.
Proof.
  unfold endswith. rewrite chars_app, rev_app_distr.
  assert (forall l l', of_chars (l ++ l') = of_chars l +:+ of_chars l') as -> by (intros l l'; induction l as [|c l IH]; cbn; [done|by rewrite IH]).
  apply startswith_app.
Qed.

(** *** Amounts *)

Lemma round_half_even_bounds lo hi n d : 0 < d -> lo * d <= n -> n <= hi * d -> lo <= round_half_even n d <= hi.
Proof.
  intros Hd Hlo Hhi. unfold round_half_even. pose proof (Z.div_mod n d ltac:(lia)) as E.
  pose proof (Z.mod_pos_bound n d Hd) as Hm. assert (lo <= n / d) by (apply Z.div_le_lower_bound; lia).
  assert (n / d <= hi) by (apply Z.div_le_upper_bound; lia).
  destruct (Z.compare_spec (2 * (n mod d)) d); [destruct (Z.even _)| |]; try lia; assert (n / d <> hi) by nia; lia.
Qed.

Lemma str_Z_digits z : 0 <= z -> exists ds, chars (str_Z z) = ds /\ forallb is_digit ds = true /\ digits_val ds = z /\ ds <> [].
Proof.
  intros Hz. destruct z as [|p|p]; [by exists ["0"%char]| |lia].
  destruct (pretty_N_digits (Npos p)) as (ds & E & H1 & H2 & H3). by exists ds.
Qed.
Lemma two_digits r : 0 <= r < 100 -> exists ds, chars (pad_left 2 (str_Z r)) = ds /\ length ds = 2%nat /\
  forallb is_digit ds = true /\ digits_val ds = r.
Proof.
  intros Hr. assert (forallb (fun k => let ds := chars (pad_left 2 (str_Z k)) in
    (length ds =? 2)%nat && forallb is_digit ds && (digits_val ds =? k)) (map Z.of_nat (seq 0 100)) = true) as H by (vm_compute; reflexivity).
  rewrite forallb_elem in H. specialize (H r). eexists. split; [reflexivity|].
  assert (r ∈ map Z.of_nat (seq 0 100)) as Hin.
  { apply list_elem_of_fmap. exists (Z.to_nat r). split; [lia|]. apply elem_of_seq. lia. }
  specialize (H Hin). cbn zeta in H. apply andb_true_iff in H as [[H1 H2]%andb_true_iff H3].
  apply Nat.eqb_eq in H1. apply Z.eqb_eq in H3. done.
Qed.
Lemma break_at_point ds r : forallb is_digit ds = true ->
  break_at (fun c => bool_decide (c = "."%char)) (ds ++ "."%char :: r) = (ds, Some r).
Proof.
  induction ds as [|c ds IH]; cbn; [done|]. intros [Hc Hds]%andb_true_iff. rewrite IH by done.
  case_bool_decide; [subst; discriminate|done].
Qed.

Lemma decimal_fixed n : 0 <= n -> decimal_cents (str_Z (n / 100) +:+ "." +:+ pad_left 2 (str_Z (n mod 100))) = Some n.
Proof.
  intros Hn. destruct (str_Z_digits (n / 100)) as (ds & E & Hd & Hv & Hne); [by apply Z.div_pos|].
  destruct (two_digits (n mod 100)) as (fs & E' & Hl & Hd' & Hv'); [by apply Z.mod_pos_bound|].
  unfold decimal_cents. rewrite !chars_app, E, E'. change (chars "." ++ fs) with ("."%char :: fs).
  rewrite break_at_point by done. change (default [] (Some fs)) with fs. cbv beta iota zeta. rewrite forallb_app, Hd, Hd', Hl, app_nil_r, Hv, Hv'.
  rewrite !bool_decide_eq_true_2 by (done || lia). cbn [andb]. f_equal. pose proof (Z.div_mod n 100). lia.
Qed.

(** The text of a positive amount is read back to the cent, within the bounds
    the amount was drawn from. *)
Lemma format_cents lo hi x : 0 < lo -> between lo hi x = true -> exists n,
  decimal_cents (format_fixed 2 x) = Some n /\ lo * 100 <= n <= hi * 100.
Proof.
  intros Hlo Hx. destruct x as [| | |[] m e]; try done. cbn in Hx. apply andb_true_iff in Hx as [H1%Z.leb_le H2%Z.leb_le].
  exists (round_half_even (mant_num m e * 100) (mant_den e)).
  assert (0 < mant_den e) by (apply Z.pow_pos_nonneg; lia).
  assert (lo * 100 <= round_half_even (mant_num m e * 100) (mant_den e) <= hi * 100) as Hn
    by (apply round_half_even_bounds; nia).
  split; [|exact Hn]. cbn [format_fixed]. change (10 ^ Z.of_nat 2) with 100. apply decimal_fixed. lia.
Qed.

(** *** Instants *)

Lemma isoformat_ok us : us / day_us <= last_day -> exists s, isoformat_utc us = Ok (s +:+ "+00:00").
Proof.
  intros H. unfold isoformat_utc. rewrite (proj2 (Z.ltb_ge last_day _)) by done. destruct (civil _) as [[y m] d].
  eexists. reflexivity.
Qed.

(** *** Documents *)

(** A document the scoring service accepts and decides as its label says. *)
Definition labelled (doc : json) : Prop := exists t label,
  read_transaction doc = Ok t /\ Transaction_valid t = true /\ jget "synthetic_label" doc = Some (JStr label) /\
  reads doc = true /\
  ((label = "suspicious" /\ decision_for (score t).(s_score) = DECLINE) \/
   (label = "normal" /\ decision_for (score t).(s_score) = APPROVE)).

(** The scores of the two kinds of transaction, whatever the other flags. *)
Lemma suspicious_declined t : 5000 * 100 <= t.(amount_cents) -> 8 <= t.(transactions_last_10m) ->
  3 <= t.(failed_auth_last_24h) -> decision_for (score t).(s_score) = DECLINE.
Proof.
  intros H1 H2 H3. rewrite score_flags. unfold flags, rules. cbn [map fst].
  rewrite !Z.geb_leb, (proj2 (Z.leb_le _ _) H1), (proj2 (Z.leb_le _ _) H2), (proj2 (Z.leb_le _ _) H3).
  destruct (international t), (device_trusted t), (bool_decide (channel t = ECOMMERCE)); vm_compute; reflexivity.
Qed.
Lemma normal_approved t : t.(amount_cents) < 5000 * 100 -> t.(transactions_last_10m) < 8 ->
  t.(failed_auth_last_24h) < 3 -> t.(device_trusted) = true -> t.(international) = false ->
  decision_for (score t).(s_score) = APPROVE.
Proof.
  intros H1 H2 H3 H4 H5. rewrite score_flags. unfold flags, rules. cbn [map fst].
  rewrite !Z.geb_leb, (proj2 (Z.leb_gt _ _) H1), (proj2 (Z.leb_gt _ _) H2), (proj2 (Z.leb_gt _ _) H3), H4, H5.
  destruct (bool_decide (channel t = ECOMMERCE)); vm_compute; reflexivity.
Qed.

Lemma province_known p : p ∈ PROVINCES -> str_in p provinces = true.
Proof.
  assert (forallb (fun p => str_in p provinces) PROVINCES = true) as H by (vm_compute; reflexivity).
  rewrite forallb_elem in H. apply H.
Qed.
Lemma channel_known c : c ∈ CHANNELS -> exists ch, channel_of c = Ok ch.
Proof.
  assert (forallb (fun c => is_ok (channel_of c)) CHANNELS = true) as H by (vm_compute; reflexivity).
  rewrite forallb_elem in H. intros Hc. specialize (H c Hc). destruct (channel_of c) as [ch|]; [by exists ch|done].
Qed.
Lemma merchant_known m : m ∈ MERCHANTS -> len_between 2 64 m = true.
Proof.
  assert (forallb (len_between 2 64) MERCHANTS = true) as H by (vm_compute; reflexivity).
  rewrite forallb_elem in H. apply H.
Qed.
Lemma len_between_eq lo hi s n : String.length s = n -> lo <= Z.of_nat n -> Z.of_nat n <= hi -> len_between lo hi s = true.
Proof. intros <- H1 H2. unfold len_between. apply andb_true_iff. by rewrite !Z.leb_le. Qed.

Lemma document_labelled suspicious amount event token p c m at_ trusted intl recent failed :
  String.length event = 36%nat -> 0 <= token < 2 ^ 96 -> p ∈ PROVINCES -> c ∈ CHANNELS -> m ∈ MERCHANTS ->
  (if negb suspicious then between 10 450 amount else between 5000 25000 amount) = true ->
  (if negb suspicious then trusted = true else True) -> (if suspicious then True else intl = false) ->
  (if negb suspicious then 1 <= recent <= 4 else 8 <= recent <= 20) ->
  (if negb suspicious then 0 <= failed <= 1 else 3 <= failed <= 8) ->
  labelled (document suspicious amount event (hex_fixed 24 token) p c m (at_ +:+ "+00:00") trusted intl recent failed).
Proof.
  intros He Ht Hp Hc Hm Ha Htr Hi Hr Hf. destruct (channel_known c Hc) as [ch Hch].
  assert (exists n, decimal_cents (format_fixed 2 amount) = Some n /\
    if negb suspicious then 1000 <= n <= 45000 else 500000 <= n <= 2500000) as (n & Hn & Hb)
    by (destruct suspicious; cbn [negb] in *; [exact (format_cents 5000 25000 amount eq_refl Ha)|exact (format_cents 10 450 amount eq_refl Ha)]).
  eexists _, _. split; [|split; [|split; [reflexivity|split]]].
  - unfold read_transaction. set (doc := document _ _ _ _ _ _ _ _ _ _ _ _).
    change (fstr "event_id" doc) with (Ok event : res string).
    change (fstr "account_token" doc) with (Ok ("acct_" +:+ hex_fixed 24 token) : res string).
    change (fstr "amount_cad" doc) with (Ok (format_fixed 2 amount) : res string).
    change (fstr "province" doc) with (Ok p : res string). change (fstr "channel" doc) with (Ok c : res string).
    change (fstr "merchant_category" doc) with (Ok m : res string).
    change (fstr "occurred_at" doc) with (Ok (at_ +:+ "+00:00") : res string).
    change (fbool "device_trusted" doc) with (Ok trusted : res bool).
    change (fbool "international" doc) with (Ok intl : res bool).
    change (fint "transactions_last_10m" doc) with (Ok recent : res Z).
    change (fint "failed_auth_last_24h" doc) with (Ok failed : res Z).
    cbn [mbind res_bind]. rewrite Hn. cbn [mbind res_bind]. rewrite Hch. cbn [mbind res_bind]. rewrite endswith_app. reflexivity.
  - unfold Transaction_valid. cbn [event_id account_token amount_cents province channel merchant_category has_timezone
      transactions_last_10m failed_auth_last_24h].
    rewrite (len_between_eq 8 128 event 36 He), (len_between_eq 12 128 _ 29), (province_known p Hp), (merchant_known m Hm) by
      (try lia; rewrite <- chars_length, length_chars_app, (hex_fixed_length 24) by (done || lia); done).
    cbn [andb]. rewrite !andb_true_iff, !Z.leb_le, Z.ltb_lt. destruct suspicious; cbn [negb] in *; lia.
  - unfold document. cbn [reads]. apply andb_true_iff. split; [|done].
    apply bool_decide_eq_true_2, (bool_decide_unpack _). vm_compute. exact I.
  - destruct suspicious; cbn [negb] in *; [left|right]; (split; [done|]);
      [apply suspicious_declined|apply normal_approved];
      cbn [amount_cents transactions_last_10m failed_auth_last_24h device_trusted international]; (lia || done).
Qed.

(** *** The generator *)

Section generator.
Context {G : Type} `{RngLaws G}.

Lemma transaction_yields ratio i : 0 <= i < 10 ^ 13 -> yields (transaction ratio i) labelled.
Proof.
  intros Hi. unfold transaction. destruct (isoformat_ok (base + i * 20 * 1000)) as [at_ Hat].
  { apply Z.lt_succ_r, Z.div_lt_upper_bound; unfold base, day_us, last_day; lia. }
  eapply yields_bind; [apply random_law|]. intros r _. cbn zeta.
  eapply yields_bind; [apply yields_if; apply uniform_law; lia|]. intros amount Ha.
  eapply yields_bind; [by apply getrandbits_law|]. intros bits Hb. destruct (uuid_text_ok bits Hb) as (event & Hev & Hl).
  eapply yields_bind; [exact (yields_lift _ event (fun e => String.length e = 36%nat) Hev Hl)|]. intros event' Hev'.
  eapply yields_bind; [by apply getrandbits_law|]. intros token Ht.
  eapply yields_bind; [by apply choice_law|]. intros p Hp.
  eapply yields_bind; [by apply choice_law|]. intros c Hc.
  eapply yields_bind; [by apply choice_law|]. intros m Hm.
  eapply yields_bind; [exact (yields_lift _ _ (fun a => a = at_ +:+ "+00:00") Hat eq_refl)|]. intros at' ->.
  eapply yields_bind; [apply yields_if; [exact (yields_ret true (fun b => b = true) eq_refl)|]|].
  { eapply yields_bind; [apply random_law|]. intros x _. exact (yields_ret _ (fun _ => True) I). }
  intros trusted Htr. eapply yields_bind; [apply yields_if; [|exact (yields_ret false (fun b => b = false) eq_refl)]|].
  { eapply yields_bind; [apply random_law|]. intros x _. exact (yields_ret _ (fun _ => True) I). }
  intros intl Hin. eapply yields_bind; [apply yields_if; apply randint_law; lia|]. intros recent Hr.
  eapply yields_bind; [apply yields_if; apply randint_law; lia|]. intros failed Hf.
  apply yields_ret. apply document_labelled; try done. by destruct (negb _).
Qed.

Lemma from_index_yields ratio n : forall i, 0 <= i -> i + Z.of_nat n <= 10 ^ 13 ->
  yields (from_index ratio n i) (fun docs => length docs = n /\ forall doc, doc ∈ docs -> labelled doc).
Proof.
  induction n as [|n IH]; intros i Hi Hn; cbn [from_index].
  - apply yields_ret. split; [done|]. intros doc Hd. by apply elem_of_nil in Hd.
  - eapply yields_bind; [apply transaction_yields; lia|]. intros doc Hdoc.
    eapply yields_bind; [apply IH; lia|]. intros docs [Hl Hd]. apply yields_ret. split; [cbn; lia|].
    intros d [->|Hin]%elem_of_cons; [done|auto].
Qed.
End generator.
End SyntheticFacts.

(** ** Properties *)

Module SyntheticTheorems.
Import Workload SyntheticFacts.

(** C26: the synthetic workload is decided as it is labelled.  For any random
    source that keeps the documented ranges, any seed and any suspicious ratio,
    the generator yields as many transactions as asked for; the line written for
    each is read back as the same document; the request model accepts every one;
    and the scoring endpoint, meeting its event for the first time, declines
    those labelled suspicious and approves those labelled normal. *)
Theorem workload_decided_as_labelled : forall (G : Type) (rng : Rng G) (laws : RngLaws G) count seed ratio,
  count <= 10 ^ 13 ->
  exists docs, transactions count seed ratio = Ok docs /\ length docs = Z.to_nat count /\
    (1 <= count -> fleb fzero ratio = true -> fleb ratio (f_of_Z 1) = true ->
     generator_main count seed ratio = Ok (map line docs)) /\
    forall doc, doc ∈ docs -> loads (line doc) = Some doc /\
      exists t label, read_transaction doc = Ok t /\ Transaction_valid t = true /\
        jget "synthetic_label" doc = Some (JStr label) /\ (label = "suspicious" \/ label = "normal") /\
        forall max_keys s, 0 < max_keys -> bounded max_keys s -> dget t.(event_id) s.(_seen) = None ->
          exists r s', score_transaction max_keys t s = (Ok r, s') /\
            r.(decision) = if bool_decide (label = "suspicious") then DECLINE else APPROVE.
Proof.
  intros G rng laws count seed ratio Hc.
  destruct (from_index_yields ratio (Z.to_nat count) 0 ltac:(lia) ltac:(lia) (seeded seed)) as (docs & g' & E & Hlen & Hd).
  assert (transactions count seed ratio = Ok docs) as Ht by (unfold transactions; by rewrite E).
  exists docs. split; [done|]. split; [done|]. split.
  - intros H1 H2 H3. unfold generator_main. rewrite (proj2 (Z.ltb_ge count 1) H1), H2, H3. cbn [orb andb negb]. by rewrite Ht.
  - intros doc Hin. destruct (Hd doc Hin) as (t & label & Hr & Hv & Hl & Hreads & Hdec).
    split; [exact (loads_print false true doc Hreads)|]. exists t, label. split_and!; try done; [tauto|].
    intros mk s Hm Hb Hn. destruct (score_transaction_ok mk t s Hv Hm Hb) as (r & s' & Hs & _ & Hresp).
    rewrite Hn in Hresp. destruct Hresp as [-> _]. exists (response_of t), s'. split; [done|]. cbn [response_of decision].
    by destruct Hdec as [[-> ->]|[-> ->]].
Qed.

(** A linear congruential source, its doubles the integers of the range. *)
Definition next (g : Z) : Z := (g * 1103515245 + 12345) mod 2 ^ 31.
Definition draw {A} (f : Z -> A) : M Z A := fun g => (Ok (f (g / 65536)), next g).
Definition double (p : Z) : float := S754_finite false (Z.to_pos (p * 2 ^ (52 - Z.log2 p))) (Z.log2 p - 52).
#[export] Instance lcg : Rng Z := {
  seeded := next;
  random := draw (fun v => fratio (v mod 100) 100);
  uniform := fun lo hi => draw (fun v => double (lo + v mod (hi - lo + 1)));
  getrandbits := fun k => draw (fun v => (v * 2 ^ 64 + v) mod 2 ^ k);
  choice := fun l => draw (fun v => nth (Z.to_nat (v mod Z.of_nat (length l))) l EmptyString);
  randint := fun lo hi => draw (fun v => lo + v mod (hi - lo + 1));
}.

Lemma draw_yields {A} (f : Z -> A) (P : A -> Prop) : (forall v, P (f v)) -> yields (draw f) P.
Proof. intros H g. exists (f (g / 65536)), (next g). split; [done|apply H]. Qed.
Lemma double_between p lo hi : 0 < p < 2 ^ 53 -> lo <= p <= hi -> between lo hi (double p) = true.
Proof.
  intros Hp Hb. assert (Z.log2 p <= 52) by (apply Z.lt_succ_r, Z.log2_lt_pow2; lia).
  assert (0 < 2 ^ (52 - Z.log2 p)) by (apply Z.pow_pos_nonneg; lia).
  unfold double, between, mant_num, mant_den. replace (Z.max 0 (Z.log2 p - 52)) with 0 by lia.
  replace (Z.max 0 (- (Z.log2 p - 52))) with (52 - Z.log2 p) by lia.
  rewrite Z2Pos.id by nia. apply andb_true_iff. rewrite !Z.leb_le. nia.
Qed.
#[export] Instance lcg_laws : RngLaws Z.
Proof.
  split.
  - apply draw_yields. intros v.
    assert (forallb (fun k => fleb fzero (fratio k 100) && fltb (fratio k 100) (f_of_Z 1)) (map Z.of_nat (seq 0 100)) = true) as H
      by (vm_compute; reflexivity).
    rewrite forallb_elem in H. apply (H (v mod 100)). apply list_elem_of_fmap. exists (Z.to_nat (v mod 100)).
    pose proof (Z.mod_pos_bound v 100 eq_refl). split; [lia|]. apply elem_of_seq. lia.
  - intros lo hi H1 H2 H3. apply draw_yields. intros v. pose proof (Z.mod_pos_bound v (hi - lo + 1) ltac:(lia)).
    apply double_between; lia.
  - intros k Hk. apply draw_yields. intros v. apply Z.mod_pos_bound, Z.pow_pos_nonneg; lia.
  - intros l Hl. apply draw_yields. intros v. apply list_elem_of_In, nth_In. destruct l as [|x l]; [done|].
    pose proof (Z.mod_pos_bound v (Z.of_nat (length (x :: l))) ltac:(cbn; lia)). lia.
  - intros lo hi H. apply draw_yields. intros v. pose proof (Z.mod_pos_bound v (hi - lo + 1) ltac:(lia)). lia.
Qed.

Lemma workload_decided_as_labelled_witness : exists docs, transactions 3 2026 (fratio 1 2) = Ok docs /\ length docs = 3%nat /\
  map (jget "synthetic_label") docs = [Some (JStr "suspicious"); Some (JStr "normal"); Some (JStr "normal")].
Proof.
  destruct (workload_decided_as_labelled Z lcg lcg_laws 3 2026 (fratio 1 2)) as (docs & E & Hlen & _); [lia|].
  exists docs. split; [exact E|]. split; [exact Hlen|].
  assert (forall r, r = Ok docs -> map (jget "synthetic_label") docs = match r with Ok l => map (jget "synthetic_label") l | Err _ => [] end) as H
    by (intros r ->; reflexivity).
  rewrite (H _ E). vm_compute. reflexivity.
Defined.
End SyntheticTheorems.
