(* ===== verification/KubernetesSRE.v ===== *)
(** * The Kubernetes SRE runtime (platforms/kubernetes_sre)

    [Models] is models.py, [Analyzers] analyzers.py, [Client] the snapshot and
    the guarded writes of client.py, [Actions] actions.py, [Store] store.py,
    [Service] service.py and [Api] api.py.  The Kubernetes API objects are
    records of the attributes the source reads; the calls that change a cluster
    are stateful arguments.  A timestamp that is compared is a number of
    microseconds, also in the stored documents; the others are their text. *)

From Stdlib Require Import String Ascii ZArith Lia SpecFloat.
From stdpp Require Import base list strings sorting sets.
From S2P Require Import Prelude PyStr PyDict PyFloat Hash Json Security.

Module Models.

Inductive Severity := INFO | WARNING | CRITICAL.
Definition severity_value (s : Severity) : string :=
  match s with INFO => "info" | WARNING => "warning" | CRITICAL => "critical" end.

Record Workload := {
  kind : string;
  w_namespace : string;
  w_name : string;
  uid : string;
  resource_version : string;
  desired_replicas : Z;
  ready_replicas : Z;
  restart_count : Z;
  waiting_reasons : list string;
  images : list string;
  has_readiness_probe : bool;
  has_liveness_probe : bool;
}.
Record Autoscaler := {
  a_namespace : string;
  a_name : string;
  target : string;
  current_replicas : Z;
  maximum_replicas : Z;
}.
Record ClusterSnapshot := {
  s_cluster : string;
  collected_at : string;
  workloads : list Workload;
  autoscalers : list Autoscaler;
  namespaces : list string;
}.
Record Finding := {
  analyzer : string;
  code : string;
  severity : Severity;
  cluster : string;
  namespace : string;
  resource : string;
  summary : string;
  evidence : dict string json;
}.
(** [Finding.fingerprint] *)
Definition fingerprint (f : Finding) : string :=
  sha256_hex (dumps_canonical (JObj [("analyzer", JStr f.(analyzer)); ("code", JStr f.(code));
    ("cluster", JStr f.(cluster)); ("namespace", JStr f.(namespace)); ("resource", JStr f.(resource));
    ("evidence", JObj f.(evidence))])).

Record HealthReport := { h_cluster : string; generated_at : string; findings : list Finding }.
(** [asdict(finding) | {"fingerprint": ...}] and [HealthReport.to_dict] *)
Definition finding_json (f : Finding) : json :=
  JObj [("analyzer", JStr f.(analyzer)); ("code", JStr f.(code)); ("severity", JStr (severity_value f.(severity)));
    ("cluster", JStr f.(cluster)); ("namespace", JStr f.(namespace)); ("resource", JStr f.(resource));
    ("summary", JStr f.(summary)); ("evidence", JObj f.(evidence)); ("fingerprint", JStr (fingerprint f))].
Definition report_json (r : HealthReport) : json :=
  JObj [("cluster", JStr r.(h_cluster)); ("generated_at", JStr r.(generated_at));
        ("findings", JArr (map finding_json r.(findings)))].

End Models.

Module Analyzers.
Import Models.

Definition resource_of (w : Workload) : string := str_lower w.(kind) +:+ "/" +:+ w.(w_name).
Definition workload_finding (an cd : string) (sev : Severity) (s : ClusterSnapshot) (w : Workload) (text : string)
    (ev : dict string json) : Finding :=
  {| analyzer := an; code := cd; severity := sev; cluster := s.(s_cluster); namespace := w.(w_namespace);
     resource := resource_of w; summary := text; evidence := ev |}.

(** [WorkloadHealthAnalyzer.analyze], per workload. *)
Definition unhealthy_restarts (w : Workload) : bool :=
  (5 <=? w.(restart_count)) || existsb (fun r => str_in r ["CrashLoopBackOff"; "OOMKilled"]) w.(waiting_reasons).
Definition health_findings (s : ClusterSnapshot) (w : Workload) : list Finding :=
  (if w.(ready_replicas) <? w.(desired_replicas) then
     [workload_finding "workload-health" "UNDER_REPLICATED" CRITICAL s w "Workload has fewer ready replicas than desired"
        [("desired", JInt w.(desired_replicas)); ("ready", JInt w.(ready_replicas))]] else []) ++
  (if unhealthy_restarts w then
     [workload_finding "workload-health" "UNHEALTHY_RESTARTS" CRITICAL s w "Workload is repeatedly restarting"
        [("restart_count", JInt w.(restart_count)); ("reasons", JStr (join "," w.(waiting_reasons)))]] else []).

(** [ReliabilityAnalyzer.analyze], per workload. *)
Definition missing_probes (w : Workload) : list string :=
  (if negb w.(has_readiness_probe) then ["readiness"] else []) ++
  (if negb w.(has_liveness_probe) then ["liveness"] else []).
(** [image.endswith(":latest") or ":" not in image.rsplit("/", 1)[-1]] *)
Definition mutable_tag (image : string) : bool :=
  endswith ":latest" image || negb (has_char ":"%char (List.last (split "/"%char image) EmptyString)).
Definition reliability_findings (s : ClusterSnapshot) (w : Workload) : list Finding :=
  (match missing_probes w with
   | [] => []
   | missing => [workload_finding "reliability" "MISSING_HEALTH_PROBES" WARNING s w "Workload is missing health probes"
                   [("missing", JStr (join "," missing))]]
   end) ++
  (if existsb mutable_tag w.(images) then
     [workload_finding "reliability" "MUTABLE_IMAGE_TAG" WARNING s w "Workload uses an unpinned container image"
        [("images", JStr (join "," w.(images)))]] else []).

(** [ScalingAnalyzer.analyze], per autoscaler. *)
Definition scaling_findings (s : ClusterSnapshot) (h : Autoscaler) : list Finding :=
  if (0 <? h.(maximum_replicas)) && (h.(maximum_replicas) <=? h.(current_replicas)) then
    [{| analyzer := "scaling"; code := "HPA_AT_MAX"; severity := WARNING; cluster := s.(s_cluster);
        namespace := h.(a_namespace); resource := "hpa/" +:+ h.(a_name);
        summary := "Autoscaler is at its configured maximum";
        evidence := [("current", JInt h.(current_replicas)); ("maximum", JInt h.(maximum_replicas));
                     ("target", JStr h.(target))] |}]
  else [].

Definition WorkloadHealthAnalyzer (s : ClusterSnapshot) : list Finding := s.(workloads) ≫= health_findings s.
Definition ReliabilityAnalyzer (s : ClusterSnapshot) : list Finding := s.(workloads) ≫= reliability_findings s.
Definition ScalingAnalyzer (s : ClusterSnapshot) : list Finding := s.(autoscalers) ≫= scaling_findings s.
Definition default_analyzers : list (ClusterSnapshot -> list Finding) :=
  [WorkloadHealthAnalyzer; ReliabilityAnalyzer; ScalingAnalyzer].

(** [ParallelAnalyzer.analyze]: the pool returns the batches in the order of
    the analyzers. *)
Definition fingerprint_leb (f g : Finding) : bool := str_leb (fingerprint f) (fingerprint g).
Definition analyze (analyzers : list (ClusterSnapshot -> list Finding)) (s : ClusterSnapshot) : HealthReport :=
  {| h_cluster := s.(s_cluster); generated_at := s.(collected_at);
     findings := isort fingerprint_leb (analyzers ≫= fun a => a s) |}.

End Analyzers.

Module Client.
Import Models.

(** The API objects, as far as the client reads them. *)
Record owner_reference := { o_kind : string; o_name : string }.
Record object_meta := {
  m_namespace : string;
  m_name : string;
  m_uid : string;
  m_resource_version : string;
  owner_references : list owner_reference;
}.
Record container_status := { c_restarts : Z; waiting_reason : option string }.
Record pod := { p_meta : object_meta; container_statuses : list container_status }.
Record container := { image : string; readiness_probe : bool; liveness_probe : bool }.
Record deployment := {
  d_meta : object_meta;
  spec_replicas : option Z;
  status_ready_replicas : option Z;
  containers : list container;
}.
Record hpa := { hpa_meta : object_meta; scale_target : string; status_current : option Z; max_replicas : Z }.
Record cluster_objects := {
  all_namespaces : list string;
  replica_sets : list object_meta;
  pods : list pod;
  deployments : list deployment;
  hpas : list hpa;
}.

Definition object_key : Type := string * string.
(** The deployment that owns a replica set, or the set itself. *)
Definition deployment_owner (m : object_meta) : string :=
  match List.find (fun o => bool_decide (o.(o_kind) = "Deployment")) m.(owner_references) with
  | Some o => o.(o_name)
  | None => m.(m_name)
  end.
Definition replica_set_owners (sets : list object_meta) : dict object_key string :=
  dict_of (map (fun m => ((m.(m_namespace), m.(m_name)), deployment_owner m)) sets).
(** The workload a pod is counted for. *)
Definition pod_key (owners : dict object_key string) (p : pod) : object_key :=
  let m := p.(p_meta) in
  (m.(m_namespace),
   match m.(owner_references) with
   | [] => m.(m_name)
   | o :: _ => if bool_decide (o.(o_kind) = "ReplicaSet")
               then default o.(o_name) (dget (m.(m_namespace), o.(o_name)) owners) else o.(o_name)
   end).
Record metric := { restarts : Z; reasons : list string }.
Definition no_metric : metric := {| restarts := 0; reasons := [] |}.
Definition add_status (m : metric) (s : container_status) : metric :=
  {| restarts := m.(restarts) + s.(c_restarts);
     reasons := match s.(waiting_reason) with
                | Some r => if nonempty r && negb (str_in r m.(reasons)) then m.(reasons) ++ [r] else m.(reasons)
                | None => m.(reasons)
                end |}.
Definition add_pod (owners : dict object_key string) (d : dict object_key metric) (p : pod) : dict object_key metric :=
  let k := pod_key owners p in
  dset k (fold_left add_status p.(container_statuses) (default no_metric (dget k d))) d.
Definition pod_metrics (o : cluster_objects) : dict object_key metric :=
  fold_left (add_pod (replica_set_owners o.(replica_sets))) o.(pods) [].

Definition workload_of (metrics : dict object_key metric) (d : deployment) : Workload :=
  let m := d.(d_meta) in
  let metric := default no_metric (dget (m.(m_namespace), m.(m_name)) metrics) in
  {| kind := "Deployment"; w_namespace := m.(m_namespace); w_name := m.(m_name); uid := m.(m_uid);
     resource_version := m.(m_resource_version); desired_replicas := default 0 d.(spec_replicas);
     ready_replicas := default 0 d.(status_ready_replicas); restart_count := metric.(restarts);
     waiting_reasons := sort_str metric.(reasons); images := map image d.(containers);
     has_readiness_probe := forallb readiness_probe d.(containers);
     has_liveness_probe := forallb liveness_probe d.(containers) |}.
Definition autoscaler_of (h : hpa) : Autoscaler :=
  {| a_namespace := h.(hpa_meta).(m_namespace); a_name := h.(hpa_meta).(m_name); target := h.(scale_target);
     current_replicas := default 0 h.(status_current); maximum_replicas := h.(max_replicas) |}.
(** [OfficialKubernetesClient.snapshot] *)
Definition snapshot (name now : string) (o : cluster_objects) : ClusterSnapshot :=
  {| s_cluster := name; collected_at := now; workloads := map (workload_of (pod_metrics o)) o.(deployments);
     autoscalers := map autoscaler_of o.(hpas); namespaces := sort_str o.(all_namespaces) |}.

Section writer.
Context {W : Type}.
(** Reading a deployment and patching one; a patch returns the new resource
    version. *)
Context (read_deployment : string -> string -> M W object_meta).
Context (patch_scale : string -> string -> json -> M W string).
Context (patch_deployment : string -> string -> json -> M W string).

(** [OfficialKubernetesClient._deployment] *)
Definition _deployment (ns name expected_uid expected_version : string) : M W object_meta :=
  let! m := read_deployment name ns in
  if negb (bool_decide (m.(m_uid) = expected_uid)) || negb (bool_decide (m.(m_resource_version) = expected_version)) then
    raise_M RuntimeError "resource changed after approval; obtain a new proposal"
  else mret_M m.
(** [scale_deployment] and [restart_deployment] *)
Definition scale_deployment (ns name : string) (replicas : Z) (expected_uid expected_version : string) : M W string :=
  do! _deployment ns name expected_uid expected_version in
  patch_scale name ns (JObj [("spec", JObj [("replicas", JInt replicas)])]).
Definition restart_deployment (now ns name expected_uid expected_version : string) : M W string :=
  do! _deployment ns name expected_uid expected_version in
  patch_deployment name ns (JObj [("spec", JObj [("template", JObj [("metadata", JObj [("annotations",
    JObj [("openmodelops.io/restartedAt", JStr now)])])])])]).
End writer.

End Client.

Module Actions.

Inductive ActionType := SCALE_DEPLOYMENT | RESTART_DEPLOYMENT.
#[export] Instance ActionType_eq_dec : EqDecision ActionType.
Proof. solve_decision. Defined.
Definition action_value (a : ActionType) : string :=
  match a with SCALE_DEPLOYMENT => "scale_deployment" | RESTART_DEPLOYMENT => "restart_deployment" end.
(** [ActionType(value)] *)
Definition action_of (s : string) : res ActionType :=
  if bool_decide (s = "scale_deployment") then Ok SCALE_DEPLOYMENT
  else if bool_decide (s = "restart_deployment") then Ok RESTART_DEPLOYMENT
  else raise ValueError (repr_str s +:+ " is not a valid ActionType").

Record ActionProposal := {
  action : ActionType;
  cluster : string;
  namespace : string;
  resource_name : string;
  resource_uid : string;
  resource_version : string;
  requested_by : string;
  rationale : string;
  rollback : string;
  parameters : dict string json;
  proposal_id : string;
  created_at : string;
}.
(** [asdict(proposal)] with the values of the action and the date. *)
Definition proposal_json (p : ActionProposal) : dict string json :=
  [("action", JStr (action_value p.(action))); ("cluster", JStr p.(cluster)); ("namespace", JStr p.(namespace));
   ("resource_name", JStr p.(resource_name)); ("resource_uid", JStr p.(resource_uid));
   ("resource_version", JStr p.(resource_version)); ("requested_by", JStr p.(requested_by));
   ("rationale", JStr p.(rationale)); ("rollback", JStr p.(rollback));
   ("parameters", JObj p.(parameters)); ("proposal_id", JStr p.(proposal_id)); ("created_at", JStr p.(created_at))].
(** [ActionProposal.digest] *)
Definition digest (p : ActionProposal) : string := sha256_hex (dumps_canonical (JObj (proposal_json p))).

Record Approval := {
  a_proposal_id : string;
  proposal_digest : string;
  approved_by : string;
  approved_at : string;
  expires_at : Z;
}.
(** [Approval(...)] at a time: it expires fifteen minutes later. *)
Definition new_approval (id dig approver now_text : string) (now : Z) : Approval :=
  {| a_proposal_id := id; proposal_digest := dig; approved_by := approver; approved_at := now_text;
     expires_at := now + 15 * 60 * 1000000 |}.

(** [int(value)] of a parameter. *)
Definition int_of_param (j : json) : res Z :=
  match j with
  | JInt z => Ok z
  | JBool b => Ok (if b then 1 else 0)
  | JFloat f => ftrunc f
  | JStr s => match int_of_str s with Some z => Ok z
              | None => raise ValueError ("invalid literal for int() with base 10: " +:+ repr_str s) end
  | _ => raise TypeError "int() argument must be a string or a real number"
  end.

Section executor.
Context {W : Type}.
Context (scale : string -> string -> Z -> string -> string -> M W string).
Context (restart : string -> string -> string -> string -> M W string).

(** [ChangeExecutor.execute]: the checks, then the write they allow. *)
Definition checks (managed : list string) (now : Z) (p : ActionProposal) (a : Approval) (actor : string) : res unit :=
  do? guard_raise (negb (str_in p.(namespace) managed)) SafetyViolation "target namespace is outside the managed boundary" in
  do? guard_raise (blank p.(rollback)) SafetyViolation "rollback instructions are required" in
  do? guard_raise (negb (bool_decide (a.(a_proposal_id) = p.(proposal_id))) ||
                   negb (bool_decide (a.(proposal_digest) = digest p)))
        SafetyViolation "approval does not match the immutable proposal" in
  do? guard_raise (bool_decide (a.(approved_by) = p.(requested_by)))
        SafetyViolation "proposal author cannot approve their own change" in
  do? guard_raise (a.(expires_at) <=? now) SafetyViolation "approval has expired" in
  guard_raise (str_in actor [p.(requested_by); a.(approved_by)])
    SafetyViolation "executor must be independent from proposer and approver".
Definition execute (managed : list string) (now : Z) (p : ActionProposal) (a : Approval) (actor : string) : M W string :=
  do! lift_M (checks managed now p a actor) in
  match p.(action) with
  | SCALE_DEPLOYMENT =>
      let! replicas := lift_M (int_of_param (default (JInt (-1)) (dget "replicas" p.(parameters)))) in
      do! lift_M (guard_raise (negb ((0 <=? replicas) && (replicas <=? 100)))
            SafetyViolation "replicas must be between 0 and 100") in
      scale p.(namespace) p.(resource_name) replicas p.(resource_uid) p.(resource_version)
  | RESTART_DEPLOYMENT =>
      restart p.(namespace) p.(resource_name) p.(resource_uid) p.(resource_version)
  end.
End executor.

End Actions.

Module Store.
Import Actions.

(** A row of the proposals table; the payload and the approval are stored JSON
    documents. *)
Record proposal_row := {
  row_id : string;
  payload : json;
  row_digest : string;
  status : string;
  approval : option json;
}.
Record report_row := { r_cluster : string; r_generated_at : string; r_payload : json }.
(** The two tables, and what [sqlite3_changes] of the store's one connection
    holds: the number of rows the last INSERT or UPDATE on it changed. *)
Record sre_store := { proposals : list proposal_row; reports : list report_row; changes : nat }.
Definition empty_store : sre_store := {| proposals := []; reports := []; changes := 0 |}.

Definition find_row (id : string) (s : sre_store) : option proposal_row :=
  List.find (fun r => bool_decide (r.(row_id) = id)) s.(proposals).
(** [UPDATE proposals SET ... WHERE proposal_id = ? AND ...] *)
Definition update_where (f : proposal_row -> bool) (g : proposal_row -> proposal_row) (s : sre_store) : sre_store :=
  {| proposals := map (fun r => if f r then g r else r) s.(proposals); reports := s.(reports);
     changes := length (List.filter f s.(proposals)) |}.
(** [if cursor.rowcount != 1: raise ...]: the count is read from the connection
    once the statement has run. *)
Definition one_row (message : string) : M sre_store unit :=
  let! s := get_M in
  if negb (s.(changes) =? 1)%nat then raise_M ValueError message else mret_M tt.
Definition set_status (st : string) (r : proposal_row) : proposal_row :=
  {| row_id := r.(row_id); payload := r.(payload); row_digest := r.(row_digest); status := st; approval := r.(approval) |}.

(** [SREStore.save_report] *)
Definition save_report (r : Models.HealthReport) : M sre_store unit :=
  modify_M (fun s => {| proposals := s.(proposals);
    reports := s.(reports) ++ [{| r_cluster := r.(Models.h_cluster); r_generated_at := r.(Models.generated_at);
                                  r_payload := jsort (Models.report_json r) |}]; changes := 1 |}).

(** [SREStore.save_proposal] *)
Definition proposal_record (p : ActionProposal) : proposal_row :=
  {| row_id := p.(proposal_id); payload := jsort (JObj (proposal_json p)); row_digest := digest p;
     status := "proposed"; approval := None |}.
Definition save_proposal (p : ActionProposal) : M sre_store unit :=
  let! s := get_M in
  match find_row p.(proposal_id) s with
  | Some _ =>
      do! put_M {| proposals := s.(proposals); reports := s.(reports); changes := 0 |} in
      raise_M IntegrityError "UNIQUE constraint failed: proposals.proposal_id"
  | None => put_M {| proposals := s.(proposals) ++ [proposal_record p]; reports := s.(reports); changes := 1 |}
  end.

(** [SREStore.get_proposal] *)
Definition read_proposal (j : json) : res ActionProposal :=
  let? a := fstr "action" j in
  let? act := action_of a in
  let? cl := fstr "cluster" j in
  let? ns := fstr "namespace" j in
  let? nm := fstr "resource_name" j in
  let? ui := fstr "resource_uid" j in
  let? rv := fstr "resource_version" j in
  let? rq := fstr "requested_by" j in
  let? ra := fstr "rationale" j in
  let? rb := fstr "rollback" j in
  let? ps := fobj "parameters" j in
  let? id := fstr "proposal_id" j in
  let? ca := fstr "created_at" j in
  Ok {| action := act; cluster := cl; namespace := ns; resource_name := nm; resource_uid := ui;
        resource_version := rv; requested_by := rq; rationale := ra; rollback := rb; parameters := ps;
        proposal_id := id; created_at := ca |}.
Definition get_proposal (id : string) : M sre_store ActionProposal :=
  let! s := get_M in
  match find_row id s with
  | None => raise_M KeyError id
  | Some r => lift_M (read_proposal r.(payload))
  end.

Definition approval_json (a : Approval) : json :=
  JObj [("proposal_id", JStr a.(a_proposal_id)); ("proposal_digest", JStr a.(proposal_digest));
        ("approved_by", JStr a.(approved_by)); ("approved_at", JStr a.(approved_at)); ("expires_at", JInt a.(expires_at))].
Definition read_approval (j : json) : res Approval :=
  let? id := fstr "proposal_id" j in
  let? dg := fstr "proposal_digest" j in
  let? ab := fstr "approved_by" j in
  let? aa := fstr "approved_at" j in
  let? ex := fint "expires_at" j in
  Ok {| a_proposal_id := id; proposal_digest := dg; approved_by := ab; approved_at := aa; expires_at := ex |}.

(** [SREStore.approve] and [SREStore.get_approval] *)
Definition approvable (a : Approval) (r : proposal_row) : bool :=
  bool_decide (r.(row_id) = a.(a_proposal_id)) && bool_decide (r.(row_digest) = a.(proposal_digest)) &&
  bool_decide (r.(status) = "proposed").
Definition approve_row (a : Approval) (r : proposal_row) : proposal_row :=
  {| row_id := r.(row_id); payload := r.(payload); row_digest := r.(row_digest); status := "approved";
     approval := Some (approval_json a) |}.
Definition approve_update (a : Approval) : M sre_store unit := modify_M (update_where (approvable a) (approve_row a)).
Definition approve (a : Approval) : M sre_store unit :=
  do! approve_update a in one_row "proposal is missing, changed, or already approved".
Definition get_approval (id : string) : M sre_store Approval :=
  let! s := get_M in
  match find_row id s with
  | None => raise_M KeyError id
  | Some r => match r.(approval) with None => raise_M KeyError id | Some j => lift_M (read_approval j) end
  end.

(** [SREStore.claim_execution] and [SREStore.finish_execution] *)
Definition with_status (id st : string) (r : proposal_row) : bool :=
  bool_decide (r.(row_id) = id) && bool_decide (r.(status) = st).
Definition claim_update (id : string) : M sre_store unit :=
  modify_M (update_where (with_status id "approved") (set_status "executing")).
Definition claim_execution (id : string) : M sre_store unit :=
  do! claim_update id in one_row "proposal is not approved or execution was already claimed".
Definition finish_execution (id : string) (succeeded : bool) : M sre_store unit :=
  modify_M (update_where (with_status id "executing") (set_status (if succeeded then "executed" else "failed"))).

End Store.

Module Service.
Import Models Actions Store.

Section service.
Context {W : Type}.
(** The cluster reader, and the writer behind the executor; [managed] is [None]
    while change execution is disabled. *)
Context (read_snapshot : string -> M W ClusterSnapshot) (analyzers : list (ClusterSnapshot -> list Finding)).
Context (scale : string -> string -> Z -> string -> string -> M W string).
Context (restart : string -> string -> string -> string -> M W string).
Context (managed : option (list string)).

Record service := {
  store : sre_store;
  inspections : counter;
  finding_counts : counter;
  actions : counter;
  world : W;
}.
Definition on_store {A} (m : M sre_store A) : M service A :=
  zoom_M store (fun d s => {| store := d; inspections := s.(inspections); finding_counts := s.(finding_counts);
                              actions := s.(actions); world := s.(world) |}) m.
Definition on_world {A} (m : M W A) : M service A :=
  zoom_M world (fun w s => {| store := s.(store); inspections := s.(inspections); finding_counts := s.(finding_counts);
                              actions := s.(actions); world := w |}) m.
Definition count_inspection (l : list string) : M service unit :=
  modify_M (fun s => {| store := s.(store); inspections := inc l s.(inspections); finding_counts := s.(finding_counts);
                        actions := s.(actions); world := s.(world) |}).
Definition count_finding (l : list string) : M service unit :=
  modify_M (fun s => {| store := s.(store); inspections := s.(inspections); finding_counts := inc l s.(finding_counts);
                        actions := s.(actions); world := s.(world) |}).
Definition count_action (l : list string) : M service unit :=
  modify_M (fun s => {| store := s.(store); inspections := s.(inspections); finding_counts := s.(finding_counts);
                        actions := inc l s.(actions); world := s.(world) |}).

(** [KubernetesSREService.inspect] *)
Definition inspect (name : string) : M service HealthReport :=
  catch_all_M
    (let! snap := on_world (read_snapshot name) in
     let report := Analyzers.analyze analyzers snap in
     do! on_store (save_report report) in
     do! count_inspection [name; "success"] in
     do! iter_M (fun f => count_finding [name; severity_value f.(severity); f.(code)]) report.(findings) in
     mret_M report)
    (fun e => do! count_inspection [name; "error"] in lift_M (Err e)).

(** [propose] and [approve] *)
Definition propose (p : ActionProposal) : M service ActionProposal :=
  do! on_store (save_proposal p) in mret_M p.
Definition approve (id approver now_text : string) (now : Z) : M service Approval :=
  let! p := on_store (get_proposal id) in
  if bool_decide (p.(requested_by) = approver) then
    raise_M ValueError "proposal author cannot approve their own change"
  else
    let a := new_approval p.(proposal_id) (digest p) approver now_text now in
    do! on_store (Store.approve a) in
    mret_M a.

(** [execute] *)
Definition execute (id actor : string) (now : Z) : M service string :=
  match managed with
  | None => raise_M RuntimeError "change execution is disabled"
  | Some ns =>
      let! p := on_store (get_proposal id) in
      let! a := on_store (get_approval id) in
      do! on_store (claim_execution id) in
      catch_all_M
        (let! result := on_world (Actions.execute scale restart ns now p a actor) in
         do! on_store (finish_execution id true) in
         do! count_action [action_value p.(action); "success"] in
         mret_M result)
        (fun e =>
           do! on_store (finish_execution id false) in
           do! count_action [action_value p.(action); "error"] in
           lift_M (Err e))
  end.
End service.
Arguments service : clear implicits.

End Service.

Module Api.
Import Models Actions Service.

(** [require_role] *)
Definition require_role (identity : Identity) (role : string) : res unit :=
  if str_in role identity.(roles) then Ok tt else http 403 (role +:+ " role required").
(** The executor the environment configures. *)
Definition managed_namespaces (env : environ) : option (list string) :=
  if bool_decide (str_lower (getenv "KUBERNETES_SRE_EXECUTION_ENABLED" "false" env) = "true") then
    Some (List.filter nonempty (split ","%char (getenv "KUBERNETES_SRE_MANAGED_NAMESPACES" "openmodelops-managed" env)))
  else None.

(** [class ProposalRequest(BaseModel)] *)
Record ProposalRequest := {
  q_action : ActionType;
  q_cluster : string;
  q_namespace : string;
  q_resource_name : string;
  q_resource_uid : string;
  q_resource_version : string;
  q_rationale : string;
  q_rollback : string;
  q_parameters : dict string json;
}.
Definition ProposalRequest_valid (q : ProposalRequest) : bool :=
  nonempty q.(q_cluster) && nonempty q.(q_namespace) && nonempty q.(q_resource_name) &&
  nonempty q.(q_resource_uid) && nonempty q.(q_resource_version) &&
  (10 <=? String.length q.(q_rationale))%nat && (10 <=? String.length q.(q_rollback))%nat &&
  forallb (fun v => match v with JInt _ | JStr _ => true | _ => false end) (dvals q.(q_parameters)).
Definition proposal_of (q : ProposalRequest) (requester id now : string) : ActionProposal :=
  {| action := q.(q_action); cluster := q.(q_cluster); namespace := q.(q_namespace);
     resource_name := q.(q_resource_name); resource_uid := q.(q_resource_uid);
     resource_version := q.(q_resource_version); requested_by := requester; rationale := q.(q_rationale);
     rollback := q.(q_rollback); parameters := q.(q_parameters); proposal_id := id; created_at := now |}.

Section api.
Context {W : Type}.
Context (read_snapshot : string -> M W ClusterSnapshot).
Context (scale : string -> string -> Z -> string -> string -> M W string).
Context (restart : string -> string -> string -> string -> M W string).
Context (env : environ).

(** [inspect] *)
Definition inspect_handler (name : string) (identity : Identity) : M (service W) json :=
  do! lift_M (require_role identity "sre-reader") in
  catch_all_M
    (let! r := inspect read_snapshot Analyzers.default_analyzers name in mret_M (report_json r))
    (fun _ => http_M 503 "cluster inspection failed").
(** [scheduled_inspection]: the pause between two inspections, one round of its
    loop, which no exception ends, and its first rounds, with the seconds they
    slept. *)
Definition inspection_interval : res Z :=
  let? n := env_int "KUBERNETES_SRE_INSPECTION_INTERVAL_SECONDS" "300" env in Ok (Z.max 30 n).
Definition scheduled_round : M (service W) unit :=
  catch_all_M
    (let! _ := inspect read_snapshot Analyzers.default_analyzers (getenv "KUBERNETES_SRE_CLUSTER" "in-cluster" env) in mret_M tt)
    (fun _ => mret_M tt).
Fixpoint inspection_rounds (interval : Z) (rounds : nat) : M (service W) Z :=
  match rounds with
  | O => mret_M 0
  | S n => do! scheduled_round in let! slept := inspection_rounds interval n in mret_M (interval + slept)
  end.
Definition scheduled_inspection (rounds : nat) : M (service W) Z :=
  let! interval := lift_M inspection_interval in inspection_rounds interval rounds.
(** [lifespan] starts the loop where the environment asks for it. *)
Definition scheduler_enabled : bool :=
  bool_decide (str_lower (getenv "KUBERNETES_SRE_SCHEDULER_ENABLED" "true" env) = "true").
(** [propose] *)
Definition propose_handler (q : ProposalRequest) (identity : Identity) (id now : string) : M (service W) json :=
  if negb (ProposalRequest_valid q) then unprocessable else
  do! lift_M (require_role identity "sre-proposer") in
  let p := proposal_of q identity.(subject) id now in
  do! propose p in
  mret_M (JObj [("proposal_id", JStr p.(proposal_id)); ("digest", JStr (digest p)); ("status", JStr "proposed")]).
(** [approve] *)
Definition approve_handler (id : string) (identity : Identity) (now_text : string) (now : Z) : M (service W) json :=
  do! lift_M (require_role identity "sre-approver") in
  let! a := catch_M (approve id identity.(subject) now_text now) [KeyError; ValueError]
              (fun e => http_M 409 (str_exn e)) in
  mret_M (JObj [("proposal_id", JStr id); ("approved_by", JStr a.(approved_by)); ("status", JStr "approved")]).
(** [execute] *)
Definition execute_handler (id : string) (identity : Identity) (now : Z) : M (service W) json :=
  do! lift_M (require_role identity "sre-executor") in
  let! result := catch_M (execute scale restart (managed_namespaces env) id identity.(subject) now)
                   [KeyError; ValueError; RuntimeError; SafetyViolation] (fun e => http_M 409 (str_exn e)) in
  mret_M (JObj [("proposal_id", JStr id); ("resource_version", JStr result); ("status", JStr "executed")]).
End api.

End Api.

(** ** Lemmas *)

Module StoreFacts.
Import Actions Store.

Definition ids (s : sre_store) : list string := map row_id s.(proposals).
(** A change of rows that keeps what identifies a proposal. *)
Definition keeps (g : proposal_row -> proposal_row) : Prop :=
  forall r, (g r).(row_id) = r.(row_id) /\ (g r).(payload) = r.(payload) /\ (g r).(row_digest) = r.(row_digest).

Lemma keeps_status st : keeps (set_status st).
Proof. done. Qed.
Lemma keeps_approve a : keeps (approve_row a).
Proof. done. Qed.

Lemma update_ids f g s : keeps g -> ids (update_where f g s) = ids s.
Proof.
  intros Hg. unfold ids, update_where. cbn. rewrite map_map. apply map_ext. intros r.
  destruct (f r); [apply Hg|done].
Qed.
Lemma elem_update f g s r' :
  r' ∈ (update_where f g s).(proposals) <-> exists r, r ∈ s.(proposals) /\ r' = if f r then g r else r.
Proof. unfold update_where. cbn. rewrite list_elem_of_fmap. naive_solver. Qed.
Lemma update_none f g s : (update_where f g s).(changes) = 0%nat -> (update_where f g s).(proposals) = s.(proposals).
Proof.
  unfold update_where. cbn. intros H%length_zero_iff_nil. destruct s as [ps rs n]. cbn in *.
  rewrite filter_bool_nil in H. rewrite <- (map_id ps) at 2. apply map_ext_in. intros r Hr.
  rewrite (H r); [done|by apply list_elem_of_In].
Qed.
Lemma count_at_most_one id st s : NoDup (ids s) -> forall g, ((update_where (with_status id st) g s).(changes) <= 1)%nat.
Proof.
  unfold ids, update_where. cbn. intros H _. induction (proposals s) as [|r l IH]; cbn in *; [lia|].
  apply NoDup_cons in H as [Hr H]. specialize (IH H). destruct (with_status id st r) eqn:E; [|lia].
  cbn. assert (List.filter (with_status id st) l = []) as ->; [|cbn; lia].
  apply filter_bool_nil. intros r' Hr'. unfold with_status in *. bprop.
  rewrite bool_decide_false; [done|]. intros He. apply Hr. rewrite H0, <- He. by apply list_elem_of_fmap_2.
Qed.

Lemma find_row_spec id s r : find_row id s = Some r -> r ∈ s.(proposals) /\ r.(row_id) = id.
Proof. unfold find_row. intros [Hin Hb]%find_some. bprop. split; [by apply list_elem_of_In|done]. Qed.
Lemma find_row_None id s : find_row id s = None -> id ∉ ids s.
Proof.
  unfold find_row, ids. intros H (r & -> & Hin)%list_elem_of_fmap.
  apply find_none with (x := r) in H; [|by apply list_elem_of_In]. by rewrite bool_decide_true in H.
Qed.

Lemma get_proposal_ok id s p s' : get_proposal id s = (Ok p, s') ->
  s' = s /\ exists r, r ∈ s.(proposals) /\ r.(row_id) = id /\ read_proposal r.(payload) = Ok p.
Proof.
  unfold get_proposal. intros H. mred in H. destruct (find_row id s) as [r|] eqn:E; [|done].
  apply find_row_spec in E as [Hin Hid]. injection H as H <-. eauto.
Qed.
Lemma get_approval_ok id s a s' : get_approval id s = (Ok a, s') ->
  s' = s /\ exists r j, r ∈ s.(proposals) /\ r.(row_id) = id /\ r.(approval) = Some j /\ read_approval j = Ok a.
Proof.
  unfold get_approval. intros H. mred in H. destruct (find_row id s) as [r|] eqn:E; [|done].
  apply find_row_spec in E as [Hin Hid]. destruct (approval r) as [j|] eqn:Ej; [|done]. injection H as H <-. eauto 10.
Qed.
Lemma get_state {A} (m : M sre_store A) : (forall s, (m s).2 = s) -> forall s r s', m s = (r, s') -> s' = s.
Proof. intros H s r s' E. specialize (H s). by rewrite E in H. Qed.
Lemma get_proposal_state id s : (get_proposal id s).2 = s.
Proof. unfold get_proposal, mbind_M, get_M. by destruct (find_row id s). Qed.
Lemma get_approval_state id s : (get_approval id s).2 = s.
Proof. unfold get_approval, mbind_M, get_M. destruct (find_row id s) as [r|]; [|done]. by destruct (approval r). Qed.

(** What the writing statements do: all of it, or an error and no row changed. *)
Lemma approvable_at_most_one a d g : NoDup (ids d) -> ((update_where (approvable a) g d).(changes) <= 1)%nat.
Proof.
  intros Hnd. etrans; [|apply (count_at_most_one a.(a_proposal_id) "proposed" _ Hnd g)].
  unfold update_where. cbn. clear. induction (proposals d) as [|r l IH]; cbn; [lia|].
  unfold approvable, with_status in *. destruct (bool_decide (row_id r = _)), (bool_decide (row_digest r = _)), (bool_decide (status r = _));
    cbn in *; lia.
Qed.
Lemma store_approve_outcome a d r d' : NoDup (ids d) -> Store.approve a d = (r, d') ->
  if is_ok r then d' = update_where (approvable a) (approve_row a) d else d'.(proposals) = d.(proposals).
Proof.
  intros Hnd H. unfold Store.approve, approve_update, one_row, mbind_M, get_M, modify_M in H.
  destruct (negb _) eqn:Ec; apply pair_equal_spec in H as [<- <-]; cbn [is_ok]; [|done].
  apply update_none. bprop. apply Nat.eqb_neq in Ec. pose proof (approvable_at_most_one a d (approve_row a) Hnd). lia.
Qed.
Lemma claim_outcome id d r d' : NoDup (ids d) -> claim_execution id d = (r, d') ->
  if is_ok r then r = Ok tt /\ (update_where (with_status id "approved") (set_status "executing") d).(changes) = 1%nat /\
                  d' = update_where (with_status id "approved") (set_status "executing") d
  else d'.(proposals) = d.(proposals).
Proof.
  intros Hnd H. unfold claim_execution, claim_update, one_row, mbind_M, get_M, modify_M in H.
  destruct (negb _) eqn:Ec; apply pair_equal_spec in H as [<- <-]; cbn [is_ok]; bprop.
  - apply update_none. apply Nat.eqb_neq in Ec.
    pose proof (count_at_most_one id "approved" _ Hnd (set_status "executing")). lia.
  - by apply Nat.eqb_eq in Ec.
Qed.
Lemma save_proposal_outcome p d r d' : save_proposal p d = (r, d') ->
  if is_ok r then r = Ok tt /\ p.(proposal_id) ∉ ids d /\ d'.(proposals) = d.(proposals) ++ [proposal_record p]
  else d'.(proposals) = d.(proposals).
Proof.
  unfold save_proposal, mbind_M, get_M, raise_M, put_M. intros H.
  destruct (find_row p.(proposal_id) d) as [row|] eqn:E; apply pair_equal_spec in H as [<- <-]; [done|].
  split; [done|]. split; [by apply find_row_None in E|done].
Qed.

(** The documents read back. *)
Lemma read_approval_json a : read_approval (approval_json a) = Ok a.
Proof. unfold read_approval, approval_json. cbn. by destruct a. Qed.

Definition scalar (j : json) : bool := match j with JInt _ | JStr _ => true | _ => false end.
(** A proposal whose parameters are the ones a request can carry. *)
Definition plain (p : ActionProposal) : Prop := dwf p.(parameters) /\ forallb scalar (dvals p.(parameters)) = true.
Definition stored (p : ActionProposal) : ActionProposal :=
  {| action := p.(action); cluster := p.(cluster); namespace := p.(namespace); resource_name := p.(resource_name);
     resource_uid := p.(resource_uid); resource_version := p.(resource_version); requested_by := p.(requested_by);
     rationale := p.(rationale); rollback := p.(rollback); parameters := sort_obj p.(parameters);
     proposal_id := p.(proposal_id); created_at := p.(created_at) |}.

Lemma action_of_value a : action_of (action_value a) = Ok a.
Proof. by destruct a. Qed.
Lemma read_proposal_json p : plain p -> read_proposal (jsort (JObj (proposal_json p))) = Ok (stored p).
Proof.
  intros [Hw Hs]. unfold read_proposal, proposal_json. jfields. rewrite action_of_value. cbn [mbind res_bind]. jfields.
  assert (forall kvs : dict string json, map (fun kv => (kv.1, kv.2)) kvs = kvs) as Hid.
  { intros kvs. induction kvs as [|[k v] kvs IH]; cbn; [done|]. by rewrite IH. }
  erewrite fobj_jsort with (f := fun j : json => j) (kvs' := parameters p); [|solve_keys|cbn; by rewrite Hid].
  cbn [mbind res_bind]. jfields. unfold stored. f_equal. f_equal.
  assert (forall kv, kv ∈ sort_obj (parameters p) -> scalar kv.2 = true) as Hsc.
  { intros kv Hkv%elem_of_isort. rewrite forallb_elem in Hs. apply Hs. by apply list_elem_of_fmap_2. }
  induction (sort_obj (parameters p)) as [|[k v] l IH]; cbn; [done|]. rewrite IH by (intros; apply Hsc; by right).
  f_equal. f_equal. specialize (Hsc (k, v) ltac:(by left)). by destruct v.
Qed.

(** The order of the stored keys does not change the digest. *)
Lemma digest_stored p : plain p -> digest (stored p) = digest p.
Proof.
  intros [Hw _]. unfold digest. apply (f_equal sha256_hex).
  assert (dumps_canonical (JObj (sort_obj p.(parameters))) = dumps_canonical (JObj p.(parameters))) as H.
  { apply dumps_obj_perm; [by apply sort_obj_wf|]. apply isort_perm. }
  unfold dumps_canonical, proposal_json, stored in *. cbn [action cluster namespace resource_name resource_uid resource_version
    requested_by rationale rollback parameters proposal_id created_at].
  cbn [dumps_gen map fst snd] in H |- *. by rewrite H.
Qed.

End StoreFacts.

Module ServiceFacts.
Import Models Actions Store Service Api StoreFacts.

Section facts.
Context {W : Type}.
Context (read_snapshot : string -> M W ClusterSnapshot).
Context (scale : string -> string -> Z -> string -> string -> M W string).
Context (restart : string -> string -> string -> string -> M W string).
Context (env : environ).
Implicit Types (s : service W).

Lemma on_store_read {A} (m : M sre_store A) s : (forall d, (m d).2 = d) ->
  on_store (W := W) m s = ((m s.(store)).1, s).
Proof.
  intros H. unfold on_store, zoom_M. specialize (H (store s)). destruct (m (store s)) as [r d]. cbn in H. subst d.
  by destruct s.
Qed.

(** A request that changed no row and not the cluster. *)
Definition idle (s s' : service W) : Prop := s'.(world) = s.(world) /\ s'.(store).(proposals) = s.(store).(proposals).

(** What [approve] does to the service. *)
Lemma approve_outcome id who nt now s r s' : NoDup (ids s.(store)) ->
  approve id who nt now s = (r, s') ->
  s'.(world) = s.(world) /\
  match r with
  | Err _ => s'.(store).(proposals) = s.(store).(proposals)
  | Ok a => exists p row, row ∈ s.(store).(proposals) /\ row.(row_id) = id /\ read_proposal row.(payload) = Ok p /\
      p.(requested_by) <> who /\ a = new_approval p.(proposal_id) (digest p) who nt now /\
      s'.(store) = (update_where (approvable a) (approve_row a) s.(store))
  end.
Proof.
  intros Hnd H. unfold approve in H.
  unfold mbind_M in H at 1. rewrite on_store_read in H by apply get_proposal_state.
  destruct (get_proposal id (store s)) as [[p|e] d] eqn:E; cbn [fst] in H; [|by injection H as <- <-].
  apply get_proposal_ok in E as [-> (row & Hin & Hid & Hp)].
  destruct (bool_decide (requested_by p = who)) eqn:Eb; [by injection H as <- <-|]. bprop.
  set (a := new_approval _ _ _ _ _) in H. unfold mbind_M, on_store, zoom_M in H.
  destruct (Store.approve a (store s)) as [r0 d1] eqn:Ea. apply store_approve_outcome in Ea; [|done].
  destruct r0 as [u|e]; apply pair_equal_spec in H as [<- <-]; cbn [is_ok world store] in *; (split; [done|]); [|done].
  exists p, row. done.
Qed.

(** The status an execution leaves. *)
Definition outcome_status {A} (r : res A) : string := if is_ok r then "executed" else "failed".

(** What [execute] does to the service: nothing, or one claimed execution. *)
Lemma execute_outcome managed id who now s r s' : NoDup (ids s.(store)) ->
  execute scale restart managed id who now s = (r, s') ->
  (idle s s' /\ is_ok r = false) \/
  exists ns p a row row' j,
    managed = Some ns /\ row ∈ s.(store).(proposals) /\ row.(row_id) = id /\ read_proposal row.(payload) = Ok p /\
    row' ∈ s.(store).(proposals) /\ row'.(row_id) = id /\ row'.(approval) = Some j /\ read_approval j = Ok a /\
    (update_where (with_status id "approved") (set_status "executing") s.(store)).(changes) = 1%nat /\
    Actions.execute scale restart ns now p a who s.(world) = (r, s'.(world)) /\
    s'.(store) = (update_where (with_status id "executing") (set_status (outcome_status r))
                   (update_where (with_status id "approved") (set_status "executing") s.(store))).
Proof.
  intros Hnd H. unfold execute in H. destruct managed as [ns|]; [|injection H as <- <-; by left].
  unfold mbind_M in H at 1. rewrite on_store_read in H by apply get_proposal_state.
  destruct (get_proposal id (store s)) as [[p|e] d] eqn:E; cbn [fst] in H; [|injection H as <- <-; by left].
  unfold mbind_M in H at 1. rewrite on_store_read in H by apply get_approval_state.
  destruct (get_approval id (store s)) as [[a|e] d'] eqn:E'; cbn [fst] in H; [|injection H as <- <-; by left].
  apply get_proposal_ok in E as [-> (row & Hin & Hid & Hp)].
  apply get_approval_ok in E' as [-> (row' & j & Hin' & Hid' & Hj & Ha)].
  unfold mbind_M in H at 1. unfold on_store, zoom_M at 1 in H.
  destruct (claim_execution id (store s)) as [r1 d1] eqn:Ec. apply claim_outcome in Ec; [|done].
  destruct r1 as [u|e]; cbn [is_ok] in Ec; [|injection H as <- <-; by left].
  destruct Ec as (_ & Ec & ->). right. exists ns, p, a, row, row', j. unfold catch_all_M, on_world, on_store, zoom_M, mbind_M, mret_M in H.
  cbn [store inspections finding_counts Service.actions world] in H.
  destruct (Actions.execute scale restart ns now p a who (world s)) as [[res|e] w'] eqn:Ex;
    cbn in H; injection H as <- <-; cbn; rewrite ?Ex; repeat split; auto.
Qed.
(** ** Histories of requests *)

(** What the successful requests leave in the history: who did what to which
    proposal. *)
Inductive event :=
| Proposed (id who : string)
| Approved (id who : string) (until : Z)
| Executed (id who : string) (at_ : Z).
Definition log {A} (r : res A) (e : event) : list event := if is_ok r then [e] else [].

Inductive step : service W -> list event -> service W -> Prop :=
| step_inspect name i s r s' :
    inspect_handler read_snapshot name i s = (r, s') -> step s [] s'
| step_scheduled s r s' :
    scheduled_round read_snapshot env s = (r, s') -> step s [] s'
| step_propose q i id now s r s' : dwf q.(q_parameters) ->
    propose_handler q i id now s = (r, s') -> step s (log r (Proposed id i.(subject))) s'
| step_approve id i nt now s r s' :
    approve_handler id i nt now s = (r, s') -> step s (log r (Approved id i.(subject) (now + 15 * 60 * 1000000))) s'
| step_execute id i now s r s' :
    execute_handler scale restart env id i now s = (r, s') -> step s (log r (Executed id i.(subject) now)) s'.

Inductive reach : service W -> list event -> service W -> Prop :=
| reach_here s : reach s [] s
| reach_step s h s1 e s2 : reach s h s1 -> step s1 e s2 -> reach s (h ++ e) s2.

(** A stored row is a proposal of the history, and its approval one of its
    digest by an approver of the history. *)
Definition row_inv (h : list event) (r : proposal_row) : Prop :=
  exists p, plain p /\ r.(row_id) = p.(proposal_id) /\ r.(payload) = jsort (JObj (proposal_json p)) /\
    r.(row_digest) = digest p /\ Proposed p.(proposal_id) p.(requested_by) ∈ h /\
    forall j, r.(approval) = Some j -> exists a, j = approval_json a /\ a.(a_proposal_id) = p.(proposal_id) /\
      a.(proposal_digest) = digest p /\ Approved p.(proposal_id) a.(approved_by) a.(expires_at) ∈ h.
Definition inv (h : list event) (d : sre_store) : Prop :=
  NoDup (ids d) /\ forall r, r ∈ d.(proposals) -> row_inv h r.

Lemma row_inv_more h e r : row_inv h r -> row_inv (h ++ e) r.
Proof.
  intros (p & H1 & H2 & H3 & H4 & H5 & H6). exists p. do 4 (split; [done|]). split; [apply elem_of_app; by left|].
  intros j Hj. destruct (H6 j Hj) as (a & ? & ? & ? & ?). exists a. do 3 (split; [done|]). apply elem_of_app. by left.
Qed.
Lemma inv_more h e d : inv h d -> inv (h ++ e) d.
Proof. intros [H1 H2]. split; [done|]. intros r Hr. by apply row_inv_more, H2. Qed.

Lemma inv_rows h d d' : d'.(proposals) = d.(proposals) -> inv h d -> inv h d'.
Proof. unfold inv, ids. by intros ->. Qed.

(** A status change keeps the invariant. *)
Lemma inv_status h d f st : inv h d -> inv h (update_where f (set_status st) d).
Proof.
  intros [H1 H2]. split; [by rewrite update_ids|]. intros r' (r & Hr & ->)%elem_update.
  specialize (H2 r Hr). by destruct (f r).
Qed.

(** So does an approval that is written: a row takes it only for its own
    identifier and digest. *)
Lemma inv_signed h d a : inv h d ->
  inv (h ++ [Approved a.(a_proposal_id) a.(approved_by) a.(expires_at)]) (update_where (approvable a) (approve_row a) d).
Proof.
  intros [H1 H2]. split; [by rewrite update_ids|]. intros r' (r & Hr & ->)%elem_update.
  destruct (approvable a r) eqn:E; [|by apply row_inv_more, H2].
  destruct (H2 r Hr) as (q & Q1 & Q2 & Q3 & Q4 & Q5 & Q6). unfold approvable in E. bprop.
  exists q. cbn [approve_row row_id payload row_digest approval]. do 4 (split; [done|]). split; [apply elem_of_app; by left|].
  intros j [= <-]. exists a. split; [done|]. split; [congruence|]. split; [congruence|].
  apply elem_of_app. right. apply list_elem_of_singleton. congruence.
Qed.
(** The proposal a stored row reads back as. *)
Lemma row_inv_read h r p : row_inv h r -> read_proposal r.(payload) = Ok p ->
  exists q, plain q /\ p = stored q /\ r.(row_id) = q.(proposal_id) /\ Proposed q.(proposal_id) q.(requested_by) ∈ h.
Proof.
  intros (q & Q1 & Q2 & Q3 & _ & Q5 & _) Hp. rewrite Q3, read_proposal_json in Hp by done. injection Hp as <-. by exists q.
Qed.
Lemma inv_approve h d p who nt now row : inv h d -> row ∈ d.(proposals) -> read_proposal row.(payload) = Ok p ->
  let a := new_approval p.(proposal_id) (digest p) who nt now in
  inv (h ++ [Approved row.(row_id) who (now + 15 * 60 * 1000000)]) (update_where (approvable a) (approve_row a) d).
Proof.
  intros Hi Hrow Hp a. destruct (row_inv_read h row p (proj2 Hi row Hrow) Hp) as (q & _ & -> & -> & _).
  exact (inv_signed h d a Hi).
Qed.

(** Calls that leave the proposals alone. *)
Definition frame {A} (m : M (service W) A) : Prop :=
  forall s r s', m s = (r, s') -> s'.(store).(proposals) = s.(store).(proposals).
Lemma frame_pure {A} (m : M (service W) A) : (forall s, (m s).2.(store) = s.(store)) -> frame m.
Proof. intros H s r s' E. specialize (H s). rewrite E in H. cbn in H. by rewrite H. Qed.
Lemma frame_bind {A B} (m : M (service W) A) (k : A -> M (service W) B) :
  frame m -> (forall a, frame (k a)) -> frame (mbind_M m k).
Proof.
  intros Hm Hk s r s' H. unfold mbind_M in H. destruct (m s) as [[a|e] s1] eqn:E.
  - rewrite (Hk _ _ _ _ H). by apply Hm in E.
  - injection H as _ <-. by apply Hm in E.
Qed.
Lemma frame_catch {A} (m : M (service W) A) k : frame m -> (forall e, frame (k e)) -> frame (catch_all_M m k).
Proof.
  intros Hm Hk s r s' H. unfold catch_all_M in H. destruct (m s) as [[a|e] s1] eqn:E.
  - injection H as _ <-. by apply Hm in E.
  - rewrite (Hk _ _ _ _ H). by apply Hm in E.
Qed.
Lemma frame_iter {A} (f : A -> M (service W) unit) l : (forall a, frame (f a)) -> frame (iter_M f l).
Proof.
  intros Hf. induction l as [|x l IH]; cbn; [by apply frame_pure|]. by apply frame_bind.
Qed.
Lemma frame_world {A} (m : M W A) : frame (on_world m).
Proof. apply frame_pure. intros s. unfold on_world, zoom_M. by destruct (m (world s)). Qed.
Lemma frame_report r : frame (on_store (save_report r)).
Proof. intros s x s' H. by injection H as _ <-. Qed.

Lemma frame_service_inspect name : frame (inspect read_snapshot Analyzers.default_analyzers name).
Proof.
  apply frame_catch.
  - apply frame_bind; [apply frame_world|]. intros snap. apply frame_bind; [apply frame_report|]. intros _.
    apply frame_bind; [by apply frame_pure|]. intros _. apply frame_bind; [|intros; by apply frame_pure].
    apply frame_iter. intros f. by apply frame_pure.
  - intros e. apply frame_bind; intros; by apply frame_pure.
Qed.
Lemma frame_inspect name i : frame (inspect_handler read_snapshot name i).
Proof.
  apply frame_bind; [by apply frame_pure|]. intros _.
  apply frame_catch; [apply frame_bind; [apply frame_service_inspect|]|]; intros; by apply frame_pure.
Qed.
Lemma frame_scheduled : frame (scheduled_round read_snapshot env).
Proof.
  apply frame_catch; [apply frame_bind; [apply frame_service_inspect|]|]; intros; by apply frame_pure.
Qed.

(** Inspections of a cluster that were counted, one way or the other. *)
Definition inspected (name : string) (s : service W) : Z :=
  count_of [name; "success"] s.(inspections) + count_of [name; "error"] s.(inspections).
Lemma count_findings_ok {A} (g : A -> list string) l (s : service W) : exists s',
  iter_M (fun f => count_finding (g f)) l s = (Ok tt, s') /\ s'.(inspections) = s.(inspections).
Proof.
  revert s. induction l as [|x l IH]; intros s; [by exists s|].
  cbn [iter_M]. destruct (IH (count_finding (g x) s).2) as (s' & H & Hi). exists s'. split; [|by rewrite Hi].
  rewrite <- H. reflexivity.
Qed.
Lemma inspect_counted analyzers name s : exists r s', inspect read_snapshot analyzers name s = (r, s') /\
  inspected name s' = inspected name s + 1.
Proof.
  unfold inspect, catch_all_M, mbind_M at 1. destruct (on_world (read_snapshot name) s) as [[snap|e] s1] eqn:E.
  - assert (s1.(inspections) = s.(inspections)) as Hi
      by (unfold on_world, zoom_M in E; destruct (read_snapshot name (world s)); by injection E as _ <-).
    set (s2 := (on_store (save_report (Analyzers.analyze analyzers snap)) s1).2).
    set (s3 := (count_inspection [name; "success"] s2).2).
    destruct (count_findings_ok (fun f => [name; severity_value f.(severity); f.(code)])
      (Analyzers.analyze analyzers snap).(findings) s3) as (s4 & H & H4).
    eexists (Ok _), s4. split.
    + cbn -[Analyzers.analyze iter_M]. rewrite (bind_ok _ _ _ _ _ H). reflexivity.
    + unfold inspected. rewrite H4. change (inspections s3) with (inc [name; "success"] (inspections s1)).
      rewrite Hi, count_of_inc_eq, count_of_inc_ne by congruence. lia.
  - assert (s1.(inspections) = s.(inspections)) as Hi
      by (unfold on_world, zoom_M in E; destruct (read_snapshot name (world s)); by injection E as _ <-).
    eexists (Err e), (count_inspection [name; "error"] s1).2. split; [reflexivity|]. unfold inspected.
    change (inspections (count_inspection [name; "error"] s1).2) with (inc [name; "error"] (inspections s1)).
    rewrite Hi, count_of_inc_eq, count_of_inc_ne by congruence. lia.
Qed.

(** A role check that fails leaves the service as it was. *)
Lemma role_bind {A} i role (k : unit -> M (service W) A) s r s' :
  mbind_M (lift_M (require_role i role)) k s = (r, s') ->
  (str_in role i.(roles) = false /\ s' = s /\ is_ok r = false) \/ (str_in role i.(roles) = true /\ k tt s = (r, s')).
Proof.
  unfold require_role. destruct (str_in role (roles i)); intros H; mred in H; [by right|]. left.
  by injection H as <- <-.
Qed.

Lemma save_outcome p s r s' : on_store (save_proposal p) s = (r, s') ->
  (idle s s' /\ is_ok r = false) \/
  (r = Ok tt /\ p.(proposal_id) ∉ ids s.(store) /\
   s'.(store).(proposals) = s.(store).(proposals) ++ [proposal_record p]).
Proof.
  unfold on_store, zoom_M. intros H. destruct (save_proposal p (store s)) as [r0 d] eqn:E.
  apply save_proposal_outcome in E. apply pair_equal_spec in H as [<- <-].
  by destruct (is_ok r0); [right|left].
Qed.

Lemma propose_outcome q i id now s r s' : propose_handler q i id now s = (r, s') ->
  (idle s s' /\ is_ok r = false) \/
  (is_ok r = true /\ ProposalRequest_valid q = true /\ id ∉ ids s.(store) /\
   s'.(store).(proposals) = s.(store).(proposals) ++ [proposal_record (proposal_of q i.(subject) id now)]).
Proof.
  unfold propose_handler. intros H. destruct (ProposalRequest_valid q) eqn:Ev; cbn [negb] in H; [|injection H as <- <-; by left].
  apply role_bind in H as [(_ & -> & ?)|[_ H]]; [by left|].
  assert (proposal_id (proposal_of q i.(subject) id now) = id) as Hid by reflexivity.
  revert Hid H. generalize (proposal_of q i.(subject) id now). intros p <- H.
  unfold propose in H. rewrite bind_assoc in H. unfold mbind_M at 1 in H.
  destruct (on_store (save_proposal p) s) as [r0 s1] eqn:E.
  apply save_outcome in E as [[Ei E]|(-> & E1 & E2)].
  - left. destruct r0; [done|]. apply pair_equal_spec in H as [<- <-]. split; [exact Ei|reflexivity].
  - right. apply pair_equal_spec in H as [<- <-]. split; [reflexivity|]. split; [reflexivity|]. split; [exact E1|exact E2].
Qed.

Lemma catch_store {A} (m : M (service W) A) cs st s r s' :
  catch_M m cs (fun e => http_M st (str_exn e)) s = (r, s') -> exists r0, m s = (r0, s') /\ is_ok r0 = is_ok r /\
    (forall a, r = Ok a -> r0 = Ok a).
Proof.
  unfold catch_M. destruct (m s) as [[a|e] s1].
  - injection 1 as <- <-. eauto.
  - intros H. exists (Err e). destruct (catches cs e); apply pair_equal_spec in H as [<- <-]; (split; [done|]; split; [done|]; by intros a).
Qed.

Lemma approve_handler_outcome id i nt now s r s' : approve_handler id i nt now s = (r, s') ->
  (idle s s' /\ is_ok r = false) \/
  (str_in "sre-approver" i.(roles) = true /\ exists r0, approve id i.(subject) nt now s = (r0, s') /\ is_ok r0 = is_ok r).
Proof.
  unfold approve_handler. intros H. apply role_bind in H as [(_ & -> & ?)|[Hr H]]; [by left|]. right. split; [done|].
  unfold mbind_M in H. destruct (catch_M _ _ _ s) as [r1 s1] eqn:E. apply catch_store in E as (r0 & E & Eo & _).
  exists r0. destruct r1; injection H as <- <-; by rewrite E.
Qed.

Lemma execute_handler_outcome id i now s r s' : execute_handler scale restart env id i now s = (r, s') ->
  (idle s s' /\ is_ok r = false) \/
  (str_in "sre-executor" i.(roles) = true /\
   exists r0, execute scale restart (managed_namespaces env) id i.(subject) now s = (r0, s') /\ is_ok r0 = is_ok r).
Proof.
  unfold execute_handler. intros H. apply role_bind in H as [(_ & -> & ?)|[Hr H]]; [by left|]. right. split; [done|].
  unfold mbind_M in H. destruct (catch_M _ _ _ s) as [r1 s1] eqn:E. apply catch_store in E as (r0 & E & Eo & _).
  exists r0. destruct r1; injection H as <- <-; by rewrite E.
Qed.

Lemma record_inv h q i id now : dwf q.(q_parameters) -> ProposalRequest_valid q = true ->
  row_inv (h ++ [Proposed id i.(subject)]) (proposal_record (proposal_of q i.(subject) id now)).
Proof.
  intros Hw Hv. exists (proposal_of q i.(subject) id now). unfold ProposalRequest_valid in Hv. bprop.
  do 4 (split; [done|]). split; [apply elem_of_app; right; by apply list_elem_of_singleton|done].
Qed.

Lemma step_inv h s e s' : inv h s.(store) -> step s e s' -> inv (h ++ e) s'.(store).
Proof.
  intros Hi. destruct 1 as [name i s r s' H|s r s' H|q i id now s r s' Hw H|id i nt now s r s' H|id i now s r s' H]; unfold log.
  - rewrite app_nil_r. apply frame_inspect in H. destruct Hi as [H1 H2]. unfold inv, ids. by rewrite H.
  - rewrite app_nil_r. apply frame_scheduled in H. destruct Hi as [H1 H2]. unfold inv, ids. by rewrite H.
  - apply propose_outcome in H as [[[_ Hs] ->]|(-> & Hv & Hid & Hp)]; [rewrite app_nil_r; by apply (inv_rows h (store s))|].
    destruct Hi as [H1 H2]. split.
    + unfold ids in *. rewrite Hp, map_app. by apply NoDup_snoc.
    + intros r'. rewrite Hp. intros [Hr| ->%list_elem_of_singleton]%elem_of_app; [by apply row_inv_more, H2|by apply record_inv].
  - apply approve_handler_outcome in H as [[[_ Hs] ->]|(_ & r0 & H & <-)]; [rewrite app_nil_r; by apply (inv_rows h (store s))|].
    apply approve_outcome in H as [_ H]; [|apply Hi]. destruct r0 as [a|e]; cbn.
    + destruct H as (p & row & Hrow & Hid & Hp & _ & -> & ->). rewrite <- Hid. by apply inv_approve.
    + rewrite app_nil_r. by apply (inv_rows h (store s)).
  - apply inv_more. apply execute_handler_outcome in H as [[[_ Hs] _]|(_ & r0 & H & _)]; [by apply (inv_rows h (store s))|].
    apply execute_outcome in H as [[[_ Hs] _]|(ns & p & a & row & row' & j & H)]; [by apply (inv_rows h (store s))| |apply Hi].
    destruct H as (_ & _ & _ & _ & _ & _ & _ & _ & _ & _ & ->). by do 2 apply inv_status.
Qed.

Lemma reach_inv s h s' : ids s.(store) = [] -> reach s h s' -> inv h s'.(store).
Proof.
  intros Hs. induction 1 as [s|s h s1 e s2 _ IH Hst].
  - split; [rewrite Hs; constructor|]. intros r Hr. apply (list_elem_of_fmap_2 row_id) in Hr.
    change (row_id r ∈ ids (store s)) in Hr. rewrite Hs in Hr. by apply elem_of_nil in Hr.
  - by eapply step_inv; [apply IH|].
Qed.

(** A proposal whose execution ended, one way or the other. *)
Definition finished (id : string) (d : sre_store) : Prop :=
  exists r, r ∈ d.(proposals) /\ r.(row_id) = id /\ r.(status) ∈ ["executed"; "failed"].
Lemma finished_rows id d d' : d'.(proposals) = d.(proposals) -> finished id d -> finished id d'.
Proof. unfold finished. by intros ->. Qed.
Lemma finished_update id d f g : finished id d ->
  (forall r, r.(status) ∈ ["executed"; "failed"] -> f r = false) -> finished id (update_where f g d).
Proof.
  intros (r & Hr & Hid & Hs) Hf. exists r. split; [|done]. apply elem_update. exists r. by rewrite (Hf r Hs).
Qed.
Lemma finished_status id st r : r.(status) ∈ ["executed"; "failed"] -> st ∉ ["executed"; "failed"] -> with_status id st r = false.
Proof.
  intros Hr Hst. unfold with_status. apply andb_false_iff. right. apply bool_decide_eq_false. by intros <-.
Qed.

Lemma step_finished id s e s' : NoDup (ids s.(store)) -> finished id s.(store) -> step s e s' -> finished id s'.(store).
Proof.
  intros Hnd Hf. destruct 1 as [name i s r s' H|s r s' H|q i id' now s r s' Hw H|id' i nt now s r s' H|id' i now s r s' H].
  - apply frame_inspect in H. destruct Hf as (x & Hx). exists x. by rewrite H.
  - apply frame_scheduled in H. destruct Hf as (x & Hx). exists x. by rewrite H.
  - apply propose_outcome in H as [[[_ Hs] _]|(_ & _ & _ & Hp)]; [by apply (finished_rows _ (store s))|]. destruct Hf as (x & Hx & Hx').
    exists x. rewrite Hp. split; [apply elem_of_app; by left|done].
  - apply approve_handler_outcome in H as [[[_ Hs] _]|(_ & r0 & H & _)]; [by apply (finished_rows _ (store s))|].
    apply approve_outcome in H as [_ H]; [|done]. destruct r0 as [a|e]; [|by apply (finished_rows _ (store s))].
    destruct H as (p & row & _ & _ & _ & _ & _ & ->). apply finished_update; [done|]. intros x Hx. unfold approvable.
    apply andb_false_iff. right. apply bool_decide_eq_false. intros Hst. rewrite Hst in Hx. set_solver.
  - apply execute_handler_outcome in H as [[[_ Hs] _]|(_ & r0 & H & _)]; [by apply (finished_rows _ (store s))|].
    apply execute_outcome in H as [[[_ Hs] _]|(ns & p & a & row & row' & j & H)]; [by apply (finished_rows _ (store s))| |done].
    destruct H as (_ & _ & _ & _ & _ & _ & _ & _ & _ & _ & ->).
    do 2 (apply finished_update; [|intros x Hx; apply finished_status; [done|set_solver]]). done.
Qed.

Lemma reach_finished id s h s' : inv h s.(store) -> finished id s.(store) -> forall h', reach s h' s' ->
  finished id s'.(store) /\ inv (h ++ h') s'.(store).
Proof.
  intros Hi Hf h' Hr. induction Hr as [s|s h' s1 e s2 _ IH Hst]; [by rewrite app_nil_r|].
  destruct (IH Hi Hf) as [H1 H2]. split.
  - eapply step_finished; [apply H2|exact H1|exact Hst].
  - rewrite app_assoc. eapply step_inv; [exact H2|exact Hst].
Qed.

(** A finished proposal is not claimed again. *)
Lemma finished_unclaimed id d g : NoDup (ids d) -> finished id d ->
  (update_where (with_status id "approved") g d).(changes) = 0%nat.
Proof.
  intros Hnd (r & Hr & Hid & Hs). unfold update_where. cbn. apply length_zero_iff_nil, filter_bool_nil.
  intros r' Hr'. destruct (with_status id "approved" r') eqn:E; [|done]. unfold with_status in E. bprop.
  assert (r' = r) as -> by (apply (NoDup_map_inj row_id d.(proposals)); [done..|congruence]).
  match goal with Ha : status r = "approved" |- _ => rewrite Ha in Hs end. set_solver.
Qed.

Lemma claimed_finishes id d st : st ∈ ["executed"; "failed"] ->
  (update_where (with_status id "approved") (set_status "executing") d).(changes) = 1%nat ->
  finished id (update_where (with_status id "executing") (set_status st)
                 (update_where (with_status id "approved") (set_status "executing") d)).
Proof.
  intros Hst Hc. unfold update_where at 1 in Hc. cbn in Hc.
  destruct (List.filter (with_status id "approved") d.(proposals)) as [|r l] eqn:E; [done|].
  assert (r ∈ List.filter (with_status id "approved") d.(proposals)) as Hr by (rewrite E; by left).
  apply elem_of_filter_bool in Hr as [Hw Hr].
  exists (set_status st (set_status "executing" r)). unfold with_status in Hw. bprop. split; [|done].
  apply elem_update. exists (set_status "executing" r). split.
  - apply elem_update. exists r. split; [done|]. unfold with_status. by rewrite !bool_decide_true.
  - unfold with_status. cbn. by rewrite !bool_decide_true.
Qed.

(** An execution that reached the cluster passed every check. *)
Lemma checks_ok managed now p a who : checks managed now p a who = Ok tt ->
  str_in p.(namespace) managed = true /\ blank p.(rollback) = false /\ a.(a_proposal_id) = p.(proposal_id) /\
  a.(proposal_digest) = digest p /\ a.(approved_by) <> p.(requested_by) /\ now < a.(expires_at) /\
  who <> p.(requested_by) /\ who <> a.(approved_by).
Proof.
  unfold checks. intros H.
  destruct (str_in (namespace p) managed); [|done]. cbn [negb guard_raise mbind res_bind] in H.
  destruct (blank (rollback p)); [done|]. cbn [guard_raise mbind res_bind] in H.
  destruct (bool_decide (a_proposal_id a = _)) eqn:E1; [|done]. cbn [negb orb] in H.
  destruct (bool_decide (proposal_digest a = digest p)) eqn:E2; [|done]. cbn [negb guard_raise mbind res_bind] in H.
  destruct (bool_decide (approved_by a = _)) eqn:E3; [done|]. cbn [guard_raise mbind res_bind] in H.
  destruct (expires_at a <=? now) eqn:E4; [done|]. cbn [guard_raise mbind res_bind] in H.
  destruct (str_in who _) eqn:E5; [done|]. apply str_in_false in E5. bprop.
  do 6 (split; [done|]). split; intros ->; apply E5; [by left|right; by left].
Qed.
Lemma execute_world managed now p a who w r w' :
  Actions.execute scale restart managed now p a who w = (r, w') -> w' <> w -> checks managed now p a who = Ok tt.
Proof.
  unfold Actions.execute. intros H Hw. unfold mbind_M at 1, lift_M at 1 in H.
  destruct (checks managed now p a who) as [[]|e]; [done|]. injection H as _ <-. done.
Qed.

End facts.

End ServiceFacts.

(** ** Properties *)

Module SRETheorems.
Import Models Actions Store Service Api StoreFacts ServiceFacts.

(** A cluster that counts the writes it takes. *)
Definition ex_read (name : string) : M nat ClusterSnapshot := raise_M RuntimeError "no cluster".
Definition ex_scale (ns name : string) (replicas : Z) (uid version : string) : M nat string := fun w => (Ok "42", S w).
Definition ex_restart (ns name uid version : string) : M nat string := fun w => (Ok "43", S w).
Definition ex_env : environ := [("KUBERNETES_SRE_EXECUTION_ENABLED", "true")].
Definition ex_person (name role : string) : Identity := {| subject := name; roles := [role]; tenant := "acme" |}.
Definition ex_request : ProposalRequest :=
  {| q_action := SCALE_DEPLOYMENT; q_cluster := "c1"; q_namespace := "openmodelops-managed"; q_resource_name := "web";
     q_resource_uid := "u1"; q_resource_version := "7"; q_rationale := "absorb the load"; q_rollback := "scale back to 2";
     q_parameters := [("replicas", JInt 4)] |}.
Definition ex0 : service nat :=
  {| store := empty_store; inspections := []; finding_counts := []; Service.actions := []; world := 0%nat |}.
Definition ex_proposed := Eval vm_compute in
  propose_handler (W := nat) ex_request (ex_person "ana" "sre-proposer") "p1" "t1" ex0.
Definition ex_approved := Eval vm_compute in
  approve_handler (W := nat) "p1" (ex_person "bo" "sre-approver") "t2" 100 ex_proposed.2.
Lemma ex_proposed_eq :
  propose_handler (W := nat) ex_request (ex_person "ana" "sre-proposer") "p1" "t1" ex0 = (ex_proposed.1, ex_proposed.2).
Proof. vm_compute. reflexivity. Qed.
Lemma ex_approved_eq :
  approve_handler (W := nat) "p1" (ex_person "bo" "sre-approver") "t2" 100 ex_proposed.2 = (ex_approved.1, ex_approved.2).
Proof. vm_compute. reflexivity. Qed.
Definition ex_history : list event := [Proposed "p1" "ana"; Approved "p1" "bo" 900000100].

Lemma ex_reach : reach ex_read ex_scale ex_restart ex_env ex0 ex_history ex_approved.2.
Proof.
  exact (reach_step ex_read ex_scale ex_restart ex_env ex0 _ ex_proposed.2 _ ex_approved.2
    (reach_step ex_read ex_scale ex_restart ex_env ex0 _ ex0 _ ex_proposed.2 (reach_here _ _ _ _ ex0)
      (step_propose ex_read ex_scale ex_restart ex_env ex_request _ _ _ _ _ _ (NoDup_singleton "replicas") ex_proposed_eq))
    (step_approve ex_read ex_scale ex_restart ex_env _ _ _ _ _ _ _ ex_approved_eq)).
Qed.
Definition ex_execute (now : Z) (s : service nat) :=
  execute_handler ex_scale ex_restart ex_env "p1" (ex_person "cy" "sre-executor") now s.
Lemma ex_writes : (ex_execute 200 ex_approved.2).2.(world) = 1%nat /\ ex_approved.2.(world) = 0%nat.
Proof. vm_compute. split; reflexivity. Qed.
Lemma ex_write r s' : ex_execute 200 ex_approved.2 = (r, s') -> s'.(world) <> ex_approved.2.(world).
Proof. intros E. destruct ex_writes as [H1 H2]. rewrite E in H1. cbn [snd] in H1. rewrite H1, H2. discriminate. Qed.

(** C34: a change of the cluster takes three people.  Starting from an empty
    store, whatever requests were served before, a request to execute changes
    the cluster only when execution is enabled, the caller holds the executor
    role, and the history has the proposal by one person and an approval of it,
    not yet expired, by a second one, both different from the caller. *)
Theorem three_party_change : forall (W : Type) read_snapshot scale restart env (s0 s : service W) h id i now r s',
  ids s0.(store) = [] -> reach read_snapshot scale restart env s0 h s ->
  execute_handler scale restart env id i now s = (r, s') -> s'.(world) <> s.(world) ->
  exists proposer approver until ns,
    managed_namespaces env = Some ns /\ "sre-executor" ∈ i.(roles) /\
    Proposed id proposer ∈ h /\ Approved id approver until ∈ h /\ now < until /\
    proposer <> approver /\ i.(subject) <> proposer /\ i.(subject) <> approver.
Proof.
  intros W read_snapshot scale restart env s0 s h id i now r s' H0 Hr H Hw.
  destruct (reach_inv read_snapshot scale restart env s0 h s H0 Hr) as [Hnd Hrows].
  apply execute_handler_outcome in H as [[[? _] _]|(Hrole & r0 & H & _)]; [done|].
  apply execute_outcome in H as [[[? _] _]|(ns & p & a & row & row' & j & Hm & Hin & Hid & Hp & Hin' & Hid' & Hj & Ha & _ & Hx & _)]; [done| |done].
  pose proof (execute_world _ _ _ _ _ _ _ _ _ _ Hx Hw) as Hc. apply checks_ok in Hc as (_ & _ & Ei & Ed & Eb & Et & E1 & E2).
  assert (row' = row) as -> by (apply (NoDup_map_inj row_id (proposals (store s))); [done..|congruence]).
  destruct (Hrows row Hin) as (q & Q1 & Q2 & Q3 & Q4 & Q5 & Q6).
  rewrite Q3, read_proposal_json in Hp by done. injection Hp as <-.
  destruct (Q6 j Hj) as (a' & -> & _ & _ & Q7). rewrite read_approval_json in Ha. injection Ha as ->.
  rewrite <- Q2, Hid in Q5, Q7. cbn in *.
  exists (requested_by q), (approved_by a), (expires_at a), ns. split; [done|]. split; [by apply str_in_spec|].
  do 3 (split; [done|]). done.
Qed.

Lemma three_party_change_witness : exists proposer approver,
  Proposed "p1" proposer ∈ ex_history /\ proposer <> approver.
Proof.
  destruct (ex_execute 200 ex_approved.2) as [r s'] eqn:E.
  pose proof (ex_write r s' E) as Hw.
  unfold ex_execute in E.
  destruct (three_party_change nat ex_read ex_scale ex_restart ex_env ex0 ex_approved.2 ex_history "p1"
    (ex_person "cy" "sre-executor") 200 r s' eq_refl ex_reach E Hw) as (proposer & approver & _ & _ & _ & _ & Hp & _ & _ & Hne & _).
  exists proposer, approver. exact (conj Hp Hne).
Defined.

(** A proposal changes the cluster at most once when requests are served one
    after the other.  After a request that changed it, and whatever requests
    follow, every further request to execute the same proposal is refused and
    leaves the cluster alone. *)
Theorem proposal_executed_once : forall (W : Type) read_snapshot scale restart env (s0 s s2 : service W) h h2 id i now r s' i2 now2 r2 s3,
  ids s0.(store) = [] -> reach read_snapshot scale restart env s0 h s ->
  execute_handler scale restart env id i now s = (r, s') -> s'.(world) <> s.(world) ->
  reach read_snapshot scale restart env s' h2 s2 ->
  execute_handler scale restart env id i2 now2 s2 = (r2, s3) ->
  s3.(world) = s2.(world) /\ is_ok r2 = false.
Proof.
  intros W read_snapshot scale restart env s0 s s2 h h2 id i now r s' i2 now2 r2 s3 H0 Hr H Hw Hr2 H2.
  pose proof (reach_inv read_snapshot scale restart env s0 h s H0 Hr) as Hi.
  pose proof (step_inv read_snapshot scale restart env h s _ s' Hi (step_execute _ _ _ _ _ _ _ _ _ _ H)) as Hi'.
  assert (finished id s'.(store)) as Hf.
  { apply execute_handler_outcome in H as [[[? _] _]|(_ & r0 & H & _)]; [done|].
    apply execute_outcome in H as [[[? _] _]|(ns & p & a & row & row' & j & H)]; [done| |apply Hi].
    destruct H as (_ & _ & _ & _ & _ & _ & _ & _ & Hc & _ & ->). apply claimed_finishes; [|done].
    unfold outcome_status. destruct (is_ok r0); set_solver. }
  destruct (reach_finished read_snapshot scale restart env id s' _ s2 Hi' Hf _ Hr2) as [Hf2 [Hnd2 _]].
  apply execute_handler_outcome in H2 as [[[? _] ?]|(_ & r0 & H2 & <-)]; [done|].
  apply execute_outcome in H2 as [[[? _] ?]|(ns & p & a & row & row' & j & H2)]; [done| |done].
  destruct H2 as (_ & _ & _ & _ & _ & _ & _ & _ & Hc & _). by rewrite finished_unclaimed in Hc.
Qed.

Lemma proposal_executed_once_witness : exists r2 s3,
  ex_execute 300 (ex_execute 200 ex_approved.2).2 = (r2, s3) /\ is_ok r2 = false.
Proof.
  destruct (ex_execute 200 ex_approved.2) as [r s'] eqn:E. cbn [snd].
  pose proof (ex_write r s' E) as Hw.
  destruct (ex_execute 300 s') as [r2 s3] eqn:E2. exists r2, s3. split; [reflexivity|].
  unfold ex_execute in E, E2.
  exact (proj2 (proposal_executed_once nat ex_read ex_scale ex_restart ex_env ex0 ex_approved.2 s' ex_history [] "p1"
    (ex_person "cy" "sre-executor") 200 r s' (ex_person "cy" "sre-executor") 300 r2 s3 eq_refl ex_reach E Hw
    (reach_here _ _ _ _ s') E2)).
Defined.

(** The scheduled inspection outlives every failure of a round: with a readable
    interval, which is never under thirty seconds, any number of its rounds runs
    to the end, each one counted once as a success or an error, and leaves every
    proposal as it was; only an unreadable interval ends it, before the first
    round. *)
Theorem inspection_survives (W : Type) (read_snapshot : string -> M W ClusterSnapshot) (env : environ) (rounds : nat) (s : service W) :
  match inspection_interval env with
  | Ok interval => 30 <= interval /\ exists s',
      scheduled_inspection read_snapshot env rounds s = (Ok (interval * Z.of_nat rounds), s') /\
      s'.(store).(proposals) = s.(store).(proposals) /\
      inspected (getenv "KUBERNETES_SRE_CLUSTER" "in-cluster" env) s' =
        inspected (getenv "KUBERNETES_SRE_CLUSTER" "in-cluster" env) s + Z.of_nat rounds
  | Err e => scheduled_inspection read_snapshot env rounds s = (Err e, s)
  end.
Proof.
  unfold scheduled_inspection. destruct (inspection_interval env) as [interval|e] eqn:E; [|done]. split.
  { unfold inspection_interval in E. destruct (env_int _ _ _); [|done]. injection E as <-. lia. }
  change (mbind_M (lift_M (Ok interval)) ?k) with (k interval). clear E.
  revert s. induction rounds as [|n IH]; intros s; [exists s; split_and!; [by rewrite Z.mul_0_r|done|cbn; lia]|].
  destruct (inspect_counted read_snapshot Analyzers.default_analyzers
    (getenv "KUBERNETES_SRE_CLUSTER" "in-cluster" env) s) as (r & s1 & E & Hc).
  assert (scheduled_round read_snapshot env s = (Ok tt, s1)) as Hr.
  { unfold scheduled_round, catch_all_M, mbind_M. rewrite E. by destruct r. }
  destruct (IH s1) as (s2 & H2 & Hp & Hi). exists s2. cbn [inspection_rounds]. rewrite (bind_ok _ _ _ _ _ Hr).
  rewrite (bind_ok _ _ _ _ _ H2). split_and!; [by rewrite Nat2Z.inj_succ, Z.mul_succ_r, Z.add_comm| |lia].
  rewrite Hp. by apply (frame_scheduled read_snapshot env) in Hr.
Qed.

End SRETheorems.
