(* ===== verification/SREConcurrency.v ===== *)
(** * Concurrent requests to the Kubernetes SRE agent

    The server of platforms/kubernetes_sre/api.py runs each request on a thread
    of its own; what the threads share is the one connection of store.py, which
    has no lock, and the cluster.  [Machine] splits the handlers of api.py and the
    methods of service.py at the statements they send to the connection and at the
    readings of its row count, which another thread's statement may have set
    since (a commit changes nothing of what the connection reads): a task is a
    request between two of these, a schedule says which task runs next and at what
    time.  [MachineFacts] has what every schedule keeps and
    what holds when each count is read by the request that caused it;
    [SREConcurrencyTheorems] the property, the two ways in which the row counts
    mislead the code, and that a handler called alone is one of the schedules. *)

From Stdlib Require Import String ZArith Lia.
From stdpp Require Import base list strings sets.
From S2P Require Import Prelude PyStr PyDict Json Security KubernetesSRE.

Module Machine.
Import Models Actions Store Service Api ServiceFacts.

Section machine.
Context {W : Type}.
Context (scale : string -> string -> Z -> string -> string -> M W string).
Context (restart : string -> string -> string -> string -> M W string).
Context (env : environ).

(** A request after its last access to the store or the cluster: before the
    first one ([Proposing], [Approving], [Executing], [Reporting]), between two,
    with what the handler holds in its variables, and after the last; [Signed]
    and [Claiming] have run their UPDATE and are to read its row count. *)
Inductive task :=
| Proposing (q : ProposalRequest) (i : Identity) (id now : string)
| Approving (id : string) (i : Identity) (text : string)
| Signing (a : Approval)
| Signed (a : Approval)
| Executing (id : string) (i : Identity)
| Loaded (id who : string) (p : ActionProposal)
| Ready (id who : string) (p : ActionProposal) (a : Approval)
| Claiming (id who : string) (p : ActionProposal) (a : Approval)
| Claimed (id who : string) (p : ActionProposal) (a : Approval)
| Closing (id : string) (ok : bool)
| Reporting (r : HealthReport)
| Ended (ok : bool).
Definition is_request (t : task) : bool :=
  match t with Proposing _ _ _ _ | Approving _ _ _ | Executing _ _ | Reporting _ => true | _ => false end.

(** What the tasks share, and a task with what it has added to the history. *)
Record shared := { table : sre_store; cluster : W }.
Definition on_table {A} (m : M sre_store A) (k : res A -> task * list event) (s : shared) : (task * list event) * shared :=
  let '(r, d) := m s.(table) in (k r, {| table := d; cluster := s.(cluster) |}).
Definition halt : task * list event := (Ended false, []).

(** One task runs up to its next access: the parts of the three handlers and of
    [save_report].  The history records a proposal when its row is inserted, an
    approval when its UPDATE changes the row, and [Executed] where the checks of
    [ChangeExecutor.execute] pass, which is where the writer may be called. *)
Definition advance (now : Z) (t : task) (s : shared) : (task * list event) * shared :=
  match t with
  | Proposing q i id at_ =>
      if negb (ProposalRequest_valid q && is_ok (require_role i "sre-proposer")) then (halt, s) else
      on_table (save_proposal (proposal_of q i.(subject) id at_))
        (fun r => (Ended (is_ok r), log r (Proposed id i.(subject)))) s
  | Approving id i text =>
      if negb (is_ok (require_role i "sre-approver")) then (halt, s) else
      on_table (get_proposal id)
        (fun r => match r with
                  | Ok p => if bool_decide (p.(requested_by) = i.(subject)) then halt
                            else (Signing (new_approval p.(proposal_id) (digest p) i.(subject) text now), [])
                  | Err _ => halt
                  end) s
  | Signing a =>
      let '(_, d) := approve_update a s.(table) in
      ((Signed a, if (d.(changes) =? 0)%nat then [] else [Approved a.(a_proposal_id) a.(approved_by) a.(expires_at)]),
       {| table := d; cluster := s.(cluster) |})
  | Signed a =>
      on_table (one_row "proposal is missing, changed, or already approved") (fun r => (Ended (is_ok r), [])) s
  | Executing id i =>
      if negb (is_ok (require_role i "sre-executor")) then (halt, s) else
      match managed_namespaces env with
      | None => (halt, s)
      | Some _ =>
          on_table (get_proposal id) (fun r => match r with Ok p => (Loaded id i.(subject) p, []) | Err _ => halt end) s
      end
  | Loaded id who p =>
      on_table (get_approval id) (fun r => match r with Ok a => (Ready id who p a, []) | Err _ => halt end) s
  | Ready id who p a =>
      on_table (claim_update id) (fun _ => (Claiming id who p a, [])) s
  | Claiming id who p a =>
      on_table (one_row "proposal is not approved or execution was already claimed")
        (fun r => match r with Ok _ => (Claimed id who p a, []) | Err _ => halt end) s
  | Claimed id who p a =>
      let ns := default [] (managed_namespaces env) in
      let '(r, w) := Actions.execute scale restart ns now p a who s.(cluster) in
      ((Closing id (is_ok r), log (checks ns now p a who) (Executed id who now)), {| table := s.(table); cluster := w |})
  | Closing id ok => on_table (finish_execution id ok) (fun _ => (Ended ok, [])) s
  | Reporting r => on_table (save_report r) (fun x => (Ended (is_ok x), [])) s
  | Ended ok => ((Ended ok, []), s)
  end.

(** The server: the shared state, the requests it has taken, in their order, and
    the history.  A turn takes a new request or runs one that is there. *)
Record server := { state : shared; tasks : list task; history : list event }.
Inductive turn := Arrive (t : task) | Resume (n : nat) (now : Z).
Definition take_turn (x : turn) (c : server) : server :=
  match x with
  | Arrive t =>
      {| state := c.(state); tasks := if is_request t then c.(tasks) ++ [t] else c.(tasks); history := c.(history) |}
  | Resume n now =>
      match c.(tasks) !! n with
      | None => c
      | Some t =>
          let '((t', e), s) := advance now t c.(state) in
          {| state := s; tasks := <[n := t']> c.(tasks); history := c.(history) ++ e |}
      end
  end.
Definition run_schedule (xs : list turn) (c : server) : server := fold_left (fun c x => take_turn x c) xs c.

(** Every row count is read by the request that caused it: while one is between
    its UPDATE and the reading, no other one takes a turn. *)
Definition waiting (t : task) : bool := match t with Signed _ | Claiming _ _ _ _ => true | _ => false end.
Definition others_idle (n : nat) (c : server) : Prop := forall k t, c.(tasks) !! k = Some t -> waiting t = true -> k = n.
Fixpoint own_counts (xs : list turn) (c : server) : Prop :=
  match xs with
  | [] => True
  | x :: xs' => match x with Arrive _ => True | Resume n _ => others_idle n c end /\ own_counts xs' (take_turn x c)
  end.

(** The parameters of a request are a dict: its keys are distinct. *)
Definition proper (x : turn) : Prop :=
  match x with Arrive (Proposing q _ _ _) => dwf q.(q_parameters) | _ => True end.
Definition new_server (w : W) : server :=
  {| state := {| table := empty_store; cluster := w |}; tasks := []; history := [] |}.
End machine.
Arguments shared : clear implicits.
Arguments server : clear implicits.

End Machine.

Module MachineFacts.
Import Models Actions Store Service Api StoreFacts ServiceFacts Machine.

(** *** Tokens: the right to carry a proposal out *)

(** A task that claimed a proposal, or is about to read that it did. *)
Definition claims (d : sre_store) (id : string) (t : task) : bool :=
  match t with
  | Claimed id' _ _ _ => bool_decide (id' = id)
  | Claiming id' _ _ _ => bool_decide (id' = id) && (d.(changes) =? 1)%nat
  | _ => false
  end.
Definition executes (id : string) (e : event) : bool :=
  match e with Executed id' _ _ => bool_decide (id' = id) | _ => false end.
Definition count {A} (f : A -> bool) (l : list A) : nat := length (List.filter f l).

Lemma count_app {A} (f : A -> bool) l l' : count f (l ++ l') = (count f l + count f l')%nat.
Proof. unfold count. by rewrite List.filter_app, length_app. Qed.
(** A change of one element, where the others count alike before and after. *)
Lemma count_insert {A} (f g : A -> bool) l n x y : l !! n = Some x ->
  (forall k z, k <> n -> l !! k = Some z -> g z = f z) ->
  (count g (<[n := y]> l) + Nat.b2n (f x) = count f l + Nat.b2n (g y))%nat.
Proof.
  revert n. unfold count. induction l as [|z l IH]; intros [|n]; cbn; [done..| |].
  - intros [= ->] H. rewrite (List.filter_ext_in g f l); [destruct (f x), (g y); cbn; lia|].
    intros z [k Hk]%list_elem_of_In%list_elem_of_lookup_1. by apply (H (S k)).
  - intros Hn H. specialize (IH n Hn (fun k z Hk => H (S k) z ltac:(congruence))). unfold insert in *.
    rewrite (H 0%nat z); [|done..]. destruct (f z); cbn; lia.
Qed.

(** A proposal whose execution was claimed. *)
Definition claimed_states : list string := ["executing"; "executed"; "failed"].
Definition started (id : string) (d : sre_store) : Prop :=
  exists r, r ∈ d.(proposals) /\ r.(row_id) = id /\ r.(status) ∈ claimed_states.
Lemma started_update id d f g : started id d ->
  (forall r, r.(status) ∈ claimed_states -> f r = true -> (g r).(row_id) = r.(row_id) /\ (g r).(status) ∈ claimed_states) ->
  started id (update_where f g d).
Proof.
  intros (r & Hr & Hid & Hs) H. exists (if f r then g r else r). split; [apply elem_update; eauto|].
  destruct (f r) eqn:E; [|done]. destruct (H r Hs E) as [-> Hs']. done.
Qed.
Lemma started_unclaimed id d g : NoDup (ids d) -> started id d -> (update_where (with_status id "approved") g d).(changes) = 0%nat.
Proof.
  intros Hnd (r & Hr & Hid & Hs). unfold update_where. cbn. apply length_zero_iff_nil, filter_bool_nil.
  intros r' Hr'. destruct (with_status id "approved" r') eqn:E; [|done]. unfold with_status in E. bprop.
  assert (r' = r) as -> by (apply (NoDup_map_inj row_id d.(proposals)); [done..|congruence]).
  match goal with Ha : status r = "approved" |- _ => rewrite Ha in Hs end. unfold claimed_states in Hs. set_solver.
Qed.
Lemma claim_starts id d : (update_where (with_status id "approved") (set_status "executing") d).(changes) = 1%nat ->
  started id (update_where (with_status id "approved") (set_status "executing") d).
Proof.
  unfold update_where at 1. cbn. intros Hc.
  destruct (List.filter (with_status id "approved") d.(proposals)) as [|r l] eqn:E; [done|].
  assert (r ∈ List.filter (with_status id "approved") d.(proposals)) as Hr by (rewrite E; by left).
  apply elem_of_filter_bool in Hr as [Hw Hr]. exists (set_status "executing" r).
  split; [apply elem_update; exists r; by rewrite Hw|]. unfold with_status in Hw. bprop. split; [done|by left].
Qed.

(** *** What a task knows, and what an event of the history vouches for *)

Definition known (h : list event) (id : string) (p : ActionProposal) : Prop :=
  exists q, plain q /\ p = stored q /\ q.(proposal_id) = id /\ Proposed id q.(requested_by) ∈ h.
Definition task_inv (h : list event) (t : task) : Prop :=
  match t with
  | Proposing q _ _ _ => dwf q.(q_parameters)
  | Loaded id _ p => known h id p
  | Ready id _ p a | Claiming id _ p a | Claimed id _ p a => known h id p /\ Approved id a.(approved_by) a.(expires_at) ∈ h
  | _ => True
  end.
Lemma known_more h e id p : known h id p -> known (h ++ e) id p.
Proof. intros (q & ? & ? & ? & ?). exists q. do 3 (split; [done|]). apply elem_of_app. by left. Qed.
Lemma task_inv_more h e t : task_inv h t -> task_inv (h ++ e) t.
Proof.
  assert (forall id p a, known h id p /\ Approved id a.(approved_by) a.(expires_at) ∈ h ->
    known (h ++ e) id p /\ Approved id a.(approved_by) a.(expires_at) ∈ h ++ e) as Ha
    by (intros id p a [? ?]; split; [by apply known_more|apply elem_of_app; by left]).
  destruct t; cbn; try done; [apply known_more|apply Ha..].
Qed.

(** Three people: the change was proposed by one, approved by a second one, and
    carried out by a third one before the approval expired. *)
Definition vouched (h : list event) (id who : string) (at_ : Z) : Prop :=
  exists proposer approver until, Proposed id proposer ∈ h /\ Approved id approver until ∈ h /\ at_ < until /\
    proposer <> approver /\ who <> proposer /\ who <> approver.
Inductive lawful : list event -> Prop :=
| lawful_nil : lawful []
| lawful_snoc h e : lawful h -> (forall id who at_, e = Executed id who at_ -> vouched h id who at_) -> lawful (h ++ [e]).
Lemma lawful_split h id who at_ h2 : lawful (h ++ Executed id who at_ :: h2) -> vouched h id who at_.
Proof.
  revert h. induction h2 as [|e h2 IH] using rev_ind; intros h; inversion 1 as [Hn|h' e' Hl Hv Hn].
  - by destruct h.
  - apply app_inj_tail in Hn as [-> ->]. by apply Hv.
  - by destruct h.
  - rewrite app_comm_cons, app_assoc in Hn. apply app_inj_tail in Hn as [-> ->]. by apply IH.
Qed.

(** The owner of a claim that is not finished. *)
Definition holds (d : sre_store) (id : string) (t : task) : Prop :=
  match t with
  | Claimed id' _ _ _ | Closing id' _ => id' = id
  | Claiming id' _ _ _ => id' = id /\ d.(changes) = 1%nat
  | _ => False
  end.

(** *** One turn of a task *)

Section facts.
Context {W : Type}.
Context (scale : string -> string -> Z -> string -> string -> M W string).
Context (restart : string -> string -> string -> string -> M W string).
Context (env : environ).
Abbreviation advance := (advance scale restart env).

(** The clauses of one turn: the table and the tasks stay in line with the
    history; the right to execute moves, or is taken where it was never given;
    a claimed row has an owner. *)
Record turn_spec (h : list event) (t : task) (s : shared W) (t' : task) (e : list event) (s' : shared W) : Prop := {
  ts_table : inv (h ++ e) s'.(table);
  ts_task : task_inv (h ++ e) t';
  ts_event : e = [] \/ exists x, e = [x] /\ forall id who at_, x = Executed id who at_ -> vouched h id who at_;
  ts_token : forall id, (Nat.b2n (claims s'.(table) id t') + count (executes id) e <= Nat.b2n (claims s.(table) id t))%nat \/
    (claims s'.(table) id t' = true /\ e = [] /\ ~ started id s.(table) /\ started id s'.(table));
  ts_started : forall id, started id s.(table) -> started id s'.(table);
  ts_owned : forall r, r ∈ s'.(table).(proposals) -> r.(status) = "executing" ->
    holds s'.(table) r.(row_id) t' \/
    ((exists r0, r0 ∈ s.(table).(proposals) /\ r0.(row_id) = r.(row_id) /\ r0.(status) = "executing") /\
     ~ holds s.(table) r.(row_id) t);
  ts_cluster : s'.(cluster) <> s.(cluster) -> exists id who at_, e = [Executed id who at_];
}.

(** A turn that changes no row, of a task that owns nothing. *)
Lemma turn_idle h t s t' s' : inv h s.(table) -> task_inv h t' -> (forall id, claims s'.(table) id t' = false) ->
  (forall id, ~ holds s.(table) id t) -> s'.(table).(proposals) = s.(table).(proposals) -> s'.(cluster) = s.(cluster) ->
  turn_spec h t s t' [] s'.
Proof.
  intros Hi Ht Hc Ho Hp Hw. split; rewrite ?app_nil_r; auto.
  - by apply (inv_rows h s.(table)).
  - intros id. left. rewrite Hc. cbn. lia.
  - intros id (r & Hr). exists r. by rewrite Hp.
  - intros r Hr Hs. right. rewrite Hp in Hr. split; [by exists r|apply Ho].
  - done.
Qed.
Lemma turn_halt h t s s' : inv h s.(table) -> (forall id, ~ holds s.(table) id t) ->
  s'.(table).(proposals) = s.(table).(proposals) -> s'.(cluster) = s.(cluster) -> turn_spec h t s (Ended false) [] s'.
Proof. intros. by apply turn_idle. Qed.

Lemma turn_proposing h now q i id at_ s t' e s' : inv h s.(table) -> dwf q.(q_parameters) ->
  advance now (Proposing q i id at_) s = ((t', e), s') -> turn_spec h (Proposing q i id at_) s t' e s'.
Proof.
  intros Hi Hw H. cbn [Machine.advance] in H. destruct (ProposalRequest_valid q) eqn:Ev; cbn [andb negb] in H;
    [|by injection H as <- <- <-; apply turn_halt; [|tauto|..]].
  destruct (is_ok _); cbn [negb] in H; [|by injection H as <- <- <-; apply turn_halt; [|tauto|..]].
  unfold on_table in H. destruct (save_proposal _ (table s)) as [r d] eqn:E. apply save_proposal_outcome in E.
  apply pair_equal_spec in H as [[<- <-]%pair_equal_spec <-]. destruct r as [u|e]; cbn [is_ok] in E |- *.
  - destruct E as (_ & Hid & Hp). split; cbn [table cluster].
    + destruct Hi as [H1 H2]. split.
      * unfold ids in *. rewrite Hp, map_app. by apply NoDup_snoc.
      * intros r'. rewrite Hp. intros [Hr| ->%list_elem_of_singleton]%elem_of_app; [by apply row_inv_more, H2|by apply record_inv].
    + done.
    + right. eexists. by split.
    + intros id'. left. cbn. lia.
    + intros id' (r & Hr & Hr'). exists r. rewrite Hp. split; [apply elem_of_app; by left|done].
    + intros r. rewrite Hp. intros [Hr| ->%list_elem_of_singleton]%elem_of_app Hs; [|done]. right. split; [by exists r|tauto].
    + done.
  - by apply turn_halt; [|tauto|..].
Qed.

Lemma turn_signing h now a s t' e s' : inv h s.(table) ->
  advance now (Signing a) s = ((t', e), s') -> turn_spec h (Signing a) s t' e s'.
Proof.
  intros Hi H. cbn [Machine.advance] in H. unfold approve_update, modify_M in H.
  apply pair_equal_spec in H as [[<- <-]%pair_equal_spec <-]. set (d := update_where _ _ _).
  destruct (d.(changes) =? 0)%nat eqn:Ec.
  { apply Nat.eqb_eq in Ec. apply turn_idle; [done..|tauto|by apply update_none|done]. }
  split; cbn [table cluster].
  - by apply inv_signed.
  - done.
  - right. eexists. by split.
  - intros id. left. cbn. lia.
  - intros id Hs. apply started_update; [done|]. intros r Hr Hr'. unfold approvable in Hr'. bprop.
    match goal with Ha : status r = "proposed" |- _ => rewrite Ha in Hr end. unfold claimed_states in Hr. set_solver.
  - intros r' (r & Hr & ->)%elem_update Hs. destruct (approvable a r); [done|]. right. split; [by exists r|tauto].
  - done.
Qed.

Lemma read_known h id d p : inv h d -> (get_proposal id d).1 = Ok p -> known h id p.
Proof.
  intros Hi Hg. destruct (get_proposal id d) as [r d'] eqn:E. cbn in Hg. subst r.
  apply get_proposal_ok in E as (_ & row & Hin & Hid & Hp).
  destruct (row_inv_read h row p (proj2 Hi row Hin) Hp) as (q & Q1 & Q2 & Q3 & Q4). exists q.
  rewrite <- Hid, Q3. done.
Qed.
Lemma read_approved h id d a : inv h d -> (get_approval id d).1 = Ok a -> Approved id a.(approved_by) a.(expires_at) ∈ h.
Proof.
  intros Hi Hg. destruct (get_approval id d) as [r d'] eqn:E. cbn in Hg. subst r.
  apply get_approval_ok in E as (_ & row & j & Hin & Hid & Hj & Ha).
  destruct (proj2 Hi row Hin) as (q & _ & Q2 & _ & _ & _ & Q6). destruct (Q6 j Hj) as (a' & -> & _ & _ & Q7).
  rewrite read_approval_json in Ha. injection Ha as ->. by rewrite <- Hid, Q2.
Qed.
(** A turn that reads the table. *)
Lemma turn_read {A} h t s (m : M sre_store A) k t' e s' : (forall d, (m d).2 = d) -> inv h s.(table) ->
  (forall id, ~ holds s.(table) id t) -> on_table m k s = ((t', e), s') ->
  (forall r, r = (m s.(table)).1 -> (k r).2 = [] /\ task_inv h (k r).1 /\ forall d id, claims d id (k r).1 = false) ->
  turn_spec h t s t' e s'.
Proof.
  intros Hm Hi Ho H Hk. unfold on_table in H. specialize (Hm s.(table)). destruct (m (table s)) as [r d]. cbn in Hm, Hk. subst d.
  destruct (Hk r eq_refl) as (He & Ht & Hc). apply pair_equal_spec in H as [Hkr <-]. rewrite Hkr in *. cbn in *. subst e.
  destruct s. by apply turn_idle.
Qed.
Lemma one_row_state msg d : (one_row msg d).2 = d.
Proof. unfold one_row, mbind_M, get_M. by destruct (negb _). Qed.
Lemma turn_signed h now a s t' e s' : inv h s.(table) ->
  advance now (Signed a) s = ((t', e), s') -> turn_spec h (Signed a) s t' e s'.
Proof.
  intros Hi H. cbn [Machine.advance] in H. eapply turn_read in H; [exact H|apply one_row_state|done|tauto|]. done.
Qed.

Lemma turn_approving h now id i text s t' e s' : inv h s.(table) ->
  advance now (Approving id i text) s = ((t', e), s') -> turn_spec h (Approving id i text) s t' e s'.
Proof.
  intros Hi H. cbn [Machine.advance] in H. destruct (is_ok _); cbn [negb] in H; [|by injection H as <- <- <-; apply turn_halt; [|tauto|..]].
  eapply turn_read in H; [exact H|apply get_proposal_state|done|tauto|]. intros [p|e'] _; [|done]. by destruct (bool_decide _).
Qed.
Lemma turn_executing h now id i s t' e s' : inv h s.(table) ->
  advance now (Executing id i) s = ((t', e), s') -> turn_spec h (Executing id i) s t' e s'.
Proof.
  intros Hi H. cbn [Machine.advance] in H. destruct (is_ok _); cbn [negb] in H; [|by injection H as <- <- <-; apply turn_halt; [|tauto|..]].
  destruct (managed_namespaces env); [|by injection H as <- <- <-; apply turn_halt; [|tauto|..]].
  eapply turn_read in H; [exact H|apply get_proposal_state|done|tauto|]. intros [p|e'] Hr; [|done].
  split; [done|]. split; [|done]. cbn. by eapply read_known.
Qed.
Lemma turn_loaded h now id who p s t' e s' : inv h s.(table) -> known h id p ->
  advance now (Loaded id who p) s = ((t', e), s') -> turn_spec h (Loaded id who p) s t' e s'.
Proof.
  intros Hi Hp H. cbn [Machine.advance] in H.
  eapply turn_read in H; [exact H|apply get_approval_state|done|tauto|]. intros [a|e'] Hr; [|done].
  split; [done|]. split; [|done]. cbn. split; [done|]. by eapply read_approved.
Qed.

(** The claim: its UPDATE changes the row of a proposal that was never claimed. *)
Lemma turn_ready h now id who p a s t' e s' : inv h s.(table) -> task_inv h (Ready id who p a) ->
  advance now (Ready id who p a) s = ((t', e), s') -> turn_spec h (Ready id who p a) s t' e s'.
Proof.
  intros Hi Ht H. cbn [Machine.advance] in H. unfold on_table, claim_update, modify_M in H.
  apply pair_equal_spec in H as [[<- <-]%pair_equal_spec <-]. set (d := update_where _ _ _).
  split; cbn [table cluster]; rewrite ?app_nil_r.
  - by apply inv_status.
  - exact Ht.
  - by left.
  - intros id'. cbn [claims]. destruct (bool_decide (id = id')) eqn:Eb; [|left; cbn; lia]. bprop. subst id'. cbn [andb].
    destruct (d.(changes) =? 1)%nat eqn:Ec; [|left; cbn; lia]. apply Nat.eqb_eq in Ec. right.
    split; [done|]. split; [done|]. split; [|by apply claim_starts]. intros Hs.
    unfold d in Ec. rewrite (started_unclaimed id _ (set_status "executing")) in Ec; [done|apply Hi|done].
  - intros id' Hs. apply started_update; [done|]. intros r Hr _. split; [done|by left].
  - intros r' (r & Hr & ->)%elem_update Hs. destruct (with_status id "approved" r) eqn:Ew.
    + left. assert (d.(changes) <= 1)%nat as Hc by (apply count_at_most_one, Hi).
      assert (d.(changes) <> 0%nat) as Hn.
      { intros Hn. apply length_zero_iff_nil in Hn. rewrite filter_bool_nil in Hn. specialize (Hn r Hr). congruence. }
      unfold with_status in Ew. bprop. split; [cbn; congruence|lia].
    + right. split; [by exists r|tauto].
  - done.
Qed.
(** Its count: it is granted where the last statement changed one row. *)
Lemma turn_claiming h now id who p a s t' e s' : inv h s.(table) -> task_inv h (Claiming id who p a) ->
  advance now (Claiming id who p a) s = ((t', e), s') -> turn_spec h (Claiming id who p a) s t' e s'.
Proof.
  intros Hi Ht H. cbn [Machine.advance] in H. unfold on_table, one_row, mbind_M, get_M in H.
  destruct (changes (table s) =? 1)%nat eqn:Ec; cbn [negb] in H; apply pair_equal_spec in H as [[<- <-]%pair_equal_spec <-].
  - split; cbn [table cluster]; rewrite ?app_nil_r; try done; [by left|intros id'; left; cbn; rewrite Ec, andb_true_r; lia|].
    intros r Hr Hs. destruct (decide (id = r.(row_id))) as [Hd|Hd]; [by left|]. right. split; [by exists r|by intros [? _]].
  - destruct s. apply turn_halt; [done| |done|done]. cbn. intros id' [_ Hc]. cbn in Ec. by rewrite Hc in Ec.
Qed.

(** The call: what passed the checks was vouched for. *)
Lemma checks_vouch h now ns id who p a : task_inv h (Ready id who p a) -> checks ns now p a who = Ok tt -> vouched h id who now.
Proof.
  intros [(q & _ & -> & <- & Hp) Ha] (_ & _ & _ & _ & H1 & H2 & H3 & H4)%checks_ok.
  exists (requested_by q), (approved_by a), (expires_at a). cbn in *. done.
Qed.
Lemma turn_claimed h now id who p a s t' e s' : inv h s.(table) -> task_inv h (Claimed id who p a) ->
  advance now (Claimed id who p a) s = ((t', e), s') -> turn_spec h (Claimed id who p a) s t' e s'.
Proof.
  intros Hi Ht H. cbn [Machine.advance] in H. set (ns := default [] (managed_namespaces env)) in H.
  destruct (Actions.execute scale restart ns now p a who (cluster s)) as [r w] eqn:E.
  apply pair_equal_spec in H as [[<- <-]%pair_equal_spec <-]. unfold log.
  destruct (checks ns now p a who) as [[]|e'] eqn:Ec; cbn [is_ok]; split; cbn [table cluster]; rewrite ?app_nil_r; try done.
  - by apply inv_more.
  - right. eexists. split; [done|]. intros id' who' at_ [= <- <- <-]. by eapply checks_vouch.
  - intros id'. left. cbn. destruct (bool_decide _); cbn; lia.
  - intros r' Hr Hs. destruct (decide (id = r'.(row_id))) as [Hd|Hd]; [by left|]. right. split; [by exists r'|done].
  - intros _. by eexists _, _, _.
  - by left.
  - intros id'. left. cbn. lia.
  - intros r' Hr Hs. destruct (decide (id = r'.(row_id))) as [Hd|Hd]; [by left|]. right. split; [by exists r'|done].
  - intros Hw. by rewrite (execute_world _ _ _ _ _ _ _ _ _ _ E Hw) in Ec.
Qed.

Lemma turn_closing h now id ok s t' e s' : inv h s.(table) ->
  advance now (Closing id ok) s = ((t', e), s') -> turn_spec h (Closing id ok) s t' e s'.
Proof.
  intros Hi H. cbn [Machine.advance] in H. apply pair_equal_spec in H as [[<- <-]%pair_equal_spec <-].
  split; cbn [table cluster]; rewrite ?app_nil_r; try done.
  - by apply inv_status.
  - by left.
  - intros id'. left. cbn. lia.
  - intros id' Hs. apply started_update; [done|]. intros r _ _. split; [done|]. destruct ok; cbn; unfold claimed_states; set_solver.
  - intros r' (r & Hr & ->)%elem_update Hs. right. destruct (with_status id "executing" r) eqn:Ew; [by destruct ok|].
    split; [by exists r|]. cbn. intros ->. unfold with_status in Ew. rewrite Hs, !bool_decide_true in Ew; done.
Qed.
Lemma turn_reporting h now r s t' e s' : inv h s.(table) ->
  advance now (Reporting r) s = ((t', e), s') -> turn_spec h (Reporting r) s t' e s'.
Proof.
  intros Hi H. cbn [Machine.advance] in H. apply pair_equal_spec in H as [[<- <-]%pair_equal_spec <-].
  split; cbn [table cluster]; rewrite ?app_nil_r; try done.
  - by left.
  - intros id. left. cbn. lia.
  - intros r' Hr Hs. right. split; [by exists r'|tauto].
Qed.

Lemma advance_spec h now t s t' e s' : inv h s.(table) -> task_inv h t ->
  advance now t s = ((t', e), s') -> turn_spec h t s t' e s'.
Proof.
  intros Hi Ht H. destruct t.
  - by eapply turn_proposing.
  - by eapply turn_approving.
  - by eapply turn_signing.
  - by eapply turn_signed.
  - by eapply turn_executing.
  - by eapply turn_loaded.
  - by eapply turn_ready.
  - by eapply turn_claiming.
  - by eapply turn_claimed.
  - by eapply turn_closing.
  - by eapply turn_reporting.
  - injection H as <- <- <-. apply turn_idle; [done..|tauto|done|done].
Qed.

(** *** The invariants of the server *)

Definition rights (id : string) (c : server W) : nat :=
  (count (claims c.(state).(table) id) c.(tasks) + count (executes id) c.(history))%nat.
(** What every schedule keeps. *)
Record server_inv (c : server W) : Prop := {
  si_table : inv c.(history) c.(state).(table);
  si_tasks : forall t, t ∈ c.(tasks) -> task_inv c.(history) t;
  si_lawful : lawful c.(history);
}.
(** What holds while each request reads the count of its own statement: a
    proposal has one right to be carried out, and a claimed one an owner. *)
Record claim_inv (c : server W) : Prop := {
  ci_tokens : forall id, (rights id c <= 1)%nat /\ (rights id c = 1%nat -> started id c.(state).(table));
  ci_owned : forall r, r ∈ c.(state).(table).(proposals) -> r.(status) = "executing" ->
    exists t, t ∈ c.(tasks) /\ holds c.(state).(table) r.(row_id) t;
}.
Abbreviation take_turn := (take_turn scale restart env).
Abbreviation run_schedule := (run_schedule scale restart env).

Lemma new_server_inv w : server_inv (new_server w).
Proof.
  split; cbn; [|intros t Ht; by apply elem_of_nil in Ht|constructor].
  split; [constructor|]. intros r Hr. by apply elem_of_nil in Hr.
Qed.
Lemma new_claim_inv w : claim_inv (new_server w).
Proof. split; cbn; [intros id; unfold rights; cbn; split; [lia|done]|intros r Hr; by apply elem_of_nil in Hr]. Qed.

Lemma arrive_inv t c : proper (Arrive t) -> server_inv c -> server_inv (take_turn (Arrive t) c).
Proof.
  intros Hp [H1 H2 H3]. unfold Machine.take_turn. destruct (is_request t) eqn:Er; [|by destruct c].
  split; cbn [state tasks history]; try done.
  intros t0 [Ht| ->%list_elem_of_singleton]%elem_of_app; [by apply H2|]. by destruct t.
Qed.
Lemma arrive_claims t c : claim_inv c -> claim_inv (take_turn (Arrive t) c).
Proof.
  intros [H3 H5]. unfold Machine.take_turn. destruct (is_request t) eqn:Er; [|by destruct c].
  assert (forall d id, claims d id t = false) as Hc by (by destruct t). split; cbn [state tasks history].
  - intros id. unfold rights in *. cbn [tasks history state]. rewrite count_app. unfold count at 2. cbn. rewrite Hc. cbn.
    rewrite Nat.add_0_r. apply H3.
  - intros r Hr Hs. destruct (H5 r Hr Hs) as (t0 & Ht & Hh). exists t0. split; [apply elem_of_app; by left|done].
Qed.

(** A turn of a task, in its server. *)
Lemma resume_cases n now c : server_inv c -> take_turn (Resume n now) c = c \/ exists t t' e s',
  c.(tasks) !! n = Some t /\ turn_spec c.(history) t c.(state) t' e s' /\
  take_turn (Resume n now) c = {| state := s'; tasks := <[n := t']> c.(tasks); history := c.(history) ++ e |}.
Proof.
  intros [H1 H2 _]. unfold Machine.take_turn. destruct (tasks c !! n) as [t|] eqn:En; [right|by left].
  destruct (advance now t (state c)) as [[t' e] s'] eqn:E. exists t, t', e, s'. split; [done|]. split; [|done].
  eapply advance_spec; [done|apply H2; by eapply list_elem_of_lookup_2|done].
Qed.
Lemma resume_inv n now c : server_inv c -> server_inv (take_turn (Resume n now) c).
Proof.
  intros Hc. destruct (resume_cases n now c Hc) as [-> |(t & t' & e & s' & En & Ht & ->)]; [done|]. destruct Hc as [H1 H2 H4].
  split; cbn [state tasks history].
  - apply Ht.
  - intros t0 [k Hk]%list_elem_of_lookup_1. apply list_lookup_insert_Some in Hk as [(-> & -> & _)|[_ Hk]]; [apply Ht|].
    apply task_inv_more, H2. by eapply list_elem_of_lookup_2.
  - destruct (ts_event _ _ _ _ _ _ Ht) as [-> |(x & -> & Hx)]; [by rewrite app_nil_r|by constructor].
Qed.

(** The right to carry a proposal out is given once. *)
Lemma resume_tokens id n t s t' e s' l h : turn_spec h t s t' e s' -> l !! n = Some t ->
  (forall k x, k <> n -> l !! k = Some x -> claims s'.(table) id x = claims s.(table) id x) ->
  (forall k, k = (count (claims s.(table) id) l + count (executes id) h)%nat -> (k <= 1)%nat /\ (k = 1%nat -> started id s.(table))) ->
  let k' := (count (claims s'.(table) id) (<[n := t']> l) + count (executes id) (h ++ e))%nat in
  (k' <= 1)%nat /\ (k' = 1%nat -> started id s'.(table)).
Proof.
  intros Ht Hn Ho Hk. destruct (Hk _ eq_refl) as [Hk1 Hk2]. cbn. rewrite count_app.
  pose proof (count_insert _ _ l n t t' Hn Ho) as Hc.
  destruct (ts_token _ _ _ _ _ _ Ht id) as [Hle|(Hc' & -> & Hns & Hs)].
  - split; [lia|]. intros He. apply (ts_started _ _ _ _ _ _ Ht), Hk2. lia.
  - split; [|done]. assert ((count (claims (table s) id) l + count (executes id) h)%nat <> 1%nat) by (intros ?%Hk2; done).
    rewrite Hc' in Hc. cbn in *. lia.
Qed.
Lemma idle_claims d d' id t : waiting t = false -> claims d' id t = claims d id t.
Proof. by destruct t. Qed.
Lemma idle_holds d d' id t : waiting t = false -> holds d id t -> holds d' id t.
Proof. by destruct t. Qed.
Lemma resume_claims n now c : server_inv c -> others_idle n c -> claim_inv c -> claim_inv (take_turn (Resume n now) c).
Proof.
  intros Hc Ho [H3 H5]. destruct (resume_cases n now c Hc) as [-> |(t & t' & e & s' & En & Ht & ->)]; [done|].
  assert (forall k x, k <> n -> tasks c !! k = Some x -> waiting x = false) as Hidle
    by (intros k x Hk Hx; apply not_true_iff_false; by intros ?%(Ho k x Hx)).
  split; cbn [state tasks history].
  - intros id. apply (resume_tokens id n t _ t' e s' (tasks c) (history c) Ht En); [|intros k ->; apply H3].
    intros k x Hk Hx. by apply idle_claims, (Hidle k).
  - intros r Hr Hs. assert (n < length (tasks c))%nat as Hlen by (by eapply lookup_lt_Some).
    destruct (ts_owned _ _ _ _ _ _ Ht r Hr Hs) as [Hh|((r0 & Hr0 & Hid & Hs0) & Hno)].
    + exists t'. split; [|done]. eapply list_elem_of_lookup_2. by apply list_lookup_insert_eq.
    + destruct (H5 r0 Hr0 Hs0) as (t0 & [k Hk]%list_elem_of_lookup_1 & Hh). rewrite Hid in Hh.
      assert (k <> n) as Hkn by (intros ->; rewrite En in Hk; by injection Hk as ->).
      exists t0. split; [|by eapply idle_holds; [apply (Hidle k)|]].
      apply (list_elem_of_lookup_2 _ k). by rewrite list_lookup_insert_ne.
Qed.
Lemma schedule_inv xs c : Forall proper xs -> server_inv c -> server_inv (run_schedule xs c).
Proof.
  apply schedule_invariant. intros [t|n now] c' Hp; [by apply arrive_inv|by apply resume_inv].
Qed.
Lemma schedule_claims xs c : Forall proper xs -> server_inv c -> own_counts scale restart env xs c -> claim_inv c ->
  claim_inv (run_schedule xs c).
Proof.
  intros Hp. revert c. induction Hp as [|x xs Hx _ IH]; intros c Hc Ho Hi; [done|]. destruct Ho as [Ho Hos].
  destruct x as [t|n now]; (apply IH; [|done|]); [by apply arrive_inv|by apply arrive_claims|by apply resume_inv|by apply resume_claims].
Qed.

Lemma executes_once id who at_ h1 h2 who' at' :
  (count (executes id) (h1 ++ Executed id who at_ :: h2) <= 1)%nat -> Executed id who' at' ∉ h1 ++ h2.
Proof.
  rewrite count_app. unfold count. cbn. rewrite bool_decide_true by done. cbn. intros Hc Hin.
  assert (forall l, Executed id who' at' ∈ l -> (1 <= length (List.filter (executes id) l))%nat) as Hl.
  { intros l Hl. destruct (List.filter (executes id) l) eqn:E; [|cbn; lia]. rewrite filter_bool_nil in E.
    specialize (E _ Hl). cbn in E. by rewrite bool_decide_true in E. }
  apply elem_of_app in Hin as [H|H]; apply Hl in H; lia.
Qed.

(** *** A request on its own *)

(** The turns of one task, with nothing in between. *)
Fixpoint turns (nows : list Z) (t : task) (s : shared W) : (task * list event) * shared W :=
  match nows with
  | [] => ((t, []), s)
  | now :: nows =>
      let '((t1, e1), s1) := advance now t s in
      let '((t2, e2), s2) := turns nows t1 s1 in ((t2, e1 ++ e2), s2)
  end.
Lemma turns_run nows l t s h : let '((t', e), s') := turns nows t s in
  run_schedule (map (Resume (length l)) nows) {| state := s; tasks := l ++ [t]; history := h |} =
    {| state := s'; tasks := l ++ [t']; history := h ++ e |}.
Proof.
  revert t s h. induction nows as [|now nows IH]; intros t s h; cbn [turns map]; [by rewrite app_nil_r|].
  destruct (advance now t s) as [[t1 e1] s1] eqn:E1. specialize (IH t1 s1 (h ++ e1)).
  destruct (turns nows t1 s1) as [[t2 e2] s2] eqn:E2. rewrite app_assoc, <- IH.
  unfold Machine.run_schedule at 1. cbn [fold_left]. unfold Machine.take_turn at 2. cbn [state tasks history].
  rewrite list_lookup_middle by done. rewrite E1. by rewrite insert_app_r_alt, Nat.sub_diag by done.
Qed.
Lemma turns_ended nows ok s : turns nows (Ended ok) s = ((Ended ok, []), s).
Proof. induction nows as [|now nows IH]; [done|]. cbn [turns Machine.advance]. by rewrite IH. Qed.

Definition shared_of (s : service W) : shared W := {| table := s.(store); cluster := s.(world) |}.
(** The outcome of a handler as that of a task. *)
Definition ends_as {A} (x : (task * list event) * shared W) (r : res A) (s' : service W) : Prop :=
  exists e, x = ((Ended (is_ok r), e), shared_of s').

Lemma propose_alone q i id at_ now (s : service W) r s' : propose_handler q i id at_ s = (r, s') ->
  ends_as (turns [now] (Proposing q i id at_) (shared_of s)) r s'.
Proof.
  unfold ends_as, propose_handler. cbn [turns Machine.advance]. destruct (ProposalRequest_valid q); cbn [negb andb]; [|by intros [= <- <-]; eexists].
  unfold mbind_M at 1, lift_M. destruct (require_role i "sre-proposer"); cbn [is_ok negb]; [|by intros [= <- <-]; eexists].
  unfold propose, on_table, mbind_M, on_store, zoom_M. cbn [shared_of table cluster]. generalize (proposal_of q (subject i) id at_). intros p H.
  destruct (save_proposal p (store s)) as [[u|e] d]; apply pair_equal_spec in H as [<- <-]; by eexists.
Qed.
Lemma approve_alone id i text now n2 n3 (s : service W) r s' : approve_handler id i text now s = (r, s') ->
  ends_as (turns [now; n2; n3] (Approving id i text) (shared_of s)) r s'.
Proof.
  unfold ends_as, approve_handler. unfold mbind_M at 1, lift_M. cbn [turns Machine.advance].
  destruct (require_role i "sre-approver") as [u|e]; cbn [is_ok negb]; [|by intros [= <- <-]; eexists].
  intros H. unfold mbind_M in H. destruct (catch_M _ _ _ s) as [r1 s1] eqn:E. apply catch_store in E as (r0 & E & Eo & _).
  assert (s' = s1 /\ is_ok r = is_ok r1) as [-> ->] by (destruct r1; apply pair_equal_spec in H as [<- <-]; done).
  rewrite <- Eo. clear H Eo r1 r. unfold approve in E. unfold mbind_M in E at 1. rewrite on_store_read in E by apply get_proposal_state.
  unfold on_table. cbn [shared_of table cluster]. pose proof (get_proposal_state id (store s)) as Hs.
  destruct (get_proposal id (store s)) as [[p|e] d]; cbn [fst snd] in E, Hs; subst d;
    [|by apply pair_equal_spec in E as [<- <-]; eexists].
  destruct (bool_decide _); [by apply pair_equal_spec in E as [<- <-]; eexists|]. cbn [Machine.advance].
  generalize dependent (new_approval p.(proposal_id) (digest p) (subject i) text now). intros a E.
  unfold on_table, mbind_M, on_store, zoom_M, Store.approve, mbind_M in *. cbn [table cluster].
  destruct (approve_update a (store s)) as [u' d] eqn:Eu. assert (u' = Ok tt) as -> by (by injection Eu as <- _).
  cbn [Machine.advance table]. unfold on_table. cbn [table cluster].
  destruct (one_row _ d) as [[u''|e] d']; apply pair_equal_spec in E as [<- <-]; by eexists.
Qed.
Lemma execute_alone id i n1 n2 n3 n4 now n6 (s : service W) r s' : execute_handler scale restart env id i now s = (r, s') ->
  ends_as (turns [n1; n2; n3; n4; now; n6] (Executing id i) (shared_of s)) r s'.
Proof.
  unfold ends_as, execute_handler. unfold mbind_M at 1, lift_M. cbn [turns Machine.advance].
  destruct (require_role i "sre-executor") as [u|e]; cbn [is_ok negb]; [|by intros [= <- <-]; eexists].
  intros H. unfold mbind_M in H. destruct (catch_M _ _ _ s) as [r1 s1] eqn:E. apply catch_store in E as (r0 & E & Eo & _).
  assert (s' = s1 /\ is_ok r = is_ok r1) as [-> ->] by (destruct r1; apply pair_equal_spec in H as [<- <-]; done).
  rewrite <- Eo. clear H Eo r1 r. unfold execute in E. destruct (managed_namespaces env) as [ns|] eqn:En;
    [|by apply pair_equal_spec in E as [<- <-]; eexists].
  unfold mbind_M in E at 1. rewrite on_store_read in E by apply get_proposal_state.
  unfold on_table at 1. cbn [shared_of table cluster]. pose proof (get_proposal_state id (store s)) as Hs.
  destruct (get_proposal id (store s)) as [[p|e] d]; cbn [fst snd] in E, Hs; subst d; [|by apply pair_equal_spec in E as [<- <-]; eexists].
  unfold mbind_M in E at 1. rewrite on_store_read in E by apply get_approval_state. cbn [Machine.advance].
  unfold on_table at 1. cbn [shared_of table cluster]. pose proof (get_approval_state id (store s)) as Hs.
  destruct (get_approval id (store s)) as [[a|e] d]; cbn [fst snd] in E, Hs; subst d; [|by apply pair_equal_spec in E as [<- <-]; eexists].
  cbn [Machine.advance]. unfold claim_execution, mbind_M, on_store, on_table, zoom_M in E |- *. cbn [table cluster].
  destruct (claim_update id (store s)) as [u' d] eqn:Eu. assert (u' = Ok tt) as -> by (by injection Eu as <- _).
  cbn [Machine.advance]. unfold on_table. cbn [table cluster]. clear Eu. revert E. generalize d. clear d. intros d0 E.
  destruct (one_row _ d0) as [[u'|e] d]; [|by apply pair_equal_spec in E as [<- <-]; eexists].
  cbn [Machine.advance cluster table]. rewrite En. change (default [] (Some ns)) with ns.
  unfold catch_all_M, on_world, zoom_M in E. cbn [world store] in E.
  destruct (Actions.execute scale restart ns now p a (subject i) (world s)) as [[x|e] w];
    apply pair_equal_spec in E as [<- <-]; by eexists.
Qed.

End facts.

End MachineFacts.

(** ** Properties *)

Module SREConcurrencyTheorems.
Import Models Actions Store Service Api ServiceFacts Machine MachineFacts SRETheorems.

(** A handler called alone is a schedule: its request arrives, and its turns
    follow each other. *)
Lemma alone_schedule {W} scale restart env t nows (s s' : service W) {A} (r : res A) l h : is_request t = true ->
  ends_as (turns scale restart env nows t (shared_of s)) r s' ->
  exists e, run_schedule scale restart env (Arrive t :: map (Resume (length l)) nows)
      {| state := shared_of s; tasks := l; history := h |} =
    {| state := shared_of s'; tasks := l ++ [Ended (is_ok r)]; history := h ++ e |}.
Proof.
  intros Ht [e He]. exists e. pose proof (turns_run scale restart env nows l t (shared_of s) h) as Hr.
  rewrite He in Hr. rewrite <- Hr. unfold run_schedule at 1. cbn [fold_left take_turn]. by rewrite Ht.
Qed.

(** The three handlers and the schedules of their requests agree: same table,
    same cluster, same outcome. *)
Theorem handlers_are_schedules {W} scale restart env (s : service W) l h :
  let run := fun t nows (ok : bool) (s' : service W) =>
    exists e, run_schedule scale restart env (Arrive t :: map (Resume (length l)) nows)
        {| state := shared_of s; tasks := l; history := h |} =
      {| state := shared_of s'; tasks := l ++ [Ended ok]; history := h ++ e |} in
  (forall q i id at_ now, let x := propose_handler q i id at_ s in run (Proposing q i id at_) [now] (is_ok x.1) x.2) /\
  (forall id i text now n2 n3, let x := approve_handler id i text now s in
     run (Approving id i text) [now; n2; n3] (is_ok x.1) x.2) /\
  (forall id i n1 n2 n3 n4 now n6, let x := execute_handler scale restart env id i now s in
     run (Executing id i) [n1; n2; n3; n4; now; n6] (is_ok x.1) x.2).
Proof.
  split_and!; intros; (apply alone_schedule; [done|]);
    [apply propose_alone|apply approve_alone|apply execute_alone]; unfold x; apply surjective_pairing.
Qed.

(** C35: however requests interleave between the statements they send to the
    store's connection and the readings of its row counts, a call of the writer
    for a proposal comes, in the history of the schedule, after its proposal by
    one person and an approval by a second one that had not expired, both
    different from the caller, and the cluster changes only at such a call.  If
    moreover each row count is read by the request that caused it (no other
    request takes a turn between an UPDATE and the reading of its count), no other
    call is made for the proposal, before or after; and when every request has
    ended no claimed proposal is left without its outcome. *)
Theorem change_called_once : forall (W : Type) scale restart env xs (w : W), Forall proper xs ->
  let c := run_schedule scale restart env xs (new_server w) in
  (forall h1 id who at_ h2, c.(history) = h1 ++ Executed id who at_ :: h2 -> vouched h1 id who at_) /\
  (forall x, (take_turn scale restart env x c).(state).(cluster) <> c.(state).(cluster) ->
     exists id who at_, (take_turn scale restart env x c).(history) = c.(history) ++ [Executed id who at_]) /\
  (own_counts scale restart env xs (new_server w) ->
     (forall h1 id who at_ h2, c.(history) = h1 ++ Executed id who at_ :: h2 ->
        forall who' at', Executed id who' at' ∉ h1 ++ h2) /\
     ((forall t, t ∈ c.(tasks) -> exists ok, t = Ended ok) ->
        forall r, r ∈ c.(state).(table).(proposals) -> r.(status) <> "executing")).
Proof.
  intros W scale restart env xs w Hx c.
  pose proof (schedule_inv scale restart env xs (new_server w) Hx (new_server_inv w)) as Hc. fold c in Hc.
  split; [|split].
  - intros h1 id who at_ h2 Hh. apply (lawful_split h1 id who at_ h2). rewrite <- Hh. apply Hc.
  - intros [t|n now] Hw; [done|].
    destruct (resume_cases scale restart env n now c Hc) as [E|(t & t' & e & s' & _ & Ht & E)]; rewrite E in Hw |- *; [done|].
    destruct (ts_cluster _ _ _ _ _ _ Ht Hw) as (id & who & at_ & ->). by exists id, who, at_.
  - intros Ho. destruct (schedule_claims scale restart env xs (new_server w) Hx (new_server_inv w) Ho (new_claim_inv w)) as [H3 H5].
    fold c in H3, H5. split.
    + intros h1 id who at_ h2 Hh who' at'. apply (executes_once id who at_). rewrite <- Hh.
      destruct (H3 id) as [Hk _]. unfold rights in Hk. lia.
    + intros He r Hr Hs. destruct (H5 r Hr Hs) as (t & Ht & Hh). by destruct (He t Ht) as [ok ->].
Qed.

(** Two requests to execute one proposal, both past their reads before either
    claims it; the turns after these depend on the case. *)
Definition ex_race : list turn :=
  [Arrive (Proposing ex_request (ex_person "ana" "sre-proposer") "p1" "t1"); Resume 0 1;
   Arrive (Approving "p1" (ex_person "bo" "sre-approver") "t2"); Resume 1 100; Resume 1 101; Resume 1 102;
   Arrive (Executing "p1" (ex_person "cy" "sre-executor")); Arrive (Executing "p1" (ex_person "di" "sre-executor"));
   Resume 2 200; Resume 3 200; Resume 2 201; Resume 3 201].
Definition ex_turns (xs : list nat) : list turn := map (fun n => Resume n 203) xs.
(** Each reads its own count: one is granted, the other refused. *)
Definition ex_own : list turn := ex_race ++ ex_turns [3; 3; 2; 2; 3; 3]%nat.
Abbreviation ex_served xs := (run_schedule ex_scale ex_restart ex_env xs (new_server 0%nat)).
Definition ex_past : list event := [Proposed "p1" "ana"; Approved "p1" "bo" 900000100].
Lemma ex_own_history : (ex_served ex_own).(history) = ex_past ++ [Executed "p1" "di" 203].
Proof. vm_compute. reflexivity. Qed.
Lemma ex_own_counts : own_counts ex_scale ex_restart ex_env ex_own (new_server 0%nat).
Proof. repeat split; intros [|[|[|[|k]]]] t; vm_compute; try done; intros [= <-]; done. Qed.

Lemma change_called_once_witness : vouched ex_past "p1" "di" 203 /\ Executed "p1" "cy" 203 ∉ ex_past.
Proof.
  assert (Forall proper ex_own) as Hx by (repeat constructor; set_solver).
  destruct (change_called_once nat ex_scale ex_restart ex_env ex_own 0%nat Hx) as (Hv & _ & Ho).
  destruct (Ho ex_own_counts) as [Hn _].
  split; [exact (Hv ex_past "p1" "di" 203 [] ex_own_history)|].
  rewrite <- (app_nil_r ex_past). exact (Hn ex_past "p1" "di" 203 [] ex_own_history "cy" 203).
Defined.

(** The two claims run before either count is read: both read the second one's
    zero, both are refused, and the row stays claimed. *)
Lemma claim_refused_to_all : let c := ex_served (ex_race ++ ex_turns [3; 2; 3; 2]%nat) in
  c.(tasks) = [Ended true; Ended true; Ended false; Ended false] /\
  c.(history) = ex_past /\ map status c.(state).(table).(proposals) = ["executing"].
Proof. vm_compute. done. Qed.

(** The approval of another proposal runs between the claims and the readings of
    their counts: both read its one, and the change is made twice. *)
Lemma claim_granted_twice :
  let other := [Arrive (Proposing ex_request (ex_person "ana" "sre-proposer") "p2" "t1");
                Arrive (Approving "p2" (ex_person "bo" "sre-approver") "t2")] in
  let c := ex_served (ex_race ++ other ++ ex_turns [4; 5; 3; 2; 5; 3; 2; 5; 3; 2; 3; 2]%nat) in
  c.(history) = ex_past ++ [Proposed "p2" "ana"; Approved "p2" "bo" 900000203; Executed "p1" "di" 203; Executed "p1" "cy" 203] /\
  c.(state).(cluster) = 2%nat.
Proof. vm_compute. done. Qed.

End SREConcurrencyTheorems.
