(* ===== verification/Adapters.v ===== *)
(** * Adapters declared in the terms of other libraries

    [LangChain] is platforms/rag/langchain.py: the runnable it builds, over the
    part of langchain_core it imports, which is an argument: a class of
    constructors with the behaviour its documentation gives them.  [FeatureStore]
    is feature_store/definitions.py, the declarations Feast reads, as data. *)

From Stdlib Require Import String ZArith Lia.
From stdpp Require Import base list strings.
From S2P Require Import Prelude PyStr PyDict Json.

Module LangChain.

(** What the adapter imports: runnables, two ways to make one from a function or
    from the input, the parallel and the sequential composition. *)
Class Runnables (W : Type) := {
  runnable : Type;
  RunnableLambda : (json -> M W json) -> runnable;
  RunnablePassthrough : runnable;
  RunnableParallel : list (string * runnable) -> runnable;
  pipe : runnable -> runnable -> runnable;
  invoke : runnable -> json -> M W json;
}.
(** Their documented behaviour.  The branches of a parallel run on a pool; the
    law is for one branch with effects beside branches that only pass the input
    on, where the order of the pool does not show. *)
Class RunnableLaws (W : Type) `{Runnables W} := {
  invoke_lambda f x s : invoke (RunnableLambda f) x s = f x s;
  invoke_parallel k r k' x s : k <> k' ->
    invoke (RunnableParallel [(k, r); (k', RunnablePassthrough)]) x s =
    (let! y := invoke r x in mret_M (JObj [(k, y); (k', x)])) s;
  invoke_pipe r r' x s : invoke (pipe r r') x s = (let! y := invoke r x in invoke r' y) s;
}.

(** [build_langchain_runnable]: the library is there when the optional extra is
    installed. *)
Definition build_langchain_runnable {W} (langchain_core : option (Runnables W)) (retrieve generate : json -> M W json) :
    res { lib : Runnables W & runnable } :=
  match langchain_core with
  | None => raise RuntimeError "install the 'rag' extra to enable LangChain"
  | Some lib =>
      Ok (existT lib (pipe (RunnableParallel [("context", RunnableLambda retrieve); ("question", RunnablePassthrough)])
                           (RunnableLambda generate)))
  end.

End LangChain.

Module FeatureStore.

Record Entity := { e_name : string; join_keys : list string }.
Record FileSource := { path : string; timestamp_field : string; created_timestamp_column : string }.
Inductive dtype := Float32 | Int64.
Record Field := { f_name : string; f_dtype : dtype }.
Record FeatureView := {
  v_name : string;
  entities : list Entity;
  ttl_seconds : Z;
  schema : list Field;
  source : FileSource;
  online : bool;
}.

Definition account : Entity := {| e_name := "account_id"; join_keys := ["account_id"] |}.
Definition account_source : FileSource :=
  {| path := "data/account_features.parquet"; timestamp_field := "event_timestamp";
     created_timestamp_column := "created_timestamp" |}.
Definition account_features : FeatureView :=
  {| v_name := "account_features"; entities := [account]; ttl_seconds := 24 * 60 * 60;
     schema := [{| f_name := "activity_count_24h"; f_dtype := Int64 |}; {| f_name := "risk_score"; f_dtype := Float32 |}];
     source := account_source; online := true |}.

(** What a view needs for a point-in-time join: the columns it reads from its
    source, keys, features and timestamps, have different names. *)
Definition view_columns (v : FeatureView) : list string :=
  (v.(entities) ≫= join_keys) ++ map f_name v.(schema) ++
  [v.(source).(timestamp_field); v.(source).(created_timestamp_column)].

End FeatureStore.

Module AdaptersTheorems.
Import LangChain FeatureStore.

(** The runnable asks for the context of a question and answers from both: the
    generator gets a dict of the retrieved context and the question as it came,
    an exception of the retrieval ends the run before it; without the library
    the adapter cannot be built. *)
Theorem langchain_answers {W} (lib : Runnables W) (laws : RunnableLaws W) retrieve generate question s :
  exists r, build_langchain_runnable (Some lib) retrieve generate = Ok (existT lib r) /\
    invoke r question s =
    (let! context := retrieve question in generate (JObj [("context", context); ("question", question)])) s.
Proof.
  eexists. split; [reflexivity|]. rewrite invoke_pipe. unfold mbind_M at 1 2.
  rewrite invoke_parallel by done. unfold mbind_M. rewrite invoke_lambda.
  destruct (retrieve question s) as [[c|e] s']; [|done]. unfold mret_M. by rewrite invoke_lambda.
Qed.

(** The laws hold of functions, run in the order they are given. *)
Fixpoint run_branches {W} (l : list (string * (json -> M W json))) (x : json) : M W (list (string * json)) :=
  match l with
  | [] => mret_M []
  | (k, f) :: l => let! y := f x in let! r := run_branches l x in mret_M ((k, y) :: r)
  end.
#[export] Instance function_runnables W : Runnables W := {
  runnable := json -> M W json;
  RunnableLambda := fun f => f;
  RunnablePassthrough := fun x => mret_M x;
  RunnableParallel := fun l x => let! r := run_branches l x in mret_M (JObj r);
  pipe := fun f g x => let! y := f x in g y;
  invoke := fun f x => f x;
}.
#[export] Instance function_laws W : RunnableLaws W.
Proof.
  split; [done| |done]. intros k r k' x s _. cbn. unfold mbind_M, mret_M. by destruct (r x s) as [[y|e] s'].
Qed.
Example langchain_example :
  let retrieve := fun q => fun n : nat => (Ok (JArr [JStr "a"; q]), S n) in
  let generate := fun d => fun n : nat => (Ok (JStr (dumps d)), S n) in
  exists r, build_langchain_runnable (Some (function_runnables nat)) retrieve generate = Ok (existT _ r) /\
    invoke r (JStr "q") 0%nat =
      (Ok (JStr (dumps (JObj [("context", JArr [JStr "a"; JStr "q"]); ("question", JStr "q")]))), 2%nat).
Proof. exact (langchain_answers (function_runnables nat) (function_laws nat) _ _ (JStr "q") 0%nat). Qed.

(** The declared view can be joined. *)
Theorem account_view_columns : NoDup (view_columns account_features).
Proof. apply (bool_decide_unpack _). vm_compute. exact I. Qed.

End AdaptersTheorems.
