(* ===== verification/Retrieval.v ===== *)
(** * Retrieval (platforms/rag, platforms/retrieval)

    [Corrective] is the bounded corrective-RAG loop of rag/workflow.py with the
    nodes and edges of its LangGraph form, and [VectorStore] the tenant-scoped
    search of retrieval/vector_store.py.  The retriever, the grader, the
    rewriter and the generator are stateful calls; [urlopen] is an argument. *)

From Stdlib Require Import String Ascii ZArith Lia SpecFloat.
From stdpp Require Import base list strings.
From S2P Require Import Prelude PyStr PyDict PyFloat Json.

Module Corrective.

Record RetrievalDocument := { document_id : string; text : string; source : string; score : float }.
Record RAGResult := { answer : string; documents : list RetrievalDocument; attempts : Z; status : string }.
Definition refusal : string := "Insufficient evidence to answer from the approved knowledge base.".

Section workflow.
Context {W : Type}.
Context (retrieve : string -> M W (list RetrievalDocument)).
Context (grader : string -> RetrievalDocument -> M W bool).
Context (rewriter : string -> Z -> M W string).
Context (generator : string -> list RetrievalDocument -> M W string).

(** [CorrectiveRAG.__init__] *)
Definition new_rag (maximum_attempts : Z) : res Z :=
  if negb ((1 <=? maximum_attempts) && (maximum_attempts <=? 5)) then
    raise ValueError "maximum_attempts must be between 1 and 5"
  else Ok maximum_attempts.

(** [[doc for doc in docs if grader(query, doc)]] *)
Fixpoint graded (query : string) (docs : list RetrievalDocument) : M W (list RetrievalDocument) :=
  match docs with
  | [] => mret_M []
  | d :: ds =>
      let! keep := grader query d in
      let! rest := graded query ds in
      mret_M (if keep then d :: rest else rest)
  end.
Definition attempt_documents (query : string) : M W (list RetrievalDocument) :=
  let! docs := retrieve query in graded query docs.

(** The loop of [CorrectiveRAG.invoke] from an attempt on; [left] more attempts
    follow it. *)
Fixpoint attempt_from (question query : string) (attempt : Z) (left : nat) : M W RAGResult :=
  let! docs := attempt_documents query in
  match docs with
  | _ :: _ =>
      let! a := generator question docs in
      mret_M {| answer := a; documents := docs; attempts := attempt; status := "grounded" |}
  | [] =>
      match left with
      | O => mret_M {| answer := refusal; documents := []; attempts := attempt; status := "insufficient_evidence" |}
      | S left' => let! q := rewriter question attempt in attempt_from question q (attempt + 1) left'
      end
  end.
Definition invoke (maximum_attempts : Z) (question : string) : M W RAGResult :=
  attempt_from question question 1 (Z.to_nat maximum_attempts - 1).

(** ** The graph of [compile_langgraph] *)

Record State := {
  question : string;
  query : option string;
  n_attempts : Z;
  s_documents : list RetrievalDocument;
  s_answer : string;
  s_status : string;
}.
Definition initial (q : string) : State :=
  {| question := q; query := None; n_attempts := 0; s_documents := []; s_answer := EmptyString; s_status := EmptyString |}.
Inductive node := Retrieve | Rewrite | Generate | Refuse.

(** The functions of the nodes; the graph merges what they return into its
    state. *)
Definition retrieve_node (s : State) : M W State :=
  let q := match s.(query) with Some x => if nonempty x then x else s.(question) | None => s.(question) end in
  let! docs := attempt_documents q in
  mret_M {| question := s.(question); query := Some q; n_attempts := s.(n_attempts) + 1; s_documents := docs;
            s_answer := s.(s_answer); s_status := s.(s_status) |}.
Definition rewrite_node (s : State) : M W State :=
  let! q := rewriter s.(question) s.(n_attempts) in
  mret_M {| question := s.(question); query := Some q; n_attempts := s.(n_attempts); s_documents := s.(s_documents);
            s_answer := s.(s_answer); s_status := s.(s_status) |}.
Definition generate_node (s : State) : M W State :=
  let! a := generator s.(question) s.(s_documents) in
  mret_M {| question := s.(question); query := s.(query); n_attempts := s.(n_attempts); s_documents := s.(s_documents);
            s_answer := a; s_status := "grounded" |}.
Definition refuse_node (s : State) : M W State :=
  mret_M {| question := s.(question); query := s.(query); n_attempts := s.(n_attempts); s_documents := s.(s_documents);
            s_answer := refusal; s_status := "insufficient_evidence" |}.
(** [route] and the edges: the node that follows, [None] at the end. *)
Definition route (maximum_attempts : Z) (s : State) : node :=
  match s.(s_documents) with
  | _ :: _ => Generate
  | [] => if s.(n_attempts) <? maximum_attempts then Rewrite else Refuse
  end.
Definition run_node (n : node) : State -> M W State :=
  match n with Retrieve => retrieve_node | Rewrite => rewrite_node | Generate => generate_node | Refuse => refuse_node end.
Definition next (maximum_attempts : Z) (n : node) (s : State) : option node :=
  match n with
  | Retrieve => Some (route maximum_attempts s)
  | Rewrite => Some Retrieve
  | Generate | Refuse => None
  end.
(** A run of the compiled graph: nodes along the edges until the end. *)
Fixpoint run_graph (fuel : nat) (maximum_attempts : Z) (n : node) (s : State) : M W (option State) :=
  match fuel with
  | O => mret_M None
  | S f =>
      let! s' := run_node n s in
      match next maximum_attempts n s' with
      | None => mret_M (Some s')
      | Some n' => run_graph f maximum_attempts n' s'
      end
  end.
(** Two nodes per attempt. *)
Definition graph_fuel (maximum_attempts : Z) : nat := 2 * Z.to_nat maximum_attempts.
Definition result_of (s : State) : RAGResult :=
  {| answer := s.(s_answer); documents := s.(s_documents); attempts := s.(n_attempts); status := s.(s_status) |}.
End workflow.

End Corrective.

Module VectorStore.

Record SearchResult := { document_id : string; score : float; text : json; metadata : json }.
Record QdrantStore := { base_url : string; collection : string; api_key : string }.
(** [QdrantStore.__init__] *)
Definition new_store (url coll key : string) : QdrantStore :=
  {| base_url := rstrip_slash url; collection := coll; api_key := key |}.

(** What one [urlopen] does. *)
Inductive outcome := Answered (body : string) | Failed (exception : string).

Section search.
Context {W : Type} (urlopen : string -> json -> dict string string -> Z -> M W outcome).

Definition search_payload (vector : list float) (tenant : string) (limit : Z) : json :=
  JObj [("vector", JArr (map JFloat vector)); ("limit", JInt (Z.min (Z.max limit 1) 50)); ("with_payload", JBool true);
    ("filter", JObj [("must", JArr [JObj [("key", JStr "tenant"); ("match", JObj [("value", JStr tenant)])]])])].
Definition search_headers (s : QdrantStore) : dict string string :=
  ("Content-Type", "application/json") :: (if nonempty s.(api_key) then [("api-key", s.(api_key))] else []).
Definition search_url (s : QdrantStore) : string :=
  s.(base_url) +:+ "/collections/" +:+ s.(collection) +:+ "/points/search".
Definition field_or (k : string) (d j : json) : json := default d (jget k j).
(** [item.get("payload", {})]: documents without keys have no [get]. *)
Definition get_or (k : string) (d j : json) : res json :=
  match j with JObj _ => Ok (field_or k d j) | _ => raise OtherError "object has no attribute 'get'" end.
Definition result_of_item (item : json) : res SearchResult :=
  let? id := jfield "id" item in
  let? sc := jfield "score" item in
  let? f := float_of_json sc in
  let? payload := get_or "payload" (JObj []) item in
  let? tx := get_or "text" (JStr EmptyString) payload in
  Ok {| document_id := str_json id; score := f; text := tx; metadata := payload |}.

(** [QdrantStore.search] *)
Definition search (s : QdrantStore) (vector : list float) (tenant : string) (limit : Z) : M W (list SearchResult) :=
  if negb (nonempty tenant) then raise_M ValueError "tenant filter is mandatory" else
  let! o := urlopen (search_url s) (search_payload vector tenant limit) (search_headers s) 10 in
  match o with
  | Failed exception => raise_M RuntimeError ("vector search failed: " +:+ exception)
  | Answered body =>
      match loads body with
      | None => raise_M RuntimeError "vector search failed: JSONDecodeError"
      | Some doc =>
          let! items := lift_M (let? r := get_or "result" (JArr []) doc in jlist r) in
          lift_M (map_res result_of_item items)
      end
  end.
End search.

End VectorStore.

(** ** Properties *)

Module RetrievalTheorems.
Import Corrective.

(** What a run of the graph gives, for what the loop gives. *)
Definition agrees {W} (r : res RAGResult * W) (g : res (option State) * W) : Prop :=
  match r with
  | (Ok x, w) => exists s, g = (Ok (Some s), w) /\ result_of s = x
  | (Err e, w) => g = (Err e, w)
  end.

Section agreement.
Context {W : Type} (retrieve : string -> M W (list RetrievalDocument)) (grader : string -> RetrievalDocument -> M W bool).
Context (rewriter : string -> Z -> M W string) (generator : string -> list RetrievalDocument -> M W string).

(** From an attempt on, the graph state that corresponds to the loop. *)
Lemma graph_follows_loop m q left : (forall q n w, (rewriter q n w).1 <> Ok EmptyString) ->
  forall qy s w, s.(question) = q -> m = s.(n_attempts) + 1 + Z.of_nat left ->
  match s.(query) with Some x => if nonempty x then x else s.(question) | None => s.(question) end = qy ->
  agrees (attempt_from retrieve grader rewriter generator q qy (s.(n_attempts) + 1) left w)
         (run_graph retrieve grader rewriter generator (2 * S left) m Retrieve s w).
Proof.
  intros Hrw. induction left as [|left IH]; intros qy s w <- -> Hq.
  - cbn [Nat.mul Nat.add run_graph run_node attempt_from]. unfold retrieve_node. rewrite Hq. unfold mbind_M, mret_M.
    destruct (attempt_documents retrieve grader qy w) as [[[|d ds]|e] w1]; cbn; [| |done].
    + unfold route. cbn. rewrite (proj2 (Z.ltb_ge _ _)) by lia. cbn. eexists. split; reflexivity.
    + unfold generate_node, mbind_M, mret_M. cbn. destruct (generator _ _ w1) as [[a|e] w2]; cbn; [|done].
      eexists. split; reflexivity.
  - replace (2 * S (S left))%nat with (S (S (2 * S left))) by lia.
    cbn [run_graph run_node attempt_from]. unfold retrieve_node. rewrite Hq. unfold mbind_M, mret_M.
    destruct (attempt_documents retrieve grader qy w) as [[[|d ds]|e] w1]; cbn [next route s_documents]; [| |done].
    + unfold route. cbn [s_documents n_attempts]. rewrite (proj2 (Z.ltb_lt _ _)) by lia. cbn [run_node].
      unfold rewrite_node, mbind_M, mret_M. cbn [question n_attempts].
      pose proof (Hrw s.(question) (s.(n_attempts) + 1) w1) as Hne.
      destruct (rewriter _ _ w1) as [[q'|e] w2]; [|done]. cbn [next].
      match goal with |- agrees _ (run_graph _ _ _ _ _ _ _ ?s' _) => apply (IH q' s' w2) end; cbn; [done|lia|].
      destruct q'; [done|reflexivity].
    + cbn [run_node]. unfold generate_node, mbind_M, mret_M. cbn [question s_documents].
      destruct (generator _ _ w1) as [[a|e] w2]; [|done]. eexists. split; reflexivity.
Qed.
End agreement.

(** C4: the two forms of corrective RAG agree.  With a rewriter that never
    returns an empty query, the compiled graph, run for two nodes per attempt,
    ends with the answer, documents, attempts and status of [invoke], raises
    what it raises, and makes the same calls in the same order. *)
Theorem rag_graph_agrees : forall (W : Type) retrieve grader rewriter generator m q (w : W),
  new_rag m = Ok m -> (forall q n w, (rewriter q n w).1 <> Ok EmptyString) ->
  agrees (invoke retrieve grader rewriter generator m q w)
         (run_graph retrieve grader rewriter generator (graph_fuel m) m Retrieve (initial q) w).
Proof.
  intros W retrieve grader rewriter generator m q w Hm Hrw. unfold new_rag in Hm.
  destruct (negb _) eqn:E; [done|]. bprop. unfold invoke, graph_fuel.
  replace (Z.to_nat m) with (S (Z.to_nat m - 1)) at 2 by lia.
  apply (graph_follows_loop retrieve grader rewriter generator m q _ Hrw q (initial q) w); cbn; [done|lia|done].
Qed.

Definition ex_doc : RetrievalDocument := {| document_id := "d1"; text := "five"; source := "kb"; Corrective.score := f_of_Z 1 |}.
Definition ex_retrieve (q : string) : M nat (list RetrievalDocument) := fun w => (Ok [ex_doc], S w).
Definition ex_grader (q : string) (d : RetrievalDocument) : M nat bool := mret_M (bool_decide (q = "limit rewritten")).
Definition ex_rewriter (q : string) (n : Z) : M nat string := mret_M (q +:+ " rewritten").
Definition ex_generator (q : string) (ds : list RetrievalDocument) : M nat string := mret_M "five".

Lemma rag_graph_agrees_witness :
  agrees (invoke ex_retrieve ex_grader ex_rewriter ex_generator 3 "limit" 0%nat)
         (run_graph ex_retrieve ex_grader ex_rewriter ex_generator (graph_fuel 3) 3 Retrieve (initial "limit") 0%nat) /\
  invoke ex_retrieve ex_grader ex_rewriter ex_generator 3 "limit" 0%nat =
    (Ok {| answer := "five"; documents := [ex_doc]; attempts := 2; status := "grounded" |}, 2%nat).
Proof.
  split; [|reflexivity]. apply rag_graph_agrees; [reflexivity|]. intros q n w H. injection H as H.
  apply (f_equal list_ascii_of_string) in H. rewrite Hash.chars_app in H. by destruct (list_ascii_of_string q).
Defined.

(** The graph takes an empty rewrite for no query and searches again with the
    question, where the loop searches with the empty text. *)
Definition ex_empty_rewriter (q : string) (n : Z) : M nat string := mret_M EmptyString.
Definition ex_log_retrieve (q : string) : M (list string) (list RetrievalDocument) := fun w => (Ok [], w ++ [q]).
Lemma empty_rewrite_diverges :
  (invoke ex_log_retrieve (fun _ _ => mret_M true) (fun _ _ => mret_M EmptyString) (fun _ _ => mret_M "five") 2 "limit" []).2 =
    ["limit"; EmptyString] /\
  (run_graph ex_log_retrieve (fun _ _ => mret_M true) (fun _ _ => mret_M EmptyString) (fun _ _ => mret_M "five")
     (graph_fuel 2) 2 Retrieve (initial "limit") []).2 = ["limit"; "limit"].
Proof. vm_compute. done. Qed.

Import VectorStore.

(** A search never leaves its tenant.  Without a tenant it raises before
    any request; otherwise it sends exactly one request, whose filter requires
    the tenant and whose limit is between 1 and 50. *)
Theorem search_tenant_scoped : forall (W : Type) urlopen s vector tenant limit (w : W),
  (tenant = EmptyString -> search urlopen s vector tenant limit w = (raise ValueError "tenant filter is mandatory", w)) /\
  (tenant <> EmptyString -> exists payload n,
     (search urlopen s vector tenant limit w).2 = (urlopen (search_url s) payload (search_headers s) 10 w).2 /\
     jget "filter" payload = Some (JObj [("must", JArr [JObj [("key", JStr "tenant"); ("match", JObj [("value", JStr tenant)])]])]) /\
     jget "limit" payload = Some (JInt n) /\ 1 <= n <= 50).
Proof.
  intros W urlopen s vector tenant limit w. unfold search. split; [by intros ->|]. intros Ht.
  destruct tenant as [|c t]; [done|]. cbn [nonempty negb].
  exists (search_payload vector (String c t) limit), (Z.min (Z.max limit 1) 50).
  split; [|split; [done|split; [done|lia]]]. unfold mbind_M at 1.
  destruct (urlopen _ _ _ _ w) as [[o|e] w1]; [|done]. destruct o as [body|x]; [|done].
  destruct (loads body) as [doc|]; [|done]. unfold mbind_M, lift_M.
  by destruct (let? r := _ in _).
Qed.

End RetrievalTheorems.
