(* ===== verification/MetalRuntime.v ===== *)
(** * The Metal inference runtime (platforms/metal_runtime)

    [Planner] is planner.py, [Cache] the prompt-cache index of cache.py,
    [Scheduler] the bounded scheduler of scheduler.py as a state machine, and
    [Api] the request path of api.py with the token estimate and the
    development backend of backend.py.  The scheduler's workers interleave at
    their awaits: each step below is what runs between two of them. *)

From Stdlib Require Import String Ascii ZArith Lia SpecFloat.
From stdpp Require Import base list strings sets relations.
From S2P Require Import Prelude PyStr PyDict PyFloat Hash Json Security.

Module Planner.

Record ModelProfile := {
  model_id : string;
  parameter_billions : float;
  weight_bits : Z;
  kv_bytes_per_token_fp16 : Z;
  kv_bits : Z;
  vision_reserve_gb : float;
}.
Definition gib : Z := 1024 ^ 3.
(** [ModelProfile.estimated_weights_gb] and [ModelProfile.kv_bytes_per_token] *)
Definition estimated_weights_gb (m : ModelProfile) : float :=
  let raw := fdiv_raw (fmul m.(parameter_billions) (f_of_Z m.(weight_bits))) (f_of_Z 8) in
  fround 3 (fmul raw (fratio 112 100)).
Definition kv_bytes_per_token (m : ModelProfile) : res Z :=
  let? n := ftrunc (fratio (m.(kv_bytes_per_token_fp16) * m.(kv_bits)) 16) in Ok (Z.max 1 n).

Record AdmissionRequest := {
  prompt_tokens : Z;
  maximum_generation_tokens : Z;
  active_slots : Z;
  multimodal : bool;
}.
Record AdmissionDecision := {
  admitted : bool;
  requested_context : Z;
  granted_context : Z;
  estimated_memory_gb : number;
  available_memory_gb : number;
  reason : string;
}.
Record MemoryPlanner := {
  total_memory_gb : float;
  model : ModelProfile;
  system_reserve_gb : float;
  runtime_reserve_gb : float;
  maximum_slots : Z;
}.
(** [MemoryPlanner.cache_budget_gb] *)
Definition cache_budget_gb (p : MemoryPlanner) : number :=
  let rest := fsub (fsub (fsub p.(total_memory_gb) p.(system_reserve_gb)) p.(runtime_reserve_gb))
                   (estimated_weights_gb p.(model)) in
  if fgtb rest fzero then NFloat rest else NInt 0.
(** What is left for the caches of text, or of text and images. *)
Definition available_gb (p : MemoryPlanner) (multimodal : bool) : number :=
  let budget := cache_budget_gb p in
  if multimodal then NFloat (fsub (num budget) p.(model).(vision_reserve_gb))
  else match budget with NFloat b => NFloat (fsub b fzero) | NInt z => NInt (z - 0) end.
Definition round_number (digits : Z) (n : number) : number :=
  match n with NFloat f => NFloat (fround digits f) | NInt z => NInt z end.

(** [MemoryPlanner.decide] *)
Definition decide (p : MemoryPlanner) (r : AdmissionRequest) : res AdmissionDecision :=
  let requested := r.(prompt_tokens) + r.(maximum_generation_tokens) in
  let slots := r.(active_slots) + 1 in
  let available := available_gb p r.(multimodal) in
  if slots >? p.(maximum_slots) then
    Ok {| admitted := false; requested_context := requested; granted_context := 0; estimated_memory_gb := NInt 0;
          available_memory_gb := available; reason := "concurrency_limit" |}
  else
  let? bytes_per_slot := fdiv (fmul (fmax fzero (num available)) (f_of_Z gib)) (f_of_Z slots) in
  let? kv := kv_bytes_per_token p.(model) in
  let? per_token := fdiv bytes_per_slot (f_of_Z kv) in
  let? maximum_context := ftrunc per_token in
  let granted := Z.min requested maximum_context in
  let base := fadd (fadd (estimated_weights_gb p.(model)) p.(system_reserve_gb)) p.(runtime_reserve_gb) in
  let used := fadd base (fratio (granted * kv * slots) gib) in
  let estimated := if r.(multimodal) then fadd used p.(model).(vision_reserve_gb) else used in
  if maximum_context <? r.(prompt_tokens) then
    Ok {| admitted := false; requested_context := requested; granted_context := maximum_context;
          estimated_memory_gb := NFloat (fround 3 estimated); available_memory_gb := available; reason := "insufficient_memory" |}
  else
    Ok {| admitted := true; requested_context := requested; granted_context := granted;
          estimated_memory_gb := NFloat (fround 3 estimated);
          available_memory_gb := round_number 3 available;
          reason := if granted =? requested then "admitted" else "generation_clamped" |}.

End Planner.

Module Cache.

Record PromptCacheEntry := { key : string; model_id : string; token_count : Z }.
Record PromptCacheIndex := { capacity : Z; _entries : dict string PromptCacheEntry }.
(** [PromptCacheIndex.__init__] *)
Definition new_cache (cap : Z) : res PromptCacheIndex :=
  if cap <? 1 then raise ValueError "capacity must be positive" else Ok {| capacity := cap; _entries := [] |}.
(** [PromptCacheIndex.key_for] *)
Definition key_for (model_id prompt : string) : string :=
  sha256_hex (model_id +:+ of_chars ["000"%char] +:+ prompt).
(** [PromptCacheIndex.lookup] and [PromptCacheIndex.record] *)
Definition lookup (model_id prompt : string) : M PromptCacheIndex (option PromptCacheEntry) :=
  let! self := get_M in
  let k := key_for model_id prompt in
  match dget k self.(_entries) with
  | Some e => do! put_M {| capacity := self.(capacity); _entries := move_to_end k self.(_entries) |} in mret_M (Some e)
  | None => mret_M None
  end.
Definition record (model_ prompt : string) (tokens : Z) : M PromptCacheIndex PromptCacheEntry :=
  let! self := get_M in
  let k := key_for model_ prompt in
  let e := {| key := k; model_id := model_; token_count := tokens |} in
  let '(r, entries) := evict self.(capacity) (move_to_end k (dset k e self.(_entries))) in
  do! put_M {| capacity := self.(capacity); _entries := entries |} in
  do! lift_M r in
  mret_M e.
(** [len(cache)] *)
Definition size (c : PromptCacheIndex) : Z := Z.of_nat (length c.(_entries)).

(** A sequence of calls, with the results of each. *)
Inductive cache_call := CLookup (model_id prompt : string) | CRecord (model_id prompt : string) (tokens : Z).
Definition call (o : cache_call) : M PromptCacheIndex (option PromptCacheEntry) :=
  match o with
  | CLookup m p => lookup m p
  | CRecord m p n => let! e := record m p n in mret_M (Some e)
  end.
Fixpoint calls (os : list cache_call) : M PromptCacheIndex (list (option PromptCacheEntry)) :=
  match os with
  | [] => mret_M []
  | o :: os' => let! r := call o in let! rs := calls os' in mret_M (r :: rs)
  end.

End Cache.

(** ** Specification: a least-recently-used cache of [cap] keys, as the list of
    its bindings, most recently used first. *)
Module Lru.
Import Cache.

Definition lru : Type := list (string * PromptCacheEntry).
Definition forget (k : string) (l : lru) : lru := List.filter (fun kv => negb (bool_decide (kv.1 = k))) l.
Definition binding (k : string) (l : lru) : option PromptCacheEntry :=
  option_map snd (List.find (fun kv => bool_decide (kv.1 = k)) l).
Definition get (k : string) (l : lru) : option PromptCacheEntry * lru :=
  match binding k l with Some e => (Some e, (k, e) :: forget k l) | None => (None, l) end.
Definition put (cap : nat) (k : string) (e : PromptCacheEntry) (l : lru) : lru := take cap ((k, e) :: forget k l).
Definition spec_call (cap : nat) (o : cache_call) (l : lru) : option PromptCacheEntry * lru :=
  match o with
  | CLookup m p => get (key_for m p) l
  | CRecord m p n =>
      let e := {| key := key_for m p; model_id := m; token_count := n |} in (Some e, put cap (key_for m p) e l)
  end.
Fixpoint spec_calls (cap : nat) (os : list cache_call) (l : lru) : list (option PromptCacheEntry) * lru :=
  match os with
  | [] => ([], l)
  | o :: os' => let '(r, l1) := spec_call cap o l in let '(rs, l2) := spec_calls cap os' l1 in (r :: rs, l2)
  end.

End Lru.

Module Scheduler.

Record GenerationResult := { text : string; prompt_tokens : Z; completion_tokens : Z }.
(** The state of a future. *)
Inductive future :=
| Waiting
| Cancelled
| Result (r : GenerationResult)
| Failure (e : exn).
Record WorkItem := { ticket : nat; prompt : string; maximum_tokens : Z }.

(** The scheduler: its queue, its live workers, the items they hold, and the
    futures of the submitted items by ticket. *)
Record BoundedScheduler := {
  slots : Z;
  queue_limit : Z;
  _workers : Z;
  queue : list WorkItem;
  running : list WorkItem;
  futures : list future;
}.
(** [BoundedScheduler.__init__] *)
Definition new_scheduler (slots_ limit : Z) : res BoundedScheduler :=
  if (slots_ <? 1) || (limit <? 1) then raise ValueError "slots and queue_limit must be positive"
  else Ok {| slots := slots_; queue_limit := limit; _workers := 0; queue := []; running := []; futures := [] |}.
Definition active (s : BoundedScheduler) : Z := Z.of_nat (length s.(running)).
Definition full (s : BoundedScheduler) : bool := s.(queue_limit) <=? Z.of_nat (length s.(queue)).
Definition with_parts (s : BoundedScheduler) (q r : list WorkItem) (f : list future) : BoundedScheduler :=
  {| slots := s.(slots); queue_limit := s.(queue_limit); _workers := s.(_workers); queue := q; running := r; futures := f |}.
Definition with_workers (s : BoundedScheduler) (n : Z) (r : list WorkItem) : BoundedScheduler :=
  {| slots := s.(slots); queue_limit := s.(queue_limit); _workers := n; queue := s.(queue); running := r; futures := s.(futures) |}.
(** [start]; [stop] cancels the workers, whose [finally] leaves the futures of
    the items they held as they are. *)
Definition start (s : BoundedScheduler) : BoundedScheduler :=
  if s.(_workers) =? 0 then with_workers s s.(slots) s.(running) else s.
Definition stop (s : BoundedScheduler) : BoundedScheduler := with_workers s 0 [].

(** [submit] up to its wait: the ticket of the new future. *)
Definition submit (p : string) (tokens : Z) : M BoundedScheduler nat :=
  let! s := get_M in
  if full s then raise_M OverflowError "inference queue is full"
  else
    let t := length s.(futures) in
    do! put_M (with_parts s (s.(queue) ++ [{| ticket := t; prompt := p; maximum_tokens := tokens |}]) s.(running)
                 (s.(futures) ++ [Waiting])) in
    mret_M t.
(** The deadline of [asyncio.wait_for]: the future is cancelled if it waits. *)
Definition expire (t : nat) (s : BoundedScheduler) : BoundedScheduler :=
  match s.(futures) !! t with
  | Some Waiting => with_parts s s.(queue) s.(running) (<[t := Cancelled]> s.(futures))
  | _ => s
  end.
(** A free worker takes the head of the queue. *)
Definition take_item (s : BoundedScheduler) : option (WorkItem * BoundedScheduler) :=
  match s.(queue) with
  | x :: q => if active s <? s.(_workers) then Some (x, with_parts s q (x :: s.(running)) s.(futures)) else None
  | [] => None
  end.
(** Whether the worker calls the backend for the item it took. *)
Definition calls_backend (x : WorkItem) (s : BoundedScheduler) : bool :=
  match s.(futures) !! x.(ticket) with Some Cancelled => false | _ => true end.
Fixpoint drop_ticket (t : nat) (l : list WorkItem) : list WorkItem :=
  match l with
  | [] => []
  | x :: l' => if (x.(ticket) =? t)%nat then l' else x :: drop_ticket t l'
  end.
(** The worker's [try]/[finally] with the backend's outcome: a future that was
    cancelled meanwhile keeps its state. *)
Definition finish (t : nat) (r : res GenerationResult) (s : BoundedScheduler) : BoundedScheduler :=
  with_parts s s.(queue) (drop_ticket t s.(running))
    (match s.(futures) !! t with
     | Some Waiting => <[t := match r with Ok g => Result g | Err e => Failure e end]> s.(futures)
     | _ => s.(futures)
     end).

(** The moves of the callers, the clock and the workers while the application
    serves; [stop] ends its lifespan. *)
Inductive step : BoundedScheduler -> BoundedScheduler -> Prop :=
| s_start s : step s (start s)
| s_submit s p n r s' : submit p n s = (r, s') -> step s s'
| s_expire s t : step s (expire t s)
| s_take s x s' : take_item s = Some (x, s') -> step s s'
| s_finish s x r : x ∈ s.(running) -> step s (finish x.(ticket) r s).
(** The moves of the workers alone. *)
Inductive worker_step : BoundedScheduler -> BoundedScheduler -> Prop :=
| w_take s x s' : take_item s = Some (x, s') -> worker_step s s'
| w_finish s x r : x ∈ s.(running) -> worker_step s (finish x.(ticket) r s).
Inductive steps : BoundedScheduler -> BoundedScheduler -> Prop :=
| steps_none s : steps s s
| steps_more s s1 s2 : steps s s1 -> step s1 s2 -> steps s s2.

End Scheduler.

Module Api.
Import Planner Cache.

(** [estimate_tokens] *)
Definition estimate_tokens (text : string) : Z := Z.max 1 (Z.of_nat (String.length text) / 4).
(** [DevelopmentBackend.generate] *)
Definition development_generate (prompt : string) (maximum_tokens : Z) : Scheduler.GenerationResult :=
  let answer := "Development backend received " +:+ str_Z (estimate_tokens prompt) +:+ " estimated prompt tokens." in
  {| Scheduler.text := answer; Scheduler.prompt_tokens := estimate_tokens prompt;
     Scheduler.completion_tokens := Z.min maximum_tokens (estimate_tokens answer) |}.

(** [MLXBackend.generate]: the model, its tokenizer and the generation are the
    library's. *)
Section mlx.
Context {W : Type} (has_chat_template : bool) (apply_chat_template : json -> M W string).
Context (generate : string -> Z -> M W string) (encode : string -> M W (list Z)).
Definition mlx_generate (prompt : string) (maximum_tokens : Z) : M W Scheduler.GenerationResult :=
  let! formatted_prompt :=
    if has_chat_template then
      apply_chat_template (JArr [JObj [("role", JStr "user"); ("content", JStr prompt)]])
    else mret_M prompt in
  let! output := generate formatted_prompt maximum_tokens in
  let! prompt_ids := encode formatted_prompt in
  let! output_ids := encode output in
  mret_M {| Scheduler.text := output; Scheduler.prompt_tokens := Z.of_nat (length prompt_ids);
            Scheduler.completion_tokens := Z.of_nat (length output_ids) |}.
End mlx.

Record ChatMessage := { role : string; content : string }.
Record ChatCompletionRequest := {
  c_model : string;
  messages : list ChatMessage;
  max_tokens : Z;
  stream : bool;
  c_multimodal : bool;
}.
Definition ChatMessage_valid (m : ChatMessage) : bool :=
  str_in m.(role) ["system"; "user"; "assistant"; "tool"] && len_between 1 2000000 m.(content).
Definition ChatCompletionRequest_valid (q : ChatCompletionRequest) : bool :=
  (1 <=? length q.(messages))%nat && (length q.(messages) <=? 200)%nat && forallb ChatMessage_valid q.(messages) &&
  (1 <=? q.(max_tokens)) && (q.(max_tokens) <=? 16384).
(** [_prompt] *)
Definition _prompt (ms : list ChatMessage) : string :=
  join (of_chars ["010"%char]) (map (fun m => m.(role) +:+ ": " +:+ m.(content)) ms).
(** [decision.__dict__] *)
Definition decision_json (d : AdmissionDecision) : json :=
  JObj [("admitted", JBool d.(admitted)); ("requested_context", JInt d.(requested_context));
    ("granted_context", JInt d.(granted_context)); ("estimated_memory_gb", num_json d.(estimated_memory_gb));
    ("available_memory_gb", num_json d.(available_memory_gb)); ("reason", JStr d.(reason))].
(** The generation budget of an admitted request. *)
Definition generation_tokens (requested granted prompt_tokens : Z) : Z :=
  Z.min requested (Z.max 1 (granted - prompt_tokens)).

(** ** The application *)

Record HardwareProfile := {
  platform : string;
  chip : string;
  memory_gb : number;
  cpu_cores : Z;
  gpu_cores : Z;
  metal_supported : bool;
}.
(** [HardwareProfile.public_dict] *)
Definition public_dict (h : HardwareProfile) : json :=
  JObj [("platform", JStr h.(platform)); ("chip", JStr h.(chip)); ("memory_gb", num_json h.(memory_gb));
    ("cpu_cores", JInt h.(cpu_cores)); ("gpu_cores", JInt h.(gpu_cores)); ("metal_supported", JBool h.(metal_supported))].

(** What follows each occurrence of a text, as [re.search] and [re.findall]
    meet them.  The literal heads of the source's patterns overlap neither
    themselves nor the blanks and digits behind them. *)
Fixpoint tails_after (lit s : string) : list string :=
  (if startswith lit s then [removeprefix lit s] else []) ++
  match s with EmptyString => [] | String _ s' => tails_after lit s' end.
Fixpoint span {A} (f : A -> bool) (l : list A) : list A * list A :=
  match l with
  | [] => ([], [])
  | x :: l' => if f x then let '(h, t) := span f l' in (x :: h, t) else ([], l)
  end.
(** [\s*(\d+)], then a check of what follows the number. *)
Definition number_at (follows : list ascii -> bool) (tail : string) : option Z :=
  match span is_digit (drop_while is_space (chars tail)) with
  | ([], _) => None
  | (ds, rest) => if follows rest then Some (digits_val ds) else None
  end.
Definition numbers_after (lit : string) (follows : list ascii -> bool) (text : string) : list Z :=
  omap (number_at follows) (tails_after lit text).
(** [_match_int] *)
Definition _match_int (lit : string) (follows : list ascii -> bool) (text : string) : Z :=
  default 0 (head (numbers_after lit follows text)).
(** [Chip:\s*(.+)], stripped.  Only a blank to the end of the text that is no
    line break leaves the group blank. *)
Definition newline : ascii := "010"%char.
Definition chip_at (tail : string) : option string :=
  match drop_while is_space (chars tail) with
  | [] => if existsb (fun c => negb (bool_decide (c = newline))) (chars tail) then Some EmptyString else None
  | rest => Some (strip (of_chars (span (fun c => negb (bool_decide (c = newline))) rest).1))
  end.
(** [a or b] on texts. *)
Definition str_or (a b : string) : string := if nonempty a then a else b.
(** [detect_hardware]: the platform module and [_mac_profile] are given. *)
Definition detect_hardware (system processor : string) (mac_profile : res string) : res HardwareProfile :=
  if bool_decide (system = "Darwin") then
    let? details := mac_profile in
    let cores := numbers_after "Total Number of Cores:" (fun _ => true) details in
    Ok {| platform := "macOS";
          chip := match head (omap chip_at (tails_after "Chip:" details)) with
                  | Some c => c
                  | None => str_or processor "Apple Silicon"
                  end;
          memory_gb := NFloat (f_of_Z (_match_int "Memory:"
            (fun rest => startswith "GB" (of_chars (drop_while is_space rest))) details));
          cpu_cores := _match_int "Total Number of Cores:" (fun _ => true) details;
          gpu_cores := if (1 <? length cores)%nat then default 0 (last cores) else 0;
          metal_supported := contains "Metal: Supported" details || contains "Metal Support:" details |}
  else
    Ok {| platform := system; chip := str_or processor "unknown"; memory_gb := NInt 0; cpu_cores := 0; gpu_cores := 0;
          metal_supported := false |}.

(** [float(os.getenv(k, d))] *)
Definition env_float (k d : string) (env : environ) : res float :=
  match float_of_str (getenv k d env) with
  | Some f => Ok f
  | None => raise ValueError ("could not convert string to float: " +:+ repr_str (getenv k d env))
  end.
(** [_model_profile] *)
Definition _model_profile (env : environ) : res ModelProfile :=
  let? billions := env_float "METAL_MODEL_PARAMETERS_B" "8" env in
  let? bits := env_int "METAL_MODEL_WEIGHT_BITS" "4" env in
  let? kv := env_int "METAL_KV_BYTES_PER_TOKEN_FP16" "65536" env in
  let? kvb := env_int "METAL_KV_BITS" "8" env in
  Ok {| Planner.model_id := getenv "METAL_MODEL_ID" "mlx-community/Qwen3-8B-4bit" env; parameter_billions := billions;
        weight_bits := bits; kv_bytes_per_token_fp16 := kv; kv_bits := kvb; vision_reserve_gb := fratio 15 10 |}.
(** [_backend]: the MLX model is loaded by the library. *)
Definition _backend {B} (development : B) (mlx : string -> res B) (env : environ) (model_id : string) : res B :=
  let name := getenv "METAL_BACKEND" "development" env in
  if bool_decide (name = "development") then Ok development
  else if bool_decide (name = "mlx") then mlx model_id
  else raise RuntimeError "METAL_BACKEND must be development or mlx".

(** [create_app]: the objects its handlers share. *)
Record application {B : Type} := {
  a_hardware : HardwareProfile;
  a_model : ModelProfile;
  a_backend : B;
  a_planner : MemoryPlanner;
  a_scheduler : Scheduler.BoundedScheduler;
  a_cache : PromptCacheIndex;
}.
Definition create_app {B} (development : B) (mlx : string -> res B) (env : environ) (detected : HardwareProfile)
    (model_ : option ModelProfile) (backend : option B) : res (application (B := B)) :=
  let? selected := match model_ with Some m => Ok m | None => _model_profile env end in
  let? slots := env_int "METAL_MAXIMUM_SLOTS" "2" env in
  let? b := match backend with Some b => Ok b | None => _backend development mlx env selected.(Planner.model_id) end in
  let? limit := env_int "METAL_QUEUE_LIMIT" "20" env in
  let? sched := Scheduler.new_scheduler slots limit in
  let? sys := env_float "METAL_SYSTEM_RESERVE_GB" "6" env in
  let? run := env_float "METAL_RUNTIME_RESERVE_GB" "2" env in
  let? entries := env_int "METAL_PROMPT_CACHE_ENTRIES" "128" env in
  let? c := new_cache entries in
  Ok {| a_hardware := detected; a_model := selected; a_backend := b;
        a_planner := {| total_memory_gb := num detected.(memory_gb); model := selected; system_reserve_gb := sys;
                        runtime_reserve_gb := run; maximum_slots := slots |};
        a_scheduler := sched; a_cache := c |}.

(** [ready], [models] and [runtime_profile] *)
Definition ready (env : environ) (h : HardwareProfile) : res json :=
  let backend := getenv "METAL_BACKEND" "development" env in
  if bool_decide (backend = "mlx") && negb h.(metal_supported) then http 503 "MLX backend requires Apple Metal"
  else Ok (JObj [("status", JStr "ready"); ("backend", JStr backend)]).
Definition models (m : ModelProfile) : json :=
  JObj [("object", JStr "list"); ("data", JArr [JObj [("id", JStr m.(Planner.model_id)); ("object", JStr "model");
    ("owned_by", JStr "openmodelops")]])].
Definition runtime_profile {B} (a : application (B := B)) : json :=
  JObj [("hardware", public_dict a.(a_hardware));
    ("model", JObj [("id", JStr a.(a_model).(Planner.model_id)); ("parameter_billions", JFloat a.(a_model).(parameter_billions));
       ("weight_bits", JInt a.(a_model).(weight_bits)); ("kv_bits", JInt a.(a_model).(kv_bits));
       ("estimated_weights_gb", JFloat (estimated_weights_gb a.(a_model)))]);
    ("capacity", JObj [("maximum_slots", JInt a.(a_scheduler).(Scheduler.slots));
       ("queue_limit", JInt a.(a_scheduler).(Scheduler.queue_limit))])].

Section api.
(** The scheduler as the handler sees it: a submission that waits for its
    result, and the number of active workers. *)
Context {W : Type} (submit : string -> Z -> M W Scheduler.GenerationResult) (active : W -> Z).
Context (planner : MemoryPlanner).

Record service := { cache : PromptCacheIndex; requests : counter; clamped : Z; world : W }.
Definition on_cache {A} (m : M PromptCacheIndex A) : M service A :=
  zoom_M cache (fun c s => {| cache := c; requests := s.(requests); clamped := s.(clamped); world := s.(world) |}) m.
Definition on_world {A} (m : M W A) : M service A :=
  zoom_M world (fun w s => {| cache := s.(cache); requests := s.(requests); clamped := s.(clamped); world := w |}) m.
Definition count (labels : list string) : M service unit :=
  modify_M (fun s => {| cache := s.(cache); requests := inc labels s.(requests); clamped := s.(clamped); world := s.(world) |}).
Definition count_clamped : M service unit :=
  modify_M (fun s => {| cache := s.(cache); requests := s.(requests); clamped := s.(clamped) + 1; world := s.(world) |}).

(** [class PlanRequest(BaseModel)] and [plan] *)
Definition PlanRequest_valid (r : AdmissionRequest) : bool :=
  (1 <=? r.(prompt_tokens)) && (1 <=? r.(maximum_generation_tokens)) && (r.(maximum_generation_tokens) <=? 16384) &&
  (0 <=? r.(active_slots)).
Definition plan (r : AdmissionRequest) : res json :=
  if negb (PlanRequest_valid r) then http 422 "request validation failed"
  else let? d := decide planner r in Ok (decision_json d).

Definition completion (id : string) (created : Z) (result : Scheduler.GenerationResult) (hit : bool)
    (d : AdmissionDecision) : json :=
  JObj [("id", JStr ("chatcmpl-" +:+ id)); ("object", JStr "chat.completion"); ("created", JInt created);
    ("model", JStr planner.(model).(Planner.model_id));
    ("choices", JArr [JObj [("index", JInt 0);
       ("message", JObj [("role", JStr "assistant"); ("content", JStr result.(Scheduler.text))]);
       ("finish_reason", JStr "stop")]]);
    ("usage", JObj [("prompt_tokens", JInt result.(Scheduler.prompt_tokens));
       ("completion_tokens", JInt result.(Scheduler.completion_tokens));
       ("total_tokens", JInt (result.(Scheduler.prompt_tokens) + result.(Scheduler.completion_tokens)))]);
    ("openmodelops", JObj [("cache_hit", JBool hit); ("admission", JStr d.(reason));
       ("granted_context", JInt d.(granted_context))])].

(** [chat] *)
Definition chat (q : ChatCompletionRequest) (id : string) (created : Z) : M service json :=
  if negb (ChatCompletionRequest_valid q) then unprocessable else
  if q.(stream) then http_M 501 "streaming is planned for the native batch milestone" else
  let model_ := planner.(model).(Planner.model_id) in
  if negb (bool_decide (q.(c_model) = model_)) then http_M 404 "model not loaded" else
  let prompt := _prompt q.(messages) in
  let tokens := estimate_tokens prompt in
  let! s := get_M in
  let! d := lift_M (decide planner {| prompt_tokens := tokens; maximum_generation_tokens := q.(max_tokens);
                                      active_slots := active s.(world); multimodal := q.(c_multimodal) |}) in
  if negb d.(admitted) then
    do! count ["rejected"; "miss"] in
    lift_M (Err (HTTPExc 429 (JObj [("reason", JStr d.(reason)); ("plan", decision_json d)])))
  else
  let maximum_tokens := generation_tokens q.(max_tokens) d.(granted_context) tokens in
  do! (if maximum_tokens <? q.(max_tokens) then count_clamped else mret_M tt) in
  let! entry := on_cache (lookup model_ prompt) in
  let hit := match entry with Some _ => true | None => false end in
  let label := if hit then "hit" else "miss" in
  let! result :=
    catch_M (catch_M (on_world (submit prompt maximum_tokens)) [OverflowError]
      (fun e => do! count ["queue_full"; label] in http_M 429 (str_exn e)))
    [TimeoutError]
      (fun _ => do! count ["timeout"; label] in http_M 504 "inference deadline exceeded") in
  do! count ["success"; label] in
  do! on_cache (record model_ prompt result.(Scheduler.prompt_tokens)) in
  mret_M (completion id created result hit d).
End api.

End Api.

(** ** Lemmas *)

Module CacheFacts.
Import Cache Lru.

(** The abstraction: the ordered dictionary holds the specification's bindings,
    oldest first. *)
Definition represents (cap : nat) (c : PromptCacheIndex) (l : lru) : Prop :=
  c.(capacity) = Z.of_nat cap /\ c.(_entries) = rev l /\ dwf c.(_entries) /\ (length l <= cap)%nat.

Lemma ddel_filter (k : string) (d : dict string PromptCacheEntry) : dwf d -> ddel k d = forget k d.
Proof.
  unfold forget. induction d as [|[k' v] d IH]; cbn; intros Hw; [done|]. apply NoDup_cons in Hw as [Hk Hw].
  case_decide as Hd; rewrite bool_decide_decide.
  - subst k'. rewrite decide_True by done. cbn. symmetry. rewrite <- (IH Hw).
    clear IH. induction d as [|[k2 v2] d IH]; cbn; [done|].
    cbn in Hk. apply not_elem_of_cons in Hk as [Hk1 Hk2]. rewrite decide_False by done.
    apply NoDup_cons in Hw as [_ Hw]. f_equal. by apply IH.
  - rewrite decide_False by done. cbn. f_equal. by apply IH.
Qed.
Lemma forget_dset k e (d : dict string PromptCacheEntry) : forget k (dset k e d) = forget k d.
Proof.
  unfold forget. induction d as [|[k' v] d IH]; cbn; [by rewrite bool_decide_eq_true_2|].
  case_decide as Hd; cbn; [|by rewrite IH]. subst. by rewrite bool_decide_eq_true_2.
Qed.
Lemma forget_rev k (l : lru) : forget k (rev l) = rev (forget k l).
Proof. unfold forget. induction l as [|x l IH]; cbn; [done|]. rewrite List.filter_app, IH. cbn. case_bool_decide; cbn; by rewrite ?app_nil_r. Qed.
Lemma forget_length k (l : lru) : (length (forget k l) <= length l)%nat.
Proof. apply List.filter_length_le. Qed.
Lemma binding_length k (l : lru) e : binding k l = Some e -> (S (length (forget k l)) <= length l)%nat.
Proof.
  unfold binding, forget. induction l as [|x l IH]; cbn; [done|]. destruct (bool_decide (x.1 = k)); cbn.
  - intros _. pose proof (forget_length k l). unfold forget in *. lia.
  - intros H. specialize (IH H). lia.
Qed.
Lemma dget_binding k (l : lru) : dwf (rev l) -> dget k (rev l) = binding k l.
Proof.
  unfold binding. induction l as [|[k' v] l IH]; [done|]. intros Hw. cbn in *. rewrite dget_app. cbn.
  unfold dwf, dkeys in Hw. rewrite map_app in Hw. apply NoDup_app in Hw as (Hw & Hk & _). specialize (IH Hw).
  case_bool_decide as Hd; cbn.
  - subst. assert (dget k (rev l) = None) as ->; [|by rewrite decide_True].
    apply dget_None. intros Hi. by apply (Hk k Hi); left.
  - rewrite IH. destruct (option_map _ _); [done|]. by rewrite decide_False by congruence.
Qed.
Lemma move_to_end_dset k e (d : dict string PromptCacheEntry) :
  dwf d -> move_to_end k (dset k e d) = forget k d ++ [(k, e)].
Proof.
  intros Hw. unfold move_to_end. rewrite dget_dset_eq, ddel_filter by (by apply dset_wf). by rewrite forget_dset.
Qed.

Lemma lookup_refines cap m p c l : represents cap c l -> exists c',
  lookup m p c = (Ok (get (key_for m p) l).1, c') /\ represents cap c' (get (key_for m p) l).2.
Proof.
  intros (Hc & He & Hw & Hl). unfold lookup, get. mred. rewrite He in *.
  rewrite (dget_binding _ _ Hw). destruct (binding _ l) as [e|] eqn:E;
    [|exists c; split; [done|]; split_and!; [done..|by rewrite He|done]].
  eexists. split; [reflexivity|]. split_and!; cbn; [done| | |].
  - unfold move_to_end. rewrite (dget_binding _ _ Hw), E, ddel_filter, forget_rev by done. done.
  - by apply move_to_end_wf.
  - by apply binding_length in E; lia.
Qed.
Lemma record_refines cap m p n c l : (1 <= cap)%nat -> represents cap c l -> exists c' e,
  record m p n c = (Ok e, c') /\ e = {| key := key_for m p; model_id := m; token_count := n |} /\
  represents cap c' (put cap (key_for m p) e l).
Proof.
  intros Hp (Hc & He & Hw & Hl). unfold record. mred. rewrite Hc, He in *.
  set (k := key_for m p). set (e := {| key := k; model_id := m; token_count := n |}).
  assert (Hm : dwf (move_to_end k (dset k e (rev l)))) by (by apply move_to_end_wf, dset_wf).
  pose proof (drop_wf (length (move_to_end k (dset k e (rev l))) - cap) _ Hm) as Hd. rewrite evict_spec.
  rewrite move_to_end_dset, forget_rev in * by done.
  change (rev (forget k l) ++ [(k, e)]) with (rev ((k, e) :: forget k l)) in *. rewrite skipn_rev, length_rev in *. mred.
  replace (length ((k, e) :: forget k l) - (length ((k, e) :: forget k l) - cap))%nat
    with (Nat.min cap (length ((k, e) :: forget k l))) in * by lia.
  assert (Ht : forall x : lru, take (Nat.min cap (length x)) x = take cap x).
  { intros x. destruct (Nat.le_ge_cases cap (length x)); [by rewrite Nat.min_l|].
    rewrite Nat.min_r, !take_ge by lia. done. }
  rewrite Ht in *. eexists _, e. split; [reflexivity|]. split; [done|]. unfold put.
  split_and!; cbn [capacity _entries]; [done..|]. rewrite length_take. lia.
Qed.
Lemma calls_refines cap os c l : (1 <= cap)%nat -> represents cap c l -> exists c',
  calls os c = (Ok (spec_calls cap os l).1, c') /\ represents cap c' (spec_calls cap os l).2.
Proof.
  intros Hp. revert c l. induction os as [|o os IH]; intros c l Hr; cbn [calls spec_calls]; [by exists c|].
  assert (exists c1, call o c = (Ok (spec_call cap o l).1, c1) /\ represents cap c1 (spec_call cap o l).2) as (c1 & E1 & R1).
  { destruct o as [m p|m p n]; cbn [call spec_call]; [by apply lookup_refines|].
    destruct (record_refines cap m p n c l Hp Hr) as (c1 & e & E & -> & R). exists c1. by rewrite (bind_ok _ _ _ _ _ E). }
  rewrite (bind_ok _ _ _ _ _ E1). destruct (spec_call cap o l) as [r l1]. cbn in *.
  destruct (IH c1 l1 R1) as (c2 & E2 & R2). rewrite (bind_ok _ _ _ _ _ E2).
  destruct (spec_calls cap os l1) as [rs l2]. by exists c2.
Qed.

End CacheFacts.

Module SchedulerFacts.
Import Scheduler.

Definition tickets (l : list WorkItem) : list nat := map ticket l.
(** Bounds, and one place for every item. *)
Record inv (s : BoundedScheduler) : Prop := {
  i_queue : Z.of_nat (length s.(queue)) <= s.(queue_limit);
  i_running : active s <= s.(_workers);
  i_workers : s.(_workers) = 0 \/ s.(_workers) = s.(slots);
  i_slots : 1 <= s.(slots);
  i_once : NoDup (tickets s.(queue) ++ tickets s.(running));
  i_known : forall t, t ∈ tickets s.(queue) ++ tickets s.(running) -> (t < length s.(futures))%nat;
  i_queued : forall t, t ∈ tickets s.(queue) -> s.(futures) !! t = Some Waiting \/ s.(futures) !! t = Some Cancelled;
}.
Definition settled (f : future) : bool := match f with Waiting => false | _ => true end.
(** Every future that waits is the one of a queued or running item. *)
Definition accounted (s : BoundedScheduler) : Prop :=
  forall t, s.(futures) !! t = Some Waiting -> t ∈ tickets s.(queue) ++ tickets s.(running).
(** Nothing is forgotten: the futures of [s] are there in [s'], and those that
    were settled kept their outcome. *)
Definition futures_kept (s s' : BoundedScheduler) : Prop :=
  forall t f, s.(futures) !! t = Some f -> exists f', s'.(futures) !! t = Some f' /\ (settled f = true -> f' = f).

Lemma drop_ticket_tickets t l : NoDup (tickets l) ->
  NoDup (tickets (drop_ticket t l)) /\ forall u, u ∈ tickets (drop_ticket t l) <-> u ∈ tickets l /\ u <> t.
Proof.
  unfold tickets. induction l as [|x l IH]; cbn; intros H.
  - split; [constructor|]. intros u. split; [|by intros []]. intros Hu. by apply elem_of_nil in Hu.
  - apply NoDup_cons in H as [Hx H]. destruct (IH H) as [IH1 IH2]. destruct (Nat.eqb_spec (ticket x) t) as [<-|Hne].
    + split; [done|]. intros u. rewrite elem_of_cons. split; [|by intros [[->|] ?]].
      intros Hu. split; [by right|]. by intros ->.
    + cbn. split.
      * apply NoDup_cons. split; [|done]. rewrite IH2. by intros [? _].
      * intros u. rewrite !elem_of_cons, IH2. split; [intros [->|[? ?]]; auto|tauto].
Qed.
Lemma drop_ticket_length t l : (length (drop_ticket t l) <= length l)%nat.
Proof. induction l as [|x l IH]; cbn; [lia|]. destruct (_ =? _)%nat; cbn; lia. Qed.
Lemma drop_ticket_shorter x l : x ∈ l -> (length (drop_ticket x.(ticket) l) < length l)%nat.
Proof.
  induction l as [|y l IH]; [by intros ?%elem_of_nil|]. intros [->|Hx]%elem_of_cons; cbn; [by rewrite Nat.eqb_refl; lia|].
  destruct (_ =? _)%nat; [lia|]. cbn. specialize (IH Hx). lia.
Qed.

(** The one update of the futures: a waiting one is settled. *)
Definition settle (t : nat) (f : future) (fs : list future) : list future :=
  match fs !! t with Some Waiting => <[t := f]> fs | _ => fs end.
Lemma settle_spec t f fs u :
  settle t f fs !! u = if bool_decide (u = t) then match fs !! t with Some Waiting => Some f | o => o end else fs !! u.
Proof.
  unfold settle. destruct (fs !! t) as [g|] eqn:E.
  - case_bool_decide; subst; destruct g; rewrite ?list_lookup_insert_eq, ?list_lookup_insert_ne by (eauto using lookup_lt_Some); done.
  - case_bool_decide; by subst.
Qed.
Lemma settle_length t f fs : length (settle t f fs) = length fs.
Proof. unfold settle. destruct (fs !! t) as [[]|]; rewrite ?length_insert; done. Qed.
Lemma expire_futures t s : expire t s = with_parts s s.(queue) s.(running) (settle t Cancelled s.(futures)).
Proof. unfold expire, settle. destruct s as [? ? ? ? ? fs]; cbn. by destruct (fs !! t) as [[]|]. Qed.
Definition outcome (r : res GenerationResult) : future := match r with Ok g => Result g | Err e => Failure e end.
Lemma finish_futures t r s :
  finish t r s = with_parts s s.(queue) (drop_ticket t s.(running)) (settle t (outcome r) s.(futures)).
Proof. unfold finish, settle, outcome. by destruct (futures s !! t) as [[]|]. Qed.


Lemma settle_kept (s s' : BoundedScheduler) t f : s'.(futures) = settle t f s.(futures) -> futures_kept s s'.
Proof.
  intros E u g Hg. rewrite E, settle_spec. case_bool_decide as Hu; [|by exists g].
  subst u. rewrite Hg. by destruct g; eexists.
Qed.
Lemma settle_waiting t f fs u :
  settled f = true -> settle t f fs !! u = Some Waiting -> fs !! u = Some Waiting /\ u <> t.
Proof.
  rewrite settle_spec. case_bool_decide as Hu; [|done]. destruct (fs !! t) as [[]|]; try done. by destruct f.
Qed.
Lemma settle_cancelled t fs u :
  fs !! u = Some Waiting \/ fs !! u = Some Cancelled ->
  settle t Cancelled fs !! u = Some Waiting \/ settle t Cancelled fs !! u = Some Cancelled.
Proof. rewrite settle_spec. case_bool_decide as Hu; [|done]. subst. intros [-> | ->]; auto. Qed.

Lemma submit_spec p n s : submit p n s =
  if full s then (raise OverflowError "inference queue is full", s)
  else (Ok (length s.(futures)),
        with_parts s (s.(queue) ++ [{| ticket := length s.(futures); prompt := p; maximum_tokens := n |}])
          s.(running) (s.(futures) ++ [Waiting])).
Proof. unfold submit. mred. by destruct (full s). Qed.

Lemma submit_inv p n s r s' : submit p n s = (r, s') -> inv s -> accounted s ->
  inv s' /\ accounted s' /\ futures_kept s s'.
Proof.
  rewrite submit_spec. unfold full. destruct (Z.leb_spec (queue_limit s) (Z.of_nat (length (queue s)))) as [Hf|Hf];
    intros [= _ <-] I Ha; [split_and!; [done..|]; intros t f Hf'; by exists f|].
  destruct I as [I1 I2 I3 I4 I5 I6 I7]. unfold with_parts. split_and!; [constructor| |]; cbn; try done.
  - rewrite length_app. cbn. lia.
  - unfold tickets. rewrite map_app. cbn. rewrite <- app_assoc. apply NoDup_app in I5 as (N1 & N2 & N3).
    apply NoDup_app. split_and!; [done| |].
    + intros t Ht. cbn. rewrite elem_of_cons. intros [->|Ht']; [|by apply (N2 t)].
      assert (length (futures s) < length (futures s))%nat; [|lia]. apply I6, elem_of_app. by left.
    + cbn. apply NoDup_cons. split; [|done]. intros Ht.
      assert (length (futures s) < length (futures s))%nat; [|lia]. apply I6, elem_of_app. by right.
  - intros t. unfold tickets. rewrite map_app, !elem_of_app, length_app. cbn. rewrite list_elem_of_singleton.
    intros [[Ht| ->]|Ht]; [|lia|]; assert (t < length (futures s))%nat; try lia; apply I6, elem_of_app; auto.
  - intros t. unfold tickets. rewrite map_app, elem_of_app. cbn. rewrite list_elem_of_singleton. intros [Ht| ->].
    + rewrite lookup_app_l; [by apply I7|]. apply I6, elem_of_app. by left.
    + left. rewrite lookup_app_r, Nat.sub_diag by lia. done.
  - intros t Ht. unfold tickets. cbn. rewrite map_app, !elem_of_app. cbn. rewrite list_elem_of_singleton.
    apply lookup_app_Some in Ht as [Ht|[Hl Ht]]; [apply Ha, elem_of_app in Ht; tauto|].
    apply list_lookup_singleton_Some in Ht as [? _]. left. right. lia.
  - intros t f Hf'. exists f. cbn. by rewrite (lookup_app_l_Some _ _ _ _ Hf').
Qed.
Lemma expire_inv t s : inv s -> accounted s ->
  inv (expire t s) /\ accounted (expire t s) /\ futures_kept s (expire t s).
Proof.
  intros [I1 I2 I3 I4 I5 I6 I7] Ha. rewrite expire_futures. split_and!; [constructor| |]; cbn; try done.
  - by rewrite settle_length.
  - intros u Hu. apply settle_cancelled. auto.
  - intros u Hu. cbn in *. apply settle_waiting in Hu as [Hu _]; [|done]. by apply Ha.
  - by apply (settle_kept _ _ t Cancelled).
Qed.
Lemma take_inv x s s' : take_item s = Some (x, s') -> inv s -> accounted s ->
  inv s' /\ accounted s' /\ futures_kept s s'.
Proof.
  unfold take_item. destruct (queue s) as [|y q] eqn:Eq; [done|]. destruct (Z.ltb_spec (active s) (_workers s)); [|done].
  intros [= <- <-] [I1 I2 I3 I4 I5 I6 I7] Ha. unfold accounted in Ha. rewrite Eq in *.
  assert (HP : tickets q ++ tickets (y :: running s) ≡ₚ tickets (y :: q) ++ tickets (running s)).
  { unfold tickets. cbn. symmetry. apply Permutation_middle. }
  split_and!; [constructor| |]; cbn [queue running futures _workers slots queue_limit with_parts active length]; try done.
  - cbn in *. lia.
  - unfold active in *. cbn [with_parts running length]. lia.
  - by rewrite HP.
  - intros t. rewrite HP. apply I6.
  - intros t Ht. apply I7. by right.
  - intros t Ht. cbn [with_parts queue running]. rewrite HP. by apply Ha.
  - intros t f Hf. by exists f.
Qed.
Lemma finish_inv x r s : x ∈ s.(running) -> inv s -> accounted s ->
  inv (finish x.(ticket) r s) /\ accounted (finish x.(ticket) r s) /\ futures_kept s (finish x.(ticket) r s).
Proof.
  intros Hx [I1 I2 I3 I4 I5 I6 I7] Ha. rewrite finish_futures.
  pose proof I5 as (N1 & N2 & N3)%NoDup_app. destruct (drop_ticket_tickets (ticket x) _ N3) as [D1 D2].
  assert (Hq : forall t, t ∈ tickets (queue s) -> t <> ticket x).
  { intros t Ht ->. apply (N2 _ Ht), list_elem_of_fmap_2, Hx. }
  assert (Hout : settled (outcome r) = true) by (by destruct r).
  split_and!; [constructor| |]; cbn; try done.
  - unfold active in *. cbn. pose proof (drop_ticket_length (ticket x) (running s)). lia.
  - apply NoDup_app. split_and!; [done| |done]. intros t Ht [Ht' _]%D2. by apply (N2 t).
  - intros t. rewrite settle_length, elem_of_app, D2. intros Ht. apply I6, elem_of_app. tauto.
  - intros t Ht. rewrite settle_spec, bool_decide_eq_false_2 by auto. auto.
  - intros t Ht. cbn in *. apply settle_waiting in Ht as [Ht Hne]; [|done]. rewrite elem_of_app, D2.
    apply Ha, elem_of_app in Ht. tauto.
  - by apply (settle_kept _ _ (ticket x) (outcome r)).
Qed.
Lemma scheduler_step_inv s s' : step s s' -> inv s -> accounted s -> inv s' /\ accounted s' /\ futures_kept s s'.
Proof.
  destruct 1 as [s|s p n r s' E|s t|s x s' E|s x r Hx]; intros I Ha.
  - unfold start. destruct (Z.eqb_spec (_workers s) 0) as [E|E]; [|split_and!; [done..|intros u f Hf; by exists f]].
    destruct I as [I1 I2 I3 I4 I5 I6 I7]. split_and!; [constructor| |]; cbn; try done.
    + unfold active in *. cbn. lia.
    + by right.
    + intros u f Hf. by exists f.
  - by apply (submit_inv p n s r).
  - by apply expire_inv.
  - by apply (take_inv x).
  - by apply finish_inv.
Qed.
Lemma steps_inv s s' : steps s s' -> inv s -> accounted s -> inv s' /\ accounted s'.
Proof. induction 1 as [|s s1 s2 _ IH Hs]; intros I Ha; [done|]. destruct (IH I Ha). edestruct scheduler_step_inv as (? & ? & _); eauto. Qed.
Lemma steps_before s s1 s2 : step s s1 -> steps s1 s2 -> steps s s2.
Proof.
  intros H. induction 1 as [s1|s1 s2 s3 _ IH Hs]; [|by eapply steps_more; eauto].
  eapply steps_more; [apply steps_none|done].
Qed.
Lemma new_inv a b s : new_scheduler a b = Ok s -> inv s /\ accounted s /\ s.(slots) = a /\ s.(queue_limit) = b.
Proof.
  unfold new_scheduler. destruct (Z.ltb_spec a 1), (Z.ltb_spec b 1); cbn; try done. intros [= <-].
  split_and!; [constructor| | |]; cbn; try done; try lia; try (left; reflexivity);
    try (by apply NoDup_nil_2); by intros u Hu; cbn in Hu; try apply elem_of_nil in Hu.
Qed.
Lemma step_params s s' : step s s' -> s'.(slots) = s.(slots) /\ s'.(queue_limit) = s.(queue_limit) /\
  (s.(_workers) = s.(slots) -> s'.(_workers) = s'.(slots)).
Proof.
  destruct 1 as [s|s p n r s' E|s t|s x s' E|s x r Hx].
  - unfold start. by destruct (_workers s =? 0).
  - rewrite submit_spec in E. destruct (full s); by injection E as _ <-.
  - by rewrite expire_futures.
  - unfold take_item in E. destruct (queue s); [done|]. destruct (_ <? _); [|done]. by injection E as _ <-.
  - by rewrite finish_futures.
Qed.
Lemma worker_step_step s s' : worker_step s s' -> step s s'.
Proof. destruct 1; [by eapply s_take|by apply s_finish]. Qed.

(** The work left: two moves per queued item, one per running item. *)
Definition work (s : BoundedScheduler) : nat := 2 * length s.(queue) + length s.(running).
Lemma worker_step_work s s' : worker_step s s' -> (work s' < work s)%nat.
Proof.
  destruct 1 as [s x s' E|s x r Hx]; unfold work.
  - unfold take_item in E. destruct (queue s); [done|]. destruct (_ <? _); [|done]. injection E as _ <-. cbn. lia.
  - rewrite finish_futures. cbn. pose proof (drop_ticket_shorter x _ Hx). lia.
Qed.
Lemma worker_step_acc s : Acc (fun b a => worker_step a b) s.
Proof.
  induction s as [s IH] using (induction_ltof1 _ work). constructor. intros s' H. by apply IH, worker_step_work.
Qed.
Lemma worker_progress s : inv s -> s.(_workers) = s.(slots) ->
  (exists s', worker_step s s') \/ s.(queue) = [] /\ s.(running) = [].
Proof.
  intros I Hw. destruct (running s) as [|x l] eqn:Er.
  - destruct (queue s) as [|y q] eqn:Eq; [by right|]. left. eexists. eapply w_take with (x := y). unfold take_item. rewrite Eq.
    destruct (Z.ltb_spec (active s) (_workers s)) as [_|Hl]; [done|].
    unfold active in Hl. rewrite Er in Hl. cbn in Hl. pose proof (i_slots s I). lia.
  - left. eexists. apply w_finish with (x := x) (r := raise OtherError EmptyString). rewrite Er. by left.
Qed.

End SchedulerFacts.

Module PlannerFacts.
Import Planner.

Lemma fdiv_ok x y z : fdiv x y = Ok z -> z = fdiv_raw x y.
Proof. unfold fdiv. destruct (is_zero y); [done|]. by intros [= <-]. Qed.

(** What is left for the caches, as floats. *)
Lemma available_num p multimodal : num (available_gb p multimodal) =
  fsub (fmax fzero (fsub (fsub (fsub p.(total_memory_gb) p.(system_reserve_gb)) p.(runtime_reserve_gb)) (estimated_weights_gb p.(model))))
    (if multimodal then p.(model).(vision_reserve_gb) else fzero).
Proof. unfold available_gb, cache_budget_gb, fmax. by destruct (fgtb _ _), multimodal. Qed.

(** A decision that returned, by its reason. *)
Lemma decide_inv p r d : decide p r = Ok d ->
  let requested := r.(prompt_tokens) + r.(maximum_generation_tokens) in
  let slots := r.(active_slots) + 1 in
  let left := fmax fzero (fsub (fmax fzero (fsub (fsub (fsub p.(total_memory_gb) p.(system_reserve_gb)) p.(runtime_reserve_gb))
    (estimated_weights_gb p.(model)))) (if r.(multimodal) then p.(model).(vision_reserve_gb) else fzero)) in
  d.(requested_context) = requested /\
  if p.(maximum_slots) <? slots then d.(admitted) = false /\ d.(reason) = "concurrency_limit" /\ d.(granted_context) = 0
  else exists kv context,
    ftrunc (fratio (p.(model).(kv_bytes_per_token_fp16) * p.(model).(kv_bits)) 16) = Ok kv /\
    ftrunc (fdiv_raw (fdiv_raw (fmul left (f_of_Z gib)) (f_of_Z slots)) (f_of_Z (Z.max 1 kv))) = Ok context /\
    if r.(prompt_tokens) <=? context then
      d.(admitted) = true /\ d.(granted_context) = Z.min requested context /\
      d.(reason) = (if requested <=? context then "admitted" else "generation_clamped")
    else d.(admitted) = false /\ d.(granted_context) = context /\ d.(reason) = "insufficient_memory".
Proof.
  cbv zeta. rewrite <- available_num. unfold decide. rewrite Z.gtb_ltb. destruct (_ <? _); [by intros [= <-]|].
  destruct (fdiv _ (f_of_Z (active_slots r + 1))) as [b|] eqn:Eb; [|done]. apply fdiv_ok in Eb as ->. cbn [mbind res_bind].
  unfold kv_bytes_per_token. destruct (ftrunc (fratio _ 16)) as [kv|] eqn:Ek; [|done]. cbn [mbind res_bind].
  destruct (fdiv _ (f_of_Z (Z.max 1 kv))) as [per|] eqn:Ep; [|done]. apply fdiv_ok in Ep as ->. cbn [mbind res_bind].
  destruct (ftrunc (fdiv_raw _ _)) as [cap|] eqn:Ec; [|done]. cbn [mbind res_bind].
  rewrite Z.ltb_antisym. destruct (prompt_tokens r <=? cap) eqn:El; cbn [negb]; intros H.
  - assert (d.(requested_context) = r.(prompt_tokens) + r.(maximum_generation_tokens) /\ d.(admitted) = true /\
      d.(granted_context) = Z.min (r.(prompt_tokens) + r.(maximum_generation_tokens)) cap /\
      d.(reason) = if Z.min (r.(prompt_tokens) + r.(maximum_generation_tokens)) cap =? r.(prompt_tokens) + r.(maximum_generation_tokens)
                   then "admitted" else "generation_clamped") as (H1 & H2 & H3 & H4) by (by injection H as <-).
    split; [exact H1|]. exists kv, cap. rewrite El. split_and!; [done|done|done|done|]. rewrite H4.
    destruct (Z.eqb_spec (Z.min (prompt_tokens r + maximum_generation_tokens r) cap) (prompt_tokens r + maximum_generation_tokens r)),
      (Z.leb_spec (prompt_tokens r + maximum_generation_tokens r) cap); done || lia.
  - assert (d.(requested_context) = r.(prompt_tokens) + r.(maximum_generation_tokens) /\ d.(admitted) = false /\
      d.(granted_context) = cap /\ d.(reason) = "insufficient_memory") as (H1 & H2 & H3 & H4) by (by injection H as <-).
    split; [exact H1|]. exists kv, cap. by rewrite El.
Qed.
End PlannerFacts.

(** ** Properties *)

(** The probe on a profile as the system prints it. *)
Definition ex_details : string := "      Chip: Apple M2 Pro" +:+ of_chars [Api.newline] +:+
  "      Total Number of Cores: 10 (6 performance and 4 efficiency)" +:+ of_chars [Api.newline] +:+
  "      Memory: 16 GB" +:+ of_chars [Api.newline] +:+ "      Total Number of Cores: 19" +:+ of_chars [Api.newline] +:+
  "      Metal Support: Metal 3".
Example probe_ex : Api.detect_hardware "Darwin" EmptyString (Ok ex_details) =
  Ok {| Api.platform := "macOS"; Api.chip := "Apple M2 Pro"; Api.memory_gb := NFloat (f_of_Z 16); Api.cpu_cores := 10;
        Api.gpu_cores := 19; Api.metal_supported := true |}.
Proof. vm_compute. reflexivity. Qed.

Module MetalTheorems.

(** C40: the planner admits exactly when a slot is free and the prompt fits the
    context its memory budget gives.  Where the active slots reach the maximum
    the request is refused for concurrency, with no context.  Otherwise the
    context is the memory left for caches (the total less both reserves, less the
    weights at 1.12 times their bits, at least zero, and less the reserve for
    images where the request has any, at least zero) in bytes, shared by the slots
    and divided by the bytes a token takes, truncated; every operation rounds as
    floats do.  A prompt beyond it is refused for memory and told the context; any
    other is admitted, is granted the smaller of what it asked for and that
    context, and its reason says whether that clamped the generation.  The
    generation budget the handler then derives is positive and at most what was
    asked, and exceeds the granted context by at most the one token that the
    handler always allows.  The prompt and the generation asked for are positive
    and the decision returned. *)
Theorem admission_sound (p : Planner.MemoryPlanner) (r : Planner.AdmissionRequest) (d : Planner.AdmissionDecision) :
  1 <= r.(Planner.prompt_tokens) -> 1 <= r.(Planner.maximum_generation_tokens) -> Planner.decide p r = Ok d ->
  let m := p.(Planner.model) in
  let prompt := r.(Planner.prompt_tokens) in
  let requested := prompt + r.(Planner.maximum_generation_tokens) in
  let slots := r.(Planner.active_slots) + 1 in
  let weights := fround 3 (fmul (fdiv_raw (fmul m.(Planner.parameter_billions) (f_of_Z m.(Planner.weight_bits))) (f_of_Z 8)) (fratio 112 100)) in
  let budget := fmax fzero (fsub (fsub (fsub p.(Planner.total_memory_gb) p.(Planner.system_reserve_gb))
                                       p.(Planner.runtime_reserve_gb)) weights) in
  let left := fmax fzero (fsub budget (if r.(Planner.multimodal) then m.(Planner.vision_reserve_gb) else fzero)) in
  d.(Planner.requested_context) = requested /\
  if p.(Planner.maximum_slots) <? slots then
    d.(Planner.admitted) = false /\ d.(Planner.reason) = "concurrency_limit" /\ d.(Planner.granted_context) = 0
  else exists kv context,
    ftrunc (fratio (m.(Planner.kv_bytes_per_token_fp16) * m.(Planner.kv_bits)) 16) = Ok kv /\
    ftrunc (fdiv_raw (fdiv_raw (fmul left (f_of_Z (1024 ^ 3))) (f_of_Z slots)) (f_of_Z (Z.max 1 kv))) = Ok context /\
    if prompt <=? context then
      let granted := Z.min requested context in
      let g := Api.generation_tokens r.(Planner.maximum_generation_tokens) granted prompt in
      d.(Planner.admitted) = true /\ d.(Planner.granted_context) = granted /\
      d.(Planner.reason) = (if requested <=? context then "admitted" else "generation_clamped") /\
      1 <= g <= r.(Planner.maximum_generation_tokens) /\ (prompt + g <= granted \/ granted = prompt /\ g = 1)
    else
      d.(Planner.admitted) = false /\ d.(Planner.granted_context) = context /\ d.(Planner.reason) = "insufficient_memory".
Proof.
  intros Hp Hm H. cbv zeta. apply PlannerFacts.decide_inv in H as (Hreq & Had). split; [exact Hreq|].
  destruct (Z.ltb_spec (Planner.maximum_slots p) (Planner.active_slots r + 1)); [exact Had|].
  destruct Had as (kv & context & Hkv & Hc & Had). exists kv, context. split; [exact Hkv|]. split; [exact Hc|].
  destruct (Z.leb_spec (Planner.prompt_tokens r) context); [|exact Had].
  destruct Had as (H1 & H2 & H3). split; [exact H1|]. split; [exact H2|]. split; [exact H3|].
  unfold Api.generation_tokens. lia.
Qed.

(** A 36 GB machine and an 8B model at 4 bits. *)
Definition ex_model : Planner.ModelProfile :=
  {| Planner.model_id := "qwen"; Planner.parameter_billions := f_of_Z 8; Planner.weight_bits := 4;
     Planner.kv_bytes_per_token_fp16 := 65536; Planner.kv_bits := 8; Planner.vision_reserve_gb := f_of_Z 2 |}.
Definition ex_planner (gb : Z) : Planner.MemoryPlanner :=
  {| Planner.total_memory_gb := f_of_Z gb; Planner.model := ex_model; Planner.system_reserve_gb := f_of_Z 6;
     Planner.runtime_reserve_gb := f_of_Z 2; Planner.maximum_slots := 2 |}.
Definition ex_request : Planner.AdmissionRequest :=
  {| Planner.prompt_tokens := 100000; Planner.maximum_generation_tokens := 16384; Planner.active_slots := 1;
     Planner.multimodal := true |}.
Definition ex_decision : res Planner.AdmissionDecision := Eval vm_compute in Planner.decide (ex_planner 21) ex_request.
Lemma ex_decision_eq : Planner.decide (ex_planner 21) ex_request = ex_decision.
Proof. vm_compute. reflexivity. Qed.

Lemma admission_sound_witness : exists d, Planner.decide (ex_planner 21) ex_request = Ok d /\
  d.(Planner.admitted) = true /\ d.(Planner.reason) = "generation_clamped" /\ d.(Planner.granted_context) = 106823.
Proof.
  destruct (Planner.decide (ex_planner 21) ex_request) as [d|e] eqn:E; [|rewrite ex_decision_eq in E; discriminate].
  exists d. split; [reflexivity|].
  destruct (admission_sound (ex_planner 21) ex_request d ltac:(discriminate) ltac:(discriminate) E) as (_ & kv & context & H1 & H2 & H3).
  assert (kv = 32768) as ->.
  { enough (Ok kv = Ok 32768) as K by (injection K as ->; reflexivity). rewrite <- H1. vm_compute. reflexivity. }
  assert (context = 106823) as ->.
  { enough (Ok context = Ok 106823) as K by (injection K as ->; reflexivity). rewrite <- H2. vm_compute. reflexivity. }
  destruct H3 as (Ha & Hg & Hr & _). split; [exact Ha|]. split; [exact Hr|exact Hg].
Defined.

(** Each grant fits the memory for the slots that are active when it is made, a
    sequence of them need not: on 21 GB a request is granted nearly the whole
    cache while nothing else runs, and a second one half of it while the first
    runs.  With the two reserves and 4 GB of weights they exceed the machine. *)
Definition ex_grant (prompt active : Z) : res Planner.AdmissionDecision :=
  Planner.decide (ex_planner 21) {| Planner.prompt_tokens := prompt; Planner.maximum_generation_tokens := 9000;
    Planner.active_slots := active; Planner.multimodal := false |}.
Lemma grants_exceed_memory : match ex_grant 270000 0, ex_grant 130000 1, Planner.kv_bytes_per_token ex_model with
  | Ok d1, Ok d2, Ok kv =>
      d1.(Planner.admitted) = true /\ d2.(Planner.admitted) = true /\
      21 * Planner.gib < (6 + 2 + 4) * Planner.gib + (d1.(Planner.granted_context) + d2.(Planner.granted_context)) * kv
  | _, _, _ => False
  end.
Proof. vm_compute. repeat split. Qed.

(** C39: the prompt cache is a least-recently-used cache: any sequence of calls
    to a new cache of a positive capacity returns, call by call, what the
    specification returns, and leaves its bindings, at most [capacity] of them,
    in order of use. *)
Theorem prompt_cache_refines_lru (cap : nat) (c0 : Cache.PromptCacheIndex) (os : list Cache.cache_call) :
  Cache.new_cache (Z.of_nat cap) = Ok c0 -> exists c,
    Cache.calls os c0 = (Ok (Lru.spec_calls cap os []).1, c) /\
    c.(Cache._entries) = rev (Lru.spec_calls cap os []).2 /\
    Cache.size c <= c.(Cache.capacity) /\ c.(Cache.capacity) = Z.of_nat cap.
Proof.
  unfold Cache.new_cache. destruct (Z.ltb_spec (Z.of_nat cap) 1) as [|Hc]; [done|]. intros [= <-].
  destruct (CacheFacts.calls_refines cap os {| Cache.capacity := Z.of_nat cap; Cache._entries := [] |} []) as (c & E & R1 & R2 & R3 & R4).
  - lia.
  - split_and!; cbn; [done|done| |lia]. apply NoDup_nil_2.
  - exists c. split_and!; [done..| |done]. unfold Cache.size. rewrite R1, R2, length_rev. lia.
Qed.

Lemma prompt_cache_refines_lru_witness :
  exists c, Cache.size c <= 2 /\
    (Cache.calls [Cache.CRecord "m" "a" 1; Cache.CRecord "m" "b" 2; Cache.CLookup "m" "a"; Cache.CRecord "m" "c" 3; Cache.CLookup "m" "b"]
       {| Cache.capacity := 2; Cache._entries := [] |}).2 = c.
Proof.
  destruct (prompt_cache_refines_lru 2 {| Cache.capacity := 2; Cache._entries := [] |}
    [Cache.CRecord "m" "a" 1; Cache.CRecord "m" "b" 2; Cache.CLookup "m" "a"; Cache.CRecord "m" "c" 3; Cache.CLookup "m" "b"]
    eq_refl) as (c & E & _ & Hs & Hc).
  exists c. split; [rewrite Hc in Hs; exact Hs|]. exact (f_equal snd E).
Defined.

(** C37: while the application serves, the queue never holds more than its limit
    and never more workers are active than there are slots; every request is in
    one place, every waiting future belongs to a queued or running item, an
    outcome once set never changes, and a submission is refused exactly when
    the queue is full, leaving everything as it was. *)
Theorem scheduler_bounded (slots limit : Z) (s0 s : Scheduler.BoundedScheduler) :
  Scheduler.new_scheduler slots limit = Ok s0 -> Scheduler.steps s0 s ->
  Z.of_nat (length s.(Scheduler.queue)) <= limit /\ Scheduler.active s <= slots /\
  NoDup (SchedulerFacts.tickets s.(Scheduler.queue) ++ SchedulerFacts.tickets s.(Scheduler.running)) /\
  SchedulerFacts.accounted s /\
  (forall s', Scheduler.step s s' -> SchedulerFacts.futures_kept s s') /\
  (forall p n, is_ok (Scheduler.submit p n s).1 = false <-> Z.of_nat (length s.(Scheduler.queue)) = limit) /\
  (forall p n e s', Scheduler.submit p n s = (Err e, s') -> e = Exn OverflowError "inference queue is full" /\ s' = s).
Proof.
  intros Hn Hs. destruct (SchedulerFacts.new_inv _ _ _ Hn) as (I0 & A0 & P1 & P2).
  destruct (SchedulerFacts.steps_inv _ _ Hs I0 A0) as [I A].
  assert (Scheduler.slots s = slots /\ Scheduler.queue_limit s = limit) as [E1 E2].
  { clear I A Hn I0 A0. induction Hs as [|s s1 s2 _ IH H]; [done|]. destruct (IH P1 P2) as [? ?].
    apply SchedulerFacts.step_params in H as (-> & -> & _). done. }
  pose proof I as [I1 I2 I3 I4 I5 I6 I7]. rewrite E1, E2 in *. split_and!; try done.
  - destruct I3; unfold Scheduler.active in *; lia.
  - intros s' H. by apply (SchedulerFacts.scheduler_step_inv s s').
  - intros p n. rewrite SchedulerFacts.submit_spec. unfold Scheduler.full. rewrite E2.
    destruct (Z.leb_spec limit (Z.of_nat (length (Scheduler.queue s)))); cbn; split; intros H'; try done; lia.
  - intros p n e s'. rewrite SchedulerFacts.submit_spec. by destruct (Scheduler.full s); intros [= <- <-].
Qed.

(** A scheduler of two slots after three submissions, one of them taken. *)
Definition ex_scheduler : Scheduler.BoundedScheduler :=
  {| Scheduler.slots := 2; Scheduler.queue_limit := 2; Scheduler._workers := 0; Scheduler.queue := [];
     Scheduler.running := []; Scheduler.futures := [] |}.
Definition ex_item (t : nat) : Scheduler.WorkItem :=
  {| Scheduler.ticket := t; Scheduler.prompt := "hi"; Scheduler.maximum_tokens := 8 |}.
Definition ex_busy : Scheduler.BoundedScheduler :=
  {| Scheduler.slots := 2; Scheduler.queue_limit := 2; Scheduler._workers := 2; Scheduler.queue := [ex_item 1; ex_item 2];
     Scheduler.running := [ex_item 0]; Scheduler.futures := [Scheduler.Waiting; Scheduler.Waiting; Scheduler.Waiting] |}.
Lemma ex_busy_steps : Scheduler.steps (Scheduler.start ex_scheduler) ex_busy.
Proof.
  pose (sub := fun s => (Scheduler.submit "hi" 8 s).2).
  pose (s1 := sub (Scheduler.start ex_scheduler)).
  pose (s2 := match Scheduler.take_item s1 with Some (_, s) => s | None => s1 end).
  assert (Hsub : forall s, Scheduler.step s (sub s)).
  { intros s. apply (Scheduler.s_submit s "hi" 8 (Scheduler.submit "hi" 8 s).1). unfold sub. by destruct (Scheduler.submit "hi" 8 s). }
  change ex_busy with (sub (sub s2)).
  apply (Scheduler.steps_more _ (sub s2)); [|apply Hsub]. apply (Scheduler.steps_more _ s2); [|apply Hsub].
  apply (Scheduler.steps_more _ s1); [|by apply (Scheduler.s_take s1 (ex_item 0))].
  apply (Scheduler.steps_more _ (Scheduler.start ex_scheduler)); [apply Scheduler.steps_none|apply Hsub].
Qed.

Lemma scheduler_bounded_witness :
  Scheduler.steps ex_scheduler ex_busy /\ Scheduler.active ex_busy <= 2 /\
  is_ok (Scheduler.submit "again" 8 ex_busy).1 = false.
Proof.
  assert (H : Scheduler.steps ex_scheduler ex_busy)
    by exact (SchedulerFacts.steps_before _ _ _ (Scheduler.s_start ex_scheduler) ex_busy_steps).
  pose proof (scheduler_bounded 2 2 ex_scheduler ex_busy eq_refl H) as (_ & Ha & _ & _ & _ & Hf & _).
  split; [exact H|]. split; [exact Ha|]. apply Hf. reflexivity.
Defined.

(** C38: every request that waits is answered once no more arrive: from any
    state a started scheduler reaches, the workers' moves always come to an
    end, whatever order they take and whatever the backend returns or raises,
    and where they end the queue is empty, no worker is active and every future
    has its outcome. *)
Theorem scheduler_drains (slots limit : Z) (s0 s s' : Scheduler.BoundedScheduler) :
  Scheduler.new_scheduler slots limit = Ok s0 -> Scheduler.steps (Scheduler.start s0) s ->
  rtc Scheduler.worker_step s s' ->
  Acc (fun b a => Scheduler.worker_step a b) s' /\
  ((exists s'', Scheduler.worker_step s' s'') \/
   s'.(Scheduler.queue) = [] /\ Scheduler.active s' = 0 /\
   (forall f, f ∈ s'.(Scheduler.futures) -> SchedulerFacts.settled f = true)).
Proof.
  intros Hn Hs Hw. split; [apply SchedulerFacts.worker_step_acc|].
  destruct (SchedulerFacts.new_inv _ _ _ Hn) as (I0 & A0 & _).
  destruct (SchedulerFacts.scheduler_step_inv _ _ (Scheduler.s_start s0) I0 A0) as (I1 & A1 & _).
  assert (W1 : Scheduler._workers (Scheduler.start s0) = Scheduler.slots (Scheduler.start s0)).
  { unfold Scheduler.start. destruct (Z.eqb_spec (Scheduler._workers s0) 0) as [|Hne]; [done|]. by destruct (SchedulerFacts.i_workers s0 I0). }
  assert (Hall : Scheduler.steps (Scheduler.start s0) s').
  { clear - Hs Hw. induction Hw as [|a b c H _ IH]; [done|]. apply IH.
    eapply Scheduler.steps_more; [exact Hs|]. by apply SchedulerFacts.worker_step_step. }
  destruct (SchedulerFacts.steps_inv _ _ Hall I1 A1) as [I A].
  assert (W : Scheduler._workers s' = Scheduler.slots s').
  { clear - Hall W1. induction Hall as [|a b c _ IH H]; [done|]. apply (SchedulerFacts.step_params _ _ H). auto. }
  destruct (SchedulerFacts.worker_progress s' I W) as [H|[Hq Hr]]; [by left|right].
  split_and!; [done|unfold Scheduler.active; by rewrite Hr|]. intros f [t Ht]%list_elem_of_lookup.
  destruct f; try done. apply A in Ht. rewrite Hq, Hr in Ht. by apply elem_of_nil in Ht.
Qed.

Lemma scheduler_drains_witness :
  Acc (fun b a => Scheduler.worker_step a b) ex_busy /\ exists s'', Scheduler.worker_step ex_busy s''.
Proof.
  destruct (scheduler_drains 2 2 ex_scheduler ex_busy ex_busy eq_refl ex_busy_steps (rtc_refl _ _)) as [H1 [H2|[H2 _]]].
  - split; [exact H1|exact H2].
  - discriminate H2.
Defined.

(** A chat completion reaches the scheduler only when the planner admitted
    its prompt, at most once and with the generation budget of that decision;
    every other answer leaves the scheduler alone and is an error; a completion
    reports the scheduler's result and whether the prompt was cached, counts one
    success and leaves its prompt in the cache. *)
Theorem chat_admitted_once {W : Type} (submit : string -> Z -> M W Scheduler.GenerationResult) (active : W -> Z)
    (planner : Planner.MemoryPlanner) (q : Api.ChatCompletionRequest) (id : string) (created : Z)
    (s s' : Api.service (W := W)) (r : res json) (cap : nat) (l : Lru.lru) :
  (1 <= cap)%nat -> CacheFacts.represents cap s.(Api.cache) l ->
  Api.chat submit active planner q id created s = (r, s') ->
  let prompt := Api._prompt q.(Api.messages) in
  let model_ := planner.(Planner.model).(Planner.model_id) in
  let k := Cache.key_for model_ prompt in
  let hit := match Lru.binding k l with Some _ => true | None => false end in
  (is_ok r = false /\ s'.(Api.world) = s.(Api.world) /\ s'.(Api.cache) = s.(Api.cache)) \/
  exists d, Planner.decide planner {| Planner.prompt_tokens := Api.estimate_tokens prompt;
      Planner.maximum_generation_tokens := q.(Api.max_tokens); Planner.active_slots := active s.(Api.world);
      Planner.multimodal := q.(Api.c_multimodal) |} = Ok d /\
    d.(Planner.admitted) = true /\ Api.ChatCompletionRequest_valid q = true /\ q.(Api.c_model) = model_ /\
    let out := submit prompt (Api.generation_tokens q.(Api.max_tokens) d.(Planner.granted_context) (Api.estimate_tokens prompt))
                 s.(Api.world) in
    s'.(Api.world) = out.2 /\
    (forall j, r = Ok j -> exists g, out.1 = Ok g /\ j = Api.completion planner id created g hit d /\
      s'.(Api.requests) = inc ["success"; if hit then "hit" else "miss"] s.(Api.requests) /\
      dget k s'.(Api.cache).(Cache._entries) =
        Some {| Cache.key := k; Cache.model_id := model_; Cache.token_count := g.(Scheduler.prompt_tokens) |}).
Proof.
  intros Hcap Hr. cbn zeta. unfold Api.chat.
  destruct (Api.ChatCompletionRequest_valid q) eqn:Hv; cbn [negb]; [|intros [= <- <-]; by left].
  destruct (Api.stream q); [intros [= <- <-]; by left|].
  case_bool_decide as Hmod; cbn [negb]; [|intros [= <- <-]; by left]. mred.
  destruct (Planner.decide _ _) as [d|e] eqn:Ed; mred; [|intros [= <- <-]; by left].
  destruct (Planner.admitted d) eqn:Ha; cbn [negb];
    [|unfold Api.count; mred; intros [= <- <-]; by left].
  set (g := Api.generation_tokens _ _ _). set (prompt := Api._prompt _) in *. set (model_ := Planner.model_id _) in *.
  intros H. right. exists d. do 4 (split; [done|]). fold g.
  assert (exists s1, (if g <? Api.max_tokens q then Api.count_clamped else mret_M tt) s = (Ok tt, s1) /\
    Api.cache s1 = Api.cache s /\ Api.requests s1 = Api.requests s /\ Api.world s1 = Api.world s) as (s1 & E1 & C1 & R1 & W1)
    by (destruct (_ <? _); eexists; split_and!; reflexivity).
  rewrite (bind_ok _ _ _ _ _ E1) in H. rewrite <- C1 in Hr.
  destruct (CacheFacts.lookup_refines cap model_ prompt _ l Hr) as (c' & E2 & R2).
  unfold Api.on_cache at 1 in H. rewrite (bind_ok _ _ _ _ _ (zoom_ok _ _ _ _ _ _ E2)) in H. clear E1 E2.
  assert (Hhit : (Lru.get (Cache.key_for model_ prompt) l).1 = Lru.binding (Cache.key_for model_ prompt) l)
    by (unfold Lru.get; by destruct (Lru.binding _ l)).
  rewrite Hhit in H. set (hit := match Lru.binding _ l with Some _ => true | None => false end) in *.
  unfold Api.on_world in H. rewrite <- W1.
  destruct (submit prompt g (Api.world s1)) as [[o|e] w'] eqn:Es.
  - match type of H with mbind_M ?m ?k ?st = _ => assert (Hm : m st = (Ok o, {| Api.cache := c'; Api.requests := Api.requests s1; Api.clamped := Api.clamped s1; Api.world := w' |})) end.
    { apply catch_ok, catch_ok. unfold zoom_M. cbn. by rewrite Es. }
    rewrite (bind_ok _ _ _ _ _ Hm) in H. unfold Api.count in H. mred in H.
    destruct (CacheFacts.record_refines cap model_ prompt (Scheduler.prompt_tokens o) c' _ Hcap R2) as (c2 & en & E3 & -> & R3).
    unfold Api.on_cache in H.
    match type of H with mbind_M (zoom_M ?get ?put ?m) _ ?st = _ =>
      rewrite (bind_ok _ _ _ _ _ (zoom_ok get put m st _ _ E3)) in H end.
    injection H as <- <-. cbn.
    split; [done|].
    intros j [= <-]. exists o.
    split_and!; [done|done|by rewrite R1|].
    destruct R3 as (_ & -> & Hw & _). rewrite (CacheFacts.dget_binding _ _ Hw). unfold Lru.put, Lru.binding.
    destruct cap as [|cap']; [lia|]. cbn. by rewrite bool_decide_eq_true_2.
  - match type of H with mbind_M ?m ?k ?st = _ => assert (Hm : exists e' st', m st = (Err e', st') /\ Api.world st' = w') end.
    { unfold catch_M, zoom_M, Api.count, http_M, mbind_M, modify_M. cbn. rewrite Es.
      destruct (catches [OverflowError] e); cbn; [by eexists _, _|]. destruct (catches [TimeoutError] e); by eexists _, _. }
    destruct Hm as (e' & st' & Hm & Hw). rewrite (bind_err _ _ _ _ _ Hm) in H. injection H as <- <-. done.
Qed.

Definition ex_submit (p : string) (n : Z) : M nat Scheduler.GenerationResult :=
  fun w => (Ok (Api.development_generate p n), S w).
Definition ex_chat : Api.ChatCompletionRequest :=
  {| Api.c_model := "qwen"; Api.messages := [{| Api.role := "user"; Api.content := "hello there" |}];
     Api.max_tokens := 64; Api.stream := false; Api.c_multimodal := false |}.
Definition ex_service : Api.service (W := nat) :=
  {| Api.cache := {| Cache.capacity := 4; Cache._entries := [] |}; Api.requests := []; Api.clamped := 0; Api.world := 0%nat |}.

Lemma chat_admitted_once_witness :
  (exists j s', Api.chat ex_submit (fun _ => 0) (ex_planner 36) ex_chat "1" 5 ex_service = (Ok j, s') /\
     s'.(Api.world) = 1%nat /\ s'.(Api.requests) = [(["success"; "miss"], 1)]).
Proof.
  assert (Hok : is_ok (Api.chat ex_submit (fun _ => 0) (ex_planner 36) ex_chat "1" 5 ex_service).1 = true)
    by (vm_compute; reflexivity).
  destruct (Api.chat ex_submit (fun _ => 0) (ex_planner 36) ex_chat "1" 5 ex_service) as [r s'] eqn:E.
  assert (Hrep : CacheFacts.represents 4 (Api.cache ex_service) [])
    by (split; [reflexivity|split; [reflexivity|split; [apply NoDup_nil_2|cbn; lia]]]).
  destruct (chat_admitted_once ex_submit (fun _ => 0) (ex_planner 36) ex_chat "1" 5 ex_service s' r 4 []
    ltac:(lia) Hrep E) as [(Hr & _)|(d & _ & _ & _ & _ & Hw & Hj)]; [cbn in Hok; congruence|].
  destruct r as [j|e]; [|discriminate Hok]. exists j, s'. split; [reflexivity|]. split; [exact Hw|].
  destruct (Hj j eq_refl) as (g & _ & _ & Hc & _). exact Hc.
Defined.

End MetalTheorems.
