(* ===== verification/MetalServing.v ===== *)
(** * The inference runtime under concurrent chats

    The application of platforms/metal_runtime/api.py is one event loop: a chat
    runs until it awaits its future, the workers of scheduler.py take and finish
    items in between.  [Machine] splits [chat] of [MetalRuntime] at that await and
    runs any number of chats, the workers and the deadlines in any order;
    [Theorems] shows that each caller is answered with what the backend produced
    for its own prompt and budget. *)

From Stdlib Require Import String ZArith Lia SpecFloat.
From stdpp Require Import base list strings sets.
From S2P Require Import Prelude PyStr PyDict PyFloat Json Security MetalRuntime.

Module Machine.
Import Planner Api.

Section parts.
Context {S : Type} (active : S -> Z) (planner : MemoryPlanner).

(** An admitted chat at its await: the request, its prompt, whether the cache
    knows it, the decision and the generation budget. *)
Record waiting := {
  w_request : ChatCompletionRequest;
  w_prompt : string;
  w_hit : bool;
  w_decision : AdmissionDecision;
  w_tokens : Z;
}.
Definition w_label (w : waiting) : string := if w.(w_hit) then "hit" else "miss".

(** [chat] up to [scheduler.submit]. *)
Definition chat_begin (q : ChatCompletionRequest) : M (service (W := S)) waiting :=
  if negb (ChatCompletionRequest_valid q) then unprocessable else
  if q.(stream) then http_M 501 "streaming is planned for the native batch milestone" else
  let model_ := planner.(model).(Planner.model_id) in
  if negb (bool_decide (q.(c_model) = model_)) then http_M 404 "model not loaded" else
  let prompt := _prompt q.(messages) in
  let tokens := estimate_tokens prompt in
  let! s := get_M in
  let! d := lift_M (decide planner {| prompt_tokens := tokens; maximum_generation_tokens := q.(max_tokens);
                                      active_slots := active s.(world); multimodal := q.(c_multimodal) |}) in
  if negb d.(admitted) then
    do! count ["rejected"; "miss"] in
    lift_M (Err (HTTPExc 429 (JObj [("reason", JStr d.(reason)); ("plan", decision_json d)])))
  else
  let maximum_tokens := generation_tokens q.(max_tokens) d.(granted_context) tokens in
  do! (if maximum_tokens <? q.(max_tokens) then count_clamped else mret_M tt) in
  let! entry := on_cache (Cache.lookup model_ prompt) in
  mret_M {| w_request := q; w_prompt := prompt; w_hit := match entry with Some _ => true | None => false end;
            w_decision := d; w_tokens := maximum_tokens |}.
(** The two [except] clauses around the submission and its wait. *)
Definition chat_guard {A} (w : waiting) (m : M (service (W := S)) A) : M (service (W := S)) A :=
  catch_M (catch_M m [OverflowError] (fun e => do! count ["queue_full"; w_label w] in http_M 429 (str_exn e)))
    [TimeoutError] (fun _ => do! count ["timeout"; w_label w] in http_M 504 "inference deadline exceeded").
(** The rest of [chat]. *)
Definition chat_end (w : waiting) (id : string) (created : Z) (result : Scheduler.GenerationResult) : M (service (W := S)) json :=
  do! count ["success"; w_label w] in
  do! on_cache (Cache.record planner.(model).(Planner.model_id) w.(w_prompt) result.(Scheduler.prompt_tokens)) in
  mret_M (completion planner id created result w.(w_hit) w.(w_decision)).
End parts.

Section machine.
Context {W : Type} (backend : string -> Z -> M W Scheduler.GenerationResult) (planner : MemoryPlanner).
Abbreviation loop := (service (W := Scheduler.BoundedScheduler)).

(** A chat at its await, with the ticket of its future, or answered. *)
Inductive chat_task :=
| Awaiting (w : waiting) (ticket : nat)
| Answered (q : ChatCompletionRequest) (r : res json).
(** The application, the backend, the chats in the order of their arrival, and
    the tickets the backend was called for. *)
Record server := { app : loop; device : W; chats : list chat_task; calls : list nat }.
Inductive turn :=
| Arrive (q : ChatCompletionRequest)
| Take
| Finish (k : nat)
| Deadline (n : nat)
| Resume (n : nat) (id : string) (created : Z).

Definition with_scheduler (s : Scheduler.BoundedScheduler) (a : loop) : loop :=
  {| cache := a.(cache); requests := a.(requests); clamped := a.(clamped); world := s |}.
(** A chat arrives: it is refused, or submitted. *)
Definition arrive (q : ChatCompletionRequest) : M loop (waiting * nat) :=
  let! w := chat_begin Scheduler.active planner q in
  let! t := chat_guard w (on_world (Scheduler.submit w.(w_prompt) w.(w_tokens))) in
  mret_M (w, t).
Definition future_result (f : Scheduler.future) : option (res Scheduler.GenerationResult) :=
  match f with
  | Scheduler.Waiting => None
  | Scheduler.Cancelled => Some (raise TimeoutError EmptyString)
  | Scheduler.Result g => Some (Ok g)
  | Scheduler.Failure e => Some (Err e)
  end.
(** A chat goes on when its future is settled. *)
Definition answer (w : waiting) (id : string) (created : Z) (r : res Scheduler.GenerationResult) : M loop json :=
  let! g := chat_guard w (lift_M r) in chat_end planner w id created g.

Definition take_turn (x : turn) (c : server) : server :=
  match x with
  | Arrive q =>
      let '(r, a) := arrive q c.(app) in
      {| app := a; device := c.(device);
         chats := c.(chats) ++ [match r with Ok (w, t) => Awaiting w t | Err e => Answered q (Err e) end]; calls := c.(calls) |}
  | Take =>
      match Scheduler.take_item c.(app).(world) with
      | None => c
      | Some (x, s) =>
          if Scheduler.calls_backend x s then
            {| app := with_scheduler s c.(app); device := c.(device); chats := c.(chats);
               calls := c.(calls) ++ [x.(Scheduler.ticket)] |}
          else
            {| app := with_scheduler (Scheduler.finish x.(Scheduler.ticket) (raise OtherError EmptyString) s) c.(app);
               device := c.(device); chats := c.(chats); calls := c.(calls) |}
      end
  | Finish k =>
      match c.(app).(world).(Scheduler.running) !! k with
      | None => c
      | Some x =>
          let '(r, w) := backend x.(Scheduler.prompt) x.(Scheduler.maximum_tokens) c.(device) in
          {| app := with_scheduler (Scheduler.finish x.(Scheduler.ticket) r c.(app).(world)) c.(app); device := w;
             chats := c.(chats); calls := c.(calls) |}
      end
  | Deadline n =>
      match c.(chats) !! n with
      | Some (Awaiting w t) =>
          {| app := with_scheduler (Scheduler.expire t c.(app).(world)) c.(app); device := c.(device); chats := c.(chats);
             calls := c.(calls) |}
      | _ => c
      end
  | Resume n id created =>
      match c.(chats) !! n with
      | Some (Awaiting w t) =>
          match c.(app).(world).(Scheduler.futures) !! t ≫= future_result with
          | Some r =>
              let '(j, a) := answer w id created r c.(app) in
              {| app := a; device := c.(device); chats := <[n := Answered w.(w_request) j]> c.(chats); calls := c.(calls) |}
          | None => c
          end
      | _ => c
      end
  end.
Definition run_schedule (xs : list turn) (c : server) : server := fold_left (fun c x => take_turn x c) xs c.
(** The application with its workers started. *)
Definition new_server (s : Scheduler.BoundedScheduler) (index : Cache.PromptCacheIndex) (w : W) : server :=
  {| app := {| cache := index; requests := []; clamped := 0; world := Scheduler.start s |}; device := w; chats := []; calls := [] |}.
End machine.
Arguments server : clear implicits.

End Machine.

Module MachineFacts.
Import Planner Api Machine.

(** [chat] is its parts. *)
Lemma chat_parts {S} submit active planner q id created (s : service (W := S)) :
  chat submit active planner q id created s =
  (let! w := chat_begin active planner q in
   let! g := chat_guard w (on_world (submit w.(w_prompt) w.(w_tokens))) in
   chat_end planner w id created g) s.
Proof.
  unfold chat, chat_begin. destruct (negb _); [done|]. destruct (stream q); [done|]. destruct (negb _); [done|].
  rewrite bind_assoc, !bind_get, bind_assoc.
  destruct (decide planner _) as [d|e]; [rewrite !bind_lift_ok|by rewrite !bind_lift_err].
  destruct (negb (admitted d)); [done|].
  set (n := generation_tokens _ _ _). rewrite bind_assoc.
  assert (exists s1, (if n <? max_tokens q then count_clamped else mret_M tt) s = (Ok tt, s1)) as [s1 E1]
    by (destruct (n <? max_tokens q); by eexists).
  rewrite !(bind_ok _ _ _ _ _ E1), bind_assoc.
  destruct (on_cache (Cache.lookup (Planner.model_id (model planner)) (_prompt (messages q))) s1) as [[entry|e] s2] eqn:E2; [rewrite !(bind_ok _ _ _ _ _ E2), bind_ret|by rewrite !(bind_err _ _ _ _ _ E2)].
  reflexivity.
Qed.

(** *** The parts of a chat and the scheduler *)

Section parts.
Context {S : Type} (active : S -> Z) (planner : MemoryPlanner).

(** What an admitted chat carries: the planner's decision on its own prompt and
    the budget that follows from it. *)
Definition admitted_as (w : waiting) : Prop :=
  w.(w_prompt) = _prompt w.(w_request).(messages) /\ w.(w_decision).(admitted) = true /\
  (exists act, decide planner {| prompt_tokens := estimate_tokens w.(w_prompt);
     maximum_generation_tokens := w.(w_request).(max_tokens); active_slots := act;
     multimodal := w.(w_request).(c_multimodal) |} = Ok w.(w_decision)) /\
  w.(w_tokens) = generation_tokens w.(w_request).(max_tokens) w.(w_decision).(granted_context) (estimate_tokens w.(w_prompt)).

Lemma chat_begin_spec q (s : service (W := S)) r s' : chat_begin active planner q s = (r, s') ->
  s'.(world) = s.(world) /\ forall w, r = Ok w -> admitted_as w /\ w.(w_request) = q.
Proof.
  unfold chat_begin. destruct (negb _); [by intros [= <- <-]|]. destruct (stream q); [by intros [= <- <-]|].
  destruct (negb _); [by intros [= <- <-]|]. rewrite bind_get.
  destruct (decide planner _) as [d|e] eqn:Ed; [rewrite bind_lift_ok|rewrite bind_lift_err; by intros [= <- <-]].
  destruct (admitted d) eqn:Ea; cbn [negb]; [|by intros [= <- <-]].
  set (n := generation_tokens _ _ _).
  assert (exists s1, (if n <? max_tokens q then count_clamped else mret_M tt) s = (Ok tt, s1) /\ s1.(world) = s.(world)) as (s1 & E1 & W1)
    by (destruct (n <? max_tokens q); by eexists).
  rewrite (bind_ok _ _ _ _ _ E1). unfold mbind_M, on_cache, zoom_M.
  destruct (Cache.lookup _ _ (cache s1)) as [[entry|e] c]; intros H; apply pair_equal_spec in H as [<- <-]; cbn [world]; (split; [done|]); [|done].
  intros w [= <-]. split; [|done]. split; [done|]. split; [done|]. split; [by eexists|done].
Qed.
Lemma chat_guard_spec {A} w (m : M (service (W := S)) A) s r s' : chat_guard w m s = (r, s') ->
  exists r0 s0, m s = (r0, s0) /\ s'.(world) = s0.(world) /\ forall a, r = Ok a <-> r0 = Ok a.
Proof.
  unfold chat_guard, catch_M. destruct (m s) as [[a|e] s0]; [intros [= <- <-]; eauto|].
  destruct (catches [OverflowError] e).
  - intros H. exists (Err e), s0. cbn in H. by injection H as <- <-.
  - destruct (catches [TimeoutError] e); intros H; exists (Err e), s0; cbn in H; by injection H as <- <-.
Qed.
Lemma chat_end_spec w id created g (s : service (W := S)) r s' : chat_end planner w id created g s = (r, s') ->
  s'.(world) = s.(world) /\ forall j, r = Ok j -> j = completion planner id created g w.(w_hit) w.(w_decision).
Proof.
  unfold chat_end, count. rewrite bind_modify. unfold mbind_M, on_cache, zoom_M. cbn [cache world].
  destruct (Cache.record _ _ _ _) as [[x|e] c]; intros H; apply pair_equal_spec in H as [<- <-]; (split; [done|]); [by intros j [= <-]|done].
Qed.
End parts.

Section facts.
Context {W : Type} (backend : string -> Z -> M W Scheduler.GenerationResult) (planner : MemoryPlanner).
Import Scheduler SchedulerFacts.

Lemma arrive_spec q a r a' : arrive planner q a = (r, a') ->
  match r with
  | Ok (w, t) => admitted_as planner w /\ w.(w_request) = q /\ submit w.(w_prompt) w.(w_tokens) a.(world) = (Ok t, a'.(world))
  | Err _ => a'.(world) = a.(world)
  end.
Proof.
  unfold arrive. unfold mbind_M at 1. destruct (chat_begin active planner q a) as [[w|e] a1] eqn:E1;
    apply chat_begin_spec in E1 as [W1 Hw]; [|by intros [= <- <-]].
  unfold mbind_M at 1. destruct (chat_guard w _ a1) as [r2 a2] eqn:E2. apply chat_guard_spec in E2 as (r0 & s0 & E2 & W2 & Hr).
  unfold on_world, zoom_M in E2. rewrite W1 in E2.
  destruct (submit (w_prompt w) (w_tokens w) (world a)) as [r3 s3] eqn:E3. apply pair_equal_spec in E2 as [<- <-]. cbn [world] in W2.
  destruct r2 as [t|e]; intros H; apply pair_equal_spec in H as [<- <-].
  - destruct (Hw w eq_refl) as [H1 H2]. split; [done|]. split; [done|]. rewrite W2, E3. by rewrite (proj1 (Hr t) eq_refl).
  - rewrite W2. rewrite submit_spec in E3. destruct (full _); [by injection E3 as _ <-|].
    injection E3 as <- <-. by pose proof (proj2 (Hr _) eq_refl).
Qed.
Lemma answer_spec w id created r a j a' : answer planner w id created r a = (j, a') ->
  a'.(world) = a.(world) /\
  forall x, j = Ok x -> exists g, r = Ok g /\ x = completion planner id created g w.(w_hit) w.(w_decision).
Proof.
  unfold answer. unfold mbind_M at 1. destruct (chat_guard w (lift_M r) a) as [r1 a1] eqn:E1.
  apply chat_guard_spec in E1 as (r0 & s0 & [= <- <-] & W1 & Hr). destruct r1 as [g|e].
  - intros H. apply chat_end_spec in H as [W2 Hj]. split; [congruence|]. intros x Hx. exists g.
    split; [by apply Hr|by apply Hj].
  - intros [= <- <-]. done.
Qed.

(** *** The invariant of the server *)

(** A result the backend gave for a prompt and a budget. *)
Definition produced (p : string) (n : Z) (g : GenerationResult) : Prop := exists w w', backend p n w = (Ok g, w').
(** The answer of a chat is the completion of what was produced for it. *)
Definition own (q : ChatCompletionRequest) (j : json) : Prop :=
  exists w id created g, w.(w_request) = q /\ admitted_as planner w /\ produced w.(w_prompt) w.(w_tokens) g /\
    j = completion planner id created g w.(w_hit) w.(w_decision).
Abbreviation take_turn := (take_turn backend planner).
Abbreviation run_schedule := (run_schedule backend planner).

(** What was submitted under each ticket explains the items, the futures and the
    chats that wait. *)
Record explained (sub : list (string * Z)) (s : BoundedScheduler) : Prop := {
  e_inv : inv s;
  e_accounted : accounted s;
  e_length : length sub = length s.(futures);
  e_items : forall x, x ∈ s.(queue) \/ x ∈ s.(running) -> sub !! x.(ticket) = Some (x.(prompt), x.(maximum_tokens));
  e_results : forall t g, s.(futures) !! t = Some (Result g) -> exists p n, sub !! t = Some (p, n) /\ produced p n g;
}.
Record server_ok (sub : list (string * Z)) (c : server W) : Prop := {
  o_sched : explained sub c.(app).(world);
  o_waiting : forall w t, Awaiting w t ∈ c.(chats) -> sub !! t = Some (w.(w_prompt), w.(w_tokens)) /\ admitted_as planner w;
  o_answered : forall q j, Answered q (Ok j) ∈ c.(chats) -> own q j;
  o_calls : NoDup c.(calls) /\ forall t, t ∈ c.(calls) -> (t < length c.(app).(world).(futures))%nat /\ t ∉ tickets c.(app).(world).(queue);
}.

Lemma explained_submit sub s p n t s' : explained sub s -> submit p n s = (Ok t, s') ->
  explained (sub ++ [(p, n)]) s' /\ t = length sub /\
  (forall u, (u < length s.(futures))%nat -> u ∉ tickets s.(queue) -> u ∉ tickets s'.(queue)) /\
  (length s.(futures) <= length s'.(futures))%nat.
Proof.
  intros [H1 H2 H3 H4 H5] E. pose proof (submit_inv p n s (Ok t) s' E H1 H2) as (I1 & I2 & _).
  rewrite submit_spec in E. destruct (full s); [done|]. injection E as <- <-. cbn [futures queue with_parts].
  split_and!; [|done| |rewrite length_app; lia].
  - split; cbn [futures queue running with_parts]; [done|done|rewrite !length_app; cbn; lia| |].
    + intros x [[Hx| ->%list_elem_of_singleton]%elem_of_app|Hx].
      * apply lookup_app_l_Some, H4. by left.
      * cbn. rewrite <- H3. by rewrite lookup_app_r, Nat.sub_diag by lia.
      * apply lookup_app_l_Some, H4. by right.
    + intros u g [Hu|[_ Hu]]%lookup_app_Some; [|by apply list_lookup_singleton_Some in Hu as [_ Hu]].
      destruct (H5 u g Hu) as (p' & n' & Hs & Hp). exists p', n'. split; [by apply lookup_app_l_Some|done].
  - intros u Hu Hn. unfold tickets. rewrite map_app, elem_of_app. intros [?|Hx]; [done|].
    apply list_elem_of_singleton in Hx. cbn in Hx. lia.
Qed.
Lemma explained_take sub s x s' : explained sub s -> take_item s = Some (x, s') ->
  explained sub s' /\ x ∈ s'.(running) /\ s.(queue) = x :: s'.(queue) /\ s'.(futures) = s.(futures).
Proof.
  intros [H1 H2 H3 H4 H5] E. pose proof (take_inv x s s' E H1 H2) as (I1 & I2 & _).
  unfold take_item in E. destruct (queue s) as [|y q] eqn:Eq; [done|]. destruct (_ <? _); [|done]. injection E as <- <-.
  split_and!; [|by left|done|done]. split; cbn [futures queue running with_parts]; [done..| |done].
  intros z [Hz|[->|Hz]%elem_of_cons]; apply H4; [left; by right|left; by left|by right].
Qed.
(** Settling a future, with what the backend produced where it is a result. *)
Lemma explained_settle sub s s' t f : explained sub s -> inv s' -> accounted s' -> s'.(futures) = settle t f s.(futures) ->
  (forall x, x ∈ s'.(queue) \/ x ∈ s'.(running) -> x ∈ s.(queue) \/ x ∈ s.(running)) ->
  (forall g, f = Result g -> exists p n, sub !! t = Some (p, n) /\ produced p n g) -> explained sub s'.
Proof.
  intros [_ _ H3 H4 H5] I1 I2 Hf Hx Hg. split; [done|done|by rewrite Hf, settle_length|auto|].
  intros u g. rewrite Hf, settle_spec. case_bool_decide as Hu; [|apply H5]. subst u.
  destruct (futures s !! t) as [o|] eqn:Et; [|done]. destruct o; try done; [intros [= ->]; by apply Hg|intros [= ->]; by apply H5].
Qed.
Lemma elem_drop_ticket t x l : x ∈ drop_ticket t l -> x ∈ l.
Proof. induction l as [|y l IH]; cbn; [done|]. destruct (_ =? _)%nat; [by right|]. rewrite !elem_of_cons. tauto. Qed.
Lemma explained_finish sub s x r : explained sub s -> x ∈ s.(running) ->
  (forall g, r = Ok g -> produced x.(prompt) x.(maximum_tokens) g) ->
  explained sub (finish x.(ticket) r s).
Proof.
  intros H Hx Hr. pose proof (finish_inv x r s Hx (e_inv _ _ H) (e_accounted _ _ H)) as (I1 & I2 & _).
  apply (explained_settle sub s _ x.(ticket) (outcome r)); [done..|by rewrite finish_futures| |].
  - intros y. rewrite finish_futures. cbn. intros [Hy|Hy%elem_drop_ticket]; auto.
  - intros g Hg. destruct r as [g'|e]; [|done]. injection Hg as ->. exists (prompt x), (maximum_tokens x).
    split; [apply (e_items _ _ H); by right|by apply Hr].
Qed.
Lemma explained_expire sub s t : explained sub s -> explained sub (expire t s).
Proof.
  intros H. pose proof (expire_inv t s (e_inv _ _ H) (e_accounted _ _ H)) as (I1 & I2 & _).
  apply (explained_settle sub s _ t Cancelled); [done..|by rewrite expire_futures| |done]. by rewrite expire_futures.
Qed.

Lemma arrive_ok sub c q : server_ok sub c -> exists sub', server_ok sub' (take_turn (Arrive q) c).
Proof.
  intros [H1 H2 H3 [H4 H5]]. unfold Machine.take_turn. destruct (arrive planner q (app c)) as [r a] eqn:E. apply arrive_spec in E.
  destruct r as [[w t]|e].
  - destruct E as (Hw & Hq & E). destruct (explained_submit _ _ _ _ _ _ H1 E) as (H1' & Ht & Hn & Hl).
    exists (sub ++ [(w_prompt w, w_tokens w)]). split; cbn [app chats calls]; [done| | |].
    + intros w' t' [Hin|Hin%list_elem_of_singleton]%elem_of_app.
      * destruct (H2 w' t' Hin) as [Hs Ha]. split; [by apply lookup_app_l_Some|done].
      * injection Hin as -> ->. split; [|done]. by rewrite Ht, lookup_app_r, Nat.sub_diag by lia.
    + intros q' j [Hin|Hin%list_elem_of_singleton]%elem_of_app; [by apply H3|done].
    + split; [done|]. intros u Hu. destruct (H5 u Hu). split; [lia|by apply Hn].
  - exists sub. split; cbn [app chats calls]; rewrite ?E; [done| | |done].
    + intros w' t' [Hin|Hin%list_elem_of_singleton]%elem_of_app; [by apply H2|done].
    + intros q' j [Hin|Hin%list_elem_of_singleton]%elem_of_app; [by apply H3|done].
Qed.
Lemma take_ok sub c : server_ok sub c -> server_ok sub (take_turn Take c).
Proof.
  intros [H1 H2 H3 [H4 H5]]. unfold Machine.take_turn. destruct (take_item (world (app c))) as [[x s]|] eqn:E; [|done].
  destruct (explained_take _ _ _ _ H1 E) as (H1' & Hx & Hq & Hf).
  assert (forall u, u ∈ calls c -> (u < length (futures s))%nat /\ u ∉ tickets (queue s)) as H5'.
  { intros u Hu. destruct (H5 u Hu) as [Hlt Hnq]. rewrite Hf. split; [done|]. intros Hin. apply Hnq. rewrite Hq. by right. }
  destruct (calls_backend x s).
  - split; cbn [app chats calls with_scheduler world]; [done..|]. pose proof (i_once _ (e_inv _ _ H1)) as N.
    rewrite Hq in N. split.
    + apply NoDup_snoc; [done|]. intros Hin. destruct (H5 _ Hin) as [_ Hnq]. apply Hnq. rewrite Hq. by left.
    + intros u [Hu| ->%list_elem_of_singleton]%elem_of_app; [by apply H5'|]. split.
      * apply (i_known _ (e_inv _ _ H1')), elem_of_app. right. by apply list_elem_of_fmap_2.
      * intros Hin. apply (NoDup_app (tickets (x :: queue s))) in N as (N & _). by apply NoDup_cons in N as [N _].
  - split; cbn [app chats calls with_scheduler world]; [by apply explained_finish|done..|].
    split; [done|]. intros u Hu. rewrite finish_futures. cbn [futures queue with_parts]. rewrite settle_length. by apply H5'.
Qed.
Lemma finish_ok sub c k : server_ok sub c -> server_ok sub (take_turn (Finish k) c).
Proof.
  intros [H1 H2 H3 [H4 H5]]. unfold Machine.take_turn. destruct (running (world (app c)) !! k) as [x|] eqn:Ek; [|done].
  destruct (backend (prompt x) (maximum_tokens x) (device c)) as [r w] eqn:E.
  split; cbn [app chats calls with_scheduler world]; [|done..|].
  - apply explained_finish; [done|by eapply list_elem_of_lookup_2|]. intros g ->. by eexists _, _.
  - split; [done|]. rewrite finish_futures. cbn [futures queue with_parts]. by rewrite settle_length.
Qed.
Lemma deadline_ok sub c n : server_ok sub c -> server_ok sub (take_turn (Deadline n) c).
Proof.
  intros [H1 H2 H3 [H4 H5]]. unfold Machine.take_turn. destruct (chats c !! n) as [[w t|q r]|]; [|done..].
  split; cbn [app chats calls with_scheduler world]; [by apply explained_expire|done..|].
  split; [done|]. rewrite expire_futures. cbn [futures queue with_parts]. by rewrite settle_length.
Qed.
Lemma resume_ok sub c n id created : server_ok sub c -> server_ok sub (take_turn (Resume n id created) c).
Proof.
  intros [H1 H2 H3 H4]. unfold Machine.take_turn. destruct (chats c !! n) as [[w t|q r]|] eqn:En; [|done..].
  assert (Awaiting w t ∈ chats c) as Hin by (by eapply list_elem_of_lookup_2). destruct (H2 w t Hin) as [Hs Ha].
  destruct (futures (world (app c)) !! t ≫= future_result) as [r|] eqn:Er; [|done].
  destruct (answer planner w id created r (app c)) as [j a] eqn:E. apply answer_spec in E as [Hw Hj].
  split; cbn [app chats calls]; rewrite ?Hw; [done| | |done].
  - intros w' t' [k Hk]%list_elem_of_lookup_1. apply list_lookup_insert_Some in Hk as [(_ & Hk & _)|[_ Hk]]; [done|].
    apply H2. by eapply list_elem_of_lookup_2.
  - intros q j' [k Hk]%list_elem_of_lookup_1. apply list_lookup_insert_Some in Hk as [(_ & Hk & _)|[_ Hk]];
      [|apply H3; by eapply list_elem_of_lookup_2].
    injection Hk as <- ->. destruct (Hj j' eq_refl) as (g & -> & ->).
    destruct (futures (world (app c)) !! t) as [[| |g'|e]|] eqn:Ef; try done. injection Er as ->.
    destruct (e_results _ _ H1 t g Ef) as (p & m & Hp & Hg). rewrite Hs in Hp. injection Hp as <- <-.
    exists w, id, created, g. done.
Qed.
Lemma serving_turn_ok x sub c : server_ok sub c -> exists sub', server_ok sub' (take_turn x c).
Proof.
  intros H. destruct x; [by eapply arrive_ok|exists sub..].
  - by apply take_ok.
  - by apply finish_ok.
  - by apply deadline_ok.
  - by apply resume_ok.
Qed.
Lemma serving_schedule_ok xs sub c : server_ok sub c -> exists sub', server_ok sub' (run_schedule xs c).
Proof.
  intros H. apply (schedule_invariant take_turn (fun _ => True) (fun c => exists sub, server_ok sub c)); [|by apply Forall_true|by exists sub].
  intros x c' _ [s1 H1]. by apply (serving_turn_ok x s1).
Qed.
Lemma serving_start_ok slots limit s index w : new_scheduler slots limit = Ok s -> server_ok [] (new_server s index w).
Proof.
  intros Hs. destruct (new_inv _ _ _ Hs) as (I1 & I2 & _).
  pose proof (scheduler_step_inv s (start s) (s_start s) I1 I2) as (I3 & I4 & _).
  unfold new_scheduler in Hs. destruct (_ || _); [done|]. injection Hs as <-.
  split; cbn [new_server app chats calls world].
  - split; [done|done|done| |done]. cbn. intros x [Hx|Hx]; by apply elem_of_nil in Hx.
  - intros w' t Hin. by apply elem_of_nil in Hin.
  - intros q j Hin. by apply elem_of_nil in Hin.
  - split; [constructor|]. intros t Ht. by apply elem_of_nil in Ht.
Qed.

(** The scheduler under the server makes steps of the scheduler alone, so what
    holds of those holds here. *)
Lemma turn_steps x c : steps (world (app c)) (world (app (take_turn x c))).
Proof.
  assert (forall s s', step s s' -> steps s s') as One by (intros s s' H; eapply steps_more; [apply steps_none|done]).
  destruct x as [q| |k|n|n id created]; unfold Machine.take_turn.
  - destruct (arrive planner q (app c)) as [[[w t]|e] a] eqn:E; apply arrive_spec in E; cbn [app]; [|rewrite E; apply steps_none].
    destruct E as (_ & _ & E). apply One. by eapply s_submit.
  - destruct (take_item (world (app c))) as [[x s]|] eqn:E; [|apply steps_none].
    pose proof (One _ _ (s_take _ _ _ E)) as Ht. destruct (calls_backend x s); cbn [app with_scheduler world]; [done|].
    eapply steps_more; [exact Ht|]. apply s_finish. unfold take_item in E. destruct (queue _); [done|].
    destruct (_ <? _); [|done]. injection E as <- <-. by left.
  - destruct (running (world (app c)) !! k) as [x|] eqn:Ek; [|apply steps_none].
    destruct (backend (prompt x) (maximum_tokens x) (device c)) as [r w]. apply One, s_finish. by eapply list_elem_of_lookup_2.
  - destruct (chats c !! n) as [[w t|q r]|]; [|apply steps_none..]. apply One, s_expire.
  - destruct (chats c !! n) as [[w t|q r]|]; [|apply steps_none..].
    destruct (futures (world (app c)) !! t ≫= future_result) as [r|]; [|apply steps_none].
    destruct (answer planner w id created r (app c)) as [j a] eqn:E. apply answer_spec in E as [Hw _].
    cbn [app]. rewrite Hw. apply steps_none.
Qed.
Lemma steps_trans s1 s2 s3 : steps s1 s2 -> steps s2 s3 -> steps s1 s3.
Proof. intros H. induction 1 as [|s2 s3 s4 _ IH Hs]; [done|]. eapply steps_more; [by apply IH|done]. Qed.
Lemma schedule_steps xs c : steps (world (app c)) (world (app (run_schedule xs c))).
Proof.
  apply (schedule_invariant take_turn (fun _ => True) (fun c' => steps (world (app c)) (world (app c')))); [|by apply Forall_true|apply steps_none].
  intros x c' _ H. eapply steps_trans; [exact H|apply turn_steps].
Qed.
Lemma steps_params s s' : steps s s' -> s.(_workers) = s.(slots) ->
  s'.(slots) = s.(slots) /\ s'.(queue_limit) = s.(queue_limit) /\ s'.(_workers) = s.(slots).
Proof.
  induction 1 as [s|s s1 s2 _ IH Hs]; intros Hw; [done|]. destruct (IH Hw) as (E1 & E2 & E3).
  apply step_params in Hs as (P1 & P2 & P3). rewrite P1, P2, E1, E2. split_and!; [done|done|].
  rewrite <- E1, <- P1. apply P3. congruence.
Qed.

(** With no item left, every chat that waits can go on. *)
Lemma idle_answers sub c n w t id created : server_ok sub c -> chats c !! n = Some (Awaiting w t) ->
  queue (world (app c)) = [] -> running (world (app c)) = [] ->
  exists r, chats (take_turn (Resume n id created) c) !! n = Some (Answered (w_request w) r).
Proof.
  intros [H1 H2 _ _] Hn Hq Hr. unfold Machine.take_turn. rewrite Hn.
  assert (Awaiting w t ∈ chats c) as Hin by (by eapply list_elem_of_lookup_2). destruct (H2 w t Hin) as [Hs _].
  assert (t < length (futures (world (app c))))%nat as Ht by (rewrite <- (e_length _ _ H1); by eapply lookup_lt_Some).
  apply lookup_lt_is_Some_2 in Ht as [f Hf]. rewrite Hf. cbn [mbind option_bind].
  assert (exists r, future_result f = Some r) as [r ->].
  { destruct f; [|by eexists..]. apply (e_accounted _ _ H1) in Hf. rewrite Hq, Hr in Hf. by apply elem_of_nil in Hf. }
  destruct (answer planner w id created r (app c)) as [j a]. exists j. apply list_lookup_insert_eq. by eapply lookup_lt_Some.
Qed.

End facts.

End MachineFacts.

(** ** Properties *)

Module MetalServingTheorems.
Import Planner Api Machine MachineFacts MetalTheorems.

(** C36: no chat is answered with another one's text.  However chats, workers and
    deadlines interleave on a runtime that was started, a completion a caller is
    given is built from a result the backend produced for that caller's own
    prompt and for the budget the planner granted it; the backend is called at
    most once for a submission; no more items run than there are slots, and no
    more wait than the queue holds; and once nothing is queued or running every
    chat that still waits is answered when it resumes. *)
Theorem chats_answered_with_own : forall (W : Type) (backend : string -> Z -> M W Scheduler.GenerationResult) planner
    slots limit s index xs (w : W), Scheduler.new_scheduler slots limit = Ok s ->
  let c := run_schedule backend planner xs (new_server s index w) in
  (forall q j, Answered q (Ok j) ∈ c.(chats) ->
     exists wt id created g device, wt.(w_request) = q /\ admitted_as planner wt /\
       (backend (_prompt q.(messages)) wt.(w_tokens) device).1 = Ok g /\ wt.(w_tokens) <= q.(max_tokens) /\
       j = completion planner id created g wt.(w_hit) wt.(w_decision)) /\
  NoDup c.(calls) /\
  Scheduler.active c.(app).(world) <= slots /\ Z.of_nat (length c.(app).(world).(Scheduler.queue)) <= limit /\
  (c.(app).(world).(Scheduler.queue) = [] -> c.(app).(world).(Scheduler.running) = [] ->
     forall n wt t id created, c.(chats) !! n = Some (Awaiting wt t) ->
     exists r, (take_turn backend planner (Resume n id created) c).(chats) !! n = Some (Answered wt.(w_request) r)).
Proof.
  intros W backend planner slots limit s index xs w Hs c.
  destruct (serving_schedule_ok backend planner xs [] _ (serving_start_ok backend planner slots limit s index w Hs)) as [sub H].
  fold c in H. pose proof H as [H1 _ H3 [H4 _]].
  destruct (SchedulerFacts.new_inv _ _ _ Hs) as (_ & _ & Es & El).
  assert (Scheduler._workers (Scheduler.start s) = Scheduler.slots (Scheduler.start s)) as Hw.
  { unfold Scheduler.new_scheduler in Hs. destruct (_ || _); [done|]. by injection Hs as <-. }
  destruct (steps_params _ _ (schedule_steps backend planner xs (new_server s index w)) Hw) as (_ & P2 & P3). fold c in P2, P3.
  pose proof (SchedulerFacts.i_running _ (e_inv _ _ _ H1)) as Hrn. pose proof (SchedulerFacts.i_queue _ (e_inv _ _ _ H1)) as Hqn.
  assert (Scheduler.slots (Scheduler.start s) = slots /\ Scheduler.queue_limit (Scheduler.start s) = limit) as [F1 F2]
    by (unfold Scheduler.start; by destruct (_ =? 0)).
  change (world (app (new_server s index w))) with (Scheduler.start s) in P2, P3. rewrite P3, F1 in Hrn. rewrite P2, F2 in Hqn.
  clear P2 P3 Hw. split_and!; [|done|done|done|].
  - intros q j Hin. destruct (H3 q j Hin) as (wt & id & created & g & Hq & Ha & (d & d' & Hg) & Hj).
    exists wt, id, created, g, d. pose proof Ha as (Hp & _ & _ & Ht). rewrite Hp, Hq in Hg.
    split_and!; [done|done|by rewrite Hg| |done]. rewrite Ht, Hq. unfold generation_tokens. lia.
  - intros Hq' Hr' n wt t id created Hn. by eapply idle_answers.
Qed.

(** Two chats that overlap, the second finished first. *)
Definition ex_other : ChatCompletionRequest :=
  {| c_model := "qwen"; messages := [{| role := "user"; content := "something else" |}]; max_tokens := 32; stream := false;
     c_multimodal := false |}.
Definition ex_overlap : list turn :=
  [Arrive ex_chat; Arrive ex_other; Take; Take; Finish 0; Resume 1 "2" 6; Finish 0; Resume 0 "1" 7].
Definition ex_scheduler : Scheduler.BoundedScheduler :=
  {| Scheduler.slots := 2; Scheduler.queue_limit := 20; Scheduler._workers := 0; Scheduler.queue := [];
     Scheduler.running := []; Scheduler.futures := [] |}.
Abbreviation ex_run := (run_schedule ex_submit (ex_planner 36) ex_overlap
  (new_server ex_scheduler {| Cache.capacity := 4; Cache._entries := [] |} 0%nat)).

Lemma chats_answered_with_own_witness :
  exists j g n, ex_run.(chats) !! 1%nat = Some (Answered ex_other (Ok j)) /\ n <= 32 /\
    exists device, (ex_submit (_prompt ex_other.(messages)) n device).1 = Ok g.
Proof.
  destruct (chats_answered_with_own nat ex_submit (ex_planner 36) 2 20 ex_scheduler
    {| Cache.capacity := 4; Cache._entries := [] |} ex_overlap 0%nat eq_refl) as [H _].
  assert (exists j, ex_run.(chats) !! 1%nat = Some (Answered ex_other (Ok j))) as [j Hj] by (eexists; vm_compute; reflexivity).
  destruct (H ex_other j (list_elem_of_lookup_2 _ _ _ Hj)) as (wt & id & created & g & device & _ & _ & Hg & Hn & _).
  exists j, g, (w_tokens wt). split; [exact Hj|]. split; [exact Hn|]. exists device. exact Hg.
Defined.

End MetalServingTheorems.
