(* ===== verification/Streaming.v ===== *)
(** * Streaming reliability (platforms/streaming)

    [Reliability] is reliability.py: the snapshot, its SLO assessment, the
    diagnosis and the draft report.  [Api] is api.py: the recorded assessments,
    the metrics and the fire-drill qualification.  The scenario catalogue and the
    rendering of instants (two texts of the same instant) are given.  The dash of
    the draft's title is written in UTF-8. *)

From Stdlib Require Import String Ascii ZArith Lia SpecFloat.
From stdpp Require Import base list strings.
From S2P Require Import Prelude PyStr PyDict PyFloat Hash Json Integrations.

Module Reliability.

Inductive Severity := INFO | LOW | MEDIUM | HIGH | CRITICAL.
#[export] Instance Severity_eq_dec : EqDecision Severity.
Proof. solve_decision. Defined.
Definition severity_value (s : Severity) : string :=
  match s with INFO => "info" | LOW => "low" | MEDIUM => "medium" | HIGH => "high" | CRITICAL => "critical" end.
Definition SEVERITY_RANK (s : Severity) : Z :=
  match s with INFO => 0 | LOW => 1 | MEDIUM => 2 | HIGH => 3 | CRITICAL => 4 end.

(** An instant: its [isoformat()] and its text in a JSON dump. *)
Record instant := { isoformat : string; json_text : string }.

Record StreamingSnapshot := {
  cluster : string;
  workload_id : string;
  topic : option string;
  consumer_group : option string;
  observed_at : instant;
  produced_total : Z;
  consumed_total : Z;
  eligible_events_total : option Z;
  completed_within_objective_total : option Z;
  consumer_lag : Z;
  partition_lag : dict string Z;
  rebalances_5m : Z;
  under_replicated_partitions : Z;
  offline_partitions : Z;
  schema_errors_5m : Z;
  duplicate_rate : number;
  dlq_rate : number;
  disk_used_percent : number;
  p99_latency_ms : number;
}.
(** The constraints of the fields. *)
Definition at_least (lo : Z) (n : number) : bool := fleb (f_of_Z lo) (num n).
Definition at_most (hi : Z) (n : number) : bool := fleb (num n) (f_of_Z hi).
Definition fields_valid (s : StreamingSnapshot) : bool :=
  (0 <=? s.(produced_total)) && (0 <=? s.(consumed_total)) && (0 <=? default 0 s.(eligible_events_total)) &&
  (0 <=? default 0 s.(completed_within_objective_total)) && (0 <=? s.(consumer_lag)) && (0 <=? s.(rebalances_5m)) &&
  (0 <=? s.(under_replicated_partitions)) && (0 <=? s.(offline_partitions)) && (0 <=? s.(schema_errors_5m)) &&
  at_least 0 s.(duplicate_rate) && at_most 1 s.(duplicate_rate) && at_least 0 s.(dlq_rate) && at_most 1 s.(dlq_rate) &&
  at_least 0 s.(disk_used_percent) && at_most 100 s.(disk_used_percent) && at_least 0 s.(p99_latency_ms).
(** [StreamingSnapshot(...)] with [validate_partition_lag] *)
Definition validate_partition_lag (s : StreamingSnapshot) : res StreamingSnapshot :=
  do? guard_raise (negb (fields_valid s)) ValidationError "field constraints violated" in
  do? guard_raise (existsb (fun v => v <? 0) (dvals s.(partition_lag))) ValidationError "partition lag cannot be negative" in
  match s.(eligible_events_total), s.(completed_within_objective_total) with
  | None, Some _ | Some _, None => raise ValidationError "both on-time cohort counters are required together"
  | Some e, Some c =>
      do? guard_raise (c >? e) ValidationError "on-time completions cannot exceed eligible events" in Ok s
  | None, None => Ok s
  end.

Record Finding := {
  code : string;
  severity : Severity;
  summary : string;
  evidence : dict string json;
  safe_actions : list string;
}.
Record SLOAssessment := {
  target : float;
  completion_ratio : option float;
  error_budget_fraction : float;
  budget_consumed_percent : option float;
  burn_rate : option float;
  status : string;
}.
Record StreamingAssessment := {
  incident_id : string;
  a_cluster : string;
  a_workload_id : string;
  a_observed_at : instant;
  a_severity : Severity;
  findings : list Finding;
  slo : SLOAssessment;
  evidence_digest : string;
  automatic_remediation : bool;
}.

(** ** Dumps *)

Definition jopt {A} (f : A -> json) (o : option A) : json := match o with Some x => f x | None => JNull end.
Definition snapshot_json (s : StreamingSnapshot) : json :=
  JObj [("cluster", JStr s.(cluster)); ("workload_id", JStr s.(workload_id)); ("topic", jopt_str s.(topic));
    ("consumer_group", jopt_str s.(consumer_group)); ("observed_at", JStr s.(observed_at).(json_text));
    ("produced_total", JInt s.(produced_total)); ("consumed_total", JInt s.(consumed_total));
    ("eligible_events_total", jopt JInt s.(eligible_events_total));
    ("completed_within_objective_total", jopt JInt s.(completed_within_objective_total));
    ("consumer_lag", JInt s.(consumer_lag));
    ("partition_lag", JObj (map (fun kv => (kv.1, JInt kv.2)) s.(partition_lag)));
    ("rebalances_5m", JInt s.(rebalances_5m)); ("under_replicated_partitions", JInt s.(under_replicated_partitions));
    ("offline_partitions", JInt s.(offline_partitions)); ("schema_errors_5m", JInt s.(schema_errors_5m));
    ("duplicate_rate", num_json s.(duplicate_rate)); ("dlq_rate", num_json s.(dlq_rate));
    ("disk_used_percent", num_json s.(disk_used_percent)); ("p99_latency_ms", num_json s.(p99_latency_ms))].
Definition finding_json (f : Finding) : json :=
  JObj [("code", JStr f.(code)); ("severity", JStr (severity_value f.(severity))); ("summary", JStr f.(summary));
    ("evidence", JObj f.(evidence)); ("safe_actions", jstrs f.(safe_actions))].
Definition slo_json (a : SLOAssessment) : json :=
  JObj [("target", JFloat a.(target)); ("completion_ratio", jopt JFloat a.(completion_ratio));
    ("error_budget_fraction", JFloat a.(error_budget_fraction));
    ("budget_consumed_percent", jopt JFloat a.(budget_consumed_percent)); ("burn_rate", jopt JFloat a.(burn_rate));
    ("status", JStr a.(status))].
Definition assessment_json (a : StreamingAssessment) : json :=
  JObj [("incident_id", JStr a.(incident_id)); ("cluster", JStr a.(a_cluster)); ("workload_id", JStr a.(a_workload_id));
    ("observed_at", JStr a.(a_observed_at).(json_text)); ("severity", JStr (severity_value a.(a_severity)));
    ("findings", JArr (map finding_json a.(findings))); ("slo", slo_json a.(slo));
    ("evidence_digest", JStr a.(evidence_digest)); ("automatic_remediation", JBool a.(automatic_remediation))].
(** [StreamingAssessment.aria_evidence] *)
Definition aria_evidence (tenant : string) (a : StreamingAssessment) : json :=
  JObj [("source", JStr "aria"); ("schema_version", JStr "1.0"); ("signal_id", JStr a.(incident_id)); ("tenant", JStr tenant);
    ("workload_id", JStr a.(a_workload_id)); ("severity", JStr (severity_value a.(a_severity)));
    ("confidence", JFloat (match a.(findings) with [] => fratio 8 10 | _ => f_of_Z 1 end));
    ("observed_at", JStr a.(a_observed_at).(isoformat)); ("evidence_digest", JStr a.(evidence_digest));
    ("finding_codes", jstrs (map code a.(findings))); ("slo", slo_json a.(slo)); ("automatic_remediation", JBool false)].

(** ** [assess_slo] *)

Definition default_target : float := fratio 999 1000.
Definition assess_slo (s : StreamingSnapshot) (target_ : float) : res SLOAssessment :=
  if negb (fltb (f_of_Z 0) target_ && fltb target_ (f_of_Z 1)) then
    raise ValueError "SLO target must be between zero and one"
  else
  let allowed_error := fsub (f_of_Z 1) target_ in
  let insufficient :=
    {| target := target_; completion_ratio := None; error_budget_fraction := fround 6 allowed_error;
       budget_consumed_percent := None; burn_rate := None; status := "insufficient-data" |} in
  match s.(eligible_events_total) with
  | None => Ok insufficient
  | Some eligible =>
      if eligible =? 0 then Ok insufficient
      else match s.(completed_within_objective_total) with
      | None => raise TypeError "unsupported operand type(s) for /"
      | Some completed =>
          let? ratio := int_div completed eligible in
          let observed_error := fsub (f_of_Z 1) ratio in
          let? burn := fdiv observed_error allowed_error in
          let consumed := fmax fzero (fmul burn (f_of_Z 100)) in
          Ok {| target := target_; completion_ratio := Some (fround 6 ratio); error_budget_fraction := fround 6 allowed_error;
                budget_consumed_percent := Some (fround 2 consumed); burn_rate := Some (fround 2 burn);
                status := if fgeb consumed (f_of_Z 100) then "exhausted"
                          else if fgeb consumed (f_of_Z 50) then "at-risk" else "healthy" |}
      end
  end.

(** ** [diagnose] *)

Definition finding_if (b : bool) (c : string) (sev : Severity) (text : string) (ev : dict string json)
    (actions : list string) : list Finding :=
  if b then [{| code := c; severity := sev; summary := text; evidence := ev; safe_actions := actions |}] else [].

(** The partition whose lag is out of proportion. *)
Definition hot_partition (s : StreamingSnapshot) : res (list Finding) :=
  match max_by (fun a b => b.2 <? a.2) s.(partition_lag) with
  | None => Ok []
  | Some hot =>
      let lags := dvals s.(partition_lag) in
      if negb (1000 <=? hot.2) then Ok [] else
      let? mean := int_div (fold_left Z.add lags 0) (Z.of_nat (length lags)) in
      let above := if fgtb (f_of_Z 1) mean then 2 <? hot.2 else float_lt_Z (fmul (f_of_Z 2) mean) hot.2 in
      Ok (finding_if above "HOT_PARTITION" HIGH "One partition carries disproportionate lag."
            [("partition", JStr hot.1); ("lag", JInt hot.2); ("mean_lag", JFloat (fround 2 mean))]
            ["Inspect key cardinality and partition assignment"; "Plan a compatible repartitioning migration"])
  end.
(** The findings of the snapshot's own thresholds, in the code's order. *)
Definition before_hot (s : StreamingSnapshot) : list Finding :=
  finding_if (negb (s.(offline_partitions) =? 0)) "OFFLINE_PARTITIONS" CRITICAL "Partitions are unavailable."
    [("offline_partitions", JInt s.(offline_partitions))]
    ["Page the streaming incident commander"; "Inspect broker and quorum health"; "Pause unsafe releases"] ++
  finding_if (negb (s.(under_replicated_partitions) =? 0)) "UNDER_REPLICATED_PARTITIONS" HIGH "Replication durability is degraded."
    [("under_replicated_partitions", JInt s.(under_replicated_partitions))]
    ["Inspect broker health and disk pressure"; "Confirm replica recovery before changing replication"] ++
  finding_if (10000 <=? s.(consumer_lag)) "CONSUMER_LAG" HIGH "Consumer processing is materially behind production."
    [("consumer_lag", JInt s.(consumer_lag))]
    ["Inspect consumer errors and saturation"; "Scale only after confirming partition parallelism"].
Definition after_hot (s : StreamingSnapshot) : list Finding :=
  finding_if (5 <=? s.(rebalances_5m)) "REBALANCE_STORM" MEDIUM "The consumer group is repeatedly rebalancing."
    [("rebalances_5m", JInt s.(rebalances_5m))]
    ["Inspect membership churn and heartbeat timeouts"; "Stabilize deployments before scaling"] ++
  finding_if (negb (s.(schema_errors_5m) =? 0)) "SCHEMA_INCOMPATIBILITY" HIGH "Messages are failing schema validation."
    [("schema_errors_5m", JInt s.(schema_errors_5m))]
    ["Stop the incompatible producer rollout"; "Validate compatibility and replay quarantined records"] ++
  finding_if (fgtb (num s.(duplicate_rate)) (fratio 1 1000)) "DUPLICATE_PROCESSING" HIGH
    "Observed duplicates exceed the idempotency SLO." [("duplicate_rate", num_json s.(duplicate_rate))]
    ["Verify idempotency keys and transaction boundaries"; "Reconcile downstream side effects"] ++
  finding_if (fgtb (num s.(dlq_rate)) (fratio 1 100)) "POISON_MESSAGES" MEDIUM
    "Dead-letter traffic exceeds the operating threshold." [("dlq_rate", num_json s.(dlq_rate))]
    ["Sample redacted DLQ records"; "Fix parser safely before controlled replay"] ++
  finding_if (fgeb (num s.(disk_used_percent)) (f_of_Z 85)) "DISK_PRESSURE" HIGH
    "Broker disk utilization threatens retention and availability." [("disk_used_percent", num_json s.(disk_used_percent))]
    ["Page storage owner"; "Verify retention and tiered-storage health"; "Add capacity through an approved change"] ++
  finding_if (fgeb (num s.(p99_latency_ms)) (f_of_Z 1000)) "LATENCY_SLO" MEDIUM
    "End-to-end event latency is outside the service objective." [("p99_latency_ms", num_json s.(p99_latency_ms))]
    ["Inspect broker, network, and consumer latency spans"; "Correlate with deploy and saturation events"].
Definition budget_finding (a : SLOAssessment) : list Finding :=
  finding_if (bool_decide (a.(status) = "exhausted")) "ERROR_BUDGET_EXHAUSTED" HIGH "The on-time event completion budget is exhausted."
    [("burn_rate", jopt JFloat a.(burn_rate)); ("completion_ratio", jopt JFloat a.(completion_ratio)); ("target", JFloat a.(target))]
    ["Freeze non-remediation changes"; "Open a reliability review with accountable owners"].
(** [max((f.severity for f in findings), key=SEVERITY_RANK.get, default=INFO)] *)
Definition worst (fs : list Finding) : Severity :=
  default INFO (max_by (fun a b => SEVERITY_RANK b <? SEVERITY_RANK a) (map severity fs)).
Definition snapshot_digest (s : StreamingSnapshot) : string := sha256_digest (dumps_sorted (snapshot_json s)).

Definition diagnose (s : StreamingSnapshot) (target_ : float) : res StreamingAssessment :=
  let? hot := hot_partition s in
  let? a := assess_slo s target_ in
  let fs := before_hot s ++ hot ++ after_hot s ++ budget_finding a in
  let digest := snapshot_digest s in
  Ok {| incident_id := "stream-" +:+ slice_to 16 (removeprefix "sha256:" digest); a_cluster := s.(cluster);
        a_workload_id := s.(workload_id); a_observed_at := s.(observed_at); a_severity := worst fs; findings := fs;
        slo := a; evidence_digest := digest; automatic_remediation := false |}.

(** ** [render_crca] *)

Definition lines (l : list string) : string := join (of_chars ["010"%char]) l.
Definition or_else (s d : string) : string := if nonempty s then s else d.
(** [dict.fromkeys(l)]: each element once, in the order of its first use. *)
Definition fromkeys (l : list string) : list string := dkeys (dict_of (map (fun a => (a, tt)) l)).
Definition evidence_line (f : Finding) : string :=
  "- `" +:+ f.(code) +:+ "` (" +:+ severity_value f.(severity) +:+ "): " +:+ f.(summary) +:+ " Evidence: `" +:+
  dumps_sorted (JObj f.(evidence)) +:+ "`".
Definition render_crca (a : StreamingAssessment) : string :=
  let evidence_ := or_else (lines (map evidence_line a.(findings))) "- No threshold violations detected." in
  let actions :=
    or_else (lines (map (fun x => "- [ ] " +:+ x +:+ " (owner and due date required)") (fromkeys (concat (map safe_actions a.(findings))))))
      "- [ ] Continue routine monitoring." in
  lines
    ["# Customer Reliability Corrective Action — DRAFT"; EmptyString;
     "Incident: `" +:+ a.(incident_id) +:+ "`  "; "Cluster: `" +:+ a.(a_cluster) +:+ "`  ";
     "Severity: **" +:+ severity_value a.(a_severity) +:+ "**  "; "Evidence digest: `" +:+ a.(evidence_digest) +:+ "`"; EmptyString;
     "## Customer impact"; EmptyString;
     "To be confirmed by the incident commander from customer and business telemetry. Do not infer impact from infrastructure signals alone.";
     EmptyString; "## Detection and evidence"; EmptyString; evidence_; EmptyString;
     "## Root cause"; EmptyString;
     "Not yet established. This draft records symptoms and must not present correlation as causation."; EmptyString;
     "## Corrective and preventive actions"; EmptyString; actions; EmptyString;
     "## Follow-the-sun handoff"; EmptyString;
     "- Current incident commander: unassigned"; "- Active hypothesis and disconfirming evidence: required";
     "- Changes made and rollback state: required"; "- Next checkpoint, owner, and escalation path: required"; EmptyString;
     "## Approval"; EmptyString;
     "Human technical review and communications approval are required before customer publication."; EmptyString].

End Reliability.

Module Api.
Import Reliability.

Record FireDrillEnvelope := {
  schema_version : string;
  source : string;
  evidence_mode : string;
  event_id : string;
  experiment_id : string;
  service : string;
  environment : string;
  scenario : string;
  phase : string;
  e_observed_at : string;
  plan_digest : string;
  approved_by : option string;
  blast_radius_percent : Z;
  stop_conditions : list string;
  report_card : dict string json;
  snapshot : StreamingSnapshot;
}.
(** The literals and constraints of the envelope's fields. *)
Definition FireDrillEnvelope_valid (e : FireDrillEnvelope) : bool :=
  str_in e.(schema_version) ["1.0"] && str_in e.(source) ["fire-drill"] && str_in e.(evidence_mode) ["synthetic"] &&
  str_in e.(environment) ["development"; "staging"] && str_in e.(phase) ["observed"] && is_sha256_digest e.(plan_digest) &&
  (1 <=? e.(blast_radius_percent)) && (e.(blast_radius_percent) <=? 25) && (1 <=? length e.(stop_conditions))%nat &&
  is_ok (validate_partition_lag e.(snapshot)).

(** The module's [RECENT] and its metrics. *)
Record state := {
  RECENT : dict string StreamingAssessment;
  ASSESSMENTS : counter;
  FINDINGS : counter;
  ERROR_BUDGET_BURN : dict string float;
  CONSUMER_LAG : dict string float;
}.
Definition remember (a : StreamingAssessment) (s : state) : state :=
  {| RECENT := dset a.(incident_id) a s.(RECENT); ASSESSMENTS := inc [severity_value a.(a_severity)] s.(ASSESSMENTS);
     FINDINGS := s.(FINDINGS); ERROR_BUDGET_BURN := s.(ERROR_BUDGET_BURN); CONSUMER_LAG := s.(CONSUMER_LAG) |}.
Definition set_gauges (burn lag : dict string float) (s : state) : state :=
  {| RECENT := s.(RECENT); ASSESSMENTS := s.(ASSESSMENTS); FINDINGS := s.(FINDINGS);
     ERROR_BUDGET_BURN := burn; CONSUMER_LAG := lag |}.
Definition count_finding (f : Finding) : M state unit :=
  modify_M (fun s => {| RECENT := s.(RECENT); ASSESSMENTS := s.(ASSESSMENTS); FINDINGS := inc [f.(code)] s.(FINDINGS);
                        ERROR_BUDGET_BURN := s.(ERROR_BUDGET_BURN); CONSUMER_LAG := s.(CONSUMER_LAG) |}).

(** [record] *)
Definition record (snap : StreamingSnapshot) : M state StreamingAssessment :=
  let! a := lift_M (diagnose snap default_target) in
  do! modify_M (remember a) in
  do! (match a.(slo).(burn_rate) with
       | Some b => modify_M (fun s => set_gauges (dset snap.(cluster) b s.(ERROR_BUDGET_BURN)) s.(CONSUMER_LAG) s)
       | None => mret_M tt
       end) in
  let! lag := lift_M (float_of_json (JInt snap.(consumer_lag))) in
  do! modify_M (fun s => set_gauges s.(ERROR_BUDGET_BURN) (dset snap.(cluster) lag s.(CONSUMER_LAG)) s) in
  do! iter_M count_finding a.(findings) in
  mret_M a.

Definition priority (s : Severity) : string :=
  match s with CRITICAL => "P1" | HIGH => "P2" | MEDIUM => "P3" | LOW | INFO => "P4" end.
Definition qualification (e : FireDrillEnvelope) (a : StreamingAssessment) : string :=
  if negb (jeq_str (dget "verdict" e.(report_card)) "PASS") || negb (bool_decide (a.(slo).(status) = "healthy"))
  then "ACTION_REQUIRED" else "PASS".
(** The two parts of the request for ARIA. *)
Definition incident_json (e : FireDrillEnvelope) (a : StreamingAssessment) : json :=
  JObj [("incident_id", JStr a.(incident_id)); ("service", JStr e.(service)); ("severity", JStr (priority a.(a_severity)));
    ("source", JStr "fire-drill"); ("signals", jstrs ("kafka" :: "streaming" :: map code a.(findings)));
    ("topic", jopt_str e.(snapshot).(topic)); ("consumer_group", jopt_str e.(snapshot).(consumer_group))].
Definition context_json (e : FireDrillEnvelope) (a : StreamingAssessment) : json :=
  JObj [("experiment_id", JStr e.(experiment_id)); ("event_id", JStr e.(event_id)); ("plan_digest", JStr e.(plan_digest));
    ("evidence_digest", JStr a.(evidence_digest)); ("scenario", JStr e.(scenario)); ("evidence_mode", JStr e.(evidence_mode));
    ("environment", JStr e.(environment)); ("approved_by", jopt_str e.(approved_by));
    ("blast_radius_percent", JInt e.(blast_radius_percent)); ("automatic_remediation", JBool false);
    ("streaming_observation", snapshot_json e.(snapshot)); ("findings", JArr (map finding_json a.(findings)));
    ("slo", slo_json a.(slo)); ("fire_drill_report", JObj e.(report_card)); ("qualification_verdict", JStr (qualification e a))].
(** [evaluate_fire_drill] *)
Definition evaluate_fire_drill (e : FireDrillEnvelope) : M state json :=
  if negb (bool_decide (e.(schema_version) = "1.0")) || negb (bool_decide (e.(source) = "fire-drill")) ||
     negb (bool_decide (e.(phase) = "observed")) then
    raise_M ValueError "unsupported Fire Drill evidence contract"
  else
  let! a := record e.(snapshot) in
  mret_M (JObj [("schema_version", JStr "1.0"); ("source", JStr "openmodelops"); ("evidence_mode", JStr e.(evidence_mode));
    ("experiment_id", JStr e.(experiment_id)); ("event_id", JStr e.(event_id)); ("plan_digest", JStr e.(plan_digest));
    ("fire_drill_report", JObj e.(report_card)); ("qualification_verdict", JStr (qualification e a));
    ("assessment", assessment_json a);
    ("aria_request", JObj [("incident", incident_json e a); ("context", context_json e a)])]).

(** ** The handlers *)

Section handlers.
(** [scenario_data()]: the catalogue, each entry as the fields of a snapshot. *)
Context (scenario_data : dict string StreamingSnapshot).

Definition scenarios : json := JObj [("scenarios", jstrs (sort_str (dkeys scenario_data)))].
Definition run_scenario (name : string) : M state json :=
  match dget name scenario_data with
  | None => http_M 404 "unknown scenario"
  | Some raw =>
      let! snap := lift_M (validate_partition_lag raw) in
      let! a := record snap in mret_M (assessment_json a)
  end.
End handlers.
Definition assess (snap : StreamingSnapshot) : M state json :=
  if negb (is_ok (validate_partition_lag snap)) then unprocessable
  else let! a := record snap in mret_M (assessment_json a).
Definition fire_drill_evaluate (e : FireDrillEnvelope) : M state json :=
  if negb (FireDrillEnvelope_valid e) then unprocessable
  else catch_M (evaluate_fire_drill e) [ValueError] (fun exc => http_M 422 (str_exn exc)).
Definition aria_evidence_handler (incident tenant : string) : M state json :=
  let! s := get_M in
  match dget incident s.(RECENT) with
  | None => http_M 404 "incident not found"
  | Some a => mret_M (aria_evidence tenant a)
  end.
Definition crca (incident : string) : M state string :=
  let! s := get_M in
  match dget incident s.(RECENT) with
  | None => http_M 404 "incident not found"
  | Some a => mret_M (render_crca a)
  end.
(** [main] of fire_drill_cli.py: the envelope of the standard input. *)
Definition fire_drill_cli (request : res FireDrillEnvelope) : M state string :=
  let! e := lift_M request in
  let! j := evaluate_fire_drill e in
  mret_M (dumps_sorted j).

End Api.

(** ** Lemmas *)

Module StreamingFacts.
Import Reliability.

(** Every code the diagnosis knows, in its order. *)
Definition codes : list string :=
  ["OFFLINE_PARTITIONS"; "UNDER_REPLICATED_PARTITIONS"; "CONSUMER_LAG"; "HOT_PARTITION"; "REBALANCE_STORM";
   "SCHEMA_INCOMPATIBILITY"; "DUPLICATE_PROCESSING"; "POISON_MESSAGES"; "DISK_PRESSURE"; "LATENCY_SLO";
   "ERROR_BUDGET_EXHAUSTED"].

Lemma finding_if_codes b c sev text ev actions : map code (finding_if b c sev text ev actions) `sublist_of` [c].
Proof. destruct b; cbn; [done|apply sublist_nil_l]. Qed.
Lemma sublist_cons_app {A} (x : A) l1 l2 k1 k2 :
  l1 `sublist_of` [x] -> l2 `sublist_of` k2 -> k1 = x :: k2 -> l1 ++ l2 `sublist_of` k1.
Proof. intros H1 H2 ->. by apply (sublist_app l1 [x] l2 k2). Qed.
Lemma hot_codes s hot : hot_partition s = Ok hot -> map code hot `sublist_of` ["HOT_PARTITION"].
Proof.
  unfold hot_partition. destruct (max_by _ _) as [h|]; [|intros [= <-]; apply sublist_nil_l].
  destruct (1000 <=? h.2); cbn [negb]; [|intros [= <-]; apply sublist_nil_l].
  destruct (int_div _ _); cbn [mbind res_bind]; [|done]. intros [= <-]. apply finding_if_codes.
Qed.
Lemma finding_codes s a hot : hot_partition s = Ok hot ->
  map code (before_hot s ++ hot ++ after_hot s ++ budget_finding a) `sublist_of` codes.
Proof.
  intros H. unfold before_hot, after_hot, budget_finding. rewrite !map_app, <- !app_assoc.
  repeat (eapply sublist_cons_app; [first [apply finding_if_codes|by apply (hot_codes s)]| |reflexivity]). apply finding_if_codes.
Qed.
Lemma codes_nodup : NoDup codes.
Proof. by apply (bool_decide_unpack _). Qed.

Lemma worst_spec fs :
  fs = [] /\ worst fs = INFO \/
  exists f, f ∈ fs /\ f.(severity) = worst fs /\ forall g, g ∈ fs -> SEVERITY_RANK g.(severity) <= SEVERITY_RANK (worst fs).
Proof.
  unfold worst. destruct (max_by _ (map severity fs)) as [sev|] eqn:E.
  - right. pose proof (max_by_elem _ _ _ E) as (f & Hf & Hin)%list_elem_of_fmap. exists f. cbn. split_and!; [done..|].
    intros g Hg. apply (max_by_ge SEVERITY_RANK _ _ _ E). by apply list_elem_of_fmap_2.
  - left. by destruct fs.
Qed.
Lemma elem_finding_if b c sev text ev actions f :
  f ∈ finding_if b c sev text ev actions <->
  b = true /\ f = {| code := c; severity := sev; summary := text; evidence := ev; safe_actions := actions |}.
Proof. destruct b; cbn; rewrite ?list_elem_of_singleton, ?elem_of_nil; naive_solver. Qed.

Lemma diagnose_spec s t a : diagnose s t = Ok a -> exists hot,
  hot_partition s = Ok hot /\ assess_slo s t = Ok a.(slo) /\
  a.(findings) = before_hot s ++ hot ++ after_hot s ++ budget_finding a.(slo) /\
  a.(a_severity) = worst a.(findings) /\ a.(automatic_remediation) = false /\
  a.(evidence_digest) = snapshot_digest s /\ a.(a_cluster) = s.(cluster) /\ a.(a_workload_id) = s.(workload_id) /\
  a.(incident_id) = "stream-" +:+ slice_to 16 (removeprefix "sha256:" (snapshot_digest s)).
Proof.
  unfold diagnose. destruct (hot_partition s) as [hot|]; cbn [mbind res_bind]; [|done].
  destruct (assess_slo s t) as [b|]; cbn [mbind res_bind]; [|done]. intros [= <-]. by exists hot.
Qed.

(** Only an unavailable partition is critical. *)
Lemma critical_offline s hot a f : hot_partition s = Ok hot ->
  f ∈ before_hot s ++ hot ++ after_hot s ++ budget_finding a -> f.(severity) = CRITICAL -> s.(offline_partitions) <> 0.
Proof.
  intros Hh H Hc.
  assert (f ∈ hot -> f.(severity) = HIGH) as Hhot.
  { unfold hot_partition in Hh. destruct (max_by _ _) as [h|]; [|injection Hh as <-; by intros ?%elem_of_nil].
    destruct (1000 <=? h.2); cbn [negb] in Hh; [|injection Hh as <-; by intros ?%elem_of_nil].
    destruct (int_div _ _); cbn [mbind res_bind] in Hh; [|done]. injection Hh as <-. rewrite elem_finding_if. by intros [_ ->]. }
  unfold before_hot, after_hot, budget_finding in H.
  repeat match goal with Hx : _ ∈ _ ++ _ |- _ => apply elem_of_app in Hx as [Hx|Hx] end.
  all: try (apply Hhot in H; congruence).
  all: apply elem_finding_if in H as [Hb ->]; try discriminate Hc. by apply negb_true_iff, Z.eqb_neq in Hb.
Qed.

Lemma offline_finding s rest : s.(offline_partitions) <> 0 ->
  exists f, f ∈ before_hot s ++ rest /\ f.(severity) = CRITICAL.
Proof.
  intros H. apply Z.eqb_neq in H. unfold before_hot. rewrite H. eexists. split; [by left|done].
Qed.

Lemma diagnosis_severity s t a : diagnose s t = Ok a -> (a.(a_severity) = CRITICAL <-> s.(offline_partitions) <> 0).
Proof.
  intros H. destruct (diagnose_spec _ _ _ H) as (hot & Hh & _ & Hf & -> & _). split.
  - destruct (worst_spec a.(findings)) as [[_ ->]|(f & Hin & <- & _)]; [done|]. rewrite Hf in Hin. by apply (critical_offline s hot a.(slo) f).
  - intros Ho. destruct (offline_finding s (hot ++ after_hot s ++ budget_finding a.(slo)) Ho) as (g & Hg & Hgc). rewrite <- Hf in Hg.
    destruct (worst_spec a.(findings)) as [[He _]|(f & _ & _ & Hall)]; [rewrite He in Hg; by apply elem_of_nil in Hg|].
    specialize (Hall g Hg). rewrite Hgc in Hall. destruct (worst _); cbn in Hall; done || lia.
Qed.
Lemma assess_healthy s t b : assess_slo s t = Ok b -> b.(status) = "healthy" ->
  exists e c, s.(eligible_events_total) = Some e /\ s.(completed_within_objective_total) = Some c /\ e <> 0 /\
    exists r, b.(completion_ratio) = Some r.
Proof.
  unfold assess_slo. destruct (negb _); [done|]. destruct (eligible_events_total s) as [e|]; [|by intros [= <-]].
  destruct (Z.eqb_spec e 0); [by intros [= <-]|]. destruct (completed_within_objective_total s) as [c|]; [|done].
  destruct (int_div c e) as [q|]; cbn [mbind res_bind]; [|done]. destruct (fdiv _ _); cbn [mbind res_bind]; [|done].
  intros [= <-] _. exists e, c. split_and!; [done..|]. by eexists.
Qed.
Lemma int_div_err n d e : int_div n d = Err e -> d <> 0 -> exists msg, e = Exn OverflowError msg.
Proof. unfold int_div. destruct (Z.eqb_spec d 0); [done|]. destruct (is_finite _); [done|]. intros [= <-]. eauto. Qed.
Lemma max_by_length {A} (f : A -> A -> bool) l x : max_by f l = Some x -> Z.of_nat (length l) <> 0.
Proof. by destruct l. Qed.
(** At the service's target a valid snapshot is always diagnosed, but for the
    quotients of integers too large for a float. *)
Lemma diagnose_total s e : validate_partition_lag s = Ok s -> diagnose s default_target = Err e ->
  exists msg, e = Exn OverflowError msg.
Proof.
  intros Hv. unfold diagnose.
  assert (forall x, hot_partition s = Err x -> exists msg, x = Exn OverflowError msg) as Hhot.
  { intros x. unfold hot_partition. destruct (max_by _ _) as [h|] eqn:E; [|done]. destruct (1000 <=? h.2); cbn [negb]; [|done].
    destruct (int_div _ _) as [q|y] eqn:Ed; cbn [mbind res_bind]; [done|]. intros [= <-].
    apply (int_div_err _ _ _ Ed). unfold dvals. rewrite length_map. by apply max_by_length in E. }
  destruct (hot_partition s) as [hot|x]; cbn [mbind res_bind]; [|intros [= <-]; by apply Hhot].
  destruct (assess_slo s default_target) as [b|x] eqn:Ea; cbn [mbind res_bind]; [done|]. intros [= <-].
  unfold assess_slo in Ea. change (negb _) with false in Ea. cbn iota in Ea.
  unfold validate_partition_lag in Hv. destruct (eligible_events_total s) as [el|]; [|done].
  destruct (Z.eqb_spec el 0) as [|Hel]; [done|]. destruct (completed_within_objective_total s) as [c|].
  - destruct (int_div c el) as [q|y] eqn:Ed; cbn [mbind res_bind] in Ea; [|injection Ea as <-; by apply (int_div_err _ _ _ Ed)].
    unfold fdiv in Ea. change (is_zero _) with false in Ea. done.
  - exfalso. destruct (negb _), (existsb _ _); discriminate Hv.
Qed.

End StreamingFacts.

Module ApiFacts.
Import Reliability Api StreamingFacts.

Lemma count_findings fs s : exists s', iter_M count_finding fs s = (Ok tt, s') /\
  s'.(RECENT) = s.(RECENT) /\ s'.(ASSESSMENTS) = s.(ASSESSMENTS) /\
  s'.(ERROR_BUDGET_BURN) = s.(ERROR_BUDGET_BURN) /\ s'.(CONSUMER_LAG) = s.(CONSUMER_LAG).
Proof.
  revert s. induction fs as [|f fs IH]; intros s; cbn [iter_M]; [by exists s|].
  unfold count_finding at 1. mred. destruct (IH {| RECENT := RECENT s; ASSESSMENTS := ASSESSMENTS s;
    FINDINGS := inc [code f] (FINDINGS s); ERROR_BUDGET_BURN := ERROR_BUDGET_BURN s; CONSUMER_LAG := CONSUMER_LAG s |}) as (s' & E & H).
  by exists s'.
Qed.
Lemma record_incident_ok snap s a s' : record snap s = (Ok a, s') ->
  diagnose snap default_target = Ok a /\ s'.(RECENT) = dset a.(incident_id) a s.(RECENT) /\
  s'.(ASSESSMENTS) = inc [severity_value a.(a_severity)] s.(ASSESSMENTS).
Proof.
  unfold record. destruct (diagnose snap default_target) as [b|e]; mred; [|done]. intros H.
  assert (exists s1, (match b.(slo).(burn_rate) with
       | Some r => modify_M (fun s => set_gauges (dset snap.(cluster) r s.(ERROR_BUDGET_BURN)) s.(CONSUMER_LAG) s)
       | None => mret_M tt end) (remember b s) = (Ok tt, s1) /\ s1.(RECENT) = (remember b s).(RECENT) /\
       s1.(ASSESSMENTS) = (remember b s).(ASSESSMENTS)) as (s1 & E1 & R1 & A1)
    by (destruct (burn_rate (slo b)); eexists; split_and!; reflexivity).
  rewrite (bind_ok _ _ _ _ _ E1) in H. destruct (float_of_json _) as [lag|e] eqn:Ef; mred in H; [|done].
  match type of H with mbind_M (iter_M _ ?fs) _ ?s2 = _ => destruct (count_findings fs s2) as (s3 & E3 & R3 & A3 & _) end.
  rewrite (bind_ok _ _ _ _ _ E3) in H. injection H as <- <-. split_and!; [done| |].
  - rewrite R3. cbn. by rewrite R1.
  - rewrite A3. cbn. by rewrite A1.
Qed.

End ApiFacts.

(** ** Properties *)

Module StreamingTheorems.
Import Reliability Api StreamingFacts ApiFacts.

(** C19: a diagnosis reports every kind of finding at most once and in the
    documented order; its severity is the worst of its findings and [info]
    without any; it is critical exactly when partitions are offline; the
    exhausted error budget is one of the findings; nothing is ever remediated
    automatically; and a valid snapshot always gets a diagnosis, but for the
    quotients of integers no float can hold. *)
Theorem diagnosis_worst_finding (s : StreamingSnapshot) (t : float) (a : StreamingAssessment) :
  diagnose s t = Ok a ->
  map code a.(findings) `sublist_of` codes /\ NoDup (map code a.(findings)) /\
  (a.(findings) = [] /\ a.(a_severity) = INFO \/
   exists f, f ∈ a.(findings) /\ f.(severity) = a.(a_severity) /\
     forall g, g ∈ a.(findings) -> SEVERITY_RANK g.(severity) <= SEVERITY_RANK a.(a_severity)) /\
  (a.(a_severity) = CRITICAL <-> s.(offline_partitions) <> 0) /\
  (a.(slo).(status) = "exhausted" -> "ERROR_BUDGET_EXHAUSTED" ∈ map code a.(findings)) /\
  a.(automatic_remediation) = false /\
  (forall e, validate_partition_lag s = Ok s -> diagnose s default_target = Err e ->
     exists msg, e = Exn OverflowError msg).
Proof.
  intros H. destruct (diagnose_spec _ _ _ H) as (hot & Hh & Ha & Hf & Hs & Hr & _).
  assert (map code a.(findings) `sublist_of` codes) as Hc by (rewrite Hf; by apply (finding_codes s)).
  split_and!; [done| | | | |done|].
  - eapply sublist_NoDup; [exact codes_nodup|exact Hc].
  - rewrite Hs. apply worst_spec.
  - by apply (diagnosis_severity s t).
  - intros Hx. rewrite Hf, !map_app, !elem_of_app. right. right. right. unfold budget_finding. rewrite Hx. by left.
  - intros e. apply diagnose_total.
Qed.
(** A snapshot of a degraded cluster. *)
Definition ex_snapshot (offline lag : Z) (completed : option Z) : StreamingSnapshot :=
  {| cluster := "c"; workload_id := "orders"; topic := Some "orders"; consumer_group := None;
     observed_at := {| isoformat := "2026-01-01T00:00:00+00:00"; json_text := "2026-01-01T00:00:00Z" |};
     produced_total := 100000; consumed_total := 90000; eligible_events_total := option_map (fun _ => 100000) completed;
     completed_within_objective_total := completed; consumer_lag := lag; partition_lag := [("0", 1200); ("1", 10); ("2", 5)];
     rebalances_5m := 0; under_replicated_partitions := 0; offline_partitions := offline; schema_errors_5m := 0;
     duplicate_rate := NInt 0; dlq_rate := NFloat (fratio 1 1000); disk_used_percent := NInt 0; p99_latency_ms := NInt 0 |}.
Definition ex_assessment (s : StreamingSnapshot) : res StreamingAssessment := diagnose s default_target.

Lemma diagnosis_worst_finding_witness :
  exists a, diagnose (ex_snapshot 1 20000 (Some 99000)) default_target = Ok a /\ a.(a_severity) = CRITICAL /\
    NoDup (map code a.(findings)).
Proof.
  assert (Hok : is_ok (diagnose (ex_snapshot 1 20000 (Some 99000)) default_target) = true) by (vm_compute; reflexivity).
  destruct (diagnose (ex_snapshot 1 20000 (Some 99000)) default_target) as [a|e] eqn:E; [|discriminate Hok].
  destruct (diagnosis_worst_finding _ _ _ E) as (_ & Hn & _ & Hc & _).
  exists a. split; [reflexivity|]. split; [apply Hc; discriminate|exact Hn].
Defined.

(** C17: a fire drill qualifies only on evidence: an accepted envelope is
    diagnosed and recorded, its verdict is PASS exactly when the drill's own
    report passed and the service objective was measured as healthy, which takes
    a cohort of eligible events; the incident is P1 exactly when partitions are
    offline; the request never asks for automatic remediation; and from then on
    the incident's evidence is served under its identifier. *)
Theorem fire_drill_verdict (e : FireDrillEnvelope) (s s' : state) (j : json) :
  fire_drill_evaluate e s = (Ok j, s') ->
  FireDrillEnvelope_valid e = true /\ exists a,
    diagnose e.(snapshot) default_target = Ok a /\
    s'.(RECENT) = dset a.(incident_id) a s.(RECENT) /\
    (jeq_str (jget "qualification_verdict" j) "PASS" = true <->
       jeq_str (dget "verdict" e.(report_card)) "PASS" = true /\ a.(slo).(status) = "healthy") /\
    (jeq_str (jget "qualification_verdict" j) "PASS" = true ->
       exists n c, e.(snapshot).(eligible_events_total) = Some n /\ n <> 0 /\
         e.(snapshot).(completed_within_objective_total) = Some c /\
         ~ "ERROR_BUDGET_EXHAUSTED" ∈ map code (budget_finding a.(slo))) /\
    (exists request, jget "aria_request" j = Some request /\
       (jeq_str (jget "severity" (default JNull (jget "incident" request))) "P1" = true <->
        e.(snapshot).(offline_partitions) <> 0) /\
       jget "automatic_remediation" (default JNull (jget "context" request)) = Some (JBool false)) /\
    (forall tenant, aria_evidence_handler a.(incident_id) tenant s' = (Ok (aria_evidence tenant a), s')).
Proof.
  unfold fire_drill_evaluate. destruct (FireDrillEnvelope_valid e) eqn:Hv; cbn [negb]; [|done]. intros H. split; [done|].
  assert (evaluate_fire_drill e s = (Ok j, s')) as H1.
  { unfold catch_M in H. destruct (evaluate_fire_drill e s) as [[j'|x] s1]; [done|]. by destruct (catches _ x). }
  unfold evaluate_fire_drill in H1. destruct (_ || _); [done|].
  apply bind_inv_ok in H1 as (a & s1 & Hrec & H1). injection H1 as <- <-.
  apply record_incident_ok in Hrec as (Hd & HR & _). exists a.
  pose proof (diagnosis_severity _ _ _ Hd) as Hcrit.
  assert (Hq : jeq_str (Some (JStr (qualification e a))) "PASS" = true <->
    jeq_str (dget "verdict" e.(report_card)) "PASS" = true /\ a.(slo).(status) = "healthy").
  { unfold qualification. destruct (jeq_str (dget "verdict" _) _); cbn [negb orb]; [|split; [done|by intros [? _]]].
    case_bool_decide as Hh; cbn [negb]; split; try done. by intros [_ ?]. }
  split; [done|]. split; [done|]. split; [exact Hq|]. split_and!.
  - intros [_ Hh]%Hq. destruct (diagnose_spec _ _ _ Hd) as (_ & _ & Ha & _).
    destruct (assess_healthy _ _ _ Ha Hh) as (n & c & H1 & H2 & H3 & _). exists n, c. split_and!; [done..|].
    unfold budget_finding. rewrite Hh. cbn. by intros ?%elem_of_nil.
  - eexists. split; [reflexivity|]. split; [|reflexivity]. rewrite <- Hcrit.
    change (jeq_str (Some (JStr (priority (a_severity a)))) "P1" = true <-> a_severity a = CRITICAL).
    destruct (a_severity a); vm_compute; done.
  - intros tenant. unfold aria_evidence_handler. mred. by rewrite HR, dget_dset_eq.
Qed.

Definition ex_envelope : FireDrillEnvelope :=
  {| schema_version := "1.0"; source := "fire-drill"; evidence_mode := "synthetic"; event_id := "e1"; experiment_id := "x1";
     service := "orders"; environment := "staging"; scenario := "lag"; phase := "observed"; e_observed_at := "now";
     plan_digest := sha256_digest "plan"; approved_by := Some "alice"; blast_radius_percent := 5; stop_conditions := ["errors"];
     report_card := [("verdict", JStr "PASS")]; snapshot := ex_snapshot 0 10 (Some 100000) |}.
Definition ex_state : state :=
  {| RECENT := []; ASSESSMENTS := []; FINDINGS := []; ERROR_BUDGET_BURN := []; CONSUMER_LAG := [] |}.

Lemma fire_drill_verdict_witness :
  exists j s' a, fire_drill_evaluate ex_envelope ex_state = (Ok j, s') /\ length s'.(RECENT) = 1%nat /\
    diagnose (ex_snapshot 0 10 (Some 100000)) default_target = Ok a /\ a.(slo).(status) = "healthy".
Proof.
  assert (Hok : is_ok (fire_drill_evaluate ex_envelope ex_state).1 = true) by (vm_compute; reflexivity).
  assert (Hpass : match (fire_drill_evaluate ex_envelope ex_state).1 with
    | Ok j => jeq_str (jget "qualification_verdict" j) "PASS" | Err _ => false end = true) by (vm_compute; reflexivity).
  destruct (fire_drill_evaluate ex_envelope ex_state) as [[j|e] s'] eqn:E; [|discriminate Hok].
  destruct (fire_drill_verdict _ _ _ _ E) as (_ & a & Hd & HR & Hq & _).
  exists j, s', a. split; [reflexivity|]. split; [rewrite HR; reflexivity|]. split; [exact Hd|]. apply Hq. exact Hpass.
Defined.

(** C16: streaming evidence reaches the release gate: the payload of an
    assessment, sent as any JSON text of it with the signature of the shared
    secret inside the replay window, is accepted by the Factory's adapter;
    recording it succeeds for a fresh signal and nonce, and the scorecard of its
    workload then has this one signal and asks to fail the release candidate
    exactly when the assessment is of high or critical severity. *)
Theorem streaming_evidence_gates_release (snap : StreamingSnapshot) (t : float) (a : StreamingAssessment) (tenant : string)
    (v : Integrations.Aria.AriaIntelligenceVerifier) (now observed : Z) (body timestamp nonce at_ : string)
    (table : Integrations.Aria.evidence_table) :
  diagnose snap t = Ok a -> loads body = Some (aria_evidence tenant a) ->
  v.(Integrations.Aria.secret) <> EmptyString -> nonce <> EmptyString -> int_of_str timestamp = Some observed ->
  Z.abs (now - observed) <= v.(Integrations.Aria.tolerance_seconds) ->
  (forall row, row ∈ table -> row.(Integrations.Aria.signal_id) <> a.(incident_id) /\ row.(Integrations.Aria.nonce) <> nonce) ->
  Integrations.Aria.matching tenant a.(a_workload_id) table = [] ->
  Integrations.Aria.verify v now body timestamp nonce (Integrations.Aria.expected_signature v timestamp nonce body) =
    Ok (aria_evidence tenant a) /\
  exists table' card, Integrations.Aria.record (aria_evidence tenant a) nonce at_ table = (Ok tt, table') /\
    Integrations.Aria.scorecard tenant a.(a_workload_id) table' = Ok card /\
    card.(Integrations.Aria.signals) = 1 /\ card.(Integrations.Aria.automatic_promotion) = false /\
    (card.(Integrations.Aria.release_gate_impact) = "fail-candidate" <-> a.(a_severity) = HIGH \/ a.(a_severity) = CRITICAL).
Proof.
  intros Hd Hb Hs Hn Ht Hw Hfresh Hm. split.
  - unfold Integrations.Aria.verify. rewrite Ht, Hb.
    assert (forall x : string, x <> EmptyString -> nonempty x = true) as Hne by (by intros []).
    rewrite !Hne by (try done; by destruct timestamp). cbn [negb orb].
    destruct (Z.gtb_spec (Z.abs (now - observed)) (Integrations.Aria.tolerance_seconds v)); [lia|].
    rewrite bool_decide_eq_true_2 by done. unfold aria_evidence.
    destruct (diagnose_spec _ _ _ Hd) as (_ & _ & _ & _ & _ & _ & _ & _ & _ & Hid). by rewrite Hid.
  - unfold Integrations.Aria.record. change (jfield "signal_id" (aria_evidence tenant a)) with (Ok (JStr a.(incident_id))).
    cbn [mbind res_bind Integrations.Aria.column_text]. mred.
    destruct (existsb _ table) eqn:E.
    { apply existsb_elem in E as (row & Hr & Hx). destruct (Hfresh row Hr) as [H1 H2].
      rewrite !bool_decide_eq_false_2 in Hx by done. discriminate Hx. }
    eexists _. unfold Integrations.Aria.scorecard. unfold Integrations.Aria.matching in Hm |- *.
    set (p := jsort (aria_evidence tenant a)).
    assert (jget "tenant" p = Some (JStr tenant) /\ jget "workload_id" p = Some (JStr a.(a_workload_id)) /\
      jget "severity" p = Some (JStr (severity_value a.(a_severity))) /\
      jget "confidence" p = Some (JFloat (match a.(findings) with [] => fratio 8 10 | _ => f_of_Z 1 end))) as (P1 & P2 & P3 & P4)
      by (vm_compute; done).
    eexists. split; [reflexivity|]. rewrite map_app, List.filter_app, Hm. cbn [map app Integrations.Aria.payload List.filter].
    fold p. clearbody p.
    rewrite P1, P2. cbn [jeq_str]. rewrite !bool_decide_eq_true_2 by done. cbn [andb map_res].
    unfold Integrations.Aria.rank_of. rewrite P3, P4. cbn [default mbind res_bind map_res max_by max_first fmap option_fmap option_map fst].
    split; [reflexivity|].
    cbn [Integrations.Aria.signals Integrations.Aria.automatic_promotion Integrations.Aria.release_gate_impact].
    split; [done|split; [done|]]. change (fst <$> max_by _ _) with (Some p). cbn iota beta. unfold Integrations.Aria.is_severe. rewrite P3.
    destruct (a_severity a); vm_compute; naive_solver.
Qed.

Definition ex_payload : json := Eval vm_compute in
  match diagnose (ex_snapshot 1 20000 (Some 99000)) default_target with Ok a => aria_evidence "acme" a | Err _ => JNull end.
Definition ex_body : string := Eval vm_compute in dumps ex_payload.
Lemma ex_body_parses : loads ex_body = Some ex_payload.
Proof. vm_compute. reflexivity. Qed.
Lemma ex_payload_eq :
  match diagnose (ex_snapshot 1 20000 (Some 99000)) default_target with Ok a => aria_evidence "acme" a | Err _ => JNull end = ex_payload.
Proof. vm_compute. reflexivity. Qed.
Definition ex_verifier : Integrations.Aria.AriaIntelligenceVerifier :=
  {| Integrations.Aria.secret := "shared"; Integrations.Aria.tolerance_seconds := 300 |}.

Lemma streaming_evidence_gates_release_witness :
  exists a table' card, diagnose (ex_snapshot 1 20000 (Some 99000)) default_target = Ok a /\
    Integrations.Aria.record (aria_evidence "acme" a) "n1" "now" [] = (Ok tt, table') /\
    Integrations.Aria.scorecard "acme" a.(a_workload_id) table' = Ok card /\
    card.(Integrations.Aria.release_gate_impact) = "fail-candidate".
Proof.
  pose proof ex_payload_eq as Hp.
  assert (Hsev : match diagnose (ex_snapshot 1 20000 (Some 99000)) default_target with
    | Ok a => bool_decide (a.(a_severity) = CRITICAL) | Err _ => false end = true) by (vm_compute; reflexivity).
  destruct (diagnose (ex_snapshot 1 20000 (Some 99000)) default_target) as [a|e] eqn:E; [|discriminate Hsev].
  assert (Hb : loads ex_body = Some (aria_evidence "acme" a)) by (rewrite Hp; exact ex_body_parses).
  destruct (streaming_evidence_gates_release _ _ a "acme" ex_verifier 1000 990 ex_body "990" "n1" "now" [] E Hb)
    as (_ & table' & card & H1 & H2 & _ & _ & H3).
  - discriminate.
  - discriminate.
  - reflexivity.
  - discriminate.
  - intros row Hr. exfalso. exact (proj1 (elem_of_nil row) Hr).
  - reflexivity.
  - exists a, table', card. split; [reflexivity|]. split; [exact H1|]. split; [exact H2|].
    apply H3. right. exact (bool_decide_eq_true_1 _ Hsev).
Defined.

End StreamingTheorems.
