(* ===== verification/FireDrill.v ===== *)
(** * The cross-repository fire drill (examples/streaming-fire-drill)

    The demonstration runs three programs one after the other, each a process
    that reads a JSON text and prints one: the chaos tool, this repository's
    [fire_drill_cli], and the investigator.  The first and the last belong to
    other repositories and are arguments; the one in the middle is the model of
    [Streaming], run as a fresh process, its pydantic validation [validate]
    given.  The texts between the processes are printed and parsed as [Json]
    does; what a process reads has the strings that were printed, whatever the
    numbers ([loads_part]). *)

From Stdlib Require Import String Ascii ZArith Lia SpecFloat.
From stdpp Require Import base list strings.
From S2P Require Import Prelude PyStr PyDict PyFloat Hash Json JsonText Streaming.

Module Demo.
Import Streaming.Reliability Streaming.Api.

(** [doc[k]] and the iteration of a decoded document. *)
Definition getitem (k : string) (j : json) : res json :=
  match j with JObj _ => jfield k j | _ => raise TypeError "indices must be integers" end.
Definition iter_json (j : json) : res (list json) :=
  match j with
  | JArr l => Ok l
  | JObj kvs => Ok (map (fun kv => JStr kv.1) kvs)
  | JStr s => Ok (map (fun c => JStr (of_chars [c])) (chars s))
  | _ => raise TypeError "object is not iterable"
  end.

(** [python -m platforms.streaming.fire_drill_cli]: a process starts with the
    module's empty state; an exception ends it with status 1. *)
Definition fresh_state : state :=
  {| RECENT := []; ASSESSMENTS := []; FINDINGS := []; ERROR_BUDGET_BURN := []; CONSUMER_LAG := [] |}.
Definition cli_process (validate : json -> res FireDrillEnvelope) (stdin : string) : res string :=
  let? request := match loads stdin with Some j => validate j | None => raise ValueError "invalid JSON" end in
  let? text := (fire_drill_cli (Ok request) fresh_state).1 in
  Ok (text +:+ of_chars [newline]).

Section demo.
Context {W : Type} (fire_drill aria : string -> M W string) (validate : json -> res FireDrillEnvelope).

(** [invoke]: the process of a module, [check=True] *)
Definition invoke (process : string -> M W string) (payload : json) : M W json :=
  let! stdout := catch_all_M (process (dumps payload)) (fun _ => raise_M OtherError "CalledProcessError") in
  match loads stdout with Some j => mret_M j | None => raise_M ValueError "JSONDecodeError" end.

(** [a[k] == b[k] == c[k]] *)
Definition same_field (k : string) (a b c : json) : res bool :=
  let? x := getitem k a in
  let? y := getitem k b in
  if json_eqb x y then let? z := getitem k c in Ok (json_eqb y z) else Ok false.
(** The evidence chain of [main]. *)
Definition evidence_chain (envelope assessed investigated : json) : res bool :=
  let? b := same_field "experiment_id" envelope assessed investigated in
  if negb b then Ok false else
  let? b := same_field "plan_digest" envelope assessed investigated in
  if negb b then Ok false else
  let? assessment := getitem "assessment" assessed in
  let? x := getitem "evidence_digest" assessment in
  let? y := getitem "evidence_digest" investigated in
  if negb (json_eqb x y) then Ok false else
  let? r := getitem "automatic_remediation" investigated in
  Ok (match r with JBool false => true | _ => false end).
(** The report that is printed. *)
Definition report (investigated : json) : res json :=
  let? experiment := getitem "experiment_id" investigated in
  let? plan := getitem "plan_digest" investigated in
  let? evidence := getitem "evidence_digest" investigated in
  let? findings := getitem "findings" investigated in
  let? items := iter_json findings in
  let? codes := map_res (getitem "code") items in
  let? drill := getitem "fire_drill_report" investigated in
  let? slo := getitem "slo" investigated in
  let? investigation := getitem "investigation" investigated in
  let? live := getitem "live_evidence_complete" investigation in
  let? decision := getitem "decision" investigated in
  let? verdict := getitem "qualification_verdict" investigated in
  Ok (JObj [("mode", JStr "synthetic-contract-demo"); ("status", JStr "passed"); ("experiment_id", experiment);
    ("plan_digest", plan); ("evidence_digest", evidence); ("finding_codes", JArr codes); ("fire_drill_report", drill);
    ("slo", slo); ("live_kafka_evidence_complete", live); ("decision", decision); ("qualification_verdict", verdict)]).

(** [main]: [plan], [snapshot] and [observation] are the files of the example. *)
Definition main (plan snapshot observation : json) : M W json :=
  let! envelope := invoke fire_drill (JObj [("plan", plan); ("snapshot", snapshot); ("observation", observation);
                                           ("experiment_id", JStr "drill-demo-001")]) in
  let! assessed := invoke (fun text => lift_M (cli_process validate text)) envelope in
  let! request := lift_M (getitem "aria_request" assessed) in
  let! investigated := invoke aria request in
  let! b := lift_M (evidence_chain envelope assessed investigated) in
  if negb b then raise_M RuntimeError "cross-repository evidence chain validation failed"
  else lift_M (report investigated).
End demo.

End Demo.

(** ** Lemmas *)

Module DemoFacts.
Import Streaming.Reliability Streaming.Api Streaming.StreamingFacts Demo.

Lemma ok_inj {A} (x y : A) : Ok x = Ok y -> x = y.
Proof. by intros [= ->]. Qed.
Lemma getitem_read k kvs v x y : read_as true (JObj kvs) v -> dwf kvs -> dget k kvs = Some x -> getitem k v = Ok y -> read_as true x y.
Proof.
  intros Hr Hw Hk Hy. destruct (read_as_field _ _ _ _ _ Hr Hw Hk) as (z & Hz & Hx).
  assert (getitem k v = Ok z) as E by (unfold getitem; destruct v; try done; by apply jfield_ok). rewrite E in Hy. by apply ok_inj in Hy as <-.
Qed.
Lemma json_eqb_str s j : json_eqb (JStr s) j = true -> j = JStr s.
Proof. destruct j; cbn; try done. by intros ->%bool_decide_eq_true. Qed.

Lemma invoke_ok {W} (process : string -> M W string) payload w j w' : invoke process payload w = (Ok j, w') ->
  exists out, process (dumps payload) w = (Ok out, w') /\ loads out = Some j.
Proof.
  unfold invoke, catch_all_M, mbind_M. destruct (process (dumps payload) w) as [[out|e] w1]; [|done].
  destruct (loads out) as [j'|] eqn:E; [|done]. intros [= <- <-]. by exists out.
Qed.
Lemma same_field_ok k a b c : same_field k a b c = Ok true -> exists x y z,
  getitem k a = Ok x /\ getitem k b = Ok y /\ getitem k c = Ok z /\ json_eqb x y = true /\ json_eqb y z = true.
Proof.
  unfold same_field. destruct (getitem k a) as [x|]; cbn [mbind res_bind]; [|done].
  destruct (getitem k b) as [y|]; cbn [mbind res_bind]; [|done]. destruct (json_eqb x y) eqn:E; [|done].
  destruct (getitem k c) as [z|]; cbn [mbind res_bind]; [|done]. intros [= Hz]. by exists x, y, z.
Qed.
Lemma evidence_chain_ok a b c : evidence_chain a b c = Ok true ->
  same_field "experiment_id" a b c = Ok true /\ same_field "plan_digest" a b c = Ok true /\
  exists assessment x y, getitem "assessment" b = Ok assessment /\ getitem "evidence_digest" assessment = Ok x /\
    getitem "evidence_digest" c = Ok y /\ json_eqb x y = true /\ getitem "automatic_remediation" c = Ok (JBool false).
Proof.
  unfold evidence_chain.
  destruct (same_field "experiment_id" a b c) as [[]|]; cbn [mbind res_bind negb]; try done.
  destruct (same_field "plan_digest" a b c) as [[]|]; cbn [mbind res_bind negb]; try done.
  destruct (getitem "assessment" b) as [s|]; cbn [mbind res_bind]; [|done].
  destruct (getitem "evidence_digest" s) as [x|] eqn:Ex; cbn [mbind res_bind]; [|done].
  destruct (getitem "evidence_digest" c) as [y|]; cbn [mbind res_bind]; [|done].
  destruct (json_eqb x y) eqn:E; cbn [negb]; [|done].
  destruct (getitem "automatic_remediation" c) as [r|]; cbn [mbind res_bind]; [|done].
  intros H. split; [done|]. split; [done|]. exists s, x, y. split_and!; try done. by destruct r as [|[]| | | | |].
Qed.
Lemma report_ok c rep : report c = Ok rep -> exists x p e,
  getitem "experiment_id" c = Ok x /\ getitem "plan_digest" c = Ok p /\ getitem "evidence_digest" c = Ok e /\
  jget "experiment_id" rep = Some x /\ jget "plan_digest" rep = Some p /\ jget "evidence_digest" rep = Some e.
Proof.
  unfold report. intros H.
  repeat match type of H with
         | (mbind _ ?m) = _ => let E := fresh "E" in destruct m as [?|] eqn:E; cbn [mbind res_bind] in H; [|discriminate H]
         end.
  injection H as <-. do 3 eexists. split_and!; done.
Qed.

(** The middle process: what its output is read as. *)
Lemma cli_process_ok validate stdin out : cli_process validate stdin = Ok out -> exists parsed e j s',
  loads stdin = Some parsed /\ validate parsed = Ok e /\ evaluate_fire_drill e fresh_state = (Ok j, s') /\
  (forall v, loads out = Some v -> read_as true j v).
Proof.
  unfold cli_process. destruct (loads stdin) as [parsed|] eqn:El; cbn [mbind res_bind raise]; [|done].
  destruct (validate parsed) as [e|] eqn:Ev; cbn [mbind res_bind]; [|done].
  unfold fire_drill_cli. mred. unfold mbind_M.
  destruct (evaluate_fire_drill e fresh_state) as [[j|x] s'] eqn:Ee; cbn [fst mbind res_bind mret_M]; [|done]. intros [= <-]. exists parsed, e, j, s'. split_and!; try done. intros v Hv'. by apply (loads_part true false j).
Qed.
End DemoFacts.

(** ** Properties *)

Module DemoTheorems.
Import Streaming.Reliability Streaming.Api Streaming.StreamingFacts Demo DemoFacts.

(** C18: a printed report certifies an unbroken evidence chain.  Whatever the
    chaos tool and the investigator answer, a report is printed only when the
    envelope passed this repository's validation and was diagnosed by a fresh
    process; the investigator was then asked about that experiment, plan digest
    and evidence digest, without automatic remediation, and the experiment, the
    plan digest and the evidence digest of the report are those of the validated
    envelope and of the snapshot it carries, digested here: an investigator that
    reports on other evidence is refused. *)
Theorem report_certifies_evidence : forall (W : Type) (fire_drill aria : string -> M W string) validate plan snap obs w rep w',
  main fire_drill aria validate plan snap obs w = (Ok rep, w') ->
  exists envelope parsed e j s' a request context w1 w2 answer,
    loads (dumps envelope) = Some parsed /\ validate parsed = Ok e /\
    evaluate_fire_drill e fresh_state = (Ok j, s') /\ diagnose e.(snapshot) default_target = Ok a /\
    aria (dumps request) w1 = (Ok answer, w2) /\ jget "context" request = Some context /\
    jget "automatic_remediation" context = Some (JBool false) /\
    Forall (fun doc =>
      jget "experiment_id" doc = Some (JStr e.(experiment_id)) /\ jget "plan_digest" doc = Some (JStr e.(plan_digest)) /\
      jget "evidence_digest" doc = Some (JStr (snapshot_digest e.(snapshot)))) [context; rep].
Proof.
  intros W fire_drill aria validate plan snap obs w rep w' H. unfold main in H.
  apply bind_inv_ok in H as (envelope & w1 & H1 & H). apply bind_inv_ok in H as (assessed & w2 & H2 & H).
  apply bind_inv_ok in H as (request & w3 & H3 & H). apply bind_inv_ok in H as (investigated & w4 & H4 & H).
  apply bind_inv_ok in H as (b & w5 & H5 & H). destruct b; [|done]. cbn [negb] in H.
  injection H as Hrep _. injection H3 as H3 _. injection H5 as H5 _.
  apply invoke_ok in H2 as (out & [= H2 _] & Hout). apply cli_process_ok in H2 as (parsed & e & j & s' & Hp & Hv & He & Hr).
  apply Hr in Hout. clear Hr. pose proof He as He'. unfold evaluate_fire_drill in He'. destruct (_ || _); [done|].
  apply bind_inv_ok in He' as (a & s1 & Hrec & He'). injection He' as Hj _. rewrite <- Hj in Hout.
  apply ApiFacts.record_incident_ok in Hrec as (Hd & _). destruct (diagnose_spec _ _ _ Hd) as (_ & _ & _ & _ & _ & _ & Hdig & _).
  apply invoke_ok in H4 as (answer & H4 & _).
  pose proof (fun k x y => getitem_read k _ assessed x y Hout ltac:(solve_keys)) as Hfield.
  apply Hfield with (1 := eq_refl) in H3. cbn in H3.
  destruct (read_as_field _ _ _ "context" (context_json e a) H3 ltac:(solve_keys) eq_refl) as (context & Hc & Hcr).
  exists envelope, parsed, e, j, s', a, request, context, w3, w4, answer. do 6 (split; [done|]).
  assert (forall k s, dget k (match context_json e a with JObj kvs => kvs | _ => [] end) = Some (JStr s) -> jget k context = Some (JStr s)) as Hctx.
  { intros k s Hk. destruct (read_as_field _ _ _ k (JStr s) Hcr ltac:(solve_keys) Hk) as (y & Hy & ->%read_as_str). done. }
  split.
  { by destruct (read_as_field _ _ _ "automatic_remediation" (JBool false) Hcr ltac:(solve_keys) eq_refl) as (y & Hy & ->%read_as_bool). }
  rewrite <- Hdig. constructor; [split_and!; by apply Hctx|]. constructor; [|done].
  apply evidence_chain_ok in H5 as ((x1 & y1 & z1 & _ & Hy1 & Hz1 & _ & E1)%same_field_ok & (x2 & y2 & z2 & _ & Hy2 & Hz2 & _ & E2)%same_field_ok &
    sa & y3 & z3 & Hsa & Hy3 & Hz3 & E3 & _).
  apply Hfield with (1 := eq_refl), read_as_str in Hy1 as ->. apply Hfield with (1 := eq_refl), read_as_str in Hy2 as ->.
  apply Hfield with (1 := eq_refl) in Hsa. apply (getitem_read "evidence_digest" _ _ (JStr a.(evidence_digest)) _ Hsa ltac:(solve_keys) eq_refl), read_as_str in Hy3 as ->.
  apply json_eqb_str in E1 as ->, E2 as ->, E3 as ->.
  apply report_ok in Hrep as (x & p & d & R1 & R2 & R3 & -> & -> & ->). rewrite Hz1 in R1. rewrite Hz2 in R2. rewrite Hz3 in R3.
  by injection R1 as <-; injection R2 as <-; injection R3 as <-.
Qed.
(** The other two programs, on the envelope of an example. *)
Definition ex_envelope : FireDrillEnvelope := Streaming.StreamingTheorems.ex_envelope.
Definition ex_document : json :=
  JObj [("experiment_id", JStr ex_envelope.(experiment_id)); ("plan_digest", JStr ex_envelope.(plan_digest))].
Definition ex_fire_drill (stdin : string) : M nat string := fun n => (Ok (dumps ex_document), S n).
Definition ex_validate (j : json) : res FireDrillEnvelope :=
  let? id := fstr "experiment_id" j in
  if bool_decide (id = ex_envelope.(experiment_id)) then Ok ex_envelope else raise ValidationError "unknown experiment".
Definition ex_aria (stdin : string) : M nat string := fun n =>
  (match loads stdin with
   | Some request =>
       let field k := default JNull (jget k (default JNull (jget "context" request))) in
       Ok (dumps (JObj (map (fun k => (k, field k)) ["experiment_id"; "plan_digest"; "evidence_digest"; "automatic_remediation";
         "findings"; "fire_drill_report"; "slo"; "qualification_verdict"] ++
         [("investigation", JObj [("live_evidence_complete", JBool false)]); ("decision", JStr "review")])))
   | None => raise ValueError "invalid JSON"
   end, S n).
Lemma ex_main_ok : is_ok (main ex_fire_drill ex_aria ex_validate JNull JNull JNull 0%nat).1 = true.
Proof. vm_compute. reflexivity. Qed.
Lemma ex_validate_ok j e : ex_validate j = Ok e -> e = ex_envelope.
Proof.
  unfold ex_validate. destruct (fstr _ j) as [id|]; cbn [mbind res_bind]; [|done]. case_bool_decide; [|done]. by intros [= <-].
Qed.

Lemma report_certifies_evidence_witness : exists rep w',
  main ex_fire_drill ex_aria ex_validate JNull JNull JNull 0%nat = (Ok rep, w') /\
  jget "evidence_digest" rep = Some (JStr (snapshot_digest ex_envelope.(snapshot))).
Proof.
  pose proof ex_main_ok as Hok.
  destruct (main ex_fire_drill ex_aria ex_validate JNull JNull JNull 0%nat) as [[rep|x] w'] eqn:E; [|discriminate Hok].
  exists rep, w'. split; [reflexivity|].
  destruct (report_certifies_evidence nat ex_fire_drill ex_aria ex_validate JNull JNull JNull 0%nat rep w' E)
    as (env & p & e & j & s' & a & request & context & w1 & w2 & answer & _ & Hv & _ & _ & _ & _ & _ & H).
  apply ex_validate_ok in Hv. subst e. inversion_clear H as [|? ? _ H']. inversion_clear H' as [|? ? H _].
  exact (proj2 (proj2 H)).
Defined.

End DemoTheorems.
