(* ===== verification/Telemetry.v ===== *)
(** * Telemetry (packages/observability/telemetry.py)

    The settings and their environment, the filter that keeps content out of
    span attributes, and the operation context managers.  The OpenTelemetry
    tracer and the Opik SDK are arguments: what a span does when it starts, gets
    an attribute, records an exception and ends. *)

From Stdlib Require Import String Ascii ZArith Lia.
From stdpp Require Import base list strings.
From S2P Require Import Prelude PyStr PyDict Regex Json Security Pipelines.

Module Settings.

Inductive TelemetryProvider := GENERIC_OTLP | LANGFUSE | PHOENIX | OPIK.
#[export] Instance TelemetryProvider_eq_dec : EqDecision TelemetryProvider.
Proof. solve_decision. Defined.
Definition provider_value (p : TelemetryProvider) : string :=
  match p with GENERIC_OTLP => "otlp" | LANGFUSE => "langfuse" | PHOENIX => "phoenix" | OPIK => "opik" end.
(** [TelemetryProvider(value)] *)
Definition provider_of (value : string) : res TelemetryProvider :=
  match List.find (fun p => bool_decide (provider_value p = value)) [GENERIC_OTLP; LANGFUSE; PHOENIX; OPIK] with
  | Some p => Ok p
  | None => raise ValueError (repr_str value +:+ " is not a valid TelemetryProvider")
  end.

Definition ALLOWED_OPERATIONS : list string :=
  ["agent"; "embedding"; "factory"; "llm"; "policy"; "rerank"; "retrieval"; "sre"; "tool"].

Record TelemetrySettings := {
  service_name : string;
  enabled : bool;
  provider : TelemetryProvider;
  endpoint : option string;
  headers : dict string string;
  project_name : string;
  capture_content : bool;
}.
(** [TelemetrySettings.exporter_headers] *)
Definition exporter_headers (s : TelemetrySettings) : dict string string :=
  let h := s.(headers) in
  let h := if bool_decide (s.(provider) = LANGFUSE) then dsetdefault "x-langfuse-ingestion-version" "4" h else h in
  if bool_decide (s.(provider) = PHOENIX) || bool_decide (s.(provider) = OPIK)
  then dsetdefault "x-project-name" s.(project_name) h else h.

(** [item.partition("=")]: the text before the first sign, and the text after
    it when there is one. *)
Fixpoint partition_eq (l : list ascii) : list ascii * option (list ascii) :=
  match l with
  | [] => ([], None)
  | c :: r => if bool_decide (c = "="%char) then ([], Some r)
              else let '(a, b) := partition_eq r in (c :: a, b)
  end.
(** The loop over the entries of [OTEL_EXPORTER_OTLP_HEADERS]. *)
Fixpoint parse_headers (items : list string) (h : dict string string) : res (dict string string) :=
  match items with
  | [] => Ok h
  | item :: items' =>
      match partition_eq (chars item) with
      | (_, None) => raise ValueError "OTEL_EXPORTER_OTLP_HEADERS must use key=value entries"
      | (k, Some v) => parse_headers items' (dset (strip (of_chars k)) (strip (of_chars v)) h)
      end
  end.

(** [Telemetry.__init__]: without an exporter of the caller an enabled
    instance needs an endpoint. *)
Definition new_telemetry (own_exporter : bool) (s : TelemetrySettings) : res TelemetrySettings :=
  if s.(enabled) && negb own_exporter && negb (match s.(endpoint) with Some e => nonempty e | None => false end) then
    raise ValueError "an OTLP endpoint is required when telemetry is enabled"
  else Ok s.

Inductive telemetry_kind := Otlp (s : TelemetrySettings) | Opik (s : TelemetrySettings).
(** [telemetry_from_environment]; [opik] says whether its SDK is installed. *)
Definition telemetry_from_environment (opik : bool) (env : environ) (service : string) : res (option telemetry_kind) :=
  let endpoint_ := strip (getenv "OTEL_EXPORTER_OTLP_TRACES_ENDPOINT" EmptyString env) in
  if negb (nonempty endpoint_) then Ok None
  else
  let? p := provider_of (getenv "OPENMODELOPS_TELEMETRY_PROVIDER" "otlp" env) in
  let? h := parse_headers (List.filter nonempty (split ","%char (getenv "OTEL_EXPORTER_OTLP_HEADERS" EmptyString env))) [] in
  let s := {| service_name := service; enabled := true; provider := p; endpoint := Some endpoint_; headers := h;
              project_name := getenv "OPENMODELOPS_TELEMETRY_PROJECT" "openmodelops" env;
              capture_content :=
                bool_decide (str_lower (getenv "OPENMODELOPS_CAPTURE_AI_CONTENT" "false" env) = "true") |} in
  if bool_decide (p = OPIK) then
    if opik then Ok (Some (Opik s)) else raise RuntimeError "install the 'observability' extra to enable Opik"
  else let? s := new_telemetry false s in Ok (Some (Otlp s)).

(** A text in base 16, as [int(text, 16)] reads plain digits. *)
Definition hex_int (s : string) : option Z :=
  fold_left (fun acc c => match acc, hex_val c with Some z, Some n => Some (16 * z + Z.of_N n) | _, _ => None end)
    (chars s) (match s with EmptyString => None | _ => Some 0 end).
(** [event.event_id.replace("-", "")[-16:]] *)
Definition span_text (event_id : string) : string :=
  let l := List.filter (fun c => negb (bool_decide (c = "-"%char))) (chars event_id) in
  of_chars (drop (length l - 16) l).
Record SpanContext := { trace_id : Z; span_id : Z; is_remote : bool; sampled : bool }.
(** [trace_context_from_event]; identifiers that are not plain hexadecimal
    digits raise. *)
Definition trace_context_from_event (e : Events.FactoryEvent) : res SpanContext :=
  match hex_int e.(Events.trace_id), hex_int (span_text e.(Events.event_id)) with
  | Some t, Some s => Ok {| trace_id := t; span_id := s; is_remote := true; sampled := true |}
  | _, _ => raise ValueError "invalid literal for int() with base 16"
  end.

End Settings.

Module Spans.
Import Settings.

(** [SENSITIVE_KEY.search(key)].  The boundaries of the token alternative are
    the ends of the text or one of the two separators; the end may be followed
    by a line feed. *)
Definition sensitive_words : re :=
  alts (map lit_ci ["prompt"; "input"; "output"; "document"; "context"; "secret"; "password"; "authorization"]).
Definition token_word : re := Cat (Chr (one_of "._")) (Cat (lit_ci "token") (Chr (one_of "._"))).
Definition drop_newline (s : string) : string :=
  match rev (chars s) with
  | c :: r => if bool_decide (c = "010"%char) then of_chars (rev r) else s
  | [] => s
  end.
Definition sensitive_key (key : string) : bool :=
  search sensitive_words key || search token_word ("." +:+ key +:+ ".") ||
  search token_word ("." +:+ drop_newline key +:+ ".").

(** [isinstance(value, (str, bool, int, float))] *)
Definition primitive (j : json) : bool :=
  match j with JStr _ | JBool _ | JInt _ | JFloat _ => true | _ => false end.
Definition exportable (j : json) : bool :=
  primitive j || match j with JArr l => forallb primitive l | _ => false end.
(** [Telemetry._safe_attributes] *)
Definition keep_attribute (capture : bool) (kv : string * json) : bool :=
  negb (sensitive_key kv.1 && negb (endswith ".digest" kv.1) && negb capture) && exportable kv.2.
Definition _safe_attributes (capture : bool) (attributes : dict string json) : dict string json :=
  fold_left (fun safe kv => if keep_attribute capture kv then dset kv.1 kv.2 safe else safe) attributes [].

Section operation.
Context {W : Type}.
(** The span of the tracer: its start with a name and attributes, an attribute
    set later, a recorded exception with the message it replaces, and its end,
    by the exception that leaves the block if there is one. *)
Record Tracer := {
  start_span : string -> dict string json -> M W unit;
  set_attribute : string -> json -> M W unit;
  record_exception : exn -> string -> M W unit;
  end_span : option exn -> M W unit;
}.
(** [with ... as span: body] *)
Definition with_span {A} (finish : option exn -> M W unit) (body : M W A) : M W A := fun w =>
  match body w with
  | (Ok a, w1) => (do! finish None in mret_M a) w1
  | (Err e, w1) => (do! finish (Some e) in lift_M (Err e)) w1
  end.
(** [Telemetry.operation] around the body of the caller's block. *)
Definition operation {A} (t : Tracer) (s : TelemetrySettings) (op : string) (attributes : dict string json) (body : M W A) : M W A :=
  if negb (str_in op ALLOWED_OPERATIONS) then raise_M ValueError ("unsupported telemetry operation: " +:+ op)
  else
  let safe := dset "openinference.span.kind" (JStr (str_upper op)) (_safe_attributes s.(capture_content) attributes) in
  do! t.(start_span) ("openmodelops." +:+ op) safe in
  with_span t.(end_span)
    (catch_all_M
       (let! a := body in
        do! t.(set_attribute) "openmodelops.outcome" (JStr "success") in
        mret_M a)
       (fun e =>
        do! t.(record_exception) e "operation failed" in
        do! t.(set_attribute) "openmodelops.outcome" (JStr "error") in
        lift_M (Err e))).

(** [OpikTelemetry.operation]; the SDK's span takes a name, a type, a project
    and metadata. *)
Definition opik_operation {A} (start : string -> string -> string -> dict string json -> M W unit)
    (finish : option exn -> M W unit) (s : TelemetrySettings) (op : string) (attributes : dict string json)
    (parent_context : bool) (body : M W A) : M W A :=
  if parent_context then raise_M ValueError "Opik parent context must be propagated through its SDK context"
  else if negb (str_in op ALLOWED_OPERATIONS) then raise_M ValueError ("unsupported telemetry operation: " +:+ op)
  else
  let span_type := if str_in op ["llm"; "tool"] then op else "general" in
  do! start ("openmodelops." +:+ op) span_type s.(project_name) (_safe_attributes false attributes) in
  with_span finish body.
End operation.
Arguments Tracer : clear implicits.

End Spans.

(** ** Lemmas *)

Module TelemetryFacts.
Import Settings Spans.

Lemma safe_from cap attrs acc k :
  NoDup (dkeys attrs) ->
  dget k (fold_left (fun safe kv => if keep_attribute cap kv then dset kv.1 kv.2 safe else safe) attrs acc) =
  match dget k attrs with
  | Some v => if keep_attribute cap (k, v) then Some v else dget k acc
  | None => dget k acc
  end.
Proof.
  revert acc. induction attrs as [|[k' v'] attrs IH]; intros acc Hn; cbn [fold_left dget]; [done|].
  cbn in Hn. apply NoDup_cons in Hn as [Hk Hn]. rewrite IH by done. cbn [fst snd]. case_decide as Hd.
  - subst k'. apply (dget_None k attrs) in Hk. rewrite Hk.
    destruct (keep_attribute cap (k, v')); [by rewrite dget_dset_eq|done].
  - destruct (keep_attribute cap (k', v')); [|done]. by rewrite dget_dset_ne.
Qed.
(** The filter keeps exactly the attributes that pass it. *)
Lemma safe_attributes_spec cap attrs k v : dwf attrs ->
  dget k (_safe_attributes cap attrs) = Some v <-> dget k attrs = Some v /\ keep_attribute cap (k, v) = true.
Proof.
  intros Hw. unfold _safe_attributes. rewrite safe_from by done. cbn.
  destruct (dget k attrs) as [v'|]; [|split; [done|by intros [? _]]].
  destruct (keep_attribute cap (k, v')) eqn:E; split; [by intros [= <-]|by intros [[= <-] _]|done|intros [[= <-] H]; congruence].
Qed.
Lemma keep_attribute_iff cap k v : keep_attribute cap (k, v) = true <->
  exportable v = true /\ (sensitive_key k = true -> endswith ".digest" k = true \/ cap = true).
Proof.
  unfold keep_attribute. cbn [fst snd]. rewrite andb_true_iff, negb_true_iff.
  generalize (sensitive_key k), (endswith ".digest" k), (exportable v). intros [] [] []; destruct cap; cbn; intuition congruence.
Qed.

(** A tracer none of whose calls raises. *)
Definition quiet {W} (t : Tracer W) : Prop :=
  (forall n a w, exists w', t.(start_span) n a w = (Ok tt, w')) /\
  (forall k v w, exists w', t.(set_attribute) k v w = (Ok tt, w')) /\
  (forall e m w, exists w', t.(record_exception) e m w = (Ok tt, w')) /\
  (forall o w, exists w', t.(end_span) o w = (Ok tt, w')).

End TelemetryFacts.

(** ** Properties *)

Module TelemetryTheorems.
Import Settings Spans TelemetryFacts.

(** C20: what the span of an operation is told, by a tracer whose calls do not
    raise.  An operation of an unknown kind is refused before its body runs, with
    no span.  Otherwise the span starts once, before the body, with exactly the
    attributes of the caller that are primitive values or lists of them and whose
    key is not sensitive, unless it is a digest or capture is on, and with the
    operation's kind.  When the body returns, the span gets the outcome "success"
    and ends, and the block returns the body's result; when it raises, the
    exception is recorded under the message "operation failed", the span gets the
    outcome "error" and ends with the exception itself (whose own message it can
    then export), and the block raises it. *)
Theorem operation_redacted {W A : Type} (t : Tracer W) (s : TelemetrySettings) (op : string)
    (attributes : dict string json) (body : M W A) (w : W) :
  quiet t -> dwf attributes ->
  (op ∉ ALLOWED_OPERATIONS ->
     operation t s op attributes body w = (raise ValueError ("unsupported telemetry operation: " +:+ op), w)) /\
  (op ∈ ALLOWED_OPERATIONS -> exists safe w1,
     t.(start_span) ("openmodelops." +:+ op) safe w = (Ok tt, w1) /\
     dget "openinference.span.kind" safe = Some (JStr (str_upper op)) /\
     (forall k v, k <> "openinference.span.kind" ->
        dget k safe = Some v <->
        dget k attributes = Some v /\ exportable v = true /\
        (sensitive_key k = true -> endswith ".digest" k = true \/ s.(capture_content) = true)) /\
     match body w1 with
     | (Ok a, w2) => exists w3 w4, t.(set_attribute) "openmodelops.outcome" (JStr "success") w2 = (Ok tt, w3) /\
         t.(end_span) None w3 = (Ok tt, w4) /\ operation t s op attributes body w = (Ok a, w4)
     | (Err e, w2) => exists w3 w4 w5, t.(record_exception) e "operation failed" w2 = (Ok tt, w3) /\
         t.(set_attribute) "openmodelops.outcome" (JStr "error") w3 = (Ok tt, w4) /\
         t.(end_span) (Some e) w4 = (Ok tt, w5) /\ operation t s op attributes body w = (Err e, w5)
     end).
Proof.
  intros (Q1 & Q2 & Q3 & Q4) Hw. unfold operation. split; intros Hop.
  - apply str_in_false in Hop. by rewrite Hop.
  - apply str_in_spec in Hop. rewrite Hop. cbn [negb].
    set (safe := dset "openinference.span.kind" _ _). destruct (Q1 ("openmodelops." +:+ op) safe w) as [w1 E1].
    exists safe, w1. split; [done|]. split; [apply dget_dset_eq|]. split.
    { intros k v Hk. unfold safe. rewrite dget_dset_ne by done. by rewrite safe_attributes_spec, keep_attribute_iff by done. }
    rewrite (bind_ok _ _ _ _ _ E1). unfold with_span, catch_all_M. destruct (body w1) as [[a|e] w2] eqn:Eb.
    + destruct (Q2 "openmodelops.outcome" (JStr "success") w2) as [w3 E3]. destruct (Q4 None w3) as [w4 E4].
      exists w3, w4. rewrite (bind_ok _ _ _ _ _ Eb), (bind_ok _ _ _ _ _ E3). unfold mret_M at 1. by rewrite (bind_ok _ _ _ _ _ E4).
    + destruct (Q3 e "operation failed" w2) as [w3 E3]. destruct (Q2 "openmodelops.outcome" (JStr "error") w3) as [w4 E4].
      destruct (Q4 (Some e) w4) as [w5 E5]. exists w3, w4, w5. rewrite (bind_err _ _ _ _ _ Eb).
      rewrite (bind_ok _ _ _ _ _ E3), (bind_ok _ _ _ _ _ E4). unfold lift_M at 1. by rewrite (bind_ok _ _ _ _ _ E5).
Qed.

(** A tracer that logs the names of its calls. *)
Definition ex_tracer : Tracer (list string) :=
  {| start_span n a := modify_M (fun w => w ++ [n]); set_attribute k v := modify_M (fun w => w ++ [k]);
     record_exception e m := modify_M (fun w => w ++ [m]); end_span o := modify_M (fun w => w ++ ["end"]) |}.
Definition ex_settings : TelemetrySettings :=
  {| service_name := "test"; enabled := true; provider := GENERIC_OTLP; endpoint := Some "http://collector"; headers := [];
     project_name := "openmodelops"; capture_content := false |}.
Definition ex_attributes : dict string json :=
  [("model.name", JStr "qwen"); ("prompt", JStr "private"); ("llm.tokens", JInt 12); ("auth_token", JStr "t");
   ("token", JStr "t"); ("rag.input.digest", JStr "d")].

Lemma operation_redacted_witness :
  (exists safe w1, start_span ex_tracer "openmodelops.llm" safe [] = (Ok tt, w1) /\
     dget "llm.tokens" safe = Some (JInt 12) /\ ~ dget "prompt" safe = Some (JStr "private")) /\
  _safe_attributes false ex_attributes =
    [("model.name", JStr "qwen"); ("llm.tokens", JInt 12); ("rag.input.digest", JStr "d")].
Proof.
  split; [|vm_compute; reflexivity].
  assert (Hq : quiet ex_tracer) by (repeat split; intros; eexists; reflexivity).
  assert (Hw : dwf ex_attributes) by (apply (bool_decide_unpack _); vm_compute; reflexivity).
  destruct (operation_redacted ex_tracer ex_settings "llm" ex_attributes (mret_M tt) [] Hq Hw) as [_ H].
  destruct H as (safe & w1 & H1 & _ & H2 & _); [apply (bool_decide_unpack _); vm_compute; reflexivity|].
  exists safe, w1. split; [exact H1|]. split.
  - apply H2; [discriminate|]. split; [reflexivity|]. split; [reflexivity|]. intros Hs. vm_compute in Hs. discriminate Hs.
  - intros Hp. apply H2 in Hp as (_ & _ & Hs); [|discriminate].
    assert (Hk : sensitive_key "prompt" = true) by (vm_compute; reflexivity). destruct (Hs Hk) as [Hd|Hd]; vm_compute in Hd; discriminate Hd.
Defined.

End TelemetryTheorems.
