(* ===== verification/Ecommerce.v ===== *)
(** * The product assistant (platforms/ecommerce)

    [Domain] is domain.py and catalog.py, [Retrieval] the deterministic hybrid
    retriever of retrieval.py, [Workflow] the corrective workflow of workflow.py,
    [Tools] the tool registry of tools.py and [Api] the handlers of api.py.  The
    generator of the workflow is a stateful call; its own deterministic one and
    the one over a model endpoint are definitions.  Sums of [1.0] and [-1.0] are
    exact, so the order of a set of tokens does not matter; sets are lists
    without duplicates. *)

From Stdlib Require Import String Ascii ZArith Lia SpecFloat.
From stdpp Require Import base list strings.
From S2P Require Import Prelude PyStr PyDict PyFloat Hash Regex Json Security Agents Telemetry.

Module Domain.

Record Product := {
  product_id : string;
  name : string;
  category : string;
  description : string;
  price_cad : float;
  rating : float;
  review_count : Z;
  features : list string;
  source : string;
}.
Definition product_id_re : re := Cat (lit "prod-") (rep 3 (Chr is_digit)).
Definition Product_valid (p : Product) : bool :=
  fullmatch product_id_re p.(product_id) && len_between 2 160 p.(name) && len_between 2 80 p.(category) &&
  len_between 10 2000 p.(description) && fltb (f_of_Z 0) p.(price_cad) && fleb p.(price_cad) (f_of_Z 100000) &&
  fleb (f_of_Z 0) p.(rating) && fleb p.(rating) (f_of_Z 5) && (0 <=? p.(review_count)) &&
  (1 <=? length p.(features))%nat && (length p.(features) <=? 30)%nat.
(** [Product.searchable_text] *)
Definition searchable_text (p : Product) : string :=
  join " " (p.(name) :: p.(category) :: p.(description) :: p.(features)).
(** [product.model_dump()] *)
Definition product_fields (p : Product) : dict string json :=
  [("product_id", JStr p.(product_id)); ("name", JStr p.(name)); ("category", JStr p.(category));
   ("description", JStr p.(description)); ("price_cad", JFloat p.(price_cad)); ("rating", JFloat p.(rating));
   ("review_count", JInt p.(review_count)); ("features", jstrs p.(features)); ("source", JStr p.(source))].

Record ChatRequest := { question : string; maximum_results : Z }.
Definition ChatRequest_valid (q : ChatRequest) : bool :=
  len_between 2 4000 q.(question) && (1 <=? q.(maximum_results)) && (q.(maximum_results) <=? 10).

Record ProductCatalog := { products : list Product; by_id : dict string Product }.
(** [ProductCatalog.__init__] *)
Definition new_catalog (ps : list Product) : res ProductCatalog :=
  match ps with
  | [] => raise ValueError "product catalog cannot be empty"
  | _ =>
      do? guard_raise (negb (length (map product_id ps) =? length (remove_dups (map product_id ps)))%nat)
            ValueError "product IDs must be unique" in
      Ok {| products := ps; by_id := dict_of (map (fun p => (p.(product_id), p)) ps) |}
  end.
(** [ProductCatalog.load] of the decoded items. *)
Definition load (items : list Product) : res ProductCatalog :=
  do? guard_raise (negb (forallb Product_valid items)) ValidationError "product fields are invalid" in
  new_catalog items.

End Domain.

Module Retrieval.
Import Domain.

(** [TOKEN.findall(value)]: the maximal runs of the class. *)
Fixpoint runs (cur : list ascii) (l : list ascii) : list string :=
  let emit rest := match cur with [] => rest | _ => of_chars (rev cur) :: rest end in
  match l with
  | [] => emit []
  | c :: r => if is_lower_digit c then runs (c :: cur) r else emit (runs [] r)
  end.
Definition findall (value : string) : list string := runs [] (chars value).
Definition STOPWORDS : list string :=
  ["a"; "an"; "and"; "are"; "for"; "has"; "i"; "is"; "it"; "me"; "of"; "or"; "the"; "to"; "what"; "which"; "with"].
(** [tokens] *)
Definition tokens (value : string) : list string := remove_dups (findall (casefold value)).

(** [embedding] *)
Definition dimensions : nat := 64.
Definition bump_token (v : list float) (token : string) : list float :=
  match sha256 (bytes_of token) with
  | b0 :: b1 :: b2 :: _ =>
      let index := Z.to_nat ((256 * b0 + b1) mod Z.of_nat dimensions) in
      alter (fun x => fadd x (if Z.land b2 1 =? 0 then f_of_Z 1 else f_of_Z (-1))) index v
  | _ => v
  end.
Definition embedding (value : string) : list float :=
  let vector := fold_left bump_token (tokens value) (repeat fzero dimensions) in
  let length_ := fsqrt (fsum (map (fun x => fmul x x) vector)) in
  let magnitude := if is_zero length_ then f_of_Z 1 else length_ in
  map (fun x => fdiv_raw x magnitude) vector.
(** [cosine] of vectors of the one length. *)
Definition cosine (a b : list float) : float := fsum (zip_with fmul a b).

Record ProductHit := { product : Product; score : float; lexical_score : float; semantic_score : float }.
Record HybridProductRetriever := { catalog : ProductCatalog; _vectors : dict string (list float) }.
(** [HybridProductRetriever.__init__] *)
Definition new_retriever (c : ProductCatalog) : HybridProductRetriever :=
  {| catalog := c; _vectors := dict_of (map (fun p => (p.(product_id), embedding (searchable_text p))) c.(products)) |}.
Definition vector_of (r : HybridProductRetriever) (p : Product) : list float := default [] (dget p.(product_id) r.(_vectors)).

(** The scoring loop of [search]. *)
Definition score_product (r : HybridProductRetriever) (query_tokens : list string) (query_vector : list float)
    (p : Product) : option ProductHit :=
  let product_tokens := tokens (searchable_text p) in
  let common := List.filter (fun t => str_in t product_tokens) query_tokens in
  let lexical := fratio (Z.of_nat (length common)) (Z.max 1 (Z.of_nat (length query_tokens))) in
  let semantic := fmax fzero (cosine query_vector (vector_of r p)) in
  let s := fadd (fmul (fratio 6 10) lexical) (fmul (fratio 4 10) semantic) in
  if fgtb s fzero then
    Some {| product := p; score := fround 6 s; lexical_score := fround 6 lexical; semantic_score := fround 6 semantic |}
  else None.
Fixpoint keep_some {A} (l : list (option A)) : list A :=
  match l with [] => [] | Some x :: l' => x :: keep_some l' | None :: l' => keep_some l' end.
(** The sort key [(score, rating, review_count)], in decreasing order. *)
Definition key_lt (a b : ProductHit) : bool :=
  if negb (feqb a.(score) b.(score)) then fltb a.(score) b.(score)
  else if negb (feqb a.(product).(rating) b.(product).(rating)) then fltb a.(product).(rating) b.(product).(rating)
  else a.(product).(review_count) <? b.(product).(review_count).
Definition sort_hits (l : list ProductHit) : list ProductHit := isort (fun a b => negb (key_lt a b)) l.

(** The relevance of a candidate, less its likeness to what is selected. *)
Definition marginal (r : HybridProductRetriever) (selected : list ProductHit) (h : ProductHit) : float :=
  fsub h.(score) (fmul (fratio 2 10)
    (fmax_list fzero (map (fun o => cosine (vector_of r h.(product)) (vector_of r o.(product))) selected))).
(** [candidates.remove(choice)]: product identifiers are unique. *)
Fixpoint remove_hit (id : string) (l : list ProductHit) : list ProductHit :=
  match l with
  | [] => []
  | h :: l' => if bool_decide (h.(product).(product_id) = id) then l' else h :: remove_hit id l'
  end.
(** The selection loop: each round moves one candidate, so their number bounds
    the rounds. *)
Fixpoint select (fuel : nat) (r : HybridProductRetriever) (limit : Z) (candidates selected : list ProductHit) : list ProductHit :=
  match fuel with
  | O => selected
  | S fuel' =>
      if Z.of_nat (length selected) <? limit then
        match max_by (fun a b => fgtb (marginal r selected a) (marginal r selected b)) candidates with
        | Some choice => select fuel' r limit (remove_hit choice.(product).(product_id) candidates) (selected ++ [choice])
        | None => selected
        end
      else selected
  end.
Definition candidates_of (r : HybridProductRetriever) (query : string) : list ProductHit :=
  let query_tokens := List.filter (fun t => negb (str_in t STOPWORDS)) (tokens query) in
  sort_hits (keep_some (map (score_product r query_tokens (embedding query)) r.(catalog).(products))).
(** [HybridProductRetriever.search] *)
Definition search (r : HybridProductRetriever) (query : string) (limit : Z) : list ProductHit :=
  let candidates := candidates_of r query in
  select (length candidates) r limit candidates [].

End Retrieval.

Module Workflow.
Import Domain Retrieval.

Record citation := { c_product_id : string; c_source : string; c_score : float }.
Definition cite (h : ProductHit) : citation :=
  {| c_product_id := h.(product).(product_id); c_source := h.(product).(source); c_score := h.(score) |}.
Record ProductAnswer := { answer : string; citations : list citation; attempts : Z; status : string }.

(** [ProductAssistant._rewrite] *)
Definition ignored : list string := ["recommend"; "please"; "show"; "find"; "best"; "product"; "products"; "for"; "me"].
Definition _rewrite (question : string) : string :=
  join " " (List.filter (fun t => negb (str_in t ignored)) (findall (casefold question))).

(** The pattern of the price bound: a keyword, an optional currency, a number;
    the leftmost match. *)
Definition number_text (l : list ascii) : option string :=
  match Json.span is_digit l with
  | ([], _) => None
  | (ds, "."%char :: r) => match Json.span is_digit r with ([], _) => Some (of_chars ds) | (fs, _) => Some (of_chars (ds ++ "."%char :: fs)) end
  | (ds, _) => Some (of_chars ds)
  end.
Definition first_eat (ps : list string) (l : list ascii) : option (list ascii) :=
  fold_right (fun p rest => match eat (chars p) l with Some r => Some r | None => rest end) None ps.
Definition price_at (l : list ascii) : option string :=
  match first_eat ["under"; "below"; "less than"] l with
  | None => None
  | Some r =>
      let r := drop_while is_space r in
      let r := default r (first_eat ["cad"; "$"] r) in
      number_text (drop_while is_space r)
  end.
Fixpoint price_search (l : list ascii) : option string :=
  match price_at l with
  | Some t => Some t
  | None => match l with [] => None | _ :: r => price_search r end
  end.
Definition price_limit (question : string) : option float :=
  match price_search (chars (casefold question)) with Some t => float_of_str t | None => None end.
(** [ProductAssistant._apply_constraints] *)
Definition within (limit : option float) (h : ProductHit) : bool :=
  match limit with Some m => fltb h.(product).(price_cad) m | None => true end.
Definition _apply_constraints (question : string) (hits : list ProductHit) : list ProductHit :=
  List.filter (within (price_limit question)) hits.

(** [ProductAssistant._answer]; the dash is written in UTF-8. *)
Definition recommendation (h : ProductHit) : string :=
  "- " +:+ h.(product).(name) +:+ " [" +:+ h.(product).(product_id) +:+ "] — CAD " +:+ format_fixed 2 h.(product).(price_cad) +:+
  ", rating " +:+ format_fixed 1 h.(product).(rating) +:+ "/5. Evidence: " +:+ h.(product).(description).
Definition newline : string := of_chars ["010"%char].
Definition _answer (hits : list ProductHit) : string :=
  "Based only on the approved catalog:" +:+ newline +:+ join newline (map recommendation (take 3 hits)).

Section assistant.
Context {W : Type} (generator : option (string -> list ProductHit -> M W string)).
Context (retriever : HybridProductRetriever) (minimum_score : float).

Definition generate (question : string) (hits : list ProductHit) : M W string :=
  match generator with Some g => g question hits | None => mret_M (_answer hits) end.
Definition relevant (h : ProductHit) : bool := fgeb h.(score) minimum_score && fgtb h.(lexical_score) fzero.
Definition insufficient (n : Z) : ProductAnswer :=
  {| answer := "I do not have sufficient evidence in the approved product catalog to answer that question.";
     citations := []; attempts := n; status := "insufficient_evidence" |}.
(** The loop of [ProductAssistant.ask], [left] attempts to go. *)
Fixpoint ask_from (left : nat) (maximum_attempts attempt : Z) (question query : string) (maximum_results : Z) : M W ProductAnswer :=
  match left with
  | O => mret_M (insufficient maximum_attempts)
  | S left' =>
      let hits := _apply_constraints question (search retriever query maximum_results) in
      match List.filter relevant hits with
      | [] => ask_from left' maximum_attempts (attempt + 1) question (_rewrite question) maximum_results
      | found =>
          let! text := generate question found in
          mret_M {| answer := text; citations := map cite found; attempts := attempt; status := "grounded" |}
      end
  end.
Definition ask (maximum_attempts : Z) (question : string) (maximum_results : Z) : M W ProductAnswer :=
  ask_from (Z.to_nat maximum_attempts) maximum_attempts 1 question question maximum_results.
End assistant.
(** The defaults of [ProductAssistant.__init__]. *)
Definition default_minimum_score : float := fratio 12 100.
Definition default_maximum_attempts : Z := 2.

End Workflow.

Module Tools.
Import Domain Retrieval.

(** [ProductToolRegistry.definitions] *)
Definition jprop (t : string) : json := JObj [("type", JStr t)].
Definition definitions : json :=
  JArr [JObj [("name", JStr "product_search"); ("description", JStr "Search the approved synthetic product catalog.");
          ("inputSchema", JObj [("type", JStr "object");
             ("properties", JObj [("query", jprop "string");
                ("limit", JObj [("type", JStr "integer"); ("minimum", JInt 1); ("maximum", JInt 10)])]);
             ("required", jstrs ["query"]); ("additionalProperties", JBool false)])];
        JObj [("name", JStr "product_compare"); ("description", JStr "Compare two approved product IDs.");
          ("inputSchema", JObj [("type", JStr "object");
             ("properties", JObj [("product_ids", JObj [("type", JStr "array"); ("minItems", JInt 2); ("maxItems", JInt 2);
                ("items", jprop "string")])]);
             ("required", jstrs ["product_ids"]); ("additionalProperties", JBool false)])]].

Definition search_tool (r : HybridProductRetriever) (arguments : dict string json) : res json :=
  match dget "query" arguments with
  | Some (JStr query) =>
      do? guard_raise (existsb (fun k => negb (str_in k ["query"; "limit"])) (dkeys arguments))
            ValueError "invalid product_search arguments" in
      let? limit := int_of_json (default (JInt 5) (dget "limit" arguments)) in
      Ok (JObj [("products", JArr (map (fun h => JObj (dset "retrieval_score" (JFloat h.(score)) (product_fields h.(product))))
                                     (search r query limit)))])
  | _ => raise ValueError "invalid product_search arguments"
  end.
Definition compare_tool (c : ProductCatalog) (arguments : dict string json) : res json :=
  match arguments with
  | [(key, JArr identifiers)] =>
      if negb (bool_decide (key = "product_ids")) then raise ValueError "invalid product_compare arguments" else
      match identifiers with
      | [a; b] =>
          if json_eqb a b then raise ValueError "exactly two distinct product IDs are required"
          else match dget (str_json a) c.(by_id), dget (str_json b) c.(by_id) with
               | Some p, Some q => Ok (JObj [("products", JArr [JObj (product_fields p); JObj (product_fields q)])])
               | _, _ => raise ValueError "unknown product ID"
               end
      | _ => raise ValueError "exactly two distinct product IDs are required"
      end
  | _ => raise ValueError "invalid product_compare arguments"
  end.
(** [ProductToolRegistry.call] *)
Definition call (c : ProductCatalog) (r : HybridProductRetriever) (name : string) (arguments : dict string json) : res json :=
  if bool_decide (name = "product_search") then search_tool r arguments
  else if bool_decide (name = "product_compare") then compare_tool c arguments
  else raise PermissionError "tool is not registered".

End Tools.

Module Api.
Import Domain Retrieval Workflow.

(** [_generator]: none for the deterministic provider, a call of the endpoint's
    model over the evidence for the others. *)
Definition evidence_line (h : ProductHit) : string :=
  "[" +:+ h.(product).(product_id) +:+ "] " +:+ h.(product).(Domain.name) +:+ "; CAD " +:+ format_fixed 2 h.(product).(price_cad) +:+
  "; rating " +:+ repr_float h.(product).(rating) +:+ "/5; " +:+ h.(product).(description).
Definition system_text : string :=
  "You are a product assistant. Use only the supplied catalog evidence. Cite every recommendation with its " +:+
  "product ID in square brackets. If evidence is insufficient, say so. Never invent availability or prices.".
Definition user_text (question : string) (hits : list ProductHit) : string :=
  "QUESTION:" +:+ newline +:+ question +:+ newline +:+ newline +:+ "CATALOG EVIDENCE:" +:+ newline +:+ join newline (map evidence_line hits).
Definition _generator {W} (post : string -> json -> dict string string -> Z -> M W json) (env : environ) :
    res (option (string -> list ProductHit -> M W string)) :=
  let provider := getenv "ECOMMERCE_MODEL_PROVIDER" "deterministic" env in
  if bool_decide (provider = "deterministic") then Ok None
  else
  let? timeout := match int_of_str (getenv "ECOMMERCE_MODEL_TIMEOUT_SECONDS" "120" env) with
                  | Some z => Ok z
                  | None => raise ValueError "invalid literal for int() with base 10"
                  end in
  let? endpoint := Models.ModelEndpoint_post_init
    {| Models.name := "ecommerce-generator"; Models.revision := getenv "ECOMMERCE_MODEL_ID" "qwen2.5:3b" env;
       Models.base_url := getenv "ECOMMERCE_MODEL_BASE_URL" "http://127.0.0.1:11434" env;
       Models.protocol := "openai-compatible"; Models.timeout_seconds := timeout |} in
  if bool_decide (provider = "ollama") then
    Ok (Some (fun question hits => Providers.ollama_generate post endpoint system_text (user_text question hits)))
  else if bool_decide (provider = "openai-compatible") then
    Ok (Some (fun question hits =>
      Providers.openai_generate post (getenv "ECOMMERCE_MODEL_API_KEY" EmptyString env) endpoint system_text (user_text question hits)))
  else raise RuntimeError "ECOMMERCE_MODEL_PROVIDER must be deterministic, ollama or openai-compatible".

Section api.
Context {W : Type} (generator : option (string -> list ProductHit -> M W string)).
(** [telemetry.operation("retrieval", attributes=...)], when it is configured. *)
Context (telemetry : option (Spans.Tracer W * Settings.TelemetrySettings)).
Context (c : ProductCatalog) (r : HybridProductRetriever).

Record service := { REQUESTS : counter; TOOL_CALLS : counter; world : W }.
Definition on_world {A} (m : M W A) : M service A :=
  zoom_M world (fun w s => {| REQUESTS := s.(REQUESTS); TOOL_CALLS := s.(TOOL_CALLS); world := w |}) m.
Definition count_request (label : string) : M service unit :=
  modify_M (fun s => {| REQUESTS := inc [label] s.(REQUESTS); TOOL_CALLS := s.(TOOL_CALLS); world := s.(world) |}).
Definition count_tool (tool label : string) : M service unit :=
  modify_M (fun s => {| REQUESTS := s.(REQUESTS); TOOL_CALLS := inc [tool; label] s.(TOOL_CALLS); world := s.(world) |}).

Definition citation_json (x : citation) : json :=
  JObj [("product_id", JStr x.(c_product_id)); ("source", JStr x.(c_source)); ("score", JFloat x.(c_score))].
Definition answer_json (a : ProductAnswer) : json :=
  JObj [("answer", JStr a.(answer)); ("citations", JArr (map citation_json a.(citations))); ("attempts", JInt a.(attempts));
    ("status", JStr a.(status)); ("web_search_used", JBool false)].
Definition assistant_ask (q : ChatRequest) : M W ProductAnswer :=
  ask generator r default_minimum_score default_maximum_attempts q.(question) q.(maximum_results).
(** [chat] *)
Definition chat (q : ChatRequest) : M service json :=
  if negb (ChatRequest_valid q) then unprocessable else
  let attributes := [("rag.question.digest", JStr (sha256_hex q.(question)))] in
  let run := match telemetry with
             | Some (t, s) => Spans.operation t s "retrieval" attributes (assistant_ask q)
             | None => assistant_ask q
             end in
  let! a := catch_all_M (on_world run) (fun e => do! count_request "error" in lift_M (Err e)) in
  do! count_request a.(status) in
  mret_M (answer_json a).

Definition ready : json :=
  JObj [("status", JStr "ready"); ("catalog_products", JInt (Z.of_nat (length c.(products)))); ("external_web_search", JBool false)].
Definition products_handler : json := JObj [("products", JArr (map (fun p => JObj (product_fields p)) c.(products)))].
Definition tool_definitions : json := JObj [("tools", Tools.definitions)].

(** [call_tool] *)
Definition call_tool (name : string) (arguments : dict string json) : M service json :=
  let! result :=
    catch_M (catch_M (lift_M (Tools.call c r name arguments))
      [PermissionError] (fun e => do! count_tool name "denied" in http_M 403 (str_exn e)))
      [ValueError] (fun e => do! count_tool name "invalid" in http_M 422 (str_exn e)) in
  do! count_tool name "success" in
  mret_M result.

Record MCPRequest := { jsonrpc : string; id : json; method : string; params : dict string json }.
Definition MCPRequest_valid (q : MCPRequest) : bool :=
  bool_decide (q.(jsonrpc) = "2.0") && match q.(id) with JStr _ | JInt _ => true | _ => false end.
Definition mcp_error (q : MCPRequest) (code_ : Z) (message : string) : json :=
  JObj [("jsonrpc", JStr "2.0"); ("id", q.(id)); ("error", JObj [("code", JInt code_); ("message", JStr message)])].
Definition mcp_result (q : MCPRequest) (result : json) : json :=
  JObj [("jsonrpc", JStr "2.0"); ("id", q.(id)); ("result", result)].
(** [mcp] *)
Definition mcp (q : MCPRequest) : res json :=
  if negb (MCPRequest_valid q) then http 422 "request validation failed"
  else if bool_decide (q.(method) = "tools/list") then Ok (mcp_result q tool_definitions)
  else if bool_decide (q.(method) = "tools/call") then
    try_res
      (let? arguments := dict_of_json (default (JObj []) (dget "arguments" q.(params))) in
       let? result := Tools.call c r (str_json (default (JStr EmptyString) (dget "name" q.(params)))) arguments in
       Ok (mcp_result q result))
      [PermissionError; ValueError]
      (fun e => Ok (mcp_error q (-32602) (str_exn e)))
  else Ok (mcp_error q (-32601) "method not found").
End api.

End Api.

(** ** Lemmas *)

Module RetrievalFacts.
Import Domain Retrieval.

Definition hit_id (h : ProductHit) : string := h.(product).(product_id).

Lemma remove_hit_perm h l : h ∈ l -> NoDup (map hit_id l) -> l ≡ₚ h :: remove_hit (hit_id h) l.
Proof.
  unfold hit_id. induction l as [|x l IH]; [by intros ?%elem_of_nil|]. cbn. intros Hh Hn. apply NoDup_cons in Hn as [Hx Hn].
  case_bool_decide as He.
  - apply elem_of_cons in Hh as [->|Hh]; [done|]. exfalso. apply Hx. rewrite He. by apply (list_elem_of_fmap_2 hit_id).
  - apply elem_of_cons in Hh as [->|Hh]; [done|]. rewrite (IH Hh Hn) at 1. apply Permutation_swap.
Qed.
Lemma filter_bool_sublist {A} (f : A -> bool) (l : list A) : List.filter f l `sublist_of` l.
Proof. induction l as [|x l IH]; cbn; [done|]. destruct (f x); by constructor. Qed.
Lemma map_sublist {A B} (f : A -> B) l k : l `sublist_of` k -> map f l `sublist_of` map f k.
Proof. induction 1; cbn; by constructor. Qed.
Lemma max_by_some {A} (f : A -> A -> bool) x l : exists y, max_by f (x :: l) = Some y.
Proof. by eexists. Qed.

(** The selection is a sublist, up to order, of the candidates, of the length
    the limit allows: the fuel is enough. *)
Lemma select_spec fuel r limit cands sel : (length cands <= fuel)%nat -> NoDup (map hit_id cands) ->
  exists rest, sel ++ cands ≡ₚ select fuel r limit cands sel ++ rest /\
    (forall h, h ∈ sel -> h ∈ select fuel r limit cands sel) /\
    Z.of_nat (length (select fuel r limit cands sel)) =
      Z.max (Z.of_nat (length sel)) (Z.min limit (Z.of_nat (length sel + length cands))).
Proof.
  revert cands sel. induction fuel as [|fuel IH]; intros cands sel Hf Hn; cbn [select].
  - destruct cands; [|cbn in Hf; lia]. exists []. split_and!; [done|done|cbn; lia].
  - destruct (Z.ltb_spec (Z.of_nat (length sel)) limit) as [Hl|Hl].
    + destruct cands as [|x cands]; [exists []; split_and!; [done|done|cbn; lia]|].
      destruct (max_by_some (fun a b => fgtb (marginal r sel a) (marginal r sel b)) x cands) as [y Hy]. rewrite Hy.
      pose proof (max_by_elem _ _ _ Hy) as Hin. pose proof (remove_hit_perm y _ Hin Hn) as HP.
      set (cands' := remove_hit (product_id (product y)) (x :: cands)) in *.
      assert (Hlen : length (x :: cands) = S (length cands')) by (by rewrite HP).
      destruct (IH cands' (sel ++ [y])) as (rest & P & Q & L); [lia|rewrite (Permutation_map hit_id HP) in Hn; by apply NoDup_cons in Hn as [_ Hn]|].
      exists rest. split_and!.
      * rewrite <- P, <- app_assoc. cbn. by rewrite HP at 1.
      * intros h Hh. apply Q, elem_of_app. by left.
      * rewrite L, length_app, Hlen. cbn [length]. lia.
    + exists cands. split_and!; [done|done|]. lia.
Qed.

Lemma elem_of_keep_some {A} (l : list (option A)) x : x ∈ keep_some l <-> Some x ∈ l.
Proof.
  induction l as [|[y|] l IH]; cbn; rewrite ?elem_of_cons, ?elem_of_nil, ?IH; naive_solver.
Qed.
Lemma score_product_product r qt qv p h : score_product r qt qv p = Some h -> h.(product) = p.
Proof. unfold score_product. destruct (fgtb _ _); [|done]. by intros [= <-]. Qed.
Lemma keep_ids r qt qv ps : NoDup (map product_id ps) ->
  NoDup (map hit_id (keep_some (map (score_product r qt qv) ps))).
Proof.
  induction ps as [|p ps IH]; cbn; intros Hn; [constructor|]. apply NoDup_cons in Hn as [Hp Hn].
  destruct (score_product r qt qv p) as [h|] eqn:E; [|auto]. cbn. apply NoDup_cons. split; [|auto].
  unfold hit_id at 1. rewrite (score_product_product _ _ _ _ _ E). intros (h' & He & Hh')%list_elem_of_fmap. apply Hp.
  apply elem_of_keep_some, list_elem_of_fmap in Hh' as (q & Hq & Hin). rewrite He. unfold hit_id.
  rewrite (score_product_product _ _ _ _ _ (eq_sym Hq)). by apply list_elem_of_fmap_2.
Qed.
Lemma candidates_ids r query : NoDup (map product_id r.(catalog).(products)) -> NoDup (map hit_id (candidates_of r query)).
Proof.
  intros H. unfold candidates_of, sort_hits. rewrite (Permutation_map hit_id (isort_perm _ _)). by apply keep_ids.
Qed.
Lemma candidates_in_catalog r query h : h ∈ candidates_of r query -> h.(product) ∈ r.(catalog).(products).
Proof.
  unfold candidates_of, sort_hits. rewrite elem_of_isort, elem_of_keep_some, list_elem_of_fmap.
  intros (p & E & Hp). by rewrite (score_product_product _ _ _ _ _ (eq_sym E)).
Qed.

(** No common word, no lexical score. *)
Lemma fratio_zero d : 0 < d -> fround 6 (fratio 0 d) = fzero.
Proof. destruct d as [|p|p]; [lia| |lia]. done. Qed.
Lemma candidate_shares r query h : h ∈ candidates_of r query -> fgtb h.(lexical_score) fzero = true -> exists word,
  word ∉ STOPWORDS /\ word ∈ findall (casefold query) /\ word ∈ findall (casefold (searchable_text h.(product))).
Proof.
  unfold candidates_of, sort_hits. rewrite elem_of_isort, elem_of_keep_some, list_elem_of_fmap.
  intros (p & E & _) Hl. unfold score_product in E. destruct (fgtb _ _); [|done]. injection E as ->. cbn [lexical_score product] in *.
  destruct (List.filter (fun t => str_in t (tokens (searchable_text p))) _) as [|t rest] eqn:Ef.
  { change (Z.of_nat (length (@nil string))) with 0 in Hl. by rewrite fratio_zero in Hl by lia. }
  assert (t ∈ t :: rest) as Ht by (by left). rewrite <- Ef in Ht. apply elem_of_filter_bool in Ht as [Hp Ht].
  apply elem_of_filter_bool in Ht as [Hs Hq]. apply str_in_spec in Hp. unfold tokens in *. rewrite !elem_of_remove_dups in *.
  exists t. split; [|done]. apply negb_true_iff in Hs. by apply str_in_false in Hs.
Qed.

Lemma new_catalog_unique ps c : new_catalog ps = Ok c -> c.(products) = ps /\ NoDup (map product_id ps) /\ ps <> [] /\
  forall id p, dget id c.(by_id) = Some p <-> p ∈ ps /\ p.(product_id) = id.
Proof.
  unfold new_catalog. destruct ps as [|p ps]; [done|]. set (l := p :: ps).
  destruct (Nat.eqb_spec (length (map product_id l)) (length (remove_dups (map product_id l)))) as [Hl|];
    cbn [negb guard_raise raise mbind res_bind]; [|done]. intros [= <-].
  apply remove_dups_length in Hl as Hn. split_and!; [done|done|done|].
  intros id q. exact (dget_indexed product_id l id q Hn).
Qed.

Lemma max_by_key {A} (key : A -> float) best l :
  key (max_first (fun a b => fgtb (key a) (key b)) best l) = fold_left fmax (map key l) (key best).
Proof.
  revert best. induction l as [|x l IH]; intros best; cbn; [done|]. rewrite IH. f_equal. unfold fmax.
  by destruct (fgtb (key x) (key best)).
Qed.
Lemma fsub_zero x : fsub x fzero = x.
Proof. by destruct x as [[]|[]| |[] m e]. Qed.
Lemma marginal_first r h : marginal r [] h = h.(score).
Proof. unfold marginal. cbn [map fmax_list]. change (fmul (fratio 2 10) fzero) with fzero. apply fsub_zero. Qed.
(** Later rounds only append. *)
Lemma select_prefix fuel r limit cands sel : exists more, select fuel r limit cands sel = sel ++ more.
Proof.
  revert cands sel. induction fuel as [|fuel IH]; intros cands sel; cbn [select]; [exists []; by rewrite app_nil_r|].
  destruct (_ <? _); [|exists []; by rewrite app_nil_r]. destruct (max_by _ _) as [y|]; [|exists []; by rewrite app_nil_r].
  destruct (IH (remove_hit (product_id (product y)) cands) (sel ++ [y])) as [more ->]. exists (y :: more). by rewrite <- app_assoc.
Qed.
Lemma select_head fuel r limit cands h rest :
  select fuel r limit cands [] = h :: rest -> forall x, x ∈ cands -> fgtb x.(score) h.(score) = false.
Proof.
  destruct fuel as [|fuel]; cbn [select]; [done|]. destruct (_ <? _); [|done].
  destruct (max_by _ cands) as [y|] eqn:E; [|done].
  intros H x Hx. destruct (select_prefix fuel r limit (remove_hit (product_id (product y)) cands) ([] ++ [y])) as [more Hm].
  rewrite Hm in H. injection H as -> _. destruct cands as [|z cands]; [done|]. cbn in E. injection E as <-.
  rewrite <- !(marginal_first r), (max_by_key (marginal r [])). apply fold_fmax_spec.
  apply elem_of_cons in Hx as [->|Hx]; [by left|right]. by apply list_elem_of_fmap_2.
Qed.

End RetrievalFacts.

(** ** Properties *)

Module EcommerceTheorems.
Import Domain Retrieval Workflow Api RetrievalFacts.

Lemma search_spec ps c query limit : new_catalog ps = Ok c ->
  let hits := search (new_retriever c) query limit in
  NoDup (map hit_id hits) /\
  (forall h, h ∈ hits -> h ∈ candidates_of (new_retriever c) query /\ h.(product) ∈ ps) /\
  Z.of_nat (length hits) = Z.max 0 (Z.min limit (Z.of_nat (length (candidates_of (new_retriever c) query)))).
Proof.
  intros Hc. destruct (new_catalog_unique _ _ Hc) as (Hps & Hn & _). unfold search. cbn zeta.
  set (r := new_retriever c).
  assert (Hids : NoDup (map hit_id (candidates_of r query))) by (apply candidates_ids; cbn; by rewrite Hps).
  destruct (select_spec (length (candidates_of r query)) r limit (candidates_of r query) []) as (rest & P & _ & L); [done..|].
  cbn [app length] in *. split_and!.
  - rewrite (Permutation_map hit_id P), map_app in Hids. by apply NoDup_app in Hids as [? _].
  - intros h Hh. assert (h ∈ candidates_of r query) as Hin by (rewrite P; apply elem_of_app; by left).
    split; [done|]. rewrite <- Hps. by apply (candidates_in_catalog r query).
  - rewrite L. cbn. lia.
Qed.

(** The retriever returns distinct products of the catalogue, as many as
    the limit and the matching products allow (its selection loop ends), and
    puts first a product no match scores above. *)
Theorem search_ranked (ps : list Product) (c : ProductCatalog) (query : string) (limit : Z) :
  new_catalog ps = Ok c ->
  let r := new_retriever c in let hits := search r query limit in
  NoDup (map hit_id hits) /\ (forall h, h ∈ hits -> h.(product) ∈ ps) /\
  Z.of_nat (length hits) = Z.max 0 (Z.min limit (Z.of_nat (length (candidates_of r query)))) /\
  (forall h rest x, hits = h :: rest -> x ∈ candidates_of r query -> fgtb x.(score) h.(score) = false).
Proof.
  intros Hc. cbn zeta. destruct (search_spec ps c query limit Hc) as (H1 & H2 & H3).
  split_and!; [done| |done|].
  - intros h Hh. by apply H2.
  - intros h rest x Hs Hx. by apply (select_head _ _ _ _ _ _ Hs).
Qed.

Definition ex_product (id name_ text : string) (price stars : Z) : Product :=
  {| product_id := id; name := name_; category := "audio"; description := text; price_cad := f_of_Z price;
     rating := f_of_Z stars; review_count := 10; features := ["wireless"]; source := "synthetic-catalog-v1" |}.
Definition ex_products : list Product :=
  [ex_product "prod-001" "Quiet headphones" "noise cancelling headphones" 250 5;
   ex_product "prod-002" "Studio headphones" "closed back headphones for studios" 400 4;
   ex_product "prod-003" "Desk lamp" "a warm lamp for reading" 40 3].
Definition ex_catalog : ProductCatalog := Eval vm_compute in
  match new_catalog ex_products with Ok c => c | Err _ => {| products := []; by_id := [] |} end.
Lemma ex_catalog_eq : new_catalog ex_products = Ok ex_catalog.
Proof. vm_compute. reflexivity. Qed.

Lemma search_ranked_witness :
  NoDup (map hit_id (search (new_retriever ex_catalog) "headphones" 2)) /\
  map hit_id (search (new_retriever ex_catalog) "noise cancelling headphones" 2) = ["prod-001"; "prod-002"].
Proof. split; [apply (search_ranked ex_products ex_catalog "headphones" 2 ex_catalog_eq)|vm_compute; reflexivity]. Defined.

(** The query of an attempt, counted from one. *)
Definition query_of (question : string) (attempt : Z) : string := if attempt =? 1 then question else _rewrite question.
(** A hit the workflow may answer from: above the minimum score, with a lexical
    score, and within the price bound of the question, if it has one. *)
Definition evidence (question : string) (minimum : float) (h : ProductHit) : Prop :=
  fgeb h.(score) minimum = true /\ fgtb h.(lexical_score) fzero = true /\
  forall bound, price_limit question = Some bound -> fltb h.(product).(price_cad) bound = true.
Lemma evidence_filter question minimum hits h :
  h ∈ List.filter (relevant minimum) (_apply_constraints question hits) <-> h ∈ hits /\ evidence question minimum h.
Proof.
  unfold _apply_constraints, evidence, relevant, within. rewrite !elem_of_filter_bool, andb_true_iff.
  destruct (price_limit question) as [m|]; naive_solver.
Qed.

(** The attempts of a call, from the first one on: which one answered, or that
    none did. *)
Lemma ask_attempts {W} (generator : option (string -> list ProductHit -> M W string)) r minimum maximum question results w w' a left attempt :
  ask_from generator r minimum left maximum attempt question (query_of question attempt) results w = (Ok a, w') -> 1 <= attempt ->
  let found_at := fun k => List.filter (relevant minimum) (_apply_constraints question (search r (query_of question k) results)) in
  (exists k found, (attempt <= k /\ k < attempt + Z.of_nat left /\ forall j, attempt <= j < k -> forall h, h ∉ found_at j) /\
     a = {| answer := a.(answer); citations := map cite found; attempts := k; status := "grounded" |} /\
     found = found_at k /\ found <> [] /\ generate generator question found w = (Ok a.(answer), w')) \/
  (a = insufficient maximum /\ w' = w /\ forall j, attempt <= j < attempt + Z.of_nat left -> forall h, h ∉ found_at j).
Proof.
  intros H Ha found_at. revert attempt H Ha. induction left as [|left IH]; intros attempt H Ha; cbn [ask_from] in H.
  { injection H as <- <-. right. split_and!; [done..|lia]. }
  fold (found_at attempt) in H. destruct (found_at attempt) as [|h0 rest] eqn:Ef.
  - assert (_rewrite question = query_of question (attempt + 1)) as Eq
      by (unfold query_of; destruct (Z.eqb_spec (attempt + 1) 1); [lia|done]).
    rewrite Eq in H. apply IH in H as [(k & found & (H1 & H2 & H3) & H)|(H1 & H2 & H3)]; [| |lia].
    + left. exists k, found. split; [|exact H]. split; [lia|]. split; [lia|]. intros j Hj h.
      destruct (decide (j = attempt)) as [->|]; [rewrite Ef; apply not_elem_of_nil|apply H3; lia].
    + right. split_and!; [done..|]. intros j Hj h.
      destruct (decide (j = attempt)) as [->|]; [rewrite Ef; apply not_elem_of_nil|apply H3; lia].
  - apply bind_inv_ok in H as (text & w1 & Hg & H). injection H as <- <-. left. exists attempt, (h0 :: rest).
    split_and!; try done; lia.
Qed.

(** C5: answers are grounded: the workflow answers from evidence or refuses.  A
    grounded answer comes from the first attempt that found evidence; it was
    generated from exactly the evidence found by the search of that attempt's
    query (the question, and its rewriting from the second attempt on), which is
    at least one and at most the requested number of distinct products of the
    catalogue, all above the minimum score, within the price bound of the
    question, and each with a word of the query in its text that is not a stop
    word; and it cites exactly these.  A refusal comes when no attempt, up to the
    maximum, found evidence; it cites nothing and never called the generator. *)
Theorem answers_grounded {W : Type} (generator : option (string -> list ProductHit -> M W string))
    (ps : list Product) (c : ProductCatalog) (minimum : float) (maximum_attempts : Z) (question : string)
    (maximum_results : Z) (w w' : W) (a : ProductAnswer) :
  new_catalog ps = Ok c ->
  ask generator (new_retriever c) minimum maximum_attempts question maximum_results w = (Ok a, w') ->
  let hits := fun k => search (new_retriever c) (query_of question k) maximum_results in
  let none_until := fun n => forall k h, 1 <= k < n -> h ∈ hits k -> ~ evidence question minimum h in
  (a.(status) = "grounded" /\ 1 <= a.(attempts) <= maximum_attempts /\ none_until a.(attempts) /\ exists found,
     found <> [] /\ Z.of_nat (length found) <= maximum_results /\ NoDup (map hit_id found) /\
     (forall h, h ∈ found <-> h ∈ hits a.(attempts) /\ evidence question minimum h) /\
     a.(citations) = map cite found /\ generate generator question found w = (Ok a.(answer), w') /\
     forall h, h ∈ found -> h.(product) ∈ ps /\ exists word, word ∉ STOPWORDS /\
       word ∈ findall (casefold (query_of question a.(attempts))) /\
       word ∈ findall (casefold (searchable_text h.(product)))) \/
  (a.(status) = "insufficient_evidence" /\ a.(citations) = [] /\ a.(attempts) = maximum_attempts /\ w' = w /\
   none_until (maximum_attempts + 1)).
Proof.
  intros Hc H hits none_until. unfold ask in H.
  destruct (ask_attempts generator (new_retriever c) minimum maximum_attempts question maximum_results w w' a
    (Z.to_nat maximum_attempts) 1 H) as [(k & found & Hk & -> & Ef & Hne & Hg)|(-> & -> & Hno)]; [lia|..].
  - destruct (search_spec ps c (query_of question k) maximum_results Hc) as (Hn & Hin & Hlen). fold (hits k) in Hn, Hin, Hlen.
    assert (found `sublist_of` hits k) as Hsub by (rewrite Ef; unfold _apply_constraints; etrans; apply filter_bool_sublist).
    assert (forall h, h ∈ found <-> h ∈ hits k /\ evidence question minimum h) as Hf by (intros h; rewrite Ef; apply evidence_filter).
    left. cbn. split; [done|]. split; [lia|]. split; [intros j h Hj Hh He; destruct Hk as (_ & _ & Hk);
      apply (Hk j ltac:(lia) h), evidence_filter; done|].
    exists found. split_and!; [done| | |done|done|done|].
    + apply sublist_length in Hsub. assert (length found <> 0)%nat by (by destruct found). lia.
    + eapply sublist_NoDup; [exact Hn|]. by apply map_sublist.
    + intros h Hh. apply Hf in Hh as [Hh (_ & Hl & _)]. apply Hin in Hh as [Hh Hp]. split; [done|].
      exact (candidate_shares _ _ _ Hh Hl).
  - right. split_and!; try done. intros j h Hj Hh He. apply (Hno j ltac:(lia) h), evidence_filter. done.
Qed.

Lemma answers_grounded_witness :
  exists a, ask (W := nat) None (new_retriever ex_catalog) default_minimum_score default_maximum_attempts
      "Recommend noise cancelling headphones under CAD 300" 5 0%nat = (Ok a, 0%nat) /\
    a.(status) = "grounded" /\ map c_product_id a.(citations) = ["prod-001"] /\
    exists found, a.(citations) = map cite found /\ found <> [] /\ forall h, h ∈ found -> exists word,
      word ∉ STOPWORDS /\ word ∈ findall (casefold (searchable_text h.(product))).
Proof.
  assert (Hok : match ask (W := nat) None (new_retriever ex_catalog) default_minimum_score default_maximum_attempts
      "Recommend noise cancelling headphones under CAD 300" 5 0%nat with
    | (Ok a, w) => bool_decide (a.(status) = "grounded") && bool_decide (map c_product_id a.(citations) = ["prod-001"]) && (w =? 0)%nat
    | _ => false end = true) by (vm_compute; reflexivity).
  destruct (ask (W := nat) None (new_retriever ex_catalog) default_minimum_score default_maximum_attempts
      "Recommend noise cancelling headphones under CAD 300" 5 0%nat) as [[a|e] w] eqn:E; [|discriminate Hok].
  apply andb_true_iff in Hok as [Hok Hw]. apply andb_true_iff in Hok as [Hs Hc].
  apply bool_decide_eq_true_1 in Hs, Hc. apply Nat.eqb_eq in Hw. subst w.
  exists a. split; [reflexivity|]. split; [exact Hs|]. split; [exact Hc|].
  destruct (answers_grounded None ex_products ex_catalog _ _ _ _ 0%nat 0%nat a ex_catalog_eq E)
    as [(_ & _ & _ & found & Hf & _ & _ & _ & Hcite & _ & Hw)|(_ & Hcit & _)].
  - exists found. split; [exact Hcite|]. split; [exact Hf|]. intros h Hh.
    destruct (Hw h Hh) as (_ & word & H1 & _ & H2). exists word. exact (conj H1 H2).
  - rewrite Hcit in Hc. discriminate Hc.
Defined.

(** Tools are denied by default: a call never reaches beyond the catalogue.
    A name that is not registered is answered 403 and counted as denied; every
    call is counted once and changes nothing else; a result comes from a
    registered tool and lists only products of the catalogue. *)
Theorem tools_denied_by_default {W : Type} (ps : list Product) (c : ProductCatalog) (name_ : string)
    (arguments : dict string json) (s s' : service (W := W)) (result : res json) :
  new_catalog ps = Ok c -> call_tool c (new_retriever c) name_ arguments s = (result, s') ->
  s'.(world) = s.(world) /\ s'.(REQUESTS) = s.(REQUESTS) /\
  (name_ ∉ ["product_search"; "product_compare"] ->
     result = http 403 "tool is not registered" /\ s'.(TOOL_CALLS) = inc [name_; "denied"] s.(TOOL_CALLS)) /\
  (forall j, result = Ok j ->
     name_ ∈ ["product_search"; "product_compare"] /\ s'.(TOOL_CALLS) = inc [name_; "success"] s.(TOOL_CALLS) /\
     exists items, j = JObj [("products", JArr items)] /\
       forall i, i ∈ items -> exists p, p ∈ ps /\ jget "product_id" i = Some (JStr p.(product_id))).
Proof.
  intros Hc H. unfold call_tool in H.
  destruct (Tools.call c (new_retriever c) name_ arguments) as [j0|e] eqn:Ec.
  - unfold catch_M, lift_M, count_tool in H. unfold mbind_M, modify_M, mret_M in H. injection H as <- <-. cbn.
    unfold Tools.call in Ec. assert (Hname : name_ ∈ ["product_search"; "product_compare"]).
    { rewrite !elem_of_cons. do 2 (case_bool_decide; [auto|]). done. }
    split_and!; [done|done|by intros Hn|]. intros j [= <-]. split_and!; [done|done|].
    case_bool_decide as H1; [|case_bool_decide as H2; [|done]].
    + unfold Tools.search_tool in Ec. destruct (dget "query" arguments) as [[| | | |query| |]|]; try done.
      destruct (existsb _ (dkeys arguments)); cbn [guard_raise raise mbind res_bind] in Ec; [done|].
      destruct (int_of_json _) as [limit|]; cbn [mbind res_bind] in Ec; [|done]. injection Ec as <-. eexists. split; [reflexivity|].
      intros i (h & -> & Hh)%list_elem_of_fmap. exists h.(product). split; [|reflexivity].
      by apply (search_spec ps c query limit Hc).
    + unfold Tools.compare_tool in Ec. destruct (new_catalog_unique _ _ Hc) as (_ & _ & _ & Hid).
      destruct arguments as [|[k [| | | | |identifiers|]] [|]]; try done.
      all: repeat match type of Ec with context [match ?x with _ => _ end] => destruct x eqn:?; try discriminate Ec end.
      all: simplify_eq. all: eexists; split; [reflexivity|]; intros i Hi; rewrite !elem_of_cons, elem_of_nil in Hi.
      all: destruct Hi as [->|[->|[]]];
        match goal with |- context [product_fields ?p] => exists p; split; [eapply Hid; eassumption|reflexivity] end.
  - assert (exists st d label, call_tool c (new_retriever c) name_ arguments s = (Err d, {| REQUESTS := REQUESTS s; TOOL_CALLS := label; world := world s |}) /\ st = d) as (_ & d & lab & E & _).
    { unfold call_tool. rewrite Ec. unfold catch_M, lift_M, count_tool, mbind_M, modify_M, http_M. cbn [fst snd].
      destruct (catches [PermissionError] e); cbn.
      - by repeat eexists.
      - destruct (catches [ValueError] e); cbn; [by repeat eexists|]. exists e, e, (TOOL_CALLS s). by destruct s. }
    unfold call_tool in E. rewrite Ec in E. rewrite E in H. injection H as <- <-.
    split_and!; [done|done| |done]. intros Hn. rewrite !elem_of_cons, elem_of_nil in Hn.
    unfold Tools.call in Ec. rewrite !bool_decide_eq_false_2 in Ec by tauto. injection Ec as <-.
    unfold catch_M, lift_M, count_tool, mbind_M, modify_M, http_M in E. cbn in E. injection E as <- <-. done.
Qed.

Definition ex_service : service (W := nat) := {| REQUESTS := []; TOOL_CALLS := []; world := 0%nat |}.
Definition ex_compare : dict string json := [("product_ids", jstrs ["prod-001"; "prod-003"])].

Lemma tools_denied_by_default_witness :
  (exists j s', call_tool ex_catalog (new_retriever ex_catalog) "product_compare" ex_compare ex_service = (Ok j, s') /\
     s'.(TOOL_CALLS) = [(["product_compare"; "success"], 1)] /\ exists items, j = JObj [("products", JArr items)]) /\
  (exists s', call_tool ex_catalog (new_retriever ex_catalog) "shell" [] ex_service = (http 403 "tool is not registered", s')).
Proof.
  split.
  - destruct (call_tool ex_catalog (new_retriever ex_catalog) "product_compare" ex_compare ex_service) as [[j|e] s'] eqn:E;
      [|assert (Hok : is_ok (call_tool ex_catalog (new_retriever ex_catalog) "product_compare" ex_compare ex_service).1 = true)
          by (vm_compute; reflexivity); rewrite E in Hok; discriminate Hok].
    destruct (tools_denied_by_default ex_products ex_catalog _ _ _ _ _ ex_catalog_eq E) as (_ & _ & _ & H).
    destruct (H j eq_refl) as (_ & Ht & items & Hj & _). exists j, s'.
    split; [reflexivity|]. split; [exact Ht|]. exists items. exact Hj.
  - destruct (call_tool ex_catalog (new_retriever ex_catalog) "shell" [] ex_service) as [r s'] eqn:E.
    destruct (tools_denied_by_default ex_products ex_catalog _ _ _ _ _ ex_catalog_eq E) as (_ & _ & H & _).
    exists s'. destruct H as [H _]; [apply (bool_decide_unpack _); vm_compute; reflexivity|]. rewrite H. reflexivity.
Defined.

End EcommerceTheorems.
