(* ===== verification/Clients.v ===== *)
(** * The service clients (platforms/integrations: clients.py, mlflow.py,
    evaluation.py)

    [Clients] are the requests of the component clients over a transport,
    [Registry] the MLflow registry client and [Reports] the evaluation report
    adapter.  The transport is the call of [JsonHttpClient.request]; the last
    theorem puts the retrying client of [Http] in its place. *)

From Stdlib Require Import String Ascii ZArith Lia.
From stdpp Require Import base list strings.
From S2P Require Import Prelude PyStr PyDict PyFloat Json Http Factory.

(** [Transport.request]: method, address, payload, headers, idempotency. *)
Definition transport (W : Type) : Type :=
  string -> string -> option json -> dict string string -> bool -> M W JsonResponse.

Module Clients.

Record ComponentClient := { base_url : string }.
(** [ComponentClient.__post_init__] *)
Definition new_component_client (url_ : string) : res ComponentClient :=
  do? guard_raise (negb (startswith_any ["http://"; "https://"] url_)) ValueError "component base URL must use HTTP(S)" in
  Ok {| base_url := rstrip_slash url_ |}.
Definition bearer (token : string) : dict string string := [("Authorization", "Bearer " +:+ token)].

Section calls.
Context {W : Type} (request : transport W) (c : ComponentClient).

Definition body_dict (r : JsonResponse) : M W (dict string json) := lift_M (dict_of_json r.(body)).
(** [AriaClient] *)
Definition aria_investigate (incident : dict string json) (bearer_token : string) : M W (dict string json) :=
  let! r := request "POST" (c.(base_url) +:+ "/investigate") (Some (JObj incident)) (bearer bearer_token) false in body_dict r.
Definition aria_ready : M W bool :=
  let! r := request "GET" (c.(base_url) +:+ "/health") None [] true in mret_M (r.(status) =? 200).
(** [OnCallClient] *)
Definition oncall_incident (incident_id operator_token : string) : M W (dict string json) :=
  let! r := request "GET" (c.(base_url) +:+ "/api/v1/incidents/" +:+ incident_id) None (bearer operator_token) true in body_dict r.
Definition oncall_investigate (incident_id operator_token : string) : M W (dict string json) :=
  let! r := request "POST" (c.(base_url) +:+ "/api/v1/incidents/" +:+ incident_id +:+ "/investigate") None
              (bearer operator_token) true in
  body_dict r.
(** [ModelServingClient.ready] *)
Definition serving_ready : M W bool :=
  let! r := request "GET" (c.(base_url) +:+ "/readyz") None [] true in mret_M (r.(status) =? 200).
(** [AgentGatewayClient.request_tool_call] *)
Definition request_tool_call (payload : dict string json) (principal : string) (scopes : list string) : M W (dict string json) :=
  if negb (truthy_opt (dget "idempotency_key" payload)) then
    raise_M ValueError "agent tool calls require an idempotency key"
  else
  let! r := request "POST" (c.(base_url) +:+ "/v1/tool-calls") (Some (JObj payload))
              [("X-Principal", principal); ("X-Scopes", join " " (sort_str scopes))] true in
  body_dict r.
End calls.

End Clients.

Module Registry.

Record RegisteredVersion := { name : string; version : string; source : string }.
Record MLflowRegistryClient := { base_url : string }.
(** [MLflowRegistryClient.__init__] *)
Definition new_registry_client (url_ : string) : MLflowRegistryClient := {| base_url := rstrip_slash url_ |}.

Section calls.
Context {W : Type} (request : transport W) (c : MLflowRegistryClient).

(** The request of [register_version] and the version it returns. *)
Definition register_payload (name_ source_ run_id : string) (tags : dict string string) : json :=
  JObj [("name", JStr name_); ("source", JStr source_); ("run_id", JStr run_id);
    ("tags", JArr (map (fun kv => JObj [("key", JStr kv.1); ("value", JStr kv.2)]) (sort_obj tags)))].
Definition registered (name_ source_ : string) (response : json) : res RegisteredVersion :=
  match jget "model_version" response with
  | Some (JObj model) =>
      match dget "version" model with
      | Some v => if truthy v then Ok {| name := name_; version := str_json v; source := source_ |}
                  else raise IntegrationError "MLflow returned an invalid model version"
      | None => raise IntegrationError "MLflow returned an invalid model version"
      end
  | _ => raise IntegrationError "MLflow returned an invalid model version"
  end.
(** [MLflowRegistryClient.register_version] *)
Definition register_version (name_ source_ run_id : string) (tags : dict string string) : M W RegisteredVersion :=
  if negb (nonempty name_) || negb (nonempty source_) || negb (nonempty run_id) then
    raise_M ValueError "name, source and run_id are required"
  else
  let! r := request "POST" (c.(base_url) +:+ "/api/2.0/mlflow/model-versions/create")
              (Some (register_payload name_ source_ run_id tags)) [] false in
  lift_M (registered name_ source_ r.(body)).
(** [MLflowRegistryClient.promote_alias] *)
Definition promote_alias (name_ version_ alias : string) : M W unit :=
  let! _ := request "POST" (c.(base_url) +:+ "/api/2.0/mlflow/registered-models/alias")
              (Some (JObj [("name", JStr name_); ("version", JStr version_); ("alias", JStr alias)])) [] true in
  mret_M tt.
(** [MLflowRegistryClient.record_governance] *)
Definition tag_payload (name_ version_ : string) (kv : string * string) : json :=
  JObj [("name", JStr name_); ("version", JStr version_); ("key", JStr ("openmodelops." +:+ kv.1)); ("value", JStr kv.2)].
Definition record_governance (name_ version_ : string) (evidence : dict string string) : M W unit :=
  iter_M (fun kv =>
      let! _ := request "POST" (c.(base_url) +:+ "/api/2.0/mlflow/model-versions/set-tag")
                  (Some (tag_payload name_ version_ kv)) [] true in
      mret_M tt)
    (sort_obj evidence).
End calls.

End Registry.

Module Reports.

Record EvaluationReport := { pass_rate : float; passed : Z; total : Z; regression : bool }.
(** [payload.get("comparison", {}).get("regression", False)] *)
Definition regression_of (payload : dict string json) : res bool :=
  match default (JObj []) (dget "comparison" payload) with
  | JObj kvs => Ok (truthy (default (JBool false) (dget "regression" kvs)))
  | _ => raise OtherError "object has no attribute 'get'"
  end.
Definition required (k : string) (payload : dict string json) : res json :=
  match dget k payload with Some v => Ok v | None => raise KeyError k end.
(** [EvaluationReport.parse] *)
Definition parse (payload : dict string json) : res EvaluationReport :=
  let? rate := required "pass_rate" payload in
  let? rate := float_of_json rate in
  let? p := required "passed" payload in
  let? p := int_of_json p in
  let? t := required "total" payload in
  let? t := int_of_json t in
  let? reg := regression_of payload in
  do? guard_raise ((t <? 1) || negb ((0 <=? p) && (p <=? t)) || negb (fleb (f_of_Z 0) rate && fleb rate (f_of_Z 1)))
        ValueError "invalid evaluation report" in
  Ok {| pass_rate := rate; passed := p; total := t; regression := reg |}.
(** [EvaluationReportAdapter.passed] and [evidence] *)
Definition adapter_passed (minimum_pass_rate : float) (r : EvaluationReport) : bool :=
  fgeb r.(pass_rate) minimum_pass_rate && negb r.(regression).
(** [EvaluationReportAdapter.evidence] *)
Definition evidence (workload_id report_uri report_digest evaluator : string) : res Governance.EvidenceStatement :=
  Governance.EvidenceStatement_post_init
    {| Governance.es_workload_id := workload_id; Governance.es_gate := "quality"; Governance.evidence_uri := report_uri;
       Governance.es_digest := report_digest; Governance.es_evaluator := evaluator |}.

End Reports.

(** ** Properties *)

Module ClientsTheorems.
Import Clients Registry Reports.

(** The transport of the deployed clients. *)
Definition http_transport {W} (urlopen : float -> http_request -> M W outcome) (c : JsonHttpClient) : transport W :=
  fun method_ url_ payload headers_ idempotent => Http.request urlopen c method_ url_ payload headers_ idempotent.

Lemma single_call {W} (urlopen : float -> http_request -> M W outcome) c m u p h w :
  Http.request urlopen c m u p h false w =
  (let! o := urlopen c.(timeout_seconds) (request_of m u p h) in lift_M (finish o)) w.
Proof. done. Qed.
Lemma single_call_bind {W B} (urlopen : float -> http_request -> M W outcome) c m u p h (k : JsonResponse -> M W B) w :
  mbind_M (Http.request urlopen c m u p h false) k w =
  (let! o := urlopen c.(timeout_seconds) (request_of m u p h) in mbind_M (lift_M (finish o)) k) w.
Proof. unfold mbind_M. rewrite single_call. unfold mbind_M. by destruct (urlopen _ _ w) as [[o|e] w1]. Qed.
Lemma finish_responded o r : finish o = Ok r -> exists code content, o = Responded code content.
Proof. destruct o; [eauto|done|done]. Qed.

(** Calls that must not be repeated are sent once: through the retrying
    client, whatever its configuration and whatever the network does, an
    investigation and a model registration reach the server at most once (a
    registration without its required names never does), and a registration
    that returns was answered, names what was asked and carries the version the
    registry assigned. *)
Theorem mutations_sent_once {W : Type} (urlopen : float -> http_request -> M W outcome) (http : JsonHttpClient)
    (ac : ComponentClient) (rc : MLflowRegistryClient) (incident : dict string json) (token name_ source_ run_id : string)
    (tags : dict string string) (w : W) :
  (exists out, urlopen http.(timeout_seconds)
       (request_of "POST" (ac.(Clients.base_url) +:+ "/investigate") (Some (JObj incident)) (bearer token)) w =
     (out, (aria_investigate (http_transport urlopen http) ac incident token w).2)) /\
  (forall r w', register_version (http_transport urlopen http) rc name_ source_ run_id tags w = (r, w') ->
     w' = w /\ r = raise ValueError "name, source and run_id are required" /\
       (name_ = EmptyString \/ source_ = EmptyString \/ run_id = EmptyString) \/
     exists out, urlopen http.(timeout_seconds)
         (request_of "POST" (rc.(base_url) +:+ "/api/2.0/mlflow/model-versions/create")
            (Some (register_payload name_ source_ run_id tags)) []) w = (out, w') /\
       forall v, r = Ok v -> v.(name) = name_ /\ v.(source) = source_ /\
         exists code content response assigned, out = Ok (Responded code content) /\
           finish (Responded code content) = Ok response /\ jget "model_version" response.(body) = Some (JObj assigned) /\
           truthy_opt (dget "version" assigned) = true /\ option_map str_json (dget "version" assigned) = Some v.(version)).
Proof.
  split.
  - unfold aria_investigate, http_transport, body_dict. rewrite single_call_bind.
    destruct (urlopen _ _ w) as [[o|e] w1] eqn:E; exists (Ok o) || exists (Err e).
    + rewrite (bind_ok _ _ _ _ _ E). destruct (finish o); [rewrite bind_lift_ok|rewrite bind_lift_err]; done.
    + by rewrite (bind_err _ _ _ _ _ E).
  - intros r w'. unfold register_version, http_transport.
    destruct (negb (nonempty name_) || negb (nonempty source_) || negb (nonempty run_id)) eqn:En.
    { intros [= <- <-]. left. split_and!; [done..|]. destruct name_, source_, run_id; auto; done. }
    intros H. right. rewrite single_call_bind in H.
    destruct (urlopen _ _ w) as [[o|e] w1] eqn:E.
    + rewrite (bind_ok _ _ _ _ _ E) in H. exists (Ok o).
      destruct (finish o) as [resp|e] eqn:Ef; [rewrite bind_lift_ok in H|rewrite bind_lift_err in H]; injection H as <- <-; [|done].
      split; [done|]. intros v Hv. unfold registered in Hv.
      destruct (jget "model_version" (body resp)) as [[| | | | | |assigned]|] eqn:Em; try done.
      destruct (dget "version" assigned) as [ver|] eqn:Ever; [|done]. destruct (truthy ver) eqn:Et; [|done]. injection Hv as <-.
      destruct (finish_responded _ _ Ef) as (code & content & ->).
      split_and!; [done|done|]. exists code, content, resp, assigned. split_and!; try done; by rewrite Ever.
    + rewrite (bind_err _ _ _ _ _ E) in H. injection H as <- <-. by exists (Err e).
Qed.

(** An evaluation report that is read is consistent: it has at least one
    case, passes between none and all of them, and a rate that is a number
    between zero and one; whatever else is given is refused, and only a report
    at the minimum rate without a regression passes. *)
Theorem report_bounds (payload : dict string json) (r : EvaluationReport) (minimum : float) :
  parse payload = Ok r ->
  1 <= r.(total) /\ 0 <= r.(passed) <= r.(total) /\ is_nan r.(pass_rate) = false /\
  fleb (f_of_Z 0) r.(pass_rate) = true /\ fleb r.(pass_rate) (f_of_Z 1) = true /\
  (adapter_passed minimum r = true <-> fgeb r.(pass_rate) minimum = true /\ r.(regression) = false).
Proof.
  unfold parse. intros H.
  repeat match type of H with context [mbind (M := res) _ ?m] =>
    let E := fresh "E" in destruct m eqn:E; cbn [mbind res_bind] in H; [|discriminate H] end.
  injection H as <-. cbn. unfold guard_raise in E6. destruct (_ || _) eqn:Eb; [done|].
  apply orb_false_iff in Eb as [Eb Er]. apply orb_false_iff in Eb as [Et Ep]. bprop.
  split_and!; try lia; try done.
  - by apply fleb_rank in H0 as (? & _ & _).
  - unfold adapter_passed. cbn. rewrite andb_true_iff, negb_true_iff. done.
Qed.

Lemma report_bounds_witness :
  exists r, parse [("pass_rate", JFloat (fratio 96 100)); ("passed", JInt 48); ("total", JInt 50)] = Ok r /\
    r.(passed) <= r.(total) /\ adapter_passed (fratio 95 100) r = true.
Proof.
  assert (Hok : match parse [("pass_rate", JFloat (fratio 96 100)); ("passed", JInt 48); ("total", JInt 50)] with
    | Ok r => fgeb r.(pass_rate) (fratio 95 100) && negb r.(regression) | Err _ => false end = true) by (vm_compute; reflexivity).
  destruct (parse [("pass_rate", JFloat (fratio 96 100)); ("passed", JInt 48); ("total", JInt 50)]) as [r|e] eqn:E; [|discriminate Hok].
  apply andb_true_iff in Hok as [H1 H2]. apply negb_true_iff in H2.
  destruct (report_bounds _ r (fratio 95 100) E) as (_ & [_ H] & _ & _ & _ & Hp).
  exists r. split; [reflexivity|]. split; [exact H|]. apply Hp. split; [exact H1|exact H2].
Defined.

End ClientsTheorems.
