(* ===== verification/Probes.v ===== *)
(** * Probes and listings of the services

    The health endpoints and the listings that only read: what each readiness
    probe checks before it answers, and the constant documents.  A probe's
    dependency (a database connection, a file, the construction of a service) is
    its outcome; the ones over state modelled elsewhere read that state. *)

From Stdlib Require Import String ZArith Lia.
From stdpp Require Import base list strings.
From S2P Require Import Prelude PyStr PyDict PyFloat Json Security Agents Judging JudgeOps Catalog Banking.

Module Probes.

Definition status_doc (s : string) : json := JObj [("status", JStr s)].

(** [live]: the factory, agents, run, reviewer and streaming services say [ok],
    the others [alive]. *)
Definition live_ok : json := status_doc "ok".
Definition live_alive : json := status_doc "alive".

(** [FactoryStore.ready]: [SELECT 1] over the connection. *)
Definition store_ready (select_one : res Z) : res bool := let? n := select_one in Ok (n =? 1).
(** [ready] of the factory: any exception of the probe is answered 503. *)
Definition factory_ready (select_one : res Z) : res json :=
  match store_ready select_one with
  | Ok true => Ok (status_doc "ready")
  | Ok false | Err _ => http 503 "factory database unavailable"
  end.
(** [ready] of the Kubernetes agent: the service is built on first use. *)
Definition sre_ready (service : res unit) : res json :=
  match service with Ok _ => Ok (status_doc "ready") | Err _ => http 503 "dependencies are not ready" end.
(** [ready] of the run service ([store._init]) and of the reviewer
    ([service()]): their exception leaves the handler. *)
Definition ready_after (dependency : res unit) : res json := let? _ := dependency in Ok (status_doc "ready").
(** [ready] of the agent platform *)
Definition agents_ready {A} (guardrail : option A) : res json :=
  match guardrail with None => http 503 "guardrail unavailable" | Some _ => Ok (status_doc "ready") end.
(** [ready] of the streaming service: [SCENARIO_PATH.is_file()] *)
Definition streaming_ready (is_file : bool) : res json :=
  if is_file then Ok (status_doc "ready") else http 503 "scenario catalog unavailable".
(** [ready] of JudgeOps: the judges of the environment can be built. *)
Definition judgeops_ready {W} (generate : string -> Models.ModelEndpoint -> string -> string -> M W string)
    (read_fields : dict string json -> option Judging.Providers.reply_fields) (env : environ) : res json :=
  let? _ := JudgeOps.Api._judges generate read_fields env in
  Ok (JObj [("status", JStr "ready"); ("provider", JStr (getenv "JUDGE_PROVIDER" "deterministic" env))]).
(** [ready] of the banking workload *)
Definition banking_ready : json := JObj [("status", JStr "ready"); ("model_version", JStr MODEL_VERSION)].

(** [capabilities] and [components] of the factory *)
Definition capabilities_doc : json :=
  JObj [("mlops", jstrs ["training"; "evaluation"; "registry"; "release-gates"; "feature-contracts"]);
    ("llmops", jstrs ["open-weight-catalog"; "ollama"; "vllm"; "evaluation"; "routing"]);
    ("agentops", jstrs ["guardrails"; "bounded-tools"; "tracing"; "feedback"; "release-governance"]);
    ("ai_sre", jstrs ["slos"; "scorecards"; "observability"; "incident-workflow"; "verified-remediation";
                      "streaming-reliability"])].
Definition components (cat : catalog) : list json := summary cat.

(** [rubrics] of JudgeOps: each rubric with its digest. *)
Definition rubrics : json :=
  JObj [("rubrics", JArr (map (fun r => JObj (dset "digest" (JStr (Judging.Contracts.rubric_digest r)) (Judging.Contracts.rubric_json r)))
    (dvals Judging.Contracts.RUBRICS)))].
End Probes.

(** ** Lemmas *)

Module ProbesFacts.
Import Probes.

(** The guarded probes fail closed: what is not ready is answered 503. *)
Lemma guarded_probes select_one service is_file :
  (factory_ready select_one = Ok (status_doc "ready") <-> select_one = Ok 1) /\
  (forall e, factory_ready select_one = Err e -> e = HTTPExc 503 (JStr "factory database unavailable")) /\
  (sre_ready service = Ok (status_doc "ready") <-> service = Ok tt) /\
  (forall e, sre_ready service = Err e -> e = HTTPExc 503 (JStr "dependencies are not ready")) /\
  (streaming_ready is_file = Ok (status_doc "ready") <-> is_file = true).
Proof.
  unfold factory_ready, store_ready, sre_ready, streaming_ready, http.
  destruct select_one as [n|x]; cbn [mbind res_bind]; [destruct (Z.eqb_spec n 1)|];
    destruct service as [[]|y], is_file; split_and!; try split; intros; congruence.
Qed.
End ProbesFacts.
