(* ===== verification/Startup.v ===== *)
(** * How the services are put together at first use

    The objects a process builds from its environment: the cluster client, the
    Kubernetes and reviewer services behind [lru_cache], the Opik and MLX
    adapters.  What an optional library, a file or a database driver does when it
    is loaded or opened is an argument.  Calls are taken one after the other: the
    cache of a function that two threads call at once may build twice. *)

From Stdlib Require Import String ZArith Lia.
From stdpp Require Import base list strings.
From S2P Require Import Prelude PyStr PyDict Json Security Reviewer KubernetesSRE Telemetry Probes.

Module Startup.

Section cache.
Context {W A : Type}.
(** [@lru_cache] on a function of no arguments: a returned value is kept, an
    exception is not. *)
Definition lru_cached (build : M W A) : M (option A * W) A := fun s =>
  match s.1 with
  | Some a => (Ok a, s)
  | None =>
      match build s.2 with
      | (Ok a, w) => (Ok a, (Some a, w))
      | (Err e, w) => (Err e, (None, w))
      end
  end.
End cache.

Section cluster.
Context {W : Type}.
(** [OfficialKubernetesClient.__init__]: whether the library is installed, its
    two ways to load credentials, and its [ConfigException]. *)
Context (installed : bool) (load_incluster_config load_kube_config : M W unit) (ConfigException : exn -> bool).
Definition new_cluster_client : M W unit :=
  if negb installed then raise_M RuntimeError "install openmodelops-ai-platform[kubernetes-sre]"
  else fun w =>
    match load_incluster_config w with
    | (Err e, w') => if ConfigException e then load_kube_config w' else (Err e, w')
    | r => r
    end.

(** [service] of the Kubernetes agent: the client, the database (created with its
    directory and schema when it is opened), the executor and the telemetry. *)
Context (open_database : string -> M W unit) (opik : bool) (env : environ).
Record sre_service := { managed : option (list string); telemetry : option Settings.telemetry_kind }.
Definition build_sre : M W sre_service :=
  do! new_cluster_client in
  do! open_database (getenv "KUBERNETES_SRE_DB" "/data/kubernetes-sre.db" env) in
  let namespaces := Api.managed_namespaces env in
  let! t := lift_M (Settings.telemetry_from_environment opik env "openmodelops-kubernetes-sre") in
  mret_M {| managed := namespaces; telemetry := t |}.
(** [ready] of the agent: the service is built on its first use. *)
Definition sre_ready_handler : M (option sre_service * W) json := fun s =>
  let '(r, s') := lru_cached build_sre s in
  (Probes.sre_ready (match r with Ok _ => Ok tt | Err e => Err e end), s').
End cluster.

Section reviewer.
Context {W : Type}.
(** [service] of the reviewer, over [yaml.safe_load(Path(...).read_text())]. *)
Context (read_yaml : string -> M W json) (open_database : string -> M W unit) (env : environ).
Definition build_reviewer : M W (Reviewer.Config.ReviewAgentConfig * Reviewer.GitHub.GitHubReviewClient) :=
  let! payload := read_yaml (getenv "REVIEW_AGENT_CONFIG" ".beacode/beacode-config.yaml" env) in
  let! config := lift_M (Reviewer.Config.load payload) in
  do! open_database (getenv "REVIEW_AGENT_DB" "openmodelops-reviewer.db" env) in
  let! github := lift_M (Reviewer.GitHub.new_github (getenv "GITHUB_API_URL" "https://api.github.com" env)
                           (getenv "GITHUB_TOKEN" EmptyString env)) in
  mret_M (config, github).
End reviewer.

(** [OpikTelemetry.__init__]: its settings, and those of the [Telemetry] whose
    filter it borrows; [shutdown] flushes where the SDK can. *)
Definition new_opik (sdk_given installed : bool) (s : Settings.TelemetrySettings) :
    res (Settings.TelemetrySettings * Settings.TelemetrySettings) :=
  if negb sdk_given && negb installed then raise RuntimeError "install the 'observability' extra to enable Opik"
  else
  let? sanitizer := Settings.new_telemetry false
    {| Settings.service_name := s.(Settings.service_name); Settings.enabled := false;
       Settings.provider := Settings.GENERIC_OTLP; Settings.endpoint := None; Settings.headers := [];
       Settings.project_name := "openmodelops"; Settings.capture_content := false |} in
  Ok (s, sanitizer).
Definition opik_shutdown {W} (flush_tracker : option (M W unit)) : M W unit :=
  match flush_tracker with Some flush => flush | None => mret_M tt end.

(** [MLXBackend.__init__]: the model and the tokenizer of the library. *)
Definition new_mlx {W B} (installed : bool) (load : string -> M W B) (model_id : string) : M W B :=
  if negb installed then raise_M RuntimeError "MLX backend requires: pip install mlx-lm" else load model_id.

End Startup.

(** ** Lemmas *)

Module StartupFacts.
Import Startup.

Lemma cached_kept {W A} (build : M W A) a w : lru_cached build (Some a, w) = (Ok a, (Some a, w)).
Proof. done. Qed.
Lemma cached_first {W A} (build : M W A) w : lru_cached build (None, w) =
  match build w with (Ok a, w') => (Ok a, (Some a, w')) | (Err e, w') => (Err e, (None, w')) end.
Proof. unfold lru_cached. cbn. by destruct (build w) as [[a|e] w']. Qed.

(** Credentials outside a cluster are read only where the library says that the
    process is outside one. *)
Lemma cluster_client_cases {W} installed (incluster kube : M W unit) is_config w :
  new_cluster_client installed incluster kube is_config w =
  (if installed then
     match (incluster w).1 with
     | Ok _ => incluster w
     | Err e => if is_config e then kube (incluster w).2 else incluster w
     end
   else (raise RuntimeError "install openmodelops-ai-platform[kubernetes-sre]", w)).
Proof. unfold new_cluster_client. destruct installed; [|done]. cbn [negb]. by destruct (incluster w) as [[u|e] w']. Qed.

(** The filter Opik borrows never lets content through, whatever its own
    settings say, and is the one of [opik_operation]. *)
Lemma opik_redacts given installed s s' sanitizer attributes : new_opik given installed s = Ok (s', sanitizer) ->
  s' = s /\ Spans._safe_attributes sanitizer.(Settings.capture_content) attributes = Spans._safe_attributes false attributes.
Proof. unfold new_opik. destruct (negb given && negb installed); [done|]. cbn. by intros [= <- <-]. Qed.

End StartupFacts.

(** ** Properties *)

Module StartupTheorems.
Import Startup StartupFacts.

(** The readiness of the Kubernetes agent follows its service: a probe answers
    ready exactly when the service is there or can be built now; until then every
    probe is answered 503 and the next one tries again; from then on probes are
    answered without touching anything. *)
Theorem readiness_follows_service {W} installed (incluster kube : M W unit) is_config open_db opik env (w : W) :
  let ready := sre_ready_handler installed incluster kube is_config open_db opik env in
  let build := build_sre installed incluster kube is_config open_db opik env in
  match build w with
  | (Ok s, w') =>
      ready (None, w) = (Ok (Probes.status_doc "ready"), (Some s, w')) /\
      forall w2, ready (Some s, w2) = (Ok (Probes.status_doc "ready"), (Some s, w2))
  | (Err _, w') => ready (None, w) = (http 503 "dependencies are not ready", (None, w'))
  end.
Proof. cbn. unfold sre_ready_handler. rewrite cached_first. by destruct (build_sre _ _ _ _ _ _ _ w) as [[s|e] w']. Qed.

(** A service that is built may execute changes only where the environment
    enables it, and was built after its client and its database were there. *)
Theorem sre_built {W} installed (incluster kube : M W unit) is_config open_db opik env w s w' :
  build_sre installed incluster kube is_config open_db opik env w = (Ok s, w') ->
  installed = true /\ s.(managed) = Api.managed_namespaces env /\
  exists w1, new_cluster_client installed incluster kube is_config w = (Ok tt, w1) /\
    open_db (getenv "KUBERNETES_SRE_DB" "/data/kubernetes-sre.db" env) w1 = (Ok tt, w').
Proof.
  unfold build_sre, mbind_M. destruct (new_cluster_client _ _ _ _ w) as [[[]|e] w1] eqn:Ec; [|done].
  destruct (open_db _ w1) as [[[]|e] w2] eqn:Ed; [|done]. unfold lift_M, mret_M.
  destruct (Settings.telemetry_from_environment _ _ _) as [t|e]; [|done]. intros [= <- <-].
  split; [|by eauto]. rewrite cluster_client_cases in Ec. by destruct installed.
Qed.

End StartupTheorems.
